(* ===== verification/_CoqProject ===== *)
-Q . S2P
Prelude.v
RustStd.v
Text.v
Float64.v
Json.v
External.v
Reference.v
Models.v
Wire.v
WireOk.v
Error.v
Bus.v
World.v
RefEnv.v
Repository.v
RepositoryOk.v
Samples.v
Recorder.v
Frame.v
Invariant.v
Scheduler.v
SchedulerOk.v
Lease.v
Controller.v
RepositoryProps.v
ControllerOk.v
ControllerSets.v
ControllerPods.v
Replication.v
ReplicationOk.v
Ipam.v
Runtime.v
ContainerLogs.v
Mock.v
Files.v
Process.v
Image.v
Bundle.v
Network.v
Embedded.v
Wasm.v
NodeSamples.v
EmbeddedOk.v
Docker.v
RuntimeOk.v
Agent.v
AgentHttp.v
ExecOk.v
Proxy.v
UrlForm.v
AgentSamples.v
AgentOk.v
ProxyOk.v
Printers.v
Routes.v
Relay.v
Api.v
ApiOk.v
Replies.v
Serve.v
ServeOk.v
AgentServe.v
Startup.v
Server.v
NodeFrame.v
Reachable.v
Connected.v
ClusterOk.v
ConnectedOk.v
ConnectedRun.v
LogsOk.v
