(* ===== verification/Prelude.v ===== *)
(** * Superkube, verified

    Superkube is a small Kubernetes: one binary whose API server keeps the
    cluster's objects in SQLite or Postgres, schedules pods and runs the
    controllers, and whose node agent runs the pods of one machine.  This
    development models its Rust code (the sources are under [src/src/]) as
    executable functions and proves what makes each part correct.  It needs
    the standard library and stdpp.

    ** How the parts fit together

    A client talks to the handlers ([server/api.rs]) through the router
    ([server/routes.rs]).  A handler calls the repositories
    ([db/repository.rs]), publishes what it changed on the bus
    ([server/bus.rs]) and answers with an object, a list, a table or a stream
    of watch events ([server/table.rs]).  The scheduler and the controllers
    ([server/scheduler.rs], [server/controller.rs]) are loops over the same
    repositories; with several servers on one Postgres database, leases
    ([db/lease.rs]) decide who runs them and the change log
    ([db/change_log.rs], [server/mod.rs]) carries the events across.  On a
    node, the agent ([node/agent.rs]) asks the server for the pods bound to it,
    starts their containers through an engine ([node/runtime/]), reports what
    it sees, and answers the server's calls for logs, exec and port-forward;
    the proxy ([node/proxy.rs]) opens the node ports of the services.

    ** Which file models which part

    Foundations: this file (results, the state and error monad [ST], loops,
    Hoare triples, lists and maps); [RustStd] (machine integers, [str]);
    [Text] (UTF-8, lines); [Float64] ([f64], bit by bit); [Json]
    ([serde_json::Value], the class [Json] of the derived serialisers and its
    law [JsonOk]); [External] (the crates chrono, uuid and serde_json, as the
    class [Extern]); [Reference] (an instance for which their laws hold).

    Data and storage: [Models] ([models/*.rs], a record or inductive type per
    struct or enum), [Wire] and [WireOk] (their JSON), [Error] ([error.rs]),
    [Bus] ([server/bus.rs]), [World] (the tables of [migrations/] as finite
    maps, SQL statements, and the state [World] every [async fn] of the server
    works on), [RefEnv] (an environment to evaluate on), [Repository]
    ([db/repository.rs]: [PodRepository::create] is [PodRepository_create], and
    so on), [RepositoryOk] (the interface [Repo] with its laws [RepoOk]),
    [RepositoryProps], [Samples], [Frame] (what a computation leaves alone),
    [Invariant] (what every table keeps true, and that every function of the
    repositories keeps it).

    Control plane: [Recorder] (events about objects), [Scheduler] and
    [SchedulerOk], [Lease], [Controller] with [ControllerOk], [ControllerSets]
    and [ControllerPods], [Replication] and [ReplicationOk] (bus, change log,
    listener, pruner, watch streams), [Api] and [ApiOk] (handlers), [Relay]
    (logs, exec and port-forward of the server), [Printers] and [Replies]
    (tables, bodies), [Routes] (router, discovery documents), [Serve] and
    [ServeOk] (a request from its path to its reply: the handler of a route,
    its extractors, the middleware), [Startup], [Server] (the commands of
    [main.rs], the process [server/mod.rs] starts, the rounds of its tasks and
    the database under any number of such processes), [NodeFrame] (who writes
    the table of nodes), [Reachable] (the invariant of the database).

    Node: [Ipam] ([network/ipam.rs]), [Runtime] ([runtime/mod.rs]),
    [ContainerLogs], [Process] and [Embedded] ([runtime/embedded.rs]: logs;
    processes, descriptors and streams; the engine), [Mock], [Docker], [Wasm]
    (the other engines), [Files] ([std::path], [std::fs]), [Image] and
    [Bundle] ([oci/]), [Network] ([network/bridge.rs], [veth.rs],
    [iptables.rs]), [Agent], [AgentHttp] and [AgentServe] ([agent.rs]: the
    passes, the handlers, the HTTP server), [Proxy] ([proxy.rs]); [UrlForm] is a form-urlencoded reference; [NodeSamples] and
    [AgentSamples] are a machine to evaluate them on; [EmbeddedOk],
    [RuntimeOk], [AgentOk], [ExecOk] and [ProxyOk] hold the theorems.

    Together: [ClusterOk] compares the paths and queries of the server and its
    nodes; [Connected] runs an agent whose HTTP client is the server itself, on
    one shared world; [ConnectedOk] has its theorems and [ConnectedRun] its
    witnesses, with a deployment taken from its creation to a running pod;
    [LogsOk] follows [kubectl logs] from the client to the container.

    A definition has the name of the function it translates, prefixed by the
    type where two would collide; parts of a long function are named by what
    they do.  A record's fields carry a short prefix.

    ** How code is modelled

    An [async fn] is a function from the state to a [result] and the next
    state, in the monad [ST]: a change made before an error stays made, as it
    does when the code leaves with [?].  A panic is the failure [Panicked] on
    the node, [None] in [Ipam].  Integers are [Z] in the range of their type
    with Rust's wrap-around on [as]; strings are their bytes; [HashMap]s are
    finite maps, and where the code iterates over one, the order is the
    parameter [HashOrder].

    Outside code is a parameter, a class whose fields are the functions called,
    with what is relied on as a second class of laws: [Extern] (formats of
    times, identifiers, JSON), [Env] (clock, fresh identifiers, failing
    statements, ties of [ORDER BY]), [Machine], [Files], [Netlink],
    [LinuxHost], [Registry], [OciCrates], [SpecText], [Bollard], [WasmHost],
    [HttpClient], [Commands], [Sockets], [UrlEncoded] and [UrlEncode],
    [Unicode], [Target] (what the compiler fixes), [Posix] and [ErrnoText]
    (system calls on descriptors), [Axum] (extractors of a request),
    [Hosting] (the pool, the runner of the migrations, the listening socket),
    [Transport] (what reqwest makes of a request and a reply), [SeedsOk] (the
    times and ids of the seeded namespaces parse).  Every law is shown to be
    satisfiable by an instance, on which the witnesses run.

    Atomicity: one SQL statement is one step.  A handler or a pass runs from
    its first statement to its last; where the code is about several
    processes or tasks, they are interleaved by a step relation: [lease_step]
    (calls of many processes on one lease), [cluster_step] (servers, their
    replication tasks, listeners and pruners), [ipam_step], [embedded_step]
    (the methods of the engine, detached teardowns, exits of processes, output
    of containers), [guarded_step] (the process of an exec, its reaper, the
    guard that kills it and the kernel's pids), [database_step] (any activity
    of any server process).  A session over a websocket ([exec_session],
    [pf_session], [relay]) or a connection of the proxy ([pipe_conn]) is a
    machine that is given the events of both directions in any order.
    Descriptors are owned explicitly: [owned] closes one where the code leaves
    with [?], [giving] hands one over.

    Fuel: [walk] (the search for a module in an image) has as fuel the longest
    path the kernel opens, and [walk_terminates] shows that it is enough;
    [drain_lines] (the pump of a log) has the length of its buffer, and is
    proved equal to the split of the whole output; the loops that strip or
    split text ([strip_all], [words_l], [trim_start_matches_l]) have the length
    of the text, of which each round takes at least one byte, and
    [lower_hex_l] has the 32 digits of a [u128].  The other recursions are
    structural.  The endless loops are modelled by one round
    ([scheduler_tick], [controller_tick], [pruner_tick], [listen], [on_tick],
    [proxy_tick]); [pty_output] has as fuel the number of polls, each of which
    uses one up ([clean_pty_output]).

    ** What is proved

    - Scheduler: the chosen node is the best feasible one, a pass never
      overcommits a node, a binding is written and announced, quantities are
      parsed exactly.
    - Controllers: a deployment ends a pass with the number of pods it asks
      for, from above and from below; a stateful set goes in order; a daemon
      set covers exactly its nodes; lost and failed pods; endpoints of
      services.
    - Storage: every repository refines a finite map of objects; objects
      survive the database and the wire; the guards of namespace deletion;
      whatever any number of server processes do from the migrated database
      on, every stored row still reads back as an object.
    - Several servers: at most one holder of a lease; events replicated to
      every server once, none made up.
    - Requests: every handler named by a route is there, every request gets
      one reply, of the status that its error stands for.
    - Handlers and watches: a client that lists and then follows the events
      holds what the database holds; a stream carries exactly what was asked
      for; every table is well typed; every route is reached by the paths
      written for it; the discovery documents against the routes; cascading
      deletion.
    - Engines: no two containers share an address, whatever is interleaved;
      the id of a container leads back to its engine; logs are complete and
      in order, with the options applied, and a follower neither loses nor
      doubles a line at its start; the environment of a container; the bridge
      of two pods that share a veth name; an exec leaks no descriptor and a
      session that was hung up leaves no process running; the ring buffer of a
      module keeps its last bytes.
    - Node: a pass reports exactly what the engines said and the sweep removes
      exactly the containers of undesired pods; an exec session brings the
      client what the process wrote, the process what the client sent, and one
      status, that of its exit; the proxy listens on the wanted ports and sends
      a connection to a pod it can reach.
    - Composition: the paths written by the agent, the proxy and the server's
      relays are routes of their peers, and the command of an exec reaches the
      process word by word; a heartbeat makes the node ready in the store, a
      pass of the agent brings the statuses of its pods to the store; a node
      that stops reporting stays ready, whatever the controllers do.

    Theorems whose number is not given are further facts about the same code,
    some of them about code that does not do what it means to.

    ** What is not modelled

    - The reading of the arguments by clap (its options and defaults are
      [command_of]), tracing, the connection pool, the text of the migrations
      apart from the rows they seed, HTTP framing and headers: calls of crates
      with nothing decided in between.
    - libcontainer, wasmtime, Docker, the registry client, tar and gzip:
      parameters.  A module's instance reads and writes its streams through
      wasmtime's adapters; the buffers and the tee they end in are modelled.
    - The order of the members of a JSON object, which nothing under [src/]
      looks at, and indexes of the database, which change no result.
    - Failing allocations, and arithmetic of lengths beyond 64 bits. *)
From Stdlib Require Export Ascii ZArith Lia.
From stdpp Require Export base tactics option list gmap strings sorting
  proof_irrel countable pretty.
Export list_basics.list list_relations.list list_monad.list list_misc.list.

#[global] Set Default Goal Selector "!".

(** ** Results: Rust's [std::result::Result]. *)
Inductive result (E A : Type) : Type :=
| Ok (a : A)
| Err (e : E).
Arguments Ok {E A} a.
Arguments Err {E A} e.

Definition is_ok {E A} (r : result E A) : bool :=
  match r with Ok _ => true | Err _ => false end.

(** [Result::ok]. *)
Definition result_ok {E A} (r : result E A) : option A :=
  match r with Ok a => Some a | Err _ => None end.

Definition map_err {E F A} (f : E → F) (r : result E A) : result F A :=
  match r with Ok a => Ok a | Err e => Err (f e) end.

#[export] Instance result_ret E : MRet (result E) := λ A a, Ok a.
#[export] Instance result_bind E : MBind (result E) :=
  λ A B f r, match r with Ok a => f a | Err e => Err e end.
#[export] Instance result_fmap E : FMap (result E) :=
  λ A B f r, match r with Ok a => Ok (f a) | Err e => Err e end.

(** ** State and errors: the shape of every [async fn] that talks to the
    database.  A computation reads and changes a state [S] and returns a
    [result]; the state changes made before an error are kept, as they are
    when a Rust function returns early with [?]. *)
Definition ST (S E A : Type) : Type := S → result E A * S.

Section state_monad.
Context {S E : Type}.

#[export] Instance st_ret : MRet (ST S E) := λ A a s, (Ok a, s).
#[export] Instance st_bind : MBind (ST S E) := λ A B f m s,
  match m s with
  | (Ok a, s') => f a s'
  | (Err e, s') => (Err e, s')
  end.
#[export] Instance st_fmap : FMap (ST S E) := λ A B f m, m ≫= (λ a, mret (f a)).

Definition throw {A} (e : E) : ST S E A := λ s, (Err e, s).

Definition of_result {A} (r : result E A) : ST S E A := λ s, (r, s).

Definition get_st : ST S E S := λ s, (Ok s, s).

Definition modify_st (f : S → S) : ST S E () := λ s, (Ok (), f s).

(** [match m.await { Ok(..) => .., Err(..) => .. }]: run [m] and go on with
    its result whatever it is; this is also [let _ = m.await]. *)
Definition attempt {F A} (m : ST S F A) : ST S E (result F A) :=
  λ s, let '(r, s') := m s in (Ok r, s').

(** [for x in xs { body }] with early return through [?]. *)
Fixpoint for_each {A} (xs : list A) (body : A → ST S E ()) : ST S E () :=
  match xs with
  | [] => mret ()
  | x :: xs => body x ;; for_each xs body
  end.

(** [for x in xs { .. }] over mutable locals [a], with [break] as [inr]. *)
Fixpoint for_break {A B} (xs : list A) (acc : B) (body : B → A → ST S E (B + B))
    : ST S E B :=
  match xs with
  | [] => mret acc
  | x :: xs =>
      r ← body acc x;
      match r with
      | inl acc' => for_break xs acc' body
      | inr acc' => mret acc'
      end
  end.
End state_monad.

(** [?] on a value whose error type converts to the function's. *)
Definition lift_err {S E F A} (f : E → F) (m : ST S E A) : ST S F A :=
  λ s, let '(r, s') := m s in (map_err f r, s').

(** ** Running sequenced computations *)

Lemma bind_ok {S E A B} (m : ST S E A) (f : A → ST S E B) s a s' :
  m s = (Ok a, s') → (m ≫= f) s = f a s'.
Proof. intros Hm. unfold mbind, st_bind. by rewrite Hm. Qed.

Lemma bind_run {S E A B} (m : ST S E A) (f : A → ST S E B) s a s' r :
  m s = (Ok a, s') → f a s' = r → (m ≫= f) s = r.
Proof. intros Hm <-. by apply bind_ok. Qed.

Lemma bind_err {S E A B} (m : ST S E A) (f : A → ST S E B) s e s' :
  m s = (Err e, s') → (m ≫= f) s = (Err e, s').
Proof. intros Hm. unfold mbind, st_bind. by rewrite Hm. Qed.

Lemma lift_err_Ok {S E F A} (f : E → F) (m : ST S E A) s a s' :
  lift_err f m s = (Ok a, s') → m s = (Ok a, s').
Proof. unfold lift_err. destruct (m s) as [[?|?] ?]; simpl; congruence. Qed.

Lemma bind_Ok {S E A B} (m : ST S E A) (f : A → ST S E B) s b s' :
  (m ≫= f) s = (Ok b, s') → ∃ a s1, m s = (Ok a, s1) ∧ f a s1 = (Ok b, s').
Proof. unfold mbind, st_bind. destruct (m s) as [[?|?] ?]; naive_solver. Qed.

Lemma bind_Err {S E A B} (m : ST S E A) (f : A → ST S E B) s e s' :
  (m ≫= f) s = (Err e, s') →
  m s = (Err e, s') ∨ ∃ a s1, m s = (Ok a, s1) ∧ f a s1 = (Err e, s').
Proof. unfold mbind, st_bind. destruct (m s) as [[?|?] ?]; naive_solver. Qed.

(** The steps of a computation that returned. *)
Ltac bind_inv H :=
  repeat (let Hm := fresh "Hm" in apply bind_Ok in H as (? & ? & Hm & H)).

(** ** Invariants of computations

    [keeps I m]: whatever [m] returns, it leaves the state in [I] if it found
    it there. *)
Definition keeps {S E A} (I : S → Prop) (m : ST S E A) : Prop := ∀ s, I s → I (m s).2.

Create HintDb keeps.

Section keeps.
Context {S E : Type} (I : S → Prop).

Lemma keeps_ret {A} (a : A) : keeps (E:=E) I (mret a).
Proof. by intros s. Qed.
Lemma keeps_throw {A} e : keeps (E:=E) I (throw (A:=A) e).
Proof. by intros s. Qed.
Lemma keeps_of_result {A} r : keeps (E:=E) I (of_result (A:=A) r).
Proof. by intros s. Qed.
Lemma keeps_bind {A B} (m : ST S E A) (f : A → ST S E B) :
  keeps I m → (∀ a, keeps I (f a)) → keeps I (m ≫= f).
Proof.
  intros Hm Hf s Hs. specialize (Hm s Hs). unfold mbind, st_bind.
  destruct (m s) as [[a|e] s1]; simpl in *; [by apply Hf|done].
Qed.
Lemma keeps_for_each {A} (xs : list A) (body : A → ST S E ()) :
  (∀ x, keeps I (body x)) → keeps I (for_each xs body).
Proof.
  intros Hb. induction xs as [|x xs IH]; [apply keeps_ret|]. by apply keeps_bind.
Qed.
End keeps.

Lemma keeps_attempt {S E F} (I : S → Prop) {A} (m : ST S F A) :
  keeps I m → keeps (E:=E) I (attempt m).
Proof. intros Hm s Hs. specialize (Hm s Hs). unfold attempt. by destruct (m s). Qed.
Lemma keeps_lift_err {S E F} (I : S → Prop) (f : E → F) {A} (m : ST S E A) :
  keeps I m → keeps I (lift_err f m).
Proof. intros Hm s Hs. specialize (Hm s Hs). unfold lift_err. by destruct (m s). Qed.

(** Follow the structure of a computation; its primitive steps are in the
    hint database. *)
Ltac keeps_step :=
  match goal with
  | |- keeps _ (mret _) => apply keeps_ret
  | |- keeps _ (throw _) => apply keeps_throw
  | |- keeps _ (of_result _) => apply keeps_of_result
  | |- keeps _ (mbind _ _) => apply keeps_bind; [|intros ?]
  | |- keeps _ (for_each _ _) => apply keeps_for_each; intros ?
  | |- keeps _ (attempt _) => apply keeps_attempt
  | |- keeps _ (lift_err _ _) => apply keeps_lift_err
  | |- keeps _ (match ?x with _ => _ end) => destruct x
  | |- _ => solve [auto with keeps]
  end.
Ltac keeps := repeat keeps_step.

(** Pre- and postconditions: from a state in [P], a result [a] comes with a
    state in [Q a], an error with one in [R]. *)
Definition triple {S E A} (P : S → Prop) (m : ST S E A) (Q : A → S → Prop) (R : S → Prop) : Prop :=
  ∀ s, P s → match m s with (Ok a, s') => Q a s' | (Err _, s') => R s' end.

Section triples.
Context {S E : Type}.

Lemma triple_ret {A} (P R : S → Prop) (a : A) (Q : A → S → Prop) :
  (∀ s, P s → Q a s) → triple (E:=E) P (mret a) Q R.
Proof. intros HQ s Hs. by apply HQ. Qed.
Lemma triple_throw {A} (P R : S → Prop) (e : E) (Q : A → S → Prop) :
  (∀ s, P s → R s) → triple P (throw e) Q R.
Proof. intros HR s Hs. by apply HR. Qed.
Lemma triple_bind {A B} (P R : S → Prop) (m : ST S E A) (f : A → ST S E B) Q Q' :
  triple P m Q R → (∀ a, triple (Q a) (f a) Q' R) → triple P (m ≫= f) Q' R.
Proof.
  intros Hm Hf s Hs. specialize (Hm s Hs). unfold mbind, st_bind.
  destruct (m s) as [[a|e] s1]; [by apply Hf|done].
Qed.
Lemma triple_conseq {A} (P P' R R' : S → Prop) (m : ST S E A) (Q Q' : A → S → Prop) :
  triple P m Q R → (∀ s, P' s → P s) → (∀ a s, Q a s → Q' a s) → (∀ s, R s → R' s) →
  triple P' m Q' R'.
Proof.
  intros Hm HP HQ HR s Hs. specialize (Hm s (HP s Hs)). destruct (m s) as [[a|e] s']; auto.
Qed.
Lemma triple_pre_and {A} (X : Prop) (P R : S → Prop) (m : ST S E A) Q :
  (X → triple P m Q R) → triple (λ s, X ∧ P s) m Q R.
Proof. intros Hm s [HX Hs]. by apply (Hm HX). Qed.
Lemma triple_state {A} (P R : S → Prop) (m : ST S E A) Q :
  (∀ s, P s → triple (λ s', s' = s) m Q R) → triple P m Q R.
Proof. intros Hm s Hs. by apply (Hm s Hs). Qed.
Lemma triple_keeps {A} (I : S → Prop) (m : ST S E A) :
  triple I m (λ _, I) I ↔ keeps I m.
Proof.
  split; intros Hm s Hs; specialize (Hm s Hs); by destruct (m s) as [[a|e] s'].
Qed.
End triples.

(** ** Lists *)

Lemma filter_of_fmap {A B} (f : A → B) (P : B → Prop) `{!∀ y, Decision (P y)} (l : list A) :
  filter P (f <$> l) = f <$> filter (λ x, P (f x)) l.
Proof.
  induction l as [|x l IH]; [done|]. csimpl. rewrite !filter_cons.
  destruct (decide (P (f x))); csimpl; by rewrite IH.
Qed.

Lemma filter_always {A} (P : A → Prop) `{!∀ x, Decision (P x)} (l : list A) :
  (∀ x, P x) → filter P l = l.
Proof.
  intros HP. induction l as [|x l IH]; [done|]. by rewrite filter_cons_True, IH.
Qed.

Lemma StronglySorted_weaken {A} (R R' : relation A) l :
  (∀ a b, R a b → R' a b) → StronglySorted R l → StronglySorted R' l.
Proof. induction 2; constructor; [done|]. eauto using Forall_impl. Qed.

(** Cutting a filtered list at one of its elements cuts the list there. *)
Lemma filter_cut {A} (P : A → Prop) `{!∀ x, Decision (P x)} (l l1 l2 : list A) x :
  filter P l = l1 ++ x :: l2 →
  ∃ k1 k2, l = k1 ++ x :: k2 ∧ filter P k1 = l1 ∧ filter P k2 = l2 ∧ P x.
Proof.
  revert l1. induction l as [|y l IH]; intros l1 E; [by destruct l1|].
  rewrite filter_cons in E. destruct (decide (P y)) as [Hy|Hy].
  - destruct l1 as [|z l1]; injection E as -> E; [by exists [], l|].
    destruct (IH l1 E) as (k1 & k2 & -> & <- & <- & Hx).
    exists (z :: k1), k2. by rewrite filter_cons_True.
  - destruct (IH l1 E) as (k1 & k2 & -> & <- & <- & Hx).
    exists (y :: k1), k2. by rewrite filter_cons_False.
Qed.

(** A loop that deletes a key at every step. *)
Lemma foldl_delete_lookup {S O K V} `{Countable K} (f : S → gmap K V) (step : S → O → S)
    (key : O → K) (os : list O) (s : S) (k : K) :
  (∀ o s, f (step s o) = delete (key o) (f s)) →
  f (foldl step s os) !! k = if decide (k ∈ key <$> os) then None else f s !! k.
Proof.
  intros Hstep. revert s. induction os as [|o os IH]; intros s; [done|].
  rewrite fmap_cons. cbn [foldl]. rewrite IH, Hstep. destruct (decide (k = key o)) as [->|Hk].
  - rewrite lookup_delete_eq, (decide_True (P:=key o ∈ key o :: _)) by by left.
    by destruct (decide _).
  - rewrite lookup_delete_ne by done.
    destruct (decide (k ∈ key <$> os)) as [Hin|Hin].
    + by rewrite decide_True by by right.
    + rewrite decide_False; [done|]. by rewrite not_elem_of_cons.
Qed.
