(* ===== verification/RustStd.v ===== *)
(** * What the code uses of Rust's standard library

    Machine integers as bounded [Z]s with Rust's [as] casts, checked parsing
    and saturating addition; byte strings with [str::trim], [split],
    [splitn], [strip_prefix], [strip_suffix] and [str::parse].  A Rust
    [String] is its UTF-8 bytes. *)
From S2P Require Import Prelude.

Local Open Scope Z_scope.

(** ** Machine integers *)

(** The values of an integer type with range [[lo, hi)]. *)
Record bounded (lo hi : Z) : Type := Bnd {
  val : Z;
  val_ok : (lo <=? val) && (val <? hi) = true;
}.
Arguments Bnd {lo hi} val val_ok : rename.
Arguments val {lo hi} b : rename.

(** [x as T]: the representative of [x] modulo the size of the range. *)
Definition wrap (lo hi z : Z) : Z := lo + (z - lo) `mod` (hi - lo).

Lemma wrap_range lo hi z :
  lo < hi → (lo <=? wrap lo hi z) && (wrap lo hi z <? hi) = true.
Proof.
  intros ?. unfold wrap. pose proof (Z.mod_pos_bound (z - lo) (hi - lo)).
  apply andb_true_intro. rewrite Z.leb_le, Z.ltb_lt. lia.
Qed.

Lemma wrap_id lo hi z : lo <= z < hi → wrap lo hi z = z.
Proof. intros ?. unfold wrap. rewrite Z.mod_small; lia. Qed.

Lemma val_range {lo hi} (x : bounded lo hi) : lo <= val x < hi.
Proof.
  destruct x as [z H]; simpl. apply andb_prop in H as [H1 H2].
  rewrite Z.leb_le in H1. rewrite Z.ltb_lt in H2. lia.
Qed.

Lemma val_inj {lo hi} (x y : bounded lo hi) : val x = val y → x = y.
Proof.
  destruct x as [a Ha], y as [b Hb]; simpl; intros <-.
  f_equal. apply proof_irrel.
Qed.

#[export] Instance bounded_eq_dec lo hi : EqDecision (bounded lo hi).
Proof.
  refine (λ x y, cast_if (decide (val x = val y))).
  - abstract (by apply val_inj).
  - abstract (congruence).
Defined.

(** The range test as a proof that computes to [eq_refl] on numerals. *)
Definition in_range (lo hi z : Z) :
    option ((lo <=? z) && (z <? hi) = true) :=
  (if (lo <=? z) && (z <? hi) as b return option (b = true)
   then Some eq_refl else None).

(** [TryFrom]: the number if it is in range. *)
Definition checked {lo hi} (z : Z) : option (bounded lo hi) :=
  match in_range lo hi z with Some p => Some (Bnd z p) | None => None end.

Lemma in_range_Some lo hi z (H : (lo <=? z) && (z <? hi) = true) :
  in_range lo hi z = Some H.
Proof.
  unfold in_range. destruct ((lo <=? z) && (z <? hi)); [|discriminate].
  f_equal. apply proof_irrel.
Qed.

Lemma checked_val {lo hi} (x : bounded lo hi) : checked (val x) = Some x.
Proof.
  destruct x as [z H]. unfold checked. simpl. by rewrite (in_range_Some _ _ _ H).
Qed.

Lemma checked_Some {lo hi} z (x : bounded lo hi) : checked z = Some x → val x = z.
Proof. unfold checked. destruct (in_range lo hi z); naive_solver. Qed.

Lemma checked_None {lo hi} z :
  @checked lo hi z = None ↔ ¬ (lo <= z < hi).
Proof.
  split.
  - intros H ?. assert (E : (lo <=? z) && (z <? hi) = true).
    { apply andb_true_intro. rewrite Z.leb_le, Z.ltb_lt. lia. }
    pose proof (checked_val (Bnd z E)) as H'. simpl in H'. congruence.
  - intros H. destruct (checked z) as [x|] eqn:E; [|done].
    apply checked_Some in E. pose proof (val_range x). subst. lia.
Qed.

#[export] Instance bounded_countable lo hi : Countable (bounded lo hi) :=
  inj_countable val checked checked_val.

Definition i32 := bounded (-2147483648) 2147483648.
Definition i64 := bounded (-9223372036854775808) 9223372036854775808.
Definition u8 := bounded 0 256.
Definition u16 := bounded 0 65536.
Definition u32 := bounded 0 4294967296.

Definition i32_zero : i32 := @Bnd (-2147483648) 2147483648 0 eq_refl.

(** [z as i32] and [z as u8]; the default is never taken, [wrap] is in range. *)
Definition as_i32 (z : Z) : i32 :=
  default (@Bnd (-2147483648) 2147483648 0 eq_refl)
    (checked (wrap (-2147483648) 2147483648 z)).
Definition as_u8 (z : Z) : u8 :=
  default (@Bnd 0 256 0 eq_refl) (checked (wrap 0 256 z)).

Lemma val_as_i32 z : val (as_i32 z) = wrap (-2147483648) 2147483648 z.
Proof.
  unfold as_i32. pose proof (wrap_range (-2147483648) 2147483648 z) as H.
  specialize (H ltac:(lia)).
  pose proof (checked_val (Bnd _ H)) as E. simpl in E. by rewrite E.
Qed.

Lemma as_i32_small z : -2147483648 <= z < 2147483648 → val (as_i32 z) = z.
Proof. intros. rewrite val_as_i32. by apply wrap_id. Qed.

Lemma as_i32_val (x : i32) : as_i32 (val x) = x.
Proof. apply val_inj. rewrite as_i32_small; [done|apply val_range]. Qed.

Lemma val_as_u8 z : val (as_u8 z) = wrap 0 256 z.
Proof.
  unfold as_u8. pose proof (wrap_range 0 256 z ltac:(lia)) as H.
  pose proof (checked_val (Bnd _ H)) as E. simpl in E. by rewrite E.
Qed.

(** [u64] quantities stay plain [Z]s: [u64::MAX] and [saturating_add]. *)
Definition u64_max : Z := 18446744073709551615.
Definition is_u64 (z : Z) : Prop := 0 <= z <= u64_max.
Definition saturating_add (a b : Z) : Z := Z.min (a + b) u64_max.

Lemma saturating_add_u64 a b : is_u64 a → is_u64 b → is_u64 (saturating_add a b).
Proof. unfold is_u64, saturating_add, u64_max. lia. Qed.

Lemma saturating_add_le a b c : saturating_add a b <= c → c < u64_max → a + b <= c.
Proof. unfold saturating_add. lia. Qed.

(** ** Strings *)

Fixpoint str_eqb (a b : string) : bool :=
  match a, b with
  | EmptyString, EmptyString => true
  | String x a, String y b => Ascii.eqb x y && str_eqb a b
  | _, _ => false
  end.

Lemma str_eqb_spec a b : str_eqb a b = true ↔ a = b.
Proof.
  revert b. induction a as [|x a IH]; intros [|y b]; simpl; try (split; congruence).
  rewrite andb_true_iff, IH, Ascii.eqb_eq. split; [intros []|intros [=]]; by subst.
Qed.

Lemma str_eqb_refl a : str_eqb a a = true.
Proof. by apply str_eqb_spec. Qed.

Lemma str_eqb_neq a b : a ≠ b → str_eqb a b = false.
Proof. intros H. destruct (str_eqb a b) eqn:E; [|done]. by apply str_eqb_spec in E. Qed.

Lemma str_eqb_reflect a b : reflect (a = b) (str_eqb a b).
Proof. apply iff_reflect. by rewrite str_eqb_spec. Qed.

(** The bytes of a string; [split] and the trims work on them. *)
Fixpoint bytes (s : string) : list ascii :=
  match s with EmptyString => [] | String c s => c :: bytes s end.

Fixpoint of_bytes (l : list ascii) : string :=
  match l with [] => EmptyString | c :: l => String c (of_bytes l) end.

Lemma of_bytes_bytes s : of_bytes (bytes s) = s.
Proof. induction s; simpl; congruence. Qed.

Lemma bytes_of_bytes l : bytes (of_bytes l) = l.
Proof. induction l; simpl; congruence. Qed.

Lemma bytes_app a b : bytes (a +:+ b) = bytes a ++ bytes b.
Proof. induction a as [|c a IH]; simpl; [done|]. by rewrite IH. Qed.

(** [str::strip_prefix] on bytes. *)
Fixpoint strip_prefix_l (p l : list ascii) : option (list ascii) :=
  match p, l with
  | [], _ => Some l
  | x :: p, y :: l => if Ascii.eqb x y then strip_prefix_l p l else None
  | _ :: _, [] => None
  end.

Definition strip_prefix (p s : string) : option string :=
  of_bytes <$> strip_prefix_l (bytes p) (bytes s).

Definition strip_suffix (p s : string) : option string :=
  (of_bytes ∘ reverse) <$> strip_prefix_l (reverse (bytes p)) (reverse (bytes s)).

Definition starts_with (p s : string) : bool :=
  match strip_prefix p s with Some _ => true | None => false end.

Lemma strip_prefix_l_app p l : strip_prefix_l p (p ++ l) = Some l.
Proof. induction p as [|x p IH]; simpl; [done|]. by rewrite Ascii.eqb_refl. Qed.

Lemma strip_prefix_l_Some p l l' : strip_prefix_l p l = Some l' ↔ l = p ++ l'.
Proof.
  split; [|intros ->; apply strip_prefix_l_app].
  revert l. induction p as [|x p IH]; intros [|y l]; simpl; try congruence.
  destruct (Ascii.eqb_spec x y) as [->|]; [|done]. intros ->%IH. done.
Qed.

Lemma strip_suffix_app p s : strip_suffix p (s +:+ p) = Some s.
Proof.
  unfold strip_suffix. rewrite bytes_app, reverse_app, strip_prefix_l_app. simpl.
  by rewrite reverse_involutive, of_bytes_bytes.
Qed.

(** The UTF-8 encodings of the characters with Unicode's [White_Space]
    property, which [str::trim] removes at both ends. *)
Definition whitespace : list (list ascii) :=
  let b (n : nat) := ascii_of_nat n in
  map (λ n, [b n]) [9; 10; 11; 12; 13; 32]%nat ++
  [[b 194; b 133]; [b 194; b 160]; [b 225; b 154; b 128]]%nat ++
  map (λ n, [b 226; b 128; b n]%nat) [128; 129; 130; 131; 132; 133; 134; 135; 136; 137; 138; 168; 169; 175]%nat ++
  [[b 226; b 129; b 159]; [b 227; b 128; b 128]]%nat.

Definition strip_one (seps : list (list ascii)) (l : list ascii) : option (list ascii) :=
  head (omap (λ p, strip_prefix_l p l) seps).

(** Strip as long as something can be stripped; [fuel] is the length. *)
Fixpoint strip_all (fuel : nat) (seps : list (list ascii)) (l : list ascii) : list ascii :=
  match fuel with
  | O => l
  | S n => match strip_one seps l with Some l' => strip_all n seps l' | None => l end
  end.

Definition trim_start_l (l : list ascii) : list ascii :=
  strip_all (length l) whitespace l.
Definition trim_end_l (l : list ascii) : list ascii :=
  reverse (strip_all (length l) (map reverse whitespace) (reverse l)).

Definition trim (s : string) : string := of_bytes (trim_end_l (trim_start_l (bytes s))).

(** [str::split] on one character: never empty. *)
Fixpoint split_l (sep : ascii) (l : list ascii) : list (list ascii) :=
  match l with
  | [] => [[]]
  | c :: l =>
      if Ascii.eqb c sep then [] :: split_l sep l
      else match split_l sep l with
           | [] => [[c]]
           | w :: ws => (c :: w) :: ws
           end
  end.

Definition split (sep : ascii) (s : string) : list string :=
  of_bytes <$> split_l sep (bytes s).

(** [s.splitn(2, sep)]: the part before the first separator and the rest. *)
Fixpoint splitn2_l (sep : ascii) (l : list ascii) : list ascii * option (list ascii) :=
  match l with
  | [] => ([], None)
  | c :: l =>
      if Ascii.eqb c sep then ([], Some l)
      else let '(a, b) := splitn2_l sep l in (c :: a, b)
  end.

Definition splitn2 (sep : ascii) (s : string) : string * option string :=
  let '(a, b) := splitn2_l sep (bytes s) in (of_bytes a, of_bytes <$> b).

(** [to_ascii_lowercase]. *)
Definition ascii_lower (c : ascii) : ascii :=
  let n := nat_of_ascii c in
  if (65 <=? n)%nat && (n <=? 90)%nat then ascii_of_nat (n + 32) else c.
Definition to_ascii_lowercase (s : string) : string :=
  of_bytes (ascii_lower <$> bytes s).

(** ** Decimal numbers *)

Definition digit (c : ascii) : option Z :=
  let n := Z.of_nat (nat_of_ascii c) in
  if (48 <=? n) && (n <=? 57) then Some (n - 48) else None.

(** The value of a run of digits on top of [acc]; [None] at a non-digit. *)
Fixpoint digits_value (acc : Z) (l : list ascii) : option Z :=
  match l with
  | [] => Some acc
  | c :: l => match digit c with
              | Some d => digits_value (10 * acc + d) l
              | None => None
              end
  end.

(** [str::parse] for the unsigned types: an optional [+], then digits. *)
Definition parse_unsigned (max : Z) (s : string) : option Z :=
  let l := bytes s in
  let l := match l with c :: l' => if Ascii.eqb c "+"%char then l' else l | [] => l end in
  match l with
  | [] => None
  | _ => match digits_value 0 l with
         | Some z => if z <=? max then Some z else None
         | None => None
         end
  end.

(** [str::parse::<i64>]: an optional sign, then digits. *)
Definition parse_i64 (s : string) : option Z :=
  let l := bytes s in
  let '(neg, l) :=
    match l with
    | c :: l' => if Ascii.eqb c "-"%char then (true, l')
                 else if Ascii.eqb c "+"%char then (false, l') else (false, l)
    | [] => (false, l)
    end in
  match l with
  | [] => None
  | _ => match digits_value 0 l with
         | Some z =>
             let v := if (neg : bool) then - z else z in
             if (-9223372036854775808 <=? v) && (v <=? 9223372036854775807)
             then Some v else None
         | None => None
         end
  end.

Definition parse_u64 := parse_unsigned u64_max.
Definition parse_u8 := parse_unsigned 255.

(** ** Byte-wise string order, the order of [TEXT] columns *)
Fixpoint lex_ltb (a b : list ascii) : bool :=
  match a, b with
  | _, [] => false
  | [], _ :: _ => true
  | x :: a, y :: b =>
      if Ascii.eqb x y then lex_ltb a b
      else (nat_of_ascii x <? nat_of_ascii y)%nat
  end.
Definition str_ltb (a b : string) : bool := lex_ltb (bytes a) (bytes b).

(** ** Fixed-width numerals, most significant digit first *)
Fixpoint numeral (base : Z) (width : nat) (z : Z) : list Z :=
  match width with
  | O => []
  | S n => (z / base ^ Z.of_nat n) `mod` base :: numeral base n z
  end.

Fixpoint numeral_value (base acc : Z) (ds : list Z) : Z :=
  match ds with [] => acc | d :: ds => numeral_value base (base * acc + d) ds end.

Lemma numeral_value_acc base ds acc :
  numeral_value base acc ds = acc * base ^ Z.of_nat (length ds) + numeral_value base 0 ds.
Proof.
  revert acc. induction ds as [|d ds IH]; intros acc; [simpl; lia|].
  cbn [numeral_value length]. rewrite IH, (IH (base * 0 + d)).
  rewrite Nat2Z.inj_succ, Z.pow_succ_r by lia. lia.
Qed.

Lemma length_numeral base n z : length (numeral base n z) = n.
Proof. induction n; simpl; congruence. Qed.

Lemma numeral_round base n z :
  1 < base → numeral_value base 0 (numeral base n z) = z `mod` base ^ Z.of_nat n.
Proof.
  intros Hb. induction n as [|n IH].
  { simpl. by rewrite Z.mod_1_r. }
  cbn [numeral numeral_value]. rewrite numeral_value_acc, IH, length_numeral.
  rewrite Nat2Z.inj_succ, Z.pow_succ_r by lia.
  set (p := base ^ Z.of_nat n). assert (0 < p) by (apply Z.pow_pos_nonneg; lia).
  rewrite (Z.mul_comm base p), Z.rem_mul_r by lia. lia.
Qed.

Lemma numeral_digits base n z :
  0 < base → Forall (λ d, 0 <= d < base) (numeral base n z).
Proof.
  intros Hb. induction n as [|n IH]; simpl; constructor; [|done].
  by apply Z.mod_pos_bound.
Qed.

(** Numerals of one width are ordered like the numbers they stand for. *)
Fixpoint lexZ_ltb (a b : list Z) : bool :=
  match a, b with
  | _, [] => false
  | [], _ :: _ => true
  | x :: a, y :: b => if x =? y then lexZ_ltb a b else x <? y
  end.

Lemma numeral_order base n a b :
  1 < base →
  lexZ_ltb (numeral base n a) (numeral base n b)
    = (a `mod` base ^ Z.of_nat n <? b `mod` base ^ Z.of_nat n).
Proof.
  intros Hb. induction n as [|n IH].
  { simpl. by rewrite !Z.mod_1_r. }
  cbn [numeral lexZ_ltb]. rewrite IH, Nat2Z.inj_succ, Z.pow_succ_r by lia.
  set (p := base ^ Z.of_nat n). assert (0 < p) by (apply Z.pow_pos_nonneg; lia).
  rewrite !(Z.mul_comm base p), !Z.rem_mul_r by lia.
  pose proof (Z.mod_pos_bound a p). pose proof (Z.mod_pos_bound b p).
  set (x := (a / p) `mod` base). set (y := (b / p) `mod` base).
  destruct (Z.eqb_spec x y) as [->|Hne].
  - apply eq_bool_prop_intro. rewrite !Is_true_true, !Z.ltb_lt. lia.
  - apply eq_bool_prop_intro. rewrite !Is_true_true, !Z.ltb_lt. split; nia.
Qed.

(** [format!("{:x}", z)] for an unsigned [z]: no leading zeros.  [fuel] bounds
    the number of digits. *)
Definition hex_digit (d : Z) : ascii :=
  ascii_of_nat (Z.to_nat (if d <? 10 then 48 + d else 87 + d)).
Fixpoint lower_hex_l (fuel : nat) (z : Z) (acc : list ascii) : list ascii :=
  match fuel with
  | O => acc
  | S n =>
      let acc := hex_digit (z `mod` 16) :: acc in
      if z / 16 =? 0 then acc else lower_hex_l n (z / 16) acc
  end.
Definition lower_hex (z : Z) : string := of_bytes (lower_hex_l 32 z []).

(** ** Printed numbers *)

(** Visible ASCII characters are never trimmed. *)
Definition visible (c : ascii) : bool :=
  (33 <=? nat_of_ascii c)%nat && (nat_of_ascii c <=? 127)%nat.

Definition starts_invisible (p : list ascii) : bool :=
  match p with x :: _ => negb (visible x) | [] => false end.

Lemma strip_one_visible seps c l :
  forallb starts_invisible seps = true → visible c = true → strip_one seps (c :: l) = None.
Proof.
  unfold strip_one. induction seps as [|[|x p] seps IH]; csimpl; [done|done|].
  intros [Hx Hs]%andb_prop Hc.
  destruct (Ascii.eqb_spec x c) as [->|]; [by rewrite Hc in Hx|]. by apply IH.
Qed.

Lemma strip_all_visible n seps l :
  forallb starts_invisible seps = true → forallb visible l = true → strip_all n seps l = l.
Proof.
  intros Hs Hl. destruct n as [|n]; [done|]. destruct l as [|c l]; simpl.
  - assert (strip_one seps [] = None) as ->; [|done]. clear Hl.
    unfold strip_one. induction seps as [|[|x p] seps IH]; csimpl; [done|done|].
    apply andb_prop in Hs as [_ Hs]. by apply IH.
  - apply andb_prop in Hl as [Hc _]. by rewrite strip_one_visible.
Qed.

Lemma forallb_reverse {A} (f : A → bool) l : forallb f l = true → forallb f (reverse l) = true.
Proof.
  rewrite !forallb_forall. intros Hl x Hx. apply Hl.
  by apply list_elem_of_In, elem_of_reverse, list_elem_of_In.
Qed.

Lemma trim_visible s : forallb visible (bytes s) = true → trim s = s.
Proof.
  intros Hs. unfold trim, trim_start_l, trim_end_l.
  rewrite (strip_all_visible _ whitespace) by (reflexivity || done).
  rewrite strip_all_visible; [|reflexivity|by apply forallb_reverse].
  by rewrite reverse_involutive, of_bytes_bytes.
Qed.

Lemma digit_pretty_char x :
  (x < 10)%N → digit (pretty_N_char x) = Some (Z.of_N x) ∧ visible (pretty_N_char x) = true ∧
  Ascii.eqb (pretty_N_char x) "+" = false ∧ Ascii.eqb (pretty_N_char x) "-" = false.
Proof.
  intros Hx.
  assert (x = 0 ∨ x = 1 ∨ x = 2 ∨ x = 3 ∨ x = 4 ∨ x = 5 ∨ x = 6 ∨ x = 7 ∨ x = 8 ∨ x = 9)%N
    as Hcases by lia.
  by repeat destruct Hcases as [->|Hcases]; subst.
Qed.

Lemma pretty_N_go_value x s :
  digits_value 0 (bytes (pretty_N_go x s)) = digits_value (Z.of_N x) (bytes s).
Proof.
  revert s. induction (N.lt_wf_0 x) as [x _ IH]. intros s.
  destruct (decide (x = 0)%N) as [->|Hx]; [by rewrite pretty_N_go_0|].
  rewrite pretty_N_go_step by lia. rewrite IH by (apply N.div_lt; lia).
  cbn [bytes digits_value].
  destruct (digit_pretty_char (x `mod` 10)) as [-> _]; [by apply N.mod_lt|].
  f_equal. rewrite N2Z.inj_div, N2Z.inj_mod. symmetry. apply Z.div_mod. lia.
Qed.

Lemma pretty_N_go_visible x s :
  forallb visible (bytes s) = true → forallb visible (bytes (pretty_N_go x s)) = true.
Proof.
  revert s. induction (N.lt_wf_0 x) as [x _ IH]. intros s Hs.
  destruct (decide (x = 0)%N) as [->|Hx]; [by rewrite pretty_N_go_0|].
  rewrite pretty_N_go_step by lia. apply IH; [apply N.div_lt; lia|]. simpl.
  destruct (digit_pretty_char (x `mod` 10)) as (_ & -> & _); [by apply N.mod_lt|done].
Qed.

(** The first character is a digit. *)
Lemma pretty_N_go_head x c s :
  (∃ d, (d < 10)%N ∧ c = pretty_N_char d) →
  ∃ d l, (d < 10)%N ∧ bytes (pretty_N_go x (String c s)) = pretty_N_char d :: l.
Proof.
  revert c s. induction (N.lt_wf_0 x) as [x _ IH]. intros c s (d & Hd & ->).
  destruct (decide (x = 0)%N) as [->|Hx]; [rewrite pretty_N_go_0; simpl; eauto|].
  rewrite pretty_N_go_step by lia. apply IH; [apply N.div_lt; lia|].
  eexists. split; [|done]. by apply N.mod_lt.
Qed.

Lemma pretty_N_spec (n : N) :
  digits_value 0 (bytes (pretty n)) = Some (Z.of_N n) ∧
  forallb visible (bytes (pretty n)) = true ∧
  ∃ d l, (d < 10)%N ∧ bytes (pretty n) = pretty_N_char d :: l.
Proof.
  unfold pretty, pretty_N. destruct (decide (n = 0)%N) as [->|Hn].
  { split; [done|]. split; [done|]. by exists 0%N, []. }
  split; [by rewrite pretty_N_go_value|]. split; [by apply pretty_N_go_visible|].
  rewrite pretty_N_go_step by lia. apply pretty_N_go_head.
  eexists. split; [|done]. by apply N.mod_lt.
Qed.

Lemma trim_pretty (n : N) : trim (pretty n) = pretty n.
Proof. apply trim_visible, pretty_N_spec. Qed.

Lemma parse_unsigned_pretty max (n : N) :
  parse_unsigned max (pretty n) = if Z.of_N n <=? max then Some (Z.of_N n) else None.
Proof.
  destruct (pretty_N_spec n) as (Hv & _ & d & l & Hd & E).
  unfold parse_unsigned. rewrite E.
  destruct (digit_pretty_char d Hd) as (_ & _ & -> & _). by rewrite <- E, Hv.
Qed.

Lemma parse_i64_pretty (n : N) :
  (Z.of_N n <= 9223372036854775807) → parse_i64 (pretty n) = Some (Z.of_N n).
Proof.
  intros Hn. destruct (pretty_N_spec n) as (Hv & _ & d & l & Hd & E).
  unfold parse_i64. rewrite E.
  destruct (digit_pretty_char d Hd) as (_ & _ & -> & ->). rewrite <- E, Hv.
  destruct (Z.leb_spec (-9223372036854775808) (Z.of_N n)); [|lia].
  destruct (Z.leb_spec (Z.of_N n) 9223372036854775807); [done|lia].
Qed.

(** ** Unspecified by the language

    The order in which a [HashMap] is iterated, and the Unicode tables behind
    [to_lowercase] and the [{:?}] form of a string. *)
Class HashOrder := hash_order : ∀ {K V : Type} `{Countable K}, gmap K V → list (K * V).
Class HashOrderOk `{HashOrder} : Prop :=
  hash_order_perm : ∀ {K V : Type} `{Countable K} (m : gmap K V), hash_order m ≡ₚ map_to_list m.

Class Unicode := {
  to_lowercase : string → string;
  debug_str : string → string;
}.
