(* ===== verification/Text.v ===== *)
(** * UTF-8, lines and pieces of text

    What the node's code uses of [str] and [String] beyond [RustStd.v]: the
    validity of UTF-8 and [from_utf8_lossy], character boundaries,
    [str::lines], [split_once], [rsplit_once], [contains] and [trim_end_matches].
    All of it works on the bytes of the text. *)
From S2P Require Import Prelude RustStd.

Local Open Scope Z_scope.

Definition nl : ascii := ascii_of_nat 10.
Definition cr : ascii := ascii_of_nat 13.
Definition byte_val (c : ascii) : Z := Z.of_nat (nat_of_ascii c).

(** ** UTF-8 *)

Definition between (lo hi : Z) (c : ascii) : bool := (lo <=? byte_val c) && (byte_val c <=? hi).
Definition is_ascii : ascii → bool := between 0 127.
(** A continuation byte. *)
Definition is_cont : ascii → bool := between 128 191.
(** The first two bytes of a character of two, three and four bytes. *)
Definition lead2 (a b : ascii) : bool := between 194 223 a && is_cont b.
Definition lead3 (a b : ascii) : bool :=
  (between 224 224 a && between 160 191 b) || (between 225 236 a && is_cont b) ||
  (between 237 237 a && between 128 159 b) || (between 238 239 a && is_cont b).
Definition lead4 (a b : ascii) : bool :=
  (between 240 240 a && between 144 191 b) || (between 241 243 a && is_cont b) ||
  (between 244 244 a && between 128 143 b).

(** [str::from_utf8(..).is_ok()]. *)
Fixpoint utf8_valid (l : list ascii) : bool :=
  match l with
  | [] => true
  | a :: l1 =>
      if is_ascii a then utf8_valid l1
      else match l1 with
           | [] => false
           | b :: l2 =>
               if lead2 a b then utf8_valid l2
               else match l2 with
                    | [] => false
                    | c :: l3 =>
                        if lead3 a b && is_cont c then utf8_valid l3
                        else match l3 with
                             | [] => false
                             | d :: l4 =>
                                 if lead4 a b && is_cont c && is_cont d then utf8_valid l4
                                 else false
                             end
                    end
           end
  end.

(** U+FFFD. *)
Definition replacement : list ascii := ascii_of_nat <$> [239; 191; 189]%nat.

(** [String::from_utf8_lossy]: every maximal piece of an ill-formed character
    becomes one replacement character. *)
Fixpoint from_utf8_lossy (l : list ascii) : list ascii :=
  match l with
  | [] => []
  | a :: l1 =>
      if is_ascii a then a :: from_utf8_lossy l1
      else match l1 with
           | [] => replacement
           | b :: l2 =>
               if lead2 a b then a :: b :: from_utf8_lossy l2
               else if lead3 a b then
                 match l2 with
                 | [] => replacement
                 | c :: l3 => if is_cont c then a :: b :: c :: from_utf8_lossy l3
                              else replacement ++ from_utf8_lossy l2
                 end
               else if lead4 a b then
                 match l2 with
                 | [] => replacement
                 | c :: l3 =>
                     if is_cont c then
                       match l3 with
                       | [] => replacement
                       | d :: l4 => if is_cont d then a :: b :: c :: d :: from_utf8_lossy l4
                                    else replacement ++ from_utf8_lossy l3
                       end
                     else replacement ++ from_utf8_lossy l2
                 end
               else replacement ++ from_utf8_lossy l1
           end
  end.

(** [str::is_char_boundary]. *)
Definition is_char_boundary (l : list ascii) (i : nat) : bool :=
  match i with
  | O => true
  | _ => match l !! i with
         | Some c => negb (is_cont c)
         | None => bool_decide (i = length l)
         end
  end.

(** [while !s.is_char_boundary(cut) { cut -= 1 }]. *)
Fixpoint cut_back (l : list ascii) (cut : nat) : nat :=
  if is_char_boundary l cut then cut
  else match cut with O => O | S n => cut_back l n end.

(** Induction over the characters of a valid text. *)
Lemma list_len_ind {A} (P : list A → Prop) :
  (∀ l, (∀ l', (length l' < length l)%nat → P l') → P l) → ∀ l, P l.
Proof.
  intros IH l. remember (length l) as n eqn:E. revert l E.
  induction (Nat.lt_wf_0 n) as [n _ IHn]. intros l ->. apply IH. intros l' Hl. by eapply IHn.
Qed.

Lemma utf8_valid_app l k : utf8_valid l = true → utf8_valid (l ++ k) = utf8_valid k.
Proof.
  induction l as [l IH] using list_len_ind. intros Hl.
  destruct l as [|a l1]; [done|]. simpl in Hl |- *.
  destruct (is_ascii a); [apply IH; [simpl; lia|done]|].
  destruct l1 as [|b l2]; [done|]. simpl.
  destruct (lead2 a b); [apply IH; [simpl; lia|done]|].
  destruct l2 as [|c l3]; [done|]. simpl.
  destruct (lead3 a b && is_cont c); [apply IH; [simpl; lia|done]|].
  destruct l3 as [|d l4]; [done|]. simpl.
  destruct (lead4 a b && is_cont c && is_cont d); [|done]. apply IH; [simpl; lia|done].
Qed.

Lemma utf8_valid_cons a l : is_ascii a = true → utf8_valid (a :: l) = utf8_valid l.
Proof. simpl. by intros ->. Qed.

Lemma utf8_valid_ascii l : forallb is_ascii l = true → utf8_valid l = true.
Proof. induction l as [|a l IH]; simpl; [done|]. intros [-> Hl]%andb_prop. auto. Qed.

Lemma utf8_valid_concat ls : forallb utf8_valid ls = true → utf8_valid (concat ls) = true.
Proof.
  induction ls as [|l ls IH]; simpl; [done|]. intros [Hl Hls]%andb_prop.
  rewrite utf8_valid_app by done. auto.
Qed.

Lemma from_utf8_lossy_valid l : utf8_valid l = true → from_utf8_lossy l = l.
Proof.
  induction l as [l IH] using list_len_ind. intros Hl.
  destruct l as [|a l1]; [done|]. simpl in Hl |- *.
  destruct (is_ascii a); [by rewrite IH by (simpl; done || lia)|].
  destruct l1 as [|b l2]; [done|].
  destruct (lead2 a b); [by rewrite IH by (simpl; done || lia)|].
  destruct l2 as [|c l3]; [done|].
  destruct (lead3 a b) eqn:H3; simpl in Hl.
  - assert (lead4 a b = false) as H4.
    { unfold lead3, lead4, between in *. unfold is_cont, between in *.
      apply not_true_is_false. rewrite !orb_true_iff, !andb_true_iff, !Z.leb_le in *. lia. }
    rewrite H4 in Hl. destruct (is_cont c); [by rewrite IH by (simpl; done || lia)|].
    by destruct l3.
  - destruct l3 as [|d l4]; [done|].
    destruct (lead4 a b); [|done]. simpl in Hl. destruct (is_cont c); [|done]. simpl in Hl.
    destruct (is_cont d); [|done]. by rewrite IH by (simpl; done || lia).
Qed.

Lemma cut_back_le l n : (cut_back l n ≤ n)%nat.
Proof. induction n as [|n IH]; simpl; [lia|]. destruct (l !! S n); case_match; lia. Qed.

Lemma cut_back_boundary l n : is_char_boundary l (cut_back l n) = true.
Proof.
  induction n as [|n IH]; [done|]. cbn [cut_back].
  destruct (is_char_boundary l (S n)) eqn:E; [by rewrite E|done].
Qed.

Lemma cut_back_max l n m :
  (m ≤ n)%nat → is_char_boundary l m = true → (m ≤ cut_back l n)%nat.
Proof.
  induction n as [|n IH]; intros Hm Hb; [simpl; lia|]. cbn [cut_back].
  destruct (is_char_boundary l (S n)) eqn:E; [done|].
  destruct (decide (m = S n)) as [->|]; [congruence|]. apply IH; [lia|done].
Qed.

(** ** Lines and separators *)

(** A line without the carriage return of a CRLF ending. *)
Definition chomp_cr (l : list ascii) : list ascii :=
  match reverse l with
  | c :: r => if Ascii.eqb c cr then reverse r else l
  | [] => l
  end.

(** [str::lines]: the text after the last line feed counts if it is not empty. *)
Fixpoint finish_lines (ps : list (list ascii)) : list (list ascii) :=
  match ps with
  | [] => []
  | [last] => match last with [] => [] | _ => [last] end
  | p :: ps => chomp_cr p :: finish_lines ps
  end.
Definition lines_l (l : list ascii) : list (list ascii) := finish_lines (split_l nl l).

(** [str::split_once] with a character. *)
Definition split_once_l (sep : ascii) (l : list ascii) : option (list ascii * list ascii) :=
  match splitn2_l sep l with (a, Some b) => Some (a, b) | (_, None) => None end.
Definition split_once (sep : ascii) (s : string) : option (string * string) :=
  (λ ab, (of_bytes ab.1, of_bytes ab.2)) <$> split_once_l sep (bytes s).

(** [str::split_once] with a string. *)
Fixpoint split_once_str_l (sep l : list ascii) : option (list ascii * list ascii) :=
  match strip_prefix_l sep l with
  | Some rest => Some ([], rest)
  | None => match l with
            | [] => None
            | c :: l => (λ ab, (c :: ab.1, ab.2)) <$> split_once_str_l sep l
            end
  end.
Definition split_once_str (sep s : string) : option (string * string) :=
  (λ ab, (of_bytes ab.1, of_bytes ab.2)) <$> split_once_str_l (bytes sep) (bytes s).

(** [str::rsplit_once] with a character. *)
Definition rsplit_once (sep : ascii) (s : string) : option (string * string) :=
  (λ ab, (of_bytes (reverse ab.2), of_bytes (reverse ab.1)))
    <$> split_once_l sep (reverse (bytes s)).

(** [str::contains] and [str::trim_end_matches] with a character. *)
Definition contains_char (c : ascii) (s : string) : bool := existsb (Ascii.eqb c) (bytes s).
Fixpoint skip_while {A} (f : A → bool) (l : list A) : list A :=
  match l with [] => [] | x :: l => if f x then skip_while f l else x :: l end.
Definition trim_end_matches_l (c : ascii) (l : list ascii) : list ascii :=
  reverse (skip_while (Ascii.eqb c) (reverse l)).

Definition ends_with (p s : string) : bool :=
  match strip_suffix p s with Some _ => true | None => false end.

Definition last_n {A} (n : nat) (l : list A) : list A := drop (length l - n) l.

(** [str::split_whitespace]: the pieces between runs of white space; [cur] is
    the reversed piece so far, [fuel] the length. *)
Definition close_word (cur : list ascii) (ws : list (list ascii)) : list (list ascii) :=
  match cur with [] => ws | _ => reverse cur :: ws end.
Fixpoint words_l (fuel : nat) (cur l : list ascii) : list (list ascii) :=
  match fuel with
  | O => close_word cur []
  | S n =>
      match strip_one whitespace l with
      | Some l' => close_word cur (words_l n [] l')
      | None => match l with
                | [] => close_word cur []
                | c :: l' => words_l n (c :: cur) l'
                end
      end
  end.
Definition split_whitespace (s : string) : list string :=
  of_bytes <$> words_l (S (String.length s)) [] (bytes s).

(** [str::lines] and [str::trim_matches] with a character, on text. *)
Definition lines (s : string) : list string := of_bytes <$> lines_l (bytes s).
Definition trim_matches (c : ascii) (s : string) : string :=
  of_bytes (trim_end_matches_l c (skip_while (Ascii.eqb c) (bytes s))).
Definition trim_end_matches (c : ascii) (s : string) : string :=
  of_bytes (trim_end_matches_l c (bytes s)).

Example split_whitespace_meminfo : split_whitespace "   16322388 kB " = ["16322388"; "kB"].
Proof. reflexivity. Qed.

Lemma split_l_no_sep sep l : sep ∉ l → split_l sep l = [l].
Proof.
  induction l as [|c l IH]; [done|]. rewrite not_elem_of_cons. intros [Hc Hl]. simpl.
  destruct (Ascii.eqb_spec c sep) as [->|]; [done|]. by rewrite IH.
Qed.

Lemma split_l_app sep t l : sep ∉ t → split_l sep (t ++ sep :: l) = t :: split_l sep l.
Proof.
  induction t as [|c t IH]; intros Ht; simpl; [by rewrite Ascii.eqb_refl|].
  apply not_elem_of_cons in Ht as [Hc Ht].
  destruct (Ascii.eqb_spec c sep) as [->|]; [done|]. by rewrite IH.
Qed.

Lemma split_l_not_nil sep l : split_l sep l ≠ [].
Proof. destruct l as [|c l]; simpl; [done|]. destruct (Ascii.eqb c sep); [done|]. by destruct (split_l sep l). Qed.

Lemma lines_l_cons t l : nl ∉ t → lines_l (t ++ nl :: l) = chomp_cr t :: lines_l l.
Proof.
  intros Ht. unfold lines_l. rewrite split_l_app by done.
  pose proof (split_l_not_nil nl l). by destruct (split_l nl l).
Qed.

Lemma splitn2_l_app sep t l : sep ∉ t → splitn2_l sep (t ++ sep :: l) = (t, Some l).
Proof.
  induction t as [|c t IH]; intros Ht; simpl; [by rewrite Ascii.eqb_refl|].
  apply not_elem_of_cons in Ht as [Hc Ht].
  destruct (Ascii.eqb_spec c sep) as [->|]; [done|]. by rewrite IH.
Qed.

Lemma split_once_l_app sep t l : sep ∉ t → split_once_l sep (t ++ sep :: l) = Some (t, l).
Proof. intros Ht. unfold split_once_l. by rewrite splitn2_l_app. Qed.

Lemma skip_while_head {A} (f : A → bool) x l : f x = false → skip_while f (x :: l) = x :: l.
Proof. simpl. by intros ->. Qed.

Lemma trim_end_matches_one c l : c ∉ l → trim_end_matches_l c (l ++ [c]) = l.
Proof.
  intros Hl. unfold trim_end_matches_l. rewrite reverse_app. simpl. rewrite Ascii.eqb_refl.
  destruct (reverse l) as [|x r] eqn:E; simpl.
  - by rewrite <- (reverse_involutive l), E.
  - assert (x ∈ l) as Hx by (rewrite <- elem_of_reverse, E; by left).
    destruct (Ascii.eqb_spec c x) as [->|]; [done|]. by rewrite <- E, reverse_involutive.
Qed.

Lemma chomp_cr_id l : last l ≠ Some cr → chomp_cr l = l.
Proof.
  intros Hl. unfold chomp_cr. destruct (reverse l) as [|c r] eqn:E; [done|].
  assert (l = reverse r ++ [c]) as Hlr by (by rewrite <- (reverse_involutive l), E, reverse_cons).
  destruct (Ascii.eqb_spec c cr) as [->|]; [|done]. rewrite Hlr, last_snoc in Hl. done.
Qed.
