(* ===== verification/Float64.v ===== *)
(** * Rust's [f64]

    IEEE 754 binary64 with the rounding of the standard library's [SpecFloat]
    (the specification of the kernel's own floats): conversion from and to
    integers, the four operations, [f64::round] and [str::parse::<f64>].
    Every definition computes. *)
From S2P Require Import Prelude RustStd.
From Stdlib Require Import SpecFloat.

Local Open Scope Z_scope.

Definition f64 := spec_float.

Definition f64_of_Z (z : Z) : f64 := binary_normalize 53 1024 z 0 false.
Definition f64_add : f64 → f64 → f64 := SFadd 53 1024.
Definition f64_sub : f64 → f64 → f64 := SFsub 53 1024.
Definition f64_mul : f64 → f64 → f64 := SFmul 53 1024.
Definition f64_div : f64 → f64 → f64 := SFdiv 53 1024.
Definition f64_ltb : f64 → f64 → bool := SFltb.

Definition is_finite (x : f64) : bool :=
  match x with S754_zero _ | S754_finite _ _ _ => true | _ => false end.

(** The integer nearest to [m * 2^e], halves away from zero. *)
Definition round_magnitude (m : positive) (e : Z) : Z :=
  if 0 <=? e then Z.pos m * 2 ^ e
  else let d := 2 ^ (- e) in
       let q := Z.pos m / d in
       if d <=? 2 * (Z.pos m - q * d) then q + 1 else q.

(** [f64::round]. *)
Definition f64_round (x : f64) : f64 :=
  match x with
  | S754_finite s m e =>
      if 0 <=? e then x
      else binary_normalize 53 1024 (cond_Zopp s (round_magnitude m e)) 0 s
  | _ => x
  end.

(** Truncation towards zero, the number behind [as]. *)
Definition truncate (s : bool) (m : positive) (e : Z) : Z :=
  cond_Zopp s (if 0 <=? e then Z.pos m * 2 ^ e else Z.pos m / 2 ^ (- e)).

(** [x as T] for an integer type with the bounds [lo] and [hi]: saturating,
    and 0 for NaN. *)
Definition f64_as (lo hi : Z) (x : f64) : Z :=
  match x with
  | S754_nan | S754_zero _ => 0
  | S754_infinity s => if s then lo else hi
  | S754_finite s m e => Z.max lo (Z.min hi (truncate s m e))
  end.
Definition f64_as_u64 : f64 → Z := f64_as 0 u64_max.
Definition f64_as_i64 : f64 → Z := f64_as (-9223372036854775808) 9223372036854775807.

(** The binary64 nearest to [(-1)^s * d * 10^x]. *)
Definition f64_of_decimal (s : bool) (d x : Z) : f64 :=
  match d with
  | Z.pos m =>
      if 0 <=? x then binary_normalize 53 1024 (cond_Zopp s (Z.pos m * 10 ^ x)) 0 s
      else let '(q, e, l) := SFdiv_core_binary 53 1024 (Z.pos m) 0 (10 ^ (- x)) 0 in
           binary_round_aux 53 1024 s q e l
  | _ => S754_zero s
  end.

(** ** [str::parse::<f64>]

<<
    Float  ::= Sign? ( 'inf' | 'infinity' | 'nan' | Number )   (any case)
    Number ::= ( Digit+ | Digit+ '.' Digit* | Digit* '.' Digit+ ) Exp?
    Exp    ::= 'e' Sign? Digit+                                (any case)
>> *)

Fixpoint take_digits (l : list ascii) : list ascii * list ascii :=
  match l with
  | c :: l' => match digit c with
               | Some _ => let '(a, b) := take_digits l' in (c :: a, b)
               | None => ([], l)
               end
  | [] => ([], [])
  end.

Definition take_sign (l : list ascii) : bool * list ascii :=
  match l with
  | c :: l' => if Ascii.eqb c "-" then (true, l')
               else if Ascii.eqb c "+" then (false, l') else (false, l)
  | [] => (false, [])
  end.

Definition dec_value (l : list ascii) : Z := default 0 (digits_value 0 l).

(** The exponent part: [Some 0] when there is none. *)
Definition parse_exponent (l : list ascii) : option Z :=
  match l with
  | [] => Some 0
  | c :: l =>
      if Ascii.eqb (ascii_lower c) "e" then
        let '(neg, l) := take_sign l in
        match take_digits l with
        | ([], _) => None
        | (ds, []) => Some (if (neg : bool) then - dec_value ds else dec_value ds)
        | _ => None
        end
      else None
  end.

Definition parse_number (s : bool) (l : list ascii) : option f64 :=
  let '(ip, l) := take_digits l in
  let '(fp, l) :=
    match l with
    | c :: l' => if Ascii.eqb c "." then take_digits l' else ([], l)
    | [] => ([], l)
    end in
  match ip ++ fp with
  | [] => None
  | ds => x ← parse_exponent l;
          Some (f64_of_decimal s (dec_value ds) (x - Z.of_nat (length fp)))
  end.

Definition parse_f64 (str : string) : option f64 :=
  let '(s, l) := take_sign (bytes str) in
  let w := of_bytes (ascii_lower <$> l) in
  if str_eqb w "inf" || str_eqb w "infinity" then Some (S754_infinity s)
  else if str_eqb w "nan" then Some S754_nan
  else parse_number s l.
