(* ===== verification/Json.v ===== *)
(** * JSON values and the derived serialisers

    [serde_json::Value], the interface [Json] that [#[derive(Serialize,
    Deserialize)]] gives a type, its law (decoding an encoded value gives the
    value back), and the field combinators the model types use to follow their
    serde attributes ([rename], [default], [skip_serializing_if], [flatten]).
    An object keeps its members in the order the derive writes them. *)
From S2P Require Import Prelude RustStd.

#[warnings="-register-all"]
Inductive Value : Type :=
| JNull
| JBool (b : bool)
| JInt (z : Z)
| JFloat (lexeme : string)
| JStr (s : string)
| JArr (l : list Value)
| JObj (l : list (string * Value)).

(** ** The interface *)

Class Json (T : Type) := {
  to_value : T → Value;
  from_value : Value → option T;
}.
#[global] Hint Mode Json ! : typeclass_instances.

(** What the code relies on: what was written is read back. *)
Class JsonOk (T : Type) `{Json T} : Prop :=
  from_to : ∀ x : T, from_value (to_value x) = Some x.

(** Types that never encode as [null]: every type but [Option] and [Value]. *)
Class JsonSome (T : Type) `{Json T} : Prop :=
  to_value_not_null : ∀ x : T, to_value x ≠ JNull.

(** What [serde_json] keeps exactly when it writes a value and reads it back:
    no floats (its default parser may be off by a last digit), integers that
    are an [i64] or a [u64], and no member of an object twice. *)
Fixpoint json_plain (v : Value) : bool :=
  match v with
  | JInt z => (-9223372036854775808 <=? z)%Z && (z <? 18446744073709551616)%Z
  | JFloat _ => false
  | JArr l => forallb json_plain l
  | JObj ms => bool_decide (NoDup ms.*1) && forallb (λ kv, json_plain kv.2) ms
  | _ => true
  end.

Class JsonPlain (T : Type) `{Json T} : Prop :=
  to_value_plain : ∀ x : T, json_plain (to_value x) = true.

Create HintDb json.
#[export] Hint Resolve to_value_not_null : json.

(** ** Scalars, options, sequences and maps *)

#[export] Instance json_string : Json string := {|
  to_value := JStr;
  from_value v := match v with JStr s => Some s | _ => None end |}.
#[export] Instance json_bool : Json bool := {|
  to_value := JBool;
  from_value v := match v with JBool b => Some b | _ => None end |}.
#[export] Instance json_bounded lo hi : Json (bounded lo hi) := {|
  to_value x := JInt (val x);
  from_value v := match v with JInt z => checked z | _ => None end |}.
#[export] Instance json_Value : Json Value := {|
  to_value v := v; from_value := Some |}.

#[export] Instance json_option {T} `{Json T} : Json (option T) := {|
  to_value o := match o with Some x => to_value x | None => JNull end;
  from_value v := match v with JNull => Some None | _ => Some <$> from_value v end |}.

#[export] Instance json_list {T} `{Json T} : Json (list T) := {|
  to_value l := JArr (to_value <$> l);
  from_value v := match v with JArr l => mapM from_value l | _ => None end |}.

Definition decode_member {T} `{Json T} (kv : string * Value) : option (string * T) :=
  x ← from_value kv.2; Some (kv.1, x).

(** A later member replaces an earlier one, as [HashMap::insert] does. *)
#[export] Instance json_map {T} `{Json T} : Json (gmap string T) := {|
  to_value m := JObj ((λ kv, (kv.1, to_value kv.2)) <$> map_to_list m);
  from_value v := match v with
                  | JObj l => list_to_map ∘ reverse <$> mapM decode_member l
                  | _ => None
                  end |}.

#[export] Instance json_string_ok : JsonOk string.
Proof. done. Qed.
#[export] Instance json_bool_ok : JsonOk bool.
Proof. done. Qed.
#[export] Instance json_bounded_ok lo hi : JsonOk (bounded lo hi).
Proof. intros x. apply checked_val. Qed.
#[export] Instance json_Value_ok : JsonOk Value.
Proof. done. Qed.

#[export] Instance json_string_some : JsonSome string.
Proof. done. Qed.
#[export] Instance json_bool_some : JsonSome bool.
Proof. done. Qed.
#[export] Instance json_bounded_some lo hi : JsonSome (bounded lo hi).
Proof. done. Qed.
#[export] Instance json_list_some {T} `{Json T} : JsonSome (list T).
Proof. done. Qed.
#[export] Instance json_map_some {T} `{Json T} : JsonSome (gmap string T).
Proof. done. Qed.

(** Their values are plain. *)
#[export] Instance json_string_plain : JsonPlain string.
Proof. done. Qed.
#[export] Instance json_bool_plain : JsonPlain bool.
Proof. done. Qed.
#[export] Instance json_bounded_plain lo hi :
  TCEq ((-9223372036854775808 <=? lo)%Z && (hi <=? 18446744073709551616)%Z) true →
  JsonPlain (bounded lo hi).
Proof.
  intros Hb x. apply TCEq_eq, andb_true_iff in Hb as [Hlo Hhi]. pose proof (val_range x).
  simpl. apply andb_true_iff. rewrite Z.leb_le, Z.ltb_lt in *. apply Z.leb_le in Hhi. lia.
Qed.
#[export] Instance json_option_plain {T} `{JsonPlain T} : JsonPlain (option T).
Proof. intros [x|]; [apply (to_value_plain x)|done]. Qed.
#[export] Instance json_list_plain {T} `{JsonPlain T} : JsonPlain (list T).
Proof. intros l. simpl. induction l; csimpl; [done|]. by rewrite to_value_plain. Qed.
#[export] Instance json_map_plain {T} `{JsonPlain T} : JsonPlain (gmap string T).
Proof.
  intros m. simpl. apply andb_true_iff. split.
  - apply bool_decide_eq_true. rewrite <- list_fmap_compose. apply NoDup_fst_map_to_list.
  - induction (map_to_list m) as [|[k x] l IH]; csimpl; [done|]. by rewrite to_value_plain.
Qed.

#[export] Instance json_option_ok {T} `{JsonOk T, !JsonSome T} : JsonOk (option T).
Proof.
  intros [x|]; simpl; [|done].
  pose proof (to_value_not_null x) as Hn. pose proof (from_to x) as Hx.
  destruct (to_value x); by rewrite ?Hx.
Qed.

Lemma mapM_from_to {T} `{JsonOk T} (l : list T) :
  mapM from_value (to_value <$> l) = Some l.
Proof. apply mapM_Some_2. induction l; csimpl; constructor; auto using from_to. Qed.

#[export] Instance json_list_ok {T} `{JsonOk T} : JsonOk (list T).
Proof. intros l. apply mapM_from_to. Qed.

Lemma mapM_decode_member {T} `{JsonOk T} (l : list (string * T)) :
  mapM decode_member ((λ kv, (kv.1, to_value kv.2)) <$> l) = Some l.
Proof.
  apply mapM_Some_2. induction l as [|[k x] l IH]; csimpl; constructor; [|done].
  unfold decode_member. simpl. by rewrite from_to.
Qed.

#[export] Instance json_map_ok {T} `{JsonOk T} : JsonOk (gmap string T).
Proof.
  intros m. simpl. rewrite mapM_decode_member. simpl. f_equal.
  rewrite <- (list_to_map_to_list m) at 2. symmetry.
  apply list_to_map_proper; [apply NoDup_fst_map_to_list|].
  symmetry. apply reverse_Permutation.
Qed.

(** ** Structs *)

Abbreviation members := (list (string * Value)).
Abbreviation fields := (list (string * option Value)).

Fixpoint lookup_member {A} (k : string) (ms : list (string * A)) : option A :=
  match ms with
  | [] => None
  | (k', v) :: ms => if str_eqb k' k then Some v else lookup_member k ms
  end.

(** A struct as the list of its fields; [None] is a field that
    [skip_serializing_if] leaves out. *)
Fixpoint present (fs : fields) : members :=
  match fs with
  | [] => []
  | (k, Some v) :: fs => (k, v) :: present fs
  | (_, None) :: fs => present fs
  end.

Definition struct (fs : fields) : Value := JObj (present fs).

(** A derived [Deserialize] ignores the members it does not know.  (serde also
    reads a struct without flattened fields from an array of its fields in
    order; nothing writes that form, and it is not modelled.) *)
Definition destruct_members (v : Value) : option members :=
  match v with JObj ms => Some ms | _ => None end.

(** Writers: a plain field, [skip_serializing_if = "Option::is_none"] and
    [skip_serializing_if = "Vec::is_empty"]. *)
Definition ser {T} `{Json T} (k : string) (x : T) : string * option Value :=
  (k, Some (to_value x)).
Definition ser_some {T} `{Json T} (k : string) (o : option T) : string * option Value :=
  (k, to_value <$> o).
Definition ser_vec {T} `{Json T} (k : string) (l : list T) : string * option Value :=
  (k, match l with [] => None | _ => Some (to_value l) end).

(** The members with a given name; a derived [Deserialize] rejects an object
    that has a known field twice. *)
Fixpoint members_named {A} (k : string) (ms : list (string * A)) : list A :=
  match ms with
  | [] => []
  | (k', v) :: ms => if str_eqb k' k then v :: members_named k ms else members_named k ms
  end.

(** Readers: a required field, [#[serde(default)]] with its default, and an
    [Option] field, for which a missing member is [None] either way. *)
Definition de {T} `{Json T} (k : string) (ms : members) : option T :=
  match members_named k ms with [v] => from_value v | _ => None end.
Definition de_default {T} `{Json T} (d : T) (k : string) (ms : members) : option T :=
  match members_named k ms with
  | [] => Some d
  | [v] => from_value v
  | _ => None
  end.
Definition de_opt {T} `{Json T} (k : string) (ms : members) : option (option T) :=
  de_default None k ms.

Fixpoint keys_distinct (fs : fields) : bool :=
  match fs with
  | [] => true
  | (k, _) :: fs =>
      match lookup_member k fs with None => keys_distinct fs | Some _ => false end
  end.

Lemma named_present_fresh k fs :
  lookup_member k fs = None → members_named k (present fs) = [].
Proof.
  induction fs as [|[k' [v|]] fs IH]; simpl; [done| |];
    destruct (str_eqb k' k) eqn:E; simpl; rewrite ?E; naive_solver.
Qed.

(** With distinct field names, reading a struct back sees each field once. *)
Lemma named_present k fs :
  keys_distinct fs = true →
  members_named k (present fs) = option_list (lookup_member k fs ≫= id).
Proof.
  induction fs as [|[k' o] fs IH]; simpl; [done|].
  destruct (lookup_member k' fs) eqn:Hk'; [done|]. intros Hd.
  destruct (str_eqb k' k) eqn:E.
  - apply str_eqb_spec in E as ->. destruct o as [v|]; simpl.
    + by rewrite str_eqb_refl, named_present_fresh.
    + by rewrite named_present_fresh.
  - destruct o as [v|]; simpl; rewrite ?E; by apply IH.
Qed.

Lemma de_present {T} `{Json T} k fs :
  keys_distinct fs = true →
  de (T:=T) k (present fs) = (lookup_member k fs ≫= id) ≫= from_value.
Proof.
  intros. unfold de. rewrite named_present by done.
  by destruct (lookup_member k fs ≫= id).
Qed.

Lemma de_default_present {T} `{Json T} (d : T) k fs :
  keys_distinct fs = true →
  de_default d k (present fs) =
    match lookup_member k fs ≫= id with Some v => from_value v | None => Some d end.
Proof.
  intros. unfold de_default. rewrite named_present by done.
  by destruct (lookup_member k fs ≫= id).
Qed.

(** A field written by one of the three writers is read back. *)
Lemma read_some {T} `{JsonOk T, !JsonSome T} (o : option T) :
  match to_value <$> o with Some v => from_value v | None => Some None end = Some o.
Proof. destruct o as [x|]; simpl; [|done]. exact (from_to (Some x)). Qed.

Lemma read_vec {T} `{JsonOk T} (l : list T) :
  match (match l with [] => None | _ => Some (to_value l) end) with
  | Some v => from_value v
  | None => Some []
  end = Some l.
Proof. destruct l as [|x l]; [done|]. exact (from_to (x :: l)). Qed.

(** A struct is plain when the fields it writes are. *)
Definition field_plain (f : string * option Value) : Prop :=
  match f.2 with Some v => json_plain v = true | None => True end.

Lemma present_keys k fs : k ∈ (present fs).*1 → is_Some (lookup_member k fs).
Proof.
  induction fs as [|[k' [v|]] fs IH]; simpl; [by intros ?%not_elem_of_nil| |].
  - intros [->|Hk]%elem_of_cons; [rewrite str_eqb_refl; eauto|]. destruct (str_eqb k' k); eauto.
  - intros Hk. destruct (str_eqb k' k); eauto.
Qed.

Lemma plain_struct fs :
  keys_distinct fs = true → Forall field_plain fs → json_plain (struct fs) = true.
Proof.
  intros Hd Hf. simpl. apply andb_true_iff. split.
  - apply bool_decide_eq_true. revert Hd. clear Hf.
    induction fs as [|[k [v|]] fs IH]; simpl; [constructor| |];
      destruct (lookup_member k fs) eqn:Hk; [done| |done|]; intros Hd; [|by apply IH].
    constructor; [|by apply IH]. intros [w Hw]%present_keys. congruence.
  - clear Hd. induction Hf as [|[k [v|]] fs Hv Hf IH]; csimpl; [done| |done].
    unfold field_plain in Hv. simpl in Hv. by rewrite Hv, IH.
Qed.

Lemma plain_ser {T} `{JsonPlain T} k (x : T) : field_plain (ser k x).
Proof. apply to_value_plain. Qed.
Lemma plain_ser_some {T} `{JsonPlain T} k (o : option T) : field_plain (ser_some k o).
Proof. destruct o; [apply to_value_plain|done]. Qed.
Lemma plain_ser_vec {T} `{JsonPlain T} k (l : list T) : field_plain (ser_vec k l).
Proof. destruct l; [done|apply (to_value_plain (_ :: _))]. Qed.
#[export] Hint Resolve plain_ser plain_ser_some plain_ser_vec : json.
