(* ===== verification/External.v ===== *)
(** * Third-party code the program relies on

    Timestamps ([chrono::DateTime<Utc>]), identifiers ([uuid::Uuid]) and the
    text forms that [chrono], [uuid] and [serde_json] give them.  The crates
    are not part of the repository: their functions are the fields of the
    class [Extern], and what the code relies on is the class [ExternOk].
    [Reference.v] shows that the laws can hold.

    A [Value] is the syntax tree of a JSON text, members in the order they are
    written.  serde writes a struct in the order of its fields; where the code
    goes through [serde_json::Value] the crate sorts the members, which the
    model does not, since nothing under src/ looks at their order. *)
From S2P Require Import Prelude RustStd Json.

Local Open Scope Z_scope.

(** Nanoseconds since the Unix epoch, for the years 0000 to 9999 that
    RFC 3339 can write. *)
Definition DateTime := bounded (-62167219200000000000) 253402300800000000000.

(** A 128-bit identifier; [as_u128] is [val]. *)
Definition Uuid := bounded 0 340282366920938463463374607431768211456.
Definition Uuid_nil : Uuid := @Bnd 0 340282366920938463463374607431768211456 0 eq_refl.

(** [t + d] for a duration of [d] nanoseconds, kept inside the range. *)
Definition dt_add (t : DateTime) (d : Z) : DateTime :=
  default t (checked (val t + d)).

Class Extern := {
  (** [serde_json::to_string] / [Value::to_string] and [from_str]. *)
  json_print : Value → string;
  json_parse : string → option Value;
  (** [DateTime::to_rfc3339] and [DateTime::parse_from_rfc3339]. *)
  to_rfc3339 : DateTime → string;
  parse_from_rfc3339 : string → option DateTime;
  (** chrono's serde text form. *)
  dt_serialize : DateTime → string;
  dt_deserialize : string → option DateTime;
  (** [Uuid::to_string] and [Uuid::parse_str]. *)
  uuid_to_string : Uuid → string;
  uuid_parse_str : string → option Uuid;
}.

Class ExternOk `{Extern} : Prop := {
  json_parse_print v : json_plain v = true → json_parse (json_print v) = Some v;
  json_print_is_null v : json_print v = "null" ↔ v = JNull;
  json_print_nonempty v : json_print v ≠ "";
  rfc3339_round t : parse_from_rfc3339 (to_rfc3339 t) = Some t;
  (** The text form of UTC instants is ordered like the instants. *)
  rfc3339_order a b : str_ltb (to_rfc3339 a) (to_rfc3339 b) = (val a <? val b);
  dt_serialize_round t : dt_deserialize (dt_serialize t) = Some t;
  uuid_round u : uuid_parse_str (uuid_to_string u) = Some u;
  uuid_length u : length (bytes (uuid_to_string u)) = 36%nat;
}.

(** The literals of the first migration are texts of the two types. *)
Definition seed_time : string := "1970-01-01T00:00:00Z".
Definition seed_uid (digit : string) : string := "00000000-0000-0000-0000-00000000000" +:+ digit.
Class SeedsOk `{Extern} : Prop := {
  seed_time_parses : is_Some (parse_from_rfc3339 seed_time);
  seed_uid_parses d : d ∈ ["1"; "2"; "3"; "4"] → is_Some (uuid_parse_str (seed_uid d));
}.

Section extern.
Context `{ExternOk}.

Lemma to_rfc3339_inj a b : to_rfc3339 a = to_rfc3339 b → a = b.
Proof. intros E. apply (inj Some). rewrite <- !rfc3339_round. by rewrite E. Qed.

Lemma uuid_to_string_inj a b : uuid_to_string a = uuid_to_string b → a = b.
Proof. intros E. apply (inj Some). rewrite <- !uuid_round. by rewrite E. Qed.
End extern.

(** Both types are strings in JSON. *)
Section json.
Context `{Extern}.

#[export] Instance json_DateTime : Json DateTime | 0 := {|
  to_value t := JStr (dt_serialize t);
  from_value v := match v with JStr s => dt_deserialize s | _ => None end |}.
#[export] Instance json_Uuid : Json Uuid | 0 := {|
  to_value u := JStr (uuid_to_string u);
  from_value v := match v with JStr s => uuid_parse_str s | _ => None end |}.
End json.
#[export] Typeclasses Opaque DateTime Uuid.

#[export] Instance json_DateTime_ok `{ExternOk} : JsonOk DateTime.
Proof. intros t. apply dt_serialize_round. Qed.
#[export] Instance json_Uuid_ok `{ExternOk} : JsonOk Uuid.
Proof. intros u. apply uuid_round. Qed.
#[export] Instance json_DateTime_plain `{Extern} : JsonPlain DateTime.
Proof. done. Qed.
#[export] Instance json_Uuid_plain `{Extern} : JsonPlain Uuid.
Proof. done. Qed.
#[export] Instance json_DateTime_some `{Extern} : JsonSome DateTime.
Proof. done. Qed.
#[export] Instance json_Uuid_some `{Extern} : JsonSome Uuid.
Proof. done. Qed.

(** Decidable equality goes through the opaque names. *)
#[export] Instance DateTime_eq_dec : EqDecision DateTime := bounded_eq_dec _ _.
#[export] Instance Uuid_eq_dec : EqDecision Uuid := bounded_eq_dec _ _.
#[export] Instance Uuid_countable : Countable Uuid := bounded_countable _ _.
