(* ===== verification/Reference.v ===== *)
(** * The third-party laws can hold

    A concrete [Extern] for which [ExternOk] is proved; the witnesses of the
    development run on it.  Identifiers are printed in the usual hyphenated
    hexadecimal form, instants as fixed-width decimals, and JSON values by a
    prefix code with [null] spelled as JSON spells it. *)
From S2P Require Import Prelude RustStd Json External.

Local Open Scope Z_scope.

Definition digit_char (d : Z) : ascii :=
  ascii_of_nat (Z.to_nat (if d <? 10 then 48 + d else 87 + d)).
Definition char_digit (c : ascii) : Z :=
  let n := Z.of_nat (nat_of_ascii c) in if n <? 97 then n - 48 else n - 87.

Lemma char_digit_char d : 0 <= d < 16 → char_digit (digit_char d) = d.
Proof.
  intros Hd. unfold char_digit, digit_char.
  rewrite nat_ascii_embedding by (destruct (d <? 10); lia).
  destruct (Z.ltb_spec d 10); rewrite Z2Nat.id by lia.
  - destruct (Z.ltb_spec (48 + d) 97); lia.
  - destruct (Z.ltb_spec (87 + d) 97); lia.
Qed.

Lemma digit_chars_round ds :
  Forall (λ d, 0 <= d < 16) ds → char_digit <$> (digit_char <$> ds) = ds.
Proof. induction 1 as [|d ds Hd _ IH]; csimpl; [done|]. by rewrite char_digit_char, IH. Qed.

Lemma numeral_Forall base n z :
  0 < base <= 16 → Forall (λ d, 0 <= d < 16) (numeral base n z).
Proof.
  intros ?. eapply Forall_impl; [apply numeral_digits; lia|]. simpl. lia.
Qed.

(** Digits of one width compare as bytes the way they compare as numbers. *)
Lemma lex_ltb_digit_chars a b :
  Forall (λ d, 0 <= d < 10) a → Forall (λ d, 0 <= d < 10) b →
  lex_ltb (digit_char <$> a) (digit_char <$> b) = lexZ_ltb a b.
Proof.
  intros Ha. revert b. induction Ha as [|x a Hx Ha IH]; intros [|y b] Hb; csimpl; try done.
  apply Forall_cons in Hb as [Hy Hb]. rewrite (IH b Hb).
  assert (Hn : ∀ d, 0 <= d < 10 → nat_of_ascii (digit_char d) = Z.to_nat (48 + d)).
  { intros d Hd. unfold digit_char. destruct (Z.ltb_spec d 10); [|lia].
    apply nat_ascii_embedding. lia. }
  destruct (Ascii.eqb_spec (digit_char x) (digit_char y)) as [E|E].
  - apply (f_equal char_digit) in E. rewrite !char_digit_char in E by lia.
    subst. by rewrite Z.eqb_refl.
  - destruct (Z.eqb_spec x y) as [->|]; [done|]. rewrite !Hn by done.
    apply eq_bool_prop_intro. rewrite !Is_true_true, Nat.ltb_lt, Z.ltb_lt. lia.
Qed.

(** ** Identifiers: 8-4-4-4-12 hexadecimal digits *)
Definition hyphenate (l : list ascii) : list ascii :=
  take 8 l ++ "-"%char :: take 4 (drop 8 l) ++ "-"%char :: take 4 (drop 12 l)
    ++ "-"%char :: take 4 (drop 16 l) ++ "-"%char :: drop 20 l.
Definition ref_uuid_to_string (u : Uuid) : string :=
  of_bytes (hyphenate (digit_char <$> numeral 16 32 (val u))).
Definition ref_uuid_parse_str (s : string) : option Uuid :=
  checked (numeral_value 16 0 (char_digit <$> filter (λ c, c ≠ "-"%char) (bytes s))).

Lemma digit_char_not_hyphen d : 0 <= d < 16 → digit_char d ≠ "-"%char.
Proof.
  intros Hd E. apply (f_equal nat_of_ascii) in E. unfold digit_char in E.
  rewrite nat_ascii_embedding in E by (destruct (d <? 10); lia).
  change (nat_of_ascii "-") with 45%nat in E. destruct (Z.ltb_spec d 10); lia.
Qed.

Lemma filter_hyphenate l :
  Forall (λ c, c ≠ "-"%char) l → filter (λ c, c ≠ "-"%char) (hyphenate l) = l.
Proof.
  intros Hl.
  assert (Hid : ∀ k, Forall (λ c, c ≠ "-"%char) k → filter (λ c, c ≠ "-"%char) k = k).
  { intros k. induction 1; [done|]. rewrite filter_cons_True by done. by f_equal. }
  unfold hyphenate.
  rewrite !filter_app, !filter_cons_False, !filter_app, !filter_cons_False,
    !filter_app, !filter_cons_False, !filter_app, !filter_cons_False by tauto.
  rewrite !Hid by auto using Forall_take, Forall_drop.
  change (drop 20 l) with (drop (16 + 4) l). rewrite <- drop_drop, take_drop.
  change (drop 16 l) with (drop (12 + 4) l). rewrite <- drop_drop, take_drop.
  change (drop 12 l) with (drop (8 + 4) l). rewrite <- drop_drop, take_drop.
  apply take_drop.
Qed.

Lemma ref_uuid_round u : ref_uuid_parse_str (ref_uuid_to_string u) = Some u.
Proof.
  unfold ref_uuid_parse_str, ref_uuid_to_string. rewrite bytes_of_bytes.
  pose proof (numeral_Forall 16 32 (val u) ltac:(lia)) as HF.
  rewrite filter_hyphenate.
  - rewrite digit_chars_round, numeral_round by (done || lia).
    rewrite Z.mod_small; [apply checked_val|]. apply (val_range u).
  - apply Forall_fmap. eapply Forall_impl; [done|]. intros d. apply digit_char_not_hyphen.
Qed.

Lemma ref_uuid_length u : length (bytes (ref_uuid_to_string u)) = 36%nat.
Proof.
  unfold ref_uuid_to_string. rewrite bytes_of_bytes. unfold hyphenate.
  repeat (rewrite ?length_app, ?length_take, ?length_drop, ?length_fmap,
    ?length_numeral; cbn [length]). done.
Qed.

(** ** Instants: the offset from year 0 in 21 decimal digits *)
Definition epoch_offset : Z := 62167219200000000000.
Definition ref_to_rfc3339 (t : DateTime) : string :=
  of_bytes (digit_char <$> numeral 10 21 (val t + epoch_offset)).
Definition ref_parse_rfc3339 (s : string) : option DateTime :=
  if str_eqb s seed_time then checked 0 else
  checked (numeral_value 10 0 (char_digit <$> bytes s) - epoch_offset).

Lemma dt_offset_mod (t : DateTime) :
  (val t + epoch_offset) `mod` 10 ^ Z.of_nat 21 = val t + epoch_offset.
Proof.
  apply Z.mod_small. pose proof (val_range t). unfold epoch_offset.
  change (10 ^ Z.of_nat 21) with 1000000000000000000000. lia.
Qed.

Lemma ref_rfc3339_round t : ref_parse_rfc3339 (ref_to_rfc3339 t) = Some t.
Proof.
  unfold ref_parse_rfc3339.
  rewrite str_eqb_neq.
  2:{ intros E%(f_equal (λ s, length (bytes s))). revert E. unfold ref_to_rfc3339.
      by rewrite bytes_of_bytes, length_fmap, length_numeral. }
  unfold ref_to_rfc3339. rewrite bytes_of_bytes.
  rewrite digit_chars_round by (apply numeral_Forall; lia).
  rewrite numeral_round, dt_offset_mod by lia.
  replace (val t + epoch_offset - epoch_offset) with (val t) by lia. apply checked_val.
Qed.

Lemma ref_rfc3339_order a b :
  str_ltb (ref_to_rfc3339 a) (ref_to_rfc3339 b) = (val a <? val b).
Proof.
  unfold str_ltb, ref_to_rfc3339. rewrite !bytes_of_bytes, lex_ltb_digit_chars;
    try (apply numeral_digits; lia).
  rewrite numeral_order, !dt_offset_mod by lia.
  apply eq_bool_prop_intro. rewrite !Is_true_true, !Z.ltb_lt. lia.
Qed.

(** ** JSON values as text: a prefix code over stdpp's generic trees *)
Definition value_leaf : Type := bool + Z + (string + string) + string.

Fixpoint value_to_tree (v : Value) : gen_tree value_leaf :=
  match v with
  | JNull => GenNode 0 []
  | JBool b => GenLeaf (inl (inl (inl b)))
  | JInt z => GenLeaf (inl (inl (inr z)))
  | JFloat s => GenLeaf (inl (inr (inl s)))
  | JStr s => GenLeaf (inl (inr (inr s)))
  | JArr l => GenNode 1 (value_to_tree <$> l)
  | JObj l =>
      GenNode 2 ((λ kv, GenNode 3 [GenLeaf (inr kv.1); value_to_tree kv.2]) <$> l)
  end.

Fixpoint tree_to_value (t : gen_tree value_leaf) : Value :=
  match t with
  | GenLeaf (inl (inl (inl b))) => JBool b
  | GenLeaf (inl (inl (inr z))) => JInt z
  | GenLeaf (inl (inr (inl s))) => JFloat s
  | GenLeaf (inl (inr (inr s))) => JStr s
  | GenNode 1 l => JArr (tree_to_value <$> l)
  | GenNode 2 l =>
      JObj ((λ t, match t with
                  | GenNode 3 [GenLeaf (inr k); t'] => (k, tree_to_value t')
                  | _ => ("", JNull)
                  end) <$> l)
  | _ => JNull
  end.

Fixpoint value_tree_round (v : Value) : tree_to_value (value_to_tree v) = v.
Proof.
  destruct v as [| | | | |l|l]; simpl; try done; f_equal.
  - induction l as [|v l IH]; csimpl; [done|]. by rewrite value_tree_round, IH.
  - induction l as [|[k v] l IH]; csimpl; [done|]. by rewrite value_tree_round, IH.
Qed.

#[export] Instance Value_eq_dec : EqDecision Value.
Proof.
  refine (λ v w, cast_if (decide (value_to_tree v = value_to_tree w))).
  - abstract (rewrite <- (value_tree_round v), <- (value_tree_round w); congruence).
  - abstract congruence.
Defined.
#[export] Instance Value_countable : Countable Value :=
  inj_countable' value_to_tree tree_to_value value_tree_round.

(** A positive as its binary digits, least significant first. *)
Fixpoint pos_bits (p : positive) : list ascii :=
  match p with
  | xH => []
  | xO p => "0"%char :: pos_bits p
  | xI p => "1"%char :: pos_bits p
  end.
Fixpoint bits_pos (l : list ascii) : positive :=
  match l with
  | [] => xH
  | c :: l => if Ascii.eqb c "0" then xO (bits_pos l) else xI (bits_pos l)
  end.
Lemma pos_bits_round p : bits_pos (pos_bits p) = p.
Proof. induction p; simpl; congruence. Qed.

Definition ref_json_print (v : Value) : string :=
  match v with
  | JNull => "null"
  | _ => String "#" (of_bytes (pos_bits (encode v)))
  end.
Definition ref_json_parse (s : string) : option Value :=
  match s with
  | String c l =>
      if Ascii.eqb c "#" then decode (bits_pos (bytes l))
      else if str_eqb s "null" then Some JNull else None
  | _ => None
  end.

Lemma ref_json_round v : ref_json_parse (ref_json_print v) = Some v.
Proof.
  unfold ref_json_parse, ref_json_print.
  destruct v; [done|..]; simpl; by rewrite bytes_of_bytes, pos_bits_round, decode_encode.
Qed.

(** ** The instance *)
#[export] Instance ref_extern : Extern := {|
  json_print := ref_json_print;
  json_parse := ref_json_parse;
  to_rfc3339 := ref_to_rfc3339;
  parse_from_rfc3339 := ref_parse_rfc3339;
  dt_serialize t := ref_to_rfc3339 t +:+ "Z";
  dt_deserialize s := strip_suffix "Z" s ≫= ref_parse_rfc3339;
  uuid_to_string := ref_uuid_to_string;
  uuid_parse_str := ref_uuid_parse_str |}.

#[export] Instance ref_extern_ok : ExternOk.
Proof.
  split.
  - intros v _. apply ref_json_round.
  - by intros [].
  - by intros [].
  - apply ref_rfc3339_round.
  - apply ref_rfc3339_order.
  - intros t. cbn [dt_serialize dt_deserialize ref_extern].
    rewrite strip_suffix_app. apply ref_rfc3339_round.
  - apply ref_uuid_round.
  - apply ref_uuid_length.
Qed.

#[export] Instance ref_seeds_ok : SeedsOk.
Proof.
  split.
  - apply (bool_decide_unpack _). vm_compute. exact I.
  - intros d Hd. apply (bool_decide_unpack _).
    repeat (apply elem_of_cons in Hd as [->|Hd]; [vm_compute; exact I|]). by apply elem_of_nil in Hd.
Qed.
