(* ===== verification/Models.v ===== *)
(** * The API objects ([src/src/models/])

    One record per Rust struct and one inductive type per enum, field by field
    and variant by variant, with the [Default] values (derived or written out)
    and the small accessors.  A field [f] of a struct is prefixed with an
    abbreviation of the struct's name; a variant [V] of an enum [E] is [E_V].
    The serde attributes of the fields are in [Wire.v]. *)
From S2P Require Import Prelude RustStd Json External.

(** ** Metadata ([models/meta.rs]) *)

Record TypeMeta : Type := mk_TypeMeta {
  tm_api_version : option string;
  tm_kind : option string;
}.
Definition TypeMeta_default : TypeMeta := {|
  tm_api_version := None;
  tm_kind := None |}.

Record OwnerReference : Type := mk_OwnerReference {
  oref_api_version : string;
  oref_kind : string;
  oref_name : string;
  oref_uid : Uuid;
  oref_controller : option bool;
  oref_block_owner_deletion : option bool;
}.

Record ObjectMeta : Type := mk_ObjectMeta {
  om_name : option string;
  om_namespace : option string;
  om_uid : option Uuid;
  om_resource_version : option string;
  om_labels : option (gmap string string);
  om_annotations : option (gmap string string);
  om_creation_timestamp : option DateTime;
  om_owner_references : option (list OwnerReference);
}.
Definition ObjectMeta_default : ObjectMeta := {|
  om_name := None;
  om_namespace := None;
  om_uid := None;
  om_resource_version := None;
  om_labels := None;
  om_annotations := None;
  om_creation_timestamp := None;
  om_owner_references := None |}.

Record LabelSelectorRequirement : Type := mk_LabelSelectorRequirement {
  lsr_key : string;
  lsr_operator : string;
  lsr_values : option (list string);
}.

Record LabelSelector : Type := mk_LabelSelector {
  ls_match_labels : option (gmap string string);
  ls_match_expressions : option (list LabelSelectorRequirement);
}.
Definition LabelSelector_default : LabelSelector := {|
  ls_match_labels := None;
  ls_match_expressions := None |}.

Record ListMeta : Type := mk_ListMeta {
  lm_resource_version : option string;
  lm_continue_token : option string;
}.
Definition ListMeta_default : ListMeta := {|
  lm_resource_version := None;
  lm_continue_token := None |}.

(** ** Scheduling preferences ([models/affinity.rs]) *)

Record NodeSelectorRequirement : Type := mk_NodeSelectorRequirement {
  nsr_key : string;
  nsr_operator : string;
  nsr_values : list string;
}.
Definition NodeSelectorRequirement_default : NodeSelectorRequirement := {|
  nsr_key := "";
  nsr_operator := "";
  nsr_values := [] |}.

Record NodeSelectorTerm : Type := mk_NodeSelectorTerm {
  nst_match_expressions : list NodeSelectorRequirement;
  nst_match_fields : list NodeSelectorRequirement;
}.
Definition NodeSelectorTerm_default : NodeSelectorTerm := {|
  nst_match_expressions := [];
  nst_match_fields := [] |}.

Record NodeSelector : Type := mk_NodeSelector {
  nsel_node_selector_terms : list NodeSelectorTerm;
}.
Definition NodeSelector_default : NodeSelector := {|
  nsel_node_selector_terms := [] |}.

Record PreferredSchedulingTerm : Type := mk_PreferredSchedulingTerm {
  pterm_weight : i32;
  pterm_preference : NodeSelectorTerm;
}.
Definition PreferredSchedulingTerm_default : PreferredSchedulingTerm := {|
  pterm_weight := i32_zero;
  pterm_preference := NodeSelectorTerm_default |}.

Record NodeAffinity : Type := mk_NodeAffinity {
  naff_required_during_scheduling_ignored_during_execution : option NodeSelector;
  naff_preferred_during_scheduling_ignored_during_execution : list PreferredSchedulingTerm;
}.
Definition NodeAffinity_default : NodeAffinity := {|
  naff_required_during_scheduling_ignored_during_execution := None;
  naff_preferred_during_scheduling_ignored_during_execution := [] |}.

Record PodAffinityTerm : Type := mk_PodAffinityTerm {
  pat_label_selector : option LabelSelector;
  pat_namespaces : list string;
  pat_topology_key : string;
}.
Definition PodAffinityTerm_default : PodAffinityTerm := {|
  pat_label_selector := None;
  pat_namespaces := [];
  pat_topology_key := "" |}.

Record WeightedPodAffinityTerm : Type := mk_WeightedPodAffinityTerm {
  wpat_weight : i32;
  wpat_pod_affinity_term : PodAffinityTerm;
}.
Definition WeightedPodAffinityTerm_default : WeightedPodAffinityTerm := {|
  wpat_weight := i32_zero;
  wpat_pod_affinity_term := PodAffinityTerm_default |}.

Record PodAffinity : Type := mk_PodAffinity {
  paff_required_during_scheduling_ignored_during_execution : list PodAffinityTerm;
  paff_preferred_during_scheduling_ignored_during_execution : list WeightedPodAffinityTerm;
}.
Definition PodAffinity_default : PodAffinity := {|
  paff_required_during_scheduling_ignored_during_execution := [];
  paff_preferred_during_scheduling_ignored_during_execution := [] |}.

Record PodAntiAffinity : Type := mk_PodAntiAffinity {
  panti_required_during_scheduling_ignored_during_execution : list PodAffinityTerm;
  panti_preferred_during_scheduling_ignored_during_execution : list WeightedPodAffinityTerm;
}.
Definition PodAntiAffinity_default : PodAntiAffinity := {|
  panti_required_during_scheduling_ignored_during_execution := [];
  panti_preferred_during_scheduling_ignored_during_execution := [] |}.

Record Affinity : Type := mk_Affinity {
  aff_node_affinity : option NodeAffinity;
  aff_pod_affinity : option PodAffinity;
  aff_pod_anti_affinity : option PodAntiAffinity;
}.
Definition Affinity_default : Affinity := {|
  aff_node_affinity := None;
  aff_pod_affinity := None;
  aff_pod_anti_affinity := None |}.

(** ** Pods ([models/pod.rs]) *)

Inductive ImagePullPolicy : Type :=
| ImagePullPolicy_Always
| ImagePullPolicy_IfNotPresent
| ImagePullPolicy_Never.
#[export] Instance ImagePullPolicy_eq_dec : EqDecision ImagePullPolicy.
Proof. solve_decision. Defined.
Definition ImagePullPolicy_default : ImagePullPolicy := ImagePullPolicy_IfNotPresent.

Record EnvVar : Type := mk_EnvVar {
  env_name : string;
  env_value : option string;
}.

Inductive Protocol : Type :=
| Protocol_TCP
| Protocol_UDP.
#[export] Instance Protocol_eq_dec : EqDecision Protocol.
Proof. solve_decision. Defined.
Definition Protocol_default : Protocol := Protocol_TCP.

Record ContainerPort : Type := mk_ContainerPort {
  cp_name : option string;
  cp_container_port : i32;
  cp_host_port : option i32;
  cp_protocol : option Protocol;
}.

Record ResourceRequirements : Type := mk_ResourceRequirements {
  rr_limits : option (gmap string string);
  rr_requests : option (gmap string string);
}.
Definition ResourceRequirements_default : ResourceRequirements := {|
  rr_limits := None;
  rr_requests := None |}.

Record Container : Type := mk_Container {
  ctr_name : string;
  ctr_image : string;
  ctr_image_pull_policy : option ImagePullPolicy;
  ctr_command : option (list string);
  ctr_args : option (list string);
  ctr_env : option (list EnvVar);
  ctr_ports : option (list ContainerPort);
  ctr_resources : option ResourceRequirements;
  ctr_working_dir : option string;
}.

Inductive RestartPolicy : Type :=
| RestartPolicy_Always
| RestartPolicy_OnFailure
| RestartPolicy_Never.
#[export] Instance RestartPolicy_eq_dec : EqDecision RestartPolicy.
Proof. solve_decision. Defined.
Definition RestartPolicy_default : RestartPolicy := RestartPolicy_Always.

Record PodSpec : Type := mk_PodSpec {
  ps_containers : list Container;
  ps_restart_policy : option RestartPolicy;
  ps_node_selector : option (gmap string string);
  ps_node_name : option string;
  ps_service_account_name : option string;
  ps_host_network : bool;
  ps_affinity : option Affinity;
  ps_runtime_class_name : option string;
}.
Definition PodSpec_default : PodSpec := {|
  ps_containers := [];
  ps_restart_policy := None;
  ps_node_selector := None;
  ps_node_name := None;
  ps_service_account_name := None;
  ps_host_network := false;
  ps_affinity := None;
  ps_runtime_class_name := None |}.

Inductive PodPhase : Type :=
| PodPhase_Pending
| PodPhase_Running
| PodPhase_Succeeded
| PodPhase_Failed
| PodPhase_Unknown.
#[export] Instance PodPhase_eq_dec : EqDecision PodPhase.
Proof. solve_decision. Defined.
Definition PodPhase_default : PodPhase := PodPhase_Pending.

Record PodCondition : Type := mk_PodCondition {
  pcond_condition_type : string;
  pcond_status : string;
  pcond_last_probe_time : option DateTime;
  pcond_last_transition_time : option DateTime;
  pcond_reason : option string;
  pcond_message : option string;
}.

Record PodIP : Type := mk_PodIP {
  pip_ip : string;
}.

Record ContainerStateWaiting : Type := mk_ContainerStateWaiting {
  csw_reason : option string;
  csw_message : option string;
}.

Record ContainerStateRunning : Type := mk_ContainerStateRunning {
  csr_started_at : option DateTime;
}.

Record ContainerStateTerminated : Type := mk_ContainerStateTerminated {
  cst_exit_code : i32;
  cst_signal : option i32;
  cst_reason : option string;
  cst_message : option string;
  cst_started_at : option DateTime;
  cst_finished_at : option DateTime;
  cst_container_id : option string;
}.

Record ContainerState : Type := mk_ContainerState {
  cstate_waiting : option ContainerStateWaiting;
  cstate_running : option ContainerStateRunning;
  cstate_terminated : option ContainerStateTerminated;
}.
Definition ContainerState_default : ContainerState := {|
  cstate_waiting := None;
  cstate_running := None;
  cstate_terminated := None |}.

Record ContainerStatus : Type := mk_ContainerStatus {
  cs_name : string;
  cs_ready : bool;
  cs_restart_count : i32;
  cs_image : string;
  cs_image_id : string;
  cs_container_id : option string;
  cs_state : option ContainerState;
  cs_last_state : option ContainerState;
  cs_started : option bool;
}.

Record PodStatus : Type := mk_PodStatus {
  pstat_phase : PodPhase;
  pstat_conditions : option (list PodCondition);
  pstat_pod_ip : option string;
  pstat_pod_i_ps : option (list PodIP);
  pstat_host_ip : option string;
  pstat_start_time : option DateTime;
  pstat_container_statuses : option (list ContainerStatus);
  pstat_message : option string;
  pstat_reason : option string;
}.
Definition PodStatus_default : PodStatus := {|
  pstat_phase := PodPhase_default;
  pstat_conditions := None;
  pstat_pod_ip := None;
  pstat_pod_i_ps := None;
  pstat_host_ip := None;
  pstat_start_time := None;
  pstat_container_statuses := None;
  pstat_message := None;
  pstat_reason := None |}.

Record Pod : Type := mk_Pod {
  pod_type_meta : TypeMeta;
  pod_metadata : ObjectMeta;
  pod_spec : PodSpec;
  pod_status : option PodStatus;
}.
Definition Pod_default : Pod := {|
  pod_type_meta := mk_TypeMeta (Some "v1") (Some "Pod");
  pod_metadata := ObjectMeta_default;
  pod_spec := PodSpec_default;
  pod_status := None |}.

Record PodTemplateSpec : Type := mk_PodTemplateSpec {
  pts_metadata : ObjectMeta;
  pts_spec : PodSpec;
}.
Definition PodTemplateSpec_default : PodTemplateSpec := {|
  pts_metadata := ObjectMeta_default;
  pts_spec := PodSpec_default |}.

(** ** Nodes ([models/node.rs]) *)

Inductive TaintEffect : Type :=
| TaintEffect_NoSchedule
| TaintEffect_PreferNoSchedule
| TaintEffect_NoExecute.
#[export] Instance TaintEffect_eq_dec : EqDecision TaintEffect.
Proof. solve_decision. Defined.

Record Taint : Type := mk_Taint {
  taint_key : string;
  taint_value : option string;
  taint_effect : TaintEffect;
  taint_time_added : option DateTime;
}.

Record NodeSpec : Type := mk_NodeSpec {
  nspec_pod_cidr : option string;
  nspec_provider_id : option string;
  nspec_unschedulable : bool;
  nspec_taints : option (list Taint);
}.
Definition NodeSpec_default : NodeSpec := {|
  nspec_pod_cidr := None;
  nspec_provider_id := None;
  nspec_unschedulable := false;
  nspec_taints := None |}.

Inductive NodeConditionType : Type :=
| NodeConditionType_Ready
| NodeConditionType_MemoryPressure
| NodeConditionType_DiskPressure
| NodeConditionType_PIDPressure
| NodeConditionType_NetworkUnavailable.
#[export] Instance NodeConditionType_eq_dec : EqDecision NodeConditionType.
Proof. solve_decision. Defined.

Inductive ConditionStatus : Type :=
| ConditionStatus_True
| ConditionStatus_False
| ConditionStatus_Unknown.
#[export] Instance ConditionStatus_eq_dec : EqDecision ConditionStatus.
Proof. solve_decision. Defined.

Record NodeCondition : Type := mk_NodeCondition {
  ncond_condition_type : NodeConditionType;
  ncond_status : ConditionStatus;
  ncond_last_heartbeat_time : option DateTime;
  ncond_last_transition_time : option DateTime;
  ncond_reason : option string;
  ncond_message : option string;
}.

Inductive NodeAddressType : Type :=
| NodeAddressType_Hostname
| NodeAddressType_InternalIP
| NodeAddressType_ExternalIP
| NodeAddressType_InternalDNS
| NodeAddressType_ExternalDNS.
#[export] Instance NodeAddressType_eq_dec : EqDecision NodeAddressType.
Proof. solve_decision. Defined.

Record NodeAddress : Type := mk_NodeAddress {
  naddr_address_type : NodeAddressType;
  naddr_address : string;
}.

Record NodeSystemInfo : Type := mk_NodeSystemInfo {
  ninfo_machine_id : option string;
  ninfo_system_uuid : option string;
  ninfo_boot_id : option string;
  ninfo_kernel_version : option string;
  ninfo_os_image : option string;
  ninfo_container_runtime_version : option string;
  ninfo_kubelet_version : option string;
  ninfo_kube_proxy_version : option string;
  ninfo_operating_system : option string;
  ninfo_architecture : option string;
}.
Definition NodeSystemInfo_default : NodeSystemInfo := {|
  ninfo_machine_id := None;
  ninfo_system_uuid := None;
  ninfo_boot_id := None;
  ninfo_kernel_version := None;
  ninfo_os_image := None;
  ninfo_container_runtime_version := None;
  ninfo_kubelet_version := None;
  ninfo_kube_proxy_version := None;
  ninfo_operating_system := None;
  ninfo_architecture := None |}.

Record ContainerImage : Type := mk_ContainerImage {
  cimg_names : list string;
  cimg_size_bytes : option i64;
}.

Inductive NodePhase : Type :=
| NodePhase_Pending
| NodePhase_Running
| NodePhase_Terminated.
#[export] Instance NodePhase_eq_dec : EqDecision NodePhase.
Proof. solve_decision. Defined.
Definition NodePhase_default : NodePhase := NodePhase_Pending.

Record NodeStatus : Type := mk_NodeStatus {
  nstat_capacity : option (gmap string string);
  nstat_allocatable : option (gmap string string);
  nstat_conditions : option (list NodeCondition);
  nstat_addresses : option (list NodeAddress);
  nstat_node_info : option NodeSystemInfo;
  nstat_images : option (list ContainerImage);
  nstat_phase : NodePhase;
}.
Definition NodeStatus_default : NodeStatus := {|
  nstat_capacity := None;
  nstat_allocatable := None;
  nstat_conditions := None;
  nstat_addresses := None;
  nstat_node_info := None;
  nstat_images := None;
  nstat_phase := NodePhase_default |}.

Record Node : Type := mk_Node {
  node_type_meta : TypeMeta;
  node_metadata : ObjectMeta;
  node_spec : option NodeSpec;
  node_status : option NodeStatus;
}.
Definition Node_default : Node := {|
  node_type_meta := mk_TypeMeta (Some "v1") (Some "Node");
  node_metadata := ObjectMeta_default;
  node_spec := None;
  node_status := None |}.

(** ** Deployments ([models/deployment.rs]) *)

Inductive DeploymentStrategyType : Type :=
| DeploymentStrategyType_RollingUpdate
| DeploymentStrategyType_Recreate.
#[export] Instance DeploymentStrategyType_eq_dec : EqDecision DeploymentStrategyType.
Proof. solve_decision. Defined.
Definition DeploymentStrategyType_default : DeploymentStrategyType := DeploymentStrategyType_RollingUpdate.

Inductive IntOrString : Type :=
| IntOrString_Int (z : i32)
| IntOrString_String (s : string).

Record RollingUpdateDeployment : Type := mk_RollingUpdateDeployment {
  ru_max_unavailable : option IntOrString;
  ru_max_surge : option IntOrString;
}.

Record DeploymentStrategy : Type := mk_DeploymentStrategy {
  dstrat_strategy_type : DeploymentStrategyType;
  dstrat_rolling_update : option RollingUpdateDeployment;
}.
Definition DeploymentStrategy_default : DeploymentStrategy := {|
  dstrat_strategy_type := DeploymentStrategyType_default;
  dstrat_rolling_update := None |}.

Record DeploymentSpec : Type := mk_DeploymentSpec {
  dspec_replicas : option i32;
  dspec_selector : LabelSelector;
  dspec_template : PodTemplateSpec;
  dspec_strategy : option DeploymentStrategy;
  dspec_min_ready_seconds : option i32;
  dspec_revision_history_limit : option i32;
  dspec_paused : bool;
}.
Definition DeploymentSpec_default : DeploymentSpec := {|
  dspec_replicas := None;
  dspec_selector := LabelSelector_default;
  dspec_template := PodTemplateSpec_default;
  dspec_strategy := None;
  dspec_min_ready_seconds := None;
  dspec_revision_history_limit := None;
  dspec_paused := false |}.

Record DeploymentCondition : Type := mk_DeploymentCondition {
  dcond_condition_type : string;
  dcond_status : string;
  dcond_last_update_time : option DateTime;
  dcond_last_transition_time : option DateTime;
  dcond_reason : option string;
  dcond_message : option string;
}.

Record DeploymentStatus : Type := mk_DeploymentStatus {
  dstat_replicas : i32;
  dstat_updated_replicas : i32;
  dstat_ready_replicas : i32;
  dstat_available_replicas : i32;
  dstat_unavailable_replicas : i32;
  dstat_observed_generation : option i64;
  dstat_conditions : option (list DeploymentCondition);
}.
Definition DeploymentStatus_default : DeploymentStatus := {|
  dstat_replicas := i32_zero;
  dstat_updated_replicas := i32_zero;
  dstat_ready_replicas := i32_zero;
  dstat_available_replicas := i32_zero;
  dstat_unavailable_replicas := i32_zero;
  dstat_observed_generation := None;
  dstat_conditions := None |}.

Record Deployment : Type := mk_Deployment {
  dep_type_meta : TypeMeta;
  dep_metadata : ObjectMeta;
  dep_spec : DeploymentSpec;
  dep_status : option DeploymentStatus;
}.
Definition Deployment_default : Deployment := {|
  dep_type_meta := mk_TypeMeta (Some "apps/v1") (Some "Deployment");
  dep_metadata := ObjectMeta_default;
  dep_spec := DeploymentSpec_default;
  dep_status := None |}.

(** ** Stateful sets ([models/statefulset.rs]) *)

Inductive PodManagementPolicy : Type :=
| PodManagementPolicy_OrderedReady
| PodManagementPolicy_Parallel.
#[export] Instance PodManagementPolicy_eq_dec : EqDecision PodManagementPolicy.
Proof. solve_decision. Defined.
Definition PodManagementPolicy_default : PodManagementPolicy := PodManagementPolicy_OrderedReady.

Record StatefulSetSpec : Type := mk_StatefulSetSpec {
  ssspec_replicas : option i32;
  ssspec_selector : LabelSelector;
  ssspec_template : PodTemplateSpec;
  ssspec_service_name : option string;
  ssspec_pod_management_policy : option PodManagementPolicy;
}.
Definition StatefulSetSpec_default : StatefulSetSpec := {|
  ssspec_replicas := None;
  ssspec_selector := LabelSelector_default;
  ssspec_template := PodTemplateSpec_default;
  ssspec_service_name := None;
  ssspec_pod_management_policy := None |}.

Record StatefulSetStatus : Type := mk_StatefulSetStatus {
  ssstat_replicas : i32;
  ssstat_ready_replicas : i32;
  ssstat_current_replicas : i32;
  ssstat_observed_generation : option i64;
  ssstat_current_revision : option string;
  ssstat_last_transition_time : option DateTime;
}.
Definition StatefulSetStatus_default : StatefulSetStatus := {|
  ssstat_replicas := i32_zero;
  ssstat_ready_replicas := i32_zero;
  ssstat_current_replicas := i32_zero;
  ssstat_observed_generation := None;
  ssstat_current_revision := None;
  ssstat_last_transition_time := None |}.

Record StatefulSet : Type := mk_StatefulSet {
  ss_type_meta : TypeMeta;
  ss_metadata : ObjectMeta;
  ss_spec : StatefulSetSpec;
  ss_status : option StatefulSetStatus;
}.
Definition StatefulSet_default : StatefulSet := {|
  ss_type_meta := mk_TypeMeta (Some "apps/v1") (Some "StatefulSet");
  ss_metadata := ObjectMeta_default;
  ss_spec := StatefulSetSpec_default;
  ss_status := None |}.

(** ** Daemon sets ([models/daemonset.rs]) *)

Record DaemonSetSpec : Type := mk_DaemonSetSpec {
  dsspec_selector : LabelSelector;
  dsspec_template : PodTemplateSpec;
  dsspec_min_ready_seconds : option i32;
}.
Definition DaemonSetSpec_default : DaemonSetSpec := {|
  dsspec_selector := LabelSelector_default;
  dsspec_template := PodTemplateSpec_default;
  dsspec_min_ready_seconds := None |}.

Record DaemonSetStatus : Type := mk_DaemonSetStatus {
  dsstat_desired_number_scheduled : i32;
  dsstat_current_number_scheduled : i32;
  dsstat_number_ready : i32;
  dsstat_updated_number_scheduled : i32;
  dsstat_number_misscheduled : i32;
  dsstat_number_available : i32;
  dsstat_observed_generation : option i64;
  dsstat_last_transition_time : option DateTime;
}.
Definition DaemonSetStatus_default : DaemonSetStatus := {|
  dsstat_desired_number_scheduled := i32_zero;
  dsstat_current_number_scheduled := i32_zero;
  dsstat_number_ready := i32_zero;
  dsstat_updated_number_scheduled := i32_zero;
  dsstat_number_misscheduled := i32_zero;
  dsstat_number_available := i32_zero;
  dsstat_observed_generation := None;
  dsstat_last_transition_time := None |}.

Record DaemonSet : Type := mk_DaemonSet {
  ds_type_meta : TypeMeta;
  ds_metadata : ObjectMeta;
  ds_spec : DaemonSetSpec;
  ds_status : option DaemonSetStatus;
}.
Definition DaemonSet_default : DaemonSet := {|
  ds_type_meta := mk_TypeMeta (Some "apps/v1") (Some "DaemonSet");
  ds_metadata := ObjectMeta_default;
  ds_spec := DaemonSetSpec_default;
  ds_status := None |}.

(** ** Services and endpoints ([models/service.rs]) *)

Record ServicePort : Type := mk_ServicePort {
  sport_name : option string;
  sport_protocol : Protocol;
  sport_port : i32;
  sport_target_port : option IntOrString;
  sport_node_port : option i32;
}.

Inductive ServiceType : Type :=
| ServiceType_ClusterIP
| ServiceType_NodePort
| ServiceType_LoadBalancer
| ServiceType_ExternalName.
#[export] Instance ServiceType_eq_dec : EqDecision ServiceType.
Proof. solve_decision. Defined.
Definition ServiceType_default : ServiceType := ServiceType_ClusterIP.

Inductive SessionAffinity : Type :=
| SessionAffinity_None
| SessionAffinity_ClientIP.
#[export] Instance SessionAffinity_eq_dec : EqDecision SessionAffinity.
Proof. solve_decision. Defined.
Definition SessionAffinity_default : SessionAffinity := SessionAffinity_None.

Record ServiceSpec : Type := mk_ServiceSpec {
  sspec_selector : option (gmap string string);
  sspec_ports : list ServicePort;
  sspec_service_type : ServiceType;
  sspec_cluster_ip : option string;
  sspec_external_i_ps : option (list string);
  sspec_session_affinity : option SessionAffinity;
}.
Definition ServiceSpec_default : ServiceSpec := {|
  sspec_selector := None;
  sspec_ports := [];
  sspec_service_type := ServiceType_default;
  sspec_cluster_ip := None;
  sspec_external_i_ps := None;
  sspec_session_affinity := None |}.

Record LoadBalancerIngress : Type := mk_LoadBalancerIngress {
  lbi_ip : option string;
  lbi_hostname : option string;
}.

Record LoadBalancerStatus : Type := mk_LoadBalancerStatus {
  lbs_ingress : option (list LoadBalancerIngress);
}.
Definition LoadBalancerStatus_default : LoadBalancerStatus := {|
  lbs_ingress := None |}.

Record ServiceStatus : Type := mk_ServiceStatus {
  sstat_load_balancer : option LoadBalancerStatus;
}.
Definition ServiceStatus_default : ServiceStatus := {|
  sstat_load_balancer := None |}.

Record Service : Type := mk_Service {
  svc_type_meta : TypeMeta;
  svc_metadata : ObjectMeta;
  svc_spec : ServiceSpec;
  svc_status : option ServiceStatus;
}.
Definition Service_default : Service := {|
  svc_type_meta := mk_TypeMeta (Some "v1") (Some "Service");
  svc_metadata := ObjectMeta_default;
  svc_spec := ServiceSpec_default;
  svc_status := None |}.

Record ObjectReference : Type := mk_ObjectReference {
  objref_api_version : option string;
  objref_kind : option string;
  objref_name : option string;
  objref_namespace : option string;
  objref_uid : option Uuid;
  objref_resource_version : option string;
  objref_field_path : option string;
}.
Definition ObjectReference_default : ObjectReference := {|
  objref_api_version := None;
  objref_kind := None;
  objref_name := None;
  objref_namespace := None;
  objref_uid := None;
  objref_resource_version := None;
  objref_field_path := None |}.

Record EndpointAddress : Type := mk_EndpointAddress {
  epa_ip : string;
  epa_hostname : option string;
  epa_node_name : option string;
  epa_target_ref : option ObjectReference;
}.

Record EndpointPort : Type := mk_EndpointPort {
  epp_name : option string;
  epp_port : i32;
  epp_protocol : Protocol;
}.

Record EndpointSubset : Type := mk_EndpointSubset {
  eps_addresses : option (list EndpointAddress);
  eps_not_ready_addresses : option (list EndpointAddress);
  eps_ports : option (list EndpointPort);
}.
Definition EndpointSubset_default : EndpointSubset := {|
  eps_addresses := None;
  eps_not_ready_addresses := None;
  eps_ports := None |}.

Record Endpoints : Type := mk_Endpoints {
  ep_type_meta : TypeMeta;
  ep_metadata : ObjectMeta;
  ep_subsets : list EndpointSubset;
}.
Definition Endpoints_default : Endpoints := {|
  ep_type_meta := mk_TypeMeta (Some "v1") (Some "Endpoints");
  ep_metadata := ObjectMeta_default;
  ep_subsets := [] |}.

(** ** Namespaces ([models/namespace.rs]) *)

Record NamespaceSpec : Type := mk_NamespaceSpec {
  nsspec_finalizers : option (list string);
}.
Definition NamespaceSpec_default : NamespaceSpec := {|
  nsspec_finalizers := None |}.

Inductive NamespacePhase : Type :=
| NamespacePhase_Active
| NamespacePhase_Terminating.
#[export] Instance NamespacePhase_eq_dec : EqDecision NamespacePhase.
Proof. solve_decision. Defined.
Definition NamespacePhase_default : NamespacePhase := NamespacePhase_Active.

Record NamespaceCondition : Type := mk_NamespaceCondition {
  nscond_condition_type : string;
  nscond_status : string;
  nscond_last_transition_time : option DateTime;
  nscond_reason : option string;
  nscond_message : option string;
}.

Record NamespaceStatus : Type := mk_NamespaceStatus {
  nsstat_phase : NamespacePhase;
  nsstat_conditions : option (list NamespaceCondition);
}.
Definition NamespaceStatus_default : NamespaceStatus := {|
  nsstat_phase := NamespacePhase_default;
  nsstat_conditions := None |}.

Record Namespace : Type := mk_Namespace {
  ns_type_meta : TypeMeta;
  ns_metadata : ObjectMeta;
  ns_spec : option NamespaceSpec;
  ns_status : option NamespaceStatus;
}.
Definition Namespace_default : Namespace := {|
  ns_type_meta := mk_TypeMeta (Some "v1") (Some "Namespace");
  ns_metadata := ObjectMeta_default;
  ns_spec := None;
  ns_status := None |}.

(** ** Events ([models/event.rs]) *)

Record EventSource : Type := mk_EventSource {
  evsrc_component : option string;
  evsrc_host : option string;
}.

Inductive EventType : Type :=
| EventType_Normal
| EventType_Warning.
#[export] Instance EventType_eq_dec : EqDecision EventType.
Proof. solve_decision. Defined.
Definition EventType_default : EventType := EventType_Normal.

Record Event : Type := mk_Event {
  ev_type_meta : TypeMeta;
  ev_metadata : ObjectMeta;
  ev_involved_object : ObjectReference;
  ev_reason : option string;
  ev_message : option string;
  ev_source : option EventSource;
  ev_first_timestamp : option DateTime;
  ev_last_timestamp : option DateTime;
  ev_count : option i32;
  ev_event_type : option EventType;
  ev_event_time : option DateTime;
  ev_action : option string;
  ev_reporting_controller : option string;
  ev_reporting_instance : option string;
}.

(** ** Service accounts, secrets, config maps, RBAC ([models/auth.rs]) *)

Record ObjectReferenceLite : Type := mk_ObjectReferenceLite {
  orl_name : option string;
}.
Definition ObjectReferenceLite_default : ObjectReferenceLite := {|
  orl_name := None |}.

Record ServiceAccount : Type := mk_ServiceAccount {
  sa_type_meta : TypeMeta;
  sa_metadata : ObjectMeta;
  sa_secrets : option (list ObjectReferenceLite);
  sa_image_pull_secrets : option (list ObjectReferenceLite);
  sa_automount_service_account_token : option bool;
}.
Definition ServiceAccount_default : ServiceAccount := {|
  sa_type_meta := mk_TypeMeta (Some "v1") (Some "ServiceAccount");
  sa_metadata := ObjectMeta_default;
  sa_secrets := None;
  sa_image_pull_secrets := None;
  sa_automount_service_account_token := None |}.

Record Secret : Type := mk_Secret {
  sec_type_meta : TypeMeta;
  sec_metadata : ObjectMeta;
  sec_secret_type : string;
  sec_data : option (gmap string string);
  sec_string_data : option (gmap string string);
  sec_immutable : option bool;
}.
Definition default_secret_type : string := "Opaque".
Definition Secret_default : Secret := {|
  sec_type_meta := mk_TypeMeta (Some "v1") (Some "Secret");
  sec_metadata := ObjectMeta_default;
  sec_secret_type := default_secret_type;
  sec_data := None;
  sec_string_data := None;
  sec_immutable := None |}.

Record ConfigMap : Type := mk_ConfigMap {
  cm_type_meta : TypeMeta;
  cm_metadata : ObjectMeta;
  cm_data : option (gmap string string);
  cm_binary_data : option (gmap string string);
  cm_immutable : option bool;
}.
Definition ConfigMap_default : ConfigMap := {|
  cm_type_meta := mk_TypeMeta (Some "v1") (Some "ConfigMap");
  cm_metadata := ObjectMeta_default;
  cm_data := None;
  cm_binary_data := None;
  cm_immutable := None |}.

Record PolicyRule : Type := mk_PolicyRule {
  pr_verbs : list string;
  pr_api_groups : list string;
  pr_resources : list string;
  pr_resource_names : list string;
  pr_non_resource_ur_ls : list string;
}.
Definition PolicyRule_default : PolicyRule := {|
  pr_verbs := [];
  pr_api_groups := [];
  pr_resources := [];
  pr_resource_names := [];
  pr_non_resource_ur_ls := [] |}.

Record Role : Type := mk_Role {
  role_type_meta : TypeMeta;
  role_metadata : ObjectMeta;
  role_rules : list PolicyRule;
}.
Definition Role_default : Role := {|
  role_type_meta := mk_TypeMeta (Some "rbac.authorization.k8s.io/v1") (Some "Role");
  role_metadata := ObjectMeta_default;
  role_rules := [] |}.

Record RbacSubject : Type := mk_RbacSubject {
  rsub_kind : string;
  rsub_api_group : option string;
  rsub_name : string;
  rsub_namespace : option string;
}.
Definition RbacSubject_default : RbacSubject := {|
  rsub_kind := "";
  rsub_api_group := None;
  rsub_name := "";
  rsub_namespace := None |}.

Record RoleRef : Type := mk_RoleRef {
  rref_api_group : string;
  rref_kind : string;
  rref_name : string;
}.
Definition RoleRef_default : RoleRef := {|
  rref_api_group := "";
  rref_kind := "";
  rref_name := "" |}.

Record RoleBinding : Type := mk_RoleBinding {
  rb_type_meta : TypeMeta;
  rb_metadata : ObjectMeta;
  rb_subjects : list RbacSubject;
  rb_role_ref : RoleRef;
}.
Definition RoleBinding_default : RoleBinding := {|
  rb_type_meta := mk_TypeMeta (Some "rbac.authorization.k8s.io/v1") (Some "RoleBinding");
  rb_metadata := ObjectMeta_default;
  rb_subjects := [];
  rb_role_ref := RoleRef_default |}.

Record ClusterRole : Type := mk_ClusterRole {
  cr_type_meta : TypeMeta;
  cr_metadata : ObjectMeta;
  cr_rules : list PolicyRule;
  cr_aggregation_rule : option Value;
}.
Definition ClusterRole_default : ClusterRole := {|
  cr_type_meta := mk_TypeMeta (Some "rbac.authorization.k8s.io/v1") (Some "ClusterRole");
  cr_metadata := ObjectMeta_default;
  cr_rules := [];
  cr_aggregation_rule := None |}.

Record ClusterRoleBinding : Type := mk_ClusterRoleBinding {
  crb_type_meta : TypeMeta;
  crb_metadata : ObjectMeta;
  crb_subjects : list RbacSubject;
  crb_role_ref : RoleRef;
}.
Definition ClusterRoleBinding_default : ClusterRoleBinding := {|
  crb_type_meta := mk_TypeMeta (Some "rbac.authorization.k8s.io/v1") (Some "ClusterRoleBinding");
  crb_metadata := ObjectMeta_default;
  crb_subjects := [];
  crb_role_ref := RoleRef_default |}.

(** [selector.iter().all(|(k, v)| labels.get(k) == Some(v))]. *)
Definition labels_match (selector labels : gmap string string) : bool :=
  forallb (λ kv, bool_decide (labels !! kv.1 = Some kv.2)) (map_to_list selector).

Lemma labels_match_spec selector labels :
  labels_match selector labels = true ↔ selector ⊆ labels.
Proof.
  unfold labels_match. rewrite forallb_forall, map_subseteq_spec. split.
  - intros Hall k v Hk. specialize (Hall (k, v)). rewrite bool_decide_eq_true in Hall.
    by apply Hall, list_elem_of_In, elem_of_map_to_list.
  - intros Hsub [k v] Hin. rewrite bool_decide_eq_true. apply Hsub.
    by apply elem_of_map_to_list, list_elem_of_In.
Qed.
(** ** Accessors *)

Definition ObjectMeta_name (m : ObjectMeta) : string := default "" (om_name m).
Definition ObjectMeta_namespace (m : ObjectMeta) : string :=
  default "default" (om_namespace m).
Definition ObjectMeta_labels (m : ObjectMeta) : gmap string string :=
  default ∅ (om_labels m).

Definition DeploymentSpec_replicas (s : DeploymentSpec) : i32 :=
  default (as_i32 1) (dspec_replicas s).
Definition StatefulSetSpec_replicas (s : StatefulSetSpec) : i32 :=
  default (as_i32 1) (ssspec_replicas s).
Definition StatefulSetSpec_is_parallel (s : StatefulSetSpec) : bool :=
  bool_decide (ssspec_pod_management_policy s = Some PodManagementPolicy_Parallel).

Definition PodPhase_to_string (p : PodPhase) : string :=
  match p with
  | PodPhase_Pending => "Pending"
  | PodPhase_Running => "Running"
  | PodPhase_Succeeded => "Succeeded"
  | PodPhase_Failed => "Failed"
  | PodPhase_Unknown => "Unknown"
  end.
Definition NamespacePhase_to_string (p : NamespacePhase) : string :=
  match p with
  | NamespacePhase_Active => "Active"
  | NamespacePhase_Terminating => "Terminating"
  end.

(** The list wrapper every collection endpoint returns. *)
Record List (T : Type) : Type := mk_List {
  list_api_version : string;
  list_kind : string;
  list_metadata : ListMeta;
  list_items : list T;
}.
Arguments mk_List {T}.
Arguments list_api_version {T}.
Arguments list_kind {T}.
Arguments list_metadata {T}.
Arguments list_items {T}.
Definition List_new {T} (api_version kind : string) (items : list T) : List T :=
  mk_List api_version kind ListMeta_default items.

(** ** Assignments to a field *)

Definition ObjectMeta_with_name (v : option string) (x : ObjectMeta) : ObjectMeta :=
  mk_ObjectMeta v (om_namespace x) (om_uid x) (om_resource_version x) (om_labels x)
    (om_annotations x) (om_creation_timestamp x) (om_owner_references x).
Definition ObjectMeta_with_namespace (v : option string) (x : ObjectMeta) : ObjectMeta :=
  mk_ObjectMeta (om_name x) v (om_uid x) (om_resource_version x) (om_labels x)
    (om_annotations x) (om_creation_timestamp x) (om_owner_references x).
Definition ObjectMeta_with_uid (v : option Uuid) (x : ObjectMeta) : ObjectMeta :=
  mk_ObjectMeta (om_name x) (om_namespace x) v (om_resource_version x) (om_labels x)
    (om_annotations x) (om_creation_timestamp x) (om_owner_references x).
Definition ObjectMeta_with_creation_timestamp (v : option DateTime) (x : ObjectMeta) : ObjectMeta :=
  mk_ObjectMeta (om_name x) (om_namespace x) (om_uid x) (om_resource_version x) (om_labels
    x) (om_annotations x) v (om_owner_references x).
Definition Pod_with_metadata (v : ObjectMeta) (x : Pod) : Pod :=
  mk_Pod (pod_type_meta x) v (pod_spec x) (pod_status x).
Definition Pod_with_spec (v : PodSpec) (x : Pod) : Pod :=
  mk_Pod (pod_type_meta x) (pod_metadata x) v (pod_status x).
Definition Pod_with_status (v : option PodStatus) (x : Pod) : Pod :=
  mk_Pod (pod_type_meta x) (pod_metadata x) (pod_spec x) v.
Definition PodSpec_with_node_name (v : option string) (x : PodSpec) : PodSpec :=
  mk_PodSpec (ps_containers x) (ps_restart_policy x) (ps_node_selector x) v
    (ps_service_account_name x) (ps_host_network x) (ps_affinity x) (ps_runtime_class_name
    x).
Definition ServiceSpec_with_cluster_ip (v : option string) (x : ServiceSpec) : ServiceSpec :=
  mk_ServiceSpec (sspec_selector x) (sspec_ports x) (sspec_service_type x) v
    (sspec_external_i_ps x) (sspec_session_affinity x).
Definition ServiceSpec_with_ports (v : list ServicePort) (x : ServiceSpec) : ServiceSpec :=
  mk_ServiceSpec (sspec_selector x) v (sspec_service_type x) (sspec_cluster_ip x)
    (sspec_external_i_ps x) (sspec_session_affinity x).
Definition ServicePort_with_node_port (v : option i32) (x : ServicePort) : ServicePort :=
  mk_ServicePort (sport_name x) (sport_protocol x) (sport_port x) (sport_target_port x) v.
Definition Service_with_metadata (v : ObjectMeta) (x : Service) : Service :=
  mk_Service (svc_type_meta x) v (svc_spec x) (svc_status x).
Definition Service_with_spec (v : ServiceSpec) (x : Service) : Service :=
  mk_Service (svc_type_meta x) (svc_metadata x) v (svc_status x).
Definition Node_with_metadata (v : ObjectMeta) (x : Node) : Node :=
  mk_Node (node_type_meta x) v (node_spec x) (node_status x).
Definition Node_with_status (v : option NodeStatus) (x : Node) : Node :=
  mk_Node (node_type_meta x) (node_metadata x) (node_spec x) v.
Definition Deployment_with_metadata (v : ObjectMeta) (x : Deployment) : Deployment :=
  mk_Deployment (dep_type_meta x) v (dep_spec x) (dep_status x).
Definition Deployment_with_spec (v : DeploymentSpec) (x : Deployment) : Deployment :=
  mk_Deployment (dep_type_meta x) (dep_metadata x) v (dep_status x).
Definition DeploymentSpec_with_replicas (v : option i32) (x : DeploymentSpec) : DeploymentSpec :=
  mk_DeploymentSpec v (dspec_selector x) (dspec_template x) (dspec_strategy x)
    (dspec_min_ready_seconds x) (dspec_revision_history_limit x) (dspec_paused x).
Definition StatefulSet_with_metadata (v : ObjectMeta) (x : StatefulSet) : StatefulSet :=
  mk_StatefulSet (ss_type_meta x) v (ss_spec x) (ss_status x).
Definition StatefulSet_with_spec (v : StatefulSetSpec) (x : StatefulSet) : StatefulSet :=
  mk_StatefulSet (ss_type_meta x) (ss_metadata x) v (ss_status x).
Definition StatefulSetSpec_with_replicas (v : option i32) (x : StatefulSetSpec) : StatefulSetSpec :=
  mk_StatefulSetSpec v (ssspec_selector x) (ssspec_template x) (ssspec_service_name x)
    (ssspec_pod_management_policy x).
Definition DaemonSet_with_metadata (v : ObjectMeta) (x : DaemonSet) : DaemonSet :=
  mk_DaemonSet (ds_type_meta x) v (ds_spec x) (ds_status x).
Definition Namespace_with_metadata (v : ObjectMeta) (x : Namespace) : Namespace :=
  mk_Namespace (ns_type_meta x) v (ns_spec x) (ns_status x).
Definition Event_with_metadata (v : ObjectMeta) (x : Event) : Event :=
  mk_Event (ev_type_meta x) v (ev_involved_object x) (ev_reason x) (ev_message x)
    (ev_source x) (ev_first_timestamp x) (ev_last_timestamp x) (ev_count x) (ev_event_type
    x) (ev_event_time x) (ev_action x) (ev_reporting_controller x) (ev_reporting_instance x).
Definition ServiceAccount_with_metadata (v : ObjectMeta) (x : ServiceAccount) : ServiceAccount :=
  mk_ServiceAccount (sa_type_meta x) v (sa_secrets x) (sa_image_pull_secrets x)
    (sa_automount_service_account_token x).
Definition Secret_with_metadata (v : ObjectMeta) (x : Secret) : Secret :=
  mk_Secret (sec_type_meta x) v (sec_secret_type x) (sec_data x) (sec_string_data x)
    (sec_immutable x).
Definition ConfigMap_with_metadata (v : ObjectMeta) (x : ConfigMap) : ConfigMap :=
  mk_ConfigMap (cm_type_meta x) v (cm_data x) (cm_binary_data x) (cm_immutable x).
Definition Role_with_metadata (v : ObjectMeta) (x : Role) : Role :=
  mk_Role (role_type_meta x) v (role_rules x).
Definition RoleBinding_with_metadata (v : ObjectMeta) (x : RoleBinding) : RoleBinding :=
  mk_RoleBinding (rb_type_meta x) v (rb_subjects x) (rb_role_ref x).
Definition ClusterRole_with_metadata (v : ObjectMeta) (x : ClusterRole) : ClusterRole :=
  mk_ClusterRole (cr_type_meta x) v (cr_rules x) (cr_aggregation_rule x).
Definition ClusterRoleBinding_with_metadata (v : ObjectMeta) (x : ClusterRoleBinding) : ClusterRoleBinding :=
  mk_ClusterRoleBinding (crb_type_meta x) v (crb_subjects x) (crb_role_ref x).
Definition Endpoints_with_metadata (v : ObjectMeta) (x : Endpoints) : Endpoints :=
  mk_Endpoints (ep_type_meta x) v (ep_subsets x).
