(* ===== verification/Wire.v ===== *)
(** * JSON forms of the API objects

    The serde impls that the derives of [src/src/models/] give, one [Json]
    instance per type, following each field's attributes: the camelCase names
    and the [rename]s, [default], [skip_serializing_if] and the flattened
    [TypeMeta].  [JsonOk] instances prove that reading back what was written
    gives the object; they are what the database layer relies on. *)
From S2P Require Import Prelude RustStd Json External Models.

(** An enum of unit variants is its variant's name. *)
Fixpoint variant_name {A} `{EqDecision A} (vs : list (A * string)) (x : A) : string :=
  match vs with
  | [] => ""
  | (y, s) :: vs => if decide (y = x) then s else variant_name vs x
  end.
Fixpoint variant_of {A} (vs : list (A * string)) (s : string) : option A :=
  match vs with
  | [] => None
  | (y, s') :: vs => if str_eqb s' s then Some y else variant_of vs s
  end.
Definition unit_variants {A} `{EqDecision A} (vs : list (A * string)) : Json A := {|
  to_value x := JStr (variant_name vs x);
  from_value v := match v with JStr s => variant_of vs s | _ => None end |}.

Definition TypeMeta_fields (x : TypeMeta) : fields :=
  [ser_some "apiVersion" (tm_api_version x); ser_some "kind" (tm_kind x)].
Definition TypeMeta_members (ms : members) : option TypeMeta :=
  a ← de_opt "apiVersion" ms; k ← de_opt "kind" ms; Some (mk_TypeMeta a k).

(** Reading back a struct: look each field up among the written ones. *)
Ltac json_members :=
  lazymatch goal with |- @from_value _ ?I (@to_value _ ?J ?y) = _ =>
    let I' := eval hnf in I in
    change (@from_value _ I' (@to_value _ I' y) = Some y)
  end;
  cbn [to_value from_value];
  unfold struct, de_opt, TypeMeta_members, de_opt; cbn [destruct_members mbind option_bind];
  rewrite ?de_present, ?de_default_present by reflexivity;
  cbn [lookup_member str_eqb Ascii.eqb Bool.eqb andb ser ser_some ser_vec app
       TypeMeta_fields mbind option_bind id];
  rewrite ?from_to; cbn [mbind option_bind];
  repeat first [rewrite read_some | rewrite read_vec | rewrite from_to];
  cbn [mbind option_bind].
Ltac json_struct :=
  let x := fresh "x" in
  intros x; destruct x;
  json_members;
  try match goal with t : TypeMeta |- _ => destruct t end; reflexivity.

(** Plain values: enums, and structs field by field. *)
Ltac json_plain :=
  let x := fresh "x" in
  intros x; cbn [to_value];
  first [done
        | apply plain_struct; [reflexivity|]; cbn [app TypeMeta_fields];
          repeat first [apply Forall_nil; exact I
                       | apply Forall_cons; split;
                         [first [apply plain_ser | apply plain_ser_some | apply plain_ser_vec]|]]
        | destruct x; first [done | apply to_value_plain]].

Section wire.
Context `{ExternOk}.

(** ** [models/meta.rs] *)

#[export] Instance json_TypeMeta : Json TypeMeta := {|
  to_value x := struct (TypeMeta_fields x);
  from_value v := destruct_members v ≫= TypeMeta_members |}.
#[export] Instance json_TypeMeta_ok : JsonOk TypeMeta.
Proof. json_struct. Qed.
#[export] Instance json_TypeMeta_plain : JsonPlain TypeMeta.
Proof. json_plain. Qed.
#[export] Instance json_TypeMeta_some : JsonSome TypeMeta.
Proof. done. Qed.

#[export] Instance json_OwnerReference : Json OwnerReference := {|
  to_value x := struct
    [ser "apiVersion" (oref_api_version x);
     ser "kind" (oref_kind x);
     ser "name" (oref_name x);
     ser "uid" (oref_uid x);
     ser "controller" (oref_controller x);
     ser "blockOwnerDeletion" (oref_block_owner_deletion x)];
  from_value v :=
    ms ← destruct_members v;
    f1 ← de "apiVersion" ms;
    f2 ← de "kind" ms;
    f3 ← de "name" ms;
    f4 ← de "uid" ms;
    f5 ← de_opt "controller" ms;
    f6 ← de_opt "blockOwnerDeletion" ms;
    Some (mk_OwnerReference f1 f2 f3 f4 f5 f6) |}.
#[export] Instance json_OwnerReference_ok : JsonOk OwnerReference.
Proof. json_struct. Qed.
#[export] Instance json_OwnerReference_plain : JsonPlain OwnerReference.
Proof. json_plain. Qed.
#[export] Instance json_OwnerReference_some : JsonSome OwnerReference.
Proof. done. Qed.

#[export] Instance json_ObjectMeta : Json ObjectMeta := {|
  to_value x := struct
    [ser_some "name" (om_name x);
     ser_some "namespace" (om_namespace x);
     ser_some "uid" (om_uid x);
     ser_some "resourceVersion" (om_resource_version x);
     ser_some "labels" (om_labels x);
     ser_some "annotations" (om_annotations x);
     ser_some "creationTimestamp" (om_creation_timestamp x);
     ser_some "ownerReferences" (om_owner_references x)];
  from_value v :=
    ms ← destruct_members v;
    f1 ← de_opt "name" ms;
    f2 ← de_opt "namespace" ms;
    f3 ← de_opt "uid" ms;
    f4 ← de_opt "resourceVersion" ms;
    f5 ← de_opt "labels" ms;
    f6 ← de_opt "annotations" ms;
    f7 ← de_opt "creationTimestamp" ms;
    f8 ← de_opt "ownerReferences" ms;
    Some (mk_ObjectMeta f1 f2 f3 f4 f5 f6 f7 f8) |}.
#[export] Instance json_ObjectMeta_ok : JsonOk ObjectMeta.
Proof. json_struct. Qed.
#[export] Instance json_ObjectMeta_plain : JsonPlain ObjectMeta.
Proof. json_plain. Qed.
#[export] Instance json_ObjectMeta_some : JsonSome ObjectMeta.
Proof. done. Qed.

#[export] Instance json_LabelSelectorRequirement : Json LabelSelectorRequirement := {|
  to_value x := struct
    [ser "key" (lsr_key x);
     ser "operator" (lsr_operator x);
     ser "values" (lsr_values x)];
  from_value v :=
    ms ← destruct_members v;
    f1 ← de "key" ms;
    f2 ← de "operator" ms;
    f3 ← de_opt "values" ms;
    Some (mk_LabelSelectorRequirement f1 f2 f3) |}.
#[export] Instance json_LabelSelectorRequirement_ok : JsonOk LabelSelectorRequirement.
Proof. json_struct. Qed.
#[export] Instance json_LabelSelectorRequirement_plain : JsonPlain LabelSelectorRequirement.
Proof. json_plain. Qed.
#[export] Instance json_LabelSelectorRequirement_some : JsonSome LabelSelectorRequirement.
Proof. done. Qed.

#[export] Instance json_LabelSelector : Json LabelSelector := {|
  to_value x := struct
    [ser_some "matchLabels" (ls_match_labels x);
     ser_some "matchExpressions" (ls_match_expressions x)];
  from_value v :=
    ms ← destruct_members v;
    f1 ← de_opt "matchLabels" ms;
    f2 ← de_opt "matchExpressions" ms;
    Some (mk_LabelSelector f1 f2) |}.
#[export] Instance json_LabelSelector_ok : JsonOk LabelSelector.
Proof. json_struct. Qed.
#[export] Instance json_LabelSelector_plain : JsonPlain LabelSelector.
Proof. json_plain. Qed.
#[export] Instance json_LabelSelector_some : JsonSome LabelSelector.
Proof. done. Qed.

#[export] Instance json_ListMeta : Json ListMeta := {|
  to_value x := struct
    [ser_some "resourceVersion" (lm_resource_version x);
     ser_some "continueToken" (lm_continue_token x)];
  from_value v :=
    ms ← destruct_members v;
    f1 ← de_opt "resourceVersion" ms;
    f2 ← de_opt "continueToken" ms;
    Some (mk_ListMeta f1 f2) |}.
#[export] Instance json_ListMeta_ok : JsonOk ListMeta.
Proof. json_struct. Qed.
#[export] Instance json_ListMeta_plain : JsonPlain ListMeta.
Proof. json_plain. Qed.
#[export] Instance json_ListMeta_some : JsonSome ListMeta.
Proof. done. Qed.

(** ** [models/affinity.rs] *)

#[export] Instance json_NodeSelectorRequirement : Json NodeSelectorRequirement := {|
  to_value x := struct
    [ser "key" (nsr_key x);
     ser "operator" (nsr_operator x);
     ser_vec "values" (nsr_values x)];
  from_value v :=
    ms ← destruct_members v;
    f1 ← de "key" ms;
    f2 ← de "operator" ms;
    f3 ← de_default [] "values" ms;
    Some (mk_NodeSelectorRequirement f1 f2 f3) |}.
#[export] Instance json_NodeSelectorRequirement_ok : JsonOk NodeSelectorRequirement.
Proof. json_struct. Qed.
#[export] Instance json_NodeSelectorRequirement_plain : JsonPlain NodeSelectorRequirement.
Proof. json_plain. Qed.
#[export] Instance json_NodeSelectorRequirement_some : JsonSome NodeSelectorRequirement.
Proof. done. Qed.

#[export] Instance json_NodeSelectorTerm : Json NodeSelectorTerm := {|
  to_value x := struct
    [ser_vec "matchExpressions" (nst_match_expressions x);
     ser_vec "matchFields" (nst_match_fields x)];
  from_value v :=
    ms ← destruct_members v;
    f1 ← de_default [] "matchExpressions" ms;
    f2 ← de_default [] "matchFields" ms;
    Some (mk_NodeSelectorTerm f1 f2) |}.
#[export] Instance json_NodeSelectorTerm_ok : JsonOk NodeSelectorTerm.
Proof. json_struct. Qed.
#[export] Instance json_NodeSelectorTerm_plain : JsonPlain NodeSelectorTerm.
Proof. json_plain. Qed.
#[export] Instance json_NodeSelectorTerm_some : JsonSome NodeSelectorTerm.
Proof. done. Qed.

#[export] Instance json_NodeSelector : Json NodeSelector := {|
  to_value x := struct
    [ser "nodeSelectorTerms" (nsel_node_selector_terms x)];
  from_value v :=
    ms ← destruct_members v;
    f1 ← de_default [] "nodeSelectorTerms" ms;
    Some (mk_NodeSelector f1) |}.
#[export] Instance json_NodeSelector_ok : JsonOk NodeSelector.
Proof. json_struct. Qed.
#[export] Instance json_NodeSelector_plain : JsonPlain NodeSelector.
Proof. json_plain. Qed.
#[export] Instance json_NodeSelector_some : JsonSome NodeSelector.
Proof. done. Qed.

#[export] Instance json_PreferredSchedulingTerm : Json PreferredSchedulingTerm := {|
  to_value x := struct
    [ser "weight" (pterm_weight x);
     ser "preference" (pterm_preference x)];
  from_value v :=
    ms ← destruct_members v;
    f1 ← de "weight" ms;
    f2 ← de "preference" ms;
    Some (mk_PreferredSchedulingTerm f1 f2) |}.
#[export] Instance json_PreferredSchedulingTerm_ok : JsonOk PreferredSchedulingTerm.
Proof. json_struct. Qed.
#[export] Instance json_PreferredSchedulingTerm_plain : JsonPlain PreferredSchedulingTerm.
Proof. json_plain. Qed.
#[export] Instance json_PreferredSchedulingTerm_some : JsonSome PreferredSchedulingTerm.
Proof. done. Qed.

#[export] Instance json_NodeAffinity : Json NodeAffinity := {|
  to_value x := struct
    [ser_some "requiredDuringSchedulingIgnoredDuringExecution" (naff_required_during_scheduling_ignored_during_execution x);
     ser_vec "preferredDuringSchedulingIgnoredDuringExecution" (naff_preferred_during_scheduling_ignored_during_execution x)];
  from_value v :=
    ms ← destruct_members v;
    f1 ← de_opt "requiredDuringSchedulingIgnoredDuringExecution" ms;
    f2 ← de_default [] "preferredDuringSchedulingIgnoredDuringExecution" ms;
    Some (mk_NodeAffinity f1 f2) |}.
#[export] Instance json_NodeAffinity_ok : JsonOk NodeAffinity.
Proof. json_struct. Qed.
#[export] Instance json_NodeAffinity_plain : JsonPlain NodeAffinity.
Proof. json_plain. Qed.
#[export] Instance json_NodeAffinity_some : JsonSome NodeAffinity.
Proof. done. Qed.

#[export] Instance json_PodAffinityTerm : Json PodAffinityTerm := {|
  to_value x := struct
    [ser_some "labelSelector" (pat_label_selector x);
     ser_vec "namespaces" (pat_namespaces x);
     ser "topologyKey" (pat_topology_key x)];
  from_value v :=
    ms ← destruct_members v;
    f1 ← de_opt "labelSelector" ms;
    f2 ← de_default [] "namespaces" ms;
    f3 ← de "topologyKey" ms;
    Some (mk_PodAffinityTerm f1 f2 f3) |}.
#[export] Instance json_PodAffinityTerm_ok : JsonOk PodAffinityTerm.
Proof. json_struct. Qed.
#[export] Instance json_PodAffinityTerm_plain : JsonPlain PodAffinityTerm.
Proof. json_plain. Qed.
#[export] Instance json_PodAffinityTerm_some : JsonSome PodAffinityTerm.
Proof. done. Qed.

#[export] Instance json_WeightedPodAffinityTerm : Json WeightedPodAffinityTerm := {|
  to_value x := struct
    [ser "weight" (wpat_weight x);
     ser "podAffinityTerm" (wpat_pod_affinity_term x)];
  from_value v :=
    ms ← destruct_members v;
    f1 ← de "weight" ms;
    f2 ← de "podAffinityTerm" ms;
    Some (mk_WeightedPodAffinityTerm f1 f2) |}.
#[export] Instance json_WeightedPodAffinityTerm_ok : JsonOk WeightedPodAffinityTerm.
Proof. json_struct. Qed.
#[export] Instance json_WeightedPodAffinityTerm_plain : JsonPlain WeightedPodAffinityTerm.
Proof. json_plain. Qed.
#[export] Instance json_WeightedPodAffinityTerm_some : JsonSome WeightedPodAffinityTerm.
Proof. done. Qed.

#[export] Instance json_PodAffinity : Json PodAffinity := {|
  to_value x := struct
    [ser_vec "requiredDuringSchedulingIgnoredDuringExecution" (paff_required_during_scheduling_ignored_during_execution x);
     ser_vec "preferredDuringSchedulingIgnoredDuringExecution" (paff_preferred_during_scheduling_ignored_during_execution x)];
  from_value v :=
    ms ← destruct_members v;
    f1 ← de_default [] "requiredDuringSchedulingIgnoredDuringExecution" ms;
    f2 ← de_default [] "preferredDuringSchedulingIgnoredDuringExecution" ms;
    Some (mk_PodAffinity f1 f2) |}.
#[export] Instance json_PodAffinity_ok : JsonOk PodAffinity.
Proof. json_struct. Qed.
#[export] Instance json_PodAffinity_plain : JsonPlain PodAffinity.
Proof. json_plain. Qed.
#[export] Instance json_PodAffinity_some : JsonSome PodAffinity.
Proof. done. Qed.

#[export] Instance json_PodAntiAffinity : Json PodAntiAffinity := {|
  to_value x := struct
    [ser_vec "requiredDuringSchedulingIgnoredDuringExecution" (panti_required_during_scheduling_ignored_during_execution x);
     ser_vec "preferredDuringSchedulingIgnoredDuringExecution" (panti_preferred_during_scheduling_ignored_during_execution x)];
  from_value v :=
    ms ← destruct_members v;
    f1 ← de_default [] "requiredDuringSchedulingIgnoredDuringExecution" ms;
    f2 ← de_default [] "preferredDuringSchedulingIgnoredDuringExecution" ms;
    Some (mk_PodAntiAffinity f1 f2) |}.
#[export] Instance json_PodAntiAffinity_ok : JsonOk PodAntiAffinity.
Proof. json_struct. Qed.
#[export] Instance json_PodAntiAffinity_plain : JsonPlain PodAntiAffinity.
Proof. json_plain. Qed.
#[export] Instance json_PodAntiAffinity_some : JsonSome PodAntiAffinity.
Proof. done. Qed.

#[export] Instance json_Affinity : Json Affinity := {|
  to_value x := struct
    [ser_some "nodeAffinity" (aff_node_affinity x);
     ser_some "podAffinity" (aff_pod_affinity x);
     ser_some "podAntiAffinity" (aff_pod_anti_affinity x)];
  from_value v :=
    ms ← destruct_members v;
    f1 ← de_opt "nodeAffinity" ms;
    f2 ← de_opt "podAffinity" ms;
    f3 ← de_opt "podAntiAffinity" ms;
    Some (mk_Affinity f1 f2 f3) |}.
#[export] Instance json_Affinity_ok : JsonOk Affinity.
Proof. json_struct. Qed.
#[export] Instance json_Affinity_plain : JsonPlain Affinity.
Proof. json_plain. Qed.
#[export] Instance json_Affinity_some : JsonSome Affinity.
Proof. done. Qed.

(** ** [models/pod.rs] *)

Definition ImagePullPolicy_variants : list (ImagePullPolicy * string) :=
  [(ImagePullPolicy_Always, "Always");
   (ImagePullPolicy_IfNotPresent, "IfNotPresent");
   (ImagePullPolicy_Never, "Never")].
#[export] Instance json_ImagePullPolicy : Json ImagePullPolicy := unit_variants ImagePullPolicy_variants.
#[export] Instance json_ImagePullPolicy_ok : JsonOk ImagePullPolicy.
Proof. by intros []. Qed.
#[export] Instance json_ImagePullPolicy_plain : JsonPlain ImagePullPolicy.
Proof. json_plain. Qed.
#[export] Instance json_ImagePullPolicy_some : JsonSome ImagePullPolicy.
Proof. by intros []. Qed.

#[export] Instance json_EnvVar : Json EnvVar := {|
  to_value x := struct
    [ser "name" (env_name x);
     ser_some "value" (env_value x)];
  from_value v :=
    ms ← destruct_members v;
    f1 ← de "name" ms;
    f2 ← de_opt "value" ms;
    Some (mk_EnvVar f1 f2) |}.
#[export] Instance json_EnvVar_ok : JsonOk EnvVar.
Proof. json_struct. Qed.
#[export] Instance json_EnvVar_plain : JsonPlain EnvVar.
Proof. json_plain. Qed.
#[export] Instance json_EnvVar_some : JsonSome EnvVar.
Proof. done. Qed.

Definition Protocol_variants : list (Protocol * string) :=
  [(Protocol_TCP, "TCP");
   (Protocol_UDP, "UDP")].
#[export] Instance json_Protocol : Json Protocol := unit_variants Protocol_variants.
#[export] Instance json_Protocol_ok : JsonOk Protocol.
Proof. by intros []. Qed.
#[export] Instance json_Protocol_plain : JsonPlain Protocol.
Proof. json_plain. Qed.
#[export] Instance json_Protocol_some : JsonSome Protocol.
Proof. by intros []. Qed.

#[export] Instance json_ContainerPort : Json ContainerPort := {|
  to_value x := struct
    [ser_some "name" (cp_name x);
     ser "containerPort" (cp_container_port x);
     ser_some "hostPort" (cp_host_port x);
     ser_some "protocol" (cp_protocol x)];
  from_value v :=
    ms ← destruct_members v;
    f1 ← de_opt "name" ms;
    f2 ← de "containerPort" ms;
    f3 ← de_opt "hostPort" ms;
    f4 ← de_opt "protocol" ms;
    Some (mk_ContainerPort f1 f2 f3 f4) |}.
#[export] Instance json_ContainerPort_ok : JsonOk ContainerPort.
Proof. json_struct. Qed.
#[export] Instance json_ContainerPort_plain : JsonPlain ContainerPort.
Proof. json_plain. Qed.
#[export] Instance json_ContainerPort_some : JsonSome ContainerPort.
Proof. done. Qed.

#[export] Instance json_ResourceRequirements : Json ResourceRequirements := {|
  to_value x := struct
    [ser_some "limits" (rr_limits x);
     ser_some "requests" (rr_requests x)];
  from_value v :=
    ms ← destruct_members v;
    f1 ← de_opt "limits" ms;
    f2 ← de_opt "requests" ms;
    Some (mk_ResourceRequirements f1 f2) |}.
#[export] Instance json_ResourceRequirements_ok : JsonOk ResourceRequirements.
Proof. json_struct. Qed.
#[export] Instance json_ResourceRequirements_plain : JsonPlain ResourceRequirements.
Proof. json_plain. Qed.
#[export] Instance json_ResourceRequirements_some : JsonSome ResourceRequirements.
Proof. done. Qed.

#[export] Instance json_Container : Json Container := {|
  to_value x := struct
    [ser "name" (ctr_name x);
     ser "image" (ctr_image x);
     ser_some "imagePullPolicy" (ctr_image_pull_policy x);
     ser_some "command" (ctr_command x);
     ser_some "args" (ctr_args x);
     ser_some "env" (ctr_env x);
     ser_some "ports" (ctr_ports x);
     ser_some "resources" (ctr_resources x);
     ser_some "workingDir" (ctr_working_dir x)];
  from_value v :=
    ms ← destruct_members v;
    f1 ← de "name" ms;
    f2 ← de "image" ms;
    f3 ← de_opt "imagePullPolicy" ms;
    f4 ← de_opt "command" ms;
    f5 ← de_opt "args" ms;
    f6 ← de_opt "env" ms;
    f7 ← de_opt "ports" ms;
    f8 ← de_opt "resources" ms;
    f9 ← de_opt "workingDir" ms;
    Some (mk_Container f1 f2 f3 f4 f5 f6 f7 f8 f9) |}.
#[export] Instance json_Container_ok : JsonOk Container.
Proof. json_struct. Qed.
#[export] Instance json_Container_plain : JsonPlain Container.
Proof. json_plain. Qed.
#[export] Instance json_Container_some : JsonSome Container.
Proof. done. Qed.

Definition RestartPolicy_variants : list (RestartPolicy * string) :=
  [(RestartPolicy_Always, "Always");
   (RestartPolicy_OnFailure, "OnFailure");
   (RestartPolicy_Never, "Never")].
#[export] Instance json_RestartPolicy : Json RestartPolicy := unit_variants RestartPolicy_variants.
#[export] Instance json_RestartPolicy_ok : JsonOk RestartPolicy.
Proof. by intros []. Qed.
#[export] Instance json_RestartPolicy_plain : JsonPlain RestartPolicy.
Proof. json_plain. Qed.
#[export] Instance json_RestartPolicy_some : JsonSome RestartPolicy.
Proof. by intros []. Qed.

#[export] Instance json_PodSpec : Json PodSpec := {|
  to_value x := struct
    [ser "containers" (ps_containers x);
     ser_some "restartPolicy" (ps_restart_policy x);
     ser_some "nodeSelector" (ps_node_selector x);
     ser_some "nodeName" (ps_node_name x);
     ser_some "serviceAccountName" (ps_service_account_name x);
     ser "hostNetwork" (ps_host_network x);
     ser_some "affinity" (ps_affinity x);
     ser_some "runtimeClassName" (ps_runtime_class_name x)];
  from_value v :=
    ms ← destruct_members v;
    f1 ← de_default [] "containers" ms;
    f2 ← de_opt "restartPolicy" ms;
    f3 ← de_opt "nodeSelector" ms;
    f4 ← de_opt "nodeName" ms;
    f5 ← de_opt "serviceAccountName" ms;
    f6 ← de_default false "hostNetwork" ms;
    f7 ← de_opt "affinity" ms;
    f8 ← de_opt "runtimeClassName" ms;
    Some (mk_PodSpec f1 f2 f3 f4 f5 f6 f7 f8) |}.
#[export] Instance json_PodSpec_ok : JsonOk PodSpec.
Proof. json_struct. Qed.
#[export] Instance json_PodSpec_plain : JsonPlain PodSpec.
Proof. json_plain. Qed.
#[export] Instance json_PodSpec_some : JsonSome PodSpec.
Proof. done. Qed.

Definition PodPhase_variants : list (PodPhase * string) :=
  [(PodPhase_Pending, "Pending");
   (PodPhase_Running, "Running");
   (PodPhase_Succeeded, "Succeeded");
   (PodPhase_Failed, "Failed");
   (PodPhase_Unknown, "Unknown")].
#[export] Instance json_PodPhase : Json PodPhase := unit_variants PodPhase_variants.
#[export] Instance json_PodPhase_ok : JsonOk PodPhase.
Proof. by intros []. Qed.
#[export] Instance json_PodPhase_plain : JsonPlain PodPhase.
Proof. json_plain. Qed.
#[export] Instance json_PodPhase_some : JsonSome PodPhase.
Proof. by intros []. Qed.

#[export] Instance json_PodCondition : Json PodCondition := {|
  to_value x := struct
    [ser "type" (pcond_condition_type x);
     ser "status" (pcond_status x);
     ser_some "lastProbeTime" (pcond_last_probe_time x);
     ser_some "lastTransitionTime" (pcond_last_transition_time x);
     ser_some "reason" (pcond_reason x);
     ser_some "message" (pcond_message x)];
  from_value v :=
    ms ← destruct_members v;
    f1 ← de "type" ms;
    f2 ← de "status" ms;
    f3 ← de_opt "lastProbeTime" ms;
    f4 ← de_opt "lastTransitionTime" ms;
    f5 ← de_opt "reason" ms;
    f6 ← de_opt "message" ms;
    Some (mk_PodCondition f1 f2 f3 f4 f5 f6) |}.
#[export] Instance json_PodCondition_ok : JsonOk PodCondition.
Proof. json_struct. Qed.
#[export] Instance json_PodCondition_plain : JsonPlain PodCondition.
Proof. json_plain. Qed.
#[export] Instance json_PodCondition_some : JsonSome PodCondition.
Proof. done. Qed.

#[export] Instance json_PodIP : Json PodIP := {|
  to_value x := struct
    [ser "ip" (pip_ip x)];
  from_value v :=
    ms ← destruct_members v;
    f1 ← de "ip" ms;
    Some (mk_PodIP f1) |}.
#[export] Instance json_PodIP_ok : JsonOk PodIP.
Proof. json_struct. Qed.
#[export] Instance json_PodIP_plain : JsonPlain PodIP.
Proof. json_plain. Qed.
#[export] Instance json_PodIP_some : JsonSome PodIP.
Proof. done. Qed.

#[export] Instance json_ContainerStateWaiting : Json ContainerStateWaiting := {|
  to_value x := struct
    [ser_some "reason" (csw_reason x);
     ser_some "message" (csw_message x)];
  from_value v :=
    ms ← destruct_members v;
    f1 ← de_opt "reason" ms;
    f2 ← de_opt "message" ms;
    Some (mk_ContainerStateWaiting f1 f2) |}.
#[export] Instance json_ContainerStateWaiting_ok : JsonOk ContainerStateWaiting.
Proof. json_struct. Qed.
#[export] Instance json_ContainerStateWaiting_plain : JsonPlain ContainerStateWaiting.
Proof. json_plain. Qed.
#[export] Instance json_ContainerStateWaiting_some : JsonSome ContainerStateWaiting.
Proof. done. Qed.

#[export] Instance json_ContainerStateRunning : Json ContainerStateRunning := {|
  to_value x := struct
    [ser_some "startedAt" (csr_started_at x)];
  from_value v :=
    ms ← destruct_members v;
    f1 ← de_opt "startedAt" ms;
    Some (mk_ContainerStateRunning f1) |}.
#[export] Instance json_ContainerStateRunning_ok : JsonOk ContainerStateRunning.
Proof. json_struct. Qed.
#[export] Instance json_ContainerStateRunning_plain : JsonPlain ContainerStateRunning.
Proof. json_plain. Qed.
#[export] Instance json_ContainerStateRunning_some : JsonSome ContainerStateRunning.
Proof. done. Qed.

#[export] Instance json_ContainerStateTerminated : Json ContainerStateTerminated := {|
  to_value x := struct
    [ser "exitCode" (cst_exit_code x);
     ser_some "signal" (cst_signal x);
     ser_some "reason" (cst_reason x);
     ser_some "message" (cst_message x);
     ser_some "startedAt" (cst_started_at x);
     ser_some "finishedAt" (cst_finished_at x);
     ser_some "containerID" (cst_container_id x)];
  from_value v :=
    ms ← destruct_members v;
    f1 ← de "exitCode" ms;
    f2 ← de_opt "signal" ms;
    f3 ← de_opt "reason" ms;
    f4 ← de_opt "message" ms;
    f5 ← de_opt "startedAt" ms;
    f6 ← de_opt "finishedAt" ms;
    f7 ← de_opt "containerID" ms;
    Some (mk_ContainerStateTerminated f1 f2 f3 f4 f5 f6 f7) |}.
#[export] Instance json_ContainerStateTerminated_ok : JsonOk ContainerStateTerminated.
Proof. json_struct. Qed.
#[export] Instance json_ContainerStateTerminated_plain : JsonPlain ContainerStateTerminated.
Proof. json_plain. Qed.
#[export] Instance json_ContainerStateTerminated_some : JsonSome ContainerStateTerminated.
Proof. done. Qed.

#[export] Instance json_ContainerState : Json ContainerState := {|
  to_value x := struct
    [ser_some "waiting" (cstate_waiting x);
     ser_some "running" (cstate_running x);
     ser_some "terminated" (cstate_terminated x)];
  from_value v :=
    ms ← destruct_members v;
    f1 ← de_opt "waiting" ms;
    f2 ← de_opt "running" ms;
    f3 ← de_opt "terminated" ms;
    Some (mk_ContainerState f1 f2 f3) |}.
#[export] Instance json_ContainerState_ok : JsonOk ContainerState.
Proof. json_struct. Qed.
#[export] Instance json_ContainerState_plain : JsonPlain ContainerState.
Proof. json_plain. Qed.
#[export] Instance json_ContainerState_some : JsonSome ContainerState.
Proof. done. Qed.

#[export] Instance json_ContainerStatus : Json ContainerStatus := {|
  to_value x := struct
    [ser "name" (cs_name x);
     ser "ready" (cs_ready x);
     ser "restartCount" (cs_restart_count x);
     ser "image" (cs_image x);
     ser "imageID" (cs_image_id x);
     ser_some "containerID" (cs_container_id x);
     ser_some "state" (cs_state x);
     ser_some "lastState" (cs_last_state x);
     ser "started" (cs_started x)];
  from_value v :=
    ms ← destruct_members v;
    f1 ← de "name" ms;
    f2 ← de "ready" ms;
    f3 ← de "restartCount" ms;
    f4 ← de "image" ms;
    f5 ← de "imageID" ms;
    f6 ← de_opt "containerID" ms;
    f7 ← de_opt "state" ms;
    f8 ← de_opt "lastState" ms;
    f9 ← de_opt "started" ms;
    Some (mk_ContainerStatus f1 f2 f3 f4 f5 f6 f7 f8 f9) |}.
#[export] Instance json_ContainerStatus_ok : JsonOk ContainerStatus.
Proof. json_struct. Qed.
#[export] Instance json_ContainerStatus_plain : JsonPlain ContainerStatus.
Proof. json_plain. Qed.
#[export] Instance json_ContainerStatus_some : JsonSome ContainerStatus.
Proof. done. Qed.

#[export] Instance json_PodStatus : Json PodStatus := {|
  to_value x := struct
    [ser "phase" (pstat_phase x);
     ser_some "conditions" (pstat_conditions x);
     ser_some "podIP" (pstat_pod_ip x);
     ser_some "podIPs" (pstat_pod_i_ps x);
     ser_some "hostIP" (pstat_host_ip x);
     ser_some "startTime" (pstat_start_time x);
     ser_some "containerStatuses" (pstat_container_statuses x);
     ser_some "message" (pstat_message x);
     ser_some "reason" (pstat_reason x)];
  from_value v :=
    ms ← destruct_members v;
    f1 ← de_default PodPhase_default "phase" ms;
    f2 ← de_opt "conditions" ms;
    f3 ← de_opt "podIP" ms;
    f4 ← de_opt "podIPs" ms;
    f5 ← de_opt "hostIP" ms;
    f6 ← de_opt "startTime" ms;
    f7 ← de_opt "containerStatuses" ms;
    f8 ← de_opt "message" ms;
    f9 ← de_opt "reason" ms;
    Some (mk_PodStatus f1 f2 f3 f4 f5 f6 f7 f8 f9) |}.
#[export] Instance json_PodStatus_ok : JsonOk PodStatus.
Proof. json_struct. Qed.
#[export] Instance json_PodStatus_plain : JsonPlain PodStatus.
Proof. json_plain. Qed.
#[export] Instance json_PodStatus_some : JsonSome PodStatus.
Proof. done. Qed.

#[export] Instance json_Pod : Json Pod := {|
  to_value x := struct (TypeMeta_fields (pod_type_meta x) ++
    [ser "metadata" (pod_metadata x);
     ser "spec" (pod_spec x);
     ser_some "status" (pod_status x)]);
  from_value v :=
    ms ← destruct_members v;
    tm ← TypeMeta_members ms;
    f1 ← de_default ObjectMeta_default "metadata" ms;
    f2 ← de_default PodSpec_default "spec" ms;
    f3 ← de_opt "status" ms;
    Some (mk_Pod tm f1 f2 f3) |}.
#[export] Instance json_Pod_ok : JsonOk Pod.
Proof. json_struct. Qed.
#[export] Instance json_Pod_plain : JsonPlain Pod.
Proof. json_plain. Qed.
#[export] Instance json_Pod_some : JsonSome Pod.
Proof. done. Qed.

#[export] Instance json_PodTemplateSpec : Json PodTemplateSpec := {|
  to_value x := struct
    [ser "metadata" (pts_metadata x);
     ser "spec" (pts_spec x)];
  from_value v :=
    ms ← destruct_members v;
    f1 ← de_default ObjectMeta_default "metadata" ms;
    f2 ← de_default PodSpec_default "spec" ms;
    Some (mk_PodTemplateSpec f1 f2) |}.
#[export] Instance json_PodTemplateSpec_ok : JsonOk PodTemplateSpec.
Proof. json_struct. Qed.
#[export] Instance json_PodTemplateSpec_plain : JsonPlain PodTemplateSpec.
Proof. json_plain. Qed.
#[export] Instance json_PodTemplateSpec_some : JsonSome PodTemplateSpec.
Proof. done. Qed.

(** ** [models/node.rs] *)

Definition TaintEffect_variants : list (TaintEffect * string) :=
  [(TaintEffect_NoSchedule, "NoSchedule");
   (TaintEffect_PreferNoSchedule, "PreferNoSchedule");
   (TaintEffect_NoExecute, "NoExecute")].
#[export] Instance json_TaintEffect : Json TaintEffect := unit_variants TaintEffect_variants.
#[export] Instance json_TaintEffect_ok : JsonOk TaintEffect.
Proof. by intros []. Qed.
#[export] Instance json_TaintEffect_plain : JsonPlain TaintEffect.
Proof. json_plain. Qed.
#[export] Instance json_TaintEffect_some : JsonSome TaintEffect.
Proof. by intros []. Qed.

#[export] Instance json_Taint : Json Taint := {|
  to_value x := struct
    [ser "key" (taint_key x);
     ser_some "value" (taint_value x);
     ser "effect" (taint_effect x);
     ser_some "timeAdded" (taint_time_added x)];
  from_value v :=
    ms ← destruct_members v;
    f1 ← de "key" ms;
    f2 ← de_opt "value" ms;
    f3 ← de "effect" ms;
    f4 ← de_opt "timeAdded" ms;
    Some (mk_Taint f1 f2 f3 f4) |}.
#[export] Instance json_Taint_ok : JsonOk Taint.
Proof. json_struct. Qed.
#[export] Instance json_Taint_plain : JsonPlain Taint.
Proof. json_plain. Qed.
#[export] Instance json_Taint_some : JsonSome Taint.
Proof. done. Qed.

#[export] Instance json_NodeSpec : Json NodeSpec := {|
  to_value x := struct
    [ser_some "podCidr" (nspec_pod_cidr x);
     ser_some "providerID" (nspec_provider_id x);
     ser "unschedulable" (nspec_unschedulable x);
     ser_some "taints" (nspec_taints x)];
  from_value v :=
    ms ← destruct_members v;
    f1 ← de_opt "podCidr" ms;
    f2 ← de_opt "providerID" ms;
    f3 ← de_default false "unschedulable" ms;
    f4 ← de_opt "taints" ms;
    Some (mk_NodeSpec f1 f2 f3 f4) |}.
#[export] Instance json_NodeSpec_ok : JsonOk NodeSpec.
Proof. json_struct. Qed.
#[export] Instance json_NodeSpec_plain : JsonPlain NodeSpec.
Proof. json_plain. Qed.
#[export] Instance json_NodeSpec_some : JsonSome NodeSpec.
Proof. done. Qed.

Definition NodeConditionType_variants : list (NodeConditionType * string) :=
  [(NodeConditionType_Ready, "Ready");
   (NodeConditionType_MemoryPressure, "MemoryPressure");
   (NodeConditionType_DiskPressure, "DiskPressure");
   (NodeConditionType_PIDPressure, "PIDPressure");
   (NodeConditionType_NetworkUnavailable, "NetworkUnavailable")].
#[export] Instance json_NodeConditionType : Json NodeConditionType := unit_variants NodeConditionType_variants.
#[export] Instance json_NodeConditionType_ok : JsonOk NodeConditionType.
Proof. by intros []. Qed.
#[export] Instance json_NodeConditionType_plain : JsonPlain NodeConditionType.
Proof. json_plain. Qed.
#[export] Instance json_NodeConditionType_some : JsonSome NodeConditionType.
Proof. by intros []. Qed.

Definition ConditionStatus_variants : list (ConditionStatus * string) :=
  [(ConditionStatus_True, "True");
   (ConditionStatus_False, "False");
   (ConditionStatus_Unknown, "Unknown")].
#[export] Instance json_ConditionStatus : Json ConditionStatus := unit_variants ConditionStatus_variants.
#[export] Instance json_ConditionStatus_ok : JsonOk ConditionStatus.
Proof. by intros []. Qed.
#[export] Instance json_ConditionStatus_plain : JsonPlain ConditionStatus.
Proof. json_plain. Qed.
#[export] Instance json_ConditionStatus_some : JsonSome ConditionStatus.
Proof. by intros []. Qed.

#[export] Instance json_NodeCondition : Json NodeCondition := {|
  to_value x := struct
    [ser "type" (ncond_condition_type x);
     ser "status" (ncond_status x);
     ser_some "lastHeartbeatTime" (ncond_last_heartbeat_time x);
     ser_some "lastTransitionTime" (ncond_last_transition_time x);
     ser_some "reason" (ncond_reason x);
     ser_some "message" (ncond_message x)];
  from_value v :=
    ms ← destruct_members v;
    f1 ← de "type" ms;
    f2 ← de "status" ms;
    f3 ← de_opt "lastHeartbeatTime" ms;
    f4 ← de_opt "lastTransitionTime" ms;
    f5 ← de_opt "reason" ms;
    f6 ← de_opt "message" ms;
    Some (mk_NodeCondition f1 f2 f3 f4 f5 f6) |}.
#[export] Instance json_NodeCondition_ok : JsonOk NodeCondition.
Proof. json_struct. Qed.
#[export] Instance json_NodeCondition_plain : JsonPlain NodeCondition.
Proof. json_plain. Qed.
#[export] Instance json_NodeCondition_some : JsonSome NodeCondition.
Proof. done. Qed.

Definition NodeAddressType_variants : list (NodeAddressType * string) :=
  [(NodeAddressType_Hostname, "Hostname");
   (NodeAddressType_InternalIP, "InternalIP");
   (NodeAddressType_ExternalIP, "ExternalIP");
   (NodeAddressType_InternalDNS, "InternalDNS");
   (NodeAddressType_ExternalDNS, "ExternalDNS")].
#[export] Instance json_NodeAddressType : Json NodeAddressType := unit_variants NodeAddressType_variants.
#[export] Instance json_NodeAddressType_ok : JsonOk NodeAddressType.
Proof. by intros []. Qed.
#[export] Instance json_NodeAddressType_plain : JsonPlain NodeAddressType.
Proof. json_plain. Qed.
#[export] Instance json_NodeAddressType_some : JsonSome NodeAddressType.
Proof. by intros []. Qed.

#[export] Instance json_NodeAddress : Json NodeAddress := {|
  to_value x := struct
    [ser "type" (naddr_address_type x);
     ser "address" (naddr_address x)];
  from_value v :=
    ms ← destruct_members v;
    f1 ← de "type" ms;
    f2 ← de "address" ms;
    Some (mk_NodeAddress f1 f2) |}.
#[export] Instance json_NodeAddress_ok : JsonOk NodeAddress.
Proof. json_struct. Qed.
#[export] Instance json_NodeAddress_plain : JsonPlain NodeAddress.
Proof. json_plain. Qed.
#[export] Instance json_NodeAddress_some : JsonSome NodeAddress.
Proof. done. Qed.

#[export] Instance json_NodeSystemInfo : Json NodeSystemInfo := {|
  to_value x := struct
    [ser_some "machineID" (ninfo_machine_id x);
     ser_some "systemUUID" (ninfo_system_uuid x);
     ser_some "bootID" (ninfo_boot_id x);
     ser_some "kernelVersion" (ninfo_kernel_version x);
     ser_some "osImage" (ninfo_os_image x);
     ser_some "containerRuntimeVersion" (ninfo_container_runtime_version x);
     ser_some "kubeletVersion" (ninfo_kubelet_version x);
     ser_some "kubeProxyVersion" (ninfo_kube_proxy_version x);
     ser_some "operatingSystem" (ninfo_operating_system x);
     ser_some "architecture" (ninfo_architecture x)];
  from_value v :=
    ms ← destruct_members v;
    f1 ← de_opt "machineID" ms;
    f2 ← de_opt "systemUUID" ms;
    f3 ← de_opt "bootID" ms;
    f4 ← de_opt "kernelVersion" ms;
    f5 ← de_opt "osImage" ms;
    f6 ← de_opt "containerRuntimeVersion" ms;
    f7 ← de_opt "kubeletVersion" ms;
    f8 ← de_opt "kubeProxyVersion" ms;
    f9 ← de_opt "operatingSystem" ms;
    f10 ← de_opt "architecture" ms;
    Some (mk_NodeSystemInfo f1 f2 f3 f4 f5 f6 f7 f8 f9 f10) |}.
#[export] Instance json_NodeSystemInfo_ok : JsonOk NodeSystemInfo.
Proof. json_struct. Qed.
#[export] Instance json_NodeSystemInfo_plain : JsonPlain NodeSystemInfo.
Proof. json_plain. Qed.
#[export] Instance json_NodeSystemInfo_some : JsonSome NodeSystemInfo.
Proof. done. Qed.

#[export] Instance json_ContainerImage : Json ContainerImage := {|
  to_value x := struct
    [ser "names" (cimg_names x);
     ser_some "sizeBytes" (cimg_size_bytes x)];
  from_value v :=
    ms ← destruct_members v;
    f1 ← de "names" ms;
    f2 ← de_opt "sizeBytes" ms;
    Some (mk_ContainerImage f1 f2) |}.
#[export] Instance json_ContainerImage_ok : JsonOk ContainerImage.
Proof. json_struct. Qed.
#[export] Instance json_ContainerImage_plain : JsonPlain ContainerImage.
Proof. json_plain. Qed.
#[export] Instance json_ContainerImage_some : JsonSome ContainerImage.
Proof. done. Qed.

Definition NodePhase_variants : list (NodePhase * string) :=
  [(NodePhase_Pending, "Pending");
   (NodePhase_Running, "Running");
   (NodePhase_Terminated, "Terminated")].
#[export] Instance json_NodePhase : Json NodePhase := unit_variants NodePhase_variants.
#[export] Instance json_NodePhase_ok : JsonOk NodePhase.
Proof. by intros []. Qed.
#[export] Instance json_NodePhase_plain : JsonPlain NodePhase.
Proof. json_plain. Qed.
#[export] Instance json_NodePhase_some : JsonSome NodePhase.
Proof. by intros []. Qed.

#[export] Instance json_NodeStatus : Json NodeStatus := {|
  to_value x := struct
    [ser_some "capacity" (nstat_capacity x);
     ser_some "allocatable" (nstat_allocatable x);
     ser_some "conditions" (nstat_conditions x);
     ser_some "addresses" (nstat_addresses x);
     ser_some "nodeInfo" (nstat_node_info x);
     ser_some "images" (nstat_images x);
     ser "phase" (nstat_phase x)];
  from_value v :=
    ms ← destruct_members v;
    f1 ← de_opt "capacity" ms;
    f2 ← de_opt "allocatable" ms;
    f3 ← de_opt "conditions" ms;
    f4 ← de_opt "addresses" ms;
    f5 ← de_opt "nodeInfo" ms;
    f6 ← de_opt "images" ms;
    f7 ← de_default NodePhase_default "phase" ms;
    Some (mk_NodeStatus f1 f2 f3 f4 f5 f6 f7) |}.
#[export] Instance json_NodeStatus_ok : JsonOk NodeStatus.
Proof. json_struct. Qed.
#[export] Instance json_NodeStatus_plain : JsonPlain NodeStatus.
Proof. json_plain. Qed.
#[export] Instance json_NodeStatus_some : JsonSome NodeStatus.
Proof. done. Qed.

#[export] Instance json_Node : Json Node := {|
  to_value x := struct (TypeMeta_fields (node_type_meta x) ++
    [ser "metadata" (node_metadata x);
     ser_some "spec" (node_spec x);
     ser_some "status" (node_status x)]);
  from_value v :=
    ms ← destruct_members v;
    tm ← TypeMeta_members ms;
    f1 ← de_default ObjectMeta_default "metadata" ms;
    f2 ← de_opt "spec" ms;
    f3 ← de_opt "status" ms;
    Some (mk_Node tm f1 f2 f3) |}.
#[export] Instance json_Node_ok : JsonOk Node.
Proof. json_struct. Qed.
#[export] Instance json_Node_plain : JsonPlain Node.
Proof. json_plain. Qed.
#[export] Instance json_Node_some : JsonSome Node.
Proof. done. Qed.

(** ** [models/deployment.rs] *)

Definition DeploymentStrategyType_variants : list (DeploymentStrategyType * string) :=
  [(DeploymentStrategyType_RollingUpdate, "RollingUpdate");
   (DeploymentStrategyType_Recreate, "Recreate")].
#[export] Instance json_DeploymentStrategyType : Json DeploymentStrategyType := unit_variants DeploymentStrategyType_variants.
#[export] Instance json_DeploymentStrategyType_ok : JsonOk DeploymentStrategyType.
Proof. by intros []. Qed.
#[export] Instance json_DeploymentStrategyType_plain : JsonPlain DeploymentStrategyType.
Proof. json_plain. Qed.
#[export] Instance json_DeploymentStrategyType_some : JsonSome DeploymentStrategyType.
Proof. by intros []. Qed.

(** [untagged]: the first variant that reads the value. *)
#[export] Instance json_IntOrString : Json IntOrString := {|
  to_value x := match x with IntOrString_Int z => to_value z | IntOrString_String s => to_value s end;
  from_value v :=
    match from_value (T:=i32) v with
    | Some z => Some (IntOrString_Int z)
    | None => IntOrString_String <$> from_value v
    end |}.
#[export] Instance json_IntOrString_ok : JsonOk IntOrString.
Proof.
  intros [z|s]; unfold to_value, json_IntOrString; cbn [from_value]; [|done].
  by rewrite (from_to z).
Qed.
#[export] Instance json_IntOrString_plain : JsonPlain IntOrString.
Proof. intros [z|s]; [apply (to_value_plain z)|done]. Qed.
#[export] Instance json_IntOrString_some : JsonSome IntOrString.
Proof. by intros []. Qed.

#[export] Instance json_RollingUpdateDeployment : Json RollingUpdateDeployment := {|
  to_value x := struct
    [ser_some "maxUnavailable" (ru_max_unavailable x);
     ser_some "maxSurge" (ru_max_surge x)];
  from_value v :=
    ms ← destruct_members v;
    f1 ← de_opt "maxUnavailable" ms;
    f2 ← de_opt "maxSurge" ms;
    Some (mk_RollingUpdateDeployment f1 f2) |}.
#[export] Instance json_RollingUpdateDeployment_ok : JsonOk RollingUpdateDeployment.
Proof. json_struct. Qed.
#[export] Instance json_RollingUpdateDeployment_plain : JsonPlain RollingUpdateDeployment.
Proof. json_plain. Qed.
#[export] Instance json_RollingUpdateDeployment_some : JsonSome RollingUpdateDeployment.
Proof. done. Qed.

#[export] Instance json_DeploymentStrategy : Json DeploymentStrategy := {|
  to_value x := struct
    [ser "type" (dstrat_strategy_type x);
     ser_some "rollingUpdate" (dstrat_rolling_update x)];
  from_value v :=
    ms ← destruct_members v;
    f1 ← de_default DeploymentStrategyType_default "type" ms;
    f2 ← de_opt "rollingUpdate" ms;
    Some (mk_DeploymentStrategy f1 f2) |}.
#[export] Instance json_DeploymentStrategy_ok : JsonOk DeploymentStrategy.
Proof. json_struct. Qed.
#[export] Instance json_DeploymentStrategy_plain : JsonPlain DeploymentStrategy.
Proof. json_plain. Qed.
#[export] Instance json_DeploymentStrategy_some : JsonSome DeploymentStrategy.
Proof. done. Qed.

#[export] Instance json_DeploymentSpec : Json DeploymentSpec := {|
  to_value x := struct
    [ser "replicas" (dspec_replicas x);
     ser "selector" (dspec_selector x);
     ser "template" (dspec_template x);
     ser_some "strategy" (dspec_strategy x);
     ser_some "minReadySeconds" (dspec_min_ready_seconds x);
     ser_some "revisionHistoryLimit" (dspec_revision_history_limit x);
     ser "paused" (dspec_paused x)];
  from_value v :=
    ms ← destruct_members v;
    f1 ← de_opt "replicas" ms;
    f2 ← de_default LabelSelector_default "selector" ms;
    f3 ← de_default PodTemplateSpec_default "template" ms;
    f4 ← de_opt "strategy" ms;
    f5 ← de_opt "minReadySeconds" ms;
    f6 ← de_opt "revisionHistoryLimit" ms;
    f7 ← de_default false "paused" ms;
    Some (mk_DeploymentSpec f1 f2 f3 f4 f5 f6 f7) |}.
#[export] Instance json_DeploymentSpec_ok : JsonOk DeploymentSpec.
Proof. json_struct. Qed.
#[export] Instance json_DeploymentSpec_plain : JsonPlain DeploymentSpec.
Proof. json_plain. Qed.
#[export] Instance json_DeploymentSpec_some : JsonSome DeploymentSpec.
Proof. done. Qed.

#[export] Instance json_DeploymentCondition : Json DeploymentCondition := {|
  to_value x := struct
    [ser "type" (dcond_condition_type x);
     ser "status" (dcond_status x);
     ser_some "lastUpdateTime" (dcond_last_update_time x);
     ser_some "lastTransitionTime" (dcond_last_transition_time x);
     ser_some "reason" (dcond_reason x);
     ser_some "message" (dcond_message x)];
  from_value v :=
    ms ← destruct_members v;
    f1 ← de "type" ms;
    f2 ← de "status" ms;
    f3 ← de_opt "lastUpdateTime" ms;
    f4 ← de_opt "lastTransitionTime" ms;
    f5 ← de_opt "reason" ms;
    f6 ← de_opt "message" ms;
    Some (mk_DeploymentCondition f1 f2 f3 f4 f5 f6) |}.
#[export] Instance json_DeploymentCondition_ok : JsonOk DeploymentCondition.
Proof. json_struct. Qed.
#[export] Instance json_DeploymentCondition_plain : JsonPlain DeploymentCondition.
Proof. json_plain. Qed.
#[export] Instance json_DeploymentCondition_some : JsonSome DeploymentCondition.
Proof. done. Qed.

#[export] Instance json_DeploymentStatus : Json DeploymentStatus := {|
  to_value x := struct
    [ser "replicas" (dstat_replicas x);
     ser "updatedReplicas" (dstat_updated_replicas x);
     ser "readyReplicas" (dstat_ready_replicas x);
     ser "availableReplicas" (dstat_available_replicas x);
     ser "unavailableReplicas" (dstat_unavailable_replicas x);
     ser_some "observedGeneration" (dstat_observed_generation x);
     ser_some "conditions" (dstat_conditions x)];
  from_value v :=
    ms ← destruct_members v;
    f1 ← de_default i32_zero "replicas" ms;
    f2 ← de_default i32_zero "updatedReplicas" ms;
    f3 ← de_default i32_zero "readyReplicas" ms;
    f4 ← de_default i32_zero "availableReplicas" ms;
    f5 ← de_default i32_zero "unavailableReplicas" ms;
    f6 ← de_opt "observedGeneration" ms;
    f7 ← de_opt "conditions" ms;
    Some (mk_DeploymentStatus f1 f2 f3 f4 f5 f6 f7) |}.
#[export] Instance json_DeploymentStatus_ok : JsonOk DeploymentStatus.
Proof. json_struct. Qed.
#[export] Instance json_DeploymentStatus_plain : JsonPlain DeploymentStatus.
Proof. json_plain. Qed.
#[export] Instance json_DeploymentStatus_some : JsonSome DeploymentStatus.
Proof. done. Qed.

#[export] Instance json_Deployment : Json Deployment := {|
  to_value x := struct (TypeMeta_fields (dep_type_meta x) ++
    [ser "metadata" (dep_metadata x);
     ser "spec" (dep_spec x);
     ser_some "status" (dep_status x)]);
  from_value v :=
    ms ← destruct_members v;
    tm ← TypeMeta_members ms;
    f1 ← de_default ObjectMeta_default "metadata" ms;
    f2 ← de_default DeploymentSpec_default "spec" ms;
    f3 ← de_opt "status" ms;
    Some (mk_Deployment tm f1 f2 f3) |}.
#[export] Instance json_Deployment_ok : JsonOk Deployment.
Proof. json_struct. Qed.
#[export] Instance json_Deployment_plain : JsonPlain Deployment.
Proof. json_plain. Qed.
#[export] Instance json_Deployment_some : JsonSome Deployment.
Proof. done. Qed.

(** ** [models/statefulset.rs] *)

Definition PodManagementPolicy_variants : list (PodManagementPolicy * string) :=
  [(PodManagementPolicy_OrderedReady, "OrderedReady");
   (PodManagementPolicy_Parallel, "Parallel")].
#[export] Instance json_PodManagementPolicy : Json PodManagementPolicy := unit_variants PodManagementPolicy_variants.
#[export] Instance json_PodManagementPolicy_ok : JsonOk PodManagementPolicy.
Proof. by intros []. Qed.
#[export] Instance json_PodManagementPolicy_plain : JsonPlain PodManagementPolicy.
Proof. json_plain. Qed.
#[export] Instance json_PodManagementPolicy_some : JsonSome PodManagementPolicy.
Proof. by intros []. Qed.

#[export] Instance json_StatefulSetSpec : Json StatefulSetSpec := {|
  to_value x := struct
    [ser "replicas" (ssspec_replicas x);
     ser "selector" (ssspec_selector x);
     ser "template" (ssspec_template x);
     ser_some "serviceName" (ssspec_service_name x);
     ser_some "podManagementPolicy" (ssspec_pod_management_policy x)];
  from_value v :=
    ms ← destruct_members v;
    f1 ← de_opt "replicas" ms;
    f2 ← de_default LabelSelector_default "selector" ms;
    f3 ← de_default PodTemplateSpec_default "template" ms;
    f4 ← de_opt "serviceName" ms;
    f5 ← de_opt "podManagementPolicy" ms;
    Some (mk_StatefulSetSpec f1 f2 f3 f4 f5) |}.
#[export] Instance json_StatefulSetSpec_ok : JsonOk StatefulSetSpec.
Proof. json_struct. Qed.
#[export] Instance json_StatefulSetSpec_plain : JsonPlain StatefulSetSpec.
Proof. json_plain. Qed.
#[export] Instance json_StatefulSetSpec_some : JsonSome StatefulSetSpec.
Proof. done. Qed.

#[export] Instance json_StatefulSetStatus : Json StatefulSetStatus := {|
  to_value x := struct
    [ser "replicas" (ssstat_replicas x);
     ser "readyReplicas" (ssstat_ready_replicas x);
     ser "currentReplicas" (ssstat_current_replicas x);
     ser_some "observedGeneration" (ssstat_observed_generation x);
     ser_some "currentRevision" (ssstat_current_revision x);
     ser_some "lastTransitionTime" (ssstat_last_transition_time x)];
  from_value v :=
    ms ← destruct_members v;
    f1 ← de_default i32_zero "replicas" ms;
    f2 ← de_default i32_zero "readyReplicas" ms;
    f3 ← de_default i32_zero "currentReplicas" ms;
    f4 ← de_opt "observedGeneration" ms;
    f5 ← de_opt "currentRevision" ms;
    f6 ← de_opt "lastTransitionTime" ms;
    Some (mk_StatefulSetStatus f1 f2 f3 f4 f5 f6) |}.
#[export] Instance json_StatefulSetStatus_ok : JsonOk StatefulSetStatus.
Proof. json_struct. Qed.
#[export] Instance json_StatefulSetStatus_plain : JsonPlain StatefulSetStatus.
Proof. json_plain. Qed.
#[export] Instance json_StatefulSetStatus_some : JsonSome StatefulSetStatus.
Proof. done. Qed.

#[export] Instance json_StatefulSet : Json StatefulSet := {|
  to_value x := struct (TypeMeta_fields (ss_type_meta x) ++
    [ser "metadata" (ss_metadata x);
     ser "spec" (ss_spec x);
     ser_some "status" (ss_status x)]);
  from_value v :=
    ms ← destruct_members v;
    tm ← TypeMeta_members ms;
    f1 ← de_default ObjectMeta_default "metadata" ms;
    f2 ← de_default StatefulSetSpec_default "spec" ms;
    f3 ← de_opt "status" ms;
    Some (mk_StatefulSet tm f1 f2 f3) |}.
#[export] Instance json_StatefulSet_ok : JsonOk StatefulSet.
Proof. json_struct. Qed.
#[export] Instance json_StatefulSet_plain : JsonPlain StatefulSet.
Proof. json_plain. Qed.
#[export] Instance json_StatefulSet_some : JsonSome StatefulSet.
Proof. done. Qed.

(** ** [models/daemonset.rs] *)

#[export] Instance json_DaemonSetSpec : Json DaemonSetSpec := {|
  to_value x := struct
    [ser "selector" (dsspec_selector x);
     ser "template" (dsspec_template x);
     ser_some "minReadySeconds" (dsspec_min_ready_seconds x)];
  from_value v :=
    ms ← destruct_members v;
    f1 ← de_default LabelSelector_default "selector" ms;
    f2 ← de_default PodTemplateSpec_default "template" ms;
    f3 ← de_opt "minReadySeconds" ms;
    Some (mk_DaemonSetSpec f1 f2 f3) |}.
#[export] Instance json_DaemonSetSpec_ok : JsonOk DaemonSetSpec.
Proof. json_struct. Qed.
#[export] Instance json_DaemonSetSpec_plain : JsonPlain DaemonSetSpec.
Proof. json_plain. Qed.
#[export] Instance json_DaemonSetSpec_some : JsonSome DaemonSetSpec.
Proof. done. Qed.

#[export] Instance json_DaemonSetStatus : Json DaemonSetStatus := {|
  to_value x := struct
    [ser "desiredNumberScheduled" (dsstat_desired_number_scheduled x);
     ser "currentNumberScheduled" (dsstat_current_number_scheduled x);
     ser "numberReady" (dsstat_number_ready x);
     ser "updatedNumberScheduled" (dsstat_updated_number_scheduled x);
     ser "numberMisscheduled" (dsstat_number_misscheduled x);
     ser "numberAvailable" (dsstat_number_available x);
     ser_some "observedGeneration" (dsstat_observed_generation x);
     ser_some "lastTransitionTime" (dsstat_last_transition_time x)];
  from_value v :=
    ms ← destruct_members v;
    f1 ← de_default i32_zero "desiredNumberScheduled" ms;
    f2 ← de_default i32_zero "currentNumberScheduled" ms;
    f3 ← de_default i32_zero "numberReady" ms;
    f4 ← de_default i32_zero "updatedNumberScheduled" ms;
    f5 ← de_default i32_zero "numberMisscheduled" ms;
    f6 ← de_default i32_zero "numberAvailable" ms;
    f7 ← de_opt "observedGeneration" ms;
    f8 ← de_opt "lastTransitionTime" ms;
    Some (mk_DaemonSetStatus f1 f2 f3 f4 f5 f6 f7 f8) |}.
#[export] Instance json_DaemonSetStatus_ok : JsonOk DaemonSetStatus.
Proof. json_struct. Qed.
#[export] Instance json_DaemonSetStatus_plain : JsonPlain DaemonSetStatus.
Proof. json_plain. Qed.
#[export] Instance json_DaemonSetStatus_some : JsonSome DaemonSetStatus.
Proof. done. Qed.

#[export] Instance json_DaemonSet : Json DaemonSet := {|
  to_value x := struct (TypeMeta_fields (ds_type_meta x) ++
    [ser "metadata" (ds_metadata x);
     ser "spec" (ds_spec x);
     ser_some "status" (ds_status x)]);
  from_value v :=
    ms ← destruct_members v;
    tm ← TypeMeta_members ms;
    f1 ← de_default ObjectMeta_default "metadata" ms;
    f2 ← de_default DaemonSetSpec_default "spec" ms;
    f3 ← de_opt "status" ms;
    Some (mk_DaemonSet tm f1 f2 f3) |}.
#[export] Instance json_DaemonSet_ok : JsonOk DaemonSet.
Proof. json_struct. Qed.
#[export] Instance json_DaemonSet_plain : JsonPlain DaemonSet.
Proof. json_plain. Qed.
#[export] Instance json_DaemonSet_some : JsonSome DaemonSet.
Proof. done. Qed.

(** ** [models/service.rs] *)

#[export] Instance json_ServicePort : Json ServicePort := {|
  to_value x := struct
    [ser_some "name" (sport_name x);
     ser "protocol" (sport_protocol x);
     ser "port" (sport_port x);
     ser_some "targetPort" (sport_target_port x);
     ser_some "nodePort" (sport_node_port x)];
  from_value v :=
    ms ← destruct_members v;
    f1 ← de_opt "name" ms;
    f2 ← de_default Protocol_default "protocol" ms;
    f3 ← de "port" ms;
    f4 ← de_opt "targetPort" ms;
    f5 ← de_opt "nodePort" ms;
    Some (mk_ServicePort f1 f2 f3 f4 f5) |}.
#[export] Instance json_ServicePort_ok : JsonOk ServicePort.
Proof. json_struct. Qed.
#[export] Instance json_ServicePort_plain : JsonPlain ServicePort.
Proof. json_plain. Qed.
#[export] Instance json_ServicePort_some : JsonSome ServicePort.
Proof. done. Qed.

Definition ServiceType_variants : list (ServiceType * string) :=
  [(ServiceType_ClusterIP, "ClusterIP");
   (ServiceType_NodePort, "NodePort");
   (ServiceType_LoadBalancer, "LoadBalancer");
   (ServiceType_ExternalName, "ExternalName")].
#[export] Instance json_ServiceType : Json ServiceType := unit_variants ServiceType_variants.
#[export] Instance json_ServiceType_ok : JsonOk ServiceType.
Proof. by intros []. Qed.
#[export] Instance json_ServiceType_plain : JsonPlain ServiceType.
Proof. json_plain. Qed.
#[export] Instance json_ServiceType_some : JsonSome ServiceType.
Proof. by intros []. Qed.

Definition SessionAffinity_variants : list (SessionAffinity * string) :=
  [(SessionAffinity_None, "None");
   (SessionAffinity_ClientIP, "ClientIP")].
#[export] Instance json_SessionAffinity : Json SessionAffinity := unit_variants SessionAffinity_variants.
#[export] Instance json_SessionAffinity_ok : JsonOk SessionAffinity.
Proof. by intros []. Qed.
#[export] Instance json_SessionAffinity_plain : JsonPlain SessionAffinity.
Proof. json_plain. Qed.
#[export] Instance json_SessionAffinity_some : JsonSome SessionAffinity.
Proof. by intros []. Qed.

#[export] Instance json_ServiceSpec : Json ServiceSpec := {|
  to_value x := struct
    [ser_some "selector" (sspec_selector x);
     ser "ports" (sspec_ports x);
     ser "type" (sspec_service_type x);
     ser_some "clusterIP" (sspec_cluster_ip x);
     ser_some "externalIPs" (sspec_external_i_ps x);
     ser_some "sessionAffinity" (sspec_session_affinity x)];
  from_value v :=
    ms ← destruct_members v;
    f1 ← de_opt "selector" ms;
    f2 ← de_default [] "ports" ms;
    f3 ← de_default ServiceType_default "type" ms;
    f4 ← de_opt "clusterIP" ms;
    f5 ← de_opt "externalIPs" ms;
    f6 ← de_opt "sessionAffinity" ms;
    Some (mk_ServiceSpec f1 f2 f3 f4 f5 f6) |}.
#[export] Instance json_ServiceSpec_ok : JsonOk ServiceSpec.
Proof. json_struct. Qed.
#[export] Instance json_ServiceSpec_plain : JsonPlain ServiceSpec.
Proof. json_plain. Qed.
#[export] Instance json_ServiceSpec_some : JsonSome ServiceSpec.
Proof. done. Qed.

#[export] Instance json_LoadBalancerIngress : Json LoadBalancerIngress := {|
  to_value x := struct
    [ser_some "ip" (lbi_ip x);
     ser_some "hostname" (lbi_hostname x)];
  from_value v :=
    ms ← destruct_members v;
    f1 ← de_opt "ip" ms;
    f2 ← de_opt "hostname" ms;
    Some (mk_LoadBalancerIngress f1 f2) |}.
#[export] Instance json_LoadBalancerIngress_ok : JsonOk LoadBalancerIngress.
Proof. json_struct. Qed.
#[export] Instance json_LoadBalancerIngress_plain : JsonPlain LoadBalancerIngress.
Proof. json_plain. Qed.
#[export] Instance json_LoadBalancerIngress_some : JsonSome LoadBalancerIngress.
Proof. done. Qed.

#[export] Instance json_LoadBalancerStatus : Json LoadBalancerStatus := {|
  to_value x := struct
    [ser_some "ingress" (lbs_ingress x)];
  from_value v :=
    ms ← destruct_members v;
    f1 ← de_opt "ingress" ms;
    Some (mk_LoadBalancerStatus f1) |}.
#[export] Instance json_LoadBalancerStatus_ok : JsonOk LoadBalancerStatus.
Proof. json_struct. Qed.
#[export] Instance json_LoadBalancerStatus_plain : JsonPlain LoadBalancerStatus.
Proof. json_plain. Qed.
#[export] Instance json_LoadBalancerStatus_some : JsonSome LoadBalancerStatus.
Proof. done. Qed.

#[export] Instance json_ServiceStatus : Json ServiceStatus := {|
  to_value x := struct
    [ser_some "loadBalancer" (sstat_load_balancer x)];
  from_value v :=
    ms ← destruct_members v;
    f1 ← de_opt "loadBalancer" ms;
    Some (mk_ServiceStatus f1) |}.
#[export] Instance json_ServiceStatus_ok : JsonOk ServiceStatus.
Proof. json_struct. Qed.
#[export] Instance json_ServiceStatus_plain : JsonPlain ServiceStatus.
Proof. json_plain. Qed.
#[export] Instance json_ServiceStatus_some : JsonSome ServiceStatus.
Proof. done. Qed.

#[export] Instance json_Service : Json Service := {|
  to_value x := struct (TypeMeta_fields (svc_type_meta x) ++
    [ser "metadata" (svc_metadata x);
     ser "spec" (svc_spec x);
     ser_some "status" (svc_status x)]);
  from_value v :=
    ms ← destruct_members v;
    tm ← TypeMeta_members ms;
    f1 ← de_default ObjectMeta_default "metadata" ms;
    f2 ← de_default ServiceSpec_default "spec" ms;
    f3 ← de_opt "status" ms;
    Some (mk_Service tm f1 f2 f3) |}.
#[export] Instance json_Service_ok : JsonOk Service.
Proof. json_struct. Qed.
#[export] Instance json_Service_plain : JsonPlain Service.
Proof. json_plain. Qed.
#[export] Instance json_Service_some : JsonSome Service.
Proof. done. Qed.

#[export] Instance json_ObjectReference : Json ObjectReference := {|
  to_value x := struct
    [ser_some "apiVersion" (objref_api_version x);
     ser_some "kind" (objref_kind x);
     ser_some "name" (objref_name x);
     ser_some "namespace" (objref_namespace x);
     ser_some "uid" (objref_uid x);
     ser_some "resourceVersion" (objref_resource_version x);
     ser_some "fieldPath" (objref_field_path x)];
  from_value v :=
    ms ← destruct_members v;
    f1 ← de_opt "apiVersion" ms;
    f2 ← de_opt "kind" ms;
    f3 ← de_opt "name" ms;
    f4 ← de_opt "namespace" ms;
    f5 ← de_opt "uid" ms;
    f6 ← de_opt "resourceVersion" ms;
    f7 ← de_opt "fieldPath" ms;
    Some (mk_ObjectReference f1 f2 f3 f4 f5 f6 f7) |}.
#[export] Instance json_ObjectReference_ok : JsonOk ObjectReference.
Proof. json_struct. Qed.
#[export] Instance json_ObjectReference_plain : JsonPlain ObjectReference.
Proof. json_plain. Qed.
#[export] Instance json_ObjectReference_some : JsonSome ObjectReference.
Proof. done. Qed.

#[export] Instance json_EndpointAddress : Json EndpointAddress := {|
  to_value x := struct
    [ser "ip" (epa_ip x);
     ser_some "hostname" (epa_hostname x);
     ser_some "nodeName" (epa_node_name x);
     ser_some "targetRef" (epa_target_ref x)];
  from_value v :=
    ms ← destruct_members v;
    f1 ← de "ip" ms;
    f2 ← de_opt "hostname" ms;
    f3 ← de_opt "nodeName" ms;
    f4 ← de_opt "targetRef" ms;
    Some (mk_EndpointAddress f1 f2 f3 f4) |}.
#[export] Instance json_EndpointAddress_ok : JsonOk EndpointAddress.
Proof. json_struct. Qed.
#[export] Instance json_EndpointAddress_plain : JsonPlain EndpointAddress.
Proof. json_plain. Qed.
#[export] Instance json_EndpointAddress_some : JsonSome EndpointAddress.
Proof. done. Qed.

#[export] Instance json_EndpointPort : Json EndpointPort := {|
  to_value x := struct
    [ser_some "name" (epp_name x);
     ser "port" (epp_port x);
     ser "protocol" (epp_protocol x)];
  from_value v :=
    ms ← destruct_members v;
    f1 ← de_opt "name" ms;
    f2 ← de "port" ms;
    f3 ← de_default Protocol_default "protocol" ms;
    Some (mk_EndpointPort f1 f2 f3) |}.
#[export] Instance json_EndpointPort_ok : JsonOk EndpointPort.
Proof. json_struct. Qed.
#[export] Instance json_EndpointPort_plain : JsonPlain EndpointPort.
Proof. json_plain. Qed.
#[export] Instance json_EndpointPort_some : JsonSome EndpointPort.
Proof. done. Qed.

#[export] Instance json_EndpointSubset : Json EndpointSubset := {|
  to_value x := struct
    [ser_some "addresses" (eps_addresses x);
     ser_some "notReadyAddresses" (eps_not_ready_addresses x);
     ser_some "ports" (eps_ports x)];
  from_value v :=
    ms ← destruct_members v;
    f1 ← de_opt "addresses" ms;
    f2 ← de_opt "notReadyAddresses" ms;
    f3 ← de_opt "ports" ms;
    Some (mk_EndpointSubset f1 f2 f3) |}.
#[export] Instance json_EndpointSubset_ok : JsonOk EndpointSubset.
Proof. json_struct. Qed.
#[export] Instance json_EndpointSubset_plain : JsonPlain EndpointSubset.
Proof. json_plain. Qed.
#[export] Instance json_EndpointSubset_some : JsonSome EndpointSubset.
Proof. done. Qed.

#[export] Instance json_Endpoints : Json Endpoints := {|
  to_value x := struct (TypeMeta_fields (ep_type_meta x) ++
    [ser "metadata" (ep_metadata x);
     ser "subsets" (ep_subsets x)]);
  from_value v :=
    ms ← destruct_members v;
    tm ← TypeMeta_members ms;
    f1 ← de_default ObjectMeta_default "metadata" ms;
    f2 ← de_default [] "subsets" ms;
    Some (mk_Endpoints tm f1 f2) |}.
#[export] Instance json_Endpoints_ok : JsonOk Endpoints.
Proof. json_struct. Qed.
#[export] Instance json_Endpoints_plain : JsonPlain Endpoints.
Proof. json_plain. Qed.
#[export] Instance json_Endpoints_some : JsonSome Endpoints.
Proof. done. Qed.

(** ** [models/namespace.rs] *)

#[export] Instance json_NamespaceSpec : Json NamespaceSpec := {|
  to_value x := struct
    [ser_some "finalizers" (nsspec_finalizers x)];
  from_value v :=
    ms ← destruct_members v;
    f1 ← de_opt "finalizers" ms;
    Some (mk_NamespaceSpec f1) |}.
#[export] Instance json_NamespaceSpec_ok : JsonOk NamespaceSpec.
Proof. json_struct. Qed.
#[export] Instance json_NamespaceSpec_plain : JsonPlain NamespaceSpec.
Proof. json_plain. Qed.
#[export] Instance json_NamespaceSpec_some : JsonSome NamespaceSpec.
Proof. done. Qed.

Definition NamespacePhase_variants : list (NamespacePhase * string) :=
  [(NamespacePhase_Active, "Active");
   (NamespacePhase_Terminating, "Terminating")].
#[export] Instance json_NamespacePhase : Json NamespacePhase := unit_variants NamespacePhase_variants.
#[export] Instance json_NamespacePhase_ok : JsonOk NamespacePhase.
Proof. by intros []. Qed.
#[export] Instance json_NamespacePhase_plain : JsonPlain NamespacePhase.
Proof. json_plain. Qed.
#[export] Instance json_NamespacePhase_some : JsonSome NamespacePhase.
Proof. by intros []. Qed.

#[export] Instance json_NamespaceCondition : Json NamespaceCondition := {|
  to_value x := struct
    [ser "type" (nscond_condition_type x);
     ser "status" (nscond_status x);
     ser_some "lastTransitionTime" (nscond_last_transition_time x);
     ser_some "reason" (nscond_reason x);
     ser_some "message" (nscond_message x)];
  from_value v :=
    ms ← destruct_members v;
    f1 ← de "type" ms;
    f2 ← de "status" ms;
    f3 ← de_opt "lastTransitionTime" ms;
    f4 ← de_opt "reason" ms;
    f5 ← de_opt "message" ms;
    Some (mk_NamespaceCondition f1 f2 f3 f4 f5) |}.
#[export] Instance json_NamespaceCondition_ok : JsonOk NamespaceCondition.
Proof. json_struct. Qed.
#[export] Instance json_NamespaceCondition_plain : JsonPlain NamespaceCondition.
Proof. json_plain. Qed.
#[export] Instance json_NamespaceCondition_some : JsonSome NamespaceCondition.
Proof. done. Qed.

#[export] Instance json_NamespaceStatus : Json NamespaceStatus := {|
  to_value x := struct
    [ser "phase" (nsstat_phase x);
     ser_some "conditions" (nsstat_conditions x)];
  from_value v :=
    ms ← destruct_members v;
    f1 ← de_default NamespacePhase_default "phase" ms;
    f2 ← de_opt "conditions" ms;
    Some (mk_NamespaceStatus f1 f2) |}.
#[export] Instance json_NamespaceStatus_ok : JsonOk NamespaceStatus.
Proof. json_struct. Qed.
#[export] Instance json_NamespaceStatus_plain : JsonPlain NamespaceStatus.
Proof. json_plain. Qed.
#[export] Instance json_NamespaceStatus_some : JsonSome NamespaceStatus.
Proof. done. Qed.

#[export] Instance json_Namespace : Json Namespace := {|
  to_value x := struct (TypeMeta_fields (ns_type_meta x) ++
    [ser "metadata" (ns_metadata x);
     ser_some "spec" (ns_spec x);
     ser_some "status" (ns_status x)]);
  from_value v :=
    ms ← destruct_members v;
    tm ← TypeMeta_members ms;
    f1 ← de_default ObjectMeta_default "metadata" ms;
    f2 ← de_opt "spec" ms;
    f3 ← de_opt "status" ms;
    Some (mk_Namespace tm f1 f2 f3) |}.
#[export] Instance json_Namespace_ok : JsonOk Namespace.
Proof. json_struct. Qed.
#[export] Instance json_Namespace_plain : JsonPlain Namespace.
Proof. json_plain. Qed.
#[export] Instance json_Namespace_some : JsonSome Namespace.
Proof. done. Qed.

(** ** [models/event.rs] *)

#[export] Instance json_EventSource : Json EventSource := {|
  to_value x := struct
    [ser_some "component" (evsrc_component x);
     ser_some "host" (evsrc_host x)];
  from_value v :=
    ms ← destruct_members v;
    f1 ← de_opt "component" ms;
    f2 ← de_opt "host" ms;
    Some (mk_EventSource f1 f2) |}.
#[export] Instance json_EventSource_ok : JsonOk EventSource.
Proof. json_struct. Qed.
#[export] Instance json_EventSource_plain : JsonPlain EventSource.
Proof. json_plain. Qed.
#[export] Instance json_EventSource_some : JsonSome EventSource.
Proof. done. Qed.

Definition EventType_variants : list (EventType * string) :=
  [(EventType_Normal, "Normal");
   (EventType_Warning, "Warning")].
#[export] Instance json_EventType : Json EventType := unit_variants EventType_variants.
#[export] Instance json_EventType_ok : JsonOk EventType.
Proof. by intros []. Qed.
#[export] Instance json_EventType_plain : JsonPlain EventType.
Proof. json_plain. Qed.
#[export] Instance json_EventType_some : JsonSome EventType.
Proof. by intros []. Qed.

#[export] Instance json_Event : Json Event := {|
  to_value x := struct (TypeMeta_fields (ev_type_meta x) ++
    [ser "metadata" (ev_metadata x);
     ser "involvedObject" (ev_involved_object x);
     ser_some "reason" (ev_reason x);
     ser_some "message" (ev_message x);
     ser_some "source" (ev_source x);
     ser_some "firstTimestamp" (ev_first_timestamp x);
     ser_some "lastTimestamp" (ev_last_timestamp x);
     ser_some "count" (ev_count x);
     ser_some "type" (ev_event_type x);
     ser_some "eventTime" (ev_event_time x);
     ser_some "action" (ev_action x);
     ser_some "reportingController" (ev_reporting_controller x);
     ser_some "reportingInstance" (ev_reporting_instance x)]);
  from_value v :=
    ms ← destruct_members v;
    tm ← TypeMeta_members ms;
    f1 ← de "metadata" ms;
    f2 ← de "involvedObject" ms;
    f3 ← de_opt "reason" ms;
    f4 ← de_opt "message" ms;
    f5 ← de_opt "source" ms;
    f6 ← de_opt "firstTimestamp" ms;
    f7 ← de_opt "lastTimestamp" ms;
    f8 ← de_opt "count" ms;
    f9 ← de_opt "type" ms;
    f10 ← de_opt "eventTime" ms;
    f11 ← de_opt "action" ms;
    f12 ← de_opt "reportingController" ms;
    f13 ← de_opt "reportingInstance" ms;
    Some (mk_Event tm f1 f2 f3 f4 f5 f6 f7 f8 f9 f10 f11 f12 f13) |}.
#[export] Instance json_Event_ok : JsonOk Event.
Proof. json_struct. Qed.
#[export] Instance json_Event_plain : JsonPlain Event.
Proof. json_plain. Qed.
#[export] Instance json_Event_some : JsonSome Event.
Proof. done. Qed.

(** ** [models/auth.rs] *)

#[export] Instance json_ObjectReferenceLite : Json ObjectReferenceLite := {|
  to_value x := struct
    [ser_some "name" (orl_name x)];
  from_value v :=
    ms ← destruct_members v;
    f1 ← de_opt "name" ms;
    Some (mk_ObjectReferenceLite f1) |}.
#[export] Instance json_ObjectReferenceLite_ok : JsonOk ObjectReferenceLite.
Proof. json_struct. Qed.
#[export] Instance json_ObjectReferenceLite_plain : JsonPlain ObjectReferenceLite.
Proof. json_plain. Qed.
#[export] Instance json_ObjectReferenceLite_some : JsonSome ObjectReferenceLite.
Proof. done. Qed.

#[export] Instance json_ServiceAccount : Json ServiceAccount := {|
  to_value x := struct (TypeMeta_fields (sa_type_meta x) ++
    [ser "metadata" (sa_metadata x);
     ser_some "secrets" (sa_secrets x);
     ser_some "imagePullSecrets" (sa_image_pull_secrets x);
     ser_some "automountServiceAccountToken" (sa_automount_service_account_token x)]);
  from_value v :=
    ms ← destruct_members v;
    tm ← TypeMeta_members ms;
    f1 ← de_default ObjectMeta_default "metadata" ms;
    f2 ← de_opt "secrets" ms;
    f3 ← de_opt "imagePullSecrets" ms;
    f4 ← de_opt "automountServiceAccountToken" ms;
    Some (mk_ServiceAccount tm f1 f2 f3 f4) |}.
#[export] Instance json_ServiceAccount_ok : JsonOk ServiceAccount.
Proof. json_struct. Qed.
#[export] Instance json_ServiceAccount_plain : JsonPlain ServiceAccount.
Proof. json_plain. Qed.
#[export] Instance json_ServiceAccount_some : JsonSome ServiceAccount.
Proof. done. Qed.

#[export] Instance json_Secret : Json Secret := {|
  to_value x := struct (TypeMeta_fields (sec_type_meta x) ++
    [ser "metadata" (sec_metadata x);
     ser "type" (sec_secret_type x);
     ser_some "data" (sec_data x);
     ser_some "stringData" (sec_string_data x);
     ser "immutable" (sec_immutable x)]);
  from_value v :=
    ms ← destruct_members v;
    tm ← TypeMeta_members ms;
    f1 ← de_default ObjectMeta_default "metadata" ms;
    f2 ← de_default default_secret_type "type" ms;
    f3 ← de_opt "data" ms;
    f4 ← de_opt "stringData" ms;
    f5 ← de_opt "immutable" ms;
    Some (mk_Secret tm f1 f2 f3 f4 f5) |}.
#[export] Instance json_Secret_ok : JsonOk Secret.
Proof. json_struct. Qed.
#[export] Instance json_Secret_plain : JsonPlain Secret.
Proof. json_plain. Qed.
#[export] Instance json_Secret_some : JsonSome Secret.
Proof. done. Qed.

#[export] Instance json_ConfigMap : Json ConfigMap := {|
  to_value x := struct (TypeMeta_fields (cm_type_meta x) ++
    [ser "metadata" (cm_metadata x);
     ser_some "data" (cm_data x);
     ser_some "binaryData" (cm_binary_data x);
     ser "immutable" (cm_immutable x)]);
  from_value v :=
    ms ← destruct_members v;
    tm ← TypeMeta_members ms;
    f1 ← de_default ObjectMeta_default "metadata" ms;
    f2 ← de_opt "data" ms;
    f3 ← de_opt "binaryData" ms;
    f4 ← de_opt "immutable" ms;
    Some (mk_ConfigMap tm f1 f2 f3 f4) |}.
#[export] Instance json_ConfigMap_ok : JsonOk ConfigMap.
Proof. json_struct. Qed.
#[export] Instance json_ConfigMap_plain : JsonPlain ConfigMap.
Proof. json_plain. Qed.
#[export] Instance json_ConfigMap_some : JsonSome ConfigMap.
Proof. done. Qed.

#[export] Instance json_PolicyRule : Json PolicyRule := {|
  to_value x := struct
    [ser "verbs" (pr_verbs x);
     ser_vec "apiGroups" (pr_api_groups x);
     ser_vec "resources" (pr_resources x);
     ser_vec "resourceNames" (pr_resource_names x);
     ser_vec "nonResourceUrLs" (pr_non_resource_ur_ls x)];
  from_value v :=
    ms ← destruct_members v;
    f1 ← de_default [] "verbs" ms;
    f2 ← de_default [] "apiGroups" ms;
    f3 ← de_default [] "resources" ms;
    f4 ← de_default [] "resourceNames" ms;
    f5 ← de_default [] "nonResourceUrLs" ms;
    Some (mk_PolicyRule f1 f2 f3 f4 f5) |}.
#[export] Instance json_PolicyRule_ok : JsonOk PolicyRule.
Proof. json_struct. Qed.
#[export] Instance json_PolicyRule_plain : JsonPlain PolicyRule.
Proof. json_plain. Qed.
#[export] Instance json_PolicyRule_some : JsonSome PolicyRule.
Proof. done. Qed.

#[export] Instance json_Role : Json Role := {|
  to_value x := struct (TypeMeta_fields (role_type_meta x) ++
    [ser "metadata" (role_metadata x);
     ser "rules" (role_rules x)]);
  from_value v :=
    ms ← destruct_members v;
    tm ← TypeMeta_members ms;
    f1 ← de_default ObjectMeta_default "metadata" ms;
    f2 ← de_default [] "rules" ms;
    Some (mk_Role tm f1 f2) |}.
#[export] Instance json_Role_ok : JsonOk Role.
Proof. json_struct. Qed.
#[export] Instance json_Role_plain : JsonPlain Role.
Proof. json_plain. Qed.
#[export] Instance json_Role_some : JsonSome Role.
Proof. done. Qed.

#[export] Instance json_RbacSubject : Json RbacSubject := {|
  to_value x := struct
    [ser "kind" (rsub_kind x);
     ser "apiGroup" (rsub_api_group x);
     ser "name" (rsub_name x);
     ser_some "namespace" (rsub_namespace x)];
  from_value v :=
    ms ← destruct_members v;
    f1 ← de "kind" ms;
    f2 ← de_opt "apiGroup" ms;
    f3 ← de "name" ms;
    f4 ← de_opt "namespace" ms;
    Some (mk_RbacSubject f1 f2 f3 f4) |}.
#[export] Instance json_RbacSubject_ok : JsonOk RbacSubject.
Proof. json_struct. Qed.
#[export] Instance json_RbacSubject_plain : JsonPlain RbacSubject.
Proof. json_plain. Qed.
#[export] Instance json_RbacSubject_some : JsonSome RbacSubject.
Proof. done. Qed.

#[export] Instance json_RoleRef : Json RoleRef := {|
  to_value x := struct
    [ser "apiGroup" (rref_api_group x);
     ser "kind" (rref_kind x);
     ser "name" (rref_name x)];
  from_value v :=
    ms ← destruct_members v;
    f1 ← de_default "" "apiGroup" ms;
    f2 ← de_default "" "kind" ms;
    f3 ← de_default "" "name" ms;
    Some (mk_RoleRef f1 f2 f3) |}.
#[export] Instance json_RoleRef_ok : JsonOk RoleRef.
Proof. json_struct. Qed.
#[export] Instance json_RoleRef_plain : JsonPlain RoleRef.
Proof. json_plain. Qed.
#[export] Instance json_RoleRef_some : JsonSome RoleRef.
Proof. done. Qed.

#[export] Instance json_RoleBinding : Json RoleBinding := {|
  to_value x := struct (TypeMeta_fields (rb_type_meta x) ++
    [ser "metadata" (rb_metadata x);
     ser "subjects" (rb_subjects x);
     ser "roleRef" (rb_role_ref x)]);
  from_value v :=
    ms ← destruct_members v;
    tm ← TypeMeta_members ms;
    f1 ← de_default ObjectMeta_default "metadata" ms;
    f2 ← de_default [] "subjects" ms;
    f3 ← de_default RoleRef_default "roleRef" ms;
    Some (mk_RoleBinding tm f1 f2 f3) |}.
#[export] Instance json_RoleBinding_ok : JsonOk RoleBinding.
Proof. json_struct. Qed.
#[export] Instance json_RoleBinding_plain : JsonPlain RoleBinding.
Proof. json_plain. Qed.
#[export] Instance json_RoleBinding_some : JsonSome RoleBinding.
Proof. done. Qed.

#[export] Instance json_ClusterRole : Json ClusterRole := {|
  to_value x := struct (TypeMeta_fields (cr_type_meta x) ++
    [ser "metadata" (cr_metadata x);
     ser "rules" (cr_rules x);
     ser_some "aggregationRule" (cr_aggregation_rule x)]);
  from_value v :=
    ms ← destruct_members v;
    tm ← TypeMeta_members ms;
    f1 ← de_default ObjectMeta_default "metadata" ms;
    f2 ← de_default [] "rules" ms;
    f3 ← de_opt "aggregationRule" ms;
    Some (mk_ClusterRole tm f1 f2 f3) |}.
#[export] Instance json_ClusterRole_some : JsonSome ClusterRole.
Proof. done. Qed.

#[export] Instance json_ClusterRoleBinding : Json ClusterRoleBinding := {|
  to_value x := struct (TypeMeta_fields (crb_type_meta x) ++
    [ser "metadata" (crb_metadata x);
     ser "subjects" (crb_subjects x);
     ser "roleRef" (crb_role_ref x)]);
  from_value v :=
    ms ← destruct_members v;
    tm ← TypeMeta_members ms;
    f1 ← de_default ObjectMeta_default "metadata" ms;
    f2 ← de_default [] "subjects" ms;
    f3 ← de_default RoleRef_default "roleRef" ms;
    Some (mk_ClusterRoleBinding tm f1 f2 f3) |}.
#[export] Instance json_ClusterRoleBinding_ok : JsonOk ClusterRoleBinding.
Proof. json_struct. Qed.
#[export] Instance json_ClusterRoleBinding_plain : JsonPlain ClusterRoleBinding.
Proof. json_plain. Qed.
#[export] Instance json_ClusterRoleBinding_some : JsonSome ClusterRoleBinding.
Proof. done. Qed.

(** A [ClusterRole]'s [aggregationRule] is raw JSON: [Some null] is read back
    as [None], any other value survives. *)
Lemma json_ClusterRole_round (x : ClusterRole) :
  cr_aggregation_rule x ≠ Some JNull → from_value (to_value x) = Some x.
Proof.
  destruct x as [tm md rules agg]. intros Hagg.
  json_members. simpl in Hagg. rewrite !(read_some (T:=string)).
  destruct agg as [[]|], tm; cbn; first [reflexivity | congruence].
Qed.

Lemma json_ClusterRole_is_plain (x : ClusterRole) :
  from_option json_plain true (cr_aggregation_rule x) = true → json_plain (to_value x) = true.
Proof.
  destruct x as [[a k] md rules agg]. cbn [cr_aggregation_rule]. intros Hp.
  apply plain_struct; [reflexivity|]. cbn [app TypeMeta_fields cr_type_meta].
  repeat (apply Forall_cons; split; [first [apply plain_ser | apply plain_ser_some | idtac]|]);
    [|by apply Forall_nil].
  by destruct agg.
Qed.

(** ** Lists of objects ([models/meta.rs]) *)

#[export] Instance json_List {T} `{Json T} : Json (List T) := {|
  to_value x := struct
    [ser "apiVersion" (list_api_version x);
     ser "kind" (list_kind x);
     ser "metadata" (list_metadata x);
     ser "items" (list_items x)];
  from_value v :=
    ms ← destruct_members v;
    f1 ← de "apiVersion" ms;
    f2 ← de "kind" ms;
    f3 ← de "metadata" ms;
    f4 ← de "items" ms;
    Some (mk_List f1 f2 f3 f4) |}.
#[export] Instance json_List_ok {T} `{JsonOk T} : JsonOk (List T).
Proof. json_struct. Qed.
#[export] Instance json_List_plain {T} `{JsonPlain T} : JsonPlain (List T).
Proof. json_plain. Qed.
#[export] Instance json_List_some {T} `{Json T} : JsonSome (List T).
Proof. done. Qed.
End wire.
