(* ===== verification/WireOk.v ===== *)
(** * What the wire format guarantees

    Every object the API serves survives its JSON text. *)
From S2P Require Import Prelude RustStd Json External Models Wire Reference.

(** Printing and parsing gives the object back. *)
Definition reads_back `{Extern} (T : Type) `{Json T} (x : T) : Prop :=
  (json_parse (json_print (to_value x)) ≫= from_value) = Some x.

Lemma reads_back_ok `{ExternOk} {T} `{JsonOk T, !JsonPlain T} (x : T) : reads_back T x.
Proof. unfold reads_back. rewrite json_parse_print by apply to_value_plain. apply from_to. Qed.

(** C38.  The objects of all sixteen kinds are read back from their JSON text
    as they were, whatever optional fields they leave out; of a cluster role,
    an aggregation rule, which is free-form JSON, must not be an explicit
    [null] nor hold what [serde_json] does not keep exactly. *)
Theorem api_objects_round_trip `{ExternOk} :
  (∀ x, reads_back Pod x) ∧ (∀ x, reads_back Node x) ∧ (∀ x, reads_back Namespace x) ∧
  (∀ x, reads_back Service x) ∧ (∀ x, reads_back Endpoints x) ∧ (∀ x, reads_back Event x) ∧
  (∀ x, reads_back Deployment x) ∧ (∀ x, reads_back StatefulSet x) ∧
  (∀ x, reads_back DaemonSet x) ∧ (∀ x, reads_back ServiceAccount x) ∧
  (∀ x, reads_back Secret x) ∧ (∀ x, reads_back ConfigMap x) ∧ (∀ x, reads_back Role x) ∧
  (∀ x, reads_back RoleBinding x) ∧ (∀ x, reads_back ClusterRoleBinding x) ∧
  (∀ x, cr_aggregation_rule x ≠ Some JNull →
    from_option json_plain true (cr_aggregation_rule x) = true → reads_back ClusterRole x).
Proof.
  repeat (apply conj; [intros x; apply reads_back_ok|]).
  intros x Hx Hp. unfold reads_back.
  rewrite json_parse_print by by apply json_ClusterRole_is_plain. by apply json_ClusterRole_round.
Qed.
Lemma api_objects_round_trip_witness : reads_back Pod Pod_default.
Proof. exact (proj1 api_objects_round_trip Pod_default). Defined.
