(* ===== verification/Error.v ===== *)
(** * Errors ([src/src/error.rs])

    The error type every repository and handler returns, and the HTTP status
    and Kubernetes [Status] body it becomes.  Errors of third-party crates
    ([sqlx], [serde_json], [reqwest]) are the text they display as. *)
From S2P Require Import Prelude RustStd Json.

Inductive Error : Type :=
| NotFound (msg : string)
| AlreadyExists (msg : string)
| BadRequest (msg : string)
| Database (e : string)
| Serialization (e : string)
| HttpClient (e : string)
| Internal (msg : string).

#[export] Instance Error_eq_dec : EqDecision Error.
Proof. solve_decision. Defined.

(** [Display], from the [#[error(..)]] attributes. *)
Definition Error_to_string (e : Error) : string :=
  match e with
  | NotFound m => "Resource not found: " +:+ m
  | AlreadyExists m => "Resource already exists: " +:+ m
  | BadRequest m => "Invalid request: " +:+ m
  | Database e => "Database error: " +:+ e
  | Serialization e => "Serialization error: " +:+ e
  | HttpClient e => "HTTP client error: " +:+ e
  | Internal m => "Internal error: " +:+ m
  end.

Definition Error_parts (e : Error) : Z * string * string :=
  match e with
  | NotFound m => (404%Z, "NotFound", m)
  | AlreadyExists m => (409%Z, "AlreadyExists", m)
  | BadRequest m => (400%Z, "BadRequest", m)
  | Database m => (500%Z, "InternalError", m)
  | Serialization m => (400%Z, "BadRequest", m)
  | HttpClient m => (502%Z, "BadGateway", m)
  | Internal m => (500%Z, "InternalError", m)
  end.

(** [IntoResponse]: the status code and the JSON body. *)
Definition Error_into_response (e : Error) : Z * Value :=
  let '(status, kind, message) := Error_parts e in
  (status, JObj [("apiVersion", JStr "v1"); ("kind", JStr "Status"); ("metadata", JObj []);
                 ("status", JStr "Failure"); ("message", JStr message);
                 ("reason", JStr kind); ("code", JInt status)]).

(** A name in double quotes, as the messages print it. *)
Definition dquote : string := String (Ascii.ascii_of_nat 34) "".
Definition quoted (s : string) : string := dquote +:+ s +:+ dquote.

(** [Error::NotFound(format!(.., name))] for a kind of resource. *)
Definition not_found (resource name : string) : Error :=
  NotFound (resource +:+ " " +:+ quoted name +:+ " not found").
