(* ===== verification/Bus.v ===== *)
(** * The change feed ([src/src/server/bus.rs])

    The events the server publishes after each mutation, the filter a watch
    applies to them, and the process-wide publisher.  What a process does to
    its [tokio] broadcast channel is the list of events it sends on it; the
    replication tasks it spawns are queued until they are run (Replication.v). *)
From S2P Require Import Prelude RustStd Json.

Inductive WatchEventType : Type := Added | Modified | Deleted.

#[export] Instance WatchEventType_eq_dec : EqDecision WatchEventType.
Proof. solve_decision. Defined.

Definition as_wire (t : WatchEventType) : string :=
  match t with Added => "ADDED" | Modified => "MODIFIED" | Deleted => "DELETED" end.

Record ChangeEvent : Type := mk_ChangeEvent {
  ce_kind : string;
  ce_namespace : option string;
  ce_name : string;
  ce_event_type : WatchEventType;
  ce_object : Value;
}.

Record WatchFilter : Type := mk_WatchFilter {
  wf_kind : string;
  wf_namespace : option string;
}.

Definition matches (f : WatchFilter) (e : ChangeEvent) : bool :=
  if negb (str_eqb (ce_kind e) (wf_kind f)) then false
  else match wf_namespace f, ce_namespace e with
       | None, _ => true
       | Some want, Some got => str_eqb want got
       | Some _, None => false
       end.

(** The Postgres hook: who we are and the channel we notify. *)
Record Replicator : Type := mk_Replicator {
  rep_instance_id : string;
  rep_channel : string;
}.
Definition DEFAULT_NOTIFY_CHANNEL : string := "kais_changes".
Definition BUS_CAPACITY : nat := 1024.

(** A replication task waiting to run: the arguments of [replicate]. *)
Record ReplicateTask : Type := mk_ReplicateTask {
  rt_rep : Replicator;
  rt_kind : string;
  rt_namespace : option string;
  rt_name : string;
  rt_event_type : string;
  rt_object : Value;
}.

(** [bus_sent] is every event handed to the broadcast channel, oldest first. *)
Record Bus : Type := mk_Bus {
  bus_sent : list ChangeEvent;
  bus_replicator : option Replicator;
  bus_spawned : list ReplicateTask;
}.
Definition Bus_new : Bus := mk_Bus [] None [].
Definition Bus_new_replicated (r : Replicator) : Bus := mk_Bus [] (Some r) [].

Definition bus_send (e : ChangeEvent) (b : Bus) : Bus :=
  mk_Bus (bus_sent b ++ [e]) (bus_replicator b) (bus_spawned b).

(** [publish]: the local broadcast, then the replication task if there is a
    replicator. *)
Definition publish {T} `{Json T} (event_type : WatchEventType) (kind : string)
    (namespace : option string) (name : string) (object : T) (b : Bus) : Bus :=
  let object := to_value object in
  let b := bus_send (mk_ChangeEvent kind namespace name event_type object) b in
  match bus_replicator b with
  | Some rep =>
      mk_Bus (bus_sent b) (bus_replicator b)
        (bus_spawned b ++
          [mk_ReplicateTask rep kind namespace name (as_wire event_type) object])
  | None => b
  end.

(** An event from a peer: broadcast, not replicated again. *)
Definition republish_local (e : ChangeEvent) (b : Bus) : Bus := bus_send e b.

Lemma bus_sent_publish {T} `{Json T} t kind ns name (x : T) b :
  bus_sent (publish t kind ns name x b) =
    bus_sent b ++ [mk_ChangeEvent kind ns name t (to_value x)].
Proof. unfold publish. by destruct b as [sent [rep|] spawned]. Qed.
