(* ===== verification/World.v ===== *)
(** * The database and the world a request runs in

    The tables of [src/migrations/] as finite maps, the SQL statements the
    repositories issue as operations on them, and the state [World] that the
    [async fn]s of the server read and change: the database, the bus, and how
    many clock readings, fresh identifiers and statements have been drawn.
    Clock, identifiers, failures of statements and the order of ties in
    [ORDER BY] are the parameters [Env].

    A statement is one atomic step.  A function of the server is run on its
    own, from its first statement to its last; where the code is about several
    processes (leases, the change log) the step relations of Lease.v and
    Replication.v interleave them. *)
From S2P Require Import Prelude RustStd Json External Error Bus.

(** ** Rows

    A row without its unique key: [(namespace, name)], or the name for the
    cluster-scoped tables.  TEXT columns are strings, nullable columns are
    options, INTEGER columns are the [i32]s bound to them. *)
Abbreviation Key := (string * string)%type.

Record PodRow : Type := mk_PodRow {
  pr_uid : string; pr_labels : string; pr_annotations : string; pr_spec : string;
  pr_status : string; pr_node_name : option string; pr_pod_ip : option string;
  pr_host_ip : option string; pr_container_statuses : string;
  pr_owner_reference : string; pr_created_at : string; pr_updated_at : string }.
Record NodeRow : Type := mk_NodeRow {
  nr_uid : string; nr_labels : string; nr_status : string; nr_addresses : string;
  nr_capacity : string; nr_allocatable : string; nr_node_info : option string;
  nr_created_at : string; nr_updated_at : string }.
Record DeploymentRow : Type := mk_DeploymentRow {
  dr_uid : string; dr_labels : string; dr_annotations : string; dr_spec : string;
  dr_replicas : i32; dr_ready_replicas : i32; dr_available_replicas : i32;
  dr_created_at : string; dr_updated_at : string }.
Record ServiceRow : Type := mk_ServiceRow {
  svr_uid : string; svr_labels : string; svr_spec : string; svr_service_type : string;
  svr_cluster_ip : option string; svr_node_port : option i32;
  svr_created_at : string; svr_updated_at : string }.
Record EndpointsRow : Type := mk_EndpointsRow {
  er_uid : string; er_subsets : string; er_created_at : string; er_updated_at : string }.
Record NamespaceRow : Type := mk_NamespaceRow {
  nsr_uid : string; nsr_labels : string; nsr_annotations : string; nsr_spec : string;
  nsr_status : string; nsr_created_at : string; nsr_updated_at : string }.
Record EventRow : Type := mk_EventRow {
  evr_uid : string;
  evr_involved_api_version : option string; evr_involved_kind : option string;
  evr_involved_name : option string; evr_involved_namespace : option string;
  evr_involved_uid : option string; evr_involved_resource_version : option string;
  evr_involved_field_path : option string;
  evr_reason : option string; evr_message : option string;
  evr_source_component : option string; evr_source_host : option string;
  evr_first_timestamp : option string; evr_last_timestamp : option string;
  evr_event_time : option string; evr_count : option i32; evr_event_type : option string;
  evr_action : option string; evr_reporting_controller : option string;
  evr_reporting_instance : option string;
  evr_created_at : string; evr_updated_at : string }.
Record StatefulSetRow : Type := mk_StatefulSetRow {
  sr_uid : string; sr_labels : string; sr_annotations : string; sr_spec : string;
  sr_replicas : i32; sr_ready_replicas : i32; sr_current_replicas : i32;
  sr_created_at : string; sr_updated_at : string }.
Record DaemonSetRow : Type := mk_DaemonSetRow {
  dsr_uid : string; dsr_labels : string; dsr_annotations : string; dsr_spec : string;
  dsr_desired_number_scheduled : i32; dsr_current_number_scheduled : i32;
  dsr_number_ready : i32; dsr_created_at : string; dsr_updated_at : string }.
(** Service accounts, config maps and the RBAC objects: the whole object is
    the [spec] column. *)
Record SpecRow : Type := mk_SpecRow {
  spr_uid : string; spr_labels : string; spr_annotations : string; spr_spec : string;
  spr_created_at : string; spr_updated_at : string }.
Record SecretRow : Type := mk_SecretRow {
  secr_uid : string; secr_labels : string; secr_annotations : string;
  secr_secret_type : string; secr_spec : string;
  secr_created_at : string; secr_updated_at : string }.
Record LeaseRow : Type := mk_LeaseRow {
  lr_holder : option string; lr_expires_at : option string }.
Record ChangeLogRow : Type := mk_ChangeLogRow {
  clr_instance_id : string; clr_kind : string; clr_namespace : option string;
  clr_name : string; clr_event_type : string; clr_object : string;
  clr_created_at : string }.

(** ** The database *)

Record Db : Type := mk_Db {
  db_pods : gmap Key PodRow;
  db_nodes : gmap string NodeRow;
  db_deployments : gmap Key DeploymentRow;
  db_services : gmap Key ServiceRow;
  db_endpoints : gmap Key EndpointsRow;
  db_namespaces : gmap string NamespaceRow;
  db_events : gmap Key EventRow;
  db_statefulsets : gmap Key StatefulSetRow;
  db_daemonsets : gmap Key DaemonSetRow;
  db_serviceaccounts : gmap Key SpecRow;
  db_secrets : gmap Key SecretRow;
  db_configmaps : gmap Key SpecRow;
  db_clusterroles : gmap string SpecRow;
  db_clusterrolebindings : gmap string SpecRow;
  db_roles : gmap Key SpecRow;
  db_rolebindings : gmap Key SpecRow;
  db_leases : gmap string LeaseRow;
  db_change_log : gmap string ChangeLogRow;
}.

Definition set_pods (t : gmap Key PodRow) (d : Db) : Db :=
  mk_Db t (db_nodes d) (db_deployments d) (db_services d) (db_endpoints d) (db_namespaces d)
    (db_events d) (db_statefulsets d) (db_daemonsets d) (db_serviceaccounts d) (db_secrets d)
    (db_configmaps d) (db_clusterroles d) (db_clusterrolebindings d) (db_roles d)
    (db_rolebindings d) (db_leases d) (db_change_log d).
Definition set_nodes (t : gmap string NodeRow) (d : Db) : Db :=
  mk_Db (db_pods d) t (db_deployments d) (db_services d) (db_endpoints d) (db_namespaces d)
    (db_events d) (db_statefulsets d) (db_daemonsets d) (db_serviceaccounts d) (db_secrets d)
    (db_configmaps d) (db_clusterroles d) (db_clusterrolebindings d) (db_roles d)
    (db_rolebindings d) (db_leases d) (db_change_log d).
Definition set_deployments (t : gmap Key DeploymentRow) (d : Db) : Db :=
  mk_Db (db_pods d) (db_nodes d) t (db_services d) (db_endpoints d) (db_namespaces d) (db_events
    d) (db_statefulsets d) (db_daemonsets d) (db_serviceaccounts d) (db_secrets d)
    (db_configmaps d) (db_clusterroles d) (db_clusterrolebindings d) (db_roles d)
    (db_rolebindings d) (db_leases d) (db_change_log d).
Definition set_services (t : gmap Key ServiceRow) (d : Db) : Db :=
  mk_Db (db_pods d) (db_nodes d) (db_deployments d) t (db_endpoints d) (db_namespaces d)
    (db_events d) (db_statefulsets d) (db_daemonsets d) (db_serviceaccounts d) (db_secrets d)
    (db_configmaps d) (db_clusterroles d) (db_clusterrolebindings d) (db_roles d)
    (db_rolebindings d) (db_leases d) (db_change_log d).
Definition set_endpoints (t : gmap Key EndpointsRow) (d : Db) : Db :=
  mk_Db (db_pods d) (db_nodes d) (db_deployments d) (db_services d) t (db_namespaces d) (db_events
    d) (db_statefulsets d) (db_daemonsets d) (db_serviceaccounts d) (db_secrets d)
    (db_configmaps d) (db_clusterroles d) (db_clusterrolebindings d) (db_roles d)
    (db_rolebindings d) (db_leases d) (db_change_log d).
Definition set_namespaces (t : gmap string NamespaceRow) (d : Db) : Db :=
  mk_Db (db_pods d) (db_nodes d) (db_deployments d) (db_services d) (db_endpoints d) t (db_events
    d) (db_statefulsets d) (db_daemonsets d) (db_serviceaccounts d) (db_secrets d)
    (db_configmaps d) (db_clusterroles d) (db_clusterrolebindings d) (db_roles d)
    (db_rolebindings d) (db_leases d) (db_change_log d).
Definition set_events (t : gmap Key EventRow) (d : Db) : Db :=
  mk_Db (db_pods d) (db_nodes d) (db_deployments d) (db_services d) (db_endpoints d)
    (db_namespaces d) t (db_statefulsets d) (db_daemonsets d) (db_serviceaccounts d)
    (db_secrets d) (db_configmaps d) (db_clusterroles d) (db_clusterrolebindings d) (db_roles
    d) (db_rolebindings d) (db_leases d) (db_change_log d).
Definition set_statefulsets (t : gmap Key StatefulSetRow) (d : Db) : Db :=
  mk_Db (db_pods d) (db_nodes d) (db_deployments d) (db_services d) (db_endpoints d)
    (db_namespaces d) (db_events d) t (db_daemonsets d) (db_serviceaccounts d) (db_secrets d)
    (db_configmaps d) (db_clusterroles d) (db_clusterrolebindings d) (db_roles d)
    (db_rolebindings d) (db_leases d) (db_change_log d).
Definition set_daemonsets (t : gmap Key DaemonSetRow) (d : Db) : Db :=
  mk_Db (db_pods d) (db_nodes d) (db_deployments d) (db_services d) (db_endpoints d)
    (db_namespaces d) (db_events d) (db_statefulsets d) t (db_serviceaccounts d) (db_secrets
    d) (db_configmaps d) (db_clusterroles d) (db_clusterrolebindings d) (db_roles d)
    (db_rolebindings d) (db_leases d) (db_change_log d).
Definition set_serviceaccounts (t : gmap Key SpecRow) (d : Db) : Db :=
  mk_Db (db_pods d) (db_nodes d) (db_deployments d) (db_services d) (db_endpoints d)
    (db_namespaces d) (db_events d) (db_statefulsets d) (db_daemonsets d) t (db_secrets d)
    (db_configmaps d) (db_clusterroles d) (db_clusterrolebindings d) (db_roles d)
    (db_rolebindings d) (db_leases d) (db_change_log d).
Definition set_secrets (t : gmap Key SecretRow) (d : Db) : Db :=
  mk_Db (db_pods d) (db_nodes d) (db_deployments d) (db_services d) (db_endpoints d)
    (db_namespaces d) (db_events d) (db_statefulsets d) (db_daemonsets d) (db_serviceaccounts
    d) t (db_configmaps d) (db_clusterroles d) (db_clusterrolebindings d) (db_roles d)
    (db_rolebindings d) (db_leases d) (db_change_log d).
Definition set_configmaps (t : gmap Key SpecRow) (d : Db) : Db :=
  mk_Db (db_pods d) (db_nodes d) (db_deployments d) (db_services d) (db_endpoints d)
    (db_namespaces d) (db_events d) (db_statefulsets d) (db_daemonsets d) (db_serviceaccounts
    d) (db_secrets d) t (db_clusterroles d) (db_clusterrolebindings d) (db_roles d)
    (db_rolebindings d) (db_leases d) (db_change_log d).
Definition set_clusterroles (t : gmap string SpecRow) (d : Db) : Db :=
  mk_Db (db_pods d) (db_nodes d) (db_deployments d) (db_services d) (db_endpoints d)
    (db_namespaces d) (db_events d) (db_statefulsets d) (db_daemonsets d) (db_serviceaccounts
    d) (db_secrets d) (db_configmaps d) t (db_clusterrolebindings d) (db_roles d)
    (db_rolebindings d) (db_leases d) (db_change_log d).
Definition set_clusterrolebindings (t : gmap string SpecRow) (d : Db) : Db :=
  mk_Db (db_pods d) (db_nodes d) (db_deployments d) (db_services d) (db_endpoints d)
    (db_namespaces d) (db_events d) (db_statefulsets d) (db_daemonsets d) (db_serviceaccounts
    d) (db_secrets d) (db_configmaps d) (db_clusterroles d) t (db_roles d) (db_rolebindings d)
    (db_leases d) (db_change_log d).
Definition set_roles (t : gmap Key SpecRow) (d : Db) : Db :=
  mk_Db (db_pods d) (db_nodes d) (db_deployments d) (db_services d) (db_endpoints d)
    (db_namespaces d) (db_events d) (db_statefulsets d) (db_daemonsets d) (db_serviceaccounts
    d) (db_secrets d) (db_configmaps d) (db_clusterroles d) (db_clusterrolebindings d) t
    (db_rolebindings d) (db_leases d) (db_change_log d).
Definition set_rolebindings (t : gmap Key SpecRow) (d : Db) : Db :=
  mk_Db (db_pods d) (db_nodes d) (db_deployments d) (db_services d) (db_endpoints d)
    (db_namespaces d) (db_events d) (db_statefulsets d) (db_daemonsets d) (db_serviceaccounts
    d) (db_secrets d) (db_configmaps d) (db_clusterroles d) (db_clusterrolebindings d)
    (db_roles d) t (db_leases d) (db_change_log d).
Definition set_leases (t : gmap string LeaseRow) (d : Db) : Db :=
  mk_Db (db_pods d) (db_nodes d) (db_deployments d) (db_services d) (db_endpoints d)
    (db_namespaces d) (db_events d) (db_statefulsets d) (db_daemonsets d) (db_serviceaccounts
    d) (db_secrets d) (db_configmaps d) (db_clusterroles d) (db_clusterrolebindings d)
    (db_roles d) (db_rolebindings d) t (db_change_log d).
Definition set_change_log (t : gmap string ChangeLogRow) (d : Db) : Db :=
  mk_Db (db_pods d) (db_nodes d) (db_deployments d) (db_services d) (db_endpoints d)
    (db_namespaces d) (db_events d) (db_statefulsets d) (db_daemonsets d) (db_serviceaccounts
    d) (db_secrets d) (db_configmaps d) (db_clusterroles d) (db_clusterrolebindings d)
    (db_roles d) (db_rolebindings d) (db_leases d) t.


(** A table with a surrogate primary key: where it is in the database, the
    column that must be unique besides the key, and the creation time. *)
Record table (K R : Type) `{Countable K} : Type := mk_table {
  tb_get : Db → gmap K R;
  tb_set : gmap K R → Db → Db;
  tb_uid : R → string;
  tb_created : R → string;
  tb_get_set t d : tb_get (tb_set t d) = t;
}.
Arguments tb_get {K R _ _}.
Arguments tb_set {K R _ _}.
Arguments tb_uid {K R _ _}.
Arguments tb_created {K R _ _}.
Arguments tb_get_set {K R _ _}.

Definition pods_table : table Key PodRow := {|
  tb_get := db_pods; tb_set := set_pods; tb_uid := pr_uid;
  tb_created := pr_created_at;
  tb_get_set := λ t d, eq_refl |}.
Definition nodes_table : table string NodeRow := {|
  tb_get := db_nodes; tb_set := set_nodes; tb_uid := nr_uid;
  tb_created := nr_created_at;
  tb_get_set := λ t d, eq_refl |}.
Definition deployments_table : table Key DeploymentRow := {|
  tb_get := db_deployments; tb_set := set_deployments; tb_uid := dr_uid;
  tb_created := dr_created_at;
  tb_get_set := λ t d, eq_refl |}.
Definition services_table : table Key ServiceRow := {|
  tb_get := db_services; tb_set := set_services; tb_uid := svr_uid;
  tb_created := svr_created_at;
  tb_get_set := λ t d, eq_refl |}.
Definition endpoints_table : table Key EndpointsRow := {|
  tb_get := db_endpoints; tb_set := set_endpoints; tb_uid := er_uid;
  tb_created := er_created_at;
  tb_get_set := λ t d, eq_refl |}.
Definition namespaces_table : table string NamespaceRow := {|
  tb_get := db_namespaces; tb_set := set_namespaces; tb_uid := nsr_uid;
  tb_created := nsr_created_at;
  tb_get_set := λ t d, eq_refl |}.
Definition events_table : table Key EventRow := {|
  tb_get := db_events; tb_set := set_events; tb_uid := evr_uid;
  tb_created := evr_created_at;
  tb_get_set := λ t d, eq_refl |}.
Definition statefulsets_table : table Key StatefulSetRow := {|
  tb_get := db_statefulsets; tb_set := set_statefulsets; tb_uid := sr_uid;
  tb_created := sr_created_at;
  tb_get_set := λ t d, eq_refl |}.
Definition daemonsets_table : table Key DaemonSetRow := {|
  tb_get := db_daemonsets; tb_set := set_daemonsets; tb_uid := dsr_uid;
  tb_created := dsr_created_at;
  tb_get_set := λ t d, eq_refl |}.
Definition serviceaccounts_table : table Key SpecRow := {|
  tb_get := db_serviceaccounts; tb_set := set_serviceaccounts; tb_uid := spr_uid;
  tb_created := spr_created_at;
  tb_get_set := λ t d, eq_refl |}.
Definition secrets_table : table Key SecretRow := {|
  tb_get := db_secrets; tb_set := set_secrets; tb_uid := secr_uid;
  tb_created := secr_created_at;
  tb_get_set := λ t d, eq_refl |}.
Definition configmaps_table : table Key SpecRow := {|
  tb_get := db_configmaps; tb_set := set_configmaps; tb_uid := spr_uid;
  tb_created := spr_created_at;
  tb_get_set := λ t d, eq_refl |}.
Definition clusterroles_table : table string SpecRow := {|
  tb_get := db_clusterroles; tb_set := set_clusterroles; tb_uid := spr_uid;
  tb_created := spr_created_at;
  tb_get_set := λ t d, eq_refl |}.
Definition clusterrolebindings_table : table string SpecRow := {|
  tb_get := db_clusterrolebindings; tb_set := set_clusterrolebindings; tb_uid := spr_uid;
  tb_created := spr_created_at;
  tb_get_set := λ t d, eq_refl |}.
Definition roles_table : table Key SpecRow := {|
  tb_get := db_roles; tb_set := set_roles; tb_uid := spr_uid;
  tb_created := spr_created_at;
  tb_get_set := λ t d, eq_refl |}.
Definition rolebindings_table : table Key SpecRow := {|
  tb_get := db_rolebindings; tb_set := set_rolebindings; tb_uid := spr_uid;
  tb_created := spr_created_at;
  tb_get_set := λ t d, eq_refl |}.

(** ** The world *)

Record World : Type := mk_World {
  w_db : Db;
  w_bus : Bus;
  w_clock : nat;
  w_uuids : nat;
  w_stmts : nat;
}.

Definition set_db (d : Db) (w : World) : World :=
  mk_World d (w_bus w) (w_clock w) (w_uuids w) (w_stmts w).
Definition set_bus (b : Bus) (w : World) : World :=
  mk_World (w_db w) b (w_clock w) (w_uuids w) (w_stmts w).

(** What may go wrong with a statement: it did not run, or it ran and the
    reply was lost. *)
Inductive Fault : Type :=
| NotRun (msg : string)
| LostReply (msg : string).

Class Env : Type := {
  (** The [n]-th reading of the clock. *)
  env_now : nat → DateTime;
  (** The [n]-th [Uuid::new_v4()]. *)
  env_uuid : nat → Uuid;
  (** What happens to the [n]-th statement. *)
  env_fault : nat → option Fault;
  (** The rows of the [n]-th statement, sorted by a TEXT column. *)
  env_order : nat → ∀ A : Type, bool → (A → option string) → list A → list A;
}.

(** Rows [a] then [b] are in order: [desc] is [ORDER BY .. DESC].  Where
    NULLs go differs between the two backends. *)
Definition in_order {A} (desc : bool) (key : A → option string) (a b : A) : Prop :=
  match key a, key b with
  | Some x, Some y => str_ltb (if desc then x else y) (if desc then y else x) = false
  | _, _ => True
  end.

Class EnvOk `{Env} : Prop := {
  env_order_perm n A desc key (l : list A) : env_order n A desc key l ≡ₚ l;
  env_order_sorted n A desc key (l : list A) :
    (∀ a, a ∈ l → is_Some (key a)) →
    StronglySorted (in_order desc key) (env_order n A desc key l);
}.

(** No statement fails. *)
Definition quiet `{Env} : Prop := ∀ n, env_fault n = None.

(** ** Computations *)

Abbreviation M E := (ST World E).

Section effects.
Context `{Env}.

Definition tick_clock (w : World) : World :=
  mk_World (w_db w) (w_bus w) (S (w_clock w)) (w_uuids w) (w_stmts w).
Definition now {E} : M E DateTime := λ w, (Ok (env_now (w_clock w)), tick_clock w).

Definition tick_uuid (w : World) : World :=
  mk_World (w_db w) (w_bus w) (w_clock w) (S (w_uuids w)) (w_stmts w).
Definition new_v4 {E} : M E Uuid := λ w, (Ok (env_uuid (w_uuids w)), tick_uuid w).

Definition on_bus {E} (f : Bus → Bus) : M E () := λ w, (Ok (), set_bus (f (w_bus w)) w).

Definition count_stmt (w : World) : World :=
  mk_World (w_db w) (w_bus w) (w_clock w) (w_uuids w) (S (w_stmts w)).

(** One SQL statement.  [stmt] sees its number, for the order of ties. *)
Definition run_stmt {A} (stmt : nat → Db → result string (A * Db)) : M string A := λ w,
  let n := w_stmts w in
  let w := count_stmt w in
  match env_fault n with
  | Some (NotRun msg) => (Err msg, w)
  | fault =>
      match stmt n (w_db w) with
      | Err msg => (Err msg, w)
      | Ok (a, d) =>
          match fault with
          | Some (LostReply msg) => (Err msg, set_db d w)
          | _ => (Ok a, set_db d w)
          end
      end
  end.

(** [.await?] where [sqlx::Error] becomes [Error::Database]. *)
Definition sql {A} (stmt : nat → Db → result string (A * Db)) : M Error A :=
  lift_err Database (run_stmt stmt).
End effects.

(** ** Statements *)

Section statements.
Context `{Env} {K R : Type} `{Countable K} (tb : table K R).

(** [SELECT .. WHERE key = ?] with [fetch_optional]. *)
Definition select_one (k : K) (n : nat) (d : Db) : result string (option R * Db) :=
  Ok (tb_get tb d !! k, d).

(** [SELECT .. WHERE cond ORDER BY key]. *)
Definition select_where (cond : K → R → bool) (desc : bool) (key : R → option string)
    (n : nat) (d : Db) : result string (list (K * R) * Db) :=
  Ok (env_order n (K * R) desc (λ kr, key kr.2)
        (filter (λ kr, cond kr.1 kr.2 = true) (map_to_list (tb_get tb d))), d).

Definition uid_taken (uid : string) (t : gmap K R) : bool :=
  existsb (λ kr, str_eqb (tb_uid tb kr.2) uid) (map_to_list t).

(** [INSERT .. ON CONFLICT (key) DO UPDATE SET ..]: [merge old] is the row
    the update leaves, or the error it meets; a new row whose primary key is
    in use is refused. *)
Definition upsert (k : K) (row : R) (merge : R → result string R)
    (n : nat) (d : Db) : result string (() * Db) :=
  match tb_get tb d !! k with
  | Some old => row' ← merge old; Ok ((), tb_set tb (<[k := row']> (tb_get tb d)) d)
  | None =>
      if uid_taken (tb_uid tb row) (tb_get tb d)
      then Err "UNIQUE constraint failed: uid"
      else Ok ((), tb_set tb (<[k := row]> (tb_get tb d)) d)
  end.

(** [UPDATE .. SET .. WHERE key = ?]. *)
Definition update_key (k : K) (f : R → R) (n : nat) (d : Db) : result string (() * Db) :=
  Ok ((), tb_set tb (alter f k (tb_get tb d)) d).

(** [DELETE .. WHERE key = ?]; the result is [rows_affected()]. *)
Definition delete_key (k : K) (n : nat) (d : Db) : result string (nat * Db) :=
  Ok (match tb_get tb d !! k with Some _ => 1 | None => 0 end,
      tb_set tb (delete k (tb_get tb d)) d).

(** [SELECT COUNT( * ) .. WHERE cond]. *)
Definition select_count (cond : K → R → bool) (n : nat) (d : Db) : result string (nat * Db) :=
  Ok (length (filter (λ kr, cond kr.1 kr.2 = true) (map_to_list (tb_get tb d))), d).
End statements.

(** ** How statements run when none fails *)

Section quiet.
Context `{Env}.

Lemma run_sql {A} (stmt : nat → Db → result string (A * Db)) w :
  quiet →
  sql stmt w =
    match stmt (w_stmts w) (w_db w) with
    | Ok (a, d) => (Ok a, set_db d (count_stmt w))
    | Err m => (Err (Database m), count_stmt w)
    end.
Proof.
  intros Hq. unfold sql, lift_err, run_stmt. rewrite (Hq (w_stmts w)). simpl.
  by destruct (stmt (w_stmts w) (w_db w)) as [[a d]|].
Qed.

Lemma set_db_same w : set_db (w_db w) w = w.
Proof. by destruct w. Qed.

Context {K R : Type} `{Countable K} (tb : table K R).

Lemma run_select_one k w :
  quiet → sql (select_one tb k) w = (Ok (tb_get tb (w_db w) !! k), count_stmt w).
Proof. intros Hq. by rewrite run_sql. Qed.

Lemma run_update_key k f w :
  quiet →
  sql (update_key tb k f) w =
    (Ok (), set_db (tb_set tb (alter f k (tb_get tb (w_db w))) (w_db w)) (count_stmt w)).
Proof. intros Hq. by rewrite run_sql. Qed.

Lemma run_delete_key k w :
  quiet →
  sql (delete_key tb k) w =
    (Ok (match tb_get tb (w_db w) !! k with Some _ => 1 | None => 0 end),
     set_db (tb_set tb (delete k (tb_get tb (w_db w))) (w_db w)) (count_stmt w)).
Proof. intros Hq. by rewrite run_sql. Qed.

Lemma uid_taken_spec uid (t : gmap K R) :
  uid_taken tb uid t = true ↔ ∃ k r, t !! k = Some r ∧ tb_uid tb r = uid.
Proof.
  unfold uid_taken. rewrite existsb_exists. split.
  - intros ([k r] & Hin & Hu). exists k, r. split.
    + by apply elem_of_map_to_list, list_elem_of_In.
    + by apply str_eqb_spec in Hu.
  - intros (k & r & Hk & <-). exists (k, r). split.
    + by apply list_elem_of_In, elem_of_map_to_list.
    + apply str_eqb_refl.
Qed.

(** The rows a query returns: those that satisfy its condition, each once,
    in an order the backend chooses. *)
Lemma run_select_where cond desc key w :
  quiet →
  sql (select_where tb cond desc key) w =
    (Ok (env_order (w_stmts w) (K * R) desc (λ kr, key kr.2)
           (filter (λ kr, cond kr.1 kr.2 = true) (map_to_list (tb_get tb (w_db w))))),
     count_stmt w).
Proof. intros Hq. by rewrite run_sql. Qed.

Lemma run_select_count cond w :
  quiet →
  sql (select_count tb cond) w =
    (Ok (length (filter (λ kr, cond kr.1 kr.2 = true) (map_to_list (tb_get tb (w_db w))))),
     count_stmt w).
Proof. intros Hq. by rewrite run_sql. Qed.
End quiet.
