(* ===== verification/RefEnv.v ===== *)
(** * A concrete environment

    An instance of [Env] and its laws: a clock that advances one second per
    reading, identifiers that count up, no failing statement and a merge sort
    for [ORDER BY].  The theorems that assume [EnvOk] or [quiet] are applied to
    it in their witnesses. *)
From S2P Require Import Prelude RustStd Json External Reference Bus World.

(** Bytewise order is a total order. *)
Lemma lex_ltb_asym a b : lex_ltb a b = true → lex_ltb b a = false.
Proof.
  revert b. induction a as [|x a IH]; intros [|y b]; simpl; try done.
  rewrite (Ascii.eqb_sym y x). destruct (Ascii.eqb x y); [apply IH|].
  rewrite Nat.ltb_lt, Nat.ltb_ge. lia.
Qed.

Lemma lex_ltb_false_trans a b c :
  lex_ltb b a = false → lex_ltb c b = false → lex_ltb c a = false.
Proof.
  revert a c. induction b as [|y b IH]; intros [|x a] [|z c]; simpl; try done.
  destruct (Ascii.eqb_spec y x) as [->|Hyx].
  - destruct (Ascii.eqb_spec z x) as [->|Hzx]; [apply IH|done].
  - destruct (Ascii.eqb_spec z y) as [->|Hzy].
    + destruct (Ascii.eqb_spec y x); [done|]. done.
    + destruct (Ascii.eqb_spec z x) as [->|Hzx]; rewrite ?Nat.ltb_ge.
      * intros Hxy Hyx'. exfalso. apply Hyx.
        rewrite <- (ascii_nat_embedding x), <- (ascii_nat_embedding y). f_equal. lia.
      * lia.
Qed.

Definition order_leb {A} (desc : bool) (key : A → option string) (a b : A) : bool :=
  match key a, key b with
  | Some x, Some y => negb (str_ltb (if desc then x else y) (if desc then y else x))
  | None, _ => true
  | Some _, None => false
  end.

Definition order_le {A} desc (key : A → option string) (a b : A) : Prop :=
  order_leb desc key a b = true.
#[export] Instance order_le_dec {A} desc (key : A → option string) a b :
  Decision (order_le desc key a b).
Proof. apply bool_eq_dec. Defined.

Lemma order_leb_trans {A} desc (key : A → option string) : Transitive (order_le desc key).
Proof.
  intros a b c. unfold order_le, order_leb. destruct (key a), (key b), (key c); try done.
  rewrite !negb_true_iff. unfold str_ltb. destruct desc; eauto using lex_ltb_false_trans.
Qed.

Lemma order_leb_total {A} desc (key : A → option string) :
  Total (order_le desc key).
Proof.
  intros a b. unfold order_le, order_leb. destruct (key a) as [x|], (key b) as [y|]; auto.
  rewrite !negb_true_iff. unfold str_ltb.
  destruct desc.
  - destruct (lex_ltb (bytes x) (bytes y)) eqn:E; auto using lex_ltb_asym.
  - destruct (lex_ltb (bytes y) (bytes x)) eqn:E; auto using lex_ltb_asym.
Qed.

Definition ref_order {A} (desc : bool) (key : A → option string) : list A → list A :=
  merge_sort (order_le desc key).

Definition ref_now (n : nat) : DateTime :=
  default (@Bnd (-62167219200000000000) 253402300800000000000 0 eq_refl)
    (checked (Z.of_nat n * 1000000000)%Z).
(** The count shows in the first group of the text and in the last 32 bits. *)
Definition ref_uuid (n : nat) : Uuid :=
  default Uuid_nil (checked ((Z.of_nat n + 1) * (2 ^ 96 + 1))%Z).

#[export] Instance ref_env : Env := {|
  env_now := ref_now;
  env_uuid := ref_uuid;
  env_fault _ := None;
  env_order _ A := @ref_order A |}.

#[export] Instance ref_env_ok : EnvOk.
Proof.
  split.
  - intros. apply merge_sort_Permutation.
  - intros n A desc key l Hl. simpl. unfold ref_order.
    pose proof (order_leb_trans desc key). pose proof (order_leb_total desc key).
    eapply StronglySorted_weaken; [|by apply StronglySorted_merge_sort].
    intros a b. unfold order_le, order_leb, in_order.
    destruct (key a), (key b); try done. by rewrite negb_true_iff.
Qed.

Lemma ref_quiet : quiet.
Proof. done. Qed.

(** An empty database, a local bus. *)
Definition empty_db : Db :=
  mk_Db ∅ ∅ ∅ ∅ ∅ ∅ ∅ ∅ ∅ ∅ ∅ ∅ ∅ ∅ ∅ ∅ ∅ ∅.
Definition start : World := mk_World empty_db Bus_new 0 0 0.
