(* ===== verification/Repository.v ===== *)
(** * The repositories ([src/src/db/repository.rs])

    One group of operations per repository, named [<Repository>_<function>]:
    the INSERT .. ON CONFLICT of [create], [get], [list], [delete] and the
    status updates, and the conversion of a row to an object.  The conversion
    reads the clock when a timestamp column does not parse, as [parse_dt]
    does, so it is a computation; [<kind>_of_row] is its pure part. *)
From S2P Require Import Prelude RustStd Json External Models Wire Error Bus World.

Section repository.
Context `{Extern, Env}.

(** ** Helpers *)

Definition now_str {E} : M E string := t ← now; mret (to_rfc3339 t).

Definition parse_dt {E} (s : string) : M E DateTime :=
  match parse_from_rfc3339 s with Some t => mret t | None => now end.

Definition parse_dt_opt (s : option string) : option DateTime :=
  s ≫= parse_from_rfc3339.

Definition parse_uid (s : string) : Uuid := default Uuid_nil (uuid_parse_str s).

(** [serde_json::to_string] does not fail on these types: their maps have
    string keys. *)
Definition json_str {T} `{Json T} (v : T) : string := json_print (to_value v).

Definition json_from {T} `{Json T} (d : T) (s : string) : T :=
  if str_eqb s "" then d else default d (json_parse s ≫= from_value).

Definition json_from_opt {T} `{Json T} (s : string) : option T :=
  if str_eqb s "" || str_eqb s "null" then None else json_parse s ≫= from_value.

(** [meta.uid.unwrap_or_else(Uuid::new_v4)]. *)
Definition uid_or_new {E} (o : option Uuid) : M E Uuid :=
  match o with Some u => mret u | None => new_v4 end.

(** The two forms of [list]: [WHERE namespace = ?] or no condition. *)
Definition in_namespace {R} (namespace : option string) (k : Key) (_ : R) : bool :=
  match namespace with Some ns => str_eqb k.1 ns | None => true end.
Definition any_row {K R} (_ : K) (_ : R) : bool := true.

(** The metadata [row_to_*] builds from the columns. *)
Definition row_metadata (namespace : option string) (name uid : string)
    (labels annotations : option (gmap string string)) (created : DateTime)
    (owners : option (list OwnerReference)) : ObjectMeta :=
  mk_ObjectMeta (Some name) namespace (Some (parse_uid uid)) None labels annotations
    (Some created) owners.

(** [fetch_optional(..).await?.ok_or_else(|| Error::NotFound(..))]. *)
Definition found {A} (resource name : string) (o : option A) : M Error A :=
  match o with Some a => mret a | None => throw (not_found resource name) end.

(** [if rows_affected() == 0 { return Err(NotFound) }]. *)
Definition affected (resource name : string) (n : nat) : M Error () :=
  match n with 0 => throw (not_found resource name) | _ => mret () end.

(** ** Pods *)

Definition phase_of_column (s : string) : PodPhase :=
  if str_eqb s "Running" then PodPhase_Running
  else if str_eqb s "Succeeded" then PodPhase_Succeeded
  else if str_eqb s "Failed" then PodPhase_Failed
  else if str_eqb s "Unknown" then PodPhase_Unknown
  else PodPhase_Pending.

Definition pod_of_row (k : Key) (row : PodRow) (created : DateTime) : Pod :=
  let spec := json_from PodSpec_default (pr_spec row) in
  {| pod_type_meta := mk_TypeMeta (Some "v1") (Some "Pod");
     pod_metadata :=
       row_metadata (Some k.1) k.2 (pr_uid row) (json_from_opt (pr_labels row))
         (json_from_opt (pr_annotations row)) created (json_from_opt (pr_owner_reference row));
     pod_spec :=
       match pr_node_name row with
       | Some node => PodSpec_with_node_name (Some node) spec
       | None => spec
       end;
     pod_status := Some
       {| pstat_phase := phase_of_column (pr_status row);
          pstat_conditions := None;
          pstat_pod_ip := pr_pod_ip row;
          pstat_pod_i_ps := None;
          pstat_host_ip := pr_host_ip row;
          pstat_start_time := None;
          pstat_container_statuses := json_from_opt (pr_container_statuses row);
          pstat_message := None;
          pstat_reason := None |} |}.

Definition row_to_pod {E} (kr : Key * PodRow) : M E Pod :=
  created ← parse_dt (pr_created_at kr.2); mret (pod_of_row kr.1 kr.2 created).

Definition PodRepository_get (namespace name : string) : M Error Pod :=
  row ← sql (select_one pods_table (namespace, name));
  row ← found "pods" name row;
  row_to_pod ((namespace, name), row).

(** The columns [create] binds, apart from those an existing row keeps. *)
Definition pod_row (pod : Pod) (uid created_at updated_at : string) : PodRow :=
  let meta := pod_metadata pod in
  let labels := json_str (om_labels meta) in
  let annotations := json_str (om_annotations meta) in
  let spec := json_str (pod_spec pod) in
  let status := match pod_status pod with
                | Some s => PodPhase_to_string (pstat_phase s)
                | None => "Pending"
                end in
  let node_name := ps_node_name (pod_spec pod) in
  let pod_ip := pod_status pod ≫= pstat_pod_ip in
  let host_ip := pod_status pod ≫= pstat_host_ip in
  let container_statuses := match pod_status pod with
                            | Some s => json_str (pstat_container_statuses s)
                            | None => "[]"
                            end in
  let owner_reference := json_str (om_owner_references meta) in
  mk_PodRow uid labels annotations spec status node_name pod_ip host_ip
    container_statuses owner_reference created_at updated_at.

Definition PodRepository_create (pod : Pod) : M Error Pod :=
  let meta := pod_metadata pod in
  uid ← uid_or_new (om_uid meta);
  let name := ObjectMeta_name meta in
  let namespace := ObjectMeta_namespace meta in
  now ← now_str;
  sql (upsert pods_table (namespace, name) (pod_row pod (uuid_to_string uid) now now)
    (λ old, Ok (pod_row pod (pr_uid old) (pr_created_at old) now)));;
  PodRepository_get namespace name.

(** The [label_selector] of [list]: every pair must be among the labels; a
    pod without labels never matches. *)
Definition pod_selected (label_selector : option (gmap string string)) (pod : Pod) : bool :=
  match label_selector with
  | Some selector =>
      match om_labels (pod_metadata pod) with
      | Some pod_labels => labels_match selector pod_labels
      | None => false
      end
  | None => true
  end.

Definition PodRepository_list (namespace : option string)
    (label_selector : option (gmap string string)) : M Error (list Pod) :=
  rows ← sql (select_where pods_table (in_namespace namespace) true (λ r, Some (pr_created_at r)));
  pods ← mapM row_to_pod rows;
  mret (filter (λ p, pod_selected label_selector p = true) pods).

Definition PodRepository_delete (namespace name : string) : M Error () :=
  n ← sql (delete_key pods_table (namespace, name));
  affected "pods" name n.

Definition PodRepository_update_status (namespace name : string) (status : PodStatus)
    : M Error () :=
  let phase := PodPhase_to_string (pstat_phase status) in
  let container_statuses := json_str (pstat_container_statuses status) in
  now ← now_str;
  sql (update_key pods_table (namespace, name)
    (λ old, mk_PodRow (pr_uid old) (pr_labels old) (pr_annotations old) (pr_spec old) phase
       (pr_node_name old) (pstat_pod_ip status) (pstat_host_ip status) container_statuses
       (pr_owner_reference old) (pr_created_at old) now)).

Definition PodRepository_bind_to_node (namespace name node_name : string) : M Error () :=
  now ← now_str;
  sql (update_key pods_table (namespace, name)
    (λ old, mk_PodRow (pr_uid old) (pr_labels old) (pr_annotations old) (pr_spec old)
       (pr_status old) (Some node_name) (pr_pod_ip old) (pr_host_ip old)
       (pr_container_statuses old) (pr_owner_reference old) (pr_created_at old) now)).

(** [WHERE node_name IS NULL AND status = 'Pending']. *)
Definition unscheduled_row (_ : Key) (r : PodRow) : bool :=
  match pr_node_name r with None => str_eqb (pr_status r) "Pending" | Some _ => false end.

Definition PodRepository_list_unscheduled : M Error (list Pod) :=
  rows ← sql (select_where pods_table unscheduled_row false (λ r, Some (pr_created_at r)));
  mapM row_to_pod rows.

(** ** Deployments *)

Definition deployment_of_row (k : Key) (row : DeploymentRow) (created : DateTime) : Deployment :=
  {| dep_type_meta := mk_TypeMeta (Some "apps/v1") (Some "Deployment");
     dep_metadata :=
       row_metadata (Some k.1) k.2 (dr_uid row) (json_from_opt (dr_labels row))
         (json_from_opt (dr_annotations row)) created None;
     dep_spec := json_from DeploymentSpec_default (dr_spec row);
     dep_status := Some
       {| dstat_replicas := dr_replicas row;
          dstat_updated_replicas := dr_ready_replicas row;
          dstat_ready_replicas := dr_ready_replicas row;
          dstat_available_replicas := dr_available_replicas row;
          dstat_unavailable_replicas :=
            as_i32 (Z.max (val (as_i32 (val (dr_replicas row) - val (dr_available_replicas row)))) 0);
          dstat_observed_generation := None;
          dstat_conditions := None |} |}.

Definition row_to_deployment {E} (kr : Key * DeploymentRow) : M E Deployment :=
  created ← parse_dt (dr_created_at kr.2); mret (deployment_of_row kr.1 kr.2 created).

Definition DeploymentRepository_get (namespace name : string) : M Error Deployment :=
  row ← sql (select_one deployments_table (namespace, name));
  row ← found "deployments.apps" name row;
  row_to_deployment ((namespace, name), row).

Definition DeploymentRepository_create (deployment : Deployment) : M Error Deployment :=
  let meta := dep_metadata deployment in
  uid ← uid_or_new (om_uid meta);
  let name := ObjectMeta_name meta in
  let namespace := ObjectMeta_namespace meta in
  let labels := json_str (om_labels meta) in
  let annotations := json_str (om_annotations meta) in
  let spec := json_str (dep_spec deployment) in
  let replicas := DeploymentSpec_replicas (dep_spec deployment) in
  now ← now_str;
  sql (upsert deployments_table (namespace, name)
    (mk_DeploymentRow (uuid_to_string uid) labels annotations spec replicas i32_zero i32_zero
       now now)
    (λ old, Ok (mk_DeploymentRow (dr_uid old) labels annotations spec replicas
       (dr_ready_replicas old) (dr_available_replicas old) (dr_created_at old) now)));;
  DeploymentRepository_get namespace name.

Definition DeploymentRepository_list (namespace : option string) : M Error (list Deployment) :=
  rows ← sql (select_where deployments_table (in_namespace namespace) true
                (λ r, Some (dr_created_at r)));
  mapM row_to_deployment rows.

Definition DeploymentRepository_delete (namespace name : string) : M Error () :=
  n ← sql (delete_key deployments_table (namespace, name));
  affected "deployments.apps" name n.

Definition DeploymentRepository_update_status (namespace name : string)
    (ready_replicas available_replicas : i32) : M Error () :=
  now ← now_str;
  sql (update_key deployments_table (namespace, name)
    (λ old, mk_DeploymentRow (dr_uid old) (dr_labels old) (dr_annotations old) (dr_spec old)
       (dr_replicas old) ready_replicas available_replicas (dr_created_at old) now)).

(** ** Services *)

Definition service_of_row (k : Key) (row : ServiceRow) (created : DateTime) : Service :=
  let spec := ServiceSpec_with_cluster_ip (svr_cluster_ip row)
                (json_from ServiceSpec_default (svr_spec row)) in
  {| svc_type_meta := mk_TypeMeta (Some "v1") (Some "Service");
     svc_metadata :=
       row_metadata (Some k.1) k.2 (svr_uid row) (json_from_opt (svr_labels row)) None created None;
     svc_spec :=
       match svr_node_port row, sspec_ports spec with
       | Some np, first_port :: ports =>
           ServiceSpec_with_ports (ServicePort_with_node_port (Some np) first_port :: ports) spec
       | _, _ => spec
       end;
     svc_status := None |}.

Definition row_to_service {E} (kr : Key * ServiceRow) : M E Service :=
  created ← parse_dt (svr_created_at kr.2); mret (service_of_row kr.1 kr.2 created).

Definition ServiceRepository_get (namespace name : string) : M Error Service :=
  row ← sql (select_one services_table (namespace, name));
  row ← found "services" name row;
  row_to_service ((namespace, name), row).

Definition service_type_column (t : ServiceType) : string :=
  match t with
  | ServiceType_ClusterIP => "ClusterIP"
  | ServiceType_NodePort => "NodePort"
  | ServiceType_LoadBalancer => "LoadBalancer"
  | ServiceType_ExternalName => "ExternalName"
  end.

(** The node port of a [NodePort] service: the one its first port asks for,
    or one derived from the uid. *)
Definition assign_node_port (spec : ServiceSpec) (uid : Uuid) : option i32 :=
  match sspec_service_type spec with
  | ServiceType_NodePort =>
      match head (sspec_ports spec) ≫= sport_node_port with
      | Some p => Some p
      | None => Some (as_i32 (30000 + val (as_i32 (val uid `mod` 2768))))
      end
  | _ => None
  end%Z.

Definition ServiceRepository_create (service : Service) : M Error Service :=
  let meta := svc_metadata service in
  uid ← uid_or_new (om_uid meta);
  let name := ObjectMeta_name meta in
  let namespace := ObjectMeta_namespace meta in
  let labels := json_str (om_labels meta) in
  let spec := json_str (svc_spec service) in
  let service_type := service_type_column (sspec_service_type (svc_spec service)) in
  let cluster_ip := sspec_cluster_ip (svc_spec service) in
  let node_port := assign_node_port (svc_spec service) uid in
  now ← now_str;
  sql (upsert services_table (namespace, name)
    (mk_ServiceRow (uuid_to_string uid) labels spec service_type cluster_ip node_port now now)
    (λ old, Ok (mk_ServiceRow (svr_uid old) labels spec service_type cluster_ip node_port
       (svr_created_at old) now)));;
  ServiceRepository_get namespace name.

Definition ServiceRepository_list (namespace : option string) : M Error (list Service) :=
  rows ← sql (select_where services_table (in_namespace namespace) true
                (λ r, Some (svr_created_at r)));
  mapM row_to_service rows.

Definition ServiceRepository_delete (namespace name : string) : M Error () :=
  n ← sql (delete_key services_table (namespace, name));
  affected "services" name n.

(** ** Nodes *)

Definition ready_condition (row : NodeRow) (created updated : DateTime) : NodeCondition :=
  {| ncond_condition_type := NodeConditionType_Ready;
     ncond_status := if str_eqb (nr_status row) "Ready" then ConditionStatus_True
                     else ConditionStatus_False;
     ncond_last_heartbeat_time := Some updated;
     ncond_last_transition_time := Some created;
     ncond_reason := Some "KubeletReady";
     ncond_message := Some "kubelet is posting ready status" |}.

Definition node_of_row (name : string) (row : NodeRow) (created updated : DateTime)
    (with_conditions : bool) : Node :=
  {| node_type_meta := mk_TypeMeta (Some "v1") (Some "Node");
     node_metadata :=
       row_metadata None name (nr_uid row) (json_from_opt (nr_labels row)) None created None;
     node_spec := None;
     node_status := Some
       {| nstat_capacity := json_from_opt (nr_capacity row);
          nstat_allocatable := json_from_opt (nr_allocatable row);
          nstat_conditions :=
            if with_conditions then Some [ready_condition row created updated] else None;
          nstat_addresses := json_from_opt (nr_addresses row);
          nstat_node_info := nr_node_info row ≫= json_from_opt;
          nstat_images := None;
          nstat_phase := NodePhase_Running |} |}.

Definition row_to_node {E} (with_conditions : bool) (kr : string * NodeRow) : M E Node :=
  created ← parse_dt (nr_created_at kr.2);
  updated ← parse_dt (nr_updated_at kr.2);
  mret (node_of_row kr.1 kr.2 created updated with_conditions).

Definition NodeRepository_get (name : string) : M Error Node :=
  row ← sql (select_one nodes_table name);
  row ← found "nodes" name row;
  row_to_node true (name, row).

Definition NodeRepository_create (node : Node) : M Error Node :=
  let meta := node_metadata node in
  uid ← uid_or_new (om_uid meta);
  let name := ObjectMeta_name meta in
  let labels := json_str (om_labels meta) in
  let status := match node_status node with Some _ => "Ready" | None => "NotReady" end in
  let addresses := match node_status node with
                   | Some s => json_str (nstat_addresses s) | None => "[]" end in
  let capacity := match node_status node with
                  | Some s => json_str (nstat_capacity s) | None => "{}" end in
  let allocatable := match node_status node with
                     | Some s => json_str (nstat_allocatable s) | None => "{}" end in
  let node_info := json_str <$> (node_status node ≫= nstat_node_info) in
  now ← now_str;
  sql (upsert nodes_table name
    (mk_NodeRow (uuid_to_string uid) labels status addresses capacity allocatable node_info
       now now)
    (λ old, Ok (mk_NodeRow (nr_uid old) labels status addresses capacity allocatable node_info
       (nr_created_at old) now)));;
  NodeRepository_get name.

Definition NodeRepository_list : M Error (list Node) :=
  rows ← sql (select_where nodes_table any_row true (λ r, Some (nr_created_at r)));
  mapM (row_to_node true) rows.

Definition NodeRepository_delete (name : string) : M Error () :=
  n ← sql (delete_key nodes_table name);
  affected "nodes" name n.

Definition ready_row (_ : string) (r : NodeRow) : bool := str_eqb (nr_status r) "Ready".

Definition NodeRepository_list_ready : M Error (list Node) :=
  rows ← sql (select_where nodes_table ready_row true (λ r, Some (nr_created_at r)));
  mapM (row_to_node false) rows.

(** ** Endpoints *)

Definition endpoints_of_row (k : Key) (row : EndpointsRow) (created : DateTime) : Endpoints :=
  {| ep_type_meta := mk_TypeMeta (Some "v1") (Some "Endpoints");
     ep_metadata := row_metadata (Some k.1) k.2 (er_uid row) None None created None;
     ep_subsets := json_from [] (er_subsets row) |}.

Definition EndpointsRepository_get (namespace name : string) : M Error Endpoints :=
  row ← sql (select_one endpoints_table (namespace, name));
  row ← found "endpoints" name row;
  created ← parse_dt (er_created_at row);
  mret (endpoints_of_row (namespace, name) row created).

Definition EndpointsRepository_create_or_update (endpoints : Endpoints) : M Error Endpoints :=
  let meta := ep_metadata endpoints in
  uid ← uid_or_new (om_uid meta);
  let name := ObjectMeta_name meta in
  let namespace := ObjectMeta_namespace meta in
  let subsets := json_str (ep_subsets endpoints) in
  now ← now_str;
  sql (upsert endpoints_table (namespace, name)
    (mk_EndpointsRow (uuid_to_string uid) subsets now now)
    (λ old, Ok (mk_EndpointsRow (er_uid old) subsets (er_created_at old) now)));;
  EndpointsRepository_get namespace name.

(** ** Namespaces *)

Definition namespace_of_row (name : string) (row : NamespaceRow) (created : DateTime) : Namespace :=
  {| ns_type_meta := mk_TypeMeta (Some "v1") (Some "Namespace");
     ns_metadata :=
       row_metadata None name (nsr_uid row) (json_from_opt (nsr_labels row))
         (json_from_opt (nsr_annotations row)) created None;
     ns_spec := json_from_opt (nsr_spec row);
     ns_status := Some
       {| nsstat_phase := if str_eqb (nsr_status row) "Terminating"
                          then NamespacePhase_Terminating else NamespacePhase_Active;
          nsstat_conditions := None |} |}.

Definition row_to_namespace {E} (kr : string * NamespaceRow) : M E Namespace :=
  created ← parse_dt (nsr_created_at kr.2); mret (namespace_of_row kr.1 kr.2 created).

Definition NamespaceRepository_get (name : string) : M Error Namespace :=
  row ← sql (select_one namespaces_table name);
  row ← found "namespaces" name row;
  row_to_namespace (name, row).

Definition NamespaceRepository_create (namespace : Namespace) : M Error Namespace :=
  let meta := ns_metadata namespace in
  uid ← uid_or_new (om_uid meta);
  let name := ObjectMeta_name meta in
  let labels := json_str (om_labels meta) in
  let annotations := json_str (om_annotations meta) in
  let spec := json_str (ns_spec namespace) in
  let status := match ns_status namespace with
                | Some s => NamespacePhase_to_string (nsstat_phase s)
                | None => "Active"
                end in
  now ← now_str;
  sql (upsert namespaces_table name
    (mk_NamespaceRow (uuid_to_string uid) labels annotations spec status now now)
    (λ old, Ok (mk_NamespaceRow (nsr_uid old) labels annotations spec status
       (nsr_created_at old) now)));;
  NamespaceRepository_get name.

Definition NamespaceRepository_list : M Error (list Namespace) :=
  rows ← sql (select_where namespaces_table any_row false (λ r, Some (nsr_created_at r)));
  mapM row_to_namespace rows.

Definition system_namespace (name : string) : bool :=
  str_eqb name "default" || str_eqb name "kube-system" || str_eqb name "kube-public" ||
  str_eqb name "kube-node-lease".

Definition NamespaceRepository_delete (name : string) : M Error () :=
  if system_namespace name then
    throw (BadRequest ("namespace " +:+ quoted name +:+
                       " is a system namespace and cannot be deleted"))
  else
    pod_count ← sql (select_count pods_table (λ k _, str_eqb k.1 name));
    match pod_count with
    | S _ => throw (BadRequest ("namespace " +:+ quoted name +:+ " still has " +:+
                                pretty pod_count +:+ " pods"))
    | 0 =>
        n ← sql (delete_key namespaces_table name);
        affected "namespaces" name n
    end.

(** ** Events *)

Definition event_of_row (k : Key) (row : EventRow) (created : DateTime) : Event :=
  {| ev_type_meta := mk_TypeMeta (Some "v1") (Some "Event");
     ev_metadata := row_metadata (Some k.1) k.2 (evr_uid row) None None created None;
     ev_involved_object :=
       {| objref_api_version := evr_involved_api_version row;
          objref_kind := evr_involved_kind row;
          objref_name := evr_involved_name row;
          objref_namespace := evr_involved_namespace row;
          objref_uid := evr_involved_uid row ≫= uuid_parse_str;
          objref_resource_version := evr_involved_resource_version row;
          objref_field_path := evr_involved_field_path row |};
     ev_reason := evr_reason row;
     ev_message := evr_message row;
     ev_source :=
       match evr_source_component row, evr_source_host row with
       | None, None => None
       | component, host => Some (mk_EventSource component host)
       end;
     ev_first_timestamp := parse_dt_opt (evr_first_timestamp row);
     ev_last_timestamp := parse_dt_opt (evr_last_timestamp row);
     ev_count := evr_count row;
     ev_event_type :=
       (λ t, if str_eqb t "Warning" then EventType_Warning else EventType_Normal) <$>
         evr_event_type row;
     ev_event_time := parse_dt_opt (evr_event_time row);
     ev_action := evr_action row;
     ev_reporting_controller := evr_reporting_controller row;
     ev_reporting_instance := evr_reporting_instance row |}.

Definition row_to_event {E} (kr : Key * EventRow) : M E Event :=
  created ← parse_dt (evr_created_at kr.2); mret (event_of_row kr.1 kr.2 created).

Definition EventRepository_get (namespace name : string) : M Error Event :=
  row ← sql (select_one events_table (namespace, name));
  row ← found "events" name row;
  row_to_event ((namespace, name), row).

Definition event_type_column (t : option EventType) : string :=
  match t with Some EventType_Warning => "Warning" | _ => "Normal" end.

(** [count = events.count + 1] on an INTEGER column; NULL stays NULL. *)
Definition increment_count (c : option i32) : result string (option i32) :=
  match c with
  | None => Ok None
  | Some c => match checked (val c + 1) with
              | Some c' => Ok (Some c')
              | None => Err "integer out of range"
              end
  end%Z.

(** The row a repeated event leaves: only the last timestamp, the count, the
    message and [updated_at] change. *)
Definition repeat_event (last_ts message : option string) (now : string) (old : EventRow)
    : result string EventRow :=
  count ← increment_count (evr_count old);
  Ok (mk_EventRow (evr_uid old)
    (evr_involved_api_version old) (evr_involved_kind old) (evr_involved_name old)
    (evr_involved_namespace old) (evr_involved_uid old) (evr_involved_resource_version old)
    (evr_involved_field_path old) (evr_reason old) message
    (evr_source_component old) (evr_source_host old)
    (evr_first_timestamp old) last_ts (evr_event_time old) count (evr_event_type old)
    (evr_action old) (evr_reporting_controller old) (evr_reporting_instance old)
    (evr_created_at old) now).

Definition EventRepository_create (event : Event) : M Error Event :=
  let meta := ev_metadata event in
  uid ← uid_or_new (om_uid meta);
  let name := ObjectMeta_name meta in
  let namespace := ObjectMeta_namespace meta in
  let involved := ev_involved_object event in
  let source := ev_source event in
  let event_type := event_type_column (ev_event_type event) in
  let first_ts := to_rfc3339 <$> ev_first_timestamp event in
  let last_ts := to_rfc3339 <$> ev_last_timestamp event in
  let event_ts := to_rfc3339 <$> ev_event_time event in
  now ← now_str;
  sql (upsert events_table (namespace, name)
    (mk_EventRow (uuid_to_string uid)
       (objref_api_version involved) (objref_kind involved) (objref_name involved)
       (objref_namespace involved) (uuid_to_string <$> objref_uid involved)
       (objref_resource_version involved) (objref_field_path involved)
       (ev_reason event) (ev_message event)
       (source ≫= evsrc_component) (source ≫= evsrc_host)
       first_ts last_ts event_ts (Some (default (as_i32 1) (ev_count event))) (Some event_type)
       (ev_action event) (ev_reporting_controller event) (ev_reporting_instance event)
       now now)
    (repeat_event last_ts (ev_message event) now));;
  EventRepository_get namespace name.

(** The three queries of [list]: the involved object is used only together
    with a namespace, and only when both its name and its kind are given. *)
Definition event_condition (namespace obj_name obj_kind : option string)
    (k : Key) (r : EventRow) : bool :=
  match namespace with
  | Some ns =>
      str_eqb k.1 ns &&
      match obj_name, obj_kind with
      | Some n, Some kd =>
          bool_decide (evr_involved_name r = Some n) && bool_decide (evr_involved_kind r = Some kd)
      | _, _ => true
      end
  | None => true
  end.

Definition EventRepository_list (namespace involved_object_name involved_object_kind : option string)
    : M Error (list Event) :=
  rows ← sql (select_where events_table
                (event_condition namespace involved_object_name involved_object_kind)
                true evr_last_timestamp);
  mapM row_to_event rows.

Definition EventRepository_delete (namespace name : string) : M Error () :=
  n ← sql (delete_key events_table (namespace, name));
  affected "events" name n.

(** ** Stateful sets *)

Definition statefulset_of_row (k : Key) (row : StatefulSetRow) (created : DateTime) : StatefulSet :=
  {| ss_type_meta := mk_TypeMeta (Some "apps/v1") (Some "StatefulSet");
     ss_metadata :=
       row_metadata (Some k.1) k.2 (sr_uid row) (json_from_opt (sr_labels row))
         (json_from_opt (sr_annotations row)) created None;
     ss_spec := json_from StatefulSetSpec_default (sr_spec row);
     ss_status := Some 
       {| ssstat_replicas := sr_replicas row;
       ssstat_ready_replicas := sr_ready_replicas row;
       ssstat_current_replicas := sr_current_replicas row;
       ssstat_observed_generation := None;
       ssstat_current_revision := None;
       ssstat_last_transition_time := None |} |}.

Definition row_to_statefulset {E} (kr : Key * StatefulSetRow) : M E StatefulSet :=
  created ← parse_dt (sr_created_at kr.2); mret (statefulset_of_row kr.1 kr.2 created).

Definition StatefulSetRepository_get (namespace name : string) : M Error StatefulSet :=
  row ← sql (select_one statefulsets_table (namespace, name));
  row ← found "statefulsets.apps" name row;
  row_to_statefulset ((namespace, name), row).

Definition StatefulSetRepository_create (ss : StatefulSet) : M Error StatefulSet :=
  let meta := ss_metadata ss in
  uid ← uid_or_new (om_uid meta);
  let name := ObjectMeta_name meta in
  let namespace := ObjectMeta_namespace meta in
  let labels := json_str (om_labels meta) in
  let annotations := json_str (om_annotations meta) in
  let spec := json_str (ss_spec ss) in
  let replicas := StatefulSetSpec_replicas (ss_spec ss) in
  now ← now_str;
  sql (upsert statefulsets_table (namespace, name)
    (mk_StatefulSetRow (uuid_to_string uid) labels annotations spec replicas i32_zero i32_zero
       now now)
    (λ old, Ok (mk_StatefulSetRow (sr_uid old) labels annotations spec replicas
       (sr_ready_replicas old) (sr_current_replicas old) (sr_created_at old) now)));;
  StatefulSetRepository_get namespace name.

Definition StatefulSetRepository_list (namespace : option string) : M Error (list StatefulSet) :=
  rows ← sql (select_where statefulsets_table (in_namespace namespace) true
                (λ r, Some (sr_created_at r)));
  mapM row_to_statefulset rows.

Definition StatefulSetRepository_delete (namespace name : string) : M Error () :=
  n ← sql (delete_key statefulsets_table (namespace, name));
  affected "statefulsets.apps" name n.

Definition StatefulSetRepository_update_status (namespace name : string)
    (ready_replicas current_replicas : i32) : M Error () :=
  now ← now_str;
  sql (update_key statefulsets_table (namespace, name)
    (λ old, mk_StatefulSetRow (sr_uid old) (sr_labels old) (sr_annotations old) (sr_spec old)
       (sr_replicas old) ready_replicas current_replicas (sr_created_at old) now)).

(** ** Daemon sets *)

Definition daemonset_of_row (k : Key) (row : DaemonSetRow) (created : DateTime) : DaemonSet :=
  {| ds_type_meta := mk_TypeMeta (Some "apps/v1") (Some "DaemonSet");
     ds_metadata :=
       row_metadata (Some k.1) k.2 (dsr_uid row) (json_from_opt (dsr_labels row))
         (json_from_opt (dsr_annotations row)) created None;
     ds_spec := json_from DaemonSetSpec_default (dsr_spec row);
     ds_status := Some 
       {| dsstat_desired_number_scheduled := dsr_desired_number_scheduled row;
       dsstat_current_number_scheduled := dsr_current_number_scheduled row;
       dsstat_number_ready := dsr_number_ready row;
       dsstat_updated_number_scheduled := dsr_current_number_scheduled row;
       dsstat_number_misscheduled := i32_zero;
       dsstat_number_available := dsr_number_ready row;
       dsstat_observed_generation := None;
       dsstat_last_transition_time := None |} |}.

Definition row_to_daemonset {E} (kr : Key * DaemonSetRow) : M E DaemonSet :=
  created ← parse_dt (dsr_created_at kr.2); mret (daemonset_of_row kr.1 kr.2 created).

Definition DaemonSetRepository_get (namespace name : string) : M Error DaemonSet :=
  row ← sql (select_one daemonsets_table (namespace, name));
  row ← found "daemonsets.apps" name row;
  row_to_daemonset ((namespace, name), row).

Definition DaemonSetRepository_create (ds : DaemonSet) : M Error DaemonSet :=
  let meta := ds_metadata ds in
  uid ← uid_or_new (om_uid meta);
  let name := ObjectMeta_name meta in
  let namespace := ObjectMeta_namespace meta in
  let labels := json_str (om_labels meta) in
  let annotations := json_str (om_annotations meta) in
  let spec := json_str (ds_spec ds) in
  now ← now_str;
  sql (upsert daemonsets_table (namespace, name)
    (mk_DaemonSetRow (uuid_to_string uid) labels annotations spec i32_zero i32_zero i32_zero
       now now)
    (λ old, Ok (mk_DaemonSetRow (dsr_uid old) labels annotations spec
       (dsr_desired_number_scheduled old) (dsr_current_number_scheduled old)
       (dsr_number_ready old) (dsr_created_at old) now)));;
  DaemonSetRepository_get namespace name.

Definition DaemonSetRepository_list (namespace : option string) : M Error (list DaemonSet) :=
  rows ← sql (select_where daemonsets_table (in_namespace namespace) true
                (λ r, Some (dsr_created_at r)));
  mapM row_to_daemonset rows.

Definition DaemonSetRepository_delete (namespace name : string) : M Error () :=
  n ← sql (delete_key daemonsets_table (namespace, name));
  affected "daemonsets.apps" name n.

Definition DaemonSetRepository_update_status (namespace name : string)
    (desired current ready : i32) : M Error () :=
  now ← now_str;
  sql (update_key daemonsets_table (namespace, name)
    (λ old, mk_DaemonSetRow (dsr_uid old) (dsr_labels old) (dsr_annotations old) (dsr_spec old)
       desired current ready (dsr_created_at old) now)).

(** ** Service accounts *)

Definition serviceaccount_of_row (k : Key) (row : SpecRow) (created : DateTime) : ServiceAccount :=
  let x := json_from ServiceAccount_default (spr_spec row) in
  let meta := ObjectMeta_with_name (Some k.2) (sa_metadata x) in
  let meta := ObjectMeta_with_namespace (Some k.1) meta in
  let meta := ObjectMeta_with_uid (Some (parse_uid (spr_uid row))) meta in
  ServiceAccount_with_metadata (ObjectMeta_with_creation_timestamp (Some created) meta) x.

Definition ServiceAccountRepository_row_to {E} (kr : Key * SpecRow) : M E ServiceAccount :=
  created ← parse_dt (spr_created_at kr.2); mret (serviceaccount_of_row kr.1 kr.2 created).

Definition ServiceAccountRepository_get (namespace name : string) : M Error ServiceAccount :=
  row ← sql (select_one serviceaccounts_table (namespace, name));
  row ← found "serviceaccounts" name row;
  ServiceAccountRepository_row_to ((namespace, name), row).

Definition ServiceAccountRepository_create (x : ServiceAccount) : M Error ServiceAccount :=
  let meta := sa_metadata x in
  uid ← uid_or_new (om_uid meta);
  let name := ObjectMeta_name meta in
  let namespace := ObjectMeta_namespace meta in
  let labels := json_str (om_labels meta) in
  let annotations := json_str (om_annotations meta) in
  let spec := json_str x in
  now ← now_str;
  sql (upsert serviceaccounts_table (namespace, name)
    (mk_SpecRow (uuid_to_string uid) labels annotations spec now now)
    (λ old, Ok (mk_SpecRow (spr_uid old) labels annotations spec
       (spr_created_at old) now)));;
  ServiceAccountRepository_get namespace name.

Definition ServiceAccountRepository_list (namespace : option string) : M Error (list ServiceAccount) :=
  rows ← sql (select_where serviceaccounts_table (in_namespace namespace) true
                (λ r, Some (spr_created_at r)));
  mapM ServiceAccountRepository_row_to rows.

Definition ServiceAccountRepository_delete (namespace name : string) : M Error () :=
  n ← sql (delete_key serviceaccounts_table (namespace, name));
  affected "serviceaccounts" name n.

(** ** Secrets *)

Definition secret_of_row (k : Key) (row : SecretRow) (created : DateTime) : Secret :=
  let x := json_from Secret_default (secr_spec row) in
  let meta := ObjectMeta_with_name (Some k.2) (sec_metadata x) in
  let meta := ObjectMeta_with_namespace (Some k.1) meta in
  let meta := ObjectMeta_with_uid (Some (parse_uid (secr_uid row))) meta in
  Secret_with_metadata (ObjectMeta_with_creation_timestamp (Some created) meta) x.

Definition SecretRepository_row_to {E} (kr : Key * SecretRow) : M E Secret :=
  created ← parse_dt (secr_created_at kr.2); mret (secret_of_row kr.1 kr.2 created).

Definition SecretRepository_get (namespace name : string) : M Error Secret :=
  row ← sql (select_one secrets_table (namespace, name));
  row ← found "secrets" name row;
  SecretRepository_row_to ((namespace, name), row).

Definition SecretRepository_create (x : Secret) : M Error Secret :=
  let meta := sec_metadata x in
  uid ← uid_or_new (om_uid meta);
  let name := ObjectMeta_name meta in
  let namespace := ObjectMeta_namespace meta in
  let labels := json_str (om_labels meta) in
  let annotations := json_str (om_annotations meta) in
  let spec := json_str x in
  now ← now_str;
  sql (upsert secrets_table (namespace, name)
    (mk_SecretRow (uuid_to_string uid) labels annotations (sec_secret_type x) spec now now)
    (λ old, Ok (mk_SecretRow (secr_uid old) labels annotations (sec_secret_type x) spec
       (secr_created_at old) now)));;
  SecretRepository_get namespace name.

Definition SecretRepository_list (namespace : option string) : M Error (list Secret) :=
  rows ← sql (select_where secrets_table (in_namespace namespace) true
                (λ r, Some (secr_created_at r)));
  mapM SecretRepository_row_to rows.

Definition SecretRepository_delete (namespace name : string) : M Error () :=
  n ← sql (delete_key secrets_table (namespace, name));
  affected "secrets" name n.

(** ** Config maps *)

Definition configmap_of_row (k : Key) (row : SpecRow) (created : DateTime) : ConfigMap :=
  let x := json_from ConfigMap_default (spr_spec row) in
  let meta := ObjectMeta_with_name (Some k.2) (cm_metadata x) in
  let meta := ObjectMeta_with_namespace (Some k.1) meta in
  let meta := ObjectMeta_with_uid (Some (parse_uid (spr_uid row))) meta in
  ConfigMap_with_metadata (ObjectMeta_with_creation_timestamp (Some created) meta) x.

Definition ConfigMapRepository_row_to {E} (kr : Key * SpecRow) : M E ConfigMap :=
  created ← parse_dt (spr_created_at kr.2); mret (configmap_of_row kr.1 kr.2 created).

Definition ConfigMapRepository_get (namespace name : string) : M Error ConfigMap :=
  row ← sql (select_one configmaps_table (namespace, name));
  row ← found "configmaps" name row;
  ConfigMapRepository_row_to ((namespace, name), row).

Definition ConfigMapRepository_create (x : ConfigMap) : M Error ConfigMap :=
  let meta := cm_metadata x in
  uid ← uid_or_new (om_uid meta);
  let name := ObjectMeta_name meta in
  let namespace := ObjectMeta_namespace meta in
  let labels := json_str (om_labels meta) in
  let annotations := json_str (om_annotations meta) in
  let spec := json_str x in
  now ← now_str;
  sql (upsert configmaps_table (namespace, name)
    (mk_SpecRow (uuid_to_string uid) labels annotations spec now now)
    (λ old, Ok (mk_SpecRow (spr_uid old) labels annotations spec
       (spr_created_at old) now)));;
  ConfigMapRepository_get namespace name.

Definition ConfigMapRepository_list (namespace : option string) : M Error (list ConfigMap) :=
  rows ← sql (select_where configmaps_table (in_namespace namespace) true
                (λ r, Some (spr_created_at r)));
  mapM ConfigMapRepository_row_to rows.

Definition ConfigMapRepository_delete (namespace name : string) : M Error () :=
  n ← sql (delete_key configmaps_table (namespace, name));
  affected "configmaps" name n.

(** ** Cluster roles *)

Definition clusterrole_of_row (k : string) (row : SpecRow) (created : DateTime) : ClusterRole :=
  let x := json_from ClusterRole_default (spr_spec row) in
  let meta := ObjectMeta_with_name (Some k) (cr_metadata x) in
  let meta := ObjectMeta_with_uid (Some (parse_uid (spr_uid row))) meta in
  ClusterRole_with_metadata (ObjectMeta_with_creation_timestamp (Some created) meta) x.

Definition ClusterRoleRepository_row_to {E} (kr : string * SpecRow) : M E ClusterRole :=
  created ← parse_dt (spr_created_at kr.2); mret (clusterrole_of_row kr.1 kr.2 created).

Definition ClusterRoleRepository_get (name : string) : M Error ClusterRole :=
  row ← sql (select_one clusterroles_table name);
  row ← found "clusterroles.rbac.authorization.k8s.io" name row;
  ClusterRoleRepository_row_to (name, row).

Definition ClusterRoleRepository_create (x : ClusterRole) : M Error ClusterRole :=
  let meta := cr_metadata x in
  uid ← uid_or_new (om_uid meta);
  let name := ObjectMeta_name meta in
  let labels := json_str (om_labels meta) in
  let annotations := json_str (om_annotations meta) in
  let spec := json_str x in
  now ← now_str;
  sql (upsert clusterroles_table name
    (mk_SpecRow (uuid_to_string uid) labels annotations spec now now)
    (λ old, Ok (mk_SpecRow (spr_uid old) labels annotations spec
       (spr_created_at old) now)));;
  ClusterRoleRepository_get name.

Definition ClusterRoleRepository_list : M Error (list ClusterRole) :=
  rows ← sql (select_where clusterroles_table any_row true (λ r, Some (spr_created_at r)));
  mapM ClusterRoleRepository_row_to rows.

Definition ClusterRoleRepository_delete (name : string) : M Error () :=
  n ← sql (delete_key clusterroles_table name);
  affected "clusterroles" name n.

(** ** Cluster role bindings *)

Definition clusterrolebinding_of_row (k : string) (row : SpecRow) (created : DateTime) : ClusterRoleBinding :=
  let x := json_from ClusterRoleBinding_default (spr_spec row) in
  let meta := ObjectMeta_with_name (Some k) (crb_metadata x) in
  let meta := ObjectMeta_with_uid (Some (parse_uid (spr_uid row))) meta in
  ClusterRoleBinding_with_metadata (ObjectMeta_with_creation_timestamp (Some created) meta) x.

Definition ClusterRoleBindingRepository_row_to {E} (kr : string * SpecRow) : M E ClusterRoleBinding :=
  created ← parse_dt (spr_created_at kr.2); mret (clusterrolebinding_of_row kr.1 kr.2 created).

Definition ClusterRoleBindingRepository_get (name : string) : M Error ClusterRoleBinding :=
  row ← sql (select_one clusterrolebindings_table name);
  row ← found "clusterrolebindings.rbac.authorization.k8s.io" name row;
  ClusterRoleBindingRepository_row_to (name, row).

Definition ClusterRoleBindingRepository_create (x : ClusterRoleBinding) : M Error ClusterRoleBinding :=
  let meta := crb_metadata x in
  uid ← uid_or_new (om_uid meta);
  let name := ObjectMeta_name meta in
  let labels := json_str (om_labels meta) in
  let annotations := json_str (om_annotations meta) in
  let spec := json_str x in
  now ← now_str;
  sql (upsert clusterrolebindings_table name
    (mk_SpecRow (uuid_to_string uid) labels annotations spec now now)
    (λ old, Ok (mk_SpecRow (spr_uid old) labels annotations spec
       (spr_created_at old) now)));;
  ClusterRoleBindingRepository_get name.

Definition ClusterRoleBindingRepository_list : M Error (list ClusterRoleBinding) :=
  rows ← sql (select_where clusterrolebindings_table any_row true (λ r, Some (spr_created_at r)));
  mapM ClusterRoleBindingRepository_row_to rows.

Definition ClusterRoleBindingRepository_delete (name : string) : M Error () :=
  n ← sql (delete_key clusterrolebindings_table name);
  affected "clusterrolebindings" name n.

(** ** Roles *)

Definition role_of_row (k : Key) (row : SpecRow) (created : DateTime) : Role :=
  let x := json_from Role_default (spr_spec row) in
  let meta := ObjectMeta_with_name (Some k.2) (role_metadata x) in
  let meta := ObjectMeta_with_namespace (Some k.1) meta in
  let meta := ObjectMeta_with_uid (Some (parse_uid (spr_uid row))) meta in
  Role_with_metadata (ObjectMeta_with_creation_timestamp (Some created) meta) x.

Definition RoleRepository_row_to {E} (kr : Key * SpecRow) : M E Role :=
  created ← parse_dt (spr_created_at kr.2); mret (role_of_row kr.1 kr.2 created).

Definition RoleRepository_get (namespace name : string) : M Error Role :=
  row ← sql (select_one roles_table (namespace, name));
  row ← found "roles.rbac.authorization.k8s.io" name row;
  RoleRepository_row_to ((namespace, name), row).

Definition RoleRepository_create (x : Role) : M Error Role :=
  let meta := role_metadata x in
  uid ← uid_or_new (om_uid meta);
  let name := ObjectMeta_name meta in
  let namespace := ObjectMeta_namespace meta in
  let labels := json_str (om_labels meta) in
  let annotations := json_str (om_annotations meta) in
  let spec := json_str x in
  now ← now_str;
  sql (upsert roles_table (namespace, name)
    (mk_SpecRow (uuid_to_string uid) labels annotations spec now now)
    (λ old, Ok (mk_SpecRow (spr_uid old) labels annotations spec
       (spr_created_at old) now)));;
  RoleRepository_get namespace name.

Definition RoleRepository_list (namespace : option string) : M Error (list Role) :=
  rows ← sql (select_where roles_table (in_namespace namespace) true
                (λ r, Some (spr_created_at r)));
  mapM RoleRepository_row_to rows.

Definition RoleRepository_delete (namespace name : string) : M Error () :=
  n ← sql (delete_key roles_table (namespace, name));
  affected "roles" name n.

(** ** Role bindings *)

Definition rolebinding_of_row (k : Key) (row : SpecRow) (created : DateTime) : RoleBinding :=
  let x := json_from RoleBinding_default (spr_spec row) in
  let meta := ObjectMeta_with_name (Some k.2) (rb_metadata x) in
  let meta := ObjectMeta_with_namespace (Some k.1) meta in
  let meta := ObjectMeta_with_uid (Some (parse_uid (spr_uid row))) meta in
  RoleBinding_with_metadata (ObjectMeta_with_creation_timestamp (Some created) meta) x.

Definition RoleBindingRepository_row_to {E} (kr : Key * SpecRow) : M E RoleBinding :=
  created ← parse_dt (spr_created_at kr.2); mret (rolebinding_of_row kr.1 kr.2 created).

Definition RoleBindingRepository_get (namespace name : string) : M Error RoleBinding :=
  row ← sql (select_one rolebindings_table (namespace, name));
  row ← found "rolebindings.rbac.authorization.k8s.io" name row;
  RoleBindingRepository_row_to ((namespace, name), row).

Definition RoleBindingRepository_create (x : RoleBinding) : M Error RoleBinding :=
  let meta := rb_metadata x in
  uid ← uid_or_new (om_uid meta);
  let name := ObjectMeta_name meta in
  let namespace := ObjectMeta_namespace meta in
  let labels := json_str (om_labels meta) in
  let annotations := json_str (om_annotations meta) in
  let spec := json_str x in
  now ← now_str;
  sql (upsert rolebindings_table (namespace, name)
    (mk_SpecRow (uuid_to_string uid) labels annotations spec now now)
    (λ old, Ok (mk_SpecRow (spr_uid old) labels annotations spec
       (spr_created_at old) now)));;
  RoleBindingRepository_get namespace name.

Definition RoleBindingRepository_list (namespace : option string) : M Error (list RoleBinding) :=
  rows ← sql (select_where rolebindings_table (in_namespace namespace) true
                (λ r, Some (spr_created_at r)));
  mapM RoleBindingRepository_row_to rows.

Definition RoleBindingRepository_delete (namespace name : string) : M Error () :=
  n ← sql (delete_key rolebindings_table (namespace, name));
  affected "rolebindings" name n.

End repository.
