(* ===== verification/RepositoryOk.v ===== *)
(** * What a repository promises

    [Repo] is the interface the rest of the server uses: a store of objects
    under a key, with [create] (insert or replace), [get], [list] and
    [delete].  [RepoOk] states it against the abstract store [repo_view], the
    finite map of the objects the table holds; the instances discharge it for
    the repositories of Repository.v from the lemmas about the four kinds of
    statement. *)
From S2P Require Import Prelude RustStd Json External Models Wire Error Bus World Repository.

(** ** Running sequenced computations *)

Lemma mapM_pure {S E A B} (f : A → ST S E B) (g : A → B) xs s :
  (∀ x, x ∈ xs → f x s = (Ok (g x), s)) → mapM f xs s = (Ok (g <$> xs), s).
Proof.
  induction xs as [|x xs IH]; intros Hf; [done|]. simpl.
  rewrite (bind_ok _ _ _ _ _ (Hf x (list_elem_of_here _ _))).
  erewrite bind_ok; [done|]. apply IH. intros y ?. apply Hf. by right.
Qed.

(** ** The interface *)

(** The identifier [create] gives the row it inserts. *)
Definition chosen_uid `{Env} (meta : ObjectMeta) (w : World) : Uuid :=
  default (env_uuid (w_uuids w)) (om_uid meta).

Class Repo (K : Type) `{Countable K} (T : Type) : Type := {
  repo_meta : T → ObjectMeta;
  repo_key : T → K;
  repo_create : T → M Error T;
  repo_get : K → M Error T;
  repo_delete : K → M Error ();
  repo_list : option string → M Error (list T);
  (** Which keys [list] selects. *)
  repo_in : option string → K → bool;
  repo_view : Db → gmap K T;
  (** The rows are readable: their timestamps parse. *)
  repo_wf : Db → Prop;
  repo_has_uid : string → Db → Prop;
}.
#[global] Hint Mode Repo - - - ! : typeclass_instances.
Arguments repo_view {K} {_ _} T {_} d.
Arguments repo_wf {K} {_ _} T {_} d.
Arguments repo_has_uid {K} {_ _} T {_} uid d.
Arguments repo_get {K} {_ _} T {_} k.
Arguments repo_delete {K} {_ _} T {_} k.
Arguments repo_list {K} {_ _} T {_} namespace.
Arguments repo_in {K} {_ _} T {_} namespace k.

(** [create] does not collide with another object's primary key. *)
Definition repo_admits `{Extern, Env, Repo K T} (x : T) (w : World) : Prop :=
  is_Some (repo_view T (w_db w) !! repo_key x) ∨
  ¬ repo_has_uid T (uuid_to_string (chosen_uid (repo_meta x) w)) (w_db w).

Class RepoOk (K T : Type) `{Extern, Env, Repo K T} : Prop := {
  repo_get_spec k w :
    quiet → repo_wf T (w_db w) →
    match repo_view T (w_db w) !! k with
    | Some x => repo_get T k w = (Ok x, count_stmt w)
    | None => ∃ msg, repo_get T k w = (Err (NotFound msg), count_stmt w)
    end;
  repo_delete_spec k w :
    quiet → repo_wf T (w_db w) → ∃ w',
    match repo_view T (w_db w) !! k with
    | Some _ => repo_delete T k w = (Ok (), w')
    | None => ∃ msg, repo_delete T k w = (Err (NotFound msg), w')
    end ∧ repo_view T (w_db w') = delete k (repo_view T (w_db w)) ∧ repo_wf T (w_db w');
  repo_create_spec x w :
    quiet → repo_wf T (w_db w) → repo_admits x w → ∃ y w',
    repo_create x w = (Ok y, w') ∧
    repo_view T (w_db w') = <[repo_key x := y]> (repo_view T (w_db w)) ∧
    repo_wf T (w_db w');
  repo_list_spec ns w :
    quiet → repo_wf T (w_db w) → ∃ xs,
    repo_list T ns w = (Ok xs, count_stmt w) ∧
    xs ≡ₚ (filter (λ kx, repo_in T ns kx.1 = true) (map_to_list (repo_view T (w_db w)))).*2;
}.

(** ** The statements, once for all tables *)

Definition dt_epoch : DateTime :=
  @Bnd (-62167219200000000000) 253402300800000000000 0 eq_refl.
Definition stamp `{Extern} (s : string) : DateTime := default dt_epoch (parse_from_rfc3339 s).
Definition stamped `{Extern} (s : string) : Prop := is_Some (parse_from_rfc3339 s).

Lemma stamped_rfc3339 `{ExternOk} t : stamped (to_rfc3339 t).
Proof. eexists. apply rfc3339_round. Qed.

Lemma stamp_rfc3339 `{ExternOk} t : stamp (to_rfc3339 t) = t.
Proof. unfold stamp. by rewrite rfc3339_round. Qed.

Lemma run_parse_dt `{Extern, Env} {E} s (w : World) :
  stamped s → parse_dt (E:=E) s w = (Ok (stamp s), w).
Proof. unfold parse_dt, stamp. by intros [t ->]. Qed.

Section crud.
Context `{ExternOk, EnvOk} {K R T : Type} `{Countable K} (tb : table K R).
(** What a row stands for, and the rows that can be read. *)
Context (f : K → R → T) (good : R → Prop).

Definition view (d : Db) : gmap K T := map_imap (λ k r, Some (f k r)) (tb_get tb d).
Definition wf (d : Db) : Prop := map_Forall (λ _, good) (tb_get tb d).
Definition has_uid (uid : string) (d : Db) : Prop := uid_taken tb uid (tb_get tb d) = true.

Lemma lookup_view d k : view d !! k = f k <$> tb_get tb d !! k.
Proof. unfold view. rewrite map_lookup_imap. by destruct (tb_get tb d !! k). Qed.

Lemma view_delete d k :
  view (tb_set tb (delete k (tb_get tb d)) d) = delete k (view d).
Proof. unfold view. by rewrite tb_get_set, map_imap_delete. Qed.

Lemma view_insert d k r :
  view (tb_set tb (<[k:=r]> (tb_get tb d)) d) = <[k:=f k r]> (view d).
Proof.
  unfold view. rewrite tb_get_set. apply map_eq. intros k'.
  rewrite map_lookup_imap. destruct (decide (k = k')) as [<-|].
  - by rewrite !lookup_insert_eq.
  - by rewrite !lookup_insert_ne, map_lookup_imap.
Qed.

Lemma view_alter d k (h : R → R) (h' : T → T) :
  (∀ r, f k (h r) = h' (f k r)) →
  view (tb_set tb (alter h k (tb_get tb d)) d) = alter h' k (view d).
Proof.
  intros Hh. unfold view. rewrite tb_get_set. apply map_eq. intros k'.
  rewrite map_lookup_imap. destruct (decide (k = k')) as [<-|].
  - rewrite !lookup_alter_eq, map_lookup_imap.
    destruct (tb_get tb d !! k) as [r|]; simpl; [by rewrite Hh|done].
  - by rewrite !lookup_alter_ne, map_lookup_imap.
Qed.

(** The identifiers in use after an insertion. *)
Lemma has_uid_insert d k r uid :
  has_uid uid (tb_set tb (<[k:=r]> (tb_get tb d)) d) → has_uid uid d ∨ tb_uid tb r = uid.
Proof.
  unfold has_uid. rewrite tb_get_set, !uid_taken_spec. intros (k' & r' & Hk & Hu).
  destruct (decide (k = k')) as [<-|].
  - rewrite lookup_insert_eq in Hk. injection Hk as <-. by right.
  - rewrite lookup_insert_ne in Hk by done. left. eauto.
Qed.

Lemma has_uid_delete d k uid :
  has_uid uid (tb_set tb (delete k (tb_get tb d)) d) → has_uid uid d.
Proof.
  unfold has_uid. rewrite tb_get_set, !uid_taken_spec.
  intros (k' & r' & [_ Hk]%lookup_delete_Some & Hu). eauto.
Qed.

Lemma has_uid_alter d k (h : R → R) uid :
  (∀ r, tb_uid tb (h r) = tb_uid tb r) →
  has_uid uid (tb_set tb (alter h k (tb_get tb d)) d) → has_uid uid d.
Proof.
  intros Hh. unfold has_uid. rewrite tb_get_set, !uid_taken_spec.
  intros (k' & r' & Hk & Hu). apply lookup_alter_Some in Hk as [(-> & r & Hk & ->)|[_ Hk]];
    rewrite ?Hh in Hu; eauto.
Qed.

Lemma map_to_list_view d :
  map_to_list (view d) ≡ₚ (λ kr, (kr.1, f kr.1 kr.2)) <$> map_to_list (tb_get tb d).
Proof.
  apply NoDup_Permutation; [apply NoDup_map_to_list| |].
  - apply (NoDup_fmap_1 fst). rewrite <- list_fmap_compose.
    apply (NoDup_fst_map_to_list (tb_get tb d)).
  - intros [k x]. rewrite elem_of_map_to_list, lookup_view, list_elem_of_fmap. split.
    + intros (r & Hr & ->)%fmap_Some_1. exists (k, r).
      by rewrite elem_of_map_to_list.
    + intros ([k' r] & [= -> ->] & Hr%elem_of_map_to_list). by rewrite Hr.
Qed.

Lemma wf_delete d k : wf d → wf (tb_set tb (delete k (tb_get tb d)) d).
Proof. unfold wf. rewrite tb_get_set. apply map_Forall_delete. Qed.

Lemma wf_insert d k r : wf d → good r → wf (tb_set tb (<[k:=r]> (tb_get tb d)) d).
Proof. unfold wf. rewrite tb_get_set. intros ??. by apply map_Forall_insert_2. Qed.

Lemma wf_alter d k (h : R → R) :
  wf d → (∀ r, good r → good (h r)) → wf (tb_set tb (alter h k (tb_get tb d)) d).
Proof.
  unfold wf. rewrite tb_get_set. intros Hwf Hh k' r.
  destruct (decide (k = k')) as [<-|].
  - rewrite lookup_alter_eq. intros (r' & Hr & ->)%fmap_Some_1. by apply Hh, (Hwf k).
  - rewrite lookup_alter_ne by done. apply Hwf.
Qed.

(** The conversion of a readable row. *)
Context (conv : K * R → M Error T).
Hypothesis conv_good : ∀ k r w, good r → conv (k, r) w = (Ok (f k r), w).

Lemma run_get res name k w :
  quiet → wf (w_db w) →
  (row ← sql (select_one tb k); row ← found res name row; conv (k, row)) w =
    match view (w_db w) !! k with
    | Some x => (Ok x, count_stmt w)
    | None => (Err (not_found res name), count_stmt w)
    end.
Proof.
  intros Hq Hwf. erewrite bind_ok by by apply run_select_one.
  rewrite lookup_view. destruct (tb_get tb (w_db w) !! k) as [r|] eqn:Hr; [|done].
  simpl. by apply conv_good, (Hwf k r).
Qed.

Lemma run_delete res name k w :
  quiet → wf (w_db w) → ∃ w',
  (n ← sql (delete_key tb k); affected res name n) w =
    (match view (w_db w) !! k with
     | Some _ => Ok ()
     | None => Err (not_found res name)
     end, w') ∧
  view (w_db w') = delete k (view (w_db w)) ∧ wf (w_db w').
Proof.
  intros Hq Hwf. eexists. split; [|split].
  - erewrite bind_ok by by apply run_delete_key.
    rewrite lookup_view. by destruct (tb_get tb (w_db w) !! k).
  - apply view_delete.
  - by apply wf_delete.
Qed.

Lemma run_list cond desc key w :
  quiet → wf (w_db w) → ∃ rows xs,
  (rows ← sql (select_where tb cond desc key); mapM conv rows) w =
    (Ok xs, count_stmt w) ∧
  rows = env_order (w_stmts w) _ desc (λ kr, key kr.2)
           (filter (λ kr, cond kr.1 kr.2 = true) (map_to_list (tb_get tb (w_db w)))) ∧
  xs = (λ kr, f kr.1 kr.2) <$> rows.
Proof.
  intros Hq Hwf. eexists _, _. split; [|done].
  erewrite bind_ok by by apply run_select_where.
  apply mapM_pure. intros [k r] Hin. apply conv_good.
  rewrite env_order_perm, list_elem_of_filter, elem_of_map_to_list in Hin.
  exact (Hwf k r (proj2 Hin)).
Qed.

(** A list without ties: the objects of the selected keys. *)
Lemma run_list_perm (sel : K → bool) desc key w :
  quiet → wf (w_db w) → ∃ xs,
  (rows ← sql (select_where tb (λ k _, sel k) desc key); mapM conv rows) w =
    (Ok xs, count_stmt w) ∧
  xs ≡ₚ (filter (λ kx, sel kx.1 = true) (map_to_list (view (w_db w)))).*2.
Proof.
  intros Hq Hwf.
  destruct (run_list (λ k _, sel k) desc key w Hq Hwf) as (rows & xs & E & Hr & ->).
  eexists. split; [exact E|]. rewrite map_to_list_view, Hr, env_order_perm. simpl.
  rewrite filter_of_fmap, <- list_fmap_compose. done.
Qed.

(** Insert or replace, then read back: the row that is left. *)
Lemma run_create_full (o : option Uuid) (new : Uuid → string → R)
    (merge : Uuid → string → R → R) k get w :
  quiet → wf (w_db w) →
  (∀ u t, tb_uid tb (new u t) = uuid_to_string u) →
  (∀ u t, good (new u (to_rfc3339 t))) →
  (∀ u old t, good old → good (merge u (to_rfc3339 t) old)) →
  (∀ w, wf (w_db w) →
    get w = match view (w_db w) !! k with
            | Some x => (Ok x, count_stmt w)
            | None => get w
            end) →
  is_Some (view (w_db w) !! k) ∨
    ¬ has_uid (uuid_to_string (default (env_uuid (w_uuids w)) o)) (w_db w) →
  let u := default (env_uuid (w_uuids w)) o in
  let t := to_rfc3339 (env_now (w_clock w)) in
  let r := match tb_get tb (w_db w) !! k with
           | Some old => merge u t old
           | None => new u t
           end in
  ∃ w',
    (uid ← uid_or_new o; now ← now_str;
     sql (upsert tb k (new uid now) (λ old, Ok (merge uid now old)));; get) w =
      (Ok (f k r), w') ∧
    w_db w' = tb_set tb (<[k:=r]> (tb_get tb (w_db w))) (w_db w) ∧
    good r ∧ w_bus w' = w_bus w ∧
    w_uuids w' = match o with Some _ => w_uuids w | None => S (w_uuids w) end.
Proof.
  intros Hq Hwf Huid Hnew Hmerge Hget Hadm u t r.
  set (w1 := match o with Some _ => w | None => tick_uuid w end).
  assert (Hdb : w_db w1 = w_db w ∧ w_clock w1 = w_clock w ∧ w_bus w1 = w_bus w ∧
    w_uuids w1 = match o with Some _ => w_uuids w | None => S (w_uuids w) end)
    by (unfold w1; by destruct o).
  destruct Hdb as (Hdb & Hclk & Hbus & Huu).
  assert (E1 : uid_or_new (E:=Error) o w = (Ok u, w1)) by (unfold u, w1; by destruct o).
  rewrite (bind_ok _ _ _ _ _ E1).
  erewrite (bind_ok now_str) by reflexivity. rewrite Hclk. fold t.
  assert (Hr : good r).
  { unfold r. destruct (tb_get tb (w_db w) !! k) as [old|] eqn:Hk;
      [by apply Hmerge, (Hwf k old)|apply Hnew]. }
  assert (E2 : sql (upsert tb k (new u t) (λ old, Ok (merge u t old))) (tick_clock w1) =
      (Ok (), set_db (tb_set tb (<[k:=r]> (tb_get tb (w_db w))) (w_db w))
                (count_stmt (tick_clock w1)))).
  { rewrite run_sql by done. unfold upsert, r. simpl. rewrite Hdb.
    rewrite lookup_view in Hadm.
    destruct (tb_get tb (w_db w) !! k) as [old|] eqn:Hk; [done|].
    destruct Hadm as [[? ?]|Hadm]; [done|]. unfold has_uid in Hadm.
    rewrite Huid. fold u in Hadm.
    by destruct (uid_taken tb (uuid_to_string u) (tb_get tb (w_db w))). }
  rewrite (bind_ok _ _ _ _ _ E2).
  eexists. rewrite Hget; simpl; [|by apply wf_insert].
  rewrite view_insert, lookup_insert_eq. done.
Qed.

Lemma run_create (o : option Uuid) (new : Uuid → string → R) (merge : Uuid → string → R → R)
    k get w :
  quiet → wf (w_db w) →
  (∀ u t, tb_uid tb (new u t) = uuid_to_string u) →
  (∀ u t, good (new u (to_rfc3339 t))) →
  (∀ u old t, good old → good (merge u (to_rfc3339 t) old)) →
  (∀ w, wf (w_db w) →
    get w = match view (w_db w) !! k with
            | Some x => (Ok x, count_stmt w)
            | None => get w
            end) →
  is_Some (view (w_db w) !! k) ∨
    ¬ has_uid (uuid_to_string (default (env_uuid (w_uuids w)) o)) (w_db w) →
  ∃ y w',
    (uid ← uid_or_new o; now ← now_str;
     sql (upsert tb k (new uid now) (λ old, Ok (merge uid now old)));; get) w = (Ok y, w') ∧
    view (w_db w') = <[k:=y]> (view (w_db w)) ∧ wf (w_db w').
Proof.
  intros Hq Hwf Huid Hnew Hmerge Hget Hadm.
  destruct (run_create_full o new merge k get w) as (w' & E & Hdb & Hr & _); try done.
  eexists _, w'. split; [exact E|]. rewrite Hdb.
  split; [apply view_insert|by apply wf_insert].
Qed.
End crud.

(** ** The repositories are stores *)

Definition object_key (m : ObjectMeta) : Key := (ObjectMeta_namespace m, ObjectMeta_name m).

(** The timestamps of a node row: its conditions show both. *)
Definition node_stamped `{Extern} (r : NodeRow) : Prop :=
  stamped (nr_created_at r) ∧ stamped (nr_updated_at r).

Section instances.
Context `{Extern, Env}.

#[export] Instance pod_repo : Repo Key Pod := {|
  repo_meta := pod_metadata;
  repo_key x := object_key (pod_metadata x);
  repo_create := PodRepository_create;
  repo_get k := PodRepository_get k.1 k.2;
  repo_delete k := PodRepository_delete k.1 k.2;
  repo_list ns := PodRepository_list ns None;
  repo_in ns k := in_namespace ns k ();
  repo_view := view pods_table (λ k r, pod_of_row k r (stamp (pr_created_at r)));
  repo_wf := wf pods_table (λ r, stamped (pr_created_at r));
  repo_has_uid := has_uid pods_table |}.

#[export] Instance deployment_repo : Repo Key Deployment := {|
  repo_meta := dep_metadata;
  repo_key x := object_key (dep_metadata x);
  repo_create := DeploymentRepository_create;
  repo_get k := DeploymentRepository_get k.1 k.2;
  repo_delete k := DeploymentRepository_delete k.1 k.2;
  repo_list ns := DeploymentRepository_list ns;
  repo_in ns k := in_namespace ns k ();
  repo_view := view deployments_table (λ k r, deployment_of_row k r (stamp (dr_created_at r)));
  repo_wf := wf deployments_table (λ r, stamped (dr_created_at r));
  repo_has_uid := has_uid deployments_table |}.

#[export] Instance service_repo : Repo Key Service := {|
  repo_meta := svc_metadata;
  repo_key x := object_key (svc_metadata x);
  repo_create := ServiceRepository_create;
  repo_get k := ServiceRepository_get k.1 k.2;
  repo_delete k := ServiceRepository_delete k.1 k.2;
  repo_list ns := ServiceRepository_list ns;
  repo_in ns k := in_namespace ns k ();
  repo_view := view services_table (λ k r, service_of_row k r (stamp (svr_created_at r)));
  repo_wf := wf services_table (λ r, stamped (svr_created_at r));
  repo_has_uid := has_uid services_table |}.

#[export] Instance node_repo : Repo string Node := {|
  repo_meta := node_metadata;
  repo_key x := ObjectMeta_name (node_metadata x);
  repo_create := NodeRepository_create;
  repo_get k := NodeRepository_get k;
  repo_delete k := NodeRepository_delete k;
  repo_list _ := NodeRepository_list;
  repo_in _ _ := true;
  repo_view := view nodes_table (λ k r, node_of_row k r (stamp (nr_created_at r)) (stamp (nr_updated_at r)) true);
  repo_wf := wf nodes_table node_stamped;
  repo_has_uid := has_uid nodes_table |}.

#[export] Instance statefulset_repo : Repo Key StatefulSet := {|
  repo_meta := ss_metadata;
  repo_key x := object_key (ss_metadata x);
  repo_create := StatefulSetRepository_create;
  repo_get k := StatefulSetRepository_get k.1 k.2;
  repo_delete k := StatefulSetRepository_delete k.1 k.2;
  repo_list ns := StatefulSetRepository_list ns;
  repo_in ns k := in_namespace ns k ();
  repo_view := view statefulsets_table (λ k r, statefulset_of_row k r (stamp (sr_created_at r)));
  repo_wf := wf statefulsets_table (λ r, stamped (sr_created_at r));
  repo_has_uid := has_uid statefulsets_table |}.

#[export] Instance daemonset_repo : Repo Key DaemonSet := {|
  repo_meta := ds_metadata;
  repo_key x := object_key (ds_metadata x);
  repo_create := DaemonSetRepository_create;
  repo_get k := DaemonSetRepository_get k.1 k.2;
  repo_delete k := DaemonSetRepository_delete k.1 k.2;
  repo_list ns := DaemonSetRepository_list ns;
  repo_in ns k := in_namespace ns k ();
  repo_view := view daemonsets_table (λ k r, daemonset_of_row k r (stamp (dsr_created_at r)));
  repo_wf := wf daemonsets_table (λ r, stamped (dsr_created_at r));
  repo_has_uid := has_uid daemonsets_table |}.

#[export] Instance serviceaccount_repo : Repo Key ServiceAccount := {|
  repo_meta := sa_metadata;
  repo_key x := object_key (sa_metadata x);
  repo_create := ServiceAccountRepository_create;
  repo_get k := ServiceAccountRepository_get k.1 k.2;
  repo_delete k := ServiceAccountRepository_delete k.1 k.2;
  repo_list ns := ServiceAccountRepository_list ns;
  repo_in ns k := in_namespace ns k ();
  repo_view := view serviceaccounts_table (λ k r, serviceaccount_of_row k r (stamp (spr_created_at r)));
  repo_wf := wf serviceaccounts_table (λ r, stamped (spr_created_at r));
  repo_has_uid := has_uid serviceaccounts_table |}.

#[export] Instance secret_repo : Repo Key Secret := {|
  repo_meta := sec_metadata;
  repo_key x := object_key (sec_metadata x);
  repo_create := SecretRepository_create;
  repo_get k := SecretRepository_get k.1 k.2;
  repo_delete k := SecretRepository_delete k.1 k.2;
  repo_list ns := SecretRepository_list ns;
  repo_in ns k := in_namespace ns k ();
  repo_view := view secrets_table (λ k r, secret_of_row k r (stamp (secr_created_at r)));
  repo_wf := wf secrets_table (λ r, stamped (secr_created_at r));
  repo_has_uid := has_uid secrets_table |}.

#[export] Instance configmap_repo : Repo Key ConfigMap := {|
  repo_meta := cm_metadata;
  repo_key x := object_key (cm_metadata x);
  repo_create := ConfigMapRepository_create;
  repo_get k := ConfigMapRepository_get k.1 k.2;
  repo_delete k := ConfigMapRepository_delete k.1 k.2;
  repo_list ns := ConfigMapRepository_list ns;
  repo_in ns k := in_namespace ns k ();
  repo_view := view configmaps_table (λ k r, configmap_of_row k r (stamp (spr_created_at r)));
  repo_wf := wf configmaps_table (λ r, stamped (spr_created_at r));
  repo_has_uid := has_uid configmaps_table |}.

#[export] Instance clusterrole_repo : Repo string ClusterRole := {|
  repo_meta := cr_metadata;
  repo_key x := ObjectMeta_name (cr_metadata x);
  repo_create := ClusterRoleRepository_create;
  repo_get k := ClusterRoleRepository_get k;
  repo_delete k := ClusterRoleRepository_delete k;
  repo_list _ := ClusterRoleRepository_list;
  repo_in _ _ := true;
  repo_view := view clusterroles_table (λ k r, clusterrole_of_row k r (stamp (spr_created_at r)));
  repo_wf := wf clusterroles_table (λ r, stamped (spr_created_at r));
  repo_has_uid := has_uid clusterroles_table |}.

#[export] Instance clusterrolebinding_repo : Repo string ClusterRoleBinding := {|
  repo_meta := crb_metadata;
  repo_key x := ObjectMeta_name (crb_metadata x);
  repo_create := ClusterRoleBindingRepository_create;
  repo_get k := ClusterRoleBindingRepository_get k;
  repo_delete k := ClusterRoleBindingRepository_delete k;
  repo_list _ := ClusterRoleBindingRepository_list;
  repo_in _ _ := true;
  repo_view := view clusterrolebindings_table (λ k r, clusterrolebinding_of_row k r (stamp (spr_created_at r)));
  repo_wf := wf clusterrolebindings_table (λ r, stamped (spr_created_at r));
  repo_has_uid := has_uid clusterrolebindings_table |}.

#[export] Instance role_repo : Repo Key Role := {|
  repo_meta := role_metadata;
  repo_key x := object_key (role_metadata x);
  repo_create := RoleRepository_create;
  repo_get k := RoleRepository_get k.1 k.2;
  repo_delete k := RoleRepository_delete k.1 k.2;
  repo_list ns := RoleRepository_list ns;
  repo_in ns k := in_namespace ns k ();
  repo_view := view roles_table (λ k r, role_of_row k r (stamp (spr_created_at r)));
  repo_wf := wf roles_table (λ r, stamped (spr_created_at r));
  repo_has_uid := has_uid roles_table |}.

#[export] Instance rolebinding_repo : Repo Key RoleBinding := {|
  repo_meta := rb_metadata;
  repo_key x := object_key (rb_metadata x);
  repo_create := RoleBindingRepository_create;
  repo_get k := RoleBindingRepository_get k.1 k.2;
  repo_delete k := RoleBindingRepository_delete k.1 k.2;
  repo_list ns := RoleBindingRepository_list ns;
  repo_in ns k := in_namespace ns k ();
  repo_view := view rolebindings_table (λ k r, rolebinding_of_row k r (stamp (spr_created_at r)));
  repo_wf := wf rolebindings_table (λ r, stamped (spr_created_at r));
  repo_has_uid := has_uid rolebindings_table |}.

End instances.

(** Reading a row whose timestamps parse. *)
Ltac run_conv :=
  intros;
  repeat match goal with
  | Hs : node_stamped _ |- _ => destruct Hs
  | Hs : stamped ?s |- context [parse_dt ?s] =>
      rewrite (bind_ok _ _ _ _ _ (run_parse_dt s _ Hs)); clear Hs
  end;
  reflexivity.

(** One repository is a store: [conv] is the lemma about its rows. *)
Tactic Notation "repo_get" uconstr(conv) :=
  erewrite (run_get _ _ _ _ conv) by done;
  match goal with |- context [match ?o with Some _ => _ | None => _ end] =>
    destruct o; eauto
  end.
Ltac repo_delete :=
  let w' := fresh "w'" in let E := fresh "E" in
  match goal with
  | Hq : quiet, Hwf : wf _ _ (w_db ?w) |- context [view ?tb ?f _] =>
    match goal with |- context [affected ?res ?name] =>
      match goal with |- context [delete_key tb ?key] =>
        destruct (run_delete tb f _ res name key w Hq Hwf) as (w' & E & ? & ?);
        exists w'; rewrite E; split; [|done];
        match goal with |- context [match ?o with Some _ => _ | None => _ end] =>
          destruct o; eauto
        end
      end
    end
  end.
Tactic Notation "repo_ok" reference(inst) reference(get) reference(create) reference(delete) uconstr(conv) :=
  let k := fresh "k" in let w := fresh "w" in let x := fresh "x" in
  let Hq := fresh "Hq" in let Hwf := fresh "Hwf" in let Hadm := fresh "Hadm" in
  split;
  [ intros k w Hq Hwf; try destruct k as [? ?]; cbn [repo_create repo_get repo_delete repo_list repo_in repo_view repo_wf repo_has_uid
         repo_meta repo_key inst fst snd] in *; unfold get; repo_get conv
  | intros k w Hq Hwf; try destruct k as [? ?]; cbn [repo_create repo_get repo_delete repo_list repo_in repo_view repo_wf repo_has_uid
         repo_meta repo_key inst fst snd] in *; unfold delete; repo_delete
  | intros x w Hq Hwf Hadm; unfold repo_admits in Hadm; cbn [repo_create repo_get repo_delete repo_list repo_in repo_view repo_wf repo_has_uid
         repo_meta repo_key inst fst snd] in *; unfold create; cbv zeta;
    eapply (run_create _ _ _ _ _ (λ u now old, _)); [done|done|done|..];
    [ intros; simpl; first [apply stamped_rfc3339|split; apply stamped_rfc3339]
    | intros; simpl; first [done | split; [by destruct select (node_stamped _)|]; apply stamped_rfc3339]
    | intros; unfold get, object_key; repo_get conv
    | done ]
  | intros k w Hq Hwf; cbn [repo_create repo_get repo_delete repo_list repo_in repo_view repo_wf repo_has_uid
         repo_meta repo_key inst fst snd] in *;
    first [ apply (run_list_perm _ _ _ _ conv (λ k', in_namespace k k' ())); done
          | apply (run_list_perm _ _ _ _ conv (λ k', true)); done
          | revert k w Hq Hwf ] ].

Lemma run_row_to_pod `{Extern, Env} {E} k r w :
  stamped (pr_created_at r) →
  row_to_pod (E:=E) (k, r) w = (Ok (pod_of_row k r (stamp (pr_created_at r))), w).
Proof. unfold row_to_pod. simpl. run_conv. Qed.
Lemma run_row_to_deployment `{Extern, Env} {E} k r w :
  stamped (dr_created_at r) →
  row_to_deployment (E:=E) (k, r) w = (Ok (deployment_of_row k r (stamp (dr_created_at r))), w).
Proof. unfold row_to_deployment. simpl. run_conv. Qed.
Lemma run_row_to_service `{Extern, Env} {E} k r w :
  stamped (svr_created_at r) →
  row_to_service (E:=E) (k, r) w = (Ok (service_of_row k r (stamp (svr_created_at r))), w).
Proof. unfold row_to_service. simpl. run_conv. Qed.
Lemma run_row_to_node `{Extern, Env} {E} b k r w :
  node_stamped r →
  row_to_node (E:=E) b (k, r) w =
    (Ok (node_of_row k r (stamp (nr_created_at r)) (stamp (nr_updated_at r)) b), w).
Proof. unfold row_to_node. simpl. run_conv. Qed.
Lemma run_row_to_statefulset `{Extern, Env} {E} k r w :
  stamped (sr_created_at r) →
  row_to_statefulset (E:=E) (k, r) w = (Ok (statefulset_of_row k r (stamp (sr_created_at r))), w).
Proof. unfold row_to_statefulset. simpl. run_conv. Qed.
Lemma run_row_to_daemonset `{Extern, Env} {E} k r w :
  stamped (dsr_created_at r) →
  row_to_daemonset (E:=E) (k, r) w = (Ok (daemonset_of_row k r (stamp (dsr_created_at r))), w).
Proof. unfold row_to_daemonset. simpl. run_conv. Qed.
Lemma run_row_to_serviceaccount `{Extern, Env} {E} k r w :
  stamped (spr_created_at r) →
  ServiceAccountRepository_row_to (E:=E) (k, r) w = (Ok (serviceaccount_of_row k r (stamp (spr_created_at r))), w).
Proof. unfold ServiceAccountRepository_row_to. simpl. run_conv. Qed.
Lemma run_row_to_secret `{Extern, Env} {E} k r w :
  stamped (secr_created_at r) →
  SecretRepository_row_to (E:=E) (k, r) w = (Ok (secret_of_row k r (stamp (secr_created_at r))), w).
Proof. unfold SecretRepository_row_to. simpl. run_conv. Qed.
Lemma run_row_to_configmap `{Extern, Env} {E} k r w :
  stamped (spr_created_at r) →
  ConfigMapRepository_row_to (E:=E) (k, r) w = (Ok (configmap_of_row k r (stamp (spr_created_at r))), w).
Proof. unfold ConfigMapRepository_row_to. simpl. run_conv. Qed.
Lemma run_row_to_clusterrole `{Extern, Env} {E} k r w :
  stamped (spr_created_at r) →
  ClusterRoleRepository_row_to (E:=E) (k, r) w = (Ok (clusterrole_of_row k r (stamp (spr_created_at r))), w).
Proof. unfold ClusterRoleRepository_row_to. simpl. run_conv. Qed.
Lemma run_row_to_clusterrolebinding `{Extern, Env} {E} k r w :
  stamped (spr_created_at r) →
  ClusterRoleBindingRepository_row_to (E:=E) (k, r) w = (Ok (clusterrolebinding_of_row k r (stamp (spr_created_at r))), w).
Proof. unfold ClusterRoleBindingRepository_row_to. simpl. run_conv. Qed.
Lemma run_row_to_role `{Extern, Env} {E} k r w :
  stamped (spr_created_at r) →
  RoleRepository_row_to (E:=E) (k, r) w = (Ok (role_of_row k r (stamp (spr_created_at r))), w).
Proof. unfold RoleRepository_row_to. simpl. run_conv. Qed.
Lemma run_row_to_rolebinding `{Extern, Env} {E} k r w :
  stamped (spr_created_at r) →
  RoleBindingRepository_row_to (E:=E) (k, r) w = (Ok (rolebinding_of_row k r (stamp (spr_created_at r))), w).
Proof. unfold RoleBindingRepository_row_to. simpl. run_conv. Qed.

Section instances_ok.
Context `{ExternOk, EnvOk}.

#[export] Instance deployment_repo_ok : RepoOk Key Deployment.
Proof.
  repo_ok deployment_repo DeploymentRepository_get DeploymentRepository_create DeploymentRepository_delete (run_row_to_deployment (E:=Error)).
Qed.
#[export] Instance service_repo_ok : RepoOk Key Service.
Proof.
  repo_ok service_repo ServiceRepository_get ServiceRepository_create ServiceRepository_delete (run_row_to_service (E:=Error)).
Qed.
#[export] Instance node_repo_ok : RepoOk string Node.
Proof.
  repo_ok node_repo NodeRepository_get NodeRepository_create NodeRepository_delete (run_row_to_node (E:=Error) true).
Qed.
#[export] Instance statefulset_repo_ok : RepoOk Key StatefulSet.
Proof.
  repo_ok statefulset_repo StatefulSetRepository_get StatefulSetRepository_create StatefulSetRepository_delete (run_row_to_statefulset (E:=Error)).
Qed.
#[export] Instance daemonset_repo_ok : RepoOk Key DaemonSet.
Proof.
  repo_ok daemonset_repo DaemonSetRepository_get DaemonSetRepository_create DaemonSetRepository_delete (run_row_to_daemonset (E:=Error)).
Qed.
#[export] Instance serviceaccount_repo_ok : RepoOk Key ServiceAccount.
Proof.
  repo_ok serviceaccount_repo ServiceAccountRepository_get ServiceAccountRepository_create ServiceAccountRepository_delete (run_row_to_serviceaccount (E:=Error)).
Qed.
#[export] Instance secret_repo_ok : RepoOk Key Secret.
Proof.
  repo_ok secret_repo SecretRepository_get SecretRepository_create SecretRepository_delete (run_row_to_secret (E:=Error)).
Qed.
#[export] Instance configmap_repo_ok : RepoOk Key ConfigMap.
Proof.
  repo_ok configmap_repo ConfigMapRepository_get ConfigMapRepository_create ConfigMapRepository_delete (run_row_to_configmap (E:=Error)).
Qed.
#[export] Instance clusterrole_repo_ok : RepoOk string ClusterRole.
Proof.
  repo_ok clusterrole_repo ClusterRoleRepository_get ClusterRoleRepository_create ClusterRoleRepository_delete (run_row_to_clusterrole (E:=Error)).
Qed.
#[export] Instance clusterrolebinding_repo_ok : RepoOk string ClusterRoleBinding.
Proof.
  repo_ok clusterrolebinding_repo ClusterRoleBindingRepository_get ClusterRoleBindingRepository_create ClusterRoleBindingRepository_delete (run_row_to_clusterrolebinding (E:=Error)).
Qed.
#[export] Instance role_repo_ok : RepoOk Key Role.
Proof.
  repo_ok role_repo RoleRepository_get RoleRepository_create RoleRepository_delete (run_row_to_role (E:=Error)).
Qed.
#[export] Instance rolebinding_repo_ok : RepoOk Key RoleBinding.
Proof.
  repo_ok rolebinding_repo RoleBindingRepository_get RoleBindingRepository_create RoleBindingRepository_delete (run_row_to_rolebinding (E:=Error)).
Qed.
End instances_ok.

(** ** Nodes: the ones the scheduler and the controllers use *)

(** The rows marked ready, by name. *)
Definition ready_names (d : Db) : list string :=
  (filter (λ kr, ready_row kr.1 kr.2 = true) (map_to_list (db_nodes d))).*1.

Lemma run_list_ready `{ExternOk, EnvOk} w :
  quiet → repo_wf Node (w_db w) → ∃ xs,
  NodeRepository_list_ready w = (Ok xs, count_stmt w) ∧
  (λ n, ObjectMeta_name (node_metadata n)) <$> xs ≡ₚ ready_names (w_db w).
Proof.
  intros Hq Hwf.
  destruct (run_list nodes_table _ _ _ (run_row_to_node (E:=Error) false) ready_row true
    (λ r, Some (nr_created_at r)) w Hq Hwf) as (rows & xs & E & Hrows & ->).
  eexists. split; [exact E|]. rewrite <- list_fmap_compose, Hrows, env_order_perm.
  apply reflexive_eq, list_fmap_ext. done.
Qed.

(** ** Pods: the extra selector of [list] and the partial updates *)

Section pods_ok.
Context `{ExternOk, EnvOk}.

Abbreviation pods := (repo_view Pod).
Abbreviation pods_wf := (repo_wf Pod).

Lemma pod_selected_none (l : list Pod) : filter (λ p, pod_selected None p = true) l = l.
Proof. by apply filter_always. Qed.

(** The store only depends on its table. *)
Lemma pods_same d d' : db_pods d' = db_pods d → pods d' = pods d.
Proof. intros E. cbn [repo_view pod_repo]. unfold view. cbn [tb_get pods_table]. by rewrite E. Qed.
Lemma pods_wf_same d d' : db_pods d' = db_pods d → pods_wf d → pods_wf d'.
Proof. intros E. cbn [repo_wf pod_repo]. unfold wf. cbn [tb_get pods_table]. by rewrite E. Qed.

(** [list] in full: the selected pods, newest first. *)
Lemma run_pod_list ns sel w :
  quiet → pods_wf (w_db w) → ∃ xs,
  PodRepository_list ns sel w = (Ok xs, count_stmt w) ∧
  xs ≡ₚ (filter (λ kx, in_namespace ns kx.1 () = true ∧ pod_selected sel kx.2 = true)
           (map_to_list (pods (w_db w)))).*2.
Proof.
  intros Hq Hwf.
  destruct (run_list_perm _ _ _ _ (run_row_to_pod (E:=Error)) (λ k, in_namespace ns k ())
    true (λ r, Some (pr_created_at r)) w Hq Hwf) as (xs & E & Hxs).
  exists (filter (λ p, pod_selected sel p = true) xs). split.
  - unfold PodRepository_list. rewrite (bind_ok _ _ _ _ _ (run_select_where _ _ _ _ _ Hq)).
    rewrite (bind_ok _ _ _ _ _ (run_select_where _ _ _ _ _ Hq)) in E.
    by rewrite (bind_ok _ _ _ _ _ E).
  - rewrite Hxs, filter_of_fmap, list_filter_filter. f_equiv.
    apply reflexive_eq, list_filter_iff. intros; simpl; tauto.
Qed.

#[export] Instance pod_repo_ok : RepoOk Key Pod.
Proof.
  repo_ok pod_repo PodRepository_get PodRepository_create PodRepository_delete
    (run_row_to_pod (E:=Error)).
  intros ns w Hq Hwf. destruct (run_pod_list ns None w Hq Hwf) as (xs & E & Hxs).
  exists xs. split; [done|]. rewrite Hxs. f_equiv.
  apply reflexive_eq, list_filter_iff. intros; simpl; tauto.
Qed.

(** [bind_to_node] changes the node name of one pod. *)
Definition bound_to (node_name : string) (p : Pod) : Pod :=
  Pod_with_spec (PodSpec_with_node_name (Some node_name) (pod_spec p)) p.

Lemma run_bind_to_node ns name node_name w :
  quiet → pods_wf (w_db w) → ∃ w',
  PodRepository_bind_to_node ns name node_name w = (Ok (), w') ∧
  pods (w_db w') = alter (bound_to node_name) (ns, name) (pods (w_db w)) ∧
  pods_wf (w_db w') ∧ w_bus w' = w_bus w ∧ ∃ t, w_db w' = set_pods t (w_db w).
Proof.
  intros Hq Hwf. eexists. split; [|split; [|split; [|split]]].
  - unfold PodRepository_bind_to_node. erewrite (bind_ok now_str) by reflexivity.
    by apply run_update_key.
  - apply view_alter. intros r. unfold pod_of_row, bound_to. simpl.
    by destruct (pr_node_name r).
  - by apply wf_alter.
  - done.
  - by eexists.
Qed.

(** [update_status] replaces the stored part of one pod's status. *)
Definition stored_status (s : PodStatus) : PodStatus :=
  mk_PodStatus (pstat_phase s) None (pstat_pod_ip s) None (pstat_host_ip s) None
    (pstat_container_statuses s) None None.
Definition with_stored_status (s : PodStatus) (p : Pod) : Pod :=
  Pod_with_status (Some (stored_status s)) p.

Lemma json_from_opt_str {T} `{JsonOk T, !JsonSome T, !JsonPlain T} (o : option T) :
  json_from_opt (json_str o) = o.
Proof.
  unfold json_from_opt, json_str.
  destruct (str_eqb_reflect (json_print (to_value o)) "") as [E|_];
    [by apply json_print_nonempty in E|].
  destruct (str_eqb_reflect (json_print (to_value o)) "null") as [E|Hn]; simpl.
  - apply json_print_is_null in E. destruct o as [x|]; [|done].
    by apply (to_value_not_null x) in E.
  - rewrite json_parse_print by (destruct o; [apply to_value_plain|done]).
    destruct o as [x|]; [apply from_to|]. by destruct Hn; apply json_print_is_null.
Qed.

Lemma json_from_str {T} `{JsonOk T, !JsonPlain T} (d x : T) : json_from d (json_str x) = x.
Proof.
  unfold json_from, json_str.
  destruct (str_eqb_reflect (json_print (to_value x)) "") as [E|_];
    [by apply json_print_nonempty in E|].
  rewrite json_parse_print by apply to_value_plain. simpl. by rewrite from_to.
Qed.

Lemma phase_of_column_to_string p : phase_of_column (PodPhase_to_string p) = p.
Proof. by destruct p. Qed.

Lemma run_update_status ns name status w :
  quiet → pods_wf (w_db w) → ∃ w',
  PodRepository_update_status ns name status w = (Ok (), w') ∧
  pods (w_db w') = alter (with_stored_status status) (ns, name) (pods (w_db w)) ∧
  pods_wf (w_db w') ∧ w_bus w' = w_bus w ∧ ∃ t, w_db w' = set_pods t (w_db w).
Proof.
  intros Hq Hwf. eexists. split; [|split; [|split; [|split]]].
  - unfold PodRepository_update_status. erewrite (bind_ok now_str) by reflexivity.
    by apply run_update_key.
  - apply view_alter. intros r. unfold pod_of_row, with_stored_status, stored_status. simpl.
    by rewrite phase_of_column_to_string, json_from_opt_str.
  - by apply wf_alter.
  - done.
  - by eexists.
Qed.

(** Status updates and deletions draw no identifier and put none in use. *)
Lemma pod_update_status_uids ns name status w :
  quiet →
  let w' := (PodRepository_update_status ns name status w).2 in
  w_uuids w' = w_uuids w ∧
  ∀ x, repo_has_uid Pod x (w_db w') → repo_has_uid Pod x (w_db w).
Proof.
  intros Hq. unfold PodRepository_update_status. erewrite (bind_ok now_str) by reflexivity.
  rewrite run_update_key by done. split; [done|]. intros x. by apply has_uid_alter.
Qed.

Lemma pod_delete_uids ns name w :
  quiet →
  let w' := (PodRepository_delete ns name w).2 in
  w_uuids w' = w_uuids w ∧
  ∀ x, repo_has_uid Pod x (w_db w') → repo_has_uid Pod x (w_db w).
Proof.
  intros Hq. unfold PodRepository_delete. erewrite bind_ok by by apply run_delete_key.
  destruct (tb_get pods_table (w_db w) !! (ns, name)); (split; [done|]);
    intros x; apply (has_uid_delete pods_table).
Qed.

(** What the store keeps of a pod that is written with a status: the metadata
    without the resource version, the specification, and of the status only
    phase, addresses and container statuses. *)
Definition stored_pod (uid : option Uuid) (created : option DateTime) (pod : Pod)
    (s : PodStatus) : Pod :=
  let meta := pod_metadata pod in
  {| pod_type_meta := mk_TypeMeta (Some "v1") (Some "Pod");
     pod_metadata :=
       mk_ObjectMeta (Some (ObjectMeta_name meta)) (Some (ObjectMeta_namespace meta)) uid None
         (om_labels meta) (om_annotations meta) created (om_owner_references meta);
     pod_spec := pod_spec pod;
     pod_status := Some (stored_status s) |}.

(** Identity of the stored object: what the key's earlier object had, or what
    is chosen now. *)
Definition stored_over (old : option Pod) (u : Uuid) (t : DateTime) (pod : Pod) (s : PodStatus)
    : Pod :=
  match old with
  | Some q =>
      stored_pod (om_uid (pod_metadata q)) (om_creation_timestamp (pod_metadata q)) pod s
  | None => stored_pod (Some u) (Some t) pod s
  end.

Lemma node_name_column (spec : PodSpec) :
  match ps_node_name spec with
  | Some node => PodSpec_with_node_name (Some node) spec
  | None => spec
  end = spec.
Proof. by destruct spec as [? ? ? [?|] ? ? ? ?]. Qed.

Lemma pod_of_pod_row pod s uid created now t :
  pod_status pod = Some s →
  pod_of_row (object_key (pod_metadata pod)) (pod_row pod uid created now) t =
    stored_pod (Some (parse_uid uid)) (Some t) pod s.
Proof.
  intros Hs. unfold pod_of_row, pod_row, stored_pod, row_metadata, object_key. rewrite Hs. simpl.
  rewrite !json_from_opt_str, json_from_str, phase_of_column_to_string, node_name_column.
  done.
Qed.

Lemma run_pod_create pod s w :
  quiet → pods_wf (w_db w) → pod_status pod = Some s → repo_admits pod w →
  let key := object_key (pod_metadata pod) in
  let y := stored_over (pods (w_db w) !! key) (chosen_uid (pod_metadata pod) w)
             (env_now (w_clock w)) pod s in
  ∃ w', PodRepository_create pod w = (Ok y, w') ∧
    pods (w_db w') = <[key:=y]> (pods (w_db w)) ∧ pods_wf (w_db w') ∧
    w_bus w' = w_bus w ∧ (∃ t, w_db w' = set_pods t (w_db w)) ∧
    w_uuids w' = match om_uid (pod_metadata pod) with
                 | Some _ => w_uuids w
                 | None => S (w_uuids w)
                 end ∧
    ∀ x, repo_has_uid Pod x (w_db w') →
      repo_has_uid Pod x (w_db w) ∨ x = uuid_to_string (chosen_uid (pod_metadata pod) w).
Proof.
  intros Hq Hwf Hs Hadm key y. unfold repo_admits in Hadm.
  cbn [repo_view repo_wf repo_has_uid repo_meta repo_key pod_repo] in *.
  destruct (run_create_full pods_table
    (λ k r, pod_of_row k r (stamp (pr_created_at r))) (λ r, stamped (pr_created_at r))
    (om_uid (pod_metadata pod)) (λ u now, pod_row pod (uuid_to_string u) now now)
    (λ _ now old, pod_row pod (pr_uid old) (pr_created_at old) now) key
    (PodRepository_get key.1 key.2) w Hq Hwf) as (w' & E & Hdb & Hg & Hbus & Huu).
  - done.
  - intros. apply stamped_rfc3339.
  - done.
  - intros w0 Hwf0. unfold PodRepository_get, key, object_key. simpl.
    repo_get (run_row_to_pod (E:=Error)).
  - done.
  - set (r := match tb_get pods_table (w_db w) !! key with Some _ => _ | None => _ end) in *.
    assert (Hy : pod_of_row key r (stamp (pr_created_at r)) = y).
    { unfold y, r, stored_over. rewrite lookup_view.
      destruct (tb_get pods_table (w_db w) !! key) as [old|]; simpl; unfold key;
        rewrite (pod_of_pod_row _ s) by done; [done|].
      rewrite stamp_rfc3339. unfold parse_uid. by rewrite uuid_round. }
    rewrite Hy in E. exists w'. rewrite Hdb, view_insert, Hy.
    split; [exact E|]. split; [done|]. split; [by apply wf_insert|].
    split; [done|]. split; [by eexists|]. split; [done|].
    intros x [Hx|Hx]%has_uid_insert; [by left|]. revert Hx. unfold r.
    destruct (tb_get pods_table (w_db w) !! key) as [old|] eqn:Hold; [|by right].
    intros <-. left. apply uid_taken_spec. by exists key, old.
Qed.

(** Every stored pod carries its key. *)
Lemma pods_named d k p :
  pods d !! k = Some p →
  om_name (pod_metadata p) = Some k.2 ∧ om_namespace (pod_metadata p) = Some k.1 ∧
  is_Some (pod_status p).
Proof.
  cbn [repo_view pod_repo]. rewrite lookup_view. intros (r & _ & ->)%fmap_Some_1. simpl. eauto.
Qed.
Lemma pods_keyed d k p : pods d !! k = Some p → object_key (pod_metadata p) = k.
Proof.
  intros (Hn & Hns & _)%pods_named. unfold object_key, ObjectMeta_name, ObjectMeta_namespace.
  rewrite Hn, Hns. by destruct k.
Qed.
End pods_ok.
