(* ===== verification/Samples.v ===== *)
(** * Concrete objects and worlds

    Small objects, and a world in which one pod is stored, at which the
    theorems with hypotheses are applied. *)
From S2P Require Import Prelude RustStd Json External Models Wire Error Bus World Repository.
From S2P Require Import RepositoryOk Reference RefEnv.

Local Open Scope Z_scope.

(** The 128-bit identifier [n]; far from those [ref_env] draws. *)
Definition sample_uuid (n : Z) : Uuid := default Uuid_nil (checked n).

Definition app_labels : gmap string string := {["app" := "web"]}.

Definition sample_meta (name : string) (uid : Uuid) (owners : option (list OwnerReference))
    : ObjectMeta :=
  mk_ObjectMeta (Some name) (Some "default") (Some uid) None (Some app_labels) None None owners.

Definition sample_template : PodTemplateSpec :=
  mk_PodTemplateSpec (mk_ObjectMeta None None None None (Some app_labels) None None None)
    PodSpec_default.
Definition sample_selector : LabelSelector := mk_LabelSelector (Some app_labels) None.

Definition sample_status (phase : PodPhase) (ip : option string) : PodStatus :=
  mk_PodStatus phase None ip None None None None None None.

Definition sample_pod (name : string) (uid : Uuid) (phase : PodPhase) (node ip : option string)
    (owners : option (list OwnerReference)) : Pod :=
  Pod_with_metadata (sample_meta name uid owners)
    (Pod_with_spec (PodSpec_with_node_name node PodSpec_default)
      (Pod_with_status (Some (sample_status phase ip)) Pod_default)).

Lemma no_uid_in_use x : ¬ repo_has_uid Pod x empty_db.
Proof. intros (k & r & Hk & _)%uid_taken_spec. discriminate Hk. Qed.

Lemma start_wf : repo_wf Pod (w_db start).
Proof. apply map_Forall_empty. Qed.

(** A world in which one pod is stored. *)
Lemma one_pod_world pod s u :
  pod_status pod = Some s → om_uid (pod_metadata pod) = Some u → ∃ w,
  repo_wf Pod (w_db w) ∧ w_uuids w = 0%nat ∧
  repo_view Pod (w_db w) =
    {[object_key (pod_metadata pod) := stored_pod (Some u) (Some (ref_now 0)) pod s]} ∧
  (∀ x, repo_has_uid Pod x (w_db w) → x = uuid_to_string u) ∧
  ∃ t, w_db w = set_pods t empty_db.
Proof.
  intros Hs Hu.
  destruct (run_pod_create pod s start ref_quiet) as (w & _ & Hv & Hwf & _ & Hdb & Huu & Hid).
  - apply map_Forall_empty.
  - done.
  - right. apply no_uid_in_use.
  - exists w. split; [done|]. split; [by rewrite Huu, Hu|]. split; [|split; [|done]].
    + rewrite Hv. unfold chosen_uid. by rewrite Hu.
    + intros x [Hx|Hx]%Hid; [by apply no_uid_in_use in Hx|].
      rewrite Hx. unfold chosen_uid. by rewrite Hu.
Qed.
