(* ===== verification/Recorder.v ===== *)
(** * The event recorder ([src/src/server/controller.rs], from "Events")

    [emit_event], which the controllers and the scheduler call to record what
    they did, and the references to the object an event is about. *)
From S2P Require Import Prelude RustStd Json External Models Wire Error Bus World Repository.

Section recorder.
Context `{Extern, Env}.

(** [Uuid::new_v4().as_u128() & 0xFFFFFFFF] in hexadecimal. *)
Definition event_suffix (u : Uuid) : string := lower_hex (Z.land (val u) 4294967295).

Definition emitted_event (involved : ObjectReference) (namespace : string) (typ : EventType)
    (reason message component : string) (now : DateTime) (suffix uid : Uuid) : Event :=
  let obj_name := default "" (objref_name involved) in
  {| ev_type_meta := mk_TypeMeta (Some "v1") (Some "Event");
     ev_metadata :=
       {| om_name := Some ((if str_eqb obj_name "" then "object" else obj_name) +:+ "." +:+
                           event_suffix suffix);
          om_namespace := Some namespace;
          om_uid := Some uid;
          om_resource_version := None;
          om_labels := None;
          om_annotations := None;
          om_creation_timestamp := None;
          om_owner_references := None |};
     ev_involved_object := involved;
     ev_reason := Some reason;
     ev_message := Some message;
     ev_source := Some (mk_EventSource (Some component) None);
     ev_first_timestamp := Some now;
     ev_last_timestamp := Some now;
     ev_event_time := Some now;
     ev_count := Some (as_i32 1);
     ev_event_type := Some typ;
     ev_action := None;
     ev_reporting_controller := Some ("superkube/" +:+ component);
     ev_reporting_instance := None |}.

(** Fire and forget: a failed write is logged, never returned. *)
Definition emit_event {E} (involved : ObjectReference) (namespace : string) (typ : EventType)
    (reason message component : string) : M E () :=
  now ← now;
  suffix ← new_v4;
  uid ← new_v4;
  attempt (EventRepository_create
    (emitted_event involved namespace typ reason message component now suffix uid));;
  mret ().

Definition object_ref (api_version kind : string) (m : ObjectMeta) : ObjectReference :=
  {| objref_api_version := Some api_version;
     objref_kind := Some kind;
     objref_name := om_name m;
     objref_namespace := om_namespace m;
     objref_uid := om_uid m;
     objref_resource_version := None;
     objref_field_path := None |}.

Definition pod_ref (pod : Pod) : ObjectReference := object_ref "v1" "Pod" (pod_metadata pod).
Definition deployment_ref (d : Deployment) : ObjectReference :=
  object_ref "apps/v1" "Deployment" (dep_metadata d).
Definition statefulset_ref (s : StatefulSet) : ObjectReference :=
  object_ref "apps/v1" "StatefulSet" (ss_metadata s).
Definition daemonset_ref (d : DaemonSet) : ObjectReference :=
  object_ref "apps/v1" "DaemonSet" (ds_metadata d).
End recorder.
