(* ===== verification/Frame.v ===== *)
(** * What a computation leaves alone

    [preserves g m]: running [m] from any world, whatever statements fail,
    leaves the observation [g] of the world as it was.  The lemmas follow the
    structure of a computation; [frame] applies them. *)
From S2P Require Import Prelude RustStd Json External Models Wire Error Bus World Repository.
From S2P Require Import Recorder.

Section frame.
Context {S E G : Type} (g : S → G).

Definition preserves {A} (m : ST S E A) : Prop := ∀ s, g (m s).2 = g s.

Lemma preserves_ret {A} (a : A) : preserves (mret a).
Proof. done. Qed.
Lemma preserves_throw {A} e : preserves (throw (A:=A) e).
Proof. done. Qed.
Lemma preserves_of_result {A} r : preserves (of_result (A:=A) r).
Proof. done. Qed.
Lemma preserves_bind {A B} (m : ST S E A) (f : A → ST S E B) :
  preserves m → (∀ a, preserves (f a)) → preserves (m ≫= f).
Proof.
  intros Hm Hf s. specialize (Hm s). unfold mbind, st_bind.
  destruct (m s) as [[a|e] s1]; simpl in *; [by rewrite (Hf a s1)|done].
Qed.
Lemma preserves_mapM {A B} (f : A → ST S E B) xs :
  (∀ x, preserves (f x)) → preserves (mapM f xs).
Proof.
  intros Hf. induction xs as [|x xs IH]; [apply preserves_ret|].
  simpl. apply preserves_bind; [apply Hf|]. intros y.
  apply preserves_bind; [done|]. intros ys. apply preserves_ret.
Qed.
End frame.

Lemma preserves_attempt {S E F G} (g : S → G) {A} (m : ST S F A) :
  preserves g m → preserves (E:=E) g (attempt m).
Proof. intros Hm s. specialize (Hm s). unfold attempt. by destruct (m s). Qed.

Lemma preserves_lift_err {S E F G} (g : S → G) (f : E → F) {A} (m : ST S E A) :
  preserves g m → preserves g (lift_err f m).
Proof. intros Hm s. specialize (Hm s). unfold lift_err. by destruct (m s). Qed.

(** Observations of the database and the bus. *)
Section world.
Context `{Extern, Env} {E G : Type} (g : Db → Bus → G).

Definition seen (w : World) : G := g (w_db w) (w_bus w).

Lemma preserves_now : preserves (E:=E) seen now.
Proof. done. Qed.
Lemma preserves_new_v4 : preserves (E:=E) seen new_v4.
Proof. done. Qed.
Lemma preserves_now_str : preserves (E:=E) seen now_str.
Proof. done. Qed.
Lemma preserves_parse_dt s : preserves (E:=E) seen (parse_dt s).
Proof. unfold parse_dt. by destruct (parse_from_rfc3339 s). Qed.
Lemma preserves_uid_or_new o : preserves (E:=E) seen (uid_or_new o).
Proof. by destruct o. Qed.
Lemma preserves_found {A} res name (o : option A) : preserves seen (found res name o).
Proof. by destruct o. Qed.
Lemma preserves_affected res name n : preserves seen (affected res name n).
Proof. by destruct n. Qed.
Lemma preserves_sql {A} (stmt : nat → Db → result string (A * Db)) :
  (∀ n d a d', stmt n d = Ok (a, d') → ∀ b, g d' b = g d b) → preserves seen (sql stmt).
Proof.
  intros Hs w. unfold seen, sql, lift_err, run_stmt.
  destruct (env_fault (w_stmts w)) as [[msg|msg]|]; [done|..];
    simpl; destruct (stmt (w_stmts w) (w_db w)) as [[a d]|e] eqn:E'; simpl;
    eauto using Hs.
Qed.

Context {K R : Type} `{Countable K} (tb : table K R).

Lemma preserves_select_one k : preserves seen (sql (select_one tb k)).
Proof. apply preserves_sql. by intros n d a d' [= <- <-]. Qed.
Lemma preserves_select_where cond desc key :
  preserves seen (sql (select_where tb cond desc key)).
Proof. apply preserves_sql. by intros n d a d' [= <- <-]. Qed.
Lemma preserves_select_count cond : preserves seen (sql (select_count tb cond)).
Proof. apply preserves_sql. by intros n d a d' [= <- <-]. Qed.

(** A statement that writes one table preserves what does not look at it. *)
Hypothesis blind : ∀ t d b, g (tb_set tb t d) b = g d b.

Lemma preserves_upsert k row merge : preserves seen (sql (upsert tb k row merge)).
Proof.
  apply preserves_sql. intros n d [] d' E' b. unfold upsert in E'.
  destruct (tb_get tb d !! k) as [old|].
  - destruct (merge old) as [row'|]; simplify_eq/=; apply blind.
  - destruct (uid_taken _ _ _); simplify_eq/=; apply blind.
Qed.
Lemma preserves_update_key k f : preserves seen (sql (update_key tb k f)).
Proof. apply preserves_sql. intros n d a d' [= <- <-]. apply blind. Qed.
Lemma preserves_delete_key k : preserves seen (sql (delete_key tb k)).
Proof. apply preserves_sql. intros n d a d' [= <- <-]. apply blind. Qed.
End world.

(** The count of identifiers drawn is only moved by [new_v4]. *)
Section uuids.
Context `{Extern, Env} {E : Type}.

Lemma uuids_now : preserves (E:=E) w_uuids now.
Proof. done. Qed.
Lemma uuids_now_str : preserves (E:=E) w_uuids now_str.
Proof. done. Qed.
Lemma uuids_parse_dt s : preserves (E:=E) w_uuids (parse_dt s).
Proof. unfold parse_dt. by destruct (parse_from_rfc3339 s). Qed.
Lemma uuids_found {A} res name (o : option A) : preserves w_uuids (found res name o).
Proof. by destruct o. Qed.
Lemma uuids_sql {A} (stmt : nat → Db → result string (A * Db)) : preserves w_uuids (sql stmt).
Proof.
  intros w. unfold sql, lift_err, run_stmt.
  destruct (env_fault (w_stmts w)) as [[msg|msg]|]; [done|..];
    simpl; by destruct (stmt (w_stmts w) (w_db w)) as [[a d]|e].
Qed.
End uuids.

Create HintDb frame.
#[export] Hint Resolve uuids_now uuids_now_str uuids_parse_dt uuids_found uuids_sql : frame.
#[export] Hint Resolve preserves_ret preserves_throw preserves_of_result preserves_now
  preserves_new_v4 preserves_now_str preserves_parse_dt preserves_uid_or_new preserves_found
  preserves_affected preserves_select_one preserves_select_where preserves_select_count : frame.

(** Walk through a computation; what is left are the writes. *)
Ltac frame_step :=
  lazymatch goal with
  | |- ∀ _, _ => intro
  | |- preserves _ (mbind _ _) => apply preserves_bind
  | |- preserves _ (attempt _) => apply preserves_attempt
  | |- preserves _ (lift_err _ _) => apply preserves_lift_err
  | |- preserves _ (mapM _ _) => apply preserves_mapM
  | |- preserves w_uuids (sql _) => apply uuids_sql
  | |- preserves _ (sql (upsert _ _ _ _)) => apply preserves_upsert; reflexivity
  | |- preserves _ (sql (update_key _ _ _)) => apply preserves_update_key; reflexivity
  | |- preserves _ (sql (delete_key _ _)) => apply preserves_delete_key; reflexivity
  | |- preserves _ (match ?x with _ => _ end) => destruct x
  | |- preserves _ _ => solve [eauto 1 with frame]
  end.
Ltac frame := repeat frame_step.

Section repositories.
Context `{Extern, Env}.

(** Recording an event only writes the events table. *)
Lemma emit_event_frame {E G} (g : Db → Bus → G) involved ns typ reason message component :
  (∀ t d b, g (set_events t d) b = g d b) →
  preserves (E:=E) (seen g) (emit_event involved ns typ reason message component).
Proof.
  intros Hg. unfold emit_event, EventRepository_create, EventRepository_get, row_to_event.
  frame. apply preserves_upsert, Hg.
Qed.

Lemma emit_event_Ok {E} involved ns typ reason message component w :
  ∃ w', emit_event (E:=E) involved ns typ reason message component w = (Ok (), w').
Proof.
  unfold emit_event. unfold mbind, st_bind, now, new_v4, attempt.
  destruct (EventRepository_create _ _) as [r w']. by eexists.
Qed.

(** It draws two identifiers: for the event's name and for its row. *)
Lemma emit_event_uuids {E} involved ns typ reason message component w :
  w_uuids (emit_event (E:=E) involved ns typ reason message component w).2 = w_uuids w + 2.
Proof.
  unfold emit_event. unfold mbind at 1 2 3 4, st_bind at 1 2 3 4, now, new_v4. simpl.
  set (e := emitted_event _ _ _ _ _ _ _ _ _).
  assert (Hp : preserves (E:=E) w_uuids (attempt (EventRepository_create e))).
  { unfold EventRepository_create, EventRepository_get, row_to_event. subst e. simpl.
    apply preserves_attempt. apply preserves_bind; [done|]. frame. }
  specialize (Hp (tick_uuid (tick_uuid (tick_clock w)))).
  destruct (attempt _ _) as [[r|r] w']; simpl in *; rewrite Hp; simpl; lia.
Qed.
End repositories.
