(* ===== verification/Invariant.v ===== *)
(** * The invariant of the database

    Every row of every table is readable (its timestamps and its identifier
    parse) and no two objects of a table share an identifier.  Whatever the
    server runs, and whatever statements fail on the way, this holds again
    after it: the walk over a computation is [keeps] of Prelude.v, one lemma
    per kind of statement, and [kept] applies them. *)
From S2P Require Import Prelude RustStd Text Json External Models Wire Error Bus World Repository RepositoryOk.
From S2P Require Import Recorder.

(** ** Tables *)

Section table.
Context `{Extern} {K R : Type} `{Countable K} (tb : table K R) (good : R → Prop).

Definition uids_unique (t : gmap K R) : Prop :=
  ∀ k1 k2 r1 r2, t !! k1 = Some r1 → t !! k2 = Some r2 → tb_uid tb r1 = tb_uid tb r2 → k1 = k2.
Definition table_inv (t : gmap K R) : Prop := map_Forall (λ _ r, good r) t ∧ uids_unique t.

Lemma table_inv_delete k t : table_inv t → table_inv (delete k t).
Proof.
  intros [Hg Hu]. split; [by apply map_Forall_delete|].
  intros k1 k2 r1 r2 [_ H1]%lookup_delete_Some [_ H2]%lookup_delete_Some. by apply Hu.
Qed.
Lemma table_inv_insert k r t :
  table_inv t → good r →
  (∀ k' r', t !! k' = Some r' → tb_uid tb r' = tb_uid tb r → k' = k) →
  table_inv (<[k := r]> t).
Proof.
  intros [Hg Hu] Hr Hfree. split; [by apply map_Forall_insert_2|].
  intros k1 k2 r1 r2 [[<- <-]|[_ H1]]%lookup_insert_Some [[<- <-]|[_ H2]]%lookup_insert_Some He;
    [done|symmetry; by eapply Hfree|by eapply Hfree|by eapply Hu].
Qed.
Lemma table_inv_alter k f t :
  table_inv t → (∀ r, good r → good (f r) ∧ tb_uid tb (f r) = tb_uid tb r) →
  table_inv (alter f k t).
Proof.
  intros [Hg Hu] Hf. destruct (t !! k) as [r|] eqn:Hk.
  2:{ by rewrite alter_id by congruence. }
  assert (alter f k t = <[k := f r]> t) as ->.
  { apply map_eq. intros k'. destruct (decide (k' = k)) as [->|Hne].
    - by rewrite lookup_alter_eq, lookup_insert_eq, Hk.
    - by rewrite lookup_alter_ne, lookup_insert_ne. }
  destruct (Hf r (Hg k r Hk)) as [Hgood Huid].
  apply table_inv_insert; [done|done|]. rewrite Huid. intros k' r' Hk' He. by eapply Hu.
Qed.
End table.

(** A row whose creation time and identifier parse. *)
Definition row_good `{Extern} {K R : Type} `{Countable K} (tb : table K R) (r : R) : Prop :=
  stamped (tb_created tb r) ∧ is_Some (uuid_parse_str (tb_uid tb r)).
Definition node_good `{Extern} (r : NodeRow) : Prop :=
  row_good nodes_table r ∧ stamped (nr_updated_at r).

(** ** The database *)

Record db_inv `{Extern} (d : Db) : Prop := {
  inv_pods : table_inv pods_table (row_good pods_table) (db_pods d);
  inv_nodes : table_inv nodes_table node_good (db_nodes d);
  inv_deployments : table_inv deployments_table (row_good deployments_table) (db_deployments d);
  inv_services : table_inv services_table (row_good services_table) (db_services d);
  inv_endpoints : table_inv endpoints_table (row_good endpoints_table) (db_endpoints d);
  inv_namespaces : table_inv namespaces_table (row_good namespaces_table) (db_namespaces d);
  inv_events : table_inv events_table (row_good events_table) (db_events d);
  inv_statefulsets : table_inv statefulsets_table (row_good statefulsets_table) (db_statefulsets d);
  inv_daemonsets : table_inv daemonsets_table (row_good daemonsets_table) (db_daemonsets d);
  inv_serviceaccounts :
    table_inv serviceaccounts_table (row_good serviceaccounts_table) (db_serviceaccounts d);
  inv_secrets : table_inv secrets_table (row_good secrets_table) (db_secrets d);
  inv_configmaps : table_inv configmaps_table (row_good configmaps_table) (db_configmaps d);
  inv_clusterroles : table_inv clusterroles_table (row_good clusterroles_table) (db_clusterroles d);
  inv_clusterrolebindings :
    table_inv clusterrolebindings_table (row_good clusterrolebindings_table) (db_clusterrolebindings d);
  inv_roles : table_inv roles_table (row_good roles_table) (db_roles d);
  inv_rolebindings : table_inv rolebindings_table (row_good rolebindings_table) (db_rolebindings d);
}.

(** A table under the invariant, and what its good rows are. *)
Class Guarded `{Extern} {K R : Type} `{Countable K} (tb : table K R) (good : R → Prop) : Prop := {
  guarded_get d : db_inv d → table_inv tb good (tb_get tb d);
  guarded_set d t : db_inv d → table_inv tb good t → db_inv (tb_set tb t d);
}.

Section guarded.
Context `{Extern}.
Ltac guarded proj := split; [intros d Hd; exact (proj d Hd)|intros d t [] Ht; constructor; assumption].
#[export] Instance guarded_pods : Guarded pods_table (row_good pods_table).
Proof. guarded inv_pods. Qed.
#[export] Instance guarded_nodes : Guarded nodes_table node_good.
Proof. guarded inv_nodes. Qed.
#[export] Instance guarded_deployments : Guarded deployments_table (row_good deployments_table).
Proof. guarded inv_deployments. Qed.
#[export] Instance guarded_services : Guarded services_table (row_good services_table).
Proof. guarded inv_services. Qed.
#[export] Instance guarded_endpoints : Guarded endpoints_table (row_good endpoints_table).
Proof. guarded inv_endpoints. Qed.
#[export] Instance guarded_namespaces : Guarded namespaces_table (row_good namespaces_table).
Proof. guarded inv_namespaces. Qed.
#[export] Instance guarded_events : Guarded events_table (row_good events_table).
Proof. guarded inv_events. Qed.
#[export] Instance guarded_statefulsets : Guarded statefulsets_table (row_good statefulsets_table).
Proof. guarded inv_statefulsets. Qed.
#[export] Instance guarded_daemonsets : Guarded daemonsets_table (row_good daemonsets_table).
Proof. guarded inv_daemonsets. Qed.
#[export] Instance guarded_serviceaccounts :
  Guarded serviceaccounts_table (row_good serviceaccounts_table).
Proof. guarded inv_serviceaccounts. Qed.
#[export] Instance guarded_secrets : Guarded secrets_table (row_good secrets_table).
Proof. guarded inv_secrets. Qed.
#[export] Instance guarded_configmaps : Guarded configmaps_table (row_good configmaps_table).
Proof. guarded inv_configmaps. Qed.
#[export] Instance guarded_clusterroles : Guarded clusterroles_table (row_good clusterroles_table).
Proof. guarded inv_clusterroles. Qed.
#[export] Instance guarded_clusterrolebindings :
  Guarded clusterrolebindings_table (row_good clusterrolebindings_table).
Proof. guarded inv_clusterrolebindings. Qed.
#[export] Instance guarded_roles : Guarded roles_table (row_good roles_table).
Proof. guarded inv_roles. Qed.
#[export] Instance guarded_rolebindings : Guarded rolebindings_table (row_good rolebindings_table).
Proof. guarded inv_rolebindings. Qed.
End guarded.

(** ** Computations *)

(** [keeps] of the invariant, from any world and through any fault. *)
Definition guards `{Extern} (w : World) : Prop := db_inv (w_db w).

Section primitives.
Context `{ExternOk, Env}.

Lemma kept_now {E} : keeps (E:=E) guards now.
Proof. by intros w. Qed.
Lemma kept_new_v4 {E} : keeps (E:=E) guards new_v4.
Proof. by intros w. Qed.
Lemma kept_on_bus {E} f : keeps (E:=E) guards (on_bus f).
Proof. by intros w. Qed.
Lemma kept_parse_dt {E} s : keeps (E:=E) guards (parse_dt s).
Proof. intros w Hw. unfold parse_dt. by destruct (parse_from_rfc3339 s). Qed.
Lemma kept_uid_or_new {E} o : keeps (E:=E) guards (uid_or_new o).
Proof. intros w Hw. by destruct o. Qed.
Lemma kept_found {A} res name (o : option A) : keeps guards (found res name o).
Proof. intros w Hw. by destruct o. Qed.
Lemma kept_affected res name n : keeps guards (affected res name n).
Proof. intros w Hw. by destruct n. Qed.

(** What is read of the clock is a time. *)
Lemma kept_now_str {E A} (f : string → M E A) :
  (∀ t, keeps guards (f (to_rfc3339 t))) → keeps guards (now_str ≫= f).
Proof. intros Hf w Hw. apply Hf. exact Hw. Qed.

Lemma kept_stmt {A} (stmt : nat → Db → result string (A * Db)) :
  (∀ n d a d', db_inv d → stmt n d = Ok (a, d') → db_inv d') → keeps guards (run_stmt stmt).
Proof.
  intros Hs w Hw. unfold guards in *. unfold run_stmt.
  destruct (env_fault (w_stmts w)) as [[msg|msg]|]; [done|..];
    cbn; destruct (stmt (w_stmts w) (w_db w)) as [[a d]|e] eqn:E'; cbn; eauto.
Qed.
Lemma kept_sql {A} (stmt : nat → Db → result string (A * Db)) :
  (∀ n d a d', db_inv d → stmt n d = Ok (a, d') → db_inv d') → keeps guards (sql stmt).
Proof. intros Hs. by apply keeps_lift_err, kept_stmt. Qed.

Context {K R : Type} `{Countable K} (tb : table K R).

Lemma kept_select_one k : keeps guards (sql (select_one tb k)).
Proof. apply kept_sql. by intros n d a d' Hd [= <- <-]. Qed.
Lemma kept_select_where cond desc key : keeps guards (sql (select_where tb cond desc key)).
Proof. apply kept_sql. by intros n d a d' Hd [= <- <-]. Qed.
Lemma kept_select_count cond : keeps guards (sql (select_count tb cond)).
Proof. apply kept_sql. by intros n d a d' Hd [= <- <-]. Qed.

Context (good : R → Prop) `{!Guarded tb good}.

Lemma kept_delete_key k : keeps guards (sql (delete_key tb k)).
Proof.
  apply kept_sql. intros n d a d' Hd [= _ <-].
  by apply guarded_set, table_inv_delete, guarded_get.
Qed.
Lemma kept_update_key k f :
  (∀ r, good r → good (f r) ∧ tb_uid tb (f r) = tb_uid tb r) →
  keeps guards (sql (update_key tb k f)).
Proof.
  intros Hf. apply kept_sql. intros n d a d' Hd [= _ <-].
  apply guarded_set; [done|]. by apply table_inv_alter; [apply guarded_get|].
Qed.
Lemma kept_upsert k row merge :
  good row →
  (∀ old r', good old → merge old = Ok r' → good r' ∧ tb_uid tb r' = tb_uid tb old) →
  keeps guards (sql (upsert tb k row merge)).
Proof.
  intros Hrow Hmerge. apply kept_sql. intros n d a d' Hd. unfold upsert.
  pose proof (guarded_get d Hd) as [Hg Hu]. destruct (tb_get tb d !! k) as [old|] eqn:Hk.
  - destruct (merge old) as [r'|] eqn:E; [|done]. intros [= _ <-].
    destruct (Hmerge old r' (Hg k old Hk) E) as [Hr' Huid].
    apply guarded_set; [done|]. apply table_inv_insert; [done|done|].
    rewrite Huid. intros k' r0 Hk' He. by eapply Hu.
  - destruct (uid_taken tb (tb_uid tb row) (tb_get tb d)) eqn:Ht; [done|]. intros [= _ <-].
    apply guarded_set; [done|]. apply table_inv_insert; [done|done|].
    intros k' r' Hk' He. exfalso. rewrite <- not_true_iff_false in Ht. apply Ht.
    apply uid_taken_spec. by exists k', r'.
Qed.
End primitives.

Lemma keeps_mapM {S E A B} (I : S → Prop) (f : A → ST S E B) xs :
  (∀ x, keeps I (f x)) → keeps I (mapM f xs).
Proof.
  intros Hf. induction xs as [|x xs IH]; [apply keeps_ret|].
  cbn [mapM]. apply keeps_bind; [done|]. intros y. apply keeps_bind; [done|]. intros ys. apply keeps_ret.
Qed.

#[export] Hint Resolve kept_now kept_new_v4 kept_on_bus kept_parse_dt kept_uid_or_new kept_found
  kept_affected kept_select_one kept_select_where kept_select_count : keeps.

(** The rows the repositories write. *)
Lemma uuid_parses `{ExternOk} u : is_Some (uuid_parse_str (uuid_to_string u)).
Proof. rewrite uuid_round. by eexists. Qed.
Create HintDb rows.
#[export] Hint Resolve stamped_rfc3339 uuid_parses : rows.
Ltac row_good :=
  unfold node_good, row_good in *; cbn in *; destruct_and?; repeat split; eauto with rows.
Ltac row_merged :=
  let E := fresh in
  intros ? ? ? E;
  first [ injection E as <-
        | unfold repeat_event in E; destruct (increment_count _); [injection E as <-|discriminate E] ];
  row_good.

Ltac kept_step :=
  lazymatch goal with
  | |- ∀ _, _ => intro
  | |- keeps _ (now_str ≫= _) => apply kept_now_str; intros ?
  | |- keeps _ (mapM _ _) => apply keeps_mapM; intros ?
  | |- keeps _ (sql (delete_key _ _)) => eapply kept_delete_key; apply _
  | |- keeps _ (sql (update_key _ _ _)) => eapply kept_update_key; [apply _|intros ? ?; row_good]
  | |- keeps _ (sql (upsert _ _ _ _)) => eapply kept_upsert; [apply _|row_good|row_merged]
  | |- _ => keeps_step
  end.
Ltac kept := repeat kept_step.

(** ** The repositories *)

Section repositories.
Context `{ExternOk, Env}.
Lemma kept_row_to_pod {E} kr : keeps guards (row_to_pod (E:=E) kr).
Proof. unfold row_to_pod. kept. Qed.
#[local] Hint Resolve kept_row_to_pod : keeps.
Lemma kept_Pod_get namespace name : keeps guards (PodRepository_get namespace name).
Proof. unfold PodRepository_get. kept. Qed.
#[local] Hint Resolve kept_Pod_get : keeps.
Lemma kept_Pod_create pod : keeps guards (PodRepository_create pod).
Proof. unfold PodRepository_create. kept. Qed.
#[local] Hint Resolve kept_Pod_create : keeps.
Lemma kept_Pod_list namespace label_selector
  : keeps guards (PodRepository_list namespace label_selector).
Proof. unfold PodRepository_list. kept. Qed.
#[local] Hint Resolve kept_Pod_list : keeps.
Lemma kept_Pod_delete namespace name : keeps guards (PodRepository_delete namespace name).
Proof. unfold PodRepository_delete. kept. Qed.
#[local] Hint Resolve kept_Pod_delete : keeps.
Lemma kept_Pod_update_status namespace name status
  : keeps guards (PodRepository_update_status namespace name status).
Proof. unfold PodRepository_update_status. kept. Qed.
#[local] Hint Resolve kept_Pod_update_status : keeps.
Lemma kept_Pod_bind_to_node namespace name node_name
  : keeps guards (PodRepository_bind_to_node namespace name node_name).
Proof. unfold PodRepository_bind_to_node. kept. Qed.
#[local] Hint Resolve kept_Pod_bind_to_node : keeps.
Lemma kept_Pod_list_unscheduled : keeps guards (PodRepository_list_unscheduled).
Proof. unfold PodRepository_list_unscheduled. kept. Qed.
#[local] Hint Resolve kept_Pod_list_unscheduled : keeps.
Lemma kept_row_to_deployment {E} kr : keeps guards (row_to_deployment (E:=E) kr).
Proof. unfold row_to_deployment. kept. Qed.
#[local] Hint Resolve kept_row_to_deployment : keeps.
Lemma kept_Deployment_get namespace name : keeps guards (DeploymentRepository_get namespace name).
Proof. unfold DeploymentRepository_get. kept. Qed.
#[local] Hint Resolve kept_Deployment_get : keeps.
Lemma kept_Deployment_create deployment : keeps guards (DeploymentRepository_create deployment).
Proof. unfold DeploymentRepository_create. kept. Qed.
#[local] Hint Resolve kept_Deployment_create : keeps.
Lemma kept_Deployment_list namespace : keeps guards (DeploymentRepository_list namespace).
Proof. unfold DeploymentRepository_list. kept. Qed.
#[local] Hint Resolve kept_Deployment_list : keeps.
Lemma kept_Deployment_delete namespace name
  : keeps guards (DeploymentRepository_delete namespace name).
Proof. unfold DeploymentRepository_delete. kept. Qed.
#[local] Hint Resolve kept_Deployment_delete : keeps.
Lemma kept_Deployment_update_status namespace name ready_replicas available_replicas
  : keeps guards (DeploymentRepository_update_status namespace name ready_replicas available_replicas).
Proof. unfold DeploymentRepository_update_status. kept. Qed.
#[local] Hint Resolve kept_Deployment_update_status : keeps.
Lemma kept_row_to_service {E} kr : keeps guards (row_to_service (E:=E) kr).
Proof. unfold row_to_service. kept. Qed.
#[local] Hint Resolve kept_row_to_service : keeps.
Lemma kept_Service_get namespace name : keeps guards (ServiceRepository_get namespace name).
Proof. unfold ServiceRepository_get. kept. Qed.
#[local] Hint Resolve kept_Service_get : keeps.
Lemma kept_Service_create service : keeps guards (ServiceRepository_create service).
Proof. unfold ServiceRepository_create. kept. Qed.
#[local] Hint Resolve kept_Service_create : keeps.
Lemma kept_Service_list namespace : keeps guards (ServiceRepository_list namespace).
Proof. unfold ServiceRepository_list. kept. Qed.
#[local] Hint Resolve kept_Service_list : keeps.
Lemma kept_Service_delete namespace name : keeps guards (ServiceRepository_delete namespace name).
Proof. unfold ServiceRepository_delete. kept. Qed.
#[local] Hint Resolve kept_Service_delete : keeps.
Lemma kept_row_to_node {E} with_conditions kr
  : keeps guards (row_to_node (E:=E) with_conditions kr).
Proof. unfold row_to_node. kept. Qed.
#[local] Hint Resolve kept_row_to_node : keeps.
Lemma kept_Node_get name : keeps guards (NodeRepository_get name).
Proof. unfold NodeRepository_get. kept. Qed.
#[local] Hint Resolve kept_Node_get : keeps.
Lemma kept_Node_create node : keeps guards (NodeRepository_create node).
Proof. unfold NodeRepository_create. kept. Qed.
#[local] Hint Resolve kept_Node_create : keeps.
Lemma kept_Node_list : keeps guards (NodeRepository_list).
Proof. unfold NodeRepository_list. kept. Qed.
#[local] Hint Resolve kept_Node_list : keeps.
Lemma kept_Node_delete name : keeps guards (NodeRepository_delete name).
Proof. unfold NodeRepository_delete. kept. Qed.
#[local] Hint Resolve kept_Node_delete : keeps.
Lemma kept_Node_list_ready : keeps guards (NodeRepository_list_ready).
Proof. unfold NodeRepository_list_ready. kept. Qed.
#[local] Hint Resolve kept_Node_list_ready : keeps.
Lemma kept_Endpoints_get namespace name : keeps guards (EndpointsRepository_get namespace name).
Proof. unfold EndpointsRepository_get. kept. Qed.
#[local] Hint Resolve kept_Endpoints_get : keeps.
Lemma kept_Endpoints_create_or_update endpoints
  : keeps guards (EndpointsRepository_create_or_update endpoints).
Proof. unfold EndpointsRepository_create_or_update. kept. Qed.
#[local] Hint Resolve kept_Endpoints_create_or_update : keeps.
Lemma kept_row_to_namespace {E} kr : keeps guards (row_to_namespace (E:=E) kr).
Proof. unfold row_to_namespace. kept. Qed.
#[local] Hint Resolve kept_row_to_namespace : keeps.
Lemma kept_Namespace_get name : keeps guards (NamespaceRepository_get name).
Proof. unfold NamespaceRepository_get. kept. Qed.
#[local] Hint Resolve kept_Namespace_get : keeps.
Lemma kept_Namespace_create namespace : keeps guards (NamespaceRepository_create namespace).
Proof. unfold NamespaceRepository_create. kept. Qed.
#[local] Hint Resolve kept_Namespace_create : keeps.
Lemma kept_Namespace_list : keeps guards (NamespaceRepository_list).
Proof. unfold NamespaceRepository_list. kept. Qed.
#[local] Hint Resolve kept_Namespace_list : keeps.
Lemma kept_Namespace_delete name : keeps guards (NamespaceRepository_delete name).
Proof. unfold NamespaceRepository_delete. kept. Qed.
#[local] Hint Resolve kept_Namespace_delete : keeps.
Lemma kept_row_to_event {E} kr : keeps guards (row_to_event (E:=E) kr).
Proof. unfold row_to_event. kept. Qed.
#[local] Hint Resolve kept_row_to_event : keeps.
Lemma kept_Event_get namespace name : keeps guards (EventRepository_get namespace name).
Proof. unfold EventRepository_get. kept. Qed.
#[local] Hint Resolve kept_Event_get : keeps.
Lemma kept_Event_create event : keeps guards (EventRepository_create event).
Proof. unfold EventRepository_create. kept. Qed.
#[local] Hint Resolve kept_Event_create : keeps.
Lemma kept_Event_list namespace involved_object_name involved_object_kind
  : keeps guards (EventRepository_list namespace involved_object_name involved_object_kind).
Proof. unfold EventRepository_list. kept. Qed.
#[local] Hint Resolve kept_Event_list : keeps.
Lemma kept_Event_delete namespace name : keeps guards (EventRepository_delete namespace name).
Proof. unfold EventRepository_delete. kept. Qed.
#[local] Hint Resolve kept_Event_delete : keeps.
Lemma kept_row_to_statefulset {E} kr : keeps guards (row_to_statefulset (E:=E) kr).
Proof. unfold row_to_statefulset. kept. Qed.
#[local] Hint Resolve kept_row_to_statefulset : keeps.
Lemma kept_StatefulSet_get namespace name
  : keeps guards (StatefulSetRepository_get namespace name).
Proof. unfold StatefulSetRepository_get. kept. Qed.
#[local] Hint Resolve kept_StatefulSet_get : keeps.
Lemma kept_StatefulSet_create ss : keeps guards (StatefulSetRepository_create ss).
Proof. unfold StatefulSetRepository_create. kept. Qed.
#[local] Hint Resolve kept_StatefulSet_create : keeps.
Lemma kept_StatefulSet_list namespace : keeps guards (StatefulSetRepository_list namespace).
Proof. unfold StatefulSetRepository_list. kept. Qed.
#[local] Hint Resolve kept_StatefulSet_list : keeps.
Lemma kept_StatefulSet_delete namespace name
  : keeps guards (StatefulSetRepository_delete namespace name).
Proof. unfold StatefulSetRepository_delete. kept. Qed.
#[local] Hint Resolve kept_StatefulSet_delete : keeps.
Lemma kept_StatefulSet_update_status namespace name ready_replicas current_replicas
  : keeps guards (StatefulSetRepository_update_status namespace name ready_replicas current_replicas).
Proof. unfold StatefulSetRepository_update_status. kept. Qed.
#[local] Hint Resolve kept_StatefulSet_update_status : keeps.
Lemma kept_row_to_daemonset {E} kr : keeps guards (row_to_daemonset (E:=E) kr).
Proof. unfold row_to_daemonset. kept. Qed.
#[local] Hint Resolve kept_row_to_daemonset : keeps.
Lemma kept_DaemonSet_get namespace name : keeps guards (DaemonSetRepository_get namespace name).
Proof. unfold DaemonSetRepository_get. kept. Qed.
#[local] Hint Resolve kept_DaemonSet_get : keeps.
Lemma kept_DaemonSet_create ds : keeps guards (DaemonSetRepository_create ds).
Proof. unfold DaemonSetRepository_create. kept. Qed.
#[local] Hint Resolve kept_DaemonSet_create : keeps.
Lemma kept_DaemonSet_list namespace : keeps guards (DaemonSetRepository_list namespace).
Proof. unfold DaemonSetRepository_list. kept. Qed.
#[local] Hint Resolve kept_DaemonSet_list : keeps.
Lemma kept_DaemonSet_delete namespace name
  : keeps guards (DaemonSetRepository_delete namespace name).
Proof. unfold DaemonSetRepository_delete. kept. Qed.
#[local] Hint Resolve kept_DaemonSet_delete : keeps.
Lemma kept_DaemonSet_update_status namespace name desired current ready
  : keeps guards (DaemonSetRepository_update_status namespace name desired current ready).
Proof. unfold DaemonSetRepository_update_status. kept. Qed.
#[local] Hint Resolve kept_DaemonSet_update_status : keeps.
Lemma kept_ServiceAccount_row_to {E} kr : keeps guards (ServiceAccountRepository_row_to (E:=E) kr).
Proof. unfold ServiceAccountRepository_row_to. kept. Qed.
#[local] Hint Resolve kept_ServiceAccount_row_to : keeps.
Lemma kept_ServiceAccount_get namespace name
  : keeps guards (ServiceAccountRepository_get namespace name).
Proof. unfold ServiceAccountRepository_get. kept. Qed.
#[local] Hint Resolve kept_ServiceAccount_get : keeps.
Lemma kept_ServiceAccount_create x : keeps guards (ServiceAccountRepository_create x).
Proof. unfold ServiceAccountRepository_create. kept. Qed.
#[local] Hint Resolve kept_ServiceAccount_create : keeps.
Lemma kept_ServiceAccount_list namespace : keeps guards (ServiceAccountRepository_list namespace).
Proof. unfold ServiceAccountRepository_list. kept. Qed.
#[local] Hint Resolve kept_ServiceAccount_list : keeps.
Lemma kept_ServiceAccount_delete namespace name
  : keeps guards (ServiceAccountRepository_delete namespace name).
Proof. unfold ServiceAccountRepository_delete. kept. Qed.
#[local] Hint Resolve kept_ServiceAccount_delete : keeps.
Lemma kept_Secret_row_to {E} kr : keeps guards (SecretRepository_row_to (E:=E) kr).
Proof. unfold SecretRepository_row_to. kept. Qed.
#[local] Hint Resolve kept_Secret_row_to : keeps.
Lemma kept_Secret_get namespace name : keeps guards (SecretRepository_get namespace name).
Proof. unfold SecretRepository_get. kept. Qed.
#[local] Hint Resolve kept_Secret_get : keeps.
Lemma kept_Secret_create x : keeps guards (SecretRepository_create x).
Proof. unfold SecretRepository_create. kept. Qed.
#[local] Hint Resolve kept_Secret_create : keeps.
Lemma kept_Secret_list namespace : keeps guards (SecretRepository_list namespace).
Proof. unfold SecretRepository_list. kept. Qed.
#[local] Hint Resolve kept_Secret_list : keeps.
Lemma kept_Secret_delete namespace name : keeps guards (SecretRepository_delete namespace name).
Proof. unfold SecretRepository_delete. kept. Qed.
#[local] Hint Resolve kept_Secret_delete : keeps.
Lemma kept_ConfigMap_row_to {E} kr : keeps guards (ConfigMapRepository_row_to (E:=E) kr).
Proof. unfold ConfigMapRepository_row_to. kept. Qed.
#[local] Hint Resolve kept_ConfigMap_row_to : keeps.
Lemma kept_ConfigMap_get namespace name : keeps guards (ConfigMapRepository_get namespace name).
Proof. unfold ConfigMapRepository_get. kept. Qed.
#[local] Hint Resolve kept_ConfigMap_get : keeps.
Lemma kept_ConfigMap_create x : keeps guards (ConfigMapRepository_create x).
Proof. unfold ConfigMapRepository_create. kept. Qed.
#[local] Hint Resolve kept_ConfigMap_create : keeps.
Lemma kept_ConfigMap_list namespace : keeps guards (ConfigMapRepository_list namespace).
Proof. unfold ConfigMapRepository_list. kept. Qed.
#[local] Hint Resolve kept_ConfigMap_list : keeps.
Lemma kept_ConfigMap_delete namespace name
  : keeps guards (ConfigMapRepository_delete namespace name).
Proof. unfold ConfigMapRepository_delete. kept. Qed.
#[local] Hint Resolve kept_ConfigMap_delete : keeps.
Lemma kept_ClusterRole_row_to {E} kr : keeps guards (ClusterRoleRepository_row_to (E:=E) kr).
Proof. unfold ClusterRoleRepository_row_to. kept. Qed.
#[local] Hint Resolve kept_ClusterRole_row_to : keeps.
Lemma kept_ClusterRole_get name : keeps guards (ClusterRoleRepository_get name).
Proof. unfold ClusterRoleRepository_get. kept. Qed.
#[local] Hint Resolve kept_ClusterRole_get : keeps.
Lemma kept_ClusterRole_create x : keeps guards (ClusterRoleRepository_create x).
Proof. unfold ClusterRoleRepository_create. kept. Qed.
#[local] Hint Resolve kept_ClusterRole_create : keeps.
Lemma kept_ClusterRole_list : keeps guards (ClusterRoleRepository_list).
Proof. unfold ClusterRoleRepository_list. kept. Qed.
#[local] Hint Resolve kept_ClusterRole_list : keeps.
Lemma kept_ClusterRole_delete name : keeps guards (ClusterRoleRepository_delete name).
Proof. unfold ClusterRoleRepository_delete. kept. Qed.
#[local] Hint Resolve kept_ClusterRole_delete : keeps.
Lemma kept_ClusterRoleBinding_row_to {E} kr
  : keeps guards (ClusterRoleBindingRepository_row_to (E:=E) kr).
Proof. unfold ClusterRoleBindingRepository_row_to. kept. Qed.
#[local] Hint Resolve kept_ClusterRoleBinding_row_to : keeps.
Lemma kept_ClusterRoleBinding_get name : keeps guards (ClusterRoleBindingRepository_get name).
Proof. unfold ClusterRoleBindingRepository_get. kept. Qed.
#[local] Hint Resolve kept_ClusterRoleBinding_get : keeps.
Lemma kept_ClusterRoleBinding_create x : keeps guards (ClusterRoleBindingRepository_create x).
Proof. unfold ClusterRoleBindingRepository_create. kept. Qed.
#[local] Hint Resolve kept_ClusterRoleBinding_create : keeps.
Lemma kept_ClusterRoleBinding_list : keeps guards (ClusterRoleBindingRepository_list).
Proof. unfold ClusterRoleBindingRepository_list. kept. Qed.
#[local] Hint Resolve kept_ClusterRoleBinding_list : keeps.
Lemma kept_ClusterRoleBinding_delete name
  : keeps guards (ClusterRoleBindingRepository_delete name).
Proof. unfold ClusterRoleBindingRepository_delete. kept. Qed.
#[local] Hint Resolve kept_ClusterRoleBinding_delete : keeps.
Lemma kept_Role_row_to {E} kr : keeps guards (RoleRepository_row_to (E:=E) kr).
Proof. unfold RoleRepository_row_to. kept. Qed.
#[local] Hint Resolve kept_Role_row_to : keeps.
Lemma kept_Role_get namespace name : keeps guards (RoleRepository_get namespace name).
Proof. unfold RoleRepository_get. kept. Qed.
#[local] Hint Resolve kept_Role_get : keeps.
Lemma kept_Role_create x : keeps guards (RoleRepository_create x).
Proof. unfold RoleRepository_create. kept. Qed.
#[local] Hint Resolve kept_Role_create : keeps.
Lemma kept_Role_list namespace : keeps guards (RoleRepository_list namespace).
Proof. unfold RoleRepository_list. kept. Qed.
#[local] Hint Resolve kept_Role_list : keeps.
Lemma kept_Role_delete namespace name : keeps guards (RoleRepository_delete namespace name).
Proof. unfold RoleRepository_delete. kept. Qed.
#[local] Hint Resolve kept_Role_delete : keeps.
Lemma kept_RoleBinding_row_to {E} kr : keeps guards (RoleBindingRepository_row_to (E:=E) kr).
Proof. unfold RoleBindingRepository_row_to. kept. Qed.
#[local] Hint Resolve kept_RoleBinding_row_to : keeps.
Lemma kept_RoleBinding_get namespace name
  : keeps guards (RoleBindingRepository_get namespace name).
Proof. unfold RoleBindingRepository_get. kept. Qed.
#[local] Hint Resolve kept_RoleBinding_get : keeps.
Lemma kept_RoleBinding_create x : keeps guards (RoleBindingRepository_create x).
Proof. unfold RoleBindingRepository_create. kept. Qed.
#[local] Hint Resolve kept_RoleBinding_create : keeps.
Lemma kept_RoleBinding_list namespace : keeps guards (RoleBindingRepository_list namespace).
Proof. unfold RoleBindingRepository_list. kept. Qed.
#[local] Hint Resolve kept_RoleBinding_list : keeps.
Lemma kept_RoleBinding_delete namespace name
  : keeps guards (RoleBindingRepository_delete namespace name).
Proof. unfold RoleBindingRepository_delete. kept. Qed.
#[local] Hint Resolve kept_RoleBinding_delete : keeps.
End repositories.
#[export] Hint Resolve
  kept_row_to_pod kept_Pod_get kept_Pod_create
  kept_Pod_list kept_Pod_delete kept_Pod_update_status
  kept_Pod_bind_to_node kept_Pod_list_unscheduled kept_row_to_deployment
  kept_Deployment_get kept_Deployment_create kept_Deployment_list
  kept_Deployment_delete kept_Deployment_update_status kept_row_to_service
  kept_Service_get kept_Service_create kept_Service_list
  kept_Service_delete kept_row_to_node kept_Node_get
  kept_Node_create kept_Node_list kept_Node_delete
  kept_Node_list_ready kept_Endpoints_get kept_Endpoints_create_or_update
  kept_row_to_namespace kept_Namespace_get kept_Namespace_create
  kept_Namespace_list kept_Namespace_delete kept_row_to_event
  kept_Event_get kept_Event_create kept_Event_list
  kept_Event_delete kept_row_to_statefulset kept_StatefulSet_get
  kept_StatefulSet_create kept_StatefulSet_list kept_StatefulSet_delete
  kept_StatefulSet_update_status kept_row_to_daemonset kept_DaemonSet_get
  kept_DaemonSet_create kept_DaemonSet_list kept_DaemonSet_delete
  kept_DaemonSet_update_status kept_ServiceAccount_row_to kept_ServiceAccount_get
  kept_ServiceAccount_create kept_ServiceAccount_list kept_ServiceAccount_delete
  kept_Secret_row_to kept_Secret_get kept_Secret_create
  kept_Secret_list kept_Secret_delete kept_ConfigMap_row_to
  kept_ConfigMap_get kept_ConfigMap_create kept_ConfigMap_list
  kept_ConfigMap_delete kept_ClusterRole_row_to kept_ClusterRole_get
  kept_ClusterRole_create kept_ClusterRole_list kept_ClusterRole_delete
  kept_ClusterRoleBinding_row_to kept_ClusterRoleBinding_get kept_ClusterRoleBinding_create
  kept_ClusterRoleBinding_list kept_ClusterRoleBinding_delete kept_Role_row_to
  kept_Role_get kept_Role_create kept_Role_list
  kept_Role_delete kept_RoleBinding_row_to kept_RoleBinding_get
  kept_RoleBinding_create kept_RoleBinding_list kept_RoleBinding_delete : keeps.
