(* ===== verification/Scheduler.v ===== *)
(** * The scheduler ([src/src/server/scheduler.rs])

    Parsing of resource quantities, the predicates a node must pass, the score
    that ranks the survivors, the binding of one pod, one pass over the
    pending pods and one tick of the loop. *)
From S2P Require Import Prelude RustStd Float64 Json External Models Wire Error Bus World.
From S2P Require Import Repository Recorder.

Local Open Scope Z_scope.

(** ** Strategy *)

Inductive ScoringStrategy : Type := LeastAllocated | MostAllocated.

#[export] Instance ScoringStrategy_eq_dec : EqDecision ScoringStrategy.
Proof. solve_decision. Defined.

Definition ScoringStrategy_default : ScoringStrategy := LeastAllocated.

(** [from_env]; [var] is the value of [SUPERKUBE_SCHEDULER_SCORING], if set. *)
Definition from_env (var : option string) : ScoringStrategy :=
  match var with
  | None => ScoringStrategy_default
  | Some v =>
      let v := to_ascii_lowercase (trim v) in
      if existsb (str_eqb v) ["most"; "mostallocated"; "most-allocated"; "binpack"; "bin-pack"]
      then MostAllocated
      else LeastAllocated
  end.

(** ** Quantities *)

Definition f64_zero : f64 := f64_of_Z 0.

Definition parse_cpu_millicores (s : string) : option Z :=
  let s := trim s in
  match strip_suffix "m" s with
  | Some num => parse_u64 (trim num)
  | None =>
      cores ← parse_f64 s;
      if f64_ltb cores f64_zero || negb (is_finite cores) then None
      else Some (f64_as_u64 (f64_round (f64_mul cores (f64_of_Z 1000))))
  end.

(** The suffixes in the order they are tried, with their multipliers. *)
Definition memory_suffixes : list (string * Z) :=
  [("Ki", 1024); ("Mi", 1024 ^ 2); ("Gi", 1024 ^ 3); ("Ti", 1024 ^ 4); ("Pi", 1024 ^ 5);
   ("Ei", 1024 ^ 6); ("k", 1000); ("M", 1000000); ("G", 1000000000); ("T", 1000000000000);
   ("P", 1000000000000000); ("E", 1000000000000000000)].

Fixpoint split_suffix (sufs : list (string * Z)) (s : string) : string * Z :=
  match sufs with
  | [] => (s, 1)
  | (suf, mult) :: sufs =>
      match strip_suffix suf s with
      | Some rest => (rest, mult)
      | None => split_suffix sufs s
      end
  end.

Definition parse_memory_bytes (s : string) : option Z :=
  let s := trim s in
  let '(num_part, mult) := split_suffix memory_suffixes s in
  num ← parse_f64 (trim num_part);
  if f64_ltb num f64_zero || negb (is_finite num) then None
  else
    let bytes := f64_round (f64_mul num (f64_of_Z mult)) in
    if f64_ltb bytes f64_zero || f64_ltb (f64_of_Z u64_max) bytes then None
    else Some (f64_as_u64 bytes).

(** ** Requests *)

(** The request of one container for a resource; unparseable counts as zero,
    absent adds nothing. *)
Definition container_request (key : string) (parse : string → option Z) (c : Container) : Z :=
  match (ctr_resources c ≫= rr_requests) ≫= (λ reqs, reqs !! key) with
  | Some v => default 0 (parse v)
  | None => 0
  end.

(** Sums of containers' cpu (millicores) and memory (bytes) requests. *)
Definition sum_pod_requests (pod : Pod) : Z * Z :=
  foldl (λ '(cpu_m, mem_b) c,
    (saturating_add cpu_m (container_request "cpu" parse_cpu_millicores c),
     saturating_add mem_b (container_request "memory" parse_memory_bytes c)))
    (0, 0) (ps_containers (pod_spec pod)).

(** Whether a pod's requests count on a node: bound to it and not terminal. *)
Definition counts_on (node_name : string) (p : Pod) : bool :=
  bool_decide (ps_node_name (pod_spec p) = Some node_name) &&
  match pod_status p with
  | Some s => match pstat_phase s with
              | PodPhase_Succeeded | PodPhase_Failed => false
              | _ => true
              end
  | None => true
  end.

Definition sum_used_on_node (node : Node) (existing_pods : list Pod) : Z * Z :=
  let node_name := ObjectMeta_name (node_metadata node) in
  foldl (λ '(cpu_m, mem_b) p,
    if counts_on node_name p then
      let '(c, m) := sum_pod_requests p in (saturating_add cpu_m c, saturating_add mem_b m)
    else (cpu_m, mem_b))
    (0, 0) existing_pods.

Definition allocatable_of (node : Node) (key : string) (parse : string → option Z) : option Z :=
  ((node_status node ≫= nstat_allocatable) ≫= (λ a, a !! key)) ≫= parse.

Definition node_fits (node : Node) (existing_pods : list Pod) (pod_cpu_m pod_mem_b : Z) : bool :=
  let '(used_cpu_m, used_mem_b) := sum_used_on_node node existing_pods in
  if (0 <? pod_cpu_m) &&
     match allocatable_of node "cpu" parse_cpu_millicores with
     | Some alloc_cpu => alloc_cpu <? saturating_add used_cpu_m pod_cpu_m
     | None => false
     end
  then false
  else if (0 <? pod_mem_b) &&
     match allocatable_of node "memory" parse_memory_bytes with
     | Some alloc_mem => alloc_mem <? saturating_add used_mem_b pod_mem_b
     | None => false
     end
  then false
  else true.

(** ** Scoring *)

(** The share of one resource the pod would use or leave, in percent;
    [None] when the node does not report a usable amount of it. *)
Definition resource_score (strategy : ScoringStrategy) (alloc : option Z) (used pod : Z)
    : option f64 :=
  match alloc with
  | Some c =>
      if 0 <? c then
        let used_after := Z.min (saturating_add used pod) c in
        let used_pct := f64_mul (f64_div (f64_of_Z used_after) (f64_of_Z c)) (f64_of_Z 100) in
        Some match strategy with
             | LeastAllocated => f64_sub (f64_of_Z 100) used_pct
             | MostAllocated => used_pct
             end
      else None
  | None => None
  end.

Definition score_node (node : Node) (existing_pods : list Pod) (pod_cpu_m pod_mem_b : Z)
    (strategy : ScoringStrategy) : Z :=
  let '(used_cpu_m, used_mem_b) := sum_used_on_node node existing_pods in
  let alloc_cpu := allocatable_of node "cpu" parse_cpu_millicores in
  let alloc_mem := allocatable_of node "memory" parse_memory_bytes in
  let '(sum, n) :=
    match resource_score strategy alloc_cpu used_cpu_m pod_cpu_m with
    | Some x => (f64_add f64_zero x, 1)
    | None => (f64_zero, 0)
    end in
  let '(sum, n) :=
    match resource_score strategy alloc_mem used_mem_b pod_mem_b with
    | Some x => (f64_add sum x, n + 1)
    | None => (sum, n)
    end in
  if n =? 0 then 0 else f64_as_i64 (f64_round (f64_div sum (f64_of_Z n))).

(** ** Predicates *)

Definition is_node_ready (node : Node) : bool :=
  match node_status node ≫= nstat_conditions with
  | Some conds =>
      existsb (λ c, bool_decide (ncond_condition_type c = NodeConditionType_Ready) &&
                    bool_decide (ncond_status c = ConditionStatus_True)) conds
  | None => true
  end.

Definition compare_numbers (f : Z → Z → bool) (val : option string) (values : list string) : bool :=
  match val ≫= parse_i64, head values ≫= parse_i64 with
  | Some a, Some b => f a b
  | _, _ => false
  end.

Definition match_expression (req : NodeSelectorRequirement) (labels : gmap string string) : bool :=
  let val := labels !! nsr_key req in
  let op := nsr_operator req in
  if str_eqb op "In" then
    match val with Some v => existsb (λ x, str_eqb x v) (nsr_values req) | None => false end
  else if str_eqb op "NotIn" then
    match val with Some v => forallb (λ x, negb (str_eqb x v)) (nsr_values req) | None => true end
  else if str_eqb op "Exists" then bool_decide (is_Some val)
  else if str_eqb op "DoesNotExist" then bool_decide (val = None)
  else if str_eqb op "Gt" then compare_numbers (λ a b, b <? a) val (nsr_values req)
  else if str_eqb op "Lt" then compare_numbers (λ a b, a <? b) val (nsr_values req)
  else true.

Definition node_matches_term (node : Node) (term : NodeSelectorTerm) : bool :=
  forallb (λ req, match_expression req (ObjectMeta_labels (node_metadata node)))
    (nst_match_expressions term).

Definition topology_value (node : Node) (key : string) : option string :=
  ObjectMeta_labels (node_metadata node) !! key.

Definition match_label_requirement (req : LabelSelectorRequirement) (labels : gmap string string)
    : bool :=
  let val := labels !! lsr_key req in
  let values := default [] (lsr_values req) in
  let op := lsr_operator req in
  if str_eqb op "In" then
    match val with Some v => existsb (λ x, str_eqb x v) values | None => false end
  else if str_eqb op "NotIn" then
    match val with Some v => forallb (λ x, negb (str_eqb x v)) values | None => true end
  else if str_eqb op "Exists" then bool_decide (is_Some val)
  else if str_eqb op "DoesNotExist" then bool_decide (val = None)
  else true.

Definition selector_matches (selector : option LabelSelector) (labels : gmap string string) : bool :=
  match selector with
  | None => true
  | Some s =>
      match ls_match_labels s with Some ml => labels_match ml labels | None => true end &&
      match ls_match_expressions s with
      | Some exprs => forallb (λ req, match_label_requirement req labels) exprs
      | None => true
      end
  end.

(** The map from node names to their value of the topology key; a later node
    of the same name replaces an earlier one. *)
Definition node_topologies (nodes : list Node) (key : string) : gmap string (option string) :=
  foldl (λ m n, <[ObjectMeta_name (node_metadata n) := topology_value n key]> m) ∅ nodes.

(** Whether an existing pod is one the term is about, on a node that shares
    the candidate's topology value. *)
Definition pod_in_topology (candidate : Node) (nodes : list Node) (term : PodAffinityTerm)
    (pod_namespace : string) (p : Pod) : bool :=
  let allowed_ns := match pat_namespaces term with [] => [pod_namespace] | l => l end in
  if negb (existsb (λ n, str_eqb n (ObjectMeta_namespace (pod_metadata p))) allowed_ns) then false
  else if negb (selector_matches (pat_label_selector term) (ObjectMeta_labels (pod_metadata p)))
  then false
  else match ps_node_name (pod_spec p) with
       | None => false
       | Some pod_node =>
           let key := pat_topology_key term in
           match mjoin (node_topologies nodes key !! pod_node), topology_value candidate key with
           | Some a, Some b => str_eqb a b
           | _, _ => false
           end
       end.

Definition pod_affinity_satisfied (candidate : Node) (nodes : list Node) (existing_pods : list Pod)
    (term : PodAffinityTerm) (pod_namespace : string) (affinity : bool) : bool :=
  let any_match := existsb (pod_in_topology candidate nodes term pod_namespace) existing_pods in
  if affinity then any_match else negb any_match.

(** The predicate phase for one node: the five filters in the order of the
    code. *)
Definition node_feasible (pod : Pod) (nodes : list Node) (existing_pods : list Pod) (node : Node)
    : bool :=
  let '(pod_cpu_m, pod_mem_b) := sum_pod_requests pod in
  let affinity := ps_affinity (pod_spec pod) in
  let pod_ns := ObjectMeta_namespace (pod_metadata pod) in
  is_node_ready node &&
  match ps_node_selector (pod_spec pod) with
  | Some selector => labels_match selector (ObjectMeta_labels (node_metadata node))
  | None => true
  end &&
  match (affinity ≫= aff_node_affinity)
          ≫= naff_required_during_scheduling_ignored_during_execution with
  | Some required => existsb (node_matches_term node) (nsel_node_selector_terms required)
  | None => true
  end &&
  match affinity ≫= aff_pod_affinity with
  | Some pa =>
      forallb (λ term, pod_affinity_satisfied node nodes existing_pods term pod_ns true)
        (paff_required_during_scheduling_ignored_during_execution pa)
  | None => true
  end &&
  match affinity ≫= aff_pod_anti_affinity with
  | Some paa =>
      forallb (λ term, pod_affinity_satisfied node nodes existing_pods term pod_ns false)
        (panti_required_during_scheduling_ignored_during_execution paa)
  | None => true
  end &&
  node_fits node existing_pods pod_cpu_m pod_mem_b.

(** [Iterator::max_by_key]: of equal maxima the last one is returned. *)
Definition max_by_key {A} (key : A → Z) (l : list A) : option A :=
  foldl (λ best a,
    match best with
    | None => Some a
    | Some b => if key a <? key b then Some b else Some a
    end) None l.

Definition find_node_for_pod (pod : Pod) (nodes : list Node) (existing_pods : list Pod)
    (strategy : ScoringStrategy) : result string Node :=
  let '(pod_cpu_m, pod_mem_b) := sum_pod_requests pod in
  let candidates := filter (λ n, node_feasible pod nodes existing_pods n = true) nodes in
  match max_by_key (λ n, score_node n existing_pods pod_cpu_m pod_mem_b strategy) candidates with
  | Some n => Ok n
  | None => Err "No suitable node found for pod"
  end.

(** ** The scheduling pass *)

Section scheduler.
Context `{Extern, Env}.

Definition SCHEDULER_LEASE_TTL : Z := 30000000000.

(** [schedule_pod]: choose a node, bind the pod to it, publish and record. *)
Definition schedule_pod (strategy : ScoringStrategy) (pod : Pod) (nodes : list Node)
    (existing_pods : list Pod) : M string string :=
  let namespace := ObjectMeta_namespace (pod_metadata pod) in
  let pod_name := ObjectMeta_name (pod_metadata pod) in
  node ← of_result (find_node_for_pod pod nodes existing_pods strategy);
  let node_name := ObjectMeta_name (node_metadata node) in
  lift_err Error_to_string (PodRepository_bind_to_node namespace pod_name node_name);;
  updated ← attempt (PodRepository_get namespace pod_name);
  match updated with
  | Ok updated => on_bus (publish Modified "Pod" (Some namespace) pod_name updated)
  | Err _ => mret ()
  end;;
  emit_event (pod_ref pod) namespace EventType_Normal "Scheduled"
    ("Successfully assigned " +:+ namespace +:+ "/" +:+ pod_name +:+ " to " +:+ node_name)
    "scheduler";;
  mret node_name.

(** The loop over the pending pods.  The bindings of this pass are added to
    the existing pods; the result is what [existing_pods] ends as. *)
Fixpoint schedule_all (strategy : ScoringStrategy) (nodes : list Node) (existing_pods : list Pod)
    (pods : list Pod) : M string (list Pod) :=
  match pods with
  | [] => mret existing_pods
  | pod :: pods =>
      r ← attempt (schedule_pod strategy pod nodes existing_pods);
      match r with
      | Ok node_name =>
          let bound := Pod_with_spec (PodSpec_with_node_name (Some node_name) (pod_spec pod)) pod in
          schedule_all strategy nodes (existing_pods ++ [bound]) pods
      | Err _ => schedule_all strategy nodes existing_pods pods
      end
  end.

Definition schedule_pending_pods (strategy : ScoringStrategy) : M string () :=
  pods ← lift_err Error_to_string PodRepository_list_unscheduled;
  match pods with
  | [] => mret ()
  | _ =>
      nodes ← lift_err Error_to_string NodeRepository_list_ready;
      match nodes with
      | [] => mret ()
      | _ =>
          r ← attempt (PodRepository_list None None);
          let existing_pods := default [] (result_ok r) in
          schedule_all strategy nodes existing_pods pods;;
          mret ()
      end
  end.
End scheduler.
