(* ===== verification/SchedulerOk.v ===== *)
(** * What the scheduler guarantees

    Placement ([find_node_for_pod] against a declarative notion of a feasible
    node), capacity over a whole pass, and the quantity parsers. *)
From S2P Require Import Prelude RustStd Float64 Json External Models Wire Error Bus World.
From S2P Require Import Repository RepositoryOk Recorder Frame Scheduler Reference RefEnv.

Local Open Scope Z_scope.

(** ** [max_by_key] *)

Lemma max_by_key_go {A} (key : A → Z) l b :
  ∃ a, foldl (λ best a, match best with
                        | None => Some a
                        | Some b => if key a <? key b then Some b else Some a
                        end) (Some b) l = Some a ∧
    ((a = b ∧ Forall (λ x, key x < key b) l) ∨
     (key b <= key a ∧ ∃ l1 l2, l = l1 ++ a :: l2 ∧
       Forall (λ x, key x <= key a) l1 ∧ Forall (λ x, key x < key a) l2)).
Proof.
  revert b. induction l as [|x l IH]; intros b; simpl; [eauto|].
  destruct (Z.ltb_spec (key x) (key b)) as [Hlt|Hge].
  - destruct (IH b) as (a & E & [[-> Hall]|(Hle & l1 & l2 & -> & H1 & H2)]);
      exists a || exists b; (split; [exact E|]).
    + left. auto.
    + right. split; [done|]. exists (x :: l1), l2. split; [done|].
      split; [constructor; [lia|done]|done].
  - destruct (IH x) as (a & E & [[-> Hall]|(Hle & l1 & l2 & -> & H1 & H2)]);
      (eexists; split; [exact E|]); right.
    + split; [lia|]. exists [], l. auto.
    + split; [lia|]. exists (x :: l1), l2. split; [done|].
      split; [constructor; [lia|done]|done].
Qed.

(** The result is a maximum, and the last one of the list. *)
Lemma max_by_key_Some {A} (key : A → Z) l a :
  max_by_key key l = Some a →
  ∃ l1 l2, l = l1 ++ a :: l2 ∧
    Forall (λ x, key x <= key a) l1 ∧ Forall (λ x, key x < key a) l2.
Proof.
  unfold max_by_key. destruct l as [|x l]; [done|]. simpl. intros E.
  destruct (max_by_key_go key l x) as (a' & E' & H). rewrite E in E'. injection E' as <-.
  destruct H as [[-> Hall]|(Hle & l1 & l2 & -> & H1 & H2)].
  - exists [], l. auto.
  - exists (x :: l1), l2. auto.
Qed.

Lemma max_by_key_None {A} (key : A → Z) l : max_by_key key l = None → l = [].
Proof.
  destruct l as [|x l]; [done|]. unfold max_by_key. simpl.
  by destruct (max_by_key_go key l x) as (a & -> & _).
Qed.

(** ** Feasible nodes, declaratively *)

(** A required term of (anti-)affinity concerns an existing pod: it is in one
    of the term's namespaces, its labels match, and it is on a node with the
    candidate's value of the topology key. *)
Definition term_hits (nodes : list Node) (term : PodAffinityTerm) (pod_ns : string)
    (candidate : Node) (p : Pod) : Prop :=
  ObjectMeta_namespace (pod_metadata p) ∈
    (match pat_namespaces term with [] => [pod_ns] | l => l end) ∧
  selector_matches (pat_label_selector term) (ObjectMeta_labels (pod_metadata p)) = true ∧
  ∃ m v, m ∈ nodes ∧ ps_node_name (pod_spec p) = Some (ObjectMeta_name (node_metadata m)) ∧
    topology_value m (pat_topology_key term) = Some v ∧
    topology_value candidate (pat_topology_key term) = Some v.

Definition node_names (nodes : list Node) : list string :=
  (λ n, ObjectMeta_name (node_metadata n)) <$> nodes.

Lemma existsb_str_eqb s l : existsb (λ n, str_eqb n s) l = true ↔ s ∈ l.
Proof.
  rewrite existsb_exists. split.
  - intros (n & Hin & E). apply str_eqb_spec in E as ->. by apply list_elem_of_In.
  - intros Hin. exists s. split; [by apply list_elem_of_In|apply str_eqb_refl].
Qed.

Lemma node_topologies_go key nodes (m : gmap string (option string)) name :
  NoDup (node_names nodes) →
  foldl (λ m n, <[ObjectMeta_name (node_metadata n) := topology_value n key]> m) m nodes !! name =
    match list_find (λ n, ObjectMeta_name (node_metadata n) = name) nodes with
    | Some (_, n) => Some (topology_value n key)
    | None => m !! name
    end.
Proof.
  revert m. induction nodes as [|n nodes IH]; intros m Hnd; [done|].
  apply NoDup_cons in Hnd as [Hn Hnd]. simpl. rewrite IH by done.
  destruct (decide (ObjectMeta_name (node_metadata n) = name)) as [<-|Hne].
  - destruct (list_find _ nodes) as [[i n']|] eqn:Hf; [|by rewrite lookup_insert_eq].
    apply list_find_Some in Hf as (Hi & Hname & _). exfalso. apply Hn. rewrite <- Hname.
    apply list_elem_of_fmap. exists n'. split; [done|]. by eapply list_elem_of_lookup_2.
  - rewrite lookup_insert_ne by done.
    by destruct (list_find _ nodes) as [[i n']|].
Qed.

(** With distinct node names the table maps a node's name to its value. *)
Lemma node_topologies_spec key nodes name v :
  NoDup (node_names nodes) →
  mjoin (node_topologies nodes key !! name) = Some v ↔
  ∃ m, m ∈ nodes ∧ ObjectMeta_name (node_metadata m) = name ∧ topology_value m key = Some v.
Proof.
  intros Hnd. unfold node_topologies. rewrite node_topologies_go by done. split.
  - destruct (list_find _ nodes) as [[i n]|] eqn:Hf; [|by rewrite lookup_empty].
    apply list_find_Some in Hf as (Hi & Hname & _). simpl. intros Hv.
    exists n. split; [by eapply list_elem_of_lookup_2|done].
  - intros (m & Hm & Hname & Hv).
    destruct (list_find (λ n, ObjectMeta_name (node_metadata n) = name) nodes)
      as [[i n]|] eqn:Hf.
    + apply list_find_Some in Hf as (Hi & Hname' & _). simpl.
      apply list_elem_of_lookup in Hm as [j Hj].
      assert (i = j) as <-; [|by simplify_eq].
      eapply (NoDup_lookup _ i j name Hnd); unfold node_names;
        rewrite list_lookup_fmap, ?Hi, ?Hj; simpl; congruence.
    + apply list_find_None in Hf. rewrite Forall_forall in Hf. by destruct (Hf m Hm).
Qed.

Lemma pod_in_topology_spec candidate nodes term pod_ns p :
  NoDup (node_names nodes) →
  pod_in_topology candidate nodes term pod_ns p = true ↔
  term_hits nodes term pod_ns candidate p.
Proof.
  intros Hnd. unfold pod_in_topology, term_hits.
  set (allowed := match pat_namespaces term with [] => [pod_ns] | l => l end).
  rewrite <- (existsb_str_eqb _ allowed).
  destruct (existsb _ allowed); simpl; [|split; [done|]; by intros [? ?]].
  destruct (selector_matches _ _); simpl; [|split; [done|]; by intros (? & ? & ?)].
  destruct (ps_node_name (pod_spec p)) as [pn|];
    [|split; [done|]; by intros (? & ? & ? & ? & ? & ? & ?)].
  split.
  - destruct (mjoin _) as [a|] eqn:Ha; [|done].
    destruct (topology_value candidate _) as [b|] eqn:Hb; [|done].
    intros ->%str_eqb_spec. apply node_topologies_spec in Ha as (m & Hm & <- & Hv); eauto 10.
  - intros (_ & _ & m & v & Hm & [= ->] & Hv & Hc).
    assert (mjoin (node_topologies nodes (pat_topology_key term) !!
      ObjectMeta_name (node_metadata m)) = Some v) as ->
      by (apply node_topologies_spec; eauto).
    rewrite Hc. apply str_eqb_refl.
Qed.

(** ** Exact sums behind the saturating ones *)

Definition zsum (l : list Z) : Z := foldr Z.add 0 l.

Lemma zsum_app l1 l2 : zsum (l1 ++ l2) = zsum l1 + zsum l2.
Proof. unfold zsum. induction l1 as [|x l1 IH]; simpl; lia. Qed.

Lemma zsum_nonneg l : Forall (λ x, 0 <= x) l → 0 <= zsum l.
Proof. unfold zsum. induction 1; simpl; lia. Qed.

Definition pod_request (key : string) (parse : string → option Z) (p : Pod) : Z :=
  zsum (container_request key parse <$> ps_containers (pod_spec p)).

Definition used_on (key : string) (parse : string → option Z) (name : string) (ps : list Pod) : Z :=
  zsum (pod_request key parse <$> filter (λ p, counts_on name p = true) ps).

Definition cap (z : Z) : Z := Z.min z u64_max.

Lemma cap_add a b : 0 <= a → 0 <= b → saturating_add (cap a) (cap b) = cap (a + b).
Proof. unfold saturating_add, cap, u64_max. lia. Qed.

Lemma cap_add_r a b : 0 <= a → is_u64 b → saturating_add (cap a) b = cap (a + b).
Proof. unfold saturating_add, cap, is_u64, u64_max. lia. Qed.

Lemma f64_as_u64_range x : is_u64 (f64_as_u64 x).
Proof.
  unfold is_u64, f64_as_u64, f64_as, u64_max.
  destruct x as [|[]| |]; try lia.
Qed.

Lemma digits_value_nonneg l acc z : 0 <= acc → digits_value acc l = Some z → 0 <= z.
Proof.
  revert acc. induction l as [|c l IH]; simpl; intros acc Hacc E; [by simplify_eq|].
  destruct (digit c) as [d|] eqn:Hd; [|done]. eapply IH, E.
  unfold digit in Hd. case_match; simplify_eq.
  apply andb_prop in H as [?%Z.leb_le ?]. lia.
Qed.

Lemma parse_u64_range s z : parse_u64 s = Some z → is_u64 z.
Proof.
  unfold parse_u64, parse_unsigned, is_u64.
  set (l := match bytes s with c :: l' => _ | [] => _ end).
  destruct l as [|c l']; [done|].
  destruct (digits_value 0 (c :: l')) as [v|] eqn:E; [|done].
  destruct (Z.leb_spec v u64_max); [|done]. intros [= <-].
  split; [by eapply digits_value_nonneg, E|done].
Qed.

Lemma parse_cpu_range s z : parse_cpu_millicores s = Some z → is_u64 z.
Proof.
  unfold parse_cpu_millicores. destruct (strip_suffix _ _); [apply parse_u64_range|].
  destruct (parse_f64 _) as [f|]; [|done]. simpl.
  destruct (_ || _); [done|]. intros [= <-]. apply f64_as_u64_range.
Qed.

Lemma parse_memory_range s z : parse_memory_bytes s = Some z → is_u64 z.
Proof.
  unfold parse_memory_bytes. destruct (split_suffix _ _) as [num mult].
  destruct (parse_f64 _) as [f|]; [|done]. simpl.
  destruct (_ || _); [done|]. destruct (_ || _); [done|].
  intros [= <-]. apply f64_as_u64_range.
Qed.

Section sums.
Context (key : string) (parse : string → option Z).
Hypothesis parse_range : ∀ s z, parse s = Some z → is_u64 z.

Lemma container_request_range c : is_u64 (container_request key parse c).
Proof.
  unfold container_request. destruct (_ ≫= _) as [v|]; [|unfold is_u64, u64_max; lia].
  destruct (parse v) as [z|] eqn:E; [by eapply parse_range|].
  simpl. unfold is_u64, u64_max. lia.
Qed.

Lemma pod_request_nonneg p : 0 <= pod_request key parse p.
Proof.
  apply zsum_nonneg, Forall_fmap, Forall_true. intros c.
  apply (container_request_range c).
Qed.

Lemma used_on_nonneg name ps : 0 <= used_on key parse name ps.
Proof. apply zsum_nonneg, Forall_fmap, Forall_true. apply pod_request_nonneg. Qed.

Lemma used_on_app name ps qs :
  used_on key parse name (ps ++ qs) = used_on key parse name ps + used_on key parse name qs.
Proof. unfold used_on. by rewrite filter_app, fmap_app, zsum_app. Qed.
End sums.

Abbreviation cpu_request := (pod_request "cpu" parse_cpu_millicores).
Abbreviation mem_request := (pod_request "memory" parse_memory_bytes).
Abbreviation cpu_used := (used_on "cpu" parse_cpu_millicores).
Abbreviation mem_used := (used_on "memory" parse_memory_bytes).

Lemma fold_requests cs a b :
  0 <= a → 0 <= b →
  foldl (λ '(cpu_m, mem_b) c,
    (saturating_add cpu_m (container_request "cpu" parse_cpu_millicores c),
     saturating_add mem_b (container_request "memory" parse_memory_bytes c)))
    (cap a, cap b) cs =
  (cap (a + zsum (container_request "cpu" parse_cpu_millicores <$> cs)),
   cap (b + zsum (container_request "memory" parse_memory_bytes <$> cs))).
Proof.
  revert a b. induction cs as [|c cs IH]; intros a b Ha Hb; csimpl; [by rewrite !Z.add_0_r|].
  pose proof (container_request_range "cpu" _ parse_cpu_range c) as Hc.
  pose proof (container_request_range "memory" _ parse_memory_range c) as Hm.
  rewrite !cap_add_r, IH by (done || unfold is_u64 in *; lia).
  by rewrite !Z.add_assoc.
Qed.

Lemma sum_pod_requests_spec p : sum_pod_requests p = (cap (cpu_request p), cap (mem_request p)).
Proof. by apply (fold_requests _ 0 0). Qed.

Lemma fold_used name ps a b :
  0 <= a → 0 <= b →
  foldl (λ '(cpu_m, mem_b) p,
    if counts_on name p then
      let '(c, m) := sum_pod_requests p in (saturating_add cpu_m c, saturating_add mem_b m)
    else (cpu_m, mem_b)) (cap a, cap b) ps =
  (cap (a + cpu_used name ps), cap (b + mem_used name ps)).
Proof.
  revert a b. induction ps as [|p ps IH]; intros a b Ha Hb; csimpl.
  { by rewrite !Z.add_0_r. }
  unfold used_on. rewrite !filter_cons. destruct (counts_on name p) eqn:Hc.
  - rewrite !decide_True by done. csimpl. rewrite sum_pod_requests_spec.
    pose proof (pod_request_nonneg "cpu" _ parse_cpu_range p).
    pose proof (pod_request_nonneg "memory" _ parse_memory_range p).
    rewrite !cap_add, IH by lia. unfold used_on. f_equal; f_equal; lia.
  - rewrite !decide_False by done. by apply IH.
Qed.

Lemma sum_used_spec node ps :
  sum_used_on_node node ps =
    (cap (cpu_used (ObjectMeta_name (node_metadata node)) ps),
     cap (mem_used (ObjectMeta_name (node_metadata node)) ps)).
Proof. by apply (fold_used _ _ 0 0). Qed.

(** A resource fits: the pod asks for none of it, the node does not report
    it, or what is used and asked for is within the allocatable amount (an
    amount of [u64::MAX] is no limit). *)
Definition resource_fits (alloc : option Z) (used request : Z) : Prop :=
  request = 0 ∨ ∀ c, alloc = Some c → used + request <= c ∨ c = u64_max.

Lemma resource_fits_spec alloc used request :
  0 <= used → 0 <= request → (∀ c, alloc = Some c → is_u64 c) →
  ((0 <? cap request) && match alloc with
                         | Some c => c <? saturating_add (cap used) (cap request)
                         | None => false
                         end = false) ↔ resource_fits alloc used request.
Proof.
  intros Hu Hr Hc. unfold resource_fits. rewrite cap_add by done.
  destruct alloc as [c|]; [specialize (Hc c eq_refl)|].
  - rewrite andb_false_iff, !Z.ltb_ge. unfold cap, is_u64, u64_max in *. split.
    + intros [?|?]; [lia|]. right. intros ? [= <-]. lia.
    + intros [->|Hf]; [lia|]. specialize (Hf c eq_refl). lia.
  - rewrite andb_false_r. split; [|done]. intros _. by right.
Qed.

Lemma allocatable_range node key parse c :
  (∀ s z, parse s = Some z → is_u64 z) →
  allocatable_of node key parse = Some c → is_u64 c.
Proof.
  unfold allocatable_of. intros Hp.
  destruct ((node_status node ≫= nstat_allocatable) ≫= _) as [v|]; [apply Hp|done].
Qed.

Lemma node_fits_spec node ps pod :
  let '(cpu, mem) := sum_pod_requests pod in
  node_fits node ps cpu mem = true ↔
  resource_fits (allocatable_of node "cpu" parse_cpu_millicores)
    (cpu_used (ObjectMeta_name (node_metadata node)) ps) (cpu_request pod) ∧
  resource_fits (allocatable_of node "memory" parse_memory_bytes)
    (mem_used (ObjectMeta_name (node_metadata node)) ps) (mem_request pod).
Proof.
  rewrite sum_pod_requests_spec. unfold node_fits. rewrite sum_used_spec.
  rewrite <- !resource_fits_spec;
    eauto using used_on_nonneg, pod_request_nonneg, parse_cpu_range, parse_memory_range,
      allocatable_range.
  destruct (_ && _); [by intuition|]. destruct (_ && _); by intuition.
Qed.

(** What a node must satisfy to take a pod. *)
Record feasible (pod : Pod) (nodes : list Node) (existing_pods : list Pod) (node : Node) : Prop := {
  feasible_ready :
    ∀ conds, node_status node ≫= nstat_conditions = Some conds →
    ∃ c, c ∈ conds ∧ ncond_condition_type c = NodeConditionType_Ready ∧
         ncond_status c = ConditionStatus_True;
  feasible_selector :
    ∀ selector, ps_node_selector (pod_spec pod) = Some selector →
    selector ⊆ ObjectMeta_labels (node_metadata node);
  feasible_node_affinity :
    ∀ required, (ps_affinity (pod_spec pod) ≫= aff_node_affinity)
      ≫= naff_required_during_scheduling_ignored_during_execution = Some required →
    ∃ term, term ∈ nsel_node_selector_terms required ∧
      ∀ req, req ∈ nst_match_expressions term →
        match_expression req (ObjectMeta_labels (node_metadata node)) = true;
  feasible_affinity :
    ∀ pa term, ps_affinity (pod_spec pod) ≫= aff_pod_affinity = Some pa →
    term ∈ paff_required_during_scheduling_ignored_during_execution pa →
    ∃ p, p ∈ existing_pods ∧
      term_hits nodes term (ObjectMeta_namespace (pod_metadata pod)) node p;
  feasible_anti_affinity :
    ∀ paa term p, ps_affinity (pod_spec pod) ≫= aff_pod_anti_affinity = Some paa →
    term ∈ panti_required_during_scheduling_ignored_during_execution paa → p ∈ existing_pods →
    ¬ term_hits nodes term (ObjectMeta_namespace (pod_metadata pod)) node p;
  feasible_cpu :
    resource_fits (allocatable_of node "cpu" parse_cpu_millicores)
      (cpu_used (ObjectMeta_name (node_metadata node)) existing_pods) (cpu_request pod);
  feasible_memory :
    resource_fits (allocatable_of node "memory" parse_memory_bytes)
      (mem_used (ObjectMeta_name (node_metadata node)) existing_pods) (mem_request pod);
}.

Lemma existsb_elem_of {A} (f : A → bool) l : existsb f l = true ↔ ∃ x, x ∈ l ∧ f x = true.
Proof. rewrite existsb_exists. by setoid_rewrite list_elem_of_In. Qed.
Lemma forallb_elem_of {A} (f : A → bool) l : forallb f l = true ↔ ∀ x, x ∈ l → f x = true.
Proof. rewrite forallb_forall. by setoid_rewrite list_elem_of_In. Qed.

Lemma match_option_true {A} (o : option A) (f : A → bool) :
  match o with Some x => f x | None => true end = true ↔ ∀ x, o = Some x → f x = true.
Proof. destruct o; naive_solver. Qed.

Lemma pod_affinity_satisfied_spec candidate nodes ps term pod_ns :
  NoDup (node_names nodes) →
  (pod_affinity_satisfied candidate nodes ps term pod_ns true = true ↔
   ∃ p, p ∈ ps ∧ term_hits nodes term pod_ns candidate p) ∧
  (pod_affinity_satisfied candidate nodes ps term pod_ns false = true ↔
   ∀ p, p ∈ ps → ¬ term_hits nodes term pod_ns candidate p).
Proof.
  intros Hnd. unfold pod_affinity_satisfied. split.
  - rewrite existsb_elem_of. by setoid_rewrite pod_in_topology_spec.
  - rewrite negb_true_iff, <- not_true_iff_false, existsb_elem_of.
    setoid_rewrite pod_in_topology_spec; [|done].
    split; [intros Hn p Hp Ht; apply Hn; eauto|intros Hn (p & Hp & Ht); by eapply Hn].
Qed.

Lemma node_feasible_spec pod nodes ps node :
  NoDup (node_names nodes) →
  node_feasible pod nodes ps node = true ↔ feasible pod nodes ps node.
Proof.
  intros Hnd. unfold node_feasible.
  pose proof (node_fits_spec node ps pod) as Hfits.
  destruct (sum_pod_requests pod) as [cpu mem].
  rewrite !andb_true_iff, Hfits, !match_option_true. unfold is_node_ready.
  rewrite match_option_true. setoid_rewrite labels_match_spec.
  setoid_rewrite existsb_elem_of. setoid_rewrite forallb_elem_of.
  setoid_rewrite andb_true_iff. setoid_rewrite bool_decide_eq_true.
  pose proof (λ term pod_ns,
    proj1 (pod_affinity_satisfied_spec node nodes ps term pod_ns Hnd)) as Haff.
  pose proof (λ term pod_ns,
    proj2 (pod_affinity_satisfied_spec node nodes ps term pod_ns Hnd)) as Hanti.
  setoid_rewrite Haff. setoid_rewrite Hanti. split.
  - intros [[[[[? ?] ?] ?] ?] [? ?]]. split; eauto.
  - intros []. repeat split; eauto.
Qed.

(** ** Placement *)

(** C2.  [find_node_for_pod] returns a node that passes every predicate and
    scores highest; of several such nodes it returns the last one in the list
    (the comment in the code says the earlier one).  It fails exactly when no
    node is feasible. *)
Theorem find_node_for_pod_correct pod nodes ps strategy :
  NoDup (node_names nodes) →
  let '(cpu, mem) := sum_pod_requests pod in
  let score n := score_node n ps cpu mem strategy in
  match find_node_for_pod pod nodes ps strategy with
  | Ok n =>
      feasible pod nodes ps n ∧ ∃ l1 l2, nodes = l1 ++ n :: l2 ∧
        (∀ m, m ∈ l1 → feasible pod nodes ps m → score m <= score n) ∧
        (∀ m, m ∈ l2 → feasible pod nodes ps m → score m < score n)
  | Err e => e = "No suitable node found for pod" ∧ ∀ n, n ∈ nodes → ¬ feasible pod nodes ps n
  end.
Proof.
  intros Hnd. unfold find_node_for_pod. destruct (sum_pod_requests pod) as [cpu mem].
  set (P := λ n, node_feasible pod nodes ps n = true).
  assert (HP : ∀ n, P n ↔ feasible pod nodes ps n) by (intros; by apply node_feasible_spec).
  destruct (max_by_key _ _) as [n|] eqn:E.
  - apply max_by_key_Some in E as (c1 & c2 & Hc & H1 & H2).
    apply filter_cut in Hc as (l1 & l2 & -> & <- & <- & Hn).
    split; [by apply HP|]. exists l1, l2. rewrite Forall_forall in H1, H2.
    split; [done|]. split; intros m Hm Hf; [apply H1|apply H2];
      apply list_elem_of_filter; by rewrite (HP m).
  - split; [done|]. intros n Hn Hf. apply max_by_key_None in E.
    apply (not_elem_of_nil n). rewrite <- E. apply list_elem_of_filter. by rewrite (HP n).
Qed.

Lemma find_node_Ok pod nodes ps strategy n :
  NoDup (node_names nodes) →
  find_node_for_pod pod nodes ps strategy = Ok n → n ∈ nodes ∧ feasible pod nodes ps n.
Proof.
  intros Hnd. unfold find_node_for_pod. destruct (sum_pod_requests pod) as [cpu mem].
  destruct (max_by_key _ _) as [m|] eqn:E; [|done]. intros [= <-].
  apply max_by_key_Some in E as (c1 & c2 & Hc & _).
  apply filter_cut in Hc as (l1 & l2 & -> & _ & _ & Hm).
  split; [set_solver|]. by apply node_feasible_spec.
Qed.

(** ** One pass *)

(** The pod list a pass ends with is the one it began with and, for each pod
    it placed, a copy bound to a node that was feasible at that moment. *)
Inductive placed (nodes : list Node) : list Pod → list Pod → Prop :=
| placed_nil ps : placed nodes ps ps
| placed_step ps pod node ps' :
    node ∈ nodes → feasible pod nodes ps node →
    placed nodes
      (ps ++ [Pod_with_spec (PodSpec_with_node_name
                (Some (ObjectMeta_name (node_metadata node))) (pod_spec pod)) pod]) ps' →
    placed nodes ps ps'.

Section pass.
Context `{Extern, Env}.

(** A pod is bound only to a feasible node. *)
Lemma schedule_pod_Ok strategy pod nodes ps w name w' :
  NoDup (node_names nodes) →
  schedule_pod strategy pod nodes ps w = (Ok name, w') →
  ∃ node, node ∈ nodes ∧ feasible pod nodes ps node ∧
          name = ObjectMeta_name (node_metadata node).
Proof.
  intros Hnd E. unfold schedule_pod in E.
  apply bind_Ok in E as (node & w1 & Ef & E). injection Ef as Ef <-.
  apply find_node_Ok in Ef as [Hn Hf]; [|done].
  exists node. split; [done|]. split; [done|].
  repeat (apply bind_Ok in E as (? & ? & _ & E)). by injection E as <- _.
Qed.

Lemma schedule_all_placed strategy nodes pods ps w ps' w' :
  NoDup (node_names nodes) →
  schedule_all strategy nodes ps pods w = (Ok ps', w') → placed nodes ps ps'.
Proof.
  intros Hnd. revert ps w. induction pods as [|pod pods IH]; intros ps w E; simpl in E.
  { injection E as <- <-. constructor. }
  apply bind_Ok in E as (r & w1 & Er & E).
  destruct r as [name|e]; [|by eapply IH].
  unfold attempt in Er.
  destruct (schedule_pod strategy pod nodes ps w) as [r w2] eqn:Es.
  injection Er as -> <-.
  apply schedule_pod_Ok in Es as (node & Hn & Hf & ->); [|done].
  econstructor; [exact Hn|exact Hf|]. by eapply IH.
Qed.

(** The pass itself never fails, whatever the statements do. *)
Lemma schedule_all_total strategy nodes pods ps w :
  ∃ ps' w', schedule_all strategy nodes ps pods w = (Ok ps', w').
Proof.
  revert ps w. induction pods as [|pod pods IH]; intros ps w; simpl; [by eexists _, _|].
  unfold mbind, st_bind, attempt.
  destruct (schedule_pod strategy pod nodes ps w) as [[name|e] w1]; apply IH.
Qed.
End pass.

(** ** Capacity *)

(** A node's requests stay within what it reports. *)
Definition within (alloc : option Z) (used : Z) : Prop :=
  ∀ c, alloc = Some c → used <= c ∨ c = u64_max.

Lemma counts_on_bound name pod n :
  counts_on name (Pod_with_spec (PodSpec_with_node_name (Some n) (pod_spec pod)) pod) = true →
  name = n.
Proof.
  unfold counts_on. intros [Hb _]%andb_prop. apply bool_decide_eq_true in Hb.
  by injection Hb.
Qed.

Lemma used_on_bind key parse name ps pod n :
  (∀ s z, parse s = Some z → is_u64 z) →
  let bound := Pod_with_spec (PodSpec_with_node_name (Some n) (pod_spec pod)) pod in
  used_on key parse name (ps ++ [bound]) = used_on key parse name ps ∨
  (name = n ∧
   used_on key parse name (ps ++ [bound]) = used_on key parse name ps + pod_request key parse pod).
Proof.
  intros Hp bound. rewrite used_on_app.
  assert (used_on key parse name [bound] =
    if decide (counts_on name bound = true) then pod_request key parse pod else 0) as ->.
  { unfold used_on. rewrite filter_cons. case_decide; [|done]. simpl.
    change (pod_request key parse bound) with (pod_request key parse pod). lia. }
  case_decide as Hc; [|left; lia]. right. split; [by eapply counts_on_bound|done].
Qed.

Lemma node_of_name nodes n m :
  NoDup (node_names nodes) → n ∈ nodes → m ∈ nodes →
  ObjectMeta_name (node_metadata n) = ObjectMeta_name (node_metadata m) → n = m.
Proof.
  intros Hnd [i Hi]%list_elem_of_lookup [j Hj]%list_elem_of_lookup E.
  assert (i = j) as <-; [|by simplify_eq].
  eapply (NoDup_lookup _ i j _ Hnd); unfold node_names;
    rewrite list_lookup_fmap, ?Hi, ?Hj; simpl; [done|congruence].
Qed.

Section capacity.
Context (key : string) (parse : string → option Z).
Hypothesis parse_range : ∀ s z, parse s = Some z → is_u64 z.
Hypothesis fits : ∀ pod nodes ps n, feasible pod nodes ps n →
  resource_fits (allocatable_of n key parse)
    (used_on key parse (ObjectMeta_name (node_metadata n)) ps) (pod_request key parse pod).

Lemma placed_within nodes ps ps' n :
  NoDup (node_names nodes) → placed nodes ps ps' → n ∈ nodes →
  within (allocatable_of n key parse)
    (used_on key parse (ObjectMeta_name (node_metadata n)) ps) →
  within (allocatable_of n key parse)
    (used_on key parse (ObjectMeta_name (node_metadata n)) ps').
Proof.
  intros Hnd Hp Hn. induction Hp as [|ps pod node ps' Hnode Hf _ IH]; [done|].
  intros Hw. apply IH.
  destruct (used_on_bind key parse (ObjectMeta_name (node_metadata n)) ps pod
    (ObjectMeta_name (node_metadata node)) parse_range) as [E|[Hname E]]; rewrite E; [done|].
  assert (n = node) as -> by (by eapply node_of_name).
  intros c Hc. destruct (fits _ _ _ _ Hf) as [->|Hfit]; [rewrite Z.add_0_r|]; auto.
Qed.
End capacity.


(** C14.  [schedule_pod] on a quiet database binds that pod and no other: the
    stored pods change only by the node name of its key, the bound pod is
    published once as modified (nothing if it is gone), and no table but the
    events changes. *)
Theorem schedule_pod_binds `{ExternOk, EnvOk} strategy pod nodes ps w name w' :
  quiet → repo_wf Pod (w_db w) →
  schedule_pod strategy pod nodes ps w = (Ok name, w') →
  let ns := ObjectMeta_namespace (pod_metadata pod) in
  let pod_name := ObjectMeta_name (pod_metadata pod) in
  repo_view Pod (w_db w') = alter (bound_to name) (ns, pod_name) (repo_view Pod (w_db w)) ∧
  bus_sent (w_bus w') = bus_sent (w_bus w) ++
    match repo_view Pod (w_db w) !! (ns, pod_name) with
    | Some p => [mk_ChangeEvent "Pod" (Some ns) pod_name Modified (to_value (bound_to name p))]
    | None => []
    end ∧
  set_events ∅ (set_pods ∅ (w_db w')) = set_events ∅ (set_pods ∅ (w_db w)).
Proof.
  intros Hq Hwf E ns pod_name. unfold schedule_pod in E. fold ns pod_name in E.
  apply bind_Ok in E as (node & w0 & Ef & E). injection Ef as Ef <-.
  set (node_name := ObjectMeta_name (node_metadata node)) in *.
  apply bind_Ok in E as ([] & wb & Eb & E). apply lift_err_Ok in Eb.
  destruct (run_bind_to_node ns pod_name node_name w Hq Hwf)
    as (wb' & Eb' & Hpods & Hwfb & Hbus & t & Hdb).
  rewrite Eb' in Eb. injection Eb as ->.
  apply bind_Ok in E as (r & wg & Eg & E).
  apply bind_Ok in E as ([] & wp & Ep & E).
  apply bind_Ok in E as ([] & we & Ee & E). injection E as <- <-.
  pose proof (emit_event_frame (E:=string)
    (λ d b, (db_pods d, set_events ∅ (set_pods ∅ d), bus_sent b)) (pod_ref pod) ns
    EventType_Normal "Scheduled"
    ("Successfully assigned " +:+ ns +:+ "/" +:+ pod_name +:+ " to " +:+ node_name)
    "scheduler" (λ _ _ _, eq_refl) wp) as Hframe.
  rewrite Ee in Hframe.
  pose proof (f_equal (λ x, x.1.1) Hframe : db_pods (w_db we) = db_pods (w_db wp)) as Hp.
  pose proof (f_equal (λ x, x.1.2) Hframe : set_events ∅ (set_pods ∅ (w_db we)) =
    set_events ∅ (set_pods ∅ (w_db wp))) as Hrest.
  pose proof (f_equal snd Hframe : bus_sent (w_bus we) = bus_sent (w_bus wp)) as Hsent.
  assert (Hget : db_pods (w_db wp) = db_pods (w_db wb) ∧ w_db wp = w_db wb ∧
    bus_sent (w_bus wp) = bus_sent (w_bus wb) ++
      match repo_view Pod (w_db w) !! (ns, pod_name) with
      | Some p => [mk_ChangeEvent "Pod" (Some ns) pod_name Modified (to_value (bound_to node_name p))]
      | None => []
      end).
  { pose proof (repo_get_spec (T:=Pod) (ns, pod_name) wb Hq Hwfb) as Hg.
    rewrite Hpods, lookup_alter_eq in Hg. unfold attempt in Eg.
    change (repo_get Pod (ns, pod_name)) with (PodRepository_get ns pod_name) in Hg.
    destruct (repo_view Pod (w_db w) !! (ns, pod_name)) as [p|]; simpl in Hg.
    - rewrite Hg in Eg. injection Eg as <- <-. injection Ep as <-. simpl.
      by rewrite bus_sent_publish.
    - destruct Hg as [msg Hg]. rewrite Hg in Eg. injection Eg as <- <-. injection Ep as <-.
      simpl. by rewrite app_nil_r. }
  destruct Hget as (Hpp & Hdbp & Hbusp).
  split; [|split].
  - rewrite <- Hpods. apply pods_same. congruence.
  - by rewrite Hsent, Hbusp, Hbus.
  - by rewrite Hrest, Hdbp, Hdb.
Qed.

(** ** Concrete inputs *)

Definition meta_named (name : string) : ObjectMeta :=
  ObjectMeta_with_name (Some name) ObjectMeta_default.
Definition node_named (name cpu : string) : Node :=
  Node_with_status
    (Some (mk_NodeStatus None (Some {["cpu" := cpu]}) None None None None NodePhase_default))
    (Node_with_metadata (meta_named name) Node_default).
Definition container_asking (cpu : string) : Container :=
  mk_Container "c" "nginx" None None None None None
    (Some (mk_ResourceRequirements None (Some {["cpu" := cpu]}))) None.
Definition pod_asking (name cpu : string) : Pod :=
  Pod_with_spec (mk_PodSpec [container_asking cpu] None None None None false None None)
    (Pod_with_metadata (meta_named name) Pod_default).

Lemma two_nodes_distinct : NoDup (node_names [node_named "a" "2"; node_named "b" "2"]).
Proof. apply (bool_decide_unpack _). vm_compute. exact I. Qed.

(** Two equal nodes: the second one is taken. *)
Lemma find_node_for_pod_correct_witness :
  NoDup (node_names [node_named "a" "2"; node_named "b" "2"]) ∧
  feasible (pod_asking "p" "500m") [node_named "a" "2"; node_named "b" "2"] []
    (node_named "b" "2").
Proof.
  split; [apply two_nodes_distinct|].
  pose proof (find_node_for_pod_correct (pod_asking "p" "500m")
    [node_named "a" "2"; node_named "b" "2"] [] LeastAllocated two_nodes_distinct) as Hc.
  destruct (sum_pod_requests (pod_asking "p" "500m")) as [cpu mem].
  assert (find_node_for_pod (pod_asking "p" "500m") [node_named "a" "2"; node_named "b" "2"] []
    LeastAllocated = Ok (node_named "b" "2")) as E by (vm_compute; reflexivity).
  rewrite E in Hc. exact (proj1 Hc).
Defined.


Lemma schedule_pod_binds_witness :
  let r := schedule_pod LeastAllocated (pod_asking "p" "500m")
             [node_named "a" "2"; node_named "b" "2"] [] start in
  r.1 = Ok "b" ∧ repo_wf Pod (w_db start) ∧ bus_sent (w_bus r.2) = [].
Proof.
  assert (repo_wf Pod (w_db start)) as Hwf by apply map_Forall_empty.
  assert (E : (schedule_pod LeastAllocated (pod_asking "p" "500m")
             [node_named "a" "2"; node_named "b" "2"] [] start).1 = Ok "b")
    by (vm_compute; reflexivity).
  split; [exact E|]. split; [exact Hwf|].
  destruct (schedule_pod LeastAllocated (pod_asking "p" "500m")
             [node_named "a" "2"; node_named "b" "2"] [] start) as [r w'] eqn:Er.
  simpl in E. subst r.
  destruct (schedule_pod_binds _ _ _ _ _ _ _ ref_quiet Hwf Er) as (_ & Hsent & _).
  exact Hsent.
Defined.

(** ** Quantities *)

Lemma parse_cpu_milli (n : N) :
  parse_cpu_millicores (pretty n +:+ "m") =
    if Z.of_N n <=? u64_max then Some (Z.of_N n) else None.
Proof.
  destruct (pretty_N_spec n) as (_ & Hvis & _).
  unfold parse_cpu_millicores. rewrite trim_visible.
  - by rewrite strip_suffix_app, trim_pretty, <- parse_unsigned_pretty.
  - rewrite bytes_app, forallb_app, Hvis. done.
Qed.

(**  A CPU quantity in millicores is read exactly: the decimal text of a
    [u64] followed by [m] is that number, a larger number is refused, and every
    quantity that is read, in millicores or in cores, is a [u64]. *)
Theorem parse_cpu_millicores_exact :
  (∀ n : N, parse_cpu_millicores (pretty n +:+ "m") =
     if Z.of_N n <=? u64_max then Some (Z.of_N n) else None) ∧
  (∀ s z, parse_cpu_millicores s = Some z → 0 <= z <= u64_max).
Proof. split; [apply parse_cpu_milli|apply parse_cpu_range]. Qed.
