(* ===== verification/Lease.v ===== *)
(** * Leases ([src/src/db/lease.rs])

    The named leases with which several server processes on one Postgres
    database agree on who runs a controller.  [try_acquire] is one process's
    call; the second part interleaves the calls of many processes on one
    lease, each a single statement. *)
From S2P Require Import Prelude RustStd Json External Error Bus World Repository RepositoryOk.
From S2P Require Import Reference RefEnv.

Local Open Scope Z_scope.

Inductive Backend : Type := Sqlite | Postgres.

#[export] Instance Backend_eq_dec : EqDecision Backend.
Proof. solve_decision. Defined.

Definition Backend_from_url (url : string) : Backend :=
  if starts_with "sqlite:" url then Sqlite else Postgres.

Record LeaseManager : Type := mk_LeaseManager {
  lm_holder : string;
  lm_backend : Backend;
}.

Section lease.
Context `{Extern, Env}.

Definition LeaseManager_new {E} (backend : Backend) : M E LeaseManager :=
  u ← new_v4; mret (mk_LeaseManager (uuid_to_string u) backend).

(** Whether [ON CONFLICT .. DO UPDATE .. WHERE holder = excluded.holder OR
    expires_at < now] fires on a row; a comparison with NULL does not. *)
Definition lease_free (holder now : string) (row : LeaseRow) : bool :=
  match lr_holder row with Some h => str_eqb h holder | None => false end ||
  match lr_expires_at row with Some e => str_ltb e now | None => false end.

(** The statement; its result is [rows_affected()]. *)
Definition acquire_stmt (name holder expires now : string) (_ : nat) (d : Db)
    : result string (nat * Db) :=
  let take := set_leases (<[name := mk_LeaseRow (Some holder) (Some expires)]> (db_leases d)) d in
  match db_leases d !! name with
  | None => Ok (1%nat, take)
  | Some row => if lease_free holder now row then Ok (1%nat, take) else Ok (0%nat, d)
  end.

(** [chrono::Duration::from_std(ttl).unwrap_or(30 s)], in nanoseconds. *)
Definition lease_duration (ttl : Z) : Z :=
  if ttl <=? 9223372036854775807 * 1000000 then ttl else 30000000000.

Definition try_acquire {E} (lm : LeaseManager) (name : string) (ttl : Z) : M E bool :=
  match lm_backend lm with
  | Sqlite => mret true
  | Postgres =>
      t ← now;
      let expires := dt_add t (lease_duration ttl) in
      r ← attempt (run_stmt
            (acquire_stmt name (lm_holder lm) (to_rfc3339 expires) (to_rfc3339 t)));
      mret match r with Ok n => (0 <? Z.of_nat n) | Err _ => false end
  end.
End lease.

(** ** Many processes on one lease *)

(** One call of [try_acquire] on the lease: who called, the clock it read, the
    expiry it asked for and whether it was granted. *)
Record Attempt : Type := mk_Attempt {
  at_holder : string;
  at_now : DateTime;
  at_expires : DateTime;
  at_granted : bool;
}.

Section processes.
Context `{Extern} (name : string).

Inductive lease_step : Db → Attempt → Db → Prop :=
| lease_call d h t e n d' :
    acquire_stmt name h (to_rfc3339 e) (to_rfc3339 t) 0 d = Ok (n, d') →
    lease_step d (mk_Attempt h t e (0 <? Z.of_nat n)) d'.

Inductive lease_trace : Db → list Attempt → Db → Prop :=
| lease_done d : lease_trace d [] d
| lease_next d a d1 tr d2 :
    lease_step d a d1 → lease_trace d1 tr d2 → lease_trace d (a :: tr) d2.

(** The clocks agree and do not go back along the trace, and a process that
    calls again does not ask for an earlier expiry (the lease time is
    constant). *)
Definition clocks_agree (tr : list Attempt) : Prop :=
  StronglySorted (λ a b, val (at_now a) <= val (at_now b) ∧
                         val (at_expires a) <= val (at_expires b)) tr.

(** The row as instants. *)
Definition lease_held (d : Db) (h : string) (e : DateTime) : Prop :=
  db_leases d !! name = Some (mk_LeaseRow (Some h) (Some (to_rfc3339 e))).

Context `{!ExternOk}.

Lemma granted_holds d a d' :
  lease_step d a d' → at_granted a = true → lease_held d' (at_holder a) (at_expires a).
Proof.
  intros [d0 h t e n d1 Hs]. simpl. unfold acquire_stmt in Hs.
  destruct (db_leases d0 !! name) as [row|]; [destruct (lease_free _ _ row)|];
    simplify_eq/=; try done; intros _; unfold lease_held; simpl; by rewrite lookup_insert_eq.
Qed.

(** A call on a held lease: granted to the holder, or to another process once
    the lease has expired; refused otherwise, and then nothing changes. *)
Lemma call_on_held d h e a d' :
  lease_held d h e → lease_step d a d' →
  (at_granted a = true ∧ (at_holder a = h ∨ val e < val (at_now a))) ∨
  (at_granted a = false ∧ d' = d).
Proof.
  intros Hd Hst. revert Hd. destruct Hst as [d0 h' t e' n d1 Hs]. intros Hd. simpl.
  unfold acquire_stmt in Hs.
  unfold lease_held in Hd. rewrite Hd in Hs. unfold lease_free in Hs. simpl in Hs.
  destruct (str_eqb_reflect h h') as [<-|Hne]; simpl in Hs.
  { simplify_eq/=. left. auto. }
  rewrite rfc3339_order in Hs. destruct (Z.ltb_spec (val e) (val t)); simplify_eq/=; auto.
Qed.

(** While nobody reads a clock past [e], the lease stays with its holder. *)
Lemma held_until d h e tr d' :
  lease_held d h e → lease_trace d tr d' → clocks_agree tr →
  Forall (λ a, val e <= val (at_expires a)) tr →
  ∀ b, b ∈ tr → at_granted b = true → at_holder b ≠ h → val e < val (at_now b).
Proof.
  intros Hd Htr Hs He. revert h e Hd He.
  induction Htr as [|d a d1 tr d2 Hstep Htr IH]; intros h e Hd He b Hb Hg Hne.
  { by apply not_elem_of_nil in Hb. }
  apply StronglySorted_cons in Hs as [Ha Hs].
  apply Forall_cons in He as [Hea He].
  pose proof (call_on_held _ _ _ _ _ Hd Hstep) as Hcall.
  apply elem_of_cons in Hb as [->|Hb].
  { destruct Hcall as [[_ [?|?]]|[? _]]; [done|done|congruence]. }
  destruct Hcall as [[Hga [Hh|Hlt]]|[_ ->]].
  - pose proof (granted_holds _ _ _ Hstep Hga) as Hd1. rewrite Hh in Hd1.
    assert (val (at_expires a) < val (at_now b)); [|lia].
    eapply (IH Hs h (at_expires a)); try done.
    eapply Forall_impl; [exact Ha|]. simpl. lia.
  - rewrite Forall_forall in Ha. destruct (Ha b Hb). lia.
  - by eapply (IH Hs h e).
Qed.
End processes.

(** C11.  Mutual exclusion.  If a call is granted the lease up to [at_expires a]
    and a call of another process is granted it later, that process's clock
    had passed [at_expires a]: with clocks that agree, no two processes hold
    the lease at once. *)
Theorem lease_mutual_exclusion `{ExternOk} name d tr d' i j a b :
  lease_trace name d tr d' → clocks_agree tr →
  tr !! i = Some a → tr !! j = Some b → (i < j)%nat →
  at_granted a = true → at_granted b = true → at_holder b ≠ at_holder a →
  val (at_expires a) < val (at_now b).
Proof.
  intros Htr. revert i j. induction Htr as [|d a0 d1 tr d2 Hstep Htr IH];
    intros i j Hs Hi Hj Hij Ha Hb Hne; [done|].
  apply StronglySorted_cons in Hs as [Hle Hs].
  destruct j as [|j]; [lia|]. destruct i as [|i]; simpl in *.
  - injection Hi as ->. pose proof (granted_holds name _ _ _ Hstep Ha) as Hd1.
    eapply (held_until name); try done.
    + eapply Forall_impl; [exact Hle|]. simpl. lia.
    + by eapply list_elem_of_lookup_2.
  - apply (IH i j); try done. lia.
Qed.

(**  [try_acquire], on Postgres and when its statement runs, is exactly
    one step of the interleaving above, with the reading of its clock and an
    expiry [ttl] later; on SQLite it is granted without touching the database,
    and a failed statement is a refusal. *)
Theorem try_acquire_steps `{Extern, Env} lm name ttl w :
  match lm_backend lm with
  | Sqlite => try_acquire (E:=string) lm name ttl w = (Ok true, w)
  | Postgres =>
      let t := env_now (w_clock w) in
      let r := try_acquire (E:=string) lm name ttl w in
      match env_fault (w_stmts w) with
      | None => ∃ granted, r.1 = Ok granted ∧
          lease_step name (w_db w)
            (mk_Attempt (lm_holder lm) t (dt_add t (lease_duration ttl)) granted) (w_db r.2)
      | Some (NotRun _) => r.1 = Ok false ∧ w_db r.2 = w_db w
      | Some (LostReply _) => r.1 = Ok false ∧ ∃ granted,
          lease_step name (w_db w)
            (mk_Attempt (lm_holder lm) t (dt_add t (lease_duration ttl)) granted) (w_db r.2)
      end
  end.
Proof.
  unfold try_acquire. destruct (lm_backend lm); [done|].
  set (t := env_now (w_clock w)). set (e := dt_add t (lease_duration ttl)).
  assert (∃ n d', acquire_stmt name (lm_holder lm) (to_rfc3339 e) (to_rfc3339 t) 0 (w_db w) =
    Ok (n, d')) as (n & d' & E).
  { unfold acquire_stmt. destruct (db_leases (w_db w) !! name) as [row|];
      [destruct (lease_free _ _ row)|]; by eexists _, _. }
  assert (Hst : lease_step name (w_db w)
    (mk_Attempt (lm_holder lm) t e (0 <? Z.of_nat n)) d') by (by constructor).
  assert (E' : acquire_stmt name (lm_holder lm) (to_rfc3339 e) (to_rfc3339 t) (w_stmts w)
    (w_db w) = Ok (n, d')) by exact E.
  unfold mbind, st_bind, now, attempt, run_stmt. simpl. fold t e. rewrite E'.
  destruct (env_fault (w_stmts w)) as [[msg|msg]|]; simpl; eauto.
Qed.

(** ** A concrete trace: another process takes over after the expiry *)

Definition first_call : Attempt := mk_Attempt "a" (ref_now 0) (ref_now 30) true.
Definition later_call : Attempt := mk_Attempt "b" (ref_now 31) (ref_now 61) true.

Lemma lease_mutual_exclusion_witness :
  (∃ d', lease_trace "scheduler" empty_db [first_call; later_call] d') ∧
  val (at_expires first_call) < val (at_now later_call).
Proof.
  assert (∃ d', lease_trace "scheduler" empty_db [first_call; later_call] d') as [d' Htr].
  { eexists. econstructor.
    - apply (lease_call _ _ "a" (ref_now 0) (ref_now 30) 1). reflexivity.
    - econstructor; [|constructor].
      apply (lease_call _ _ "b" (ref_now 31) (ref_now 61) 1). vm_compute. reflexivity. }
  split; [by exists d'|].
  eapply (lease_mutual_exclusion _ _ _ _ 0 1 first_call later_call Htr);
    try reflexivity; [|lia|done].
  repeat constructor; vm_compute; discriminate.
Defined.
