(* ===== verification/Controller.v ===== *)
(** * The controllers ([src/src/server/controller.rs])

    The reconciliation passes for deployments, stateful sets, daemon sets, pods
    and services, and one tick of the manager's loop.  A pass works on the
    objects it read at its start, as the code does; [anyhow] errors are their
    text. *)
From S2P Require Import Prelude RustStd Json External Models Wire Error Bus World Repository.
From S2P Require Import Recorder Lease.

Local Open Scope Z_scope.

(** [lo..hi] on integers. *)
Definition range (lo hi : Z) : list Z :=
  (λ n, lo + Z.of_nat n) <$> seq 0 (Z.to_nat (hi - lo)).

(** [&s[..8]] of an identifier's text. *)
Definition prefix8 (s : string) : string := of_bytes (take 8 (bytes s)).

(** [refs.iter().any(|r| Some(r.uid) == uid)]. *)
Definition owned_by (uid : option Uuid) (p : Pod) : bool :=
  match om_owner_references (pod_metadata p) with
  | Some refs => existsb (λ r, bool_decide (Some (oref_uid r) = uid)) refs
  | None => false
  end.

Definition is_running (p : Pod) : bool :=
  match pod_status p with
  | Some s => bool_decide (pstat_phase s = PodPhase_Running)
  | None => false
  end.

(** The status of a pod a controller creates. *)
Definition pending_status : PodStatus :=
  mk_PodStatus PodPhase_Pending None None None None None None None None.

(** A pod built from a template for an owner. *)
Definition pod_from_template (template : PodTemplateSpec) (spec : PodSpec)
    (namespace pod_name : string) (uid : Uuid) (owner_kind owner_name : string)
    (owner_uid : Uuid) : Pod :=
  {| pod_type_meta := mk_TypeMeta (Some "v1") (Some "Pod");
     pod_metadata :=
       {| om_name := Some pod_name;
          om_namespace := Some namespace;
          om_uid := Some uid;
          om_resource_version := None;
          om_labels := om_labels (pts_metadata template);
          om_annotations := om_annotations (pts_metadata template);
          om_creation_timestamp := None;
          om_owner_references := Some
            [mk_OwnerReference "apps/v1" owner_kind owner_name owner_uid (Some true) (Some true)] |};
     pod_spec := spec;
     pod_status := Some pending_status |}.

Section controller.
Context `{Extern, Env}.

Definition LEASE_TTL : Z := 30000000000.

(** [Repository::f(..).await?] in a function that returns [anyhow::Result]. *)
Definition any {A} (m : M Error A) : M string A := lift_err Error_to_string m.

(** ** Deployments *)

Definition deployment_selector (d : Deployment) : gmap string string :=
  let selector := default ∅ (ls_match_labels (dspec_selector (dep_spec d))) in
  if bool_decide (selector = ∅)
  then default ∅ (om_labels (pts_metadata (dspec_template (dep_spec d))))
  else selector.

Definition deployment_pod (deployment : Deployment) (deployment_uid suffix uid : Uuid) : Pod :=
  let deployment_name := ObjectMeta_name (dep_metadata deployment) in
  let template := dspec_template (dep_spec deployment) in
  pod_from_template template (pts_spec template) (ObjectMeta_namespace (dep_metadata deployment))
    (deployment_name +:+ "-" +:+ prefix8 (uuid_to_string suffix)) uid
    "Deployment" deployment_name deployment_uid.

Definition create_pod_for_deployment (deployment : Deployment) : M string () :=
  let namespace := ObjectMeta_namespace (dep_metadata deployment) in
  deployment_uid ← uid_or_new (om_uid (dep_metadata deployment));
  suffix ← new_v4;
  uid ← new_v4;
  let pod := deployment_pod deployment deployment_uid suffix uid in
  any (PodRepository_create pod);;
  on_bus (publish Added "Pod" (Some namespace) (ObjectMeta_name (pod_metadata pod)) pod).

(** The loop that removes surplus pods. *)
Definition delete_owned (namespace : string) (pod : Pod) : M string () :=
  match om_name (pod_metadata pod) with
  | Some name =>
      attempt (PodRepository_delete namespace name);;
      on_bus (publish Deleted "Pod" (Some namespace) name pod)
  | None => mret ()
  end.

Definition reconcile_deployment (deployment : Deployment) : M string () :=
  let namespace := ObjectMeta_namespace (dep_metadata deployment) in
  let deployment_name := ObjectMeta_name (dep_metadata deployment) in
  let desired_replicas := val (DeploymentSpec_replicas (dep_spec deployment)) in
  let effective_selector := deployment_selector deployment in
  pods ← any (if bool_decide (effective_selector = ∅)
              then PodRepository_list (Some namespace) None
              else PodRepository_list (Some namespace) (Some effective_selector));
  let owned_pods := filter (λ p, owned_by (om_uid (dep_metadata deployment)) p = true) pods in
  let current_replicas := val (as_i32 (Z.of_nat (length owned_pods))) in
  let scaled (direction : string) :=
    "Scaled " +:+ direction +:+ " replica set " +:+ deployment_name +:+ " from " +:+
    pretty current_replicas +:+ " to " +:+ pretty desired_replicas in
  (if current_replicas <? desired_replicas then
     let to_create := val (as_i32 (desired_replicas - current_replicas)) in
     emit_event (deployment_ref deployment) namespace EventType_Normal "ScalingReplicaSet"
       (scaled "up") "deployment-controller";;
     for_each (range 0 to_create) (λ _,
       attempt (create_pod_for_deployment deployment);; mret ())
   else if desired_replicas <? current_replicas then
     let to_delete := val (as_i32 (current_replicas - desired_replicas)) in
     emit_event (deployment_ref deployment) namespace EventType_Normal "ScalingReplicaSet"
       (scaled "down") "deployment-controller";;
     for_each (take (Z.to_nat (to_delete `mod` 18446744073709551616)) owned_pods)
       (delete_owned namespace)
   else mret ());;
  let ready_replicas :=
    as_i32 (Z.of_nat (length (filter (λ p, is_running p = true) owned_pods))) in
  any (DeploymentRepository_update_status namespace deployment_name ready_replicas ready_replicas).

(** A pass goes on with the next object when one fails. *)
Definition reconcile_each {A} (body : A → M string ()) (xs : list A) : M string () :=
  for_each xs (λ x, attempt (body x);; mret ()).

Definition reconcile_deployments : M string () :=
  deployments ← any (DeploymentRepository_list None);
  reconcile_each reconcile_deployment deployments.

(** ** Stateful sets *)

Definition pod_for_statefulset (ss : StatefulSet) (ss_uid : Uuid) (pod_name : string) (uid : Uuid)
    : Pod :=
  let template := ssspec_template (ss_spec ss) in
  pod_from_template template (pts_spec template) (ObjectMeta_namespace (ss_metadata ss)) pod_name
    uid "StatefulSet" (ObjectMeta_name (ss_metadata ss)) ss_uid.

Definition statefulset_pod_name (name : string) (i : Z) : string := name +:+ "-" +:+ pretty i.

(** One index of the loop over [0..desired]: [inl] goes on, [inr] is a
    [break]; the accumulator is [(current, ready)]. *)
Definition statefulset_index (ss : StatefulSet) (ss_uid : Uuid) (acc : Z * Z) (i : Z)
    : M string (Z * Z + Z * Z) :=
  let namespace := ObjectMeta_namespace (ss_metadata ss) in
  let name := ObjectMeta_name (ss_metadata ss) in
  let parallel := StatefulSetSpec_is_parallel (ss_spec ss) in
  let pod_name := statefulset_pod_name name i in
  let '(current, ready) := acc in
  r ← attempt (PodRepository_get namespace pod_name);
  match r with
  | Ok pod =>
      if is_running pod then mret (inl (current + 1, ready + 1))
      else if negb parallel then mret (inr (current + 1, ready))
      else mret (inl (current + 1, ready))
  | Err _ =>
      uid ← new_v4;
      let pod := pod_for_statefulset ss ss_uid pod_name uid in
      created ← attempt (PodRepository_create pod);
      match created with
      | Err _ => mret (inr (current, ready))
      | Ok _ =>
          on_bus (publish Added "Pod" (Some namespace) pod_name pod);;
          emit_event (statefulset_ref ss) namespace EventType_Normal "SuccessfulCreate"
            ("create Pod " +:+ pod_name +:+ " in StatefulSet " +:+ name +:+ " successful")
            "statefulset-controller";;
          if negb parallel then mret (inr (current, ready)) else mret (inl (current, ready))
      end
  end.

(** One index above [desired]. *)
Definition statefulset_trim (ss : StatefulSet) (i : Z) : M string () :=
  let namespace := ObjectMeta_namespace (ss_metadata ss) in
  let pod_name := statefulset_pod_name (ObjectMeta_name (ss_metadata ss)) i in
  r ← attempt (PodRepository_get namespace pod_name);
  match r with
  | Ok pre =>
      attempt (PodRepository_delete namespace pod_name);;
      on_bus (publish Deleted "Pod" (Some namespace) pod_name pre)
  | Err _ => mret ()
  end.

(** [desired + 32] wraps as a release build's [i32] does. *)
Definition reconcile_statefulset (ss : StatefulSet) : M string () :=
  let namespace := ObjectMeta_namespace (ss_metadata ss) in
  let name := ObjectMeta_name (ss_metadata ss) in
  let desired := val (StatefulSetSpec_replicas (ss_spec ss)) in
  ss_uid ← uid_or_new (om_uid (ss_metadata ss));
  counts ← for_break (range 0 desired) (0, 0) (statefulset_index ss ss_uid);
  let '(current, ready) := counts in
  for_each (reverse (range desired (val (as_i32 (desired + 32))))) (statefulset_trim ss);;
  any (StatefulSetRepository_update_status namespace name (as_i32 ready) (as_i32 current)).

Definition reconcile_statefulsets : M string () :=
  sets ← any (StatefulSetRepository_list None);
  reconcile_each reconcile_statefulset sets.

(** ** Daemon sets *)

Definition pod_for_daemonset (ds : DaemonSet) (ds_uid : Uuid) (pod_name node_name : string)
    (uid : Uuid) : Pod :=
  let template := dsspec_template (ds_spec ds) in
  pod_from_template template (PodSpec_with_node_name (Some node_name) (pts_spec template))
    (ObjectMeta_namespace (ds_metadata ds)) pod_name uid
    "DaemonSet" (ObjectMeta_name (ds_metadata ds)) ds_uid.

(** The nodes that should run the daemon. *)
Definition daemonset_targets (ds : DaemonSet) (nodes : list Node) : list Node :=
  filter (λ n,
    match ps_node_selector (pts_spec (dsspec_template (ds_spec ds))) with
    | Some sel => labels_match sel (ObjectMeta_labels (node_metadata n))
    | None => true
    end = true) nodes.

Definition daemonset_selector (ds : DaemonSet) : gmap string string :=
  default ∅ (match ls_match_labels (dsspec_selector (ds_spec ds)) with
             | Some l => Some l
             | None => om_labels (pts_metadata (dsspec_template (ds_spec ds)))
             end).

(** Create the daemon on one target node unless it is covered. *)
Definition daemonset_cover (ds : DaemonSet) (ds_uid : Uuid) (covered_nodes : list string)
    (node : Node) : M string () :=
  let namespace := ObjectMeta_namespace (ds_metadata ds) in
  let name := ObjectMeta_name (ds_metadata ds) in
  let node_name := ObjectMeta_name (node_metadata node) in
  if bool_decide (node_name ∈ covered_nodes) then mret ()
  else
    suffix ← new_v4;
    let pod_name := name +:+ "-" +:+ prefix8 (uuid_to_string suffix) in
    uid ← new_v4;
    let pod := pod_for_daemonset ds ds_uid pod_name node_name uid in
    created ← attempt (PodRepository_create pod);
    match created with
    | Err _ => mret ()
    | Ok _ =>
        on_bus (publish Added "Pod" (Some namespace) pod_name pod);;
        emit_event (daemonset_ref ds) namespace EventType_Normal "SuccessfulCreate"
          ("Created pod: " +:+ pod_name) "daemonset-controller"
    end.

(** Delete an owned pod whose node is no target any more; nothing is
    published. *)
Definition daemonset_evict (namespace : string) (targets : list string) (pod : Pod) : M string () :=
  match ps_node_name (pod_spec pod), om_name (pod_metadata pod) with
  | Some node_name, Some pod_name =>
      if bool_decide (node_name ∈ targets) then mret ()
      else attempt (PodRepository_delete namespace pod_name);; mret ()
  | _, _ => mret ()
  end.

Definition reconcile_daemonset (ds : DaemonSet) (nodes : list Node) : M string () :=
  let namespace := ObjectMeta_namespace (ds_metadata ds) in
  let name := ObjectMeta_name (ds_metadata ds) in
  ds_uid ← uid_or_new (om_uid (ds_metadata ds));
  let target_nodes := daemonset_targets ds nodes in
  let target_node_names := (λ n, ObjectMeta_name (node_metadata n)) <$> target_nodes in
  let selector := daemonset_selector ds in
  existing_pods ← (if bool_decide (selector = ∅) then mret []
                   else any (PodRepository_list (Some namespace) (Some selector)));
  let owned_pods := filter (λ p, owned_by (om_uid (ds_metadata ds)) p = true) existing_pods in
  let covered_nodes := omap (λ p, ps_node_name (pod_spec p)) owned_pods in
  for_each target_nodes (daemonset_cover ds ds_uid covered_nodes);;
  for_each owned_pods (daemonset_evict namespace target_node_names);;
  any (DaemonSetRepository_update_status namespace name
    (as_i32 (Z.of_nat (length target_nodes)))
    (as_i32 (Z.of_nat (length owned_pods)))
    (as_i32 (Z.of_nat (length (filter (λ p, is_running p = true) owned_pods))))).

Definition reconcile_daemonsets : M string () :=
  sets ← any (DaemonSetRepository_list None);
  match sets with
  | [] => mret ()
  | _ =>
      nodes ← any NodeRepository_list_ready;
      reconcile_each (λ ds, reconcile_daemonset ds nodes) sets
  end.

(** ** Pods *)

Definition phase_of (pod : Pod) : PodPhase :=
  match pod_status pod with Some s => pstat_phase s | None => PodPhase_Pending end.

(** The status of a running pod whose node is gone. *)
Definition failed_status (pod : Pod) : PodStatus :=
  mk_PodStatus PodPhase_Failed None None None (pod_status pod ≫= pstat_host_ip) None None None None.

Definition mark_node_lost (pod : Pod) (node_name : string) : M string () :=
  let namespace := ObjectMeta_namespace (pod_metadata pod) in
  let pod_name := ObjectMeta_name (pod_metadata pod) in
  attempt (PodRepository_update_status namespace pod_name (failed_status pod));;
  r ← attempt (PodRepository_get namespace pod_name);
  match r with
  | Ok updated => on_bus (publish Modified "Pod" (Some namespace) pod_name updated)
  | Err _ => mret ()
  end;;
  emit_event (pod_ref pod) namespace EventType_Warning "NodeNotReady"
    ("Node " +:+ node_name +:+ " stopped reporting ready, pod marked Failed") "node-controller".

Definition respun (pod : Pod) (uid : Uuid) : Pod :=
  {| pod_type_meta := pod_type_meta pod;
     pod_metadata := ObjectMeta_with_uid (Some uid) (pod_metadata pod);
     pod_spec := PodSpec_with_node_name None (pod_spec pod);
     pod_status := Some pending_status |}.

Definition respin (pod : Pod) : M string () :=
  let namespace := ObjectMeta_namespace (pod_metadata pod) in
  let pod_name := ObjectMeta_name (pod_metadata pod) in
  attempt (PodRepository_delete namespace pod_name);;
  on_bus (publish Deleted "Pod" (Some namespace) pod_name pod);;
  uid ← new_v4;
  attempt (PodRepository_create (respun pod uid));;
  on_bus (publish Added "Pod" (Some namespace) pod_name (respun pod uid)).

Definition has_owner (pod : Pod) : bool :=
  match om_owner_references (pod_metadata pod) with Some (_ :: _) => true | _ => false end.

(** The loop body for one pod of the list read at the start; both tests use
    the phase read then. *)
Definition reconcile_pod (ready_nodes : list string) (pod : Pod) : M string () :=
  let phase := phase_of pod in
  match ps_node_name (pod_spec pod) with
  | Some node_name =>
      if negb (bool_decide (node_name ∈ ready_nodes)) && bool_decide (phase = PodPhase_Running)
      then mark_node_lost pod node_name
      else mret ()
  | None => mret ()
  end;;
  let policy := default RestartPolicy_Always (ps_restart_policy (pod_spec pod)) in
  if negb (has_owner pod) && bool_decide (phase = PodPhase_Failed) &&
     bool_decide (policy = RestartPolicy_Always)
  then respin pod
  else mret ().

Definition reconcile_pods : M string () :=
  pods ← any (PodRepository_list None None);
  nodes ← any NodeRepository_list_ready;
  for_each pods (reconcile_pod ((λ n, ObjectMeta_name (node_metadata n)) <$> nodes)).

(** ** Services *)

Definition endpoint_address (pod : Pod) : option EndpointAddress :=
  if bool_decide (phase_of pod = PodPhase_Running) then
    (λ ip, mk_EndpointAddress ip None (ps_node_name (pod_spec pod)) (Some (pod_ref pod))) <$>
      (pod_status pod ≫= pstat_pod_ip)
  else None.

Definition endpoint_port (sp : ServicePort) : EndpointPort :=
  let target_port := match sport_target_port sp with
                     | Some (IntOrString_Int p) => p
                     | Some (IntOrString_String _) => sport_port sp
                     | None => sport_port sp
                     end in
  mk_EndpointPort (sport_name sp) target_port (sport_protocol sp).

Definition service_endpoints (service : Service) (pods : list Pod) (uid : Uuid) : Endpoints :=
  let addresses := omap endpoint_address pods in
  {| ep_type_meta := mk_TypeMeta (Some "v1") (Some "Endpoints");
     ep_metadata :=
       {| om_name := Some (ObjectMeta_name (svc_metadata service));
          om_namespace := Some (ObjectMeta_namespace (svc_metadata service));
          om_uid := Some uid;
          om_resource_version := None; om_labels := None; om_annotations := None;
          om_creation_timestamp := None; om_owner_references := None |};
     ep_subsets :=
       match addresses with
       | [] => []
       | _ => [mk_EndpointSubset (Some addresses) None
                 (Some (endpoint_port <$> sspec_ports (svc_spec service)))]
       end |}.

Definition reconcile_service (service : Service) : M string () :=
  let namespace := ObjectMeta_namespace (svc_metadata service) in
  match sspec_selector (svc_spec service) with
  | Some selector =>
      if bool_decide (selector = ∅) then mret ()
      else
        pods ← any (PodRepository_list (Some namespace) (Some selector));
        uid ← new_v4;
        any (EndpointsRepository_create_or_update (service_endpoints service pods uid));;
        mret ()
  | None => mret ()
  end.

Definition reconcile_services : M string () :=
  services ← any (ServiceRepository_list None);
  reconcile_each reconcile_service services.

(** ** One tick *)

Definition under_lease (lm : LeaseManager) (name : string) (pass : M string ()) : M string () :=
  granted ← try_acquire lm name LEASE_TTL;
  if (granted : bool) then attempt pass;; mret () else mret ().

Definition controller_tick (lm : LeaseManager) : M string () :=
  under_lease lm "controller/deployment" reconcile_deployments;;
  under_lease lm "controller/statefulset" reconcile_statefulsets;;
  under_lease lm "controller/daemonset" reconcile_daemonsets;;
  under_lease lm "controller/pod" reconcile_pods;;
  under_lease lm "controller/service" reconcile_services.
End controller.
