(* ===== verification/RepositoryProps.v ===== *)
(** * Properties of the database layer

    The refinement of the abstract store by every repository, the life of an
    object, what a stored pod keeps, the queries the scheduler relies on, the
    guards of namespace deletion, repeated events and node ports. *)
From S2P Require Import Prelude RustStd Json External Models Wire Error Bus World Repository.
From S2P Require Import RepositoryOk Reference RefEnv Samples.


(**  The life of an object, for any repository: what [create] returns is
    what [get] then returns, after [delete] it is gone, and the other objects
    are as before. *)
Theorem repo_lifecycle `{ExternOk, EnvOk, RepoOk K T} (x : T) w :
  quiet → repo_wf T (w_db w) → repo_admits x w → ∃ y msg w',
  (created ← repo_create x;
   read ← repo_get T (repo_key x);
   repo_delete T (repo_key x);;
   after ← attempt (repo_get T (repo_key x));
   mret (created, read, after)) w = (Ok (y, y, Err (NotFound msg)), w') ∧
  repo_view T (w_db w') = delete (repo_key x) (repo_view T (w_db w)).
Proof.
  intros Hq Hwf Hadm.
  destruct (repo_create_spec x w Hq Hwf Hadm) as (y & w1 & E1 & Hv1 & Hwf1).
  rewrite (bind_ok _ _ _ _ _ E1).
  pose proof (repo_get_spec (T:=T) (repo_key x) w1 Hq Hwf1) as E2.
  rewrite Hv1, lookup_insert_eq in E2. rewrite (bind_ok _ _ _ _ _ E2).
  destruct (repo_delete_spec (T:=T) (repo_key x) (count_stmt w1) Hq Hwf1)
    as (w3 & E3 & Hv3 & Hwf3).
  change (w_db (count_stmt w1)) with (w_db w1) in *.
  rewrite Hv1, lookup_insert_eq in E3. rewrite (bind_ok _ _ _ _ _ E3).
  pose proof (repo_get_spec (T:=T) (repo_key x) w3 Hq Hwf3) as E4.
  rewrite Hv3, lookup_delete_eq in E4. destruct E4 as [msg E4].
  exists y, msg, (count_stmt w3). split.
  - unfold mbind at 1, st_bind at 1, attempt. by rewrite E4.
  - simpl. by rewrite Hv3, Hv1, delete_insert_eq.
Qed.

Section pods.
Context `{ExternOk, EnvOk}.

(** C30.  Writing a pod that has a status and reading it gives back its
    metadata, specification, phase, addresses and container statuses; a pod
    that replaces another keeps the earlier identifier and creation time; no
    other pod and no other table changes. *)
Theorem pod_create_stores pod s w :
  quiet → repo_wf Pod (w_db w) → pod_status pod = Some s → repo_admits pod w →
  let key := object_key (pod_metadata pod) in
  let old := repo_view Pod (w_db w) !! key in
  ∃ y w',
    PodRepository_create pod w = (Ok y, w') ∧
    PodRepository_get key.1 key.2 w' = (Ok y, count_stmt w') ∧
    repo_view Pod (w_db w') = <[key := y]> (repo_view Pod (w_db w)) ∧
    set_pods ∅ (w_db w') = set_pods ∅ (w_db w) ∧
    pod_spec y = pod_spec pod ∧ pod_status y = Some (stored_status s) ∧
    om_labels (pod_metadata y) = om_labels (pod_metadata pod) ∧
    om_annotations (pod_metadata y) = om_annotations (pod_metadata pod) ∧
    om_owner_references (pod_metadata y) = om_owner_references (pod_metadata pod) ∧
    om_uid (pod_metadata y) =
      match old with
      | Some q => om_uid (pod_metadata q)
      | None => Some (chosen_uid (pod_metadata pod) w)
      end ∧
    om_creation_timestamp (pod_metadata y) =
      match old with
      | Some q => om_creation_timestamp (pod_metadata q)
      | None => Some (env_now (w_clock w))
      end.
Proof.
  intros Hq Hwf Hs Hadm key old.
  destruct (run_pod_create pod s w Hq Hwf Hs Hadm) as (w' & E & Hv & Hwf' & _ & [t Ht] & _).
  eexists _, w'. split; [exact E|]. split; [|split; [exact Hv|split]].
  - pose proof (repo_get_spec (T:=Pod) key w' Hq Hwf') as Hg.
    rewrite Hv in Hg. fold key in Hg. by rewrite lookup_insert_eq in Hg.
  - by rewrite Ht.
  - fold key old. by destruct old.
Qed.

(**  [list] returns exactly the stored pods of the namespace that carry
    every label of the selector, each once. *)
Theorem pod_list_exact ns sel w :
  quiet → repo_wf Pod (w_db w) → ∃ xs,
  PodRepository_list ns sel w = (Ok xs, count_stmt w) ∧
  xs ≡ₚ (filter (λ kx, in_namespace ns kx.1 () = true ∧ pod_selected sel kx.2 = true)
           (map_to_list (repo_view Pod (w_db w)))).*2 ∧
  ∀ p, p ∈ xs ↔ ∃ k, repo_view Pod (w_db w) !! k = Some p ∧
    (∀ n, ns = Some n → k.1 = n) ∧
    (∀ m, sel = Some m → ∃ labels, om_labels (pod_metadata p) = Some labels ∧ m ⊆ labels).
Proof.
  intros Hq Hwf. destruct (run_pod_list ns sel w Hq Hwf) as (xs & E & Hxs).
  exists xs. split; [done|]. split; [done|]. intros p.
  rewrite Hxs, list_elem_of_fmap. split.
  - intros ([k q] & -> & [[Hin Hsel] Hk%elem_of_map_to_list]%list_elem_of_filter).
    exists k. split; [done|]. simpl in *. split.
    + intros n ->. by apply str_eqb_spec in Hin.
    + intros m ->. simpl in Hsel. destruct (om_labels (pod_metadata q)) as [labels|]; [|done].
      exists labels. by rewrite <- labels_match_spec.
  - intros (k & Hk & Hns & Hsel). exists (k, p). split; [done|].
    apply list_elem_of_filter. split; [split|by apply elem_of_map_to_list]; simpl.
    + destruct ns as [n|]; [|done]. apply str_eqb_spec. by apply Hns.
    + destruct sel as [m|]; [|done]. destruct (Hsel m eq_refl) as (labels & Hl & Hm).
      simpl. rewrite Hl. by apply labels_match_spec.
Qed.

(**  The scheduler's work list: exactly the pods whose row has no node and
    is Pending, each once, and the oldest first (timestamps written by the
    server). *)
Theorem list_unscheduled_oldest_first w :
  quiet →
  (∀ k r, db_pods (w_db w) !! k = Some r → ∃ t, pr_created_at r = to_rfc3339 t) →
  ∃ xs, PodRepository_list_unscheduled w = (Ok xs, count_stmt w) ∧
  xs ≡ₚ ((λ kr, pod_of_row kr.1 kr.2 (stamp (pr_created_at kr.2))) <$>
          filter (λ kr, pr_node_name kr.2 = None ∧ pr_status kr.2 = "Pending")
            (map_to_list (db_pods (w_db w)))) ∧
  StronglySorted (λ p q, ∀ s t,
    om_creation_timestamp (pod_metadata p) = Some s →
    om_creation_timestamp (pod_metadata q) = Some t → (val s <= val t)%Z) xs.
Proof.
  intros Hq Hstamps.
  assert (Hwf : repo_wf Pod (w_db w)).
  { intros k r Hr. destruct (Hstamps k r Hr) as [t ->]. apply stamped_rfc3339. }
  destruct (run_list _ _ _ _ (run_row_to_pod (E:=Error)) unscheduled_row false
    (λ r, Some (pr_created_at r)) w Hq Hwf) as (rows & xs & E & Hrows & ->).
  eexists. split; [exact E|]. split.
  - rewrite Hrows, env_order_perm. apply reflexive_eq. f_equal.
    apply list_filter_iff. intros [k r]. unfold unscheduled_row. simpl.
    destruct (pr_node_name r); [split; [done|by intros [? ?]]|].
    rewrite str_eqb_spec. split; [done|by intros [_ ?]].
  - assert (Hs : StronglySorted (in_order false (λ kr : Key * PodRow, Some (pr_created_at kr.2)))
      rows) by (rewrite Hrows; apply env_order_sorted; eauto).
    assert (Hin : Forall (λ kr, ∃ t, pr_created_at kr.2 = to_rfc3339 t) rows).
    { apply Forall_forall. intros [k r] Hr. rewrite Hrows, env_order_perm in Hr.
      apply list_elem_of_filter in Hr as [_ Hr%elem_of_map_to_list]. by eapply Hstamps. }
    clear E Hrows. induction Hs as [|[k r] rows Hs IH Hall]; csimpl; constructor.
    { apply IH. by inversion Hin. }
    apply Forall_fmap. apply Forall_cons in Hin as [[t Ht] Hin].
    rewrite Forall_forall in *. intros [k' r'] Hr'.
    specialize (Hall _ Hr'). destruct (Hin _ Hr') as [t' Ht'].
    unfold in_order in Hall. simpl in *. rewrite Ht, Ht', !stamp_rfc3339.
    intros s0 t0 [= <-] [= <-]. rewrite Ht, Ht', rfc3339_order in Hall.
    by apply Z.ltb_ge in Hall.
Qed.

(**  [bind_to_node] and [update_status] change one pod in one respect: its
    node name, or the stored part of its status.  Everything else, other pods
    and other tables included, stays; a missing pod is not an error. *)
Theorem pod_updates_frame ns name node_name status w :
  quiet → repo_wf Pod (w_db w) →
  (∃ w', PodRepository_bind_to_node ns name node_name w = (Ok (), w') ∧
    repo_view Pod (w_db w') = alter (bound_to node_name) (ns, name) (repo_view Pod (w_db w)) ∧
    set_pods ∅ (w_db w') = set_pods ∅ (w_db w)) ∧
  (∃ w', PodRepository_update_status ns name status w = (Ok (), w') ∧
    repo_view Pod (w_db w') =
      alter (with_stored_status status) (ns, name) (repo_view Pod (w_db w)) ∧
    set_pods ∅ (w_db w') = set_pods ∅ (w_db w)).
Proof.
  intros Hq Hwf. split.
  - destruct (run_bind_to_node ns name node_name w Hq Hwf) as (w' & E & Hv & _ & _ & t & Ht).
    exists w'. by rewrite Ht in *.
  - destruct (run_update_status ns name status w Hq Hwf) as (w' & E & Hv & _ & _ & t & Ht).
    exists w'. by rewrite Ht in *.
Qed.
End pods.

(** ** Namespaces, events, services *)

Section others.
Context `{ExternOk, EnvOk}.

(**  Deleting a namespace: a system namespace is refused before any
    statement, a namespace with pods is refused and nothing changes, a missing
    one is [NotFound], and otherwise only its own row goes: the other tables
    are untouched, whatever they still hold in that namespace. *)
Theorem namespace_delete_guards name w :
  quiet →
  let pods_in := filter (λ kr : Key * PodRow, str_eqb kr.1.1 name = true)
                   (map_to_list (db_pods (w_db w))) in
  let '(r, w') := NamespaceRepository_delete name w in
  if system_namespace name then
    (∃ m, r = Err (BadRequest m)) ∧ w' = w
  else if decide (pods_in = []) then
    r = (match db_namespaces (w_db w) !! name with
         | Some _ => Ok ()
         | None => Err (not_found "namespaces" name)
         end) ∧
    w_db w' = set_namespaces (delete name (db_namespaces (w_db w))) (w_db w)
  else (∃ m, r = Err (BadRequest m)) ∧ w_db w' = w_db w.
Proof.
  intros Hq pods_in. unfold NamespaceRepository_delete.
  destruct (system_namespace name) eqn:Hs; [simpl; eauto|].
  rewrite (bind_ok _ _ _ _ _ (run_select_count pods_table _ _ Hq)).
  change (filter (λ kr : Key * PodRow, str_eqb kr.1.1 name = true)
    (map_to_list (tb_get pods_table (w_db w)))) with pods_in.
  destruct pods_in as [|p l]; cbn [length].
  - rewrite (bind_ok _ _ _ _ _ (run_delete_key namespaces_table _ _ Hq)). simpl.
    by destruct (db_namespaces (w_db w) !! name).
  - simpl. eauto.
Qed.

(**  Recording an event under a name that is in use bumps its count and
    replaces its message and last timestamp; identifier, involved object,
    reason, source, type and the first timestamps stay.  A count that would
    leave the column's range is a database error and changes nothing. *)
Theorem event_create_repeats event old w :
  quiet → stamped (evr_created_at old) →
  let key := object_key (ev_metadata event) in
  db_events (w_db w) !! key = Some old → is_Some (om_uid (ev_metadata event)) →
  let '(r, w') := EventRepository_create event w in
  match increment_count (evr_count old) with
  | Ok count =>
      ∃ e, r = Ok e ∧
      ev_count e = count ∧ ev_message e = ev_message event ∧
      ev_last_timestamp e = ev_last_timestamp event ∧
      let before := event_of_row key old (stamp (evr_created_at old)) in
      ev_metadata e = ev_metadata before ∧
      ev_involved_object e = ev_involved_object before ∧
      ev_reason e = ev_reason before ∧ ev_source e = ev_source before ∧
      ev_first_timestamp e = ev_first_timestamp before ∧
      ev_event_type e = ev_event_type before ∧
      ∃ row, w_db w' = set_events (<[key := row]> (db_events (w_db w))) (w_db w)
  | Err m => r = Err (Database m) ∧ w_db w' = w_db w
  end.
Proof.
  intros Hq Hst key Hold [u Hu].
  destruct (EventRepository_create event w) as [r w'] eqn:E.
  unfold EventRepository_create in E. rewrite Hu in E.
  erewrite (bind_ok (uid_or_new (Some u))) in E by reflexivity.
  erewrite (bind_ok now_str) in E by reflexivity.
  unfold mbind, st_bind in E. rewrite run_sql in E by done.
  unfold upsert in E. cbn [tb_get events_table w_db tick_clock] in E.
  change (ObjectMeta_namespace (ev_metadata event), ObjectMeta_name (ev_metadata event))
    with key in E.
  rewrite Hold in E. unfold repeat_event in E.
  destruct (increment_count (evr_count old)) as [count|m]; simpl in E; [|by simplify_eq].
  unfold EventRepository_get in E. unfold mbind, st_bind in E.
  rewrite run_select_one in E by done.
  change (ObjectMeta_namespace (ev_metadata event), ObjectMeta_name (ev_metadata event))
    with key in E.
  cbn [tb_get events_table w_db set_db count_stmt tb_set set_events db_events] in E.
  rewrite lookup_insert_eq in E. simpl in E.
  unfold row_to_event, mbind, st_bind in E. simpl in E.
  rewrite run_parse_dt in E by done. simpl in E. injection E as <- <-.
  eexists. split; [done|]. simpl. repeat (split; [done|]). split.
  { unfold parse_dt_opt. destruct (ev_last_timestamp event); simpl; [apply rfc3339_round|done]. }
  repeat (split; [done|]). by eexists.
Qed.

(**  Only a [NodePort] service gets a node port: the one its first port
    asks for, or else one in 30000..32767 that depends on the uid alone. *)
Theorem node_port_range spec uid :
  match sspec_service_type spec, head (sspec_ports spec) ≫= sport_node_port with
  | ServiceType_NodePort, Some p => assign_node_port spec uid = Some p
  | ServiceType_NodePort, None =>
      ∃ p, assign_node_port spec uid = Some p ∧ (30000 <= val p < 32768)%Z
  | _, _ => assign_node_port spec uid = None
  end.
Proof.
  unfold assign_node_port.
  destruct (sspec_service_type spec); try done; destruct (head _ ≫= _); try done.
  eexists. split; [done|].
  pose proof (Z.mod_pos_bound (val uid) 2768 ltac:(lia)).
  rewrite !as_i32_small; rewrite ?as_i32_small; lia.
Qed.
End others.

(** ** Concrete inputs *)

Definition web_pod : Pod :=
  sample_pod "web" (sample_uuid 7) PodPhase_Pending None None None.

Lemma web_pod_admitted : repo_admits web_pod start.
Proof. right. apply no_uid_in_use. Qed.

Lemma repo_lifecycle_witness :
  repo_admits web_pod start ∧ ∃ y msg w',
  (created ← repo_create web_pod;
   read ← repo_get Pod (repo_key web_pod);
   repo_delete Pod (repo_key web_pod);;
   after ← attempt (repo_get Pod (repo_key web_pod));
   mret (created, read, after)) start = (Ok (y, y, Err (NotFound msg)), w').
Proof.
  split; [apply web_pod_admitted|].
  destruct (repo_lifecycle web_pod start ref_quiet start_wf web_pod_admitted)
    as (y & msg & w' & E & _).
  exists y, msg, w'. exact E.
Defined.

Lemma pod_create_stores_witness : ∃ y w',
  PodRepository_create web_pod start = (Ok y, w') ∧
  PodRepository_get "default" "web" w' = (Ok y, count_stmt w') ∧
  om_labels (pod_metadata y) = Some app_labels.
Proof.
  destruct (pod_create_stores web_pod (sample_status PodPhase_Pending None) start ref_quiet
    start_wf eq_refl web_pod_admitted) as (y & w' & E & Hg & _ & _ & _ & _ & Hl & _).
  exists y, w'. split; [exact E|]. split; [exact Hg|exact Hl].
Defined.

(** The store of one pod: it is listed by its labels and not by others. *)
Lemma pod_list_exact_witness : ∃ w xs ys p,
  PodRepository_list (Some "default") (Some app_labels) w = (Ok xs, count_stmt w) ∧ p ∈ xs ∧
  PodRepository_list None (Some {["app" := "db"]}) w = (Ok ys, count_stmt w) ∧ p ∉ ys.
Proof.
  destruct (one_pod_world web_pod (sample_status PodPhase_Pending None) (sample_uuid 7)
    eq_refl eq_refl) as (w & Hwf & _ & Hv & _).
  destruct (pod_list_exact (Some "default") (Some app_labels) w ref_quiet Hwf)
    as (xs & Ex & _ & Hx).
  destruct (pod_list_exact None (Some {["app" := "db"]}) w ref_quiet Hwf) as (ys & Ey & _ & Hy).
  eexists w, xs, ys, _. split; [exact Ex|]. split; [|split; [exact Ey|]].
  - apply Hx. exists ("default", "web"). rewrite Hv. split; [apply lookup_singleton_eq|].
    split; [by intros n [= <-]|]. intros m [= <-]. exists app_labels. split; reflexivity.
  - rewrite Hy. intros (k & _ & _ & Hm). destruct (Hm _ eq_refl) as (labels & Hl & Hsub).
    simpl in Hl. injection Hl as <-. revert Hsub. apply (bool_decide_unpack _).
    vm_compute. exact I.
Defined.

Lemma pod_updates_frame_witness : ∃ w w' p,
  PodRepository_bind_to_node "default" "web" "n" w = (Ok (), w') ∧
  repo_view Pod (w_db w') !! ("default", "web") = Some p ∧
  ps_node_name (pod_spec p) = Some "n".
Proof.
  destruct (one_pod_world web_pod (sample_status PodPhase_Pending None) (sample_uuid 7)
    eq_refl eq_refl) as (w & Hwf & _ & Hv & _).
  destruct (pod_updates_frame "default" "web" "n" (sample_status PodPhase_Running None) w
    ref_quiet Hwf) as ((w' & E & Hv' & _) & _).
  exists w, w'. eexists. split; [exact E|]. rewrite Hv', Hv, lookup_alter_eq.
  rewrite lookup_singleton_eq. split; reflexivity.
Defined.

(** Two pending pods: both are listed, in the order of their creation. *)
Definition pending_row (created : DateTime) : PodRow :=
  pod_row web_pod "00000000-0000-0000-0000-000000000007" (to_rfc3339 created) (to_rfc3339 created).
Definition two_pending : World :=
  set_db (set_pods {[("default", "new") := pending_row (ref_now 5);
                     ("default", "old") := pending_row (ref_now 3)]} empty_db) start.

Lemma list_unscheduled_oldest_first_witness : ∃ p q,
  PodRepository_list_unscheduled two_pending = (Ok [p; q], count_stmt two_pending) ∧
  om_creation_timestamp (pod_metadata p) = Some (ref_now 3) ∧
  om_creation_timestamp (pod_metadata q) = Some (ref_now 5).
Proof.
  destruct (list_unscheduled_oldest_first two_pending ref_quiet) as (xs & E & Hxs & Hs).
  { intros k r Hr. cbn [two_pending w_db set_db set_pods db_pods] in Hr.
    apply lookup_insert_Some in Hr as [[_ <-]|[_ Hr]]; [eexists; reflexivity|].
    apply lookup_singleton_Some in Hr as [_ <-]. eexists; reflexivity. }
  set (p k t := pod_of_row k (pending_row t) t).
  assert (Hp : xs ≡ₚ [p ("default", "new") (ref_now 5); p ("default", "old") (ref_now 3)]).
  { rewrite Hxs. unfold two_pending. cbn [w_db set_db set_pods db_pods].
    rewrite map_to_list_insert, map_to_list_singleton by (vm_compute; reflexivity).
    rewrite !filter_cons_True by (split; reflexivity). rewrite filter_nil. cbn [fmap list_fmap fst snd].
    unfold p. cbn [pr_created_at pending_row pod_row]. by rewrite !stamp_rfc3339. }
  assert (Hlt : ¬ (val (ref_now 5) <= val (ref_now 3))%Z) by (vm_compute; intros []; reflexivity).
  symmetry in Hp. apply Permutation_length_2_inv in Hp as [->| ->].
  - inversion_clear Hs as [|? ? _ Hall]. inversion_clear Hall as [|? ? Hle _].
    destruct Hlt. exact (Hle _ _ eq_refl eq_refl).
  - eexists _, _. split; [exact E|]. split; reflexivity.
Defined.

(** An event recorded before; the same name again bumps its count. *)
Definition seen_row : EventRow :=
  mk_EventRow "u" None (Some "Pod") (Some "web") None None None None (Some "Pulled") (Some "first")
    None None None None None (Some (as_i32 1)) None None None None
    (to_rfc3339 (ref_now 0)) (to_rfc3339 (ref_now 0)).
Definition with_event : World :=
  set_db (set_events {[("default", "web.1") := seen_row]} empty_db) start.
Definition seen_again : Event :=
  mk_Event (mk_TypeMeta None None) (sample_meta "web.1" (sample_uuid 7) None)
    ObjectReference_default (Some "Pulled") (Some "second") None None None None None None None
    None None.

Lemma event_create_repeats_witness : ∃ e,
  (EventRepository_create seen_again with_event).1 = Ok e ∧
  ev_count e = Some (as_i32 2) ∧ ev_message e = Some "second".
Proof.
  pose proof (event_create_repeats seen_again seen_row with_event ref_quiet
    (stamped_rfc3339 _) eq_refl (ex_intro _ _ eq_refl)) as Hev.
  destruct (EventRepository_create seen_again with_event) as [r w'].
  change (increment_count (evr_count seen_row)) with (increment_count (Some (as_i32 1))) in Hev.
  destruct (increment_count (Some (as_i32 1))) as [count|m] eqn:Hc; [|discriminate Hc].
  injection Hc as <-. destruct Hev as (e & -> & Hcount & Hmsg & _).
  exists e. split; [reflexivity|]. split; [|exact Hmsg]. rewrite Hcount.
  vm_compute. reflexivity.
Defined.

(** A namespace that exists, and the system namespaces. *)
Definition with_namespace (name : string) : World :=
  set_db (set_namespaces {[name := mk_NamespaceRow "" "{}" "{}" "{}" "Active" "" ""]} empty_db) start.

Lemma namespace_delete_guards_witness :
  (NamespaceRepository_delete "team" (with_namespace "team")).1 = Ok () ∧
  ∃ m, NamespaceRepository_delete "kube-system" (with_namespace "kube-system") =
    (Err (BadRequest m), with_namespace "kube-system").
Proof.
  pose proof (namespace_delete_guards "team" (with_namespace "team") ref_quiet) as H1.
  pose proof (namespace_delete_guards "kube-system" (with_namespace "kube-system") ref_quiet) as H2.
  cbv zeta in H1, H2. split.
  - destruct (NamespaceRepository_delete "team" (with_namespace "team")) as [r w'].
    exact (proj1 H1).
  - destruct (NamespaceRepository_delete "kube-system" (with_namespace "kube-system")) as [r w'].
    destruct H2 as [[m Hr] Hw]. exists m. by rewrite Hr, Hw.
Defined.
