(* ===== verification/ControllerOk.v ===== *)
(** * What the deployment controller guarantees

    Convergence of deployments, in both directions: a pass ends with exactly
    the number of owned pods the deployment asks for. *)
From S2P Require Import Prelude RustStd Json External Models Wire Error Bus World Repository.
From S2P Require Import RepositoryOk Recorder Frame Lease Controller Reference RefEnv Samples.

Local Open Scope Z_scope.

Abbreviation pods := (repo_view Pod).
Abbreviation pods_wf := (repo_wf Pod).

(** ** Computations that leave the pods alone *)

Section basics.
Context `{ExternOk, EnvOk}.

Lemma run_any {A} (m : M Error A) w a w' : m w = (Ok a, w') → any m w = (Ok a, w').
Proof. unfold any, lift_err. by intros ->. Qed.

Lemma run_attempt {F A} (m : M F A) w r w' :
  m w = (r, w') → attempt (E:=string) m w = (Ok r, w').
Proof. unfold attempt. by intros ->. Qed.

Lemma run_emit involved ns typ reason message component w : ∃ w',
  emit_event (E:=string) involved ns typ reason message component w = (Ok (), w') ∧
  db_pods (w_db w') = db_pods (w_db w) ∧ w_bus w' = w_bus w ∧
  w_uuids w' = (w_uuids w + 2)%nat.
Proof.
  destruct (emit_event_Ok (E:=string) involved ns typ reason message component w) as [w' E].
  exists w'. split; [done|].
  pose proof (emit_event_frame (E:=string) (λ d b, (db_pods d, b)) involved ns typ reason message
    component (λ _ _ _, eq_refl) w) as Hf.
  pose proof (emit_event_uuids (E:=string) involved ns typ reason message component w) as Hu.
  rewrite E in Hf, Hu. split; [exact (f_equal fst Hf)|]. split; [exact (f_equal snd Hf)|done].
Qed.

Lemma run_publish {T} `{Json T} t kind ns name (x : T) w :
  on_bus (E:=string) (publish t kind ns name x) w =
    (Ok (), set_bus (publish t kind ns name x (w_bus w)) w).
Proof. done. Qed.

(** A status write of another table. *)
Lemma run_deployment_status ns name a b w :
  quiet → ∃ w',
  DeploymentRepository_update_status ns name a b w = (Ok (), w') ∧
  db_pods (w_db w') = db_pods (w_db w) ∧ w_bus w' = w_bus w.
Proof.
  intros Hq. unfold DeploymentRepository_update_status.
  erewrite (bind_ok now_str) by reflexivity. rewrite run_update_key by done. by eexists.
Qed.
Lemma run_statefulset_status ns name a b w :
  quiet → ∃ w',
  StatefulSetRepository_update_status ns name a b w = (Ok (), w') ∧
  db_pods (w_db w') = db_pods (w_db w) ∧ w_bus w' = w_bus w.
Proof.
  intros Hq. unfold StatefulSetRepository_update_status.
  erewrite (bind_ok now_str) by reflexivity. rewrite run_update_key by done. by eexists.
Qed.

Lemma run_daemonset_status ns name a b c w :
  quiet → ∃ w',
  DaemonSetRepository_update_status ns name a b c w = (Ok (), w') ∧
  db_pods (w_db w') = db_pods (w_db w) ∧ w_bus w' = w_bus w.
Proof.
  intros Hq. unfold DaemonSetRepository_update_status.
  erewrite (bind_ok now_str) by reflexivity. rewrite run_update_key by done. by eexists.
Qed.
End basics.

(** ** The pods an object owns

    Those in its namespace that its selector selects and that have an owner
    reference to its identifier. *)
Definition owns (ns : string) (sel : option (gmap string string)) (uid : option Uuid)
    (kp : Key * Pod) : Prop :=
  kp.1.1 = ns ∧ pod_selected sel kp.2 = true ∧ owned_by uid kp.2 = true.
#[export] Instance owns_dec ns sel uid kp : Decision (owns ns sel uid kp).
Proof. unfold owns. apply _. Defined.

Section owned.
Context `{ExternOk, EnvOk} (ns : string) (sel : option (gmap string string)) (uid : option Uuid).

(** The list a pass works on: each owned pod once. *)
Lemma run_owned_list w :
  quiet → pods_wf (w_db w) → ∃ xs,
  PodRepository_list (Some ns) sel w = (Ok xs, count_stmt w) ∧
  filter (λ p, owned_by uid p = true) xs ≡ₚ
    (map_to_list (filter (owns ns sel uid) (pods (w_db w)))).*2.
Proof.
  intros Hq Hwf. destruct (run_pod_list (Some ns) sel w Hq Hwf) as (xs & E & Hxs).
  exists xs. split; [done|].
  rewrite Hxs, filter_of_fmap, list_filter_filter, map_filter_alt. f_equiv.
  rewrite map_to_list_to_map.
  - apply reflexive_eq, list_filter_iff. intros [k p]. unfold owns, in_namespace. simpl.
    rewrite str_eqb_spec. tauto.
  - eapply sublist_NoDup; [apply (NoDup_fst_map_to_list (pods (w_db w)))|].
    apply fmap_sublist, sublist_filter.
Qed.

(** The owned pods of a list, as the store has them. *)
Definition stored_owned (m : gmap Key Pod) (xs : list Pod) : Prop :=
  NoDup ((λ p, object_key (pod_metadata p)) <$> xs) ∧
  Forall (λ p, m !! object_key (pod_metadata p) = Some p ∧
               owns ns sel uid (object_key (pod_metadata p), p)) xs.

Lemma owned_list_stored xs w :
  xs ≡ₚ (map_to_list (filter (owns ns sel uid) (pods (w_db w)))).*2 →
  stored_owned (pods (w_db w)) xs.
Proof.
  intros Hxs. split.
  - rewrite Hxs, <- list_fmap_compose.
    erewrite list_fmap_ext;
      [apply (NoDup_fst_map_to_list (filter (owns ns sel uid) (pods (w_db w))))|].
    intros i [k p] Hi. simpl. apply list_elem_of_lookup_2, elem_of_map_to_list in Hi.
    apply map_lookup_filter_Some in Hi as [Hi _]. by apply pods_keyed in Hi.
  - rewrite Hxs. apply Forall_fmap, Forall_forall. intros [k p] Hi%elem_of_map_to_list. simpl.
    apply map_lookup_filter_Some in Hi as [Hi Ho].
    by rewrite (pods_keyed _ _ _ Hi).
Qed.

(** Every owned pod of the store is in the list. *)
Lemma owned_list_all xs k p w :
  xs ≡ₚ (map_to_list (filter (owns ns sel uid) (pods (w_db w)))).*2 →
  pods (w_db w) !! k = Some p → owns ns sel uid (k, p) → p ∈ xs.
Proof.
  intros -> Hk Ho. apply list_elem_of_fmap. exists (k, p). split; [done|].
  by apply elem_of_map_to_list, map_lookup_filter_Some.
Qed.
End owned.

(** ** Deployments *)

Section deployment.
Context `{ExternOk, EnvOk} (d : Deployment).

Abbreviation ns := (ObjectMeta_namespace (dep_metadata d)).
Abbreviation dname := (ObjectMeta_name (dep_metadata d)).

(** The stored pods a deployment owns; an empty selector selects all. *)
Definition deployment_sel : option (gmap string string) :=
  if bool_decide (deployment_selector d = ∅) then None else Some (deployment_selector d).
Definition deployment_owns : Key * Pod → Prop :=
  owns ns deployment_sel (om_uid (dep_metadata d)).
#[export] Instance deployment_owns_dec kp : Decision (deployment_owns kp).
Proof. unfold deployment_owns. apply _. Defined.
Definition owned_count (m : gmap Key Pod) : nat := size (filter deployment_owns m).

Lemma owned_list_length (xs : list Pod) m :
  xs ≡ₚ (map_to_list (filter deployment_owns m)).*2 → length xs = owned_count m.
Proof. intros ->. by rewrite length_fmap, length_map_to_list. Qed.

Lemma owned_delete m k p :
  m !! k = Some p → deployment_owns (k, p) →
  owned_count m = S (owned_count (delete k m)).
Proof.
  intros Hk Ho. unfold owned_count. rewrite map_filter_delete.
  assert (filter deployment_owns m !! k = Some p) as Hf by by apply map_lookup_filter_Some.
  rewrite map_size_delete, Hf.
  assert (size (filter deployment_owns m) ≠ 0%nat) by (eapply map_size_ne_0_lookup_2; eauto). lia.
Qed.

Lemma owned_insert m k p :
  m !! k = None → deployment_owns (k, p) → owned_count (<[k:=p]> m) = S (owned_count m).
Proof.
  intros Hk Ho. unfold owned_count. rewrite map_filter_insert_True by done.
  apply map_size_insert_None. rewrite map_lookup_filter_None. by left.
Qed.

(** Deleting some of them. *)
Lemma run_delete_all xs w :
  quiet → pods_wf (w_db w) → stored_owned ns deployment_sel (om_uid (dep_metadata d)) (pods (w_db w)) xs → ∃ w',
  for_each xs (delete_owned ns) w = (Ok (), w') ∧
  owned_count (pods (w_db w)) = (length xs + owned_count (pods (w_db w')))%nat ∧
  pods (w_db w') ⊆ pods (w_db w) ∧
  ∀ k p, ¬ deployment_owns (k, p) → pods (w_db w) !! k = Some p → pods (w_db w') !! k = Some p.
Proof.
  intros Hq. revert w. induction xs as [|p xs IH]; intros w Hwf [Hnd Hall]; [by exists w|].
  rewrite fmap_cons in Hnd. apply NoDup_cons in Hnd as [Hnin Hnd].
  apply Forall_cons in Hall as [[Hp Ho] Hall].
  destruct (pods_named _ _ _ Hp) as (Hname & _ & _).
  destruct Ho as (Hns & Hsel & How) eqn:EHo. simpl in Hns.
  destruct (repo_delete_spec (T:=Pod) (object_key (pod_metadata p)) w Hq Hwf)
    as (w1 & E1 & Hv1 & Hwf1).
  rewrite Hp in E1. simpl in E1.
  set (w2 := set_bus (publish Deleted "Pod" (Some ns) (ObjectMeta_name (pod_metadata p)) p
               (w_bus w1)) w1).
  assert (E2 : delete_owned ns p w = (Ok (), w2)).
  { unfold delete_owned. rewrite Hname. simpl.
    unfold object_key in Hns. simpl in Hns. rewrite Hns in E1.
    by rewrite (bind_ok _ _ _ _ _ (run_attempt _ _ _ _ E1)). }
  destruct (IH w2) as (w' & E' & Hc & Hsub & Hkeep).
  - done.
  - split; [done|]. rewrite Forall_forall in *. intros q Hq'. destruct (Hall q Hq') as [Hlk ?].
    split; [|done]. change (w_db w2) with (w_db w1). rewrite Hv1, lookup_delete_ne; [done|].
    intros Heq. apply Hnin. rewrite Heq. by apply (list_elem_of_fmap_2 (λ p, object_key (pod_metadata p))).
  - change (w_db w2) with (w_db w1) in *. exists w'. split; [|split; [|split]].
    + simpl. by rewrite (bind_ok _ _ _ _ _ E2).
    + rewrite (owned_delete _ _ _ Hp) by done. rewrite <- Hv1, Hc. simpl. lia.
    + rewrite Hsub, Hv1. apply delete_subseteq.
    + intros k q Hno Hk. apply Hkeep; [done|]. rewrite Hv1, lookup_delete_ne; [done|].
      intros <-. rewrite Hp in Hk. injection Hk as <-. by apply Hno.
Qed.

(** One pass, by the number of owned pods it finds. *)
Definition deployment_pass (owned : list Pod) : M string () :=
  let current := Z.of_nat (length owned) in
  let desired := val (DeploymentSpec_replicas (dep_spec d)) in
  (if current <? desired then
     emit_event (deployment_ref d) ns EventType_Normal "ScalingReplicaSet"
       ("Scaled up replica set " +:+ dname +:+ " from " +:+ pretty current +:+ " to " +:+
        pretty desired) "deployment-controller";;
     for_each (range 0 (desired - current)) (λ _, attempt (create_pod_for_deployment d);; mret ())
   else if desired <? current then
     emit_event (deployment_ref d) ns EventType_Normal "ScalingReplicaSet"
       ("Scaled down replica set " +:+ dname +:+ " from " +:+ pretty current +:+ " to " +:+
        pretty desired) "deployment-controller";;
     for_each (take (Z.to_nat (current - desired)) owned) (delete_owned ns)
   else mret ()).

Definition countable_pods (m : gmap Key Pod) : Prop := Z.of_nat (owned_count m) < 2147483648.

Lemma run_reconcile_deployment w :
  quiet → pods_wf (w_db w) → countable_pods (pods (w_db w)) →
  0 <= val (DeploymentSpec_replicas (dep_spec d)) → ∃ owned,
  owned ≡ₚ (map_to_list (filter deployment_owns (pods (w_db w)))).*2 ∧
  ∀ w', deployment_pass owned (count_stmt w) = (Ok (), w') → ∃ w'',
    reconcile_deployment d w = (Ok (), w'') ∧ db_pods (w_db w'') = db_pods (w_db w').
Proof.
  intros Hq Hwf Hcount Hdes.
  destruct (run_owned_list ns deployment_sel (om_uid (dep_metadata d)) w Hq Hwf)
    as (xs & E & Hxs).
  assert (E' : (if bool_decide (deployment_selector d = ∅) then PodRepository_list (Some ns) None
    else PodRepository_list (Some ns) (Some (deployment_selector d))) w = (Ok xs, count_stmt w)).
  { rewrite <- E. unfold deployment_sel. by destruct (bool_decide _). }
  eexists. split; [exact Hxs|]. intros w' Hpass.
  pose proof (owned_list_length _ _ Hxs) as Hlen. unfold countable_pods in Hcount.
  pose proof (val_range (DeploymentSpec_replicas (dep_spec d))) as Hr.
  destruct (run_deployment_status ns dname
    (as_i32 (Z.of_nat (length (filter (λ p, is_running p = true)
       (filter (λ p, owned_by (om_uid (dep_metadata d)) p = true) xs)))))
    (as_i32 (Z.of_nat (length (filter (λ p, is_running p = true)
       (filter (λ p, owned_by (om_uid (dep_metadata d)) p = true) xs))))) w' Hq)
    as (w'' & E'' & Hdb & _).
  exists w''. split; [|done].
  unfold reconcile_deployment. rewrite (bind_ok _ _ _ _ _ (run_any _ _ _ _ E')).
  rewrite <- (run_any _ _ _ _ E''). unfold deployment_pass in Hpass.
  rewrite (as_i32_small (Z.of_nat _)) by lia.
  rewrite !as_i32_small by lia.
  set (owned := filter (λ p, owned_by (om_uid (dep_metadata d)) p = true) xs) in *.
  set (desired := val (DeploymentSpec_replicas (dep_spec d))) in *.
  destruct (Z.ltb_spec (Z.of_nat (length owned)) desired); [exact (bind_ok _ _ _ _ _ Hpass)|].
  destruct (Z.ltb_spec desired (Z.of_nat (length owned))); [|exact (bind_ok _ _ _ _ _ Hpass)].
  rewrite Z.mod_small by lia. exact (bind_ok _ _ _ _ _ Hpass).
Qed.

Definition desired_replicas : nat := Z.to_nat (val (DeploymentSpec_replicas (dep_spec d))).

(** C9.  A pass over a deployment that has at least as many pods as it wants
    leaves it with exactly as many as it wants.  It only removes pods the
    deployment owns; with the right number it removes none, whatever phase
    they are in: a [Failed] pod is kept and counted. *)
Theorem deployment_scales_down w :
  quiet → pods_wf (w_db w) → countable_pods (pods (w_db w)) →
  0 <= val (DeploymentSpec_replicas (dep_spec d)) →
  (desired_replicas <= owned_count (pods (w_db w)))%nat → ∃ w',
  reconcile_deployment d w = (Ok (), w') ∧
  owned_count (pods (w_db w')) = desired_replicas ∧
  pods (w_db w') ⊆ pods (w_db w) ∧
  (∀ k p, ¬ deployment_owns (k, p) → pods (w_db w) !! k = Some p → pods (w_db w') !! k = Some p) ∧
  (owned_count (pods (w_db w)) = desired_replicas → pods (w_db w') = pods (w_db w)).
Proof.
  intros Hq Hwf Hcount Hdes Hle. unfold desired_replicas in *.
  destruct (run_reconcile_deployment w Hq Hwf Hcount Hdes) as (xs & Hxs & Hrun).
  pose proof (owned_list_length _ _ Hxs) as Hlen.
  pose proof (owned_list_stored _ _ _ _ _ Hxs) as Hst.
  unfold deployment_pass in Hrun. rewrite Hlen, (proj2 (Z.ltb_ge _ _)) in Hrun by lia.
  destruct (Z.ltb_spec (val (DeploymentSpec_replicas (dep_spec d)))
    (Z.of_nat (owned_count (pods (w_db w))))).
  - destruct (run_emit (deployment_ref d) ns EventType_Normal "ScalingReplicaSet"
      ("Scaled down replica set " +:+ dname +:+ " from " +:+
       pretty (Z.of_nat (owned_count (pods (w_db w)))) +:+ " to " +:+
       pretty (val (DeploymentSpec_replicas (dep_spec d))))
      "deployment-controller" (count_stmt w)) as (w1 & E1 & Hdb1 & _).
    set (n := Z.to_nat _) in Hrun.
    destruct (run_delete_all (take n xs) w1) as (w2 & E2 & Hc & Hsub & Hkeep); try done.
    { by apply (pods_wf_same (w_db w)). }
    { rewrite (pods_same (w_db w)) by done. destruct Hst as [Hnd Hall].
      split; [|by apply Forall_take]. rewrite fmap_take. eapply sublist_NoDup; [exact Hnd|apply sublist_take]. }
    destruct (Hrun w2) as (w' & E & Hdb); [by rewrite (bind_ok _ _ _ _ _ E1)|].
    rewrite (pods_same (w_db w) (w_db w1)) in Hc, Hsub, Hkeep by done.
    exists w'. rewrite (pods_same _ _ Hdb). rewrite length_take_le in Hc by lia.
    split; [done|]. split; [lia|]. split; [done|]. split; [done|]. lia.
  - destruct (Hrun (count_stmt w)) as (w' & E & Hdb); [done|].
    exists w'. rewrite (pods_same _ _ Hdb). change (w_db (count_stmt w)) with (w_db w).
    split; [done|]. split; [lia|]. done.
Qed.

(** ** Creating pods *)

(** The key of the pod that is named after the [i]th identifier. *)
Definition new_pod_key (i : nat) : Key := (ns, dname +:+ "-" +:+ prefix8 (uuid_to_string (env_uuid i))).

(** The next [n] pods, named after every other identifier from the [i]th on,
    collide neither with stored pods nor with each other. *)
Definition fresh_pods (i n : nat) (w : World) : Prop :=
  ∀ a, (a < n)%nat →
    pods (w_db w) !! new_pod_key (i + 2 * a) = None ∧
    ¬ repo_has_uid Pod (uuid_to_string (env_uuid (i + 2 * a + 1))) (w_db w) ∧
    ∀ b, (b < a)%nat →
      new_pod_key (i + 2 * a) ≠ new_pod_key (i + 2 * b) ∧
      uuid_to_string (env_uuid (i + 2 * a + 1)) ≠ uuid_to_string (env_uuid (i + 2 * b + 1)).

(** The template's labels satisfy the selector, so what is created counts. *)
Definition template_selected : Prop :=
  ∃ labels, om_labels (pts_metadata (dspec_template (dep_spec d))) = Some labels ∧
    deployment_selector d ⊆ labels.

Lemma created_pod_owned u s1 s2 old t c :
  om_uid (dep_metadata d) = Some u → template_selected →
  deployment_owns (object_key (pod_metadata (deployment_pod d u s1 s2)),
    stored_over old c t (deployment_pod d u s1 s2) pending_status).
Proof.
  intros Hu (labels & Hl & Hsel). split; [done|]. split.
  - unfold deployment_sel. case_bool_decide; [done|]. unfold pod_selected.
    destruct old; simpl; rewrite Hl; by apply labels_match_spec.
  - unfold owned_by. rewrite Hu. destruct old; simpl; by rewrite bool_decide_eq_true_2.
Qed.

Lemma run_create_for_deployment u w :
  quiet → pods_wf (w_db w) → om_uid (dep_metadata d) = Some u → template_selected →
  pods (w_db w) !! new_pod_key (w_uuids w) = None →
  ¬ repo_has_uid Pod (uuid_to_string (env_uuid (w_uuids w + 1))) (w_db w) → ∃ w' y,
  create_pod_for_deployment d w = (Ok (), w') ∧ w_uuids w' = (w_uuids w + 2)%nat ∧
  pods_wf (w_db w') ∧ deployment_owns (new_pod_key (w_uuids w), y) ∧
  pods (w_db w') = <[new_pod_key (w_uuids w) := y]> (pods (w_db w)) ∧
  ∀ x, repo_has_uid Pod x (w_db w') →
    repo_has_uid Pod x (w_db w) ∨ x = uuid_to_string (env_uuid (w_uuids w + 1)).
Proof.
  intros Hq Hwf Hu Hsel Hname Hid.
  set (pod := deployment_pod d u (env_uuid (w_uuids w)) (env_uuid (S (w_uuids w)))).
  rewrite Nat.add_1_r in Hid |- *.
  destruct (run_pod_create pod pending_status (tick_uuid (tick_uuid w)))
    as (w1 & E1 & Hv & Hwf1 & Hbus & _ & Huu & Huid); try done.
  { by right. }
  eexists (set_bus _ w1), _.
  split; [|split; [|split; [exact Hwf1|split; [|split; [exact Hv|exact Huid]]]]].
  - unfold create_pod_for_deployment. rewrite Hu.
    do 3 (erewrite bind_ok by reflexivity). fold pod.
    by rewrite (bind_ok _ _ _ _ _ (run_any _ _ _ _ E1)).
  - simpl in *. lia.
  - by apply created_pod_owned.
Qed.

Lemma run_create_all u n zs w :
  quiet → pods_wf (w_db w) → om_uid (dep_metadata d) = Some u → template_selected →
  length zs = n → fresh_pods (w_uuids w) n w → ∃ w',
  for_each (E:=string) (A:=Z) zs (λ _, attempt (create_pod_for_deployment d);; mret ()) w = (Ok (), w') ∧
  owned_count (pods (w_db w')) = (n + owned_count (pods (w_db w)))%nat ∧
  pods (w_db w) ⊆ pods (w_db w').
Proof.
  intros Hq Hwf Hu Hsel. revert n w Hwf. induction zs as [|z zs IH]; intros n w Hwf <- Hfresh.
  { by exists w. }
  destruct (Hfresh 0%nat) as (Hname & Hid & _); [simpl; lia|]. rewrite Nat.add_0_r in *.
  destruct (run_create_for_deployment u w Hq Hwf Hu Hsel Hname Hid)
    as (w1 & y & E1 & Huu & Hwf1 & Ho & Hv & Huid).
  destruct (IH (length zs) w1 Hwf1 eq_refl) as (w' & E' & Hc & Hsub).
  - intros a Ha. rewrite Huu.
    destruct (Hfresh (S a)) as (Hname' & Hid' & Hne); [simpl; lia|].
    replace (w_uuids w + 2 + 2 * a)%nat with (w_uuids w + 2 * S a)%nat by lia.
    destruct (Hne 0%nat) as [Hk0 Hu0]; [lia|]. rewrite Nat.add_0_r in Hk0, Hu0.
    split; [|split].
    + rewrite Hv, lookup_insert_ne; [done|]. intros Heq. by apply Hk0.
    + intros [Hx|Hx]%Huid; [done|]. by apply Hu0.
    + intros b Hb. replace (w_uuids w + 2 + 2 * b)%nat with (w_uuids w + 2 * S b)%nat by lia.
      apply Hne. lia.
  - exists w'. split; [|split].
    + simpl. erewrite bind_ok; [exact E'|]. by rewrite (bind_ok _ _ _ _ _ (run_attempt _ _ _ _ E1)).
    + rewrite Hc, Hv, owned_insert by done. simpl. lia.
    + rewrite <- Hsub, Hv. by apply insert_subseteq.
Qed.

(** C8.  A pass over a deployment that has fewer pods than it wants creates
    the missing ones: it ends with exactly as many owned pods as it wants and
    leaves every stored pod as it was.  The names and identifiers it draws
    must be new, and the template's labels must satisfy the selector. *)
Theorem deployment_scales_up u w :
  quiet → pods_wf (w_db w) → countable_pods (pods (w_db w)) →
  0 <= val (DeploymentSpec_replicas (dep_spec d)) →
  (owned_count (pods (w_db w)) < desired_replicas)%nat →
  om_uid (dep_metadata d) = Some u → template_selected →
  fresh_pods (w_uuids w + 2) (desired_replicas - owned_count (pods (w_db w))) w → ∃ w',
  reconcile_deployment d w = (Ok (), w') ∧
  owned_count (pods (w_db w')) = desired_replicas ∧
  pods (w_db w) ⊆ pods (w_db w').
Proof.
  intros Hq Hwf Hcount Hdes Hlt Hu Hsel Hfresh. unfold desired_replicas in *.
  destruct (run_reconcile_deployment w Hq Hwf Hcount Hdes) as (xs & Hxs & Hrun).
  pose proof (owned_list_length _ _ Hxs) as Hlen.
  unfold deployment_pass in Hrun. rewrite Hlen, (proj2 (Z.ltb_lt _ _)) in Hrun by lia.
  destruct (run_emit (deployment_ref d) ns EventType_Normal "ScalingReplicaSet"
    ("Scaled up replica set " +:+ dname +:+ " from " +:+
     pretty (Z.of_nat (owned_count (pods (w_db w)))) +:+ " to " +:+
     pretty (val (DeploymentSpec_replicas (dep_spec d))))
    "deployment-controller" (count_stmt w)) as (w1 & E1 & Hdb1 & _ & Huu).
  set (zs := range 0 _) in Hrun.
  assert (Hzs : length zs = (Z.to_nat (val (DeploymentSpec_replicas (dep_spec d))) -
    owned_count (pods (w_db w)))%nat).
  { unfold zs, range. rewrite length_fmap, length_seq. lia. }
  destruct (run_create_all u (length zs) zs w1 Hq) as (w2 & E2 & Hc & Hsub); try done.
  { by apply (pods_wf_same (w_db w)). }
  { rewrite Hzs. unfold fresh_pods. rewrite Huu, (pods_same (w_db w) (w_db w1)) by done.
    cbn [repo_has_uid pod_repo] in *. unfold has_uid in *. cbn [tb_get pods_table] in *.
    by rewrite Hdb1. }
  destruct (Hrun w2) as (w' & E & Hdb); [by rewrite (bind_ok _ _ _ _ _ E1)|].
  rewrite (pods_same (w_db w) (w_db w1)) in Hc, Hsub by done.
  exists w'. rewrite (pods_same _ _ Hdb). split; [done|]. split; [lia|done].
Qed.
End deployment.

(** ** Concrete inputs *)

Definition web_deployment (replicas : Z) : Deployment :=
  mk_Deployment (mk_TypeMeta None None) (sample_meta "web" (sample_uuid 9) None)
    (mk_DeploymentSpec (Some (as_i32 replicas)) sample_selector sample_template None None None false)
    None.

Definition web_owner : OwnerReference :=
  mk_OwnerReference "apps/v1" "Deployment" "web" (sample_uuid 9) (Some true) (Some true).

Lemma web_selected n : template_selected (web_deployment n).
Proof. exists app_labels. split; [done|]. apply (bool_decide_unpack _). vm_compute. exact I. Qed.

(** A stored pod the deployment owns. *)
Lemma web_pod_owned phase n d' :
  pods d' = {[("default", "web-1") := stored_pod (Some (sample_uuid 7)) (Some (ref_now 0))
    (sample_pod "web-1" (sample_uuid 7) phase None None (Some [web_owner]))
    (sample_status phase None)]} →
  owned_count (web_deployment n) (pods d') = 1%nat.
Proof.
  intros ->. rewrite <- insert_empty, owned_insert.
  - unfold owned_count. by rewrite map_filter_empty.
  - done.
  - split; [done|]. split; vm_compute; reflexivity.
Qed.

(** A failed pod is kept while the count is right, and removed when the
    deployment is scaled to zero. *)
Lemma deployment_scales_down_witness : ∃ w w1 w0,
  owned_count (web_deployment 1) (pods (w_db w)) = 1%nat ∧
  reconcile_deployment (web_deployment 1) w = (Ok (), w1) ∧ pods (w_db w1) = pods (w_db w) ∧
  reconcile_deployment (web_deployment 0) w = (Ok (), w0) ∧
  owned_count (web_deployment 0) (pods (w_db w0)) = 0%nat.
Proof.
  destruct (one_pod_world
    (sample_pod "web-1" (sample_uuid 7) PodPhase_Failed None None (Some [web_owner]))
    (sample_status PodPhase_Failed None) (sample_uuid 7) eq_refl eq_refl)
    as (w & Hwf & _ & Hv & _).
  pose proof (web_pod_owned PodPhase_Failed 1 (w_db w) Hv) as H1.
  pose proof (web_pod_owned PodPhase_Failed 0 (w_db w) Hv) as H0.
  destruct (deployment_scales_down (web_deployment 1) w ref_quiet Hwf) as (w1 & E1 & _ & _ & _ & Hs).
  - unfold countable_pods. rewrite H1. done.
  - done.
  - rewrite H1. vm_compute. lia.
  - destruct (deployment_scales_down (web_deployment 0) w ref_quiet Hwf)
      as (w0 & E0 & Hc & _).
    + unfold countable_pods. rewrite H0. done.
    + done.
    + rewrite H0. vm_compute. lia.
    + exists w, w1, w0. rewrite H1 in Hs. split; [done|]. split; [done|].
      split; [by apply Hs|]. split; [done|]. by rewrite Hc.
Defined.

Lemma deployment_scales_up_witness :
  fresh_pods (web_deployment 2) 2 2 start ∧
  ∃ w', reconcile_deployment (web_deployment 2) start = (Ok (), w') ∧
    owned_count (web_deployment 2) (pods (w_db w')) = 2%nat.
Proof.
  assert (Hf : fresh_pods (web_deployment 2) 2 2 start).
  { intros a Ha. split; [done|]. split; [apply no_uid_in_use|]. intros b Hb.
    assert (a = 1%nat) as -> by lia. assert (b = 0%nat) as -> by lia.
    split; vm_compute; discriminate. }
  split; [exact Hf|].
  destruct (deployment_scales_up (web_deployment 2) (sample_uuid 9) start ref_quiet)
    as (w' & E & Hc & _).
  - apply map_Forall_empty.
  - reflexivity.
  - vm_compute. discriminate.
  - vm_compute. lia.
  - reflexivity.
  - apply web_selected.
  - exact Hf.
  - exists w'. split; [exact E|exact Hc].
Defined.
