(* ===== verification/ControllerSets.v ===== *)
(** * What the stateful set and daemon set controllers guarantee

    The order in which a stateful set creates its pods and what it removes, and
    the coverage of the target nodes by a daemon set. *)
From S2P Require Import Prelude RustStd Json External Models Wire Error Bus World Repository.
From S2P Require Import RepositoryOk Recorder Frame Controller ControllerOk Reference RefEnv.
From S2P Require Import Samples.

Local Open Scope Z_scope.

(** ** Stateful sets *)

Section statefulset.
Context `{ExternOk, EnvOk} (ss : StatefulSet) (u : Uuid).

Abbreviation ns := (ObjectMeta_namespace (ss_metadata ss)).
Abbreviation sname := (ObjectMeta_name (ss_metadata ss)).
Definition statefulset_key (i : Z) : Key := (ns, statefulset_pod_name sname i).

(** The pod of an index runs. *)
Definition index_runs (m : gmap Key Pod) (i : Z) : bool :=
  match m !! statefulset_key i with Some p => is_running p | None => false end.

(** The first index whose pod is missing or does not run. *)
Definition first_unready (m : gmap Key Pod) (l : list Z) : option Z :=
  head (filter (λ i, index_runs m i = false) l).

Lemma first_unready_below m n i :
  first_unready m (range 0 n) = Some i →
  0 <= i < n ∧ index_runs m i = false ∧ ∀ j, 0 <= j < i → index_runs m j = true.
Proof.
  unfold first_unready. intros Hf. set (l := range 0 n) in *.
  assert (Hl : ∀ (a : nat) j, l !! a = Some j ↔ j = Z.of_nat a ∧ 0 <= j < n).
  { intros a j. unfold l, range. rewrite list_lookup_fmap, fmap_Some.
    setoid_rewrite lookup_seq. split.
    - intros (x & [-> ?] & ->). lia.
    - intros [-> ?]. exists a. split; [lia|done]. }
  destruct (filter _ l) as [|x r] eqn:E; [done|]. injection Hf as ->.
  destruct (filter_cut _ l [] r i E) as (k1 & k2 & Hk & Hnil & _ & Hi).
  assert (Hat : l !! length k1 = Some i) by by rewrite Hk, lookup_app_r, Nat.sub_diag.
  apply Hl in Hat as [Hi' ?]. split; [done|]. split; [done|]. intros j Hj.
  assert (l !! Z.to_nat j = Some j) as Hlj by (apply Hl; lia).
  rewrite Hk, lookup_app_l in Hlj by lia. apply list_elem_of_lookup_2 in Hlj.
  apply not_false_is_true. intros Hfalse.
  apply (not_elem_of_nil j). rewrite <- Hnil. by apply list_elem_of_filter.
Qed.

Definition index_pod (i : Z) (w : World) : Pod :=
  stored_pod (Some (env_uuid (w_uuids w))) (Some (env_now (w_clock w)))
    (pod_for_statefulset ss u (statefulset_pod_name sname i) (env_uuid (w_uuids w))) pending_status.

(** What an ordered pass over the indices [l] does to the pods. *)
Definition ordered_pass (l : list Z) (w : World) (m : gmap Key Pod) : Prop :=
  match first_unready (pods (w_db w)) l with
  | Some i =>
      match pods (w_db w) !! statefulset_key i with
      | Some _ => m = pods (w_db w)
      | None => m = <[statefulset_key i := index_pod i w]> (pods (w_db w))
      end
  | None => m = pods (w_db w)
  end.

Lemma run_get_index i w :
  quiet → pods_wf (w_db w) → ∃ r,
  attempt (E:=string) (PodRepository_get ns (statefulset_pod_name sname i)) w =
    (Ok r, count_stmt w) ∧
  match pods (w_db w) !! statefulset_key i with
  | Some p => r = Ok p
  | None => ∃ e, r = Err e
  end.
Proof.
  intros Hq Hwf. pose proof (repo_get_spec (T:=Pod) (statefulset_key i) w Hq Hwf) as Hg.
  destruct (pods (w_db w) !! statefulset_key i) as [p|].
  - eexists. split; [by apply run_attempt|done].
  - destruct Hg as [msg Hg]. eexists. split; [by apply run_attempt|eauto].
Qed.

Lemma run_ordered l acc w :
  quiet → pods_wf (w_db w) → StatefulSetSpec_is_parallel (ss_spec ss) = false →
  ¬ repo_has_uid Pod (uuid_to_string (env_uuid (w_uuids w))) (w_db w) → ∃ acc' w',
  for_break l acc (statefulset_index ss u) w = (Ok acc', w') ∧
  pods_wf (w_db w') ∧ ordered_pass l w (pods (w_db w')).
Proof.
  intros Hq. revert acc w. induction l as [|i l IH]; intros [c r] w Hwf Hord Hid.
  { by exists (c, r), w. }
  destruct (run_get_index i w Hq Hwf) as (g & Eg & Hg).
  unfold ordered_pass, first_unready. rewrite filter_cons.
  destruct (decide (index_runs (pods (w_db w)) i = false)) as [Hi|Hi]; unfold index_runs in Hi;
    destruct (pods (w_db w) !! statefulset_key i) as [p|] eqn:Hp; try done.
  - subst g. exists (c + 1, r), (count_stmt w). split; [|cbn [head]; by rewrite Hp]. simpl.
    rewrite (bind_ok _ _ _ (inr (c + 1, r)) (count_stmt w)); [done|].
    unfold statefulset_index. rewrite (bind_ok _ _ _ _ _ Eg). by rewrite Hi, Hord.
  - destruct Hg as [e ->].
    set (pod := pod_for_statefulset ss u (statefulset_pod_name sname i) (env_uuid (w_uuids w))).
    destruct (run_pod_create pod pending_status (tick_uuid (count_stmt w)))
      as (w1 & E1 & Hv & Hwf1 & _); try done.
    { by right. }
    destruct (run_emit (statefulset_ref ss) ns EventType_Normal "SuccessfulCreate"
      ("create Pod " +:+ statefulset_pod_name sname i +:+ " in StatefulSet " +:+ sname +:+
       " successful") "statefulset-controller"
      (set_bus (publish Added "Pod" (Some ns) (statefulset_pod_name sname i) pod (w_bus w1)) w1))
      as (w2 & E2 & Hdb & _).
    exists (c, r), w2. split; [|split].
    + simpl. rewrite (bind_ok _ _ _ (inr (c, r)) w2); [done|]. unfold statefulset_index.
      rewrite (bind_ok _ _ _ _ _ Eg). erewrite bind_ok by reflexivity. fold pod.
      rewrite (bind_ok _ _ _ _ _ (run_attempt _ _ _ _ E1)).
      erewrite bind_ok by reflexivity. rewrite (bind_ok _ _ _ _ _ E2). by rewrite Hord.
    + by apply (pods_wf_same (w_db w1)).
    + cbn [head]. rewrite Hp, (pods_same (w_db w1) (w_db w2) Hdb), Hv.
      change (object_key (pod_metadata pod)) with (statefulset_key i).
      change (w_db (tick_uuid (count_stmt w))) with (w_db w). by rewrite Hp.
  - subst g. apply not_false_is_true in Hi.
    destruct (IH (c + 1, r + 1) (count_stmt w)) as (acc' & w' & E' & Hwf' & Hpass); try done.
    exists acc', w'. split; [|done]. rewrite <- E'. simpl.
    rewrite (bind_ok _ _ _ (inl (c + 1, r + 1)) (count_stmt w)); [done|].
    unfold statefulset_index. rewrite (bind_ok _ _ _ _ _ Eg). by rewrite Hi.
Qed.

(** Removing a list of indices. *)
Lemma run_trim l w :
  quiet → pods_wf (w_db w) → ∃ w',
  for_each l (statefulset_trim ss) w = (Ok (), w') ∧ pods_wf (w_db w') ∧
  ∀ k, pods (w_db w') !! k =
    if bool_decide (k ∈ statefulset_key <$> l) then None else pods (w_db w) !! k.
Proof.
  intros Hq. revert w. induction l as [|i l IH]; intros w Hwf; [by exists w|].
  destruct (run_get_index i w Hq Hwf) as (g & Eg & Hg).
  assert (∃ w1, statefulset_trim ss i w = (Ok (), w1) ∧ pods_wf (w_db w1) ∧
    pods (w_db w1) = delete (statefulset_key i) (pods (w_db w))) as (w1 & E1 & Hwf1 & Hv1).
  { unfold statefulset_trim. rewrite (bind_ok _ _ _ _ _ Eg).
    destruct (repo_delete_spec (T:=Pod) (statefulset_key i) (count_stmt w) Hq Hwf)
      as (w1 & E1 & Hv1 & Hwf1). change (w_db (count_stmt w)) with (w_db w) in *.
    destruct (pods (w_db w) !! statefulset_key i) as [p|] eqn:Hp.
    - subst g. rewrite (bind_ok _ _ _ _ _ (run_attempt _ _ _ _ E1)). by eexists.
    - destruct Hg as [e ->]. exists (count_stmt w). split; [done|]. split; [done|].
      by rewrite delete_id. }
  destruct (IH w1 Hwf1) as (w' & E' & Hwf' & Hv'). exists w'. split; [|split; [done|]].
  - simpl. by rewrite (bind_ok _ _ _ _ _ E1).
  - intros k. rewrite Hv', Hv1, fmap_cons.
    destruct (decide (k = statefulset_key i)) as [->|Hne].
    + rewrite (bool_decide_eq_true_2 (_ ∈ _ :: _)) by (by left).
      rewrite lookup_delete_eq. by destruct (bool_decide _).
    + rewrite lookup_delete_ne by done. erewrite (bool_decide_ext (k ∈ _ :: _)); [done|].
      rewrite elem_of_cons. split; [by intros [->|?]|by right].
Qed.

Definition wanted : Z := val (StatefulSetSpec_replicas (ss_spec ss)).

(** C16.  A pass over a stateful set with the [OrderedReady] policy creates at
    most one pod: that of the first index that has no running pod, if that pod
    is missing, so every lower index runs.  The pods of the 32 indices from the
    number wanted on are removed; every other pod stays as it was. *)
Theorem statefulset_creates_in_order w :
  quiet → pods_wf (w_db w) → StatefulSetSpec_is_parallel (ss_spec ss) = false →
  om_uid (ss_metadata ss) = Some u → wanted + 32 < 2147483648 →
  ¬ repo_has_uid Pod (uuid_to_string (env_uuid (w_uuids w))) (w_db w) → ∃ m w',
  reconcile_statefulset ss w = (Ok (), w') ∧
  ordered_pass (range 0 wanted) w m ∧
  (∀ k, pods (w_db w') !! k =
    if bool_decide (k ∈ statefulset_key <$> range wanted (wanted + 32)) then None else m !! k) ∧
  ∀ i, first_unready (pods (w_db w)) (range 0 wanted) = Some i →
    0 <= i < wanted ∧ index_runs (pods (w_db w)) i = false ∧
    ∀ j, 0 <= j < i → index_runs (pods (w_db w)) j = true.
Proof.
  intros Hq Hwf Hord Hu Hw Hid. unfold wanted in *.
  destruct (run_ordered (range 0 (val (StatefulSetSpec_replicas (ss_spec ss)))) (0, 0) w)
    as ([c r] & w1 & E1 & Hwf1 & Hpass); try done.
  set (l := range (val (StatefulSetSpec_replicas (ss_spec ss))) _).
  destruct (run_trim (reverse l) w1 Hq Hwf1) as (w2 & E2 & Hwf2 & Hv2).
  destruct (run_statefulset_status ns sname (as_i32 r) (as_i32 c) w2 Hq) as (w3 & E3 & Hdb & _).
  exists (pods (w_db w1)), w3. split; [|split; [done|split]].
  - unfold reconcile_statefulset. rewrite Hu.
    erewrite bind_ok by reflexivity. rewrite (bind_ok _ _ _ _ _ E1).
    pose proof (val_range (StatefulSetSpec_replicas (ss_spec ss))).
    rewrite as_i32_small by lia. fold l. rewrite (bind_ok _ _ _ _ _ E2).
    by apply run_any.
  - intros k. rewrite (pods_same _ _ Hdb), Hv2. erewrite bool_decide_ext; [done|].
    rewrite fmap_reverse. by rewrite elem_of_reverse.
  - intros i. apply first_unready_below.
Qed.
End statefulset.

(** ** Daemon sets *)

Section daemonset.
Context `{ExternOk, EnvOk} (ds : DaemonSet) (u : Uuid).

Abbreviation ns := (ObjectMeta_namespace (ds_metadata ds)).
Abbreviation dname := (ObjectMeta_name (ds_metadata ds)).
Abbreviation node_name n := (ObjectMeta_name (node_metadata n)).

Definition daemonset_owns : Key * Pod → Prop :=
  owns ns (Some (daemonset_selector ds)) (om_uid (ds_metadata ds)).
Definition runs_on (name : string) (p : Pod) : Prop := ps_node_name (pod_spec p) = Some name.

Definition daemon_key (i : nat) : Key :=
  (ns, dname +:+ "-" +:+ prefix8 (uuid_to_string (env_uuid i))).

(** Each creation draws four identifiers: for the name, for the pod, and two
    for the event. *)
Definition fresh_daemons (i n : nat) (w : World) : Prop :=
  ∀ a, (a < n)%nat →
    pods (w_db w) !! daemon_key (i + 4 * a) = None ∧
    ¬ repo_has_uid Pod (uuid_to_string (env_uuid (i + 4 * a + 1))) (w_db w) ∧
    ∀ b, (b < a)%nat →
      daemon_key (i + 4 * a) ≠ daemon_key (i + 4 * b) ∧
      uuid_to_string (env_uuid (i + 4 * a + 1)) ≠ uuid_to_string (env_uuid (i + 4 * b + 1)).

Definition daemon_selected : Prop :=
  ∃ labels, om_labels (pts_metadata (dsspec_template (ds_spec ds))) = Some labels ∧
    daemonset_selector ds ⊆ labels.

Lemma run_create_daemon covered node w :
  quiet → pods_wf (w_db w) → om_uid (ds_metadata ds) = Some u → daemon_selected →
  node_name node ∉ covered →
  pods (w_db w) !! daemon_key (w_uuids w) = None →
  ¬ repo_has_uid Pod (uuid_to_string (env_uuid (w_uuids w + 1))) (w_db w) → ∃ w' y,
  daemonset_cover ds u covered node w = (Ok (), w') ∧ w_uuids w' = (w_uuids w + 4)%nat ∧
  pods_wf (w_db w') ∧ daemonset_owns (daemon_key (w_uuids w), y) ∧ runs_on (node_name node) y ∧
  pods (w_db w') = <[daemon_key (w_uuids w) := y]> (pods (w_db w)) ∧
  ∀ x, repo_has_uid Pod x (w_db w') →
    repo_has_uid Pod x (w_db w) ∨ x = uuid_to_string (env_uuid (w_uuids w + 1)).
Proof.
  intros Hq Hwf Hu (labels & Hl & Hsel) Hcov Hname Hid. rewrite Nat.add_1_r in Hid |- *.
  set (pod_name := dname +:+ "-" +:+ prefix8 (uuid_to_string (env_uuid (w_uuids w)))).
  set (pod := pod_for_daemonset ds u pod_name (node_name node) (env_uuid (S (w_uuids w)))).
  destruct (run_pod_create pod pending_status (tick_uuid (tick_uuid w)))
    as (w1 & E1 & Hv & Hwf1 & _ & _ & Huu & Huid); try done.
  { by right. }
  destruct (run_emit (daemonset_ref ds) ns EventType_Normal "SuccessfulCreate"
    ("Created pod: " +:+ pod_name) "daemonset-controller"
    (set_bus (publish Added "Pod" (Some ns) pod_name pod (w_bus w1)) w1))
    as (w2 & E2 & Hdb & _ & Huu2).
  change (object_key (pod_metadata pod)) with (daemon_key (w_uuids w)) in Hv.
  change (w_db (tick_uuid (tick_uuid w))) with (w_db w) in *. rewrite Hname in Hv.
  eexists w2, _. split; [|split; [|split; [|split; [|split; [|split]]]]].
  6: { rewrite (pods_same (w_db w1) (w_db w2) Hdb). exact Hv. }
  - unfold daemonset_cover. rewrite bool_decide_eq_false_2 by done.
    do 2 (erewrite bind_ok by reflexivity). fold pod_name. fold pod.
    rewrite (bind_ok _ _ _ _ _ (run_attempt _ _ _ _ E1)). simpl.
    erewrite bind_ok by reflexivity. exact E2.
  - simpl in *. lia.
  - by apply (pods_wf_same (w_db w1)).
  - split; [done|]. rewrite Hu. unfold pod_selected, owned_by. simpl. rewrite Hl.
    by rewrite bool_decide_eq_true_2; [split; [apply labels_match_spec|]|].
  - done.
  - intros x Hx. apply Huid. revert Hx. cbn [repo_has_uid pod_repo]. unfold has_uid.
    cbn [tb_get pods_table]. rewrite Hdb. done.
Qed.

(** The loop over the target nodes only adds owned pods, on target nodes. *)
Lemma run_cover covered nodes w :
  quiet → pods_wf (w_db w) → om_uid (ds_metadata ds) = Some u → daemon_selected →
  fresh_daemons (w_uuids w) (length nodes) w → ∃ w',
  for_each nodes (daemonset_cover ds u covered) w = (Ok (), w') ∧ pods_wf (w_db w') ∧
  pods (w_db w) ⊆ pods (w_db w') ∧
  (∀ n, n ∈ nodes → node_name n ∈ covered ∨ ∃ k p,
    pods (w_db w') !! k = Some p ∧ daemonset_owns (k, p) ∧ runs_on (node_name n) p) ∧
  (∀ k p, pods (w_db w') !! k = Some p → pods (w_db w) !! k = Some p ∨
    daemonset_owns (k, p) ∧ ∃ n, n ∈ nodes ∧ runs_on (node_name n) p).
Proof.
  intros Hq. revert w. induction nodes as [|n nodes IH]; intros w Hwf Hu Hsel Hfresh.
  { exists w. split; [done|]. split; [done|]. split; [done|].
    split; [by intros n ?%not_elem_of_nil|by left]. }
  destruct (decide (node_name n ∈ covered)) as [Hin|Hnin].
  - destruct (IH w) as (w' & E & Hwf' & Hsub & Hcov & Hnew); try done.
    { intros a Ha. apply Hfresh. simpl. lia. }
    exists w'. split; [|split; [done|split; [done|split]]].
    + cbn [for_each]. rewrite (bind_ok _ _ _ () w); [done|].
      unfold daemonset_cover. by rewrite bool_decide_eq_true_2.
    + intros n' [->|?]%elem_of_cons; eauto.
    + intros k p [?|(? & n' & ? & ?)]%Hnew; [by left|].
      right. split; [done|]. exists n'. by rewrite elem_of_cons; auto.
  - destruct (Hfresh 0%nat) as (Hname & Hid & _); [simpl; lia|]. rewrite Nat.add_0_r in *.
    destruct (run_create_daemon covered n w Hq Hwf Hu Hsel Hnin Hname Hid)
      as (w1 & y & E1 & Huu & Hwf1 & Ho & Hy & Hv & Huid).
    destruct (IH w1 Hwf1 Hu Hsel) as (w' & E & Hwf' & Hsub & Hcov & Hnew).
    { intros a Ha. rewrite Huu.
      destruct (Hfresh (S a)) as (Hname' & Hid' & Hne); [simpl; lia|].
      replace (w_uuids w + 4 + 4 * a)%nat with (w_uuids w + 4 * S a)%nat by lia.
      destruct (Hne 0%nat) as [Hk0 Hu0]; [lia|]. rewrite Nat.add_0_r in Hk0, Hu0.
      split; [|split].
      - rewrite Hv, lookup_insert_ne; [done|]. intros Heq. by apply Hk0.
      - intros [Hx|Hx]%Huid; [done|]. by apply Hu0.
      - intros b Hb. replace (w_uuids w + 4 + 4 * b)%nat with (w_uuids w + 4 * S b)%nat by lia.
        apply Hne. lia. }
    assert (Hyk : pods (w_db w') !! daemon_key (w_uuids w) = Some y).
    { eapply lookup_weaken; [|exact Hsub]. by rewrite Hv, lookup_insert_eq. }
    exists w'. split; [|split; [done|split; [|split]]].
    + simpl. by rewrite (bind_ok _ _ _ _ _ E1).
    + rewrite <- Hsub, Hv. by apply insert_subseteq.
    + intros n' [->|?]%elem_of_cons; [right; eauto|]. by apply Hcov.
    + intros k p [Hk|(? & n' & ? & ?)]%Hnew.
      * rewrite Hv in Hk. apply lookup_insert_Some in Hk as [[<- <-]|[_ Hk]]; [|by left].
        right. split; [done|]. exists n. split; [by left|done].
      * right. split; [done|]. exists n'. by rewrite elem_of_cons; auto.
Qed.

(** The owned pods a pass removes: those bound to a node that is no target. *)
Definition misplaced (targets : list string) (p : Pod) : Prop :=
  match ps_node_name (pod_spec p) with Some n => n ∉ targets | None => False end.
#[local] Instance misplaced_dec targets p : Decision (misplaced targets p).
Proof. unfold misplaced. destruct (ps_node_name (pod_spec p)); apply _. Defined.

Lemma run_evict targets xs w :
  quiet → pods_wf (w_db w) →
  Forall (λ p, is_Some (om_name (pod_metadata p)) ∧ (object_key (pod_metadata p)).1 = ns) xs →
  ∃ w', for_each xs (daemonset_evict ns targets) w = (Ok (), w') ∧
  ∀ k, pods (w_db w') !! k =
    if bool_decide (k ∈ (λ p, object_key (pod_metadata p)) <$> filter (misplaced targets) xs)
    then None else pods (w_db w) !! k.
Proof.
  intros Hq. revert w. induction xs as [|p xs IH]; intros w Hwf Hall; [by exists w|].
  apply Forall_cons in Hall as [[[name Hname] Hkey] Hall].
  assert (Hk : object_key (pod_metadata p) = (ns, name)).
  { destruct (object_key (pod_metadata p)) as [a b] eqn:E. simpl in Hkey. subst a.
    unfold object_key, ObjectMeta_name in E. rewrite Hname in E. by injection E as _ <-. }
  rewrite filter_cons. destruct (decide (misplaced targets p)) as [Hm|Hm].
  - destruct (repo_delete_spec (T:=Pod) (ns, name) w Hq Hwf) as (w1 & E1 & Hv1 & Hwf1).
    assert (E2 : daemonset_evict ns targets p w = (Ok (), w1)).
    { unfold daemonset_evict. unfold misplaced in Hm. rewrite Hname.
      destruct (ps_node_name (pod_spec p)) as [n|]; [|done]. rewrite bool_decide_eq_false_2 by done.
      unfold mbind, st_bind, attempt. cbn [repo_delete pod_repo fst snd] in E1.
      destruct (pods (w_db w) !! (ns, name)); [by rewrite E1|]. destruct E1 as [msg E1].
      by rewrite E1. }
    destruct (IH w1 Hwf1 Hall) as (w' & E' & Hv'). exists w'. split.
    + simpl. by rewrite (bind_ok _ _ _ _ _ E2).
    + intros k. rewrite Hv', Hv1, fmap_cons, Hk.
      destruct (decide (k = (ns, name))) as [->|Hne].
      * rewrite (bool_decide_eq_true_2 (_ ∈ _ :: _)) by (by left).
        rewrite lookup_delete_eq. by destruct (bool_decide _).
      * rewrite lookup_delete_ne by done. erewrite (bool_decide_ext (k ∈ _ :: _)); [done|].
        rewrite elem_of_cons. split; [by intros [->|?]|by right].
  - destruct (IH w Hwf Hall) as (w' & E' & Hv'). exists w'. split; [|done].
    simpl. erewrite bind_ok; [exact E'|]. unfold daemonset_evict. unfold misplaced in Hm.
    destruct (ps_node_name (pod_spec p)) as [n|]; [|done]. rewrite Hname.
    rewrite bool_decide_eq_true_2; [done|]. by destruct (decide (n ∈ targets)).
Qed.

Definition target_names (nodes : list Node) : list string :=
  (λ n, node_name n) <$> daemonset_targets ds nodes.

Lemma run_reconcile_daemonset nodes w :
  quiet → pods_wf (w_db w) → om_uid (ds_metadata ds) = Some u → daemonset_selector ds ≠ ∅ →
  ∃ owned,
  owned ≡ₚ (map_to_list (filter daemonset_owns (pods (w_db w)))).*2 ∧
  ∀ w1 w2,
    for_each (daemonset_targets ds nodes)
      (daemonset_cover ds u (omap (λ p, ps_node_name (pod_spec p)) owned)) (count_stmt w) =
      (Ok (), w1) →
    for_each owned (daemonset_evict ns (target_names nodes)) w1 = (Ok (), w2) → ∃ w3,
    reconcile_daemonset ds nodes w = (Ok (), w3) ∧ db_pods (w_db w3) = db_pods (w_db w2).
Proof.
  intros Hq Hwf Hu Hsel.
  destruct (run_owned_list ns (Some (daemonset_selector ds)) (om_uid (ds_metadata ds)) w Hq Hwf)
    as (xs & E & Hxs).
  eexists. split; [exact Hxs|]. intros w1 w2 E1 E2.
  set (owned := filter _ xs) in *.
  destruct (run_daemonset_status ns dname
    (as_i32 (Z.of_nat (length (daemonset_targets ds nodes))))
    (as_i32 (Z.of_nat (length owned)))
    (as_i32 (Z.of_nat (length (filter (λ p, is_running p = true) owned)))) w2 Hq)
    as (w3 & E3 & Hdb & _).
  exists w3. split; [|done]. unfold reconcile_daemonset.
  rewrite (bind_ok _ _ _ u w) by by rewrite Hu.
  rewrite bool_decide_eq_false_2 by done.
  rewrite (bind_ok _ _ _ _ _ (run_any _ _ _ _ E)). fold owned.
  rewrite (bind_ok _ _ _ _ _ E1). rewrite (bind_ok _ _ _ _ _ E2). by apply run_any.
Qed.

End daemonset.

(** ** Concrete inputs *)

Definition web_statefulset (replicas : Z) : StatefulSet :=
  mk_StatefulSet (mk_TypeMeta None None) (sample_meta "web" (sample_uuid 9) None)
    (mk_StatefulSetSpec (Some (as_i32 replicas)) sample_selector sample_template None None) None.

(** With the first pod running, the second is created and no third. *)
Lemma statefulset_creates_in_order_witness : ∃ w w',
  index_runs (web_statefulset 3) (pods (w_db w)) 0 = true ∧
  reconcile_statefulset (web_statefulset 3) w = (Ok (), w') ∧
  is_Some (pods (w_db w') !! ("default", "web-1")) ∧
  pods (w_db w') !! ("default", "web-2") = None.
Proof.
  destruct (one_pod_world
    (sample_pod "web-0" (sample_uuid 7) PodPhase_Running None None None)
    (sample_status PodPhase_Running None) (sample_uuid 7) eq_refl eq_refl)
    as (w & Hwf & Huu & Hv & Hid & _).
  assert (Hr : first_unready (web_statefulset 3) (pods (w_db w)) (range 0 3) = Some 1)
    by (rewrite Hv; vm_compute; reflexivity).
  destruct (statefulset_creates_in_order (web_statefulset 3) (sample_uuid 9) w ref_quiet Hwf
    eq_refl eq_refl eq_refl) as (m & w' & E & Hm & Hk & Hbelow).
  - intros Hx%Hid. revert Hx. rewrite Huu. vm_compute. discriminate.
  - change (range 0 (wanted (web_statefulset 3))) with (range 0 3) in *.
    unfold ordered_pass in Hm. rewrite Hr in Hm.
    assert (H1 : pods (w_db w) !! statefulset_key (web_statefulset 3) 1 = None)
      by (rewrite Hv; vm_compute; reflexivity).
    rewrite H1 in Hm. exists w, w'. split; [apply (Hbelow 1 Hr); lia|]. split; [exact E|].
    rewrite !Hk, Hm. split.
    + rewrite bool_decide_eq_false_2; [|apply (bool_decide_unpack _); vm_compute; exact I].
      rewrite lookup_insert_eq. by eexists.
    + rewrite bool_decide_eq_false_2; [|apply (bool_decide_unpack _); vm_compute; exact I].
      rewrite lookup_insert_ne by (vm_compute; discriminate).
      rewrite Hv. vm_compute. reflexivity.
Defined.

Definition web_daemonset : DaemonSet :=
  mk_DaemonSet (mk_TypeMeta None None) (sample_meta "web" (sample_uuid 9) None)
    (mk_DaemonSetSpec sample_selector sample_template None) None.

Definition bare_node (name : string) : Node :=
  Node_with_metadata (ObjectMeta_with_name (Some name) ObjectMeta_default) Node_default.

