(* ===== verification/ControllerPods.v ===== *)
(** * What the pod and service controllers guarantee

    The fate of every pod in a pass of the pod controller, and the endpoints a
    service ends up with. *)
From S2P Require Import Prelude RustStd Json External Models Wire Error Bus World Repository.
From S2P Require Import RepositoryOk Recorder Frame Controller ControllerOk Reference RefEnv.
From S2P Require Import Samples.

Local Open Scope Z_scope.

(** ** The pod controller *)

Section pods.
Context `{ExternOk, EnvOk}.

(** A running pod bound to a node that is not ready. *)
Definition lost (ready_nodes : list string) (p : Pod) : Prop :=
  match ps_node_name (pod_spec p) with Some n => n ∉ ready_nodes | None => False end ∧
  phase_of p = PodPhase_Running.
#[local] Instance lost_dec ready_nodes p : Decision (lost ready_nodes p).
Proof. unfold lost. destruct (ps_node_name (pod_spec p)); apply _. Defined.

(** A failed pod nobody owns, with the restart policy [Always]. *)
Definition restartable (p : Pod) : Prop :=
  has_owner p = false ∧ phase_of p = PodPhase_Failed ∧
  default RestartPolicy_Always (ps_restart_policy (pod_spec p)) = RestartPolicy_Always.
#[local] Instance restartable_dec p : Decision (restartable p).
Proof. unfold restartable. apply _. Defined.

(** What a pass makes of a pod. *)
Definition outcome (ready_nodes : list string) (p p' : Pod) : Prop :=
  if decide (lost ready_nodes p) then p' = with_stored_status (failed_status p) p
  else if decide (restartable p) then
    ∃ uid t, p' = stored_pod (Some uid) (Some t) (respun p uid) pending_status
  else p' = p.

(** The next [n] identifiers are in use by no pod and pairwise distinct. *)
Definition fresh_ids (i n : nat) (d : Db) : Prop :=
  ∀ a, (i <= a < i + n)%nat →
    ¬ repo_has_uid Pod (uuid_to_string (env_uuid a)) d ∧
    ∀ b, (i <= b < a)%nat → uuid_to_string (env_uuid b) ≠ uuid_to_string (env_uuid a).

(** The identifiers in use after a step are the old ones and those drawn. *)
Definition draws (n : nat) (w w' : World) : Prop :=
  (w_uuids w <= w_uuids w' <= w_uuids w + n)%nat ∧
  ∀ x, repo_has_uid Pod x (w_db w') → repo_has_uid Pod x (w_db w) ∨
    ∃ a, (w_uuids w <= a < w_uuids w')%nat ∧ x = uuid_to_string (env_uuid a).

Lemma fresh_after m n w w' :
  fresh_ids (w_uuids w) (m + n) (w_db w) → draws m w w' →
  fresh_ids (w_uuids w') n (w_db w').
Proof.
  intros Hf [Hle Hd] a Ha. destruct (Hf a) as [Hno Hne]; [lia|]. split.
  - intros [Hx|(b & Hb & Hx)]%Hd; [done|]. apply (Hne b); [lia|done].
  - intros b Hb. apply Hne. lia.
Qed.

Lemma has_uid_same d d' x :
  db_pods d' = db_pods d → repo_has_uid Pod x d' → repo_has_uid Pod x d.
Proof. cbn [repo_has_uid pod_repo]. unfold has_uid. cbn [tb_get pods_table]. by intros ->. Qed.

Lemma run_mark_lost k p node w :
  quiet → pods_wf (w_db w) → pods (w_db w) !! k = Some p → ∃ w',
  mark_node_lost p node w = (Ok (), w') ∧ pods_wf (w_db w') ∧ draws 2 w w' ∧
  pods (w_db w') = <[k := with_stored_status (failed_status p) p]> (pods (w_db w)).
Proof.
  intros Hq Hwf Hk. pose proof (pods_keyed _ _ _ Hk) as Hkey.
  set (ns := ObjectMeta_namespace (pod_metadata p)).
  set (name := ObjectMeta_name (pod_metadata p)).
  assert (Hk' : k = (ns, name)) by by rewrite <- Hkey.
  destruct (run_update_status ns name (failed_status p) w Hq Hwf) as (w1 & E1 & Hv1 & Hwf1 & _).
  pose proof (pod_update_status_uids ns name (failed_status p) w Hq) as Hu.
  rewrite E1 in Hu. destruct Hu as [Hu1 Hu2].
  set (p' := with_stored_status (failed_status p) p) in *.
  assert (Hv : pods (w_db w1) = <[k:=p']> (pods (w_db w))).
  { rewrite Hv1, <- Hk'. by rewrite <- (insert_id _ _ _ Hk) at 1; rewrite alter_insert_eq. }
  pose proof (repo_get_spec (T:=Pod) k w1 Hq Hwf1) as Hg.
  rewrite Hv, lookup_insert_eq, Hk' in Hg.
  destruct (run_emit (pod_ref p) ns EventType_Warning "NodeNotReady"
    ("Node " +:+ node +:+ " stopped reporting ready, pod marked Failed") "node-controller"
    (set_bus (publish Modified "Pod" (Some ns) name p' (w_bus (count_stmt w1))) (count_stmt w1)))
    as (w2 & E2 & Hdb & _ & Huu).
  exists w2. split; [|split; [|split]].
  - unfold mark_node_lost. fold ns name. rewrite (bind_ok _ _ _ _ _ (run_attempt _ _ _ _ E1)).
    rewrite (bind_ok _ _ _ _ _ (run_attempt _ _ _ _ Hg)).
    erewrite bind_ok by reflexivity. exact E2.
  - by apply (pods_wf_same (w_db w1)).
  - split; [simpl in *; lia|]. intros x Hx%(has_uid_same (w_db w1)); [|done]. left. by apply Hu2.
  - by rewrite (pods_same (w_db w1) (w_db w2) Hdb).
Qed.

Lemma run_respin k p w :
  quiet → pods_wf (w_db w) → pods (w_db w) !! k = Some p → fresh_ids (w_uuids w) 2 (w_db w) →
  ∃ w' uid t,
  respin p w = (Ok (), w') ∧ pods_wf (w_db w') ∧ draws 2 w w' ∧
  pods (w_db w') =
    <[k := stored_pod (Some uid) (Some t) (respun p uid) pending_status]> (pods (w_db w)).
Proof.
  intros Hq Hwf Hk Hfresh. pose proof (pods_keyed _ _ _ Hk) as Hkey.
  set (ns := ObjectMeta_namespace (pod_metadata p)).
  set (name := ObjectMeta_name (pod_metadata p)).
  destruct (repo_delete_spec (T:=Pod) k w Hq Hwf) as (w1 & E1 & Hv1 & Hwf1).
  rewrite Hk, <- Hkey in E1. cbn [repo_delete pod_repo] in E1.
  change (PodRepository_delete ns name w = (Ok (), w1)) in E1.
  pose proof (pod_delete_uids ns name w Hq) as Hu. rewrite E1 in Hu. destruct Hu as [Hu1 Hu2]. simpl in Hu1.
  set (w2 := set_bus (publish Deleted "Pod" (Some ns) name p (w_bus w1)) w1).
  set (pod := respun p (env_uuid (w_uuids w2))).
  destruct (run_pod_create pod pending_status (tick_uuid w2))
    as (w3 & E3 & Hv3 & Hwf3 & _ & _ & Huu3 & Huid3); try done.
  { right. destruct (Hfresh (w_uuids w)) as [Hno _]; [lia|]. intros Hx%Hu2. apply Hno.
    by rewrite <- Hu1. }
  change (object_key (pod_metadata pod)) with (object_key (pod_metadata p)) in Hv3.
  change (w_db (tick_uuid w2)) with (w_db w1) in *. rewrite Hkey, Hv1, lookup_delete_eq in Hv3.
  eexists (set_bus _ w3), _, _. split; [|split; [exact Hwf3|split]].
  - unfold respin. fold ns name. rewrite (bind_ok _ _ _ _ _ (run_attempt _ _ _ _ E1)).
    erewrite bind_ok by reflexivity. fold w2. erewrite bind_ok by reflexivity. fold pod.
    by rewrite (bind_ok _ _ _ _ _ (run_attempt _ _ _ _ E3)).
  - change (w_uuids w3 = S (w_uuids w1)) in Huu3.
    unfold draws. cbn [w_uuids w_db set_bus]. rewrite Huu3, Hu1. split; [lia|].
    intros x [Hx|Hx]%Huid3; [left; by apply Hu2|].
    right. exists (w_uuids w2). unfold w2. cbn [w_uuids set_bus]. split; [lia|done].
  - simpl w_db. rewrite Hv3, insert_delete_eq. done.
Qed.

Lemma run_reconcile_pod ready_nodes k p w :
  quiet → pods_wf (w_db w) → pods (w_db w) !! k = Some p → fresh_ids (w_uuids w) 2 (w_db w) →
  ∃ w' p',
  reconcile_pod ready_nodes p w = (Ok (), w') ∧ outcome ready_nodes p p' ∧
  pods_wf (w_db w') ∧ draws 2 w w' ∧ pods (w_db w') = <[k := p']> (pods (w_db w)).
Proof.
  intros Hq Hwf Hk Hfresh. unfold outcome.
  destruct (decide (lost ready_nodes p)) as [[Hnode Hphase]|Hlost].
  - destruct (ps_node_name (pod_spec p)) as [node|] eqn:Hn; [|done].
    destruct (run_mark_lost k p node w Hq Hwf Hk) as (w1 & E1 & Hwf1 & Hd1 & Hv1).
    exists w1, (with_stored_status (failed_status p) p). split; [|done].
    unfold reconcile_pod. rewrite Hn, Hphase, (bool_decide_eq_false_2 (_ ∈ _)) by done.
    cbn [negb andb]. rewrite (bool_decide_eq_true_2 (PodPhase_Running = PodPhase_Running)) by done.
    rewrite (bind_ok _ _ _ _ _ E1), (bool_decide_eq_false_2 (_ = PodPhase_Failed)) by done.
    by rewrite andb_false_r.
  - assert (E1 : (match ps_node_name (pod_spec p) with
      | Some node => if negb (bool_decide (node ∈ ready_nodes)) &&
                        bool_decide (phase_of p = PodPhase_Running)
                     then mark_node_lost p node else mret ()
      | None => mret () end) w = (Ok (), w)).
    { unfold lost in Hlost. destruct (ps_node_name (pod_spec p)) as [node|]; [|done].
      destruct (bool_decide_reflect (node ∈ ready_nodes)); [done|].
      destruct (bool_decide_reflect (phase_of p = PodPhase_Running)); [tauto|done]. }
    unfold reconcile_pod. rewrite (bind_ok _ _ _ _ _ E1).
    destruct (decide (restartable p)) as [(Ho & Hf & Hp)|Hres].
    + destruct (run_respin k p w Hq Hwf Hk Hfresh) as (w' & uid & t & E & Hwf' & Hd & Hv).
      eexists w', _. rewrite Ho, !bool_decide_eq_true_2 by done. eauto 10.
    + exists w, p. split; [|split; [done|split; [done|split]]].
      * destruct (has_owner p) eqn:Ho; [done|].
        destruct (bool_decide_reflect (phase_of p = PodPhase_Failed)); [|done].
        destruct (bool_decide_reflect (default RestartPolicy_Always
          (ps_restart_policy (pod_spec p)) = RestartPolicy_Always)); [|done].
        by destruct Hres.
      * split; [lia|]. intros x Hx. by left.
      * by rewrite insert_id.
Qed.

Lemma run_reconcile_each_pod ready_nodes xs w :
  quiet → pods_wf (w_db w) → NoDup ((λ p, object_key (pod_metadata p)) <$> xs) →
  Forall (λ p, pods (w_db w) !! object_key (pod_metadata p) = Some p) xs →
  fresh_ids (w_uuids w) (2 * length xs) (w_db w) → ∃ w',
  for_each xs (reconcile_pod ready_nodes) w = (Ok (), w') ∧
  (∀ p, p ∈ xs → ∃ p', pods (w_db w') !! object_key (pod_metadata p) = Some p' ∧
    outcome ready_nodes p p') ∧
  ∀ k, k ∉ (λ p, object_key (pod_metadata p)) <$> xs → pods (w_db w') !! k = pods (w_db w) !! k.
Proof.
  intros Hq. revert w. induction xs as [|p xs IH]; intros w Hwf Hnd Hall Hfresh.
  { exists w. split; [done|]. split; [by intros p ?%not_elem_of_nil|done]. }
  rewrite fmap_cons in Hnd. apply NoDup_cons in Hnd as [Hnin Hnd].
  apply Forall_cons in Hall as [Hp Hall].
  destruct (run_reconcile_pod ready_nodes _ p w Hq Hwf Hp) as (w1 & p1 & E1 & Ho1 & Hwf1 & Hd1 & Hv1).
  { intros a Ha. apply Hfresh. simpl. lia. }
  destruct (IH w1 Hwf1 Hnd) as (w' & E' & Hin & Hout).
  - rewrite Forall_forall in *. intros q Hq'. rewrite Hv1, lookup_insert_ne; [by apply Hall|].
    intros Heq. apply Hnin. rewrite Heq.
    by apply (list_elem_of_fmap_2 (λ p, object_key (pod_metadata p))).
  - eapply fresh_after; [|exact Hd1]. intros a Ha. apply Hfresh. simpl. lia.
  - exists w'. split; [|split].
    + simpl. by rewrite (bind_ok _ _ _ _ _ E1).
    + intros q [->|Hq']%elem_of_cons; [|by apply Hin].
      exists p1. rewrite Hout by done. by rewrite Hv1, lookup_insert_eq.
    + intros k [Hne Hk]%not_elem_of_cons. by rewrite Hout, Hv1, lookup_insert_ne.
Qed.

Lemma outcome_perm l l' p p' : l ≡ₚ l' → outcome l p p' → outcome l' p p'.
Proof.
  intros Hl. unfold outcome.
  assert (lost l p ↔ lost l' p) as Hlost.
  { unfold lost. destruct (ps_node_name (pod_spec p)); [by rewrite Hl|done]. }
  destruct (decide (lost l p)), (decide (lost l' p)); tauto.
Qed.

(** C15.  What a pass of the pod controller makes of every stored pod: a running
    pod bound to a node that is not ready becomes [Failed], keeping its
    identity, its node and its host address; a failed pod without owner whose
    policy is [Always] is replaced by a pending one with a new identity and no
    node; every other pod, in particular a failed pod with an owner, stays.  No
    pod appears and none disappears. *)
Theorem reconcile_pods_outcome w :
  quiet → pods_wf (w_db w) → repo_wf Node (w_db w) →
  fresh_ids (w_uuids w) (2 * size (pods (w_db w))) (w_db w) → ∃ w',
  reconcile_pods w = (Ok (), w') ∧
  (∀ k p, pods (w_db w) !! k = Some p → ∃ p',
    pods (w_db w') !! k = Some p' ∧ outcome (ready_names (w_db w)) p p') ∧
  (∀ k, pods (w_db w) !! k = None → pods (w_db w') !! k = None).
Proof.
  intros Hq Hwf Hwfn Hfresh.
  destruct (run_pod_list None None w Hq Hwf) as (xs & E1 & Hxs).
  rewrite filter_always in Hxs by done.
  destruct (run_list_ready (count_stmt w) Hq Hwfn) as (nodes & E2 & Hnodes).
  assert (Hkeys : (λ p, object_key (pod_metadata p)) <$> xs ≡ₚ (map_to_list (pods (w_db w))).*1).
  { rewrite Hxs, <- list_fmap_compose. apply reflexive_eq, list_fmap_ext.
    intros i [k p] Hi%list_elem_of_lookup_2%elem_of_map_to_list. by apply pods_keyed in Hi. }
  destruct (run_reconcile_each_pod ((λ n, ObjectMeta_name (node_metadata n)) <$> nodes) xs
    (count_stmt (count_stmt w))) as (w' & E' & Hin & Hout); try done.
  - rewrite Hkeys. apply NoDup_fst_map_to_list.
  - rewrite Hxs. apply Forall_fmap, Forall_forall. intros [k p] Hk%elem_of_map_to_list.
    simpl. by rewrite (pods_keyed _ _ _ Hk).
  - by rewrite Hxs, length_fmap, length_map_to_list.
  - exists w'. split; [|split].
    + unfold reconcile_pods. rewrite (bind_ok _ _ _ _ _ (run_any _ _ _ _ E1)).
      by rewrite (bind_ok _ _ _ _ _ (run_any _ _ _ _ E2)).
    + intros k p Hk. pose proof (pods_keyed _ _ _ Hk) as Hkey.
      destruct (Hin p) as (p' & Hp' & Ho).
      { rewrite Hxs. apply list_elem_of_fmap. exists (k, p). split; [done|].
        by apply elem_of_map_to_list. }
      rewrite Hkey in Hp'. exists p'. split; [done|]. by eapply outcome_perm.
    + intros k Hk. rewrite Hout; [done|]. rewrite Hkeys, list_elem_of_fmap.
      intros ([k' p] & -> & Hp%elem_of_map_to_list). cbn [fst] in Hk. congruence.
Qed.
End pods.

(** ** The service controller *)

Section services.
Context `{ExternOk, EnvOk}.

Definition endpoints_view : Db → gmap Key Endpoints :=
  view endpoints_table (λ k r, endpoints_of_row k r (stamp (er_created_at r))).
Definition endpoints_wf : Db → Prop := wf endpoints_table (λ r, stamped (er_created_at r)).

Lemma run_endpoints_get key w :
  quiet → endpoints_wf (w_db w) →
  EndpointsRepository_get key.1 key.2 w =
    match endpoints_view (w_db w) !! key with
    | Some x => (Ok x, count_stmt w)
    | None => (Err (not_found "endpoints" key.2), count_stmt w)
    end.
Proof.
  intros Hq Hwf. destruct key as [ns name].
  pose proof (run_get endpoints_table (λ k r, endpoints_of_row k r (stamp (er_created_at r)))
    (λ r, stamped (er_created_at r))
    (λ kr, created ← parse_dt (er_created_at kr.2); mret (endpoints_of_row kr.1 kr.2 created))
    (λ k r w0 Hr, bind_ok _ _ _ _ _ (run_parse_dt _ _ Hr)) "endpoints" name (ns, name) w Hq Hwf)
    as Hg.
  exact Hg.
Qed.

(** Writing an [Endpoints] object: its subsets are what is read back. *)
Lemma run_endpoints_update ep u w :
  quiet → endpoints_wf (w_db w) → om_uid (ep_metadata ep) = Some u →
  is_Some (endpoints_view (w_db w) !! object_key (ep_metadata ep)) ∨
    ¬ has_uid endpoints_table (uuid_to_string u) (w_db w) → ∃ y w',
  EndpointsRepository_create_or_update ep w = (Ok y, w') ∧
  endpoints_view (w_db w') = <[object_key (ep_metadata ep) := y]> (endpoints_view (w_db w)) ∧
  ep_subsets y = ep_subsets ep ∧
  w_bus w' = w_bus w ∧ set_endpoints ∅ (w_db w') = set_endpoints ∅ (w_db w).
Proof.
  intros Hq Hwf Hu Hadm.
  set (key := object_key (ep_metadata ep)) in *.
  destruct (run_create_full endpoints_table
    (λ k r, endpoints_of_row k r (stamp (er_created_at r))) (λ r, stamped (er_created_at r))
    (om_uid (ep_metadata ep))
    (λ u now, mk_EndpointsRow (uuid_to_string u) (json_str (ep_subsets ep)) now now)
    (λ _ now old, mk_EndpointsRow (er_uid old) (json_str (ep_subsets ep)) (er_created_at old) now)
    key (EndpointsRepository_get key.1 key.2) w Hq Hwf) as (w' & E & Hdb & Hg & Hbus & _).
  - done.
  - intros. apply stamped_rfc3339.
  - done.
  - intros w0 Hwf0.
    rewrite (run_endpoints_get key w0 Hq Hwf0).
    by destruct (endpoints_view (w_db w0) !! key) eqn:Hk; unfold endpoints_view in Hk; rewrite Hk.
  - by rewrite Hu.
  - eexists _, w'. split; [|split; [|split; [|split; [exact Hbus|]]]].
    + exact E.
    + unfold endpoints_view. rewrite Hdb, view_insert. reflexivity.
    + unfold endpoints_of_row.
      destruct (tb_get endpoints_table (w_db w) !! key); apply json_from_str.
    + by rewrite Hdb.
Qed.

(** What a service's endpoints must be: one subset with the address of every
    running pod that has one, in the order the store lists them, and the
    service's ports; no subset at all when there is no such pod. *)
Definition address_of (p : Pod) (a : EndpointAddress) : Prop :=
  phase_of p = PodPhase_Running ∧
  ∃ s ip, pod_status p = Some s ∧ pstat_pod_ip s = Some ip ∧
    a = mk_EndpointAddress ip None (ps_node_name (pod_spec p)) (Some (pod_ref p)).

Lemma endpoint_address_spec p a : endpoint_address p = Some a ↔ address_of p a.
Proof.
  unfold endpoint_address, address_of. case_bool_decide as Hp; [|split; [done|by intros [? _]]].
  rewrite fmap_Some. split.
  - intros (ip & Hip & ->). apply bind_Some in Hip as (s & Hs & Hip). split; [done|]. eauto.
  - intros (_ & s & ip & Hs & Hip & ->). exists ip. by rewrite Hs.
Qed.

Definition addresses (ep : Endpoints) : list EndpointAddress :=
  ep_subsets ep ≫= (λ s, default [] (eps_addresses s)).

Lemma service_endpoints_addresses svc xs u :
  addresses (service_endpoints svc xs u) = omap endpoint_address xs.
Proof.
  unfold addresses, service_endpoints. simpl. destruct (omap endpoint_address xs) as [|a l]; [done|].
  simpl. by rewrite app_nil_r.
Qed.

(** C20.  A pass over a service with a selector stores, under the service's name,
    exactly the addresses of the running pods of its namespace that the
    selector selects and that have an address, each pod once; the pods and the
    other endpoints are untouched. *)
Theorem reconcile_service_endpoints svc selector w :
  quiet → pods_wf (w_db w) → endpoints_wf (w_db w) →
  sspec_selector (svc_spec svc) = Some selector → selector ≠ ∅ →
  ¬ has_uid endpoints_table (uuid_to_string (env_uuid (w_uuids w))) (w_db w) →
  let key := object_key (svc_metadata svc) in
  ∃ y xs w',
  reconcile_service svc w = (Ok (), w') ∧
  endpoints_view (w_db w') = <[key := y]> (endpoints_view (w_db w)) ∧
  set_endpoints ∅ (w_db w') = set_endpoints ∅ (w_db w) ∧
  xs ≡ₚ (filter (λ kp, kp.1.1 = key.1 ∧ pod_selected (Some selector) kp.2 = true)
           (map_to_list (pods (w_db w)))).*2 ∧
  addresses y = omap endpoint_address xs ∧
  (∀ a, a ∈ addresses y ↔ ∃ k p, pods (w_db w) !! k = Some p ∧ k.1 = key.1 ∧
    pod_selected (Some selector) p = true ∧ address_of p a) ∧
  ∀ s, s ∈ ep_subsets y → eps_ports s = Some (endpoint_port <$> sspec_ports (svc_spec svc)).
Proof.
  intros Hq Hwf Hwfe Hsel Hne Hid key.
  destruct (run_pod_list (Some key.1) (Some selector) w Hq Hwf) as (xs & E1 & Hxs).
  set (ep := service_endpoints svc xs (env_uuid (w_uuids w))).
  destruct (run_endpoints_update ep (env_uuid (w_uuids w)) (tick_uuid (count_stmt w)) Hq Hwfe)
    as (y & w' & E2 & Hv & Hy & _ & Hdb); [done|by right|].
  assert (Haddr : addresses y = omap endpoint_address xs).
  { unfold addresses. rewrite Hy. apply service_endpoints_addresses. }
  assert (Hxs' : xs ≡ₚ (filter (λ kp, kp.1.1 = key.1 ∧ pod_selected (Some selector) kp.2 = true)
    (map_to_list (pods (w_db w)))).*2).
  { rewrite Hxs. f_equiv. apply reflexive_eq, list_filter_iff. intros [k p].
    unfold in_namespace. by rewrite str_eqb_spec. }
  exists y, xs, w'. split; [|split; [exact Hv|split; [exact Hdb|split; [done|split; [done|split]]]]].
  - unfold reconcile_service. rewrite Hsel, bool_decide_eq_false_2 by done.
    rewrite (bind_ok _ _ _ _ _ (run_any _ _ _ _ E1)). erewrite bind_ok by reflexivity.
    by rewrite (bind_ok _ _ _ _ _ (run_any _ _ _ _ E2)).
  - intros a. rewrite Haddr, list_elem_of_omap. setoid_rewrite endpoint_address_spec. split.
    + intros (p & Hp & Ha). rewrite Hxs', list_elem_of_fmap in Hp.
      destruct Hp as ([k q] & -> & [[Hns Hs] Hk%elem_of_map_to_list]%list_elem_of_filter). eauto 10.
    + intros (k & p & Hk & Hns & Hs & Ha). exists p. split; [|done].
      rewrite Hxs', list_elem_of_fmap. exists (k, p). split; [done|].
      apply list_elem_of_filter. split; [done|]. by apply elem_of_map_to_list.
  - intros s. rewrite Hy. unfold ep, service_endpoints. simpl.
    destruct (omap endpoint_address xs); [by intros ?%not_elem_of_nil|].
    by intros ->%list_elem_of_singleton.
Qed.
End services.

(** ** Concrete inputs *)

(** A running pod on a node that does not exist. *)
Definition stranded : Pod :=
  sample_pod "web" (sample_uuid 7) PodPhase_Running (Some "gone") (Some "10.0.0.1") None.

Lemma reconcile_pods_outcome_witness : ∃ w w' p p',
  pods (w_db w) !! ("default", "web") = Some p ∧ lost (ready_names (w_db w)) p ∧
  reconcile_pods w = (Ok (), w') ∧ pods (w_db w') !! ("default", "web") = Some p' ∧
  outcome (ready_names (w_db w)) p p'.
Proof.
  destruct (one_pod_world stranded (sample_status PodPhase_Running (Some "10.0.0.1"))
    (sample_uuid 7) eq_refl eq_refl) as (w & Hwf & Huu & Hv & Hid & t & Ht).
  assert (Hfresh : fresh_ids (w_uuids w) (2 * size (pods (w_db w))) (w_db w)).
  { rewrite Hv, map_size_singleton, Huu. intros a Ha. split.
    - intros Hx%Hid. revert Hx.
      destruct a as [|[|a]]; [vm_compute; discriminate..|lia].
    - intros b Hb. assert (a = 1%nat) as -> by lia. assert (b = 0%nat) as -> by lia.
      vm_compute. discriminate. }
  assert (Hwfn : repo_wf Node (w_db w)) by (rewrite Ht; apply map_Forall_empty).
  destruct (reconcile_pods_outcome w ref_quiet Hwf Hwfn Hfresh) as (w' & E & Hout & _).
  destruct (Hout ("default", "web") _ ltac:(rewrite Hv; apply lookup_singleton_eq))
    as (p' & Hp' & Ho).
  eexists w, w', _, p'. split; [rewrite Hv; apply lookup_singleton_eq|].
  split; [|done]. rewrite Ht. split; [|done]. apply (bool_decide_unpack _). vm_compute. exact I.
Defined.

Definition web_service : Service :=
  Service_with_metadata (sample_meta "web" (sample_uuid 9) None)
    (Service_with_spec
      (mk_ServiceSpec (Some app_labels)
        [mk_ServicePort None Protocol_TCP (as_i32 80) (Some (IntOrString_Int (as_i32 8080))) None]
        ServiceType_ClusterIP None None None) Service_default).

Lemma reconcile_service_endpoints_witness : ∃ w y xs w',
  reconcile_service web_service w = (Ok (), w') ∧
  endpoints_view (w_db w') !! ("default", "web") = Some y ∧
  xs ≡ₚ (map_to_list (pods (w_db w))).*2 ∧ addresses y = omap endpoint_address xs ∧
  length (addresses y) = 1%nat.
Proof.
  destruct (one_pod_world stranded (sample_status PodPhase_Running (Some "10.0.0.1"))
    (sample_uuid 7) eq_refl eq_refl) as (w & Hwf & Huu & Hv & Hid & t & Ht).
  assert (Hne : app_labels ≠ ∅) by (apply (bool_decide_unpack _); vm_compute; exact I).
  destruct (reconcile_service_endpoints web_service app_labels w ref_quiet Hwf)
    as (y & xs & w' & E & Hview & _ & Hxs & Haddr & _); [|done|done| |].
  - rewrite Ht. apply map_Forall_empty.
  - rewrite Ht. intros (k & r & Hk & _)%uid_taken_spec. discriminate Hk.
  - exists w, y, xs, w'. split; [exact E|]. rewrite Hview.
    split; [apply lookup_insert_eq|]. rewrite Hv in *. rewrite map_to_list_singleton in *.
    assert (Hxs1 : xs = [stored_pod (Some (sample_uuid 7)) (Some (ref_now 0)) stranded
      (sample_status PodPhase_Running (Some "10.0.0.1"))]).
    { apply Permutation_singleton_r. rewrite Hxs. reflexivity. }
    rewrite Haddr, Hxs1. done.
Defined.
