(* ===== verification/Replication.v ===== *)
(** * Watch streams and their replication between servers

    The [change_log] table ([src/src/db/change_log.rs]), the task that writes
    a published event to it and notifies the peers ([src/src/server/bus.rs]),
    the listener that turns a peer's notification into a local event and the
    pruner ([src/src/server/mod.rs]), and the stream a watching client reads
    ([src/src/server/table.rs]).  Servers that share one Postgres database are
    interleaved by the step relation [cluster_step]. *)
From S2P Require Import Prelude RustStd Json External Models Wire Error Bus World Repository.

Local Open Scope Z_scope.

Section change_log.
Context `{Extern, Env}.

(** [INSERT INTO change_log]: the primary key must be free. *)
Definition insert_change (id : string) (row : ChangeLogRow) (_ : nat) (d : Db)
    : result string (() * Db) :=
  match db_change_log d !! id with
  | Some _ => Err "UNIQUE constraint failed: change_log.id"
  | None => Ok ((), set_change_log (<[id := row]> (db_change_log d)) d)
  end.

Definition change_log_insert (instance_id kind : string) (namespace : option string)
    (name event_type : string) (object : Value) : M string string :=
  id ← new_v4;
  now ← now_str;
  run_stmt (insert_change (uuid_to_string id)
    (mk_ChangeLogRow instance_id kind namespace name event_type (json_print object) now));;
  mret (uuid_to_string id).

Definition select_change (id : string) (_ : nat) (d : Db)
    : result string (option ChangeLogRow * Db) :=
  Ok (db_change_log d !! id, d).
Definition change_log_fetch (id : string) : M string (option ChangeLogRow) :=
  run_stmt (select_change id).

(** [DELETE .. WHERE created_at < ?]; the result is [rows_affected()]. *)
Definition older_than (cutoff : string) (row : ChangeLogRow) : bool :=
  str_ltb (clr_created_at row) cutoff.
Definition delete_older (cutoff : string) (_ : nat) (d : Db) : result string (nat * Db) :=
  let keep := filter (λ kr, older_than cutoff kr.2 = false) (db_change_log d) in
  Ok ((size (db_change_log d) - size keep)%nat, set_change_log keep d).

(** [ttl_seconds] back from now, in nanoseconds. *)
Definition prune_older_than (ttl_seconds : Z) : M string nat :=
  now ← now;
  run_stmt (delete_older (to_rfc3339 (dt_add now (- (ttl_seconds * 1000000000))))).

Definition PRUNE_TTL_SECS : Z := 300.

(** One round of the pruner; a failure is logged. *)
Definition pruner_tick : M string () := attempt (prune_older_than PRUNE_TTL_SECS);; mret ().
End change_log.

(** ** Replication

    Besides the world, [replicate] sends notifications: [(channel, payload)],
    oldest first. *)
Abbreviation Notifying := (ST (World * list (string * string)) string).

Definition on_world {A} (m : M string A) : Notifying A := λ '(w, notes),
  let '(r, w') := m w in (r, (w', notes)).

Section replicate.
Context `{Extern, Env}.

(** [SELECT pg_notify($1, $2)]. *)
Definition pg_notify (channel payload : string) : Notifying () := λ '(w, notes),
  match env_fault (w_stmts w) with
  | None => (Ok (), (count_stmt w, notes ++ [(channel, payload)]))
  | Some (NotRun msg) => (Err msg, (count_stmt w, notes))
  | Some (LostReply msg) => (Err msg, (count_stmt w, notes ++ [(channel, payload)]))
  end.

Definition replicate (t : ReplicateTask) : Notifying () :=
  id ← on_world (change_log_insert (rep_instance_id (rt_rep t)) (rt_kind t) (rt_namespace t)
         (rt_name t) (rt_event_type t) (rt_object t));
  pg_notify (rep_channel (rt_rep t)) id.

(** ** The listener *)

Definition parse_event_type (s : string) : option WatchEventType :=
  if str_eqb s "ADDED" then Some Added
  else if str_eqb s "MODIFIED" then Some Modified
  else if str_eqb s "DELETED" then Some Deleted
  else None.

(** The kinds a peer's event may have. *)
Definition known_kinds : list string :=
  ["Pod"; "Service"; "Node"; "Namespace"; "ConfigMap"; "Secret"; "ServiceAccount";
   "Deployment"; "StatefulSet"; "DaemonSet";
   "Role"; "RoleBinding"; "ClusterRole"; "ClusterRoleBinding"].
Definition parse_kind (s : string) : option string :=
  if existsb (str_eqb s) known_kinds then Some s else None.

(** The event a row stands for, unless it is our own echo or unknown. *)
Definition event_of_change (instance_id : string) (row : ChangeLogRow) : option ChangeEvent :=
  if str_eqb (clr_instance_id row) instance_id then None
  else
    let object := default JNull (json_parse (clr_object row)) in
    event_type ← parse_event_type (clr_event_type row);
    kind ← parse_kind (clr_kind row);
    Some (mk_ChangeEvent kind (clr_namespace row) (clr_name row) event_type object).

(** One notification; a failed lookup and a pruned row are logged. *)
Definition handle_notification (instance_id payload : string) : M string () :=
  r ← attempt (F:=string) (change_log_fetch payload);
  match r with
  | Ok (Some row) =>
      match event_of_change instance_id row with
      | Some e => on_bus (republish_local e)
      | None => mret ()
      end
  | Ok None => mret ()
  | Err _ => mret ()
  end.
End replicate.

(** ** The stream of a watching client *)

Section watch.
Context `{Extern}.

Definition newline : string := String (ascii_of_nat 10) EmptyString.
Definition encode_event_line (event : Value) : string := json_print event +:+ newline.

Definition bookmark_event : Value :=
  JObj [("type", JStr "BOOKMARK");
        ("object", JObj [("kind", JStr "Status"); ("apiVersion", JStr "v1");
                         ("metadata", JObj [("resourceVersion", JStr "0")])])].

Definition watch_line (event_type : WatchEventType) (object : Value) : string :=
  encode_event_line (JObj [("type", JStr (as_wire event_type)); ("object", object)]).

(** The snapshot: what is queued before the live events. *)
Definition snapshot_lines {T} `{Json T} (items : list T) : list string :=
  ((λ item, watch_line Added (to_value item)) <$> items) ++ [encode_event_line bookmark_event].

(** What [bus_rx.recv()] returns. *)
Inductive Received : Type :=
| Event (e : ChangeEvent)
| Lagged (n : nat)
| Closed.

(** The forwarder while its client is connected: the lines it sends for what
    it receives, up to a lag or the end of the channel. *)
Fixpoint forward (filter : WatchFilter) (received : list Received) : list string :=
  match received with
  | Event e :: rest =>
      if matches filter e
      then watch_line (ce_event_type e) (ce_object e) :: forward filter rest
      else forward filter rest
  | Lagged _ :: _ => []
  | Closed :: _ => []
  | [] => []
  end.

(** The body of the response, without the keep-alive bookmarks that a third
    task mixes in. *)
Definition live_watch_lines {T} `{Json T} (items : list T) (filter : WatchFilter)
    (received : list Received) : list string :=
  snapshot_lines items ++ forward filter received.
End watch.

(** ** Servers on one database *)

(** A server: its bus, how many notifications it has taken, and (for the
    statements only) the events its own handlers published. *)
Record Server : Type := mk_Server {
  srv_bus : Bus;
  srv_read : nat;
  srv_published : list ChangeEvent;
}.

Record Cluster : Type := mk_Cluster {
  cl_db : Db;
  cl_notes : list (string * string);
  cl_servers : gmap string Server;
}.

Section cluster.
Context `{Extern, Env}.

(** The counters of a server's clock, identifiers and statements are free, so
    any reading, identifier or failure may happen at any step. *)
Inductive cluster_step : Cluster → Cluster → Prop :=
| server_publishes c id s {T} `{JsonPlain T} t kind ns name (x : T) :
    cl_servers c !! id = Some s → kind ∈ known_kinds →
    cluster_step c (mk_Cluster (cl_db c) (cl_notes c)
      (<[id := mk_Server (publish t kind ns name x (srv_bus s)) (srv_read s)
                 (srv_published s ++ [mk_ChangeEvent kind ns name t (to_value x)])]>
        (cl_servers c)))
| task_runs c id s before task after r clock uuids stmts w' notes' :
    cl_servers c !! id = Some s →
    bus_spawned (srv_bus s) = before ++ task :: after →
    replicate task (mk_World (cl_db c) (srv_bus s) clock uuids stmts, cl_notes c) =
      (r, (w', notes')) →
    cluster_step c (mk_Cluster (w_db w') notes'
      (<[id := mk_Server (mk_Bus (bus_sent (w_bus w')) (bus_replicator (w_bus w')) (before ++ after))
                 (srv_read s) (srv_published s)]> (cl_servers c)))
| notification_arrives c id s channel payload r clock uuids stmts w' :
    cl_servers c !! id = Some s →
    cl_notes c !! srv_read s = Some (channel, payload) →
    handle_notification id payload (mk_World (cl_db c) (srv_bus s) clock uuids stmts) = (r, w') →
    cluster_step c (mk_Cluster (w_db w') (cl_notes c)
      (<[id := mk_Server (w_bus w') (S (srv_read s)) (srv_published s)]> (cl_servers c)))
| listener_reconnects c id s :
    cl_servers c !! id = Some s →
    cluster_step c (mk_Cluster (cl_db c) (cl_notes c)
      (<[id := mk_Server (srv_bus s) (length (cl_notes c)) (srv_published s)]> (cl_servers c)))
| pruner_runs c r bus clock uuids stmts w' :
    pruner_tick (mk_World (cl_db c) bus clock uuids stmts) = (r, w') →
    cluster_step c (mk_Cluster (w_db w') (cl_notes c) (cl_servers c)).

(** Servers that have just started: no events, no rows, no notifications; each
    replicates under its own name. *)
Definition cluster_start (c : Cluster) : Prop :=
  db_change_log (cl_db c) = ∅ ∧ cl_notes c = [] ∧
  map_Forall (λ id s, ∃ channel,
    s = mk_Server (Bus_new_replicated (mk_Replicator id channel)) 0 []) (cl_servers c).

Definition cluster_reaches : Cluster → Cluster → Prop := rtc cluster_step.
End cluster.
