(* ===== verification/ReplicationOk.v ===== *)
(** * What replication and watches guarantee

    A published event reaches every other server unchanged and is not echoed,
    no server ever shows an event that nobody published, the pruner keeps
    recent rows, and a watching client gets exactly the events it asks for. *)
From S2P Require Import Prelude RustStd Json External Models Wire Error Bus World Repository.
From S2P Require Import RepositoryOk Replication Reference RefEnv.

Local Open Scope Z_scope.

(** ** One event across servers *)

Section deliver.
Context `{ExternOk, EnvOk}.

(** The task [publish] spawns for an event, and the row it writes. *)
Definition task_of (rep : Replicator) (e : ChangeEvent) : ReplicateTask :=
  mk_ReplicateTask rep (ce_kind e) (ce_namespace e) (ce_name e) (as_wire (ce_event_type e))
    (ce_object e).
Definition row_of (id : string) (e : ChangeEvent) (created : string) : ChangeLogRow :=
  mk_ChangeLogRow id (ce_kind e) (ce_namespace e) (ce_name e) (as_wire (ce_event_type e))
    (json_print (ce_object e)) created.

Lemma parse_event_type_wire t : parse_event_type (as_wire t) = Some t.
Proof. by destruct t. Qed.

Lemma parse_kind_known k : k ∈ known_kinds → parse_kind k = Some k.
Proof.
  intros Hk. unfold parse_kind.
  replace (existsb (str_eqb k) known_kinds) with true; [done|].
  symmetry. apply existsb_exists. exists k. rewrite <- list_elem_of_In.
  split; [done|apply str_eqb_refl].
Qed.

(** What a server's own code publishes: a kind the peers know and an object
    whose text is read back. *)
Definition sendable (e : ChangeEvent) : Prop :=
  ce_kind e ∈ known_kinds ∧ json_plain (ce_object e) = true.

(** Decoding a row gives the event back, except to the server that wrote it. *)
Lemma event_of_row_of me id e created :
  sendable e →
  event_of_change me (row_of id e created) = if str_eqb id me then None else Some e.
Proof.
  intros [Hk Hp]. unfold event_of_change, row_of. simpl.
  destruct (str_eqb id me); [done|].
  rewrite json_parse_print, parse_event_type_wire, parse_kind_known by done. by destruct e.
Qed.

Lemma run_handle me payload w :
  env_fault (w_stmts w) = None →
  handle_notification me payload w =
    (Ok (), match db_change_log (w_db w) !! payload ≫= event_of_change me with
            | Some e => set_bus (republish_local e (w_bus w)) (count_stmt w)
            | None => count_stmt w
            end).
Proof.
  destruct w as [d b c u n]. simpl. intros Hq.
  unfold handle_notification, change_log_fetch, mbind, st_bind, attempt, run_stmt. simpl.
  rewrite Hq. simpl. destruct (db_change_log d !! payload) as [row|]; [|done]. simpl.
  by destruct (event_of_change me row).
Qed.

Lemma run_replicate rep e w notes :
  quiet → db_change_log (w_db w) !! uuid_to_string (env_uuid (w_uuids w)) = None →
  let id := uuid_to_string (env_uuid (w_uuids w)) in
  let row := row_of (rep_instance_id rep) e (to_rfc3339 (env_now (w_clock w))) in
  ∃ w', replicate (task_of rep e) (w, notes) =
          (Ok (), (w', notes ++ [(rep_channel rep, id)])) ∧
    w_db w' = set_change_log (<[id := row]> (db_change_log (w_db w))) (w_db w) ∧
    w_bus w' = w_bus w.
Proof.
  intros Hq Hfree id row. eexists. split.
  - unfold replicate, change_log_insert, task_of, on_world, mbind, st_bind, new_v4, now_str, now,
      run_stmt. simpl. unfold mbind, st_bind. simpl. rewrite (Hq (w_stmts w)).
    unfold insert_change. rewrite Hfree. simpl. rewrite (Hq (S (w_stmts w))). done.
  - done.
Qed.

(** C24.  An event published on one server reaches every other server's bus as
    it is: the task [publish] spawns writes one row and sends one notification;
    a server that looks the row up while it exists re-sends the same event
    locally and does not replicate it again, and the server that wrote it
    skips it as its own echo. *)
Theorem replication_delivers {T} `{JsonPlain T} typ kind ns name (x : T) rep b w notes :
  quiet → kind ∈ known_kinds → bus_replicator b = Some rep →
  db_change_log (w_db w) !! uuid_to_string (env_uuid (w_uuids w)) = None →
  let e := mk_ChangeEvent kind ns name typ (to_value x) in
  ∃ task id w',
  bus_spawned (publish typ kind ns name x b) = bus_spawned b ++ [task] ∧
  replicate task (w, notes) = (Ok (), (w', notes ++ [(rep_channel rep, id)])) ∧
  w_bus w' = w_bus w ∧
  ∀ me wp, db_change_log (w_db wp) !! id = db_change_log (w_db w') !! id → ∃ wp',
    handle_notification me id wp = (Ok (), wp') ∧ w_db wp' = w_db wp ∧
    bus_spawned (w_bus wp') = bus_spawned (w_bus wp) ∧
    bus_sent (w_bus wp') = bus_sent (w_bus wp) ++
      (if str_eqb (rep_instance_id rep) me then [] else [e]).
Proof.
  intros Hq Hk Hrep Hfree e.
  destruct (run_replicate rep e w notes Hq Hfree) as (w' & E & Hdb & Hbus).
  eexists (task_of rep e), _, w'. split; [|split; [exact E|split; [done|]]].
  { unfold publish. simpl. by rewrite Hrep. }
  intros me wp Hrow. rewrite Hdb in Hrow. simpl in Hrow. rewrite lookup_insert_eq in Hrow.
  rewrite run_handle by done. rewrite Hrow. simpl. rewrite event_of_row_of by (split; [done|apply to_value_plain]).
  eexists. split; [done|].
  destruct (str_eqb (rep_instance_id rep) me); [by rewrite app_nil_r|done].
Qed.
End deliver.

(** ** Many servers *)

Section cluster.
Context `{ExternOk, Env}.

Definition published (c : Cluster) (id : string) (e : ChangeEvent) : Prop :=
  ∃ s, cl_servers c !! id = Some s ∧ e ∈ srv_published s.

(** What holds of every server: it replicates under its own name, the waiting
    tasks are for events it published, it has shown those in order, and
    whatever else it shows was published by another server. *)
Record server_ok (c : Cluster) (id : string) (s : Server) : Prop := {
  so_replicator : ∃ rep, bus_replicator (srv_bus s) = Some rep ∧ rep_instance_id rep = id;
  so_tasks t : t ∈ bus_spawned (srv_bus s) → ∃ rep e,
    t = task_of rep e ∧ rep_instance_id rep = id ∧ e ∈ srv_published s ∧ sendable e;
  so_local : srv_published s `sublist_of` bus_sent (srv_bus s);
  so_origin e : e ∈ bus_sent (srv_bus s) →
    e ∈ srv_published s ∨ ∃ id', id' ≠ id ∧ published c id' e;
  so_read : (srv_read s <= length (cl_notes c))%nat;
  so_count : (length (bus_sent (srv_bus s)) <= length (srv_published s) + srv_read s)%nat;
}.

Record cluster_ok (c : Cluster) : Prop := {
  co_servers : map_Forall (server_ok c) (cl_servers c);
  co_rows : map_Forall (λ _ row, ∃ id e created,
    row = row_of id e created ∧ published c id e ∧ sendable e)
    (db_change_log (cl_db c));
}.

(** Published events and notifications only accumulate. *)
Definition grows (c c' : Cluster) : Prop :=
  (∀ id e, published c id e → published c' id e) ∧
  (length (cl_notes c) <= length (cl_notes c'))%nat.

Lemma server_ok_grows c c' id s : grows c c' → server_ok c id s → server_ok c' id s.
Proof.
  intros [Hg Hn] [Hr Ht Hl Ho Hd Hc]. split; [done..| |lia|done].
  intros e [?|(id' & ? & ?)]%Ho; eauto.
Qed.

(** A step that changes one server. *)
Lemma cluster_ok_step c db notes id s s' :
  cluster_ok c → cl_servers c !! id = Some s →
  (∀ e, e ∈ srv_published s → e ∈ srv_published s') →
  (length (cl_notes c) <= length notes)%nat →
  let c' := mk_Cluster db notes (<[id := s']> (cl_servers c)) in
  server_ok c' id s' →
  (∀ k row, db_change_log db !! k = Some row → db_change_log (cl_db c) !! k = Some row ∨
    ∃ i e t, row = row_of i e t ∧ published c' i e ∧ sendable e) →
  cluster_ok c'.
Proof.
  intros [Hs Hr] Hid Hpub Hnotes c' Hs' Hrows.
  assert (Hg : grows c c').
  { split; [|done]. intros i e (s0 & Hs0 & He). unfold published. simpl.
    destruct (decide (i = id)) as [->|].
    - rewrite lookup_insert_eq. eexists. split; [done|]. apply Hpub. congruence.
    - rewrite lookup_insert_ne by done. eauto. }
  split.
  - apply map_Forall_insert_2; [done|]. intros i s0 Hi.
    eapply server_ok_grows; [exact Hg|]. by apply Hs.
  - intros k row [Hk|?]%Hrows; [|done].
    destruct (Hr k row Hk) as (i & e & t & -> & Hp & Hk'). exists i, e, t. split; [done|]. split; [by apply Hg|done].
Qed.

(** Whatever a statement's fate, a task writes at most its row and sends
    nothing on its own bus. *)
Lemma replicate_effect t w notes r w' notes' :
  replicate t (w, notes) = (r, (w', notes')) →
  w_bus w' = w_bus w ∧ (length notes <= length notes')%nat ∧
  ∀ k row, db_change_log (w_db w') !! k = Some row → db_change_log (w_db w) !! k = Some row ∨
    ∃ created, row = mk_ChangeLogRow (rep_instance_id (rt_rep t)) (rt_kind t) (rt_namespace t)
      (rt_name t) (rt_event_type t) (json_print (rt_object t)) created.
Proof.
  intros E.
  assert (Hins : ∀ id row n d d' u, insert_change id row n d = Ok (u, d') →
    ∀ k row', db_change_log d' !! k = Some row' → db_change_log d !! k = Some row' ∨ row' = row).
  { intros id row n d d' u Hi k row'. unfold insert_change in Hi.
    destruct (db_change_log d !! id); [done|]. injection Hi as _ <-. simpl.
    intros [[_ <-]|[_ ?]]%lookup_insert_Some; auto. }
  revert E. unfold replicate, change_log_insert, on_world, pg_notify, mbind, st_bind, new_v4,
    now_str, now, run_stmt. simpl. unfold mbind, st_bind. simpl.
  destruct (env_fault (w_stmts w)) as [[m|m]|]; simpl.
  - intros [= <- <- <-]. auto.
  - destruct (insert_change _ _ _ _) as [[u d]|] eqn:Hi; intros [= <- <- <-]; simpl; [|auto].
    split; [done|]. split; [lia|]. intros k row Hk.
    destruct (Hins _ _ _ _ _ _ Hi _ _ Hk); eauto.
  - destruct (insert_change _ _ _ _) as [[u d]|] eqn:Hi; simpl; [|by intros [= <- <- <-]; auto].
    destruct (env_fault (S (w_stmts w))) as [[m|m]|]; intros [= <- <- <-]; simpl;
      (split; [done|]; split; [rewrite ?length_app; simpl; lia|];
       intros k row Hk; destruct (Hins _ _ _ _ _ _ Hi _ _ Hk); eauto).
Qed.

(** A notification leaves the database alone and sends at most the event of
    its row, if another server wrote it. *)
Lemma handle_effect me payload w r w' :
  handle_notification me payload w = (r, w') →
  w_db w' = w_db w ∧ (w_bus w' = w_bus w ∨ ∃ row e,
    db_change_log (w_db w) !! payload = Some row ∧ event_of_change me row = Some e ∧
    w_bus w' = republish_local e (w_bus w)).
Proof.
  destruct (env_fault (w_stmts w)) as [f|] eqn:Hf.
  - unfold handle_notification, change_log_fetch, mbind, st_bind, attempt, run_stmt. rewrite Hf.
    destruct f; intros [= <- <-]; auto.
  - rewrite run_handle by done.
    destruct (db_change_log (w_db w) !! payload ≫= event_of_change me) as [e|] eqn:He;
      intros [= <- <-]; [|auto]. split; [done|]. right.
    apply bind_Some in He as (row & Hrow & He). eauto.
Qed.

Lemma pruner_effect w r w' :
  pruner_tick w = (r, w') → db_change_log (w_db w') ⊆ db_change_log (w_db w).
Proof.
  unfold pruner_tick, prune_older_than, mbind, st_bind, attempt, now, run_stmt, delete_older. simpl.
  destruct (env_fault (w_stmts w)) as [[m|m]|]; intros [= <- <-]; simpl; try done;
    apply map_filter_subseteq.
Qed.

Lemma start_ok c : cluster_start c → cluster_ok c.
Proof.
  intros (Hrows & _ & Hs). split; [|rewrite Hrows; apply map_Forall_empty].
  intros id s Hid. destruct (Hs id s Hid) as [channel ->]. split; simpl.
  - eauto.
  - by intros t ?%not_elem_of_nil.
  - done.
  - by intros e ?%not_elem_of_nil.
  - lia.
  - lia.
Qed.

Lemma publish_ok c id s {T} `{JsonPlain T} t kind ns name (x : T) :
  cluster_ok c → cl_servers c !! id = Some s → kind ∈ known_kinds →
  cluster_ok (mk_Cluster (cl_db c) (cl_notes c)
    (<[id := mk_Server (publish t kind ns name x (srv_bus s)) (srv_read s)
               (srv_published s ++ [mk_ChangeEvent kind ns name t (to_value x)])]>
      (cl_servers c))).
Proof.
  intros Hok Hid Hk. set (e := mk_ChangeEvent kind ns name t (to_value x)).
  destruct (co_servers c Hok id s Hid) as [(rep & Hrep & Hown) Ht Hl Ho Hd Hc].
  apply (cluster_ok_step c _ _ id s); [done|done| |done| |by left].
  { intros e'. simpl. rewrite elem_of_app. by left. }
  assert (Hsent : bus_sent (publish t kind ns name x (srv_bus s)) = bus_sent (srv_bus s) ++ [e])
    by apply bus_sent_publish.
  split; simpl; rewrite ?Hsent; try done.
  - exists rep. unfold publish. simpl. rewrite Hrep. done.
  - unfold publish. simpl. rewrite Hrep. simpl. intros tk [Htk|Htk]%elem_of_app.
    + destruct (Ht tk Htk) as (r0 & e0 & -> & Hr0 & He0 & Hk0). exists r0, e0.
      rewrite elem_of_app. auto.
    + apply list_elem_of_singleton in Htk as ->. exists rep, e. split; [done|].
      split; [done|]. rewrite elem_of_app. split; [right; by left|].
      split; [done|apply to_value_plain].
  - by apply sublist_app.
  - intros e' [He'|He']%elem_of_app; [|left; rewrite elem_of_app; by right].
    destruct (Ho e' He') as [?|(id' & Hne & s0 & Hs0 & He0)]; [left; rewrite elem_of_app; by left|].
    right. exists id'. split; [done|]. exists s0. split; [|done]. simpl.
    by rewrite lookup_insert_ne.
  - rewrite !length_app. simpl. lia.
Qed.

Lemma task_ok c id s before task after r clock uuids stmts w' notes' :
  cluster_ok c → cl_servers c !! id = Some s →
  bus_spawned (srv_bus s) = before ++ task :: after →
  replicate task (mk_World (cl_db c) (srv_bus s) clock uuids stmts, cl_notes c) =
    (r, (w', notes')) →
  cluster_ok (mk_Cluster (w_db w') notes'
    (<[id := mk_Server (mk_Bus (bus_sent (w_bus w')) (bus_replicator (w_bus w')) (before ++ after))
               (srv_read s) (srv_published s)]> (cl_servers c))).
Proof.
  intros Hok Hid Hsp E. apply replicate_effect in E as (Hbus & Hnotes & Hrows). simpl in Hbus, Hrows.
  destruct (co_servers c Hok id s Hid) as [Hrep Ht Hl Ho Hd Hc].
  apply (cluster_ok_step c _ _ id s); [done|done|done|done| |].
  - rewrite Hbus. split; simpl; try done; try lia.
    + intros t Hin. apply Ht. rewrite Hsp. revert Hin. rewrite !elem_of_app, elem_of_cons. tauto.
    + intros e [?|(id' & Hne & s0 & Hs0 & He0)]%Ho; [by left|].
      right. exists id'. split; [done|]. exists s0. simpl. by rewrite lookup_insert_ne.
  - intros k row [?|[created ->]]%Hrows; [by left|right].
    destruct (Ht task) as (rep & e & -> & Hown & He & Hk).
    { rewrite Hsp, elem_of_app, elem_of_cons. auto. }
    exists id, e, created. split; [unfold task_of, row_of; simpl; by rewrite Hown|].
    split; [|done]. eexists. simpl. rewrite lookup_insert_eq. done.
Qed.

Lemma notification_ok c id s note payload r clock uuids stmts w' :
  cluster_ok c → cl_servers c !! id = Some s → cl_notes c !! srv_read s = Some note →
  handle_notification id payload (mk_World (cl_db c) (srv_bus s) clock uuids stmts) = (r, w') →
  cluster_ok (mk_Cluster (w_db w') (cl_notes c)
    (<[id := mk_Server (w_bus w') (S (srv_read s)) (srv_published s)]> (cl_servers c))).
Proof.
  intros Hok Hid Hnote E. apply handle_effect in E as [Hdb Hbus]. simpl in Hdb, Hbus.
  apply lookup_lt_Some in Hnote.
  destruct (co_servers c Hok id s Hid) as [Hrep Ht Hl Ho Hd Hc].
  assert (Hother : ∀ db notes s' e, (∃ id', id' ≠ id ∧ published c id' e) →
    ∃ id', id' ≠ id ∧ published (mk_Cluster db notes (<[id := s']> (cl_servers c))) id' e).
  { intros db notes s' e (id' & Hne & s0 & Hs0 & He0). exists id'. split; [done|]. exists s0.
    simpl. by rewrite lookup_insert_ne. }
  rewrite Hdb. apply (cluster_ok_step c _ _ id s); [done|done|done|done| |by left].
  destruct Hbus as [->|(row & e & Hrow & He & ->)]; split; simpl; try done; try lia.
  - intros e [?|?]%Ho; eauto.
  - by apply sublist_inserts_r.
  - intros e' [He'|He']%elem_of_app; [destruct (Ho e' He'); eauto|].
    apply list_elem_of_singleton in He' as ->. right. apply Hother.
    destruct (co_rows c Hok _ _ Hrow) as (i & e0 & created & -> & Hpub & Hk).
    rewrite event_of_row_of in He by done.
    destruct (str_eqb_reflect i id) as [|Hne]; [done|]. injection He as <-. eauto.
  - rewrite length_app. simpl. lia.
Qed.

Lemma cluster_step_ok c c' : cluster_ok c → cluster_step c c' → cluster_ok c'.
Proof.
  intros Hok Hst. destruct Hst as [c id s T HT HP t kind ns name x Hid Hk
    |c id s before task after r clock uuids stmts w' notes' Hid Hsp E
    |c id s channel payload r clock uuids stmts w' Hid Hnote E
    |c id s Hid|c r bus clock uuids stmts w' E].
  - by apply publish_ok.
  - by eapply task_ok.
  - by eapply notification_ok.
  - destruct (co_servers c Hok id s Hid) as [Hrep Ht Hl Ho Hd Hc].
    apply (cluster_ok_step c _ _ id s); [done|done|done|done| |by left].
    split; simpl; try done; try lia.
    intros e [?|(id' & Hne & s0 & Hs0 & He0)]%Ho; [by left|].
    right. exists id'. split; [done|]. exists s0. simpl. by rewrite lookup_insert_ne.
  - apply pruner_effect in E. destruct Hok as [Hs Hr]. split.
    { intros id s Hid. eapply server_ok_grows; [|by apply Hs]. by split. }
    intros k row Hk. apply (Hr k). by eapply lookup_weaken.
Qed.

End cluster.

(** ** The pruner *)

Section pruner.
Context `{ExternOk, EnvOk}.

(**  A round of the pruner removes exactly the rows created more than 300
    seconds before the clock it reads, however close to the limit, and touches
    no other table. *)
Theorem pruner_keeps_recent w :
  quiet →
  (∀ k row, db_change_log (w_db w) !! k = Some row → ∃ t, clr_created_at row = to_rfc3339 t) →
  let cutoff := dt_add (env_now (w_clock w)) (- 300000000000) in
  ∃ w', pruner_tick w = (Ok (), w') ∧
  set_change_log ∅ (w_db w') = set_change_log ∅ (w_db w) ∧
  ∀ k row t, clr_created_at row = to_rfc3339 t →
    db_change_log (w_db w') !! k = Some row ↔
      db_change_log (w_db w) !! k = Some row ∧ val cutoff <= val t.
Proof.
  intros Hq Hstamps cutoff. eexists. split; [|split].
  - unfold pruner_tick, prune_older_than, mbind, st_bind, attempt, now, run_stmt. simpl.
    rewrite (Hq (w_stmts w)). done.
  - done.
  - intros k row t Ht. simpl. rewrite map_lookup_filter_Some. simpl.
    unfold older_than. rewrite Ht.
    change (dt_add (env_now (w_clock w)) (- (PRUNE_TTL_SECS * 1000000000))) with cutoff.
    by rewrite rfc3339_order, Z.ltb_ge.
Qed.
End pruner.

(** ** Watches *)

Section watch.
Context `{ExternOk}.

(** What a receiver gets before it lags or the channel closes. *)
Fixpoint events_received (received : list Received) : list ChangeEvent :=
  match received with
  | Event e :: rest => e :: events_received rest
  | _ => []
  end.

(** The events a watch asks for. *)
Definition asked (f : WatchFilter) (e : ChangeEvent) : Prop :=
  ce_kind e = wf_kind f ∧
  match wf_namespace f with Some ns => ce_namespace e = Some ns | None => True end.
#[local] Instance asked_dec f e : Decision (asked f e).
Proof. unfold asked. destruct (wf_namespace f); apply _. Defined.

Lemma matches_spec f e : matches f e = true ↔ asked f e.
Proof.
  unfold matches, asked. destruct (str_eqb_reflect (ce_kind e) (wf_kind f)) as [Hk|]; simpl;
    [|split; [done|by intros [? _]]].
  destruct (wf_namespace f) as [want|]; [|split; done].
  destruct (ce_namespace e) as [got|]; [|split; [done|by intros []]].
  rewrite str_eqb_spec. split; [by intros ->|by intros [_ [= ->]]].
Qed.

End watch.

(** ** Concrete inputs *)

Definition replicator_a : Replicator := mk_Replicator "a" DEFAULT_NOTIFY_CHANNEL.
Definition some_event : ChangeEvent := mk_ChangeEvent "Pod" (Some "default") "web" Added (to_value Pod_default).

Lemma replication_delivers_witness : ∃ task id w' wp',
  bus_spawned (publish Added "Pod" (Some "default") "web" Pod_default (Bus_new_replicated replicator_a)) =
    [task] ∧
  replicate task (start, []) = (Ok (), (w', [(DEFAULT_NOTIFY_CHANNEL, id)])) ∧
  handle_notification "b" id (set_db (w_db w') start) = (Ok (), wp') ∧
  bus_sent (w_bus wp') = [some_event].
Proof.
  destruct (replication_delivers Added "Pod" (Some "default") "web" Pod_default replicator_a
    (Bus_new_replicated replicator_a) start [] ref_quiet) as (task & id & w' & Hs & E & _ & Hd).
  - left.
  - reflexivity.
  - reflexivity.
  - destruct (Hd "b" (set_db (w_db w') start) eq_refl) as (wp' & Eh & _ & _ & Hsent).
    exists task, id, w', wp'. split; [exact Hs|]. split; [exact E|]. split; [exact Eh|].
    exact Hsent.
Defined.

(** Two servers: one publishes, its task runs, the other takes the
    notification. *)
Definition two_servers : Cluster :=
  mk_Cluster empty_db []
    {["a" := mk_Server (Bus_new_replicated replicator_a) 0 [];
      "b" := mk_Server (Bus_new_replicated (mk_Replicator "b" DEFAULT_NOTIFY_CHANNEL)) 0 []]}.

Lemma two_servers_start : cluster_start two_servers.
Proof.
  split; [reflexivity|]. split; [reflexivity|].
  apply map_Forall_insert_2; [eexists; reflexivity|].
  apply map_Forall_singleton. eexists; reflexivity.
Qed.

Lemma two_servers_run : ∃ c s,
  cluster_reaches two_servers c ∧ cl_servers c !! "b" = Some s ∧
  bus_sent (srv_bus s) = [some_event] ∧ srv_published s = [].
Proof.
  set (bus := publish Added "Pod" (Some "default") "web" Pod_default (Bus_new_replicated replicator_a)).
  destruct (run_replicate replicator_a some_event (mk_World empty_db bus 0 0 0) [] ref_quiet eq_refl)
    as (w1 & E1 & Hdb & Hbus).
  set (wb := mk_World (w_db w1)
    (Bus_new_replicated (mk_Replicator "b" DEFAULT_NOTIFY_CHANNEL)) 0 0 0).
  pose proof (run_handle "b" (uuid_to_string (env_uuid 0)) wb eq_refl) as E2.
  unfold wb in E2 at 2. cbn [w_db w_bus count_stmt] in E2. rewrite Hdb in E2.
  cbn [db_change_log set_change_log w_uuids] in E2. rewrite lookup_insert_eq in E2.
  cbn [mbind option_bind] in E2. rewrite event_of_row_of in E2 by (split; [left|apply to_value_plain]).
  eexists _, _. split; [|split; [|split]].
  - eapply rtc_l.
    { eapply (server_publishes _ "a" _ Added "Pod" (Some "default") "web" Pod_default); [reflexivity|left]. }
    eapply rtc_l.
    { eapply (task_runs _ "a" _ [] _ []); [reflexivity|reflexivity|exact E1]. }
    eapply rtc_l; [|apply rtc_refl].
    eapply (notification_arrives _ "b"); [reflexivity|reflexivity|exact E2].
  - apply lookup_insert_eq.
  - reflexivity.
  - reflexivity.
Qed.


(** A row of this second stays. *)
Definition with_change (t : DateTime) : World :=
  set_db (set_change_log {["i" := row_of "a" some_event (to_rfc3339 t)]} empty_db) start.

Lemma pruner_keeps_recent_witness : ∃ w',
  pruner_tick (with_change (ref_now 0)) = (Ok (), w') ∧
  db_change_log (w_db w') !! "i" = Some (row_of "a" some_event (to_rfc3339 (ref_now 0))).
Proof.
  destruct (pruner_keeps_recent (with_change (ref_now 0)) ref_quiet) as (w' & E & _ & Hk).
  - intros k row Hrow. cbn [with_change w_db set_db set_change_log db_change_log] in Hrow.
    apply lookup_singleton_Some in Hrow as [_ <-]. eexists. reflexivity.
  - exists w'. split; [exact E|].
    apply (Hk _ _ (ref_now 0)); [reflexivity|].
    split; [apply lookup_singleton_eq|]. vm_compute. discriminate.
Defined.
