(* ===== verification/Ipam.v ===== *)
(** * Pod addresses on a node ([src/src/node/network/ipam.rs])

    The allocator that hands out the addresses [prefix.2] to [prefix.254] to
    pods; [prefix.1] is the gateway.  A call that panics ([unwrap] on a prefix
    that is no network) is [None]; what is proved says when that cannot
    happen.  The mutex makes each call one step. *)
From S2P Require Import Prelude RustStd.

Local Open Scope Z_scope.

(** [Ipv4Addr] and its [FromStr]: four octets in decimal without leading
    zeros. *)
Definition Ipv4Addr : Type := Z * Z * Z * Z.

Definition parse_octet (s : string) : option Z :=
  match bytes s with
  | [] => None
  | c :: l =>
      if Ascii.eqb c "0" && negb (bool_decide (l = [])) then None
      else if bool_decide (length l <= 2)%nat then
        v ← digits_value 0 (c :: l); if v <=? 255 then Some v else None
      else None
  end.
Definition parse_ipv4 (s : string) : option Ipv4Addr :=
  match split "." s with
  | [a; b; c; d] =>
      a ← parse_octet a; b ← parse_octet b; c ← parse_octet c; d ← parse_octet d;
      Some (a, b, c, d)
  | _ => None
  end.

Record Ipam : Type := mk_Ipam {
  ipam_prefix : string;
  ipam_gateway_octet : Z;
  ipam_by_pod : gmap string Z;
  ipam_taken : gset Z;
}.

Definition Ipam_new (prefix : string) : Ipam := mk_Ipam prefix 1 ∅ {[1]}.

Definition ipam_address (i : Ipam) (octet : Z) : option Ipv4Addr :=
  parse_ipv4 (ipam_prefix i +:+ "." +:+ pretty octet).

Definition gateway (i : Ipam) : option Ipv4Addr := ipam_address i (ipam_gateway_octet i).

(** [(2..=254u8)]. *)
Definition octets : list Z := (λ n, 2 + Z.of_nat n) <$> seq 0 253.
Definition free_octet (i : Ipam) : option Z :=
  list_find (λ o, o ∉ ipam_taken i) octets ≫= λ io, Some io.2.

(** The result, or a panic, and the state it leaves. *)
Definition allocate (i : Ipam) (pod_name : string) : option (result string Ipv4Addr) * Ipam :=
  match ipam_by_pod i !! pod_name with
  | Some o => (Ok <$> ipam_address i o, i)
  | None =>
      match free_octet i with
      | None => (Some (Err ("pod CIDR " +:+ ipam_prefix i +:+ " /24 exhausted")), i)
      | Some octet =>
          let i' := mk_Ipam (ipam_prefix i) (ipam_gateway_octet i)
            (<[pod_name := octet]> (ipam_by_pod i)) ({[octet]} ∪ ipam_taken i) in
          (Ok <$> ipam_address i' octet, i')
      end
  end.

Definition release (i : Ipam) (pod_name : string) : Ipam :=
  match ipam_by_pod i !! pod_name with
  | Some o =>
      mk_Ipam (ipam_prefix i) (ipam_gateway_octet i)
        (delete pod_name (ipam_by_pod i)) (ipam_taken i ∖ {[o]})
  | None => i
  end.

(** ** Sequences of calls *)

Inductive ipam_step : Ipam → Ipam → Prop :=
| step_allocate i pod_name : ipam_step i (allocate i pod_name).2
| step_release i pod_name : ipam_step i (release i pod_name).

Definition ipam_reaches : Ipam → Ipam → Prop := rtc ipam_step.

(** The octets in use are the gateway's and those of the pods; no octet is
    given twice, and none leaves the range. *)
Record ipam_ok (i : Ipam) : Prop := {
  io_gateway : ipam_gateway_octet i = 1;
  io_taken o : o ∈ ipam_taken i ↔ o = 1 ∨ ∃ p, ipam_by_pod i !! p = Some o;
  io_once p q o : ipam_by_pod i !! p = Some o → ipam_by_pod i !! q = Some o → p = q;
  io_range p o : ipam_by_pod i !! p = Some o → 2 <= o <= 254;
}.

Lemma octets_spec o : o ∈ octets ↔ 2 <= o <= 254.
Proof.
  unfold octets. rewrite list_elem_of_fmap. setoid_rewrite elem_of_seq. split.
  - intros (n & -> & ?). lia.
  - intros ?. exists (Z.to_nat (o - 2)). lia.
Qed.

(** The lowest octet that is not taken. *)
Lemma free_octet_Some i o :
  free_octet i = Some o →
  2 <= o <= 254 ∧ (o ∉ ipam_taken i) ∧ (∀ o', 2 <= o' < o → o' ∈ ipam_taken i).
Proof.
  unfold free_octet. intros ([n o'] & Hf & [= <-])%bind_Some.
  apply list_find_Some in Hf as (Hn & Hfree & Hlow). simpl in *.
  split; [by apply octets_spec, list_elem_of_lookup; exists n|]. split; [done|].
  intros o'' Ho. assert (Hat : octets !! Z.to_nat (o'' - 2) = Some o'').
  { unfold octets in *. rewrite list_lookup_fmap in *. rewrite lookup_seq_lt; [simpl; f_equal; lia|].
    apply fmap_Some in Hn as (x & [-> ?]%lookup_seq & ->). lia. }
  destruct (decide (o'' ∈ ipam_taken i)); [done|].
  exfalso. eapply Hlow; [exact Hat| |done].
  unfold octets in Hn. rewrite list_lookup_fmap in Hn.
  apply fmap_Some in Hn as (x & [-> ?]%lookup_seq & ->). lia.
Qed.

Lemma free_octet_None i :
  free_octet i = None ↔ (∀ o, 2 <= o <= 254 → o ∈ ipam_taken i).
Proof.
  unfold free_octet. destruct (list_find _ octets) as [[n o]|] eqn:Hf; simpl.
  - split; [done|]. intros Hall. apply list_find_Some in Hf as (Hn & Hfree & _).
    exfalso. apply Hfree, Hall, octets_spec, list_elem_of_lookup. eauto.
  - split; [|done]. intros _ o Ho%octets_spec. apply list_find_None in Hf.
    rewrite Forall_forall in Hf. destruct (decide (o ∈ ipam_taken i)); [done|].
    by destruct (Hf o Ho).
Qed.

Lemma new_ok prefix : ipam_ok (Ipam_new prefix).
Proof.
  split; simpl; [done| |intros ??? [=]|intros ?? [=]].
  intros o. rewrite elem_of_singleton. split; [by left|]. by intros [?|[? [=]]].
Qed.

Lemma step_ok i i' : ipam_ok i → ipam_step i i' → ipam_ok i'.
Proof.
  intros Hok Hst. revert Hok. destruct Hst as [j pod|j pod]; intros Hok.
  - unfold allocate. destruct (ipam_by_pod j !! pod) as [o|] eqn:Hp; [done|].
    destruct (free_octet j) as [o|] eqn:Hf; [|done].
    apply free_octet_Some in Hf as (Hr & Hfree & _). destruct Hok as [Hg Ht Ho Hrange].
    rewrite Ht in Hfree. split; simpl; [done|..].
    + intros o'. rewrite elem_of_union, elem_of_singleton, Ht. split.
      * intros [->|[->|[p Hp']]]; [right; exists pod; apply lookup_insert_eq|by left|].
        right. exists p. rewrite lookup_insert_ne; [done|]. congruence.
      * intros [->|[p Hp']]; [auto|]. apply lookup_insert_Some in Hp' as [[_ <-]|[_ ?]]; eauto.
    + intros p q o' Hp1 Hq1.
      apply lookup_insert_Some in Hp1 as [[? ?]|[Hne Hp1]];
        apply lookup_insert_Some in Hq1 as [[? ?]|[Hne' Hq1]]; subst;
        [done|destruct Hfree; eauto..|by eapply Ho].
    + intros p o' [[_ <-]|[_ ?]]%lookup_insert_Some; [done|by eapply Hrange].
  - unfold release. destruct (ipam_by_pod j !! pod) as [o|] eqn:Hp; [|done].
    destruct Hok as [Hg Ht Ho Hrange]. split; simpl; [done|..].
    + intros o'. rewrite elem_of_difference, elem_of_singleton, Ht. split.
      * intros [[?|[p Hp']] Hne]; [by left|]. right. exists p.
        rewrite lookup_delete_ne; [done|]. congruence.
      * intros [->|[p [Hne Hp']%lookup_delete_Some]].
        -- split; [by left|]. intros <-. apply Hrange in Hp. lia.
        -- split; [eauto|]. intros ->. by apply Hne, (Ho pod p o).
    + intros p q o' [_ Hp1]%lookup_delete_Some [_ Hq1]%lookup_delete_Some. by eapply Ho.
    + intros p o' [_ ?]%lookup_delete_Some. by eapply Hrange.
Qed.

Lemma reachable_ok prefix i : ipam_reaches (Ipam_new prefix) i → ipam_ok i.
Proof.
  intros Hr. cut (ipam_ok (Ipam_new prefix)); [|apply new_ok].
  induction Hr; eauto using step_ok.
Qed.

(** ** The prefix of a network never panics *)

Lemma split_l_nonempty sep l : split_l sep l ≠ [].
Proof. destruct l as [|c l]; simpl; [done|]. destruct (Ascii.eqb c sep); [done|]. by case_match. Qed.

Lemma split_l_concat sep l r : split_l sep (l ++ sep :: r) = split_l sep l ++ split_l sep r.
Proof.
  induction l as [|c l IH]; simpl; [by rewrite Ascii.eqb_refl|].
  rewrite IH. destruct (Ascii.eqb c sep); [done|].
  destruct (split_l sep l) eqn:Hl; [|done]. by destruct (split_l_nonempty sep l).
Qed.

Lemma split_append (a b : string) :
  split "." (a +:+ "." +:+ b) = split "." a ++ split "." b.
Proof.
  unfold split. rewrite !bytes_app. change (bytes ".") with ["."%char]. simpl.
  by rewrite split_l_concat, fmap_app.
Qed.

(** The octets the allocator writes read back. *)
Lemma octet_round o : 0 <= o <= 254 → split "." (pretty o) = [pretty o] ∧
  parse_octet (pretty o) = Some o.
Proof.
  intros Ho.
  assert (Hall : Forall (λ o : Z, split "." (pretty o) = [pretty o] ∧
    parse_octet (pretty o) = Some o) (Z.of_nat <$> seq 0 255)).
  { apply (bool_decide_unpack _). vm_compute. exact I. }
  rewrite Forall_forall in Hall. apply Hall, list_elem_of_fmap.
  exists (Z.to_nat o). rewrite elem_of_seq. lia.
Qed.

Definition network_prefix (prefix : string) (a b c : Z) : Prop :=
  ∃ x y z, split "." prefix = [x; y; z] ∧
    parse_octet x = Some a ∧ parse_octet y = Some b ∧ parse_octet z = Some c.

Lemma address_Some i a b c o :
  network_prefix (ipam_prefix i) a b c → 0 <= o <= 254 →
  ipam_address i o = Some (a, b, c, o).
Proof.
  intros (x & y & z & Hs & Ha & Hb & Hc) Ho. unfold ipam_address, parse_ipv4.
  destruct (octet_round o Ho) as [Ho1 Ho2]. rewrite split_append, Hs, Ho1. simpl.
  by rewrite Ha, Hb, Hc, Ho2.
Qed.

Lemma reachable_prefix i i' : ipam_reaches i i' → ipam_prefix i' = ipam_prefix i.
Proof.
  induction 1 as [|i i1 i2 Hst _ IH]; [done|]. rewrite IH. destruct Hst as [j p|j p].
  - unfold allocate. destruct (ipam_by_pod j !! p); [done|]. by destruct (free_octet j).
  - unfold release. by destruct (ipam_by_pod j !! p).
Qed.

(**  Whatever calls came before, on the prefix of a network: [allocate]
    never panics; it answers an address of the network that is not the
    gateway's and that no other pod holds, the lowest free one for a new pod
    and the same again for a pod that has one; it fails only when all 253
    addresses are held, and then changes nothing. *)
Theorem allocate_unique prefix a b c i pod :
  network_prefix prefix a b c → ipam_reaches (Ipam_new prefix) i →
  gateway i = Some (a, b, c, 1) ∧
  match allocate i pod with
  | (Some (Ok ip), i') =>
      ∃ o, ip = (a, b, c, o) ∧ 2 <= o <= 254 ∧ ipam_by_pod i' !! pod = Some o ∧
      (∀ q, q ≠ pod → ipam_by_pod i' !! q = ipam_by_pod i !! q ∧ ipam_by_pod i !! q ≠ Some o) ∧
      match ipam_by_pod i !! pod with
      | Some o' => o' = o ∧ i' = i
      | None => ∀ o', 2 <= o' < o → ∃ q, ipam_by_pod i !! q = Some o'
      end
  | (Some (Err _), i') =>
      i' = i ∧ ipam_by_pod i !! pod = None ∧
      ∀ o, 2 <= o <= 254 → ∃ q, ipam_by_pod i !! q = Some o
  | (None, _) => False
  end.
Proof.
  intros Hnet Hr. pose proof (reachable_ok _ _ Hr) as [Hg Ht Ho Hrange].
  assert (Hpre : network_prefix (ipam_prefix i) a b c) by by rewrite (reachable_prefix _ _ Hr).
  split; [unfold gateway; rewrite Hg; apply address_Some; [done|lia]|].
  unfold allocate. destruct (ipam_by_pod i !! pod) as [o|] eqn:Hp.
  { pose proof (Hrange _ _ Hp). rewrite (address_Some i a b c o) by (done || lia). simpl.
    exists o. do 3 (split; [done|]). split; [|done]. intros q Hne. split; [done|].
    intros Hq. by apply Hne, (Ho q pod o). }
  destruct (free_octet i) as [o|] eqn:Hf.
  - apply free_octet_Some in Hf as (Hr' & Hfree & Hlow). rewrite Ht in Hfree.
    rewrite (address_Some (mk_Ipam _ _ _ _) a b c o) by (done || lia). simpl.
    exists o. do 2 (split; [done|]). split; [apply lookup_insert_eq|]. split.
    + intros q Hne. rewrite lookup_insert_ne by done. split; [done|]. intros Hq. eauto.
    + intros o' Ho'. destruct (proj1 (Ht o') (Hlow o' Ho')) as [->|?]; [lia|done].
  - split; [done|]. split; [done|]. intros o Ho'. rewrite free_octet_None in Hf.
    destruct (proj1 (Ht o) (Hf o Ho')) as [->|?]; [lia|done].
Qed.

Lemma allocate_unique_witness :
  network_prefix "10.244.0" 10 244 0 ∧
  let i := (allocate (Ipam_new "10.244.0") "pod-a").2 in
  (allocate i "pod-b").1 = Some (Ok (10, 244, 0, 3)) ∧ gateway i = Some (10, 244, 0, 1).
Proof.
  assert (Hnet : network_prefix "10.244.0" 10 244 0).
  { exists "10", "244", "0". repeat split; vm_compute; reflexivity. }
  split; [exact Hnet|]. cbv zeta. split; [vm_compute; reflexivity|].
  apply (allocate_unique "10.244.0" 10 244 0 _ "pod-b" Hnet).
  eapply rtc_l; [apply (step_allocate _ "pod-a")|apply rtc_refl].
Defined.

(** The octet a pod gives back is free again, so a free octet is found at or
    below it. *)
Lemma release_free i pod o :
  ipam_ok i → ipam_by_pod i !! pod = Some o →
  ∃ o', free_octet (release i pod) = Some o' ∧ o' <= o.
Proof.
  intros Hok Hp. pose proof (io_range _ Hok _ _ Hp) as Hr.
  assert (Hfree : o ∉ ipam_taken (release i pod)).
  { unfold release. rewrite Hp. simpl. rewrite elem_of_difference, elem_of_singleton. tauto. }
  destruct (free_octet (release i pod)) as [o'|] eqn:Hf.
  - exists o'. split; [done|]. apply free_octet_Some in Hf as (_ & _ & Hlow).
    destruct (decide (o' <= o)); [done|]. destruct Hfree. apply Hlow. lia.
  - rewrite free_octet_None in Hf. exfalso; exact (Hfree (Hf o Hr)).
Qed.

(**  [release] gives the pod's address back and nothing else: the pod holds
    none, every other pod keeps its own, the octets in use are what they were
    less the pod's, and that octet, when the pod had one, can be given to any
    pod again: the next new pod gets it or a lower one. *)
Theorem release_frees prefix i pod :
  ipam_reaches (Ipam_new prefix) i →
  ipam_by_pod (release i pod) !! pod = None ∧
  (∀ q, q ≠ pod → ipam_by_pod (release i pod) !! q = ipam_by_pod i !! q) ∧
  (∀ o, o ∈ ipam_taken (release i pod) ↔ o ∈ ipam_taken i ∧ ipam_by_pod i !! pod ≠ Some o) ∧
  ∀ o, ipam_by_pod i !! pod = Some o →
    ∃ o', free_octet (release i pod) = Some o' ∧ o' <= o.
Proof.
  intros Hr. pose proof (reachable_ok _ _ Hr) as Hok.
  assert (Hlast := λ o, release_free i pod o Hok). revert Hlast. generalize (free_octet (release i pod)).
  intros f Hlast. unfold release. destruct (ipam_by_pod i !! pod) as [o|] eqn:Hp; simpl.
  - split; [apply lookup_delete_eq|]. split; [intros; by apply lookup_delete_ne|].
    split; [|done]. intros o'. rewrite elem_of_difference, elem_of_singleton. split.
    + intros [? Hne]. split; [done|]. congruence.
    + intros [? Hne]. split; [done|]. congruence.
  - do 2 (split; [done|]). split; [|done]. intros o. split; [done|by intros [? _]].
Qed.

Lemma release_frees_witness :
  let i := (allocate (Ipam_new "10.244.0") "pod-a").2 in
  ipam_by_pod i !! "pod-a" = Some 2 ∧ ipam_by_pod (release i "pod-a") !! "pod-a" = None ∧
  ∃ o', free_octet (release i "pod-a") = Some o' ∧ o' <= 2.
Proof.
  cbv zeta. assert (Hr : ipam_reaches (Ipam_new "10.244.0") (allocate (Ipam_new "10.244.0") "pod-a").2).
  { eapply rtc_l; [apply (step_allocate _ "pod-a")|apply rtc_refl]. }
  pose proof (release_frees "10.244.0" _ "pod-a" Hr) as (Hnone & _ & _ & Hfree).
  split; [vm_compute; reflexivity|]. split; [exact Hnone|].
  apply Hfree. vm_compute. reflexivity.
Defined.
