(* ===== verification/Runtime.v ===== *)
(** * Container engines ([src/src/node/runtime/mod.rs])

    What every engine of a node must do, as the interface [Runtime], the
    multiplexer [Engines] that implements it over the engines a node has, and
    the choice of the engines at start-up.  [W] is the world an engine acts on:
    the clock, the kernel, the network. *)
From S2P Require Import Prelude RustStd Text Json External Models Error.

Local Open Scope Z_scope.

(** ** Data *)

Record LogOptions : Type := mk_LogOptions {
  lo_tail_lines : option i64;
  lo_timestamps : bool;
  lo_since_time : option DateTime;
  lo_limit_bytes : option i64;
}.
Definition LogOptions_default : LogOptions := mk_LogOptions None false None None.

Record PortMapping : Type := mk_PortMapping {
  pm_container_port : i32;
  pm_host_port : u16;
  pm_protocol : string;
}.

Record ContainerInfo : Type := mk_ContainerInfo {
  ci_id : string;
  ci_running : bool;
  ci_restart_count : i32;
  ci_started_at : option DateTime;
  ci_exit_code : option i32;
  ci_ip : option string;
  ci_port_mappings : list PortMapping;
}.

(** How a call fails: with an [anyhow::Error], or by a panic, which no [match]
    on the result sees. *)
Inductive Failure : Type :=
| Failed (msg : string)
| Panicked.

Definition bail {S A} (msg : string) : ST S Failure A := throw (Failed msg).
Definition panic {S A} : ST S Failure A := throw Panicked.

(** [match m.await { Ok(..) => .., Err(..) => .. }]. *)
Definition attempt_err {S A} (m : ST S Failure A) : ST S Failure (result string A) :=
  λ s, match m s with
       | (Ok a, s') => (Ok (Ok a), s')
       | (Err (Failed msg), s') => (Ok (Err msg), s')
       | (Err Panicked, s') => (Err Panicked, s')
       end.

(** The machine under the node: its clock and its source of identifiers. *)
Class Machine (W : Type) : Type := {
  m_now : W → DateTime * W;
  m_uuid : W → Uuid * W;
}.
#[global] Hint Mode Machine ! : typeclass_instances.
Definition Utc_now {W E} `{Machine W} : ST W E DateTime := λ w,
  let '(t, w') := m_now w in (Ok t, w').
Definition Uuid_new_v4 {W E} `{Machine W} : ST W E Uuid := λ w,
  let '(u, w') := m_uuid w in (Ok u, w').

(** A computation on the world inside one on the world and a state. *)
Definition on_world_of {W S E A} (m : ST W E A) : ST (W * S) E A := λ '(w, s),
  let '(r, w') := m w in (r, (w', s)).
Definition modify_state {W S E} (f : S → S) : ST (W * S) E () := λ '(w, s), (Ok (), (w, f s)).
Definition get_state {W S E} : ST (W * S) E S := λ '(w, s), (Ok s, (w, s)).

(** What the task behind a log stream is woken for, in order: a line, a gap or
    the end of the broadcast channel, or that the log was closed, with the
    lines that were still buffered then. *)
Inductive Polled : Type :=
| PollLine (line : list ascii)
| PollLagged (n : nat)
| PollClosed
| PollEnded (buffered : list (list ascii)).
(** A stream as the chunks it sends, for whether the log was already closed
    when the backlog had been sent, and for what its task sees after that. *)
Definition LogStream : Type := bool → list Polled → list (list ascii).

(** A process started by [exec]: its command, environment, user and terminal,
    and whether its exit code will be known. *)
Record ExecSession : Type := mk_ExecSession {
  es_argv : list string;
  es_env : list (string * string);
  es_uid : option Z;
  es_gid : option Z;
  es_tty : bool;
  es_exit : bool;
}.

(** ** The interface

    [W] is the world, [S] the engine's own state.  A method that takes [&self]
    gets the state as an argument, one with [&mut self] changes it. *)
Class Runtime (W S : Type) : Type := {
  rt_name : string;
  rt_create_and_start_container : string → Container → ST (W * S) Failure string;
  rt_find_container : S → string → ST W Failure (option ContainerInfo);
  rt_remove_container : string → ST (W * S) Failure ();
  rt_get_logs : S → string → LogOptions → ST W Failure string;
  rt_stream_logs : S → string → LogOptions → ST W Failure LogStream;
  rt_exec : S → string → list string → bool → ST W Failure ExecSession;
}.
#[global] Hint Mode Runtime ! ! : typeclass_instances.

(** The bodies the trait provides. *)
Section defaults.
Context {W S : Type}.

Definition default_remove_container (_ : string) : ST (W * S) Failure () := mret ().

Definition default_stream_logs (get_logs : S → string → LogOptions → ST W Failure string)
    (s : S) (container_id : string) (options : LogOptions) : ST W Failure LogStream :=
  logs ← get_logs s container_id options;
  mret (λ _ _, [bytes logs]).

Definition default_exec (name : string) (_ : S) (_ : string) (_ : list string) (_ : bool)
    : ST W Failure ExecSession :=
  bail ("exec not supported by " +:+ name +:+ " runtime").
End defaults.

(** ** The engines of a node *)

(** [(String, Box<dyn Runtime>)]. *)
Record Engine (W : Type) : Type := mk_Engine {
  en_name : string;
  en_S : Type;
  en_runtime : Runtime W en_S;
  en_state : en_S;
}.
Arguments mk_Engine {W} en_name en_S en_runtime en_state.
Arguments en_name {W}.
Arguments en_S {W}.
Arguments en_runtime {W}.
Arguments en_state {W}.

Record Engines (W : Type) : Type := mk_Engines {
  eng_default : string;
  eng_engines : list (Engine W);
}.
Arguments mk_Engines {W}.
Arguments eng_default {W}.
Arguments eng_engines {W}.

Section engines.
Context {W : Type} `{Unicode}.
Implicit Type e : Engine W.
Implicit Type es : Engines W.

(** A call of a method of the boxed engine. *)
Definition engine_read {A} (e : Engine W)
    (call : ∀ S : Type, Runtime W S → S → ST W Failure A) : ST W Failure A :=
  call (en_S e) (en_runtime e) (en_state e).
Definition engine_call {A} (call : ∀ S : Type, Runtime W S → ST (W * S) Failure A)
    : ST (W * Engine W) Failure A := λ '(w, e),
  let '(r, (w', s')) := call (en_S e) (en_runtime e) (w, en_state e) in
  (r, (w', mk_Engine (en_name e) (en_S e) (en_runtime e) s')).

Definition find_container_of (e : Engine W) (name : string) :=
  engine_read e (λ S R s, rt_find_container s name).
Definition create_in (name : string) (c : Container) :=
  engine_call (λ S R, rt_create_and_start_container name c).
Definition remove_in (name : string) := engine_call (λ S R, rt_remove_container name).

Definition default_name (es : Engines W) : string := eng_default es.
Definition names (es : Engines W) : list string := en_name <$> eng_engines es.

(** The place of the engine of a class in the list. *)
Definition for_class (es : Engines W) (class : option string) : result Failure nat :=
  let want := default (eng_default es) class in
  match list_find (λ e, str_eqb (en_name e) want = true) (eng_engines es) with
  | Some (i, _) => Ok i
  | None => Err (Failed ("no engine named " +:+ debug_str want +:+ " on this node (have: " +:+
                         String.concat ", " (names es) +:+ ")"))
  end.

Definition id_scheme (id : string) : string :=
  match split_once_str "://" id with Some (s, _) => s | None => "" end.
(** The engine that mints ids with a scheme. *)
Definition scheme_engine (scheme : string) : string :=
  if str_eqb scheme "containerd" then "mock" else scheme.

Definition by_id (es : Engines W) (id : string) : result Failure (Engine W) :=
  match list_find (λ e, str_eqb (en_name e) (scheme_engine (id_scheme id)) = true)
          (eng_engines es) with
  | Some (_, e) => Ok e
  | None => Err (Failed ("container " +:+ id +:+ ": no engine for scheme " +:+
                         debug_str (id_scheme id) +:+ " on this node"))
  end.

(** A method of the engine at a place, which stays where it is. *)
Definition at_engine {A} (i : nat) (m : ST (W * Engine W) Failure A)
    : ST (W * Engines W) Failure A := λ '(w, es),
  match eng_engines es !! i with
  | Some e =>
      let '(r, (w', e')) := m (w, e) in
      (r, (w', mk_Engines (eng_default es) (<[i := e']> (eng_engines es))))
  | None => (Err Panicked, (w, es))
  end.

(** [self.for_class(class)?.create_and_start_container(..)]. *)
Definition create_for_class (class : option string) (name : string) (c : Container)
    : ST (W * Engines W) Failure string := λ '(w, es),
  match for_class es class with
  | Ok i => at_engine i (create_in name c) (w, es)
  | Err f => (Err f, (w, es))
  end.

(** Ask each engine; only the default's failure is returned. *)
Fixpoint find_in (is_default : bool) (l : list (Engine W)) (name : string)
    : ST W Failure (option ContainerInfo) :=
  match l with
  | [] => mret None
  | e :: l =>
      r ← attempt_err (find_container_of e name);
      match r with
      | Ok (Some info) => mret (Some info)
      | Ok None => find_in false l name
      | Err msg => if is_default then bail msg else find_in false l name
      end
  end.
Definition Engines_find_container (es : Engines W) (name : string)
    : ST W Failure (option ContainerInfo) := find_in true (eng_engines es) name.

(** Every engine is asked; the first failure is returned. *)
Fixpoint remove_from (l : list (Engine W)) (name : string) (w : W)
    : result Failure (option string) * (W * list (Engine W)) :=
  match l with
  | [] => (Ok None, (w, []))
  | e :: l =>
      match attempt_err (remove_in name) (w, e) with
      | (Ok r, (w', e')) =>
          let '(rest, (w'', l')) := remove_from l name w' in
          ((λ first, match r with Err msg => Some msg | Ok _ => first end) <$> rest,
           (w'', e' :: l'))
      | (Err f, (w', e')) => (Err f, (w', e' :: l))
      end
  end.
Definition Engines_remove_container (name : string) : ST (W * Engines W) Failure () :=
  λ '(w, es),
  let '(r, (w', l')) := remove_from (eng_engines es) name w in
  (match r with
   | Ok None => Ok ()
   | Ok (Some msg) => Err (Failed msg)
   | Err f => Err f
   end, (w', mk_Engines (eng_default es) l')).

(** [self.by_id(container_id)?.method(..)]. *)
Definition routed {A} (es : Engines W) (id : string) (call : Engine W → ST W Failure A)
    : ST W Failure A :=
  e ← of_result (by_id es id); call e.

#[export] Instance engines_runtime : Runtime W (Engines W) := {|
  rt_name := "engines";
  rt_create_and_start_container name c := create_for_class None name c;
  rt_find_container := Engines_find_container;
  rt_remove_container := Engines_remove_container;
  rt_get_logs es id options :=
    routed es id (λ e, engine_read e (λ S R s, rt_get_logs s id options));
  rt_stream_logs es id options :=
    routed es id (λ e, engine_read e (λ S R s, rt_stream_logs s id options));
  rt_exec es id cmd tty :=
    routed es id (λ e, engine_read e (λ S R s, rt_exec s id cmd tty)) |}.
End engines.

(** ** Start-up *)

Inductive Os : Type := Linux | MacOS | OtherOs.
#[export] Instance Os_eq_dec : EqDecision Os.
Proof. solve_decision. Defined.

(** The constructors of the engines, each under the name the engine gives
    itself. *)
Record Constructors (W : Type) : Type := mk_Constructors {
  new_docker : ST W Failure (Engine W);
  new_embedded : ST W Failure (Engine W);
  new_mock : string → ST W Failure (Engine W);
  new_wasm : ST W Failure (Engine W);
}.
Arguments new_docker {W}.
Arguments new_embedded {W}.
Arguments new_mock {W}.
Arguments new_wasm {W}.

Section startup.
Context {W : Type} (target_os : Os) (cs : Constructors W).

(** The host's own engine, or the mock if it cannot start. *)
Definition auto_select (socket_path : string) : ST W Failure (Engine W) :=
  let fall_back := new_mock cs socket_path in
  match target_os with
  | MacOS => r ← attempt_err (new_docker cs);
             match r with Ok e => mret e | Err _ => fall_back end
  | Linux => r ← attempt_err (new_embedded cs);
             match r with Ok e => mret e | Err _ => fall_back end
  | OtherOs => fall_back
  end.

Definition select (socket_path name : string) : ST W Failure (Engine W) :=
  let want := to_ascii_lowercase (trim name) in
  if str_eqb want "auto" then auto_select socket_path
  else if str_eqb want "docker" then
    if bool_decide (target_os = MacOS) then new_docker cs
    else bail "docker runtime is only compiled on macOS in this build"
  else if str_eqb want "embedded" then
    if bool_decide (target_os = Linux) then new_embedded cs
    else bail "embedded runtime is Linux-only"
  else if str_eqb want "mock" then new_mock cs socket_path
  else if str_eqb want "wasm" then new_wasm cs
  else bail ("unknown --runtime: " +:+ want +:+ " (expected auto/docker/embedded/mock/wasm)").

Definition has_engine (name : string) (l : list (Engine W)) : bool :=
  existsb (λ e, str_eqb (en_name e) name) l.

(** [engines.push(..)] of a peer if its constructor succeeds. *)
Definition add_peer (name : string) (new : ST W Failure (Engine W)) (l : list (Engine W))
    : ST W Failure (list (Engine W)) :=
  if has_engine name l then mret l
  else
    r ← attempt_err new;
    match r with
    | Ok e => mret (l ++ [mk_Engine name (en_S e) (en_runtime e) (en_state e)])
    | Err _ => mret l
    end.

Definition build (socket_path default_kind : string) : ST W Failure (Engines W) :=
  default_engine ← select socket_path default_kind;
  let default := @rt_name _ _ (en_runtime default_engine) in
  let engines := [mk_Engine default (en_S default_engine) (en_runtime default_engine)
                    (en_state default_engine)] in
  engines ← add_peer "wasm" (new_wasm cs) engines;
  engines ← (if bool_decide (target_os = MacOS)
             then add_peer "docker" (new_docker cs) engines else mret engines);
  mret (mk_Engines default engines).
End startup.
