(* ===== verification/ContainerLogs.v ===== *)
(** * Container logs ([src/src/node/runtime/embedded.rs], section "Logs")

    The log of a container of the embedded engine: the pumps that cut the
    output of the process into lines, the file of stamped lines, its rendering
    for [kubectl logs], and the stream of [kubectl logs -f]. *)
From S2P Require Import Prelude RustStd Text Json External Runtime Reference.

Local Open Scope Z_scope.

(** [Utc::now().to_rfc3339_opts(SecondsFormat::Nanos, true)]. *)
Class LogClock := rfc3339_nanos : DateTime → string.

(** What the log relies on: such a stamp is one visible word that the parser
    of RFC 3339 reads back. *)
Definition stamp_char (c : ascii) : bool := between 33 126 c.
Class LogClockOk `{Extern, LogClock} : Prop := {
  rfc3339_nanos_round t : parse_from_rfc3339 (rfc3339_nanos t) = Some t;
  rfc3339_nanos_chars t : forallb stamp_char (bytes (rfc3339_nanos t)) = true;
}.

Definition space : ascii := ascii_of_nat 32.

(** ** The log *)

(** The file, every line sent to the followers so far, the pumps that are
    still open and the closed flag. *)
Record ContainerLog : Type := mk_ContainerLog {
  log_file : list ascii;
  log_live : list (list ascii);
  log_open_pumps : nat;
  log_closed : bool;
}.
Definition ContainerLog_create : ContainerLog := mk_ContainerLog [] [] 0 false.
Definition LOG_FANOUT_CAPACITY : nat := 256.

Section log.
Context `{Extern, LogClock}.

Definition stored_line (now : DateTime) (stream : string) (text : list ascii) : list ascii :=
  bytes (rfc3339_nanos now) ++ space :: bytes stream ++ space :: text ++ [nl].

(** [append]: the file, then the followers. *)
Definition append (now : DateTime) (stream : string) (text : list ascii) (log : ContainerLog)
    : ContainerLog :=
  let line := stored_line now stream text in
  mk_ContainerLog (log_file log ++ line) (log_live log ++ [line])
    (log_open_pumps log) (log_closed log).

(** ** The pumps *)

(** [while let Some(pos) = partial.iter().position(..)]: the lines drained
    from [partial] and what is left of it. *)
Fixpoint drain_lines (fuel : nat) (partial : list ascii) : list (list ascii) * list ascii :=
  match fuel with
  | O => ([], partial)
  | S n =>
      match list_find (λ c, Ascii.eqb c nl = true) partial with
      | Some (pos, _) =>
          let '(lines, rest) := drain_lines n (drop (S pos) partial) in
          (take pos partial :: lines, rest)
      | None => ([], partial)
      end
  end.

(** What arrives on the pipe: chunks, then the end or an error.  The result is
    the text of every [append] the pump makes. *)
Fixpoint pump_lines (partial : list ascii) (chunks : list (list ascii)) : list (list ascii) :=
  match chunks with
  | [] => match partial with [] => [] | _ => [partial] end
  | chunk :: chunks =>
      let partial := partial ++ chunk in
      let '(lines, rest) := drain_lines (length partial) partial in
      lines ++ pump_lines rest chunks
  end.

Definition pump_starts (log : ContainerLog) : ContainerLog :=
  mk_ContainerLog (log_file log) (log_live log) (S (log_open_pumps log)) (log_closed log).
(** [fetch_sub(1) == 1]: the last pump closes the log. *)
Definition pump_ends (log : ContainerLog) : ContainerLog :=
  mk_ContainerLog (log_file log) (log_live log) (log_open_pumps log - 1)
    (if (log_open_pumps log =? 1)%nat then true else log_closed log).

(** ** Rendering *)

Definition split_stored_line (line : list ascii) : option (list ascii * list ascii) :=
  match split_once_l space line with
  | None => None
  | Some (ts, rest) =>
      Some (ts, match split_once_l space rest with Some (_, t) => t | None => [] end)
  end.

Definition push_rendered (ts text : list ascii) (timestamps : bool) : list ascii :=
  (if timestamps then ts ++ [space] else []) ++ text ++ [nl].

(** Whether a stored stamp is before [--since]. *)
Definition too_old (since : option DateTime) (ts : list ascii) : bool :=
  match since, parse_from_rfc3339 (of_bytes ts) with
  | Some since, Some t => val t <? val since
  | _, _ => false
  end.

Definition kept_line (since : option DateTime) (line : list ascii)
    : option (list ascii * list ascii) :=
  match split_stored_line line with
  | Some (ts, text) => if too_old since ts then None else Some (ts, text)
  | None => None
  end.

Definition keep_tail {A} (tail_lines : option i64) (kept : list A) : list A :=
  match tail_lines with
  | Some n =>
      let n := Z.to_nat (Z.max (val n) 0) in
      if (n <? length kept)%nat then drop (length kept - n) kept else kept
  | None => kept
  end.

Definition limit_output (limit_bytes : option i64) (out : list ascii) : list ascii :=
  match limit_bytes with
  | Some limit => take (cut_back out (Nat.min (Z.to_nat (Z.max (val limit) 0)) (length out))) out
  | None => out
  end.

Definition render_log (raw : list ascii) (options : LogOptions) : list ascii :=
  let kept := omap (kept_line (lo_since_time options)) (lines_l raw) in
  let kept := keep_tail (lo_tail_lines options) kept in
  let out := concat ((λ k, push_rendered k.1 k.2 (lo_timestamps options)) <$> kept) in
  limit_output (lo_limit_bytes options) out.

(** [read_to_string(..).unwrap_or_default()]: nothing unless the whole file is
    UTF-8. *)
Definition read_log (log : ContainerLog) : list ascii :=
  if utf8_valid (log_file log) then log_file log else [].

Definition render (log : ContainerLog) (options : LogOptions) : list ascii :=
  render_log (read_log log) options.

Definition render_live_line (line : list ascii) (timestamps : bool) : option (list ascii) :=
  if utf8_valid line then
    match split_stored_line (trim_end_matches_l nl line) with
    | Some (ts, text) => Some (push_rendered ts text timestamps)
    | None => None
    end
  else None.

(** ** Following *)

Fixpoint follow_live (timestamps : bool) (polled : list Polled) : list (list ascii) :=
  let send line := option_list (render_live_line line timestamps) in
  match polled with
  | PollLine line :: polled => send line ++ follow_live timestamps polled
  | PollLagged _ :: polled => follow_live timestamps polled
  | PollClosed :: _ => []
  | PollEnded buffered :: _ => concat (send <$> buffered)
  | [] => []
  end.

(** The forwarder of [stream_logs], from the snapshot taken under the lock;
    [closed] is the flag it reads after it has sent the backlog. *)
Definition follow (log : ContainerLog) (options : LogOptions) : LogStream := λ closed polled,
  let backlog := render log options in
  (match backlog with [] => [] | _ => [backlog] end) ++
  (if closed then [] else follow_live (lo_timestamps options) polled).
End log.

(** ** What the pumps append

    The reference: the pieces of the output between line feeds, without the
    last if nothing follows the last line feed. *)
Definition output_lines (output : list ascii) : list (list ascii) :=
  let pieces := split_l nl output in
  if bool_decide (last pieces = Some []) then removelast pieces else pieces.

Lemma list_find_nl_Some l pos c :
  list_find (λ c, Ascii.eqb c nl = true) l = Some (pos, c) →
  l = take pos l ++ nl :: drop (S pos) l ∧ (nl ∉ take pos l).
Proof.
  intros (Hpos & Hc & Hmin)%list_find_Some. apply Ascii.eqb_eq in Hc as ->. split.
  - by rewrite <- (drop_S _ _ _ Hpos), take_drop.
  - intros (i & Hi)%list_elem_of_lookup. assert (i < pos)%nat as Hlt.
    { apply lookup_lt_Some in Hi. rewrite length_take in Hi. lia. }
    rewrite lookup_take_lt in Hi by done. apply (Hmin i nl Hi Hlt).
    by rewrite Ascii.eqb_refl.
Qed.

Lemma list_find_nl_None l :
  list_find (λ c, Ascii.eqb c nl = true) l = None → nl ∉ l.
Proof.
  intros Hf%list_find_None Hin. rewrite Forall_forall in Hf.
  apply (Hf nl Hin). by rewrite Ascii.eqb_refl.
Qed.

(** Draining splits at the line feeds, and the fuel is enough. *)
Lemma drain_lines_spec fuel partial lines rest :
  (length partial ≤ fuel)%nat → drain_lines fuel partial = (lines, rest) →
  (nl ∉ rest) ∧ Forall (λ l, nl ∉ l) lines ∧
  (∀ more, split_l nl (partial ++ more) = lines ++ split_l nl (rest ++ more)).
Proof.
  revert partial lines. induction fuel as [|n IH]; intros partial lines Hlen E.
  { destruct partial; [|simpl in Hlen; lia]. injection E as <- <-.
    split; [by apply not_elem_of_nil|]. by split. }
  simpl in E. destruct (list_find _ partial) as [[pos c]|] eqn:Hf.
  - apply list_find_nl_Some in Hf as [Hp Hpos].
    destruct (drain_lines n (drop (S pos) partial)) as [lines' rest'] eqn:E'.
    injection E as <- <-. apply IH in E' as (Hr & Hl & Hs).
    + split; [done|]. split; [by constructor|]. intros more. rewrite Hp at 1.
      rewrite <- app_assoc. simpl. rewrite split_l_app by done. by rewrite Hs.
    + rewrite length_drop. destruct partial; simpl in *; lia.
  - injection E as <- <-. split; [by apply list_find_nl_None|]. by split.
Qed.

Lemma pump_lines_spec partial chunks :
  nl ∉ partial →
  pump_lines partial chunks = output_lines (partial ++ concat chunks) ∧
  Forall (λ l, nl ∉ l) (pump_lines partial chunks).
Proof.
  revert partial. induction chunks as [|chunk chunks IH]; intros partial Hp; simpl.
  - rewrite app_nil_r. unfold output_lines. rewrite split_l_no_sep by done.
    destruct partial as [|c l]; simpl; [done|]. split; [done|]. by repeat constructor.
  - destruct (drain_lines _ _) as [lines rest] eqn:E.
    apply drain_lines_spec in E as (Hr & Hl & Hs); [|done].
    destruct (IH rest Hr) as [-> HF]. split; [|by apply Forall_app].
    unfold output_lines. rewrite app_assoc, Hs.
    pose proof (split_l_not_nil nl (rest ++ concat chunks)) as Hne.
    rewrite last_app. destruct (last (split_l _ _)) as [x|] eqn:El.
    + repeat case_bool_decide; [|done..]. symmetry. by apply removelast_app.
    + by apply last_None in El.
Qed.

(** C31. The pump of a container's output appends the lines of the output,
    whatever the pieces in which the pipe delivers it: the loop that drains
    complete lines and the remainder kept between reads compute the split of
    the whole output at its line feeds, with a last unfinished line appended
    at the end. *)
Theorem pump_lines_chunk_independent chunks :
  pump_lines [] chunks = output_lines (concat chunks).
Proof. apply (pump_lines_spec [] chunks). by apply not_elem_of_nil. Qed.

(** ** What is shown

    A line as it was appended: when, from which stream, and its text. *)
Record Entry : Type := mk_Entry {
  en_time : DateTime;
  en_stream : string;
  en_text : list ascii;
}.

Section shown.
Context `{ExternOk, !LogClock, !LogClockOk}.

Definition append_all (es : list Entry) (log : ContainerLog) : ContainerLog :=
  foldl (λ log e, append (en_time e) (en_stream e) (en_text e) log) log es.
Definition entry_line (e : Entry) : list ascii :=
  stored_line (en_time e) (en_stream e) (en_text e).

(** Output the engine can show: text, one line, no carriage return at its end. *)
Record showable (e : Entry) : Prop := {
  sh_stream : forallb stamp_char (bytes (en_stream e)) = true;
  sh_text : utf8_valid (en_text e) = true;
  sh_line : nl ∉ en_text e;
  sh_crlf : last (en_text e) ≠ Some cr;
}.

(** The reference: the entries since [--since], the last [--tail] of them, and
    at most [--limit-bytes]. *)
Definition shown (options : LogOptions) (e : Entry) : list ascii :=
  push_rendered (bytes (rfc3339_nanos (en_time e))) (en_text e) (lo_timestamps options).
Definition recent (since : option DateTime) (e : Entry) : Prop :=
  match since with Some t => val t <= val (en_time e) | None => True end.
#[local] Instance recent_dec since e : Decision (recent since e).
Proof. unfold recent. destruct since; apply _. Defined.
Definition shown_log (options : LogOptions) (es : list Entry) : list ascii :=
  limit_output (lo_limit_bytes options)
    (concat (shown options <$>
       keep_tail (lo_tail_lines options) (filter (recent (lo_since_time options)) es))).

Lemma stamp_chars_no l c : forallb stamp_char l = true → stamp_char c = false → c ∉ l.
Proof. rewrite forallb_forall. intros Hl Hc Hin%list_elem_of_In%Hl. congruence. Qed.

Lemma nanos_no c t : stamp_char c = false → c ∉ bytes (rfc3339_nanos t).
Proof. apply stamp_chars_no, rfc3339_nanos_chars. Qed.

Lemma stamp_chars_utf8 l : forallb stamp_char l = true → utf8_valid l = true.
Proof.
  intros Hl. apply utf8_valid_ascii. rewrite forallb_forall in *. intros c Hc%Hl.
  unfold stamp_char, is_ascii, between in *. rewrite andb_true_iff, !Z.leb_le in *. lia.
Qed.

Lemma file_append_all es log :
  log_file (append_all es log) = log_file log ++ concat (entry_line <$> es).
Proof.
  revert log. induction es as [|e es IH]; intros log; csimpl; [by rewrite app_nil_r|].
  rewrite IH. simpl. by rewrite <- app_assoc.
Qed.

Lemma append_all_app es new log : append_all (es ++ new) log = append_all new (append_all es log).
Proof. apply foldl_app. Qed.

Lemma entry_line_utf8 e : showable e → utf8_valid (entry_line e) = true.
Proof.
  intros [Hs Ht _ _]. unfold entry_line, stored_line.
  rewrite utf8_valid_app by apply stamp_chars_utf8, rfc3339_nanos_chars.
  rewrite utf8_valid_cons by done. rewrite utf8_valid_app by by apply stamp_chars_utf8.
  rewrite utf8_valid_cons by done. by rewrite utf8_valid_app.
Qed.

Lemma entries_utf8 es : Forall showable es → utf8_valid (concat (entry_line <$> es)) = true.
Proof.
  intros Hes. apply utf8_valid_concat. induction Hes as [|e es He _ IH]; csimpl; [done|].
  by rewrite entry_line_utf8, IH.
Qed.

(** A stored line without its line feed. *)
Definition entry_body (e : Entry) : list ascii :=
  bytes (rfc3339_nanos (en_time e)) ++ space :: bytes (en_stream e) ++ space :: en_text e.

Lemma entry_line_body e : entry_line e = entry_body e ++ [nl].
Proof.
  unfold entry_line, stored_line, entry_body. rewrite <- app_assoc. simpl.
  by rewrite <- app_assoc.
Qed.

Lemma entry_body_no_nl e : showable e → nl ∉ entry_body e.
Proof.
  intros [Hs _ Hl _]. unfold entry_body.
  rewrite elem_of_app, elem_of_cons, elem_of_app, elem_of_cons. intros [?|[?|[?|[?|?]]]].
  - by apply (nanos_no nl (en_time e)).
  - done.
  - by apply (stamp_chars_no (bytes (en_stream e)) nl).
  - done.
  - done.
Qed.

Lemma entry_body_no_cr e : showable e → last (entry_body e) ≠ Some cr.
Proof.
  intros [_ _ _ Hc]. unfold entry_body.
  rewrite !last_app, !last_cons, !last_app, !last_cons.
  destruct (last (en_text e)); [by intros [= ->]|done].
Qed.

Lemma split_entry_body e :
  showable e →
  split_stored_line (entry_body e) = Some (bytes (rfc3339_nanos (en_time e)), en_text e).
Proof.
  intros [Hs _ _ _]. unfold split_stored_line, entry_body.
  rewrite split_once_l_app by by apply nanos_no.
  by rewrite split_once_l_app by by apply stamp_chars_no.
Qed.

Lemma kept_entry since e :
  showable e →
  kept_line since (entry_body e) =
    if decide (recent since e) then Some (bytes (rfc3339_nanos (en_time e)), en_text e) else None.
Proof.
  intros He. unfold kept_line. rewrite split_entry_body by done.
  unfold too_old. rewrite of_bytes_bytes, rfc3339_nanos_round. unfold recent.
  destruct since as [t|]; [|done].
  destruct (Z.ltb_spec (val (en_time e)) (val t)); case_decide; done || lia.
Qed.

Lemma lines_entries es :
  Forall showable es → lines_l (concat (entry_line <$> es)) = entry_body <$> es.
Proof.
  induction 1 as [|e es He _ IH]; csimpl; [done|].
  rewrite entry_line_body, <- app_assoc. simpl.
  rewrite lines_l_cons by by apply entry_body_no_nl.
  by rewrite chomp_cr_id, IH by by apply entry_body_no_cr.
Qed.

Lemma kept_entries since es :
  Forall showable es →
  omap (kept_line since) (entry_body <$> es) =
    (λ e, (bytes (rfc3339_nanos (en_time e)), en_text e)) <$> filter (recent since) es.
Proof.
  induction 1 as [|e es He _ IH]; csimpl; [done|].
  rewrite kept_entry, filter_cons by done. case_decide; csimpl; by rewrite IH.
Qed.

Lemma keep_tail_fmap {A B} (f : A → B) n l : keep_tail n (f <$> l) = f <$> keep_tail n l.
Proof.
  destruct n as [n|]; [|done]. simpl. rewrite length_fmap.
  case_match; [by rewrite fmap_drop|done].
Qed.

Lemma render_entries options es :
  Forall showable es → render_log (concat (entry_line <$> es)) options = shown_log options es.
Proof.
  intros Hes. unfold render_log, shown_log.
  rewrite lines_entries, kept_entries, keep_tail_fmap by done.
  by rewrite <- list_fmap_compose.
Qed.

Lemma render_append_all options es :
  Forall showable es →
  render (append_all es ContainerLog_create) options = shown_log options es.
Proof.
  intros Hes. unfold render, read_log. rewrite file_append_all. simpl.
  by rewrite entries_utf8, render_entries.
Qed.

(** [kubectl logs]: for output that is UTF-8, the text read back from the
    log file is the entries in the order they were appended, those since
    [--since] only, of them the last [--tail], each with its stamp exactly if
    [--timestamps] asks for it, cut to [--limit-bytes] at a character
    boundary. *)
Lemma logs_show_entries options es :
  Forall showable es →
  render (append_all es ContainerLog_create) options = shown_log options es.
Proof. apply render_append_all. Qed.

(** The default options of the filters: every line is shown. *)
Definition unfiltered (timestamps : bool) : LogOptions := mk_LogOptions None timestamps None None.

Lemma shown_unfiltered timestamps es :
  shown_log (unfiltered timestamps) es = concat (shown (unfiltered timestamps) <$> es).
Proof. unfold shown_log. simpl. by rewrite filter_always. Qed.

Lemma follow_entries options es :
  Forall showable es →
  follow_live (lo_timestamps options) (PollLine <$> (entry_line <$> es)) = shown options <$> es.
Proof.
  induction 1 as [|e es He _ IH]; csimpl; [done|]. rewrite IH. unfold render_live_line.
  rewrite entry_line_utf8 by done. rewrite entry_line_body, trim_end_matches_one
    by by apply entry_body_no_nl.
  by rewrite split_entry_body.
Qed.

Lemma log_live_append_all es log :
  log_live (append_all es log) = log_live log ++ (entry_line <$> es).
Proof.
  revert log. induction es as [|e es IH]; intros log; csimpl; [by rewrite app_nil_r|].
  rewrite IH. simpl. by rewrite <- app_assoc.
Qed.


(** No character of UTF-8 contains one of the bytes F5 to FF. *)
Lemma utf8_no_high l c : utf8_valid l = true → c ∈ l → byte_val c <= 244.
Proof.
  induction l as [l IH] using list_len_ind. intros Hl Hc.
  destruct l as [|a l1]; [by apply not_elem_of_nil in Hc|]. simpl in Hl.
  assert (Hr : ∀ l', (length l' < length (a :: l1))%nat → utf8_valid l' = true → c ∈ l' →
    byte_val c <= 244) by (intros; by eapply IH). clear IH.
  unfold is_ascii, lead2, lead3, lead4, is_cont, between in Hl.
  destruct ((0 <=? byte_val a) && (byte_val a <=? 127)) eqn:Ea.
  { apply elem_of_cons in Hc as [->|Hc]; [|by apply (Hr l1); simpl; [lia|..]]. lia. }
  destruct l1 as [|b l2]; [done|].
  destruct (_ && _) eqn:E2 in Hl.
  { rewrite !elem_of_cons in Hc.
    destruct Hc as [->|[->|Hc]]; [lia|lia|]. by apply (Hr l2); simpl; [lia|..]. }
  destruct l2 as [|d l3]; [done|].
  destruct (_ && _) eqn:E3 in Hl.
  { rewrite !elem_of_cons in Hc.
    destruct Hc as [->|[->|[->|Hc]]]; [lia|lia|lia|]. by apply (Hr l3); simpl; [lia|..]. }
  destruct l3 as [|f l4]; [done|]. destruct (_ && _) eqn:E4 in Hl; [|done].
  rewrite !elem_of_cons in Hc.
  destruct Hc as [->|[->|[->|[->|Hc]]]]; [lia|lia|lia|lia|]. by apply (Hr l4); simpl; [lia|..].
Qed.

Lemma keep_tail_nil {A} n : @keep_tail A n [] = [].
Proof. by destruct n. Qed.
Lemma limit_output_nil limit : limit_output limit [] = [].
Proof. destruct limit; [apply take_nil|done]. Qed.

(** One byte that never occurs in UTF-8 (F5 to FF) anywhere in the output
    of a container, and [kubectl logs] shows nothing of its log any more,
    neither the lines before nor those after: the file is read as text as a
    whole. *)
Theorem one_bad_byte_hides_log options es e c :
  e ∈ es → c ∈ en_text e → 245 <= byte_val c →
  render (append_all es ContainerLog_create) options = [].
Proof.
  intros He Hc Hbad. unfold render, read_log. rewrite file_append_all. simpl.
  destruct (utf8_valid (concat _)) eqn:Hv.
  - assert (byte_val c <= 244); [|lia]. eapply utf8_no_high; [exact Hv|].
    apply list_elem_of_In, in_concat. exists (entry_line e). rewrite <- !list_elem_of_In. split.
    + by apply list_elem_of_fmap_2.
    + unfold entry_line, stored_line. rewrite elem_of_app, elem_of_cons, elem_of_app, elem_of_cons,
        elem_of_app. auto 10.
  - unfold render_log. simpl. rewrite keep_tail_nil. apply limit_output_nil.
Qed.
End shown.

(** ** On a concrete log *)

#[export] Instance ref_log_clock : LogClock := ref_to_rfc3339.

Lemma digit_char_stamp d : 0 <= d < 10 → stamp_char (digit_char d) = true.
Proof.
  intros Hd. assert (d = 0 ∨ d = 1 ∨ d = 2 ∨ d = 3 ∨ d = 4 ∨ d = 5 ∨ d = 6 ∨ d = 7 ∨ d = 8 ∨ d = 9)
    as Hcases by lia. by repeat destruct Hcases as [->|Hcases]; subst.
Qed.

#[export] Instance ref_log_clock_ok : LogClockOk.
Proof.
  split; [apply ref_rfc3339_round|]. intros t. unfold rfc3339_nanos, ref_log_clock, ref_to_rfc3339.
  rewrite bytes_of_bytes, forallb_forall. intros c Hc.
  apply list_elem_of_In, list_elem_of_fmap in Hc as (d & -> & Hd).
  apply digit_char_stamp. pose proof (numeral_digits 10 21 (val t + epoch_offset)) as HF.
  rewrite Forall_forall in HF. by apply HF.
Qed.

Definition sample_time (n : Z) : DateTime :=
  default (@Bnd (-62167219200000000000) 253402300800000000000 0 eq_refl) (checked n).
Definition sample_entries : list Entry :=
  [mk_Entry (sample_time 1) "stdout" (bytes "one"); mk_Entry (sample_time 2) "stderr" (bytes "two");
   mk_Entry (sample_time 3) "stdout" (bytes "three")].
Definition sample_options : LogOptions :=
  mk_LogOptions (checked 2) false (Some (sample_time 1)) (checked 7).

Lemma sample_showable es :
  Forall (λ e, forallb stamp_char (bytes (en_stream e)) && utf8_valid (en_text e) &&
               bool_decide (nl ∉ en_text e) && bool_decide (last (en_text e) ≠ Some cr) = true) es →
  Forall showable es.
Proof.
  intros Hes. eapply Forall_impl; [exact Hes|]. intros e. cbn beta. rewrite !andb_true_iff, !bool_decide_eq_true.
  intros [[[??]?]?]. by split.
Qed.

Lemma logs_show_entries_witness :
  of_bytes (render (append_all sample_entries ContainerLog_create) sample_options) =
    "two" +:+ of_bytes [nl] +:+ "thr".
Proof.
  rewrite (logs_show_entries sample_options sample_entries); [vm_compute; reflexivity|].
  apply sample_showable. vm_compute. repeat constructor.
Defined.


Lemma one_bad_byte_hides_log_witness :
  render (append_all (sample_entries ++ [mk_Entry (sample_time 4) "stdout" [ascii_of_nat 255]])
            ContainerLog_create) LogOptions_default = [].
Proof.
  apply (one_bad_byte_hides_log LogOptions_default _
           (mk_Entry (sample_time 4) "stdout" [ascii_of_nat 255]) (ascii_of_nat 255)).
  - apply elem_of_app. right. by left.
  - by left.
  - by vm_compute.
Defined.
