(* ===== verification/Mock.v ===== *)
(** * The mock engine ([src/src/node/runtime/mock.rs])

    Containers that only exist in two tables, with a log of four made-up
    lines. *)
From S2P Require Import Prelude RustStd Text Json External Models Runtime ContainerLogs.

Local Open Scope Z_scope.

Record MockLogEntry : Type := mk_MockLogEntry {
  mle_timestamp : DateTime;
  mle_message : string;
}.
Record MockContainer : Type := mk_MockContainer {
  mc_id : string;
  mc_running : bool;
  mc_started_at : DateTime;
  mc_logs : list MockLogEntry;
}.
Record ContainerdRuntime : Type := mk_ContainerdRuntime {
  cd_containers : gmap string MockContainer;
  cd_by_name : gmap string string;
}.
Definition ContainerdRuntime_new : ContainerdRuntime := mk_ContainerdRuntime ∅ ∅.

(** [n as usize] of an [i64]. *)
Definition as_usize (n : i64) : Z := val n `mod` 18446744073709551616.

(** [truncate(limit)] panics inside a character. *)
Definition truncate_to (limit : Z) (out : list ascii) : option (list ascii) :=
  if Z.of_nat (length out) <=? limit then Some out
  else if is_char_boundary out (Z.to_nat limit) then Some (take (Z.to_nat limit) out) else None.

Section mock.
Context {W : Type} `{Extern, Machine W, LogClock}.

(** The four lines; times are in milliseconds after the start. *)
Definition mock_logs (now : DateTime) (name image : string) : list MockLogEntry :=
  [mk_MockLogEntry now ("Starting container " +:+ name +:+ " with image " +:+ image);
   mk_MockLogEntry (dt_add now 100000000) "Initializing application...";
   mk_MockLogEntry (dt_add now 200000000) "Application started successfully";
   mk_MockLogEntry (dt_add now 300000000) "Listening for connections..."].

Definition mock_create_and_start_container (name : string) (c : Container)
    : ST (W * ContainerdRuntime) Failure string :=
  u ← on_world_of Uuid_new_v4;
  now ← on_world_of Utc_now;
  let id := "containerd://" +:+ uuid_to_string u in
  let entry := mk_MockContainer id true now (mock_logs now name (ctr_image c)) in
  modify_state (λ s, mk_ContainerdRuntime (<[id := entry]> (cd_containers s))
                       (<[name := id]> (cd_by_name s)));;
  mret id.

Definition mock_info (c : MockContainer) : ContainerInfo :=
  {| ci_id := mc_id c; ci_running := mc_running c; ci_restart_count := i32_zero;
     ci_started_at := Some (mc_started_at c); ci_exit_code := None; ci_ip := None;
     ci_port_mappings := [] |}.
Definition mock_find_container (s : ContainerdRuntime) (name : string)
    : ST W Failure (option ContainerInfo) :=
  mret (mock_info <$> (cd_by_name s !! name ≫= λ id, cd_containers s !! id)).

Definition mock_line (timestamps : bool) (e : MockLogEntry) : list ascii :=
  (if timestamps then bytes (rfc3339_nanos (mle_timestamp e)) ++ [space] else []) ++
  bytes (mle_message e) ++ [nl].
(** [None] is the panic of [truncate]. *)
Definition mock_render (logs : list MockLogEntry) (options : LogOptions) : option (list ascii) :=
  let logs := match lo_since_time options with
              | Some since => filter (λ e, val since <= val (mle_timestamp e)) logs
              | None => logs
              end in
  let logs := match lo_tail_lines options with
              | Some tail => if as_usize tail <? Z.of_nat (length logs)
                             then last_n (Z.to_nat (as_usize tail)) logs else logs
              | None => logs
              end in
  let output := concat (mock_line (lo_timestamps options) <$> logs) in
  match lo_limit_bytes options with
  | Some limit => truncate_to (as_usize limit) output
  | None => Some output
  end.
Definition mock_get_logs (s : ContainerdRuntime) (container_id : string) (options : LogOptions)
    : ST W Failure string :=
  match cd_containers s !! container_id with
  | None => bail ("Container " +:+ container_id +:+ " not found")
  | Some c => match mock_render (mc_logs c) options with
              | Some output => mret (of_bytes output)
              | None => panic
              end
  end.

#[export] Instance mock_runtime : Runtime W ContainerdRuntime := {|
  rt_name := "mock";
  rt_create_and_start_container := mock_create_and_start_container;
  rt_find_container := mock_find_container;
  rt_remove_container := default_remove_container;
  rt_get_logs := mock_get_logs;
  rt_stream_logs := default_stream_logs mock_get_logs;
  rt_exec := default_exec "mock" |}.
End mock.
