(* ===== verification/Files.v ===== *)
(** * Paths and files

    The parts of [std::path] and [std::fs] the node uses.  Paths are text; the
    file system is the class [Files] of the operations on the world that the
    code calls, each failing with the text of its [io::Error]. *)
From S2P Require Import Prelude RustStd Text.

(** ** Paths *)

(** [PathBuf::join]. *)
Definition path_join (a b : string) : string :=
  if starts_with "/" b then b
  else if str_eqb a "" then b
  else if ends_with "/" a then a +:+ b
  else a +:+ "/" +:+ b.

Inductive Component : Type :=
| RootDir
| CurDir
| ParentDir
| Normal (name : string).

#[export] Instance Component_eq_dec : EqDecision Component.
Proof. solve_decision. Defined.

(** A piece between slashes that names nothing. *)
Definition redundant (piece : string) : bool := str_eqb piece "" || str_eqb piece ".".
Definition component_of (piece : string) : Component :=
  if str_eqb piece ".." then ParentDir else Normal piece.

(** [Path::components]. *)
Definition components (path : string) : list Component :=
  let pieces := split "/" path in
  (if starts_with "/" path then [RootDir]
   else if bool_decide (head pieces = Some ".") then [CurDir] else []) ++
  (component_of <$> List.filter (λ p, negb (redundant p)) pieces).

Definition is_absolute (path : string) : bool := starts_with "/" path.

(** [Path::file_name]. *)
Definition file_name (path : string) : option string :=
  match last (components path) with
  | Some (Normal name) => Some name
  | _ => None
  end.

(** [Path::parent]: the text up to the last component. *)
Definition parent (path : string) : option string :=
  let absolute := starts_with "/" path in
  let pieces := split "/" path in
  let '(start, rest) := if absolute then ("/", tail pieces) else ("", pieces) in
  match skip_while redundant (reverse rest) with
  | [] => match rest with
          | "." :: _ => if absolute then None else Some ""
          | _ => None
          end
  | _ :: before => Some (start +:+ String.concat "/" (reverse (skip_while redundant before)))
  end.

(** [Path::extension]: what follows the last dot of the file name, which does
    not start it. *)
Definition extension (path : string) : option string :=
  name ← file_name path;
  match rsplit_once "." name with
  | Some (stem, ext) => if str_eqb stem "" then None else Some ext
  | None => None
  end.

(** [to_str] and [to_string_lossy]. *)
Definition to_str (s : string) : option string := if utf8_valid (bytes s) then Some s else None.
Definition to_string_lossy (s : string) : string := of_bytes (from_utf8_lossy (bytes s)).

(** ** The file system *)

Class Files (W : Type) : Type := {
  fs_exists : W → string → bool;
  fs_is_dir : W → string → bool;
  fs_is_symlink : W → string → bool;
  fs_readonly : W → string → option bool;
  fs_read_dir : W → string → result string (list (result string string));
  fs_read : string → ST W string (list ascii);
  fs_write : string → list ascii → ST W string ();
  fs_copy : string → string → ST W string ();
  fs_symlink : string → string → ST W string ();
  fs_create_dir_all : string → ST W string ();
  fs_remove_dir_all : string → ST W string ();
  fs_remove_file : string → ST W string ();
}.
#[global] Hint Mode Files ! : typeclass_instances.

(** What Linux promises: a path that opens as a directory is shorter than
    [PATH_MAX], and the names in a directory are not empty and have no slash. *)
Definition PATH_MAX : nat := 4096.
Class FilesOk (W : Type) `{Files W} : Prop := {
  fs_path_max (w : W) p : fs_is_dir w p = true → String.length p < PATH_MAX;
  fs_names (w : W) p l name :
    fs_read_dir w p = Ok l → Ok name ∈ l → name ≠ "" ∧ starts_with "/" name = false;
}.

(** A query as a computation. *)
Definition ask {W E A} (f : W → A) : ST W E A := λ w, (Ok (f w), w).

(** [let _ = ..] and [.ok()] on a fallible call. *)
Definition ignore {W E F A} (m : ST W F A) : ST W E () := attempt m;; mret ().

Example components_abs : components "/a//b/./../c" = [RootDir; Normal "a"; Normal "b"; ParentDir; Normal "c"].
Proof. reflexivity. Qed.
Example parent_redundant : parent "a//b/./c/" = Some "a//b".
Proof. reflexivity. Qed.
Example parent_root : (parent "/a", parent "a", parent "/", parent "") = (Some "/", Some "", None, None).
Proof. reflexivity. Qed.
Example extension_dots : (extension "x/a.tar.gz", extension ".wasm", extension "a") = (Some "gz", None, None).
Proof. reflexivity. Qed.
