(* ===== verification/Process.v ===== *)
(** * Processes and descriptors ([src/src/node/runtime/embedded.rs], helpers)

    What the embedded engine does below its table of containers: waiting for a
    process and recording how it ended, killing the process of a session that
    was hung up, pipes and terminals with the descriptors they own, the start
    of an exec, and the reading of its output.  The kernel is the class
    [Posix]; [PosixOk] is what POSIX promises of its descriptors. *)
From S2P Require Import Prelude RustStd Text Json External Models Runtime Files.

Local Open Scope Z_scope.

Definition Errno : Type := Z.
Definition EINTR : Errno := 4.
Definition EIO : Errno := 5.
Definition EAGAIN : Errno := 11.

(** ** Waiting for a process *)

Inductive WaitStatus : Type :=
| Exited (code : i32)
| Signaled (signal : Z)
| StillThere.
Definition code_of_status (s : WaitStatus) : option i32 :=
  match s with
  | Exited c => Some c
  | Signaled sig => Some (as_i32 (128 + sig))
  | StillThere => None
  end.

(** The polling of [/proc/<pid>]: what each look at it saw. *)
Fixpoint poll_proc (looks : list bool) : option i32 :=
  match looks with
  | [] => None
  | true :: looks => poll_proc looks
  | false :: _ => Some (as_i32 (-1))
  end.
(** [wait_for_exit], for the answers of [waitpid]; [None] while it waits. *)
Fixpoint wait_for_exit (answers : list (result Errno WaitStatus)) (looks : list bool) : option i32 :=
  match answers with
  | [] => None
  | Ok s :: answers =>
      match code_of_status s with Some c => Some c | None => wait_for_exit answers looks end
  | Err e :: answers =>
      if e =? EINTR then wait_for_exit answers looks else poll_proc looks
  end.

(** An answer that does not end the waiting. *)
Definition idle_answer (a : result Errno WaitStatus) : bool :=
  match a with
  | Ok s => bool_decide (code_of_status s = None)
  | Err e => e =? EINTR
  end.
(** It returns with the first answer that is an end or an error, whatever
    comes before, and no later answer matters. *)
Lemma wait_for_exit_first before a after looks :
  Forall (λ a, idle_answer a = true) before → idle_answer a = false →
  wait_for_exit (before ++ a :: after) looks =
    match a with Ok s => code_of_status s | Err _ => poll_proc looks end.
Proof.
  intros Hb Ha. induction Hb as [|b before Hb _ IH].
  - cbn [app wait_for_exit]. destruct a as [s|e]; cbn in Ha; [|by rewrite Ha].
    by destruct (code_of_status s).
  - cbn [app wait_for_exit]. destruct b as [s|e]; cbn in Hb; [|by rewrite Hb].
    by rewrite bool_decide_eq_true in Hb; rewrite Hb.
Qed.
Lemma poll_proc_first n looks : poll_proc (replicate n true ++ false :: looks) = Some (as_i32 (-1)).
Proof. by induction n. Qed.

(** ** The process of a session

    [reap_exec] waits for the process on a thread of its own and then sets a
    flag and sends the code; [KillOnDrop] reads the flag and kills when the
    session is dropped.  The steps of the two, of the process and of the
    kernel, which may give the pid of a process that was waited for to another
    one. *)
Inductive PidOwner : Type :=
| Tenant
| Zombie (s : WaitStatus)
| Nobody (s : WaitStatus)
| Stranger (s : WaitStatus).
Inductive Reaper : Type :=
| Waiting
| Waited (code : i32)
| FlagStored (code : i32)
| CodeSent (code : i32).
Inductive KillOnDrop : Type :=
| Attached
| FlagLoaded (reaped : bool)
| Dropped (reaped : bool).
Record Guarded : Type := mk_Guarded {
  gd_pid : PidOwner;
  gd_reaper : Reaper;
  gd_reaped : bool;
  gd_guard : KillOnDrop;
  gd_killed : list PidOwner;
}.
Definition Guarded_start : Guarded := mk_Guarded Tenant Waiting false Attached [].

Inductive guarded_step : Guarded → Guarded → Prop :=
| process_ends r f g k s c : code_of_status s = Some c →
    guarded_step (mk_Guarded Tenant r f g k) (mk_Guarded (Zombie s) r f g k)
| reaper_waits f g k s c : wait_for_exit [Ok s] [] = Some c →
    guarded_step (mk_Guarded (Zombie s) Waiting f g k) (mk_Guarded (Nobody s) (Waited c) f g k)
| reaper_stores p f g k c :
    guarded_step (mk_Guarded p (Waited c) f g k) (mk_Guarded p (FlagStored c) true g k)
| reaper_sends p f g k c :
    guarded_step (mk_Guarded p (FlagStored c) f g k) (mk_Guarded p (CodeSent c) f g k)
| pid_recycled r f g k s :
    guarded_step (mk_Guarded (Nobody s) r f g k) (mk_Guarded (Stranger s) r f g k)
| guard_loads p r f k :
    guarded_step (mk_Guarded p r f Attached k) (mk_Guarded p r f (FlagLoaded f) k)
| guard_kills p r f k :
    guarded_step (mk_Guarded p r f (FlagLoaded false) k) (mk_Guarded p r f (Dropped false) (p :: k))
| guard_spares p r f k :
    guarded_step (mk_Guarded p r f (FlagLoaded true) k) (mk_Guarded p r f (Dropped true) k).
Definition guarded_reaches : Guarded → Prop := rtc guarded_step Guarded_start.

(** How the process ended, once it has. *)
Definition ended (p : PidOwner) : option WaitStatus :=
  match p with Tenant => None | Zombie s | Nobody s | Stranger s => Some s end.
(** The pid was given back to the kernel. *)
Definition pid_free (p : PidOwner) : bool :=
  match p with Nobody _ | Stranger _ => true | _ => false end.
Definition reaper_code (r : Reaper) : option i32 :=
  match r with Waiting => None | Waited c | FlagStored c | CodeSent c => Some c end.

(** The invariant: a code the reaper has is the code of the end of the process,
    the pid is free from then on; the flag is set only after that; and the
    guard sends one signal, or none if it saw the flag. *)
Record guarded_ok (x : Guarded) : Prop := {
  gk_code : match reaper_code (gd_reaper x) with
            | Some c => pid_free (gd_pid x) = true ∧
                        ∃ s, ended (gd_pid x) = Some s ∧ code_of_status s = Some c
            | None => pid_free (gd_pid x) = false
            end;
  gk_flag : gd_reaped x = true → pid_free (gd_pid x) = true;
  gk_guard : match gd_guard x with
             | Attached => gd_killed x = []
             | FlagLoaded b => gd_killed x = [] ∧ (b = true → gd_reaped x = true)
             | Dropped true => gd_killed x = [] ∧ gd_reaped x = true
             | Dropped false => ∃ p, gd_killed x = [p] ∧ (gd_pid x = Tenant → p = Tenant)
             end;
}.

Lemma guarded_start_ok : guarded_ok Guarded_start.
Proof. by split. Qed.
Lemma guarded_step_ok x y : guarded_step x y → guarded_ok x → guarded_ok y.
Proof.
  intros Hs [Hc Hf Hg]. destruct Hs as [r f g k s c Hcode|f g k s c Hwait|p f g k c|p f g k c|r f g k s
    |p r f k|p r f k|p r f k]; cbn in *.
  - split; cbn; [|by intros ?%Hf|].
    + by destruct (reaper_code r); [destruct Hc|].
    + destruct g as [|[]|[]]; [done..|]. destruct Hg as (p & -> & _). by exists p.
  - split; cbn; [|done|].
    + split; [done|]. exists s. split; [done|]. by destruct (code_of_status s).
    + destruct g as [|[]|[]]; [done..|]. destruct Hg as (p & -> & _). by exists p.
  - destruct Hc as [Hp Hc]. split; cbn; [done..|].
    destruct g as [|[]|[]]; [done|by destruct Hg|by destruct Hg|by destruct Hg|done].
  - by split.
  - split; cbn; [|done|].
    + by destruct (reaper_code r) as [c|]; [|by destruct Hc].
    + destruct g as [|[]|[]]; [done..|]. destruct Hg as (p & -> & _). by exists p.
  - split; cbn; [done..|]. done.
  - destruct Hg as [-> _]. split; cbn; [done..|]. by exists p.
  - destruct Hg as [-> Hr]. split; cbn; [done..|]. split; [done|]. by apply Hr.
Qed.
Lemma guarded_reaches_ok x : guarded_reaches x → guarded_ok x.
Proof.
  unfold guarded_reaches. intros H. assert (guarded_ok Guarded_start) as Hok by apply guarded_start_ok.
  revert Hok. induction H; eauto using guarded_step_ok.
Qed.



(** The flag is stored after the pid has been given back: between the two the
    guard kills whatever process got the pid. *)
Lemma guard_may_kill_stranger :
  guarded_reaches (mk_Guarded (Stranger (Exited (as_i32 0))) (Waited (as_i32 0)) false (Dropped false)
    [Stranger (Exited (as_i32 0))]).
Proof.
  unfold guarded_reaches.
  eapply rtc_l; [by apply (process_ends _ _ _ _ (Exited (as_i32 0)) (as_i32 0))|].
  eapply rtc_l; [by apply (reaper_waits _ _ _ _ (as_i32 0))|].
  eapply rtc_l; [apply pid_recycled|]. eapply rtc_l; [apply guard_loads|].
  apply rtc_once. apply guard_kills.
Qed.

(** ** Descriptors *)

Definition Fd : Type := Z.
Record Winsize : Type := mk_Winsize { ws_row : u16; ws_col : u16; ws_xpixel : u16; ws_ypixel : u16 }.
Inductive Ioctl : Type :=
| TIOCSPTLCK (unlock : Z)
| TIOCGPTPEER (flags : Z)
| TIOCSWINSZ (ws : Winsize)
| TIOCSCTTY (steal : Z).

Definition O_RDWR : Z := 2.
Definition O_NOCTTY : Z := 256.
Definition O_NONBLOCK : Z := 2048.
Definition O_CLOEXEC : Z := 524288.
Definition F_GETFL : Z := 3.
Definition F_SETFL : Z := 4.
Definition F_DUPFD_CLOEXEC : Z := 1030.

(** The system calls: what the C function returns below 0 is the error. *)
Class Posix (W : Type) : Type := {
  geteuid : W → u32;
  getegid : W → u32;
  isatty : Fd → W → bool;
  sys_open : string → Z → ST W Errno Fd;
  sys_close : Fd → W → W;
  sys_pipe2 : Z → ST W Errno (Fd * Fd);
  sys_dup : Fd → ST W Errno Fd;
  sys_fcntl : Fd → Z → Z → ST W Errno Z;
  sys_ioctl : Fd → Ioctl → ST W Errno Z;
  reactor_register : Fd → ST W Errno ();
}.
#[global] Hint Mode Posix ! : typeclass_instances.
(** The texts of [std::io::Error] and of nix's [Errno]. *)
Class ErrnoText : Type := { io_text : Errno → string; nix_text : Errno → string }.

Section descriptors.
Context {W : Type} `{Posix W, ErrnoText}.

Definition close {E} (fd : Fd) : ST W E () := λ w, (Ok (), sys_close fd w).
(** A local [OwnedFd]: closed where the rest fails with [?], moved on where it
    does not. *)
Definition owned {E A} (fd : Fd) (m : ST W E A) : ST W E A := λ w,
  match m w with
  | (Ok a, w') => (Ok a, w')
  | (Err e, w') => (Err e, sys_close fd w')
  end.
(** Descriptors given away: closed when their new owner is done with them. *)
Definition giving {E A} (fds : list Fd) (m : ST W E A) : ST W E A := λ w,
  let '(r, w') := m w in (r, foldr sys_close w' fds).

Definition set_nonblocking (fd : Fd) : ST W Errno () :=
  flags ← sys_fcntl fd F_GETFL 0;
  sys_fcntl fd F_SETFL (Z.lor flags O_NONBLOCK);;
  mret ().

Definition open_container_pty (init_pid : Z) : ST W string (Fd * Fd) :=
  let ptmx := "/proc/" +:+ pretty init_pid +:+ "/root/dev/ptmx" in
  master ← lift_err (λ e, "opening " +:+ ptmx +:+ ": " +:+ io_text e)
             (sys_open ptmx (Z.lor O_RDWR (Z.lor O_NOCTTY O_CLOEXEC)));
  owned master (
    lift_err (λ e, "TIOCSPTLCK: " +:+ io_text e) (sys_ioctl master (TIOCSPTLCK 0));;
    slave ← lift_err (λ e, "TIOCGPTPEER: " +:+ io_text e)
              (sys_ioctl master (TIOCGPTPEER (Z.lor O_RDWR (Z.lor O_NOCTTY O_CLOEXEC))));
    mret (master, slave)).

Definition dup_slave (slave : Fd) : ST W string Fd :=
  lift_err (λ e, "dup pty slave: " +:+ io_text e) (sys_fcntl slave F_DUPFD_CLOEXEC 3).
(** [(dup_slave()?, dup_slave()?, dup_slave()?)]. *)
Definition dup_stdio (slave : Fd) : ST W string (Fd * Fd * Fd) :=
  stdin ← dup_slave slave;
  owned stdin (
    stdout ← dup_slave slave;
    owned stdout (
      stderr ← dup_slave slave;
      mret (stdin, stdout, stderr))).

Definition PtyMaster_new (fd : Fd) : ST W Errno () :=
  owned fd (set_nonblocking fd;; reactor_register fd).

Definition u16_zero : u16 := @Bnd 0 65536 0 eq_refl.
Definition set_winsize (fd : Fd) (rows cols : u16) : ST W string () :=
  lift_err (λ e, "TIOCSWINSZ: " +:+ io_text e)
    (sys_ioctl fd (TIOCSWINSZ (mk_Winsize rows cols u16_zero u16_zero)));;
  mret ().

(** [CttyExecutor::exec], around the executor of libcontainer. *)
Definition ctty_exec {A} (inner : ST W string A) : ST W string A :=
  tty ← ask (isatty 0);
  (if tty : bool then ignore (sys_ioctl 0 (TIOCSCTTY 0)) else mret ());;
  inner.

Definition pipe : ST W string (Fd * Fd) := lift_err nix_text (sys_pipe2 O_CLOEXEC).
Definition owned_pipe {A} (p : Fd * Fd) (m : ST W string A) : ST W string A :=
  owned p.1 (owned p.2 m).
Definition three_pipes : ST W string ((Fd * Fd) * (Fd * Fd) * (Fd * Fd)) :=
  a ← pipe;
  owned_pipe a (
    b ← pipe;
    owned_pipe b (
      c ← pipe;
      mret (a, b, c))).

(** ** Exec

    [start] hands the tenant to libcontainer, with its three standard streams
    and whether a terminal is made its controlling one. *)
Context (start : bool → Fd * Fd * Fd → ST W string Z).
Definition start_tenant (tty : bool) (stdio : Fd * Fd * Fd) : ST W string Z :=
  giving [stdio.1.1; stdio.1.2; stdio.2] (start tty stdio).

(** The process with the ends that stay with the engine: where its input is
    written, and where its output is read. *)
Record Exec : Type := mk_Exec { ex_pid : Z; ex_input : Fd; ex_output : list Fd }.

Definition exec_pipes : ST W string Exec :=
  pipes ← three_pipes;
  let '((in_r, in_w), (out_r, out_w), (err_r, err_w)) := pipes in
  pid ← owned in_w (owned out_r (owned err_r (start_tenant false (in_r, out_w, err_w))));
  owned in_w (
    lift_err io_text (set_nonblocking in_w);;
    lift_err io_text (reactor_register in_w));;
  mret (mk_Exec pid in_w [out_r; err_r]).

(** The first of the output ends of a terminal is the master, the second the
    handle for resizing. *)
Definition exec_tty (init_pid : Z) : ST W string Exec :=
  pty ← open_container_pty init_pid;
  let '(master, slave) := pty in
  stdio ← owned master (owned slave (dup_stdio slave));
  close slave;;
  pid ← owned master (start_tenant true stdio);
  resize_fd ← owned master (lift_err nix_text (sys_dup master));
  owned resize_fd (lift_err io_text (PtyMaster_new master));;
  mret (mk_Exec pid master [master; resize_fd]).
End descriptors.

(** ** Reading and writing

    A poll of a descriptor registered with the reactor: not ready yet, the
    reactor failed, or the system call was made. *)
Inductive Readiness (A : Type) : Type :=
| NotReady
| ReactorError (e : Errno)
| Io (r : result Errno A).
Arguments NotReady {A}.
Arguments ReactorError {A} e.
Arguments Io {A} r.
Inductive Poll (A : Type) : Type :=
| Pending
| Ready (r : result Errno A).
Arguments Pending {A}.
Arguments Ready {A} r.

(** The loop of [poll_read] and [poll_write]: a call that would block is made
    again when the descriptor is ready; [eio] is what [EIO] counts as. *)
Fixpoint poll_io {A} (eio : option A) (events : list (Readiness A)) : Poll A * list (Readiness A) :=
  match events with
  | [] => (Pending, [])
  | NotReady :: events => (Pending, events)
  | ReactorError e :: events => (Ready (Err e), events)
  | Io (Ok a) :: events => (Ready (Ok a), events)
  | Io (Err e) :: events =>
      if e =? EAGAIN then poll_io eio events
      else if e =? EIO then
        (Ready (match eio with Some a => Ok a | None => Err e end), events)
      else (Ready (Err e), events)
  end.
(** A terminal whose processes are gone is at its end. *)
Definition poll_read : list (Readiness (list ascii)) → Poll (list ascii) * list (Readiness (list ascii)) :=
  poll_io (Some []).
Definition poll_write : list (Readiness Z) → Poll Z * list (Readiness Z) := poll_io None.

(** [ReaderStream] over the terminal: it ends with the first read of nothing
    and after an error.  Every poll uses up an event. *)
Fixpoint pty_output `{ErrnoText} (fuel : nat) (events : list (Readiness (list ascii)))
    : list (result string (list ascii)) :=
  match fuel with
  | O => []
  | S n =>
      match poll_read events with
      | (Pending, []) => []
      | (Pending, events) => pty_output n events
      | (Ready (Ok []), _) => []
      | (Ready (Ok chunk), events) => Ok chunk :: pty_output n events
      | (Ready (Err e), _) => [Err ("pty read: " +:+ io_text e)]
      end
  end.

(** The reader task of a pipe of [exec_pipes]. *)
Fixpoint pipe_output `{ErrnoText} (reads : list (result Errno (list ascii)))
    : list (result string (list ascii)) :=
  match reads with
  | [] | Ok [] :: _ => []
  | Ok chunk :: reads => Ok chunk :: pipe_output reads
  | Err e :: _ => [Err ("exec read: " +:+ io_text e)]
  end.
Definition reader_task `{ErrnoText} (set_up : result Errno ()) (reads : list (result Errno (list ascii)))
    : list (result string (list ascii)) :=
  match set_up with
  | Ok _ => pipe_output reads
  | Err e => [Err ("exec pipe: " +:+ io_text e)]
  end.

(** Two sequences as they arrive through one channel. *)
Inductive merges {A} : list A → list A → list A → Prop :=
| merges_nil : merges [] [] []
| merges_left x l k m : merges l k m → merges (x :: l) k (x :: m)
| merges_right x l k m : merges l k m → merges l (x :: k) (x :: m).

(** What the system calls of a session gave: of each pipe, whether its reader
    could be set up, and its reads. *)
Inductive ExecReads : Type :=
| PipeReads (out_ready err_ready : result Errno ()) (out err : list (result Errno (list ascii)))
| PtyReads (events : list (Readiness (list ascii))).
(** What the stream of the session yields. *)
Inductive session_output `{ErrnoText} : ExecReads → list (result string (list ascii)) → Prop :=
| pipes_session out_ready err_ready out err m :
    merges (reader_task out_ready out) (reader_task err_ready err) m →
    session_output (PipeReads out_ready err_ready out err) m
| pty_session events :
    session_output (PtyReads events) (pty_output (length events) events).

(** *** A clean session: what the process wrote, and then the end *)

Definition nonempty (chunk : list ascii) : Prop := chunk ≠ [].
Inductive clean_pipe : list (result Errno (list ascii)) → list (list ascii) → Prop :=
| clean_end after : clean_pipe (Ok [] :: after) []
| clean_chunk chunk reads chunks :
    nonempty chunk → clean_pipe reads chunks → clean_pipe (Ok chunk :: reads) (chunk :: chunks).
Inductive clean_pty : list (Readiness (list ascii)) → list (list ascii) → Prop :=
| clean_gone after : clean_pty (Io (Err EIO) :: after) []
| clean_not_ready events chunks : clean_pty events chunks → clean_pty (NotReady :: events) chunks
| clean_again events chunks : clean_pty events chunks → clean_pty (Io (Err EAGAIN) :: events) chunks
| clean_io chunk events chunks :
    nonempty chunk → clean_pty events chunks → clean_pty (Io (Ok chunk) :: events) (chunk :: chunks).

Section output.
Context `{ErrnoText}.

Lemma clean_pipe_output reads chunks : clean_pipe reads chunks → pipe_output reads = Ok <$> chunks.
Proof.
  induction 1 as [after|[|c chunk] reads chunks Hc _ IH]; [done|by destruct Hc|]. cbn. by rewrite IH.
Qed.

(** Waiting and calls that would block are not seen in the stream. *)
Lemma pty_output_skip n e events :
  e = NotReady ∨ e = Io (Err EAGAIN) →
  pty_output (S n) (e :: events) = pty_output (S n) events ∨
  pty_output (S n) (e :: events) = pty_output n events.
Proof.
  intros [->| ->]; cbn; [|by left]. destruct events; [left|by right]. done.
Qed.
Lemma clean_pty_output events chunks :
  clean_pty events chunks → ∀ n, (length events ≤ n)%nat → pty_output n events = Ok <$> chunks.
Proof.
  induction 1 as [after|events chunks Hc IH|events chunks Hc IH|[|c chunk] events chunks Hne Hc IH];
    intros n Hn; cbn [length] in Hn; try (by destruct Hne); (destruct n as [|n]; [lia|]).
  - done.
  - destruct (pty_output_skip n NotReady events (or_introl eq_refl)) as [->| ->]; apply IH; lia.
  - destruct (pty_output_skip n (Io (Err EAGAIN)) events (or_intror eq_refl)) as [->| ->]; apply IH; lia.
  - cbn. by rewrite IH by lia.
Qed.
Lemma merges_fmap_inv {A B} (f : A → B) l k m :
  merges (f <$> l) (f <$> k) m → ∃ m', m = f <$> m' ∧ merges l k m'.
Proof.
  remember (f <$> l) as fl eqn:El. remember (f <$> k) as fk eqn:Ek. intros Hm. revert l k El Ek.
  induction Hm as [|x l0 k0 m Hm IH|x l0 k0 m Hm IH]; intros l k El Ek.
  - destruct l, k; try done. exists []. split; [done|constructor].
  - destruct l as [|a l]; [done|]. injection El as -> ->.
    destruct (IH l k eq_refl Ek) as (m' & -> & Hm'). exists (a :: m'). split; [done|]. by constructor.
  - destruct k as [|a k]; [done|]. injection Ek as -> ->.
    destruct (IH l k El eq_refl) as (m' & -> & Hm'). exists (a :: m'). split; [done|]. by constructor.
Qed.

(** What the process wrote in a clean session. *)
Inductive clean_session : ExecReads → list (list ascii) → Prop :=
| clean_pipes out err outs errs chunks :
    clean_pipe out outs → clean_pipe err errs → merges outs errs chunks →
    clean_session (PipeReads (Ok ()) (Ok ()) out err) chunks
| clean_terminal events chunks : clean_pty events chunks → clean_session (PtyReads events) chunks.
Definition is_clean (r : ExecReads) : Prop :=
  match r with
  | PipeReads out_ready err_ready out err =>
      out_ready = Ok () ∧ err_ready = Ok () ∧ (∃ outs, clean_pipe out outs) ∧ (∃ errs, clean_pipe err errs)
  | PtyReads events => ∃ chunks, clean_pty events chunks
  end.
Lemma clean_session_output r m :
  is_clean r → session_output r m → ∃ chunks, m = Ok <$> chunks ∧ clean_session r chunks.
Proof.
  intros Hc Ho. destruct Ho as [ready1 ready2 out err m Hm|events].
  - destruct Hc as (-> & -> & [outs Ho] & [errs He]). cbn in Hm.
    rewrite (clean_pipe_output _ _ Ho), (clean_pipe_output _ _ He) in Hm.
    apply merges_fmap_inv in Hm as (chunks & -> & Hm). exists chunks. split; [done|].
    by econstructor.
  - destruct Hc as [chunks Hc]. exists chunks. split; [by apply clean_pty_output|by constructor].
Qed.
Lemma clean_session_nonempty r chunks : clean_session r chunks → Forall nonempty chunks.
Proof.
  assert (∀ reads chunks, clean_pipe reads chunks → Forall nonempty chunks) as Hp by (induction 1; by constructor).
  intros [out err outs errs cs Ho%Hp He%Hp Hm|events cs Hc].
  - induction Hm; [done|inversion Ho; constructor; auto|inversion He; constructor; auto].
  - induction Hc; try done. by constructor.
Qed.
End output.

(** ** What POSIX promises of descriptors *)

Section promises.
Context {W : Type} (fds : W → gset Fd).
Definition opens {E} (m : ST W E Fd) : Prop := ∀ w,
  match m w with
  | (Ok fd, w') => (fd ∉ fds w) ∧ fds w' = {[fd]} ∪ fds w
  | (Err _, w') => fds w' = fds w
  end.
Definition keeps_fds {E A} (m : ST W E A) : Prop := ∀ w, fds (m w).2 = fds w.
End promises.

Class PosixOk (W : Type) `{Posix W} : Type := {
  open_fds : W → gset Fd;
  open_opens path flags : opens open_fds (sys_open path flags);
  dup_opens fd : opens open_fds (sys_dup fd);
  fcntl_dup_opens fd arg : opens open_fds (sys_fcntl fd F_DUPFD_CLOEXEC arg);
  peer_opens fd flags : opens open_fds (sys_ioctl fd (TIOCGPTPEER flags));
  pipe_opens flags w :
    match sys_pipe2 flags w with
    | (Ok (r, s), w') => (r ∉ open_fds w) ∧ (s ∉ open_fds w) ∧ r ≠ s ∧ open_fds w' = {[r; s]} ∪ open_fds w
    | (Err _, w') => open_fds w' = open_fds w
    end;
  close_closes fd w : open_fds (sys_close fd w) = open_fds w ∖ {[fd]};
  fcntl_keeps fd cmd arg : cmd ≠ F_DUPFD_CLOEXEC → keeps_fds open_fds (sys_fcntl fd cmd arg);
  ioctl_keeps fd r : (∀ flags, r ≠ TIOCGPTPEER flags) → keeps_fds open_fds (sys_ioctl fd r);
  register_keeps fd : keeps_fds open_fds (reactor_register fd);
}.

(** ** No exec leaks a descriptor *)

Section leaks.
Context {W : Type} `{HP : Posix W, !ErrnoText, !PosixOk W}.
Context (start : bool → Fd * Fd * Fd → ST W string Z).
Context (start_keeps : ∀ tty stdio, keeps_fds open_fds (start tty stdio)).

(** On top of the descriptors [S], exactly those of the list are open, each
    once. *)
Context (S : gset Fd).
Record holding (l : list Fd) (w : W) : Prop := {
  ho_fresh : NoDup l ∧ Forall (λ fd, fd ∉ S) l;
  ho_open : open_fds w = list_to_set l ∪ S;
}.

Lemma holding_perm l l' w : l ≡ₚ l' → holding l w → holding l' w.
Proof.
  intros Hp [[Hn Hf] Ho]. split; [by rewrite <- Hp|]. rewrite Ho. f_equal. by apply list_to_set_perm_L.
Qed.
Lemma holding_opened l fd (w w' : W) :
  holding l w → (fd ∉ open_fds w) ∧ open_fds w' = {[fd]} ∪ open_fds w → holding (fd :: l) w'.
Proof.
  intros [[Hn Hf] Ho] [Hfd Ho']. rewrite Ho, elem_of_union, elem_of_list_to_set in Hfd. split.
  - split; constructor; tauto.
  - rewrite Ho', Ho. cbn. by rewrite union_assoc_L.
Qed.
Lemma holding_closed l fd (w : W) : holding (fd :: l) w → holding l (sys_close fd w).
Proof.
  intros [[[Hfd Hn]%NoDup_cons [HS Hf]%Forall_cons] Ho]. split; [done|].
  rewrite close_closes, Ho. apply set_eq. intros x. cbn.
  rewrite elem_of_difference, !elem_of_union, !elem_of_singleton, elem_of_list_to_set.
  destruct (decide (x = fd)) as [->|]; tauto.
Qed.
Lemma holding_given fds l (w : W) : holding (fds ++ l) w → holding l (foldr sys_close w fds).
Proof.
  revert l. induction fds as [|fd fds IH]; intros l Hh; [done|]. cbn. apply holding_closed, IH.
  eapply holding_perm; [|done]. cbn. by rewrite Permutation_middle.
Qed.
Lemma holding_same l (w w' : W) : open_fds w' = open_fds w → holding l w → holding l w'.
Proof. intros E [Hf Ho]. split; [done|]. by rewrite E. Qed.

Lemma opens_triple {E} l (m : ST W E Fd) :
  opens open_fds m → triple (holding l) m (λ fd, holding (fd :: l)) (holding l).
Proof.
  intros Hm w Hw. specialize (Hm w). destruct (m w) as [[fd|e] w'];
    [by eapply holding_opened|by eapply holding_same].
Qed.
Lemma keeps_triple {E A} l (m : ST W E A) :
  keeps_fds open_fds m → triple (holding l) m (λ _, holding l) (holding l).
Proof.
  intros Hm w Hw. specialize (Hm w). destruct (m w) as [[a|e] w']; by eapply holding_same.
Qed.
Lemma triple_lift_err {E F A} (f : E → F) (P R : W → Prop) (m : ST W E A) Q :
  triple P m Q R → triple P (lift_err f m) Q R.
Proof. intros Hm w Hw. specialize (Hm w Hw). unfold lift_err. by destruct (m w) as [[a|e] w']. Qed.
Lemma owned_triple {E A} l l' fd P (m : ST W E A) Q :
  triple P m Q (holding l) → l ≡ₚ fd :: l' → triple P (owned fd m) Q (holding l').
Proof.
  intros Hm Hp w Hw. specialize (Hm w Hw). unfold owned. destruct (m w) as [[a|e] w']; [done|].
  by apply holding_closed, (holding_perm l).
Qed.
Lemma giving_triple {E A} l l' fds (m : ST W E A) :
  l ≡ₚ fds ++ l' → keeps_fds open_fds m →
  triple (holding l) (giving fds m) (λ _, holding l') (holding l').
Proof.
  intros Hp Hm w Hw. specialize (Hm w). unfold giving. destruct (m w) as [[a|e] w']; cbn in *;
    apply holding_given, (holding_perm l); [done|by eapply holding_same..|done|by eapply holding_same].
Qed.
Lemma close_triple {E} l l' fd R :
  l ≡ₚ fd :: l' → triple (E:=E) (holding l) (close fd) (λ _, holding l') R.
Proof. intros Hp w Hw. by apply holding_closed, (holding_perm l). Qed.
Lemma triple_perm {E A} l l' (m : ST W E A) Q R :
  l ≡ₚ l' → triple (holding l') m Q R → triple (holding l) m Q R.
Proof. intros Hp Hm w Hw. by apply Hm, (holding_perm l). Qed.

Lemma pipe_triple l :
  triple (holding l) pipe (λ p, holding (p.1 :: p.2 :: l)) (holding l).
Proof.
  unfold pipe. apply triple_lift_err. intros w Hw. pose proof (pipe_opens O_CLOEXEC w) as Hp.
  destruct (sys_pipe2 O_CLOEXEC w) as [[[r s]|e] w']; [|by eapply holding_same].
  destruct Hp as (Hr & Hs & Hne & Ho). destruct Hw as [[Hn Hf] Hw]. cbn.
  rewrite Hw, elem_of_union, elem_of_list_to_set in Hr, Hs. split.
  - split; repeat constructor; rewrite ?not_elem_of_cons; tauto.
  - rewrite Ho, Hw. cbn. by rewrite !union_assoc_L.
Qed.
Lemma set_nonblocking_keeps fd : keeps_fds open_fds (set_nonblocking fd).
Proof.
  intros w. unfold set_nonblocking, mbind, st_bind.
  pose proof (fcntl_keeps fd F_GETFL 0 ltac:(done) w) as H1.
  destruct (sys_fcntl fd F_GETFL 0 w) as [[flags|e] w1]; [|done]. cbn in H1.
  pose proof (fcntl_keeps fd F_SETFL (Z.lor flags O_NONBLOCK) ltac:(done) w1) as H2.
  destruct (sys_fcntl fd F_SETFL _ w1) as [[?|e] w2]; cbn in *; congruence.
Qed.

(** An owner: what fails inside holds its descriptor as well. *)
Ltac own := repeat (eapply owned_triple; [|reflexivity]).
(** The descriptors in the order in which they are held where it fails. *)
Ltac perm :=
  lazymatch goal with |- triple _ _ _ (holding ?l) => apply (triple_perm _ l); [solve_Permutation|] end.
Ltac next := eapply triple_bind; [|intros ?].

Lemma three_pipes_triple l :
  triple (holding l) three_pipes
    (λ p, holding (p.2.1 :: p.2.2 :: p.1.2.1 :: p.1.2.2 :: p.1.1.1 :: p.1.1.2 :: l)) (holding l).
Proof.
  unfold three_pipes, owned_pipe. next; [apply pipe_triple|]. own. perm.
  next; [apply pipe_triple|]. own. perm.
  next; [apply pipe_triple|]. apply triple_ret. intros w. apply holding_perm. solve_Permutation.
Qed.
Lemma open_pty_triple l pid :
  triple (holding l) (open_container_pty pid) (λ p, holding (p.2 :: p.1 :: l)) (holding l).
Proof.
  unfold open_container_pty. next; [apply triple_lift_err, opens_triple, open_opens|]. own.
  next; [apply triple_lift_err, keeps_triple, ioctl_keeps; by intros ?|].
  next; [apply triple_lift_err, opens_triple, peer_opens|]. by apply triple_ret.
Qed.
Lemma dup_stdio_triple l slave :
  triple (holding l) (dup_stdio slave) (λ p, holding (p.2 :: p.1.2 :: p.1.1 :: l)) (holding l).
Proof.
  unfold dup_stdio, dup_slave. do 2 (next; [apply triple_lift_err, opens_triple, fcntl_dup_opens|]; own).
  next; [apply triple_lift_err, opens_triple, fcntl_dup_opens|]. by apply triple_ret.
Qed.
Lemma start_tenant_triple l l' tty stdio :
  l ≡ₚ stdio.1.1 :: stdio.1.2 :: stdio.2 :: l' →
  triple (holding l) (start_tenant start tty stdio) (λ _, holding l') (holding l').
Proof. intros Hl. by apply giving_triple. Qed.
Lemma nonblocking_registered {E} l (f g : Errno → E) fd :
  triple (holding l) (lift_err f (set_nonblocking fd);; lift_err g (reactor_register fd))
    (λ _, holding l) (holding l).
Proof.
  next; [apply triple_lift_err, keeps_triple, set_nonblocking_keeps|].
  apply triple_lift_err, keeps_triple, register_keeps.
Qed.

Lemma exec_tty_triple pid :
  triple (holding []) (exec_tty start pid) (λ x, holding (ex_output x)) (holding []).
Proof.
  unfold exec_tty. next; [apply open_pty_triple|]. destruct a as [master slave]. cbn [fst snd].
  next; [own; apply dup_stdio_triple|].
  destruct a as [[stdin stdout] stderr]. cbn [fst snd].
  next; [apply (close_triple _ [stderr; stdout; stdin; master]); solve_Permutation|].
  next; [own; apply start_tenant_triple; cbn; solve_Permutation|].
  next; [own; apply triple_lift_err, opens_triple, dup_opens|].
  eapply triple_bind with (Q := λ _, holding [master; _]); [|intros ?; by apply triple_ret].
  own. apply triple_lift_err. unfold PtyMaster_new. own.
  apply (triple_perm _ [master; a1]); [solve_Permutation|].
  next; [apply keeps_triple, set_nonblocking_keeps|apply keeps_triple, register_keeps].
Qed.

Lemma exec_pipes_triple :
  triple (holding []) (exec_pipes start) (λ x, holding (ex_input x :: ex_output x))
    (λ w, ∃ readers, (readers = [] ∨ length readers = 2%nat) ∧ holding readers w).
Proof.
  unfold exec_pipes. next.
  { eapply triple_conseq; [apply three_pipes_triple|done| |]; [intros p w; exact (λ h, h)|].
    intros w Hw. exists []. auto. }
  destruct a as [[[in_r in_w] [out_r out_w]] [err_r err_w]]. cbn [fst snd]. next.
  { eapply triple_conseq with (R := holding []); [|done| |].
    - own. apply start_tenant_triple. cbn. solve_Permutation.
    - intros p w. exact (λ h, h).
    - intros w Hw. exists []. auto. }
  next.
  { eapply triple_conseq with (R := holding [out_r; err_r]); [|done| |].
    - own. perm. apply nonblocking_registered.
    - intros p w. exact (λ h, h).
    - intros w Hw. exists [out_r; err_r]. auto. }
  apply triple_ret. intros w. apply holding_perm. solve_Permutation.
Qed.
End leaks.


(** ** A table of descriptors

    The calls are numbered, those of [ft_faults] fail; [ft_started] is the
    tenants that run. *)
Record FdTable : Type := mk_FdTable {
  ft_open : gset Fd;
  ft_calls : nat;
  ft_faults : list nat;
  ft_started : list Z;
}.
Definition ft_with (f : gset Fd → gset Fd) (t : FdTable) : FdTable :=
  mk_FdTable (f (ft_open t)) (ft_calls t) (ft_faults t) (ft_started t).
(** [EMFILE] where the call is to fail. *)
Definition ft_call {A} (m : FdTable → A * FdTable) : ST FdTable Errno A := λ t,
  let t' := mk_FdTable (ft_open t) (S (ft_calls t)) (ft_faults t) (ft_started t) in
  if bool_decide (ft_calls t ∈ ft_faults t) then (Err 24, t') else let '(a, t') := m t' in (Ok a, t').
Definition ft_new (t : FdTable) : Fd * FdTable :=
  let fd := fresh (ft_open t) in (fd, ft_with ({[fd]} ∪.) t).
#[export] Instance ref_posix : Posix FdTable := {|
  geteuid _ := @Bnd 0 4294967296 0 eq_refl;
  getegid _ := @Bnd 0 4294967296 0 eq_refl;
  isatty _ _ := true;
  sys_open _ _ := ft_call ft_new;
  sys_close fd := ft_with (.∖ {[fd]});
  sys_pipe2 _ := ft_call (λ t,
    let r := fresh (ft_open t) in let s := fresh ({[r]} ∪ ft_open t) in
    ((r, s), ft_with ({[r; s]} ∪.) t));
  sys_dup _ := ft_call ft_new;
  sys_fcntl _ cmd _ := ft_call (λ t, if cmd =? F_DUPFD_CLOEXEC then ft_new t else (0, t));
  sys_ioctl _ r := ft_call (λ t, match r with TIOCGPTPEER _ => ft_new t | _ => (0, t) end);
  reactor_register _ := ft_call (λ t, ((), t)) |}.
#[export] Instance ref_errno_text : ErrnoText := {|
  io_text e := "os error " +:+ pretty e; nix_text e := "errno " +:+ pretty e |}.

Lemma ft_opens (m : FdTable → Fd * FdTable) : (∀ t, m t = ft_new t) → opens ft_open (ft_call m).
Proof.
  intros Hm t. unfold ft_call. case_bool_decide; [done|]. rewrite Hm. cbn.
  split; [apply is_fresh|done].
Qed.
Lemma ft_keeps {A} (m : FdTable → A * FdTable) :
  (∀ t, ft_open (m t).2 = ft_open t) → keeps_fds ft_open (ft_call m).
Proof.
  intros Hm t. unfold ft_call. case_bool_decide; [done|].
  specialize (Hm (mk_FdTable (ft_open t) (S (ft_calls t)) (ft_faults t) (ft_started t))).
  by destruct (m _).
Qed.
#[export] Instance ref_posix_ok : PosixOk FdTable.
Proof.
  refine {| open_fds := ft_open |}.
  - intros. by apply ft_opens.
  - intros. by apply ft_opens.
  - intros. by apply ft_opens.
  - intros. by apply ft_opens.
  - intros flags t. cbn. unfold ft_call. case_bool_decide; [done|]. cbn.
    assert (fresh ({[fresh (ft_open t)]} ∪ ft_open t) ∉ {[fresh (ft_open t)]} ∪ ft_open t) as Hf
      by apply is_fresh. rewrite elem_of_union, elem_of_singleton in Hf.
    split; [apply is_fresh|]. split; [tauto|]. split; [|done]. intros E. apply Hf. left. by symmetry.
  - done.
  - intros fd cmd arg Hne. apply ft_keeps. intros t. by destruct (Z.eqb_spec cmd F_DUPFD_CLOEXEC).
  - intros fd r Hne. apply ft_keeps. intros t. destruct r; try done. by destruct (Hne flags).
  - intros. by apply ft_keeps.
Defined.
(** A tenant with the pid 4242. *)
Definition ref_start (_ : bool) (_ : Fd * Fd * Fd) : ST FdTable string Z := λ t,
  (Ok 4242, mk_FdTable (ft_open t) (ft_calls t) (ft_faults t) (4242 :: ft_started t)).

(** The terminal cannot be made non-blocking: the descriptors are closed, and
    the tenant that was started before runs on without a session. *)
Definition tty_trouble : FdTable := mk_FdTable {[0; 1; 2]} 0 [7%nat] [].
Example tty_trouble_runs :
  exec_tty ref_start 99 tty_trouble = (Err "os error 24", mk_FdTable {[0; 1; 2]} 8 [7%nat] [4242]).
Proof. vm_compute. reflexivity. Qed.

