(* ===== verification/Image.v ===== *)
(** * Images ([src/src/node/oci/image.rs])

    Pulling an image into a directory and finding the WebAssembly module of
    one.  The registry client, the tar reader and gzip are the class
    [Registry]. *)
From S2P Require Import Prelude RustStd Text Json External Wire Runtime Files.

Record Layer : Type := mk_Layer { layer_media_type : string; layer_data : list ascii }.
Record ImageData : Type := mk_ImageData { img_layers : list Layer; img_config_data : list ascii }.

(** An entry of a tar archive: its path, if it has one, and its place in the
    archive. *)
Record TarEntry : Type := mk_TarEntry { te_path : result string string; te_index : nat }.

(** [oci_distribution], [tar], [flate2] and [serde_json::to_vec_pretty]: what
    depends on its arguments only, and what acts on the world. *)
Class OciCrates : Type := {
  Reference : Type;
  reference_parse : string → result string Reference;
  reference_whole : Reference → string;
  reference_display : Reference → string;
  IMAGE_LAYER_MEDIA_TYPE : string;
  IMAGE_LAYER_GZIP_MEDIA_TYPE : string;
  IMAGE_DOCKER_LAYER_GZIP_MEDIA_TYPE : string;
  tar_entries : bool → list ascii → list (result string TarEntry);
  json_pretty : Value → list ascii;
}.
Class Registry (W : Type) `{OciCrates} : Type := {
  registry_pull : Reference → list string → ST W string ImageData;
  tar_unpack_in : bool → list ascii → TarEntry → string → ST W string ();
}.
#[global] Hint Mode Registry ! - : typeclass_instances.

(** ** The image configuration *)

Record ImageConfig : Type := mk_ImageConfig {
  ic_entrypoint : list string;
  ic_cmd : list string;
  ic_env : list string;
  ic_working_dir : option string;
  ic_user : option string;
}.
Definition ImageConfig_default : ImageConfig := mk_ImageConfig [] [] [] None None.

#[export] Instance json_ImageConfig : Json ImageConfig := {|
  to_value c := struct [
    ser "entrypoint" (ic_entrypoint c); ser "cmd" (ic_cmd c); ser "env" (ic_env c);
    ser "working_dir" (ic_working_dir c); ser "user" (ic_user c)];
  from_value v :=
    ms ← destruct_members v;
    entrypoint ← de_default [] "entrypoint" ms;
    cmd ← de_default [] "cmd" ms;
    env ← de_default [] "env" ms;
    working_dir ← de_default None "working_dir" ms;
    user ← de_default None "user" ms;
    Some (mk_ImageConfig entrypoint cmd env working_dir user) |}.

(** [Value::get], [as_str], [as_array]. *)
Definition value_get (k : string) (v : Value) : option Value :=
  match v with JObj ms => last (members_named k ms) | _ => None end.
Definition as_str (v : Value) : option string := match v with JStr s => Some s | _ => None end.

Definition string_array (v : option Value) : list string :=
  match v with Some (JArr l) => omap as_str l | _ => [] end.
Definition nonempty_str (v : option Value) : option string :=
  match v ≫= as_str with Some s => if str_eqb s "" then None else Some s | None => None end.

Definition parse_config `{Extern} (data : list ascii) : option ImageConfig :=
  v ← json_parse (of_bytes data);
  cfg ← value_get "config" v;
  Some {| ic_entrypoint := string_array (value_get "Entrypoint" cfg);
          ic_cmd := string_array (value_get "Cmd" cfg);
          ic_env := string_array (value_get "Env" cfg);
          ic_working_dir := nonempty_str (value_get "WorkingDir" cfg);
          ic_user := nonempty_str (value_get "User" cfg) |}.

(** The directory of a reference: each character that is not plain becomes one
    underscore. *)
Definition plain_char (c : ascii) : bool :=
  between 97 122 c || between 65 90 c || between 48 57 c ||
  existsb (Ascii.eqb c) ["-"; "_"; "."]%char.
Definition sanitize (s : string) : string :=
  of_bytes (omap (λ c, if is_cont c then None else Some (if plain_char c then c else "_"%char))
                 (bytes s)).

Section image.
Context {W : Type} `{Extern, !OciCrates, Files W, !Registry W}.

Definition with_context {A} (context : string) (m : ST W string A) : ST W Failure A :=
  lift_err (λ _, Failed context) m.
Abbreviation io m := (lift_err Failed m).

Definition is_gzip_media_type (t : string) : bool :=
  str_eqb t IMAGE_LAYER_GZIP_MEDIA_TYPE || str_eqb t IMAGE_DOCKER_LAYER_GZIP_MEDIA_TYPE.

(** ** Layers *)

(** What an entry of a layer asks for. *)
Inductive Extraction : Type :=
| ClearDirectory (dir : string)
| Whiteout (victim : string)
| SkipEntry
| Unpack.

Definition extraction (target path : string) : Extraction :=
  let name := default "" (file_name path ≫= to_str) in
  if str_eqb name ".wh..wh..opq" then
    match parent path with
    | Some dir => ClearDirectory (path_join target dir)
    | None => SkipEntry
    end
  else match strip_prefix ".wh." name with
       | Some deleted => Whiteout (path_join (path_join target (default "" (parent path))) deleted)
       | None =>
           if is_absolute path || existsb (λ c, bool_decide (c = ParentDir)) (components path)
           then SkipEntry else Unpack
       end.

Definition remove_any (path : string) : ST W string () :=
  dir ← ask (λ w, fs_is_dir w path);
  if dir : bool then fs_remove_dir_all path else fs_remove_file path.

Definition clear_directory (dir : string) : ST W string () :=
  is_dir ← ask (λ w, fs_is_dir w dir);
  if is_dir : bool then
    entries ← (λ w, (fs_read_dir w dir, w));
    for_each entries (λ e, name ← of_result e; remove_any (path_join dir name))
  else mret ().

Definition remove_victim (victim : string) : ST W Failure () :=
  dir ← ask (λ w, fs_is_dir w victim);
  there ← ask (λ w, fs_exists w victim || fs_is_symlink w victim);
  if dir : bool then ignore (fs_remove_dir_all victim)
  else if there : bool then ignore (fs_remove_file victim) else mret ().

Definition extract_entry (gzip : bool) (data : list ascii) (target : string)
    (e : result string TarEntry) : ST W Failure () :=
  entry ← io (of_result e);
  path ← io (of_result (te_path entry));
  match extraction target path with
  | ClearDirectory dir => ignore (clear_directory dir)
  | Whiteout victim => remove_victim victim
  | SkipEntry => mret ()
  | Unpack => io (tar_unpack_in gzip data entry target)
  end.

Definition extract_tar (gzip : bool) (data : list ascii) (target : string) : ST W Failure () :=
  for_each (tar_entries gzip data) (extract_entry gzip data target).

(** ** Pulling *)

Record PulledImage : Type := mk_PulledImage { pi_rootfs : string; pi_config : ImageConfig }.

Definition wipe (dir : string) : ST W Failure () :=
  there ← ask (λ w, fs_exists w dir);
  if there : bool then ignore (fs_remove_dir_all dir) else mret ().

Definition accepted_layers : list string :=
  [IMAGE_LAYER_MEDIA_TYPE; IMAGE_LAYER_GZIP_MEDIA_TYPE; IMAGE_DOCKER_LAYER_GZIP_MEDIA_TYPE].

Definition pull (reference dest_root : string) : ST W Failure PulledImage :=
  reference ← with_context ("invalid image reference: " +:+ reference)
                (of_result (reference_parse reference));
  let image_dir := path_join dest_root (sanitize (reference_whole reference)) in
  let rootfs := path_join image_dir "rootfs" in
  let config_path := path_join image_dir "config.json" in
  let sentinel := path_join image_dir ".pulled" in
  cached ← ask (λ w, fs_exists w sentinel && fs_exists w config_path && fs_exists w rootfs);
  if cached : bool then
    data ← io (fs_read config_path);
    match json_parse (of_bytes data) ≫= from_value with
    | Some config => mret (mk_PulledImage rootfs config)
    | None => bail "re-reading cached image config"
    end
  else
    wipe image_dir;;
    io (fs_create_dir_all rootfs);;
    image ← with_context ("pulling " +:+ reference_display reference)
              (registry_pull reference accepted_layers);
    for_each (img_layers image)
      (λ layer, extract_tar (is_gzip_media_type (layer_media_type layer)) (layer_data layer) rootfs);;
    let config := default ImageConfig_default (parse_config (img_config_data image)) in
    io (fs_write config_path (json_pretty (to_value config)));;
    io (fs_write sentinel []);;
    mret (mk_PulledImage rootfs config).

(** ** WebAssembly modules *)

Definition WASM_LAYER_MEDIA_TYPES : list string :=
  ["application/vnd.wasm.content.layer.v1+wasm";
   "application/vnd.module.wasm.content.layer.v1+wasm";
   "application/wasm"].
Definition is_wasm_layer (layer : Layer) : bool :=
  existsb (str_eqb (layer_media_type layer)) WASM_LAYER_MEDIA_TYPES.

(** The recursive [walk]: the [.wasm] files under a directory.  [None] is the
    end of the fuel. *)
Fixpoint visit (walk : string → option (result string (list string))) (w : W) (dir : string)
    (entries : list (result string string)) : option (result string (list string)) :=
  match entries with
  | [] => Some (Ok [])
  | Err e :: _ => Some (Err e)
  | Ok name :: entries =>
      let p := path_join dir name in
      found ← (if fs_is_dir w p then walk p
               else Some (Ok (if bool_decide (extension p = Some "wasm") then [p] else [])));
      match found with
      | Err e => Some (Err e)
      | Ok found => (λ more, more ≫= λ more, Ok (found ++ more)) <$> visit walk w dir entries
      end
  end.
Fixpoint walk (fuel : nat) (w : W) (dir : string) : option (result string (list string)) :=
  match fuel with
  | O => None
  | S n => match fs_read_dir w dir with
           | Err e => Some (Err e)
           | Ok entries => visit (walk n w) w dir entries
           end
  end.

Definition preferred_wasm : list string := ["main.wasm"; "app.wasm"; "module.wasm"; "index.wasm"].
Definition pick_wasm (found : list string) : option string :=
  match head (omap (λ name,
          (λ ip, ip.2) <$> list_find (λ p, bool_decide (file_name p = Some name) = true) found)
        preferred_wasm) with
  | Some p => Some p
  | None => head found
  end.

Definition find_wasm_in (root : string) : ST W Failure (option string) := λ w,
  match walk PATH_MAX w root with
  | Some (Ok found) => (Ok (pick_wasm found), w)
  | Some (Err e) => (Err (Failed e), w)
  | None => (Err Panicked, w)
  end.

Definition extract_wasm_layer (rootfs : string) (layer : Layer) : ST W Failure () :=
  if is_gzip_media_type (layer_media_type layer) then extract_tar true (layer_data layer) rootfs
  else if str_eqb (layer_media_type layer) IMAGE_LAYER_MEDIA_TYPE
       then extract_tar false (layer_data layer) rootfs
       else mret ().

(** A reference that is a path already. *)
Definition local_module (reference : string) : option string :=
  match strip_prefix "file://" reference with
  | Some p => Some p
  | None => match strip_prefix "wasm://" reference with
            | Some p => Some p
            | None => if starts_with "/" reference then Some reference else None
            end
  end.

Definition pull_wasm (reference dest_root : string) : ST W Failure string :=
  match local_module reference with
  | Some p => mret p
  | None =>
      parsed ← with_context ("invalid wasm image reference: " +:+ reference)
                 (of_result (reference_parse reference));
      let dir := path_join dest_root (sanitize (reference_whole parsed)) in
      let module := path_join dir "module.wasm" in
      let sentinel := path_join dir ".pulled-wasm" in
      cached ← ask (λ w, fs_exists w sentinel && fs_exists w module);
      if cached : bool then mret module
      else
        wipe dir;;
        io (fs_create_dir_all dir);;
        image ← with_context ("pulling " +:+ reference_display parsed)
                  (registry_pull parsed (WASM_LAYER_MEDIA_TYPES ++ accepted_layers));
        match list_find (λ l, is_wasm_layer l = true) (img_layers image) with
        | Some (_, layer) =>
            with_context ("writing wasm layer to " +:+ module) (fs_write module (layer_data layer));;
            io (fs_write sentinel []);;
            mret module
        | None =>
            let rootfs := path_join dir "rootfs" in
            io (fs_create_dir_all rootfs);;
            for_each (img_layers image) (extract_wasm_layer rootfs);;
            found ← find_wasm_in rootfs;
            match found with
            | None => bail ("no .wasm file found in image " +:+ reference_display parsed +:+ " layers")
            | Some found =>
                with_context ("copying " +:+ found +:+ " → " +:+ module) (fs_copy found module);;
                ignore (fs_remove_dir_all rootfs);;
                io (fs_write sentinel []);;
                mret module
            end
        end
  end.
End image.

(** ** The search ends *)

Lemma length_app_str a b : String.length (a +:+ b) = String.length a + String.length b.
Proof. induction a as [|c a IH]; simpl; [done|]. by rewrite IH. Qed.

Lemma length_path_join a b :
  b ≠ "" → starts_with "/" b = false → String.length a < String.length (path_join a b).
Proof.
  intros Hb Hs. unfold path_join. rewrite Hs.
  assert (0 < String.length b) by (destruct b; simpl; [done|lia]).
  destruct (str_eqb_reflect a "") as [->|]; [simpl; lia|].
  destruct (ends_with "/" a); rewrite !length_app_str; simpl; lia.
Qed.

Section walk.
Context {W : Type} `{FilesOk W}.

Lemma visit_some rec (w : W) dir entries :
  (∀ name, Ok name ∈ entries → fs_is_dir w (path_join dir name) = true →
     is_Some (rec (path_join dir name))) →
  is_Some (visit rec w dir entries).
Proof.
  induction entries as [|[name|e] entries IH]; intros Hrec; simpl; [eauto| |eauto].
  destruct IH as [more Hmore]; [intros n Hn; apply Hrec; by right|].
  assert (Hfound : is_Some (if fs_is_dir w (path_join dir name) then rec (path_join dir name)
    else Some (@Ok string _ (if bool_decide (extension (path_join dir name) = Some "wasm")
                             then [path_join dir name] else [])))).
  { destruct (fs_is_dir w (path_join dir name)) eqn:Hd; [|eauto]. apply Hrec; [by left|done]. }
  destruct Hfound as [[found|e] ->]; simpl; [|eauto]. rewrite Hmore. simpl. eauto.
Qed.

(** C40. The search for the module of an image ends: each level of directories
    makes the path longer, and no directory has a path of 4096 bytes, so the
    recursion is never deeper than that, symbolic links that lead back up
    included. *)
Theorem walk_terminates (w : W) dir : is_Some (walk PATH_MAX w dir).
Proof.
  assert (Hw : ∀ fuel dir, 0 < fuel → PATH_MAX ≤ fuel + String.length dir → is_Some (walk fuel w dir)).
  { induction fuel as [|n IH]; intros d Hf Hlen; [lia|]. simpl.
    destruct (fs_read_dir w d) as [entries|e] eqn:E; [|eauto].
    apply visit_some. intros name Hn Hd.
    destruct (fs_names w d entries name E Hn) as [Hne Hs].
    pose proof (length_path_join d name Hne Hs). apply fs_path_max in Hd.
    apply IH; lia. }
  apply Hw; unfold PATH_MAX; lia.
Qed.
End walk.

(** A host on which [/image/loop] is a link to [/image] itself: the path can
    be lengthened until it is too long to be opened. *)
Inductive LoopHost : Type := loop_host.
Definition loop_dir (p : string) : bool :=
  bool_decide (String.length p < PATH_MAX) && (str_eqb p "/image" || ends_with "/loop" p).
#[local] Instance loop_files : Files LoopHost := {|
  fs_exists _ p := loop_dir p;
  fs_is_dir _ p := loop_dir p;
  fs_is_symlink _ p := ends_with "/loop" p;
  fs_readonly _ _ := None;
  fs_read_dir _ p := if loop_dir p then Ok [Ok "main.wasm"; Ok "loop"] else Err "not a directory";
  fs_read _ := mret [];
  fs_write _ _ := mret ();
  fs_copy _ _ := mret ();
  fs_symlink _ _ := mret ();
  fs_create_dir_all _ := mret ();
  fs_remove_dir_all _ := mret ();
  fs_remove_file _ := mret () |}.
#[local] Instance loop_files_ok : FilesOk LoopHost.
Proof.
  split; simpl.
  - intros _ p [Hp%bool_decide_eq_true _]%andb_true_iff. done.
  - intros _ p l name. destruct (loop_dir p); [|done]. intros [= <-] Hin.
    repeat apply elem_of_cons in Hin as [[= ->]|Hin]; [done|done|by apply elem_of_nil in Hin].
Qed.

Lemma walk_terminates_witness :
  fs_is_dir loop_host "/image/loop/loop" = true ∧ is_Some (walk PATH_MAX loop_host "/image").
Proof. split; [by vm_compute|apply walk_terminates]. Defined.

(** ** Layers and the directory they are unpacked in *)

(** An entry of a layer that names an absolute path or goes up with [..]
    is never unpacked, and an entry is unpacked exactly if it is neither of
    the two whiteout markers nor such a path. *)
Theorem unpacked_entries_stay_inside target path :
  extraction target path = Unpack ↔
    ¬ is_absolute path ∧ (ParentDir ∉ components path) ∧
    strip_prefix ".wh." (default "" (file_name path ≫= to_str)) = None.
Proof.
  unfold extraction. set (name := default "" (file_name path ≫= to_str)).
  assert (Hp : existsb (λ c, bool_decide (c = ParentDir)) (components path) = false ↔
               (ParentDir ∉ components path)).
  { rewrite <- not_true_iff_false, existsb_exists. split; intros Hn Hin; apply Hn.
    - exists ParentDir. split; [by apply list_elem_of_In|done].
    - destruct Hin as (c & Hc%list_elem_of_In & ->%bool_decide_eq_true). done. }
  rewrite <- Hp. destruct (str_eqb_reflect name ".wh..wh..opq") as [->|].
  - destruct (parent path); split; try done; by intros (_ & _ & [=]).
  - destruct (strip_prefix ".wh." name) as [d|]; [split; [done|by intros (_ & _ & [=])]|].
    destruct (is_absolute path), (existsb _ _); simpl; clear; intuition discriminate.
Qed.

(** Whiteouts are honoured before that test: a layer can delete what lies
    outside the directory it is unpacked in. *)
Lemma whiteout_can_escape :
  extraction "/var/lib/superkube/images/x/rootfs" "../../../../../../etc/.wh.passwd" =
    Whiteout "/var/lib/superkube/images/x/rootfs/../../../../../../etc/passwd".
Proof. vm_compute. reflexivity. Qed.

(** Two references with one directory. *)
Lemma sanitize_collides : sanitize "ghcr.io/team/app:1" = sanitize "ghcr.io/team_app:1".
Proof. vm_compute. reflexivity. Qed.
