(* ===== verification/Bundle.v ===== *)
(** * OCI bundles ([src/src/node/oci/bundle.rs])

    The runtime specification of a container, from its pod spec and the
    configuration of its image.  A [Spec] holds the fields the builder sets;
    the builders of [oci_spec] fail only when a required field is missing,
    and none is. *)
From S2P Require Import Prelude RustStd Text Json External Models Wire Runtime Files Image.

Local Open Scope Z_scope.

Definition u32_zero : u32 := @Bnd 0 4294967296 0 eq_refl.

Record RootlessConfig : Type := mk_RootlessConfig { host_uid : u32; host_gid : u32 }.
Record BundleInputs : Type := mk_BundleInputs {
  bi_hostname : string;
  bi_rootfs_path : string;
  bi_container : Container;
  bi_image : ImageConfig;
  bi_netns_path : option string;
  bi_rootless : option RootlessConfig;
}.

(** ** The specification *)

Inductive LinuxNamespaceType : Type := NsPid | NsIpc | NsUts | NsMount | NsNetwork | NsUser.
#[export] Instance LinuxNamespaceType_eq_dec : EqDecision LinuxNamespaceType.
Proof. solve_decision. Defined.
Record LinuxNamespace : Type := mk_LinuxNamespace {
  ns_typ : LinuxNamespaceType;
  ns_path : option string;
}.
Inductive Capability : Type :=
| Chown | DacOverride | Fsetid | Fowner | Mknod | NetRaw | Setgid | Setuid | Setfcap | Setpcap
| NetBindService | SysChroot | Kill | AuditWrite.
Record LinuxCapabilities : Type := mk_LinuxCapabilities {
  cap_bounding : list Capability;
  cap_effective : list Capability;
  cap_permitted : list Capability;
}.
Record LinuxIdMapping : Type := mk_LinuxIdMapping {
  im_container_id : u32;
  im_host_id : u32;
  im_size : Z;
}.
Record Mount : Type := mk_Mount {
  mnt_destination : string;
  mnt_typ : string;
  mnt_source : string;
  mnt_options : option (list string);
}.
Record Process : Type := mk_Process {
  proc_terminal : bool;
  proc_uid : u32;
  proc_gid : u32;
  proc_args : list string;
  proc_env : list string;
  proc_cwd : string;
  proc_capabilities : LinuxCapabilities;
}.
Record Linux : Type := mk_Linux {
  lx_namespaces : list LinuxNamespace;
  lx_uid_mappings : option (list LinuxIdMapping);
  lx_gid_mappings : option (list LinuxIdMapping);
}.
Record Spec : Type := mk_Spec {
  sp_version : string;
  sp_hostname : string;
  sp_process : Process;
  sp_root_path : string;
  sp_root_readonly : bool;
  sp_mounts : list Mount;
  sp_linux : Linux;
}.

(** ** Merging the pod with the image *)

(** [if out.is_empty() { out.push("/bin/sh") }]. *)
Definition or_shell (out : list string) : list string :=
  match out with [] => ["/bin/sh"] | _ => out end.
Definition merge_args (c : Container) (img : ImageConfig) : list string :=
  let entrypoint := match ctr_command c with
                    | Some ((_ :: _) as v) => v
                    | _ => ic_entrypoint img
                    end in
  let cmd := match ctr_args c with
             | Some args => args
             | None => match ctr_command c with Some _ => [] | None => ic_cmd img end
             end in
  or_shell (entrypoint ++ cmd).

Definition default_path : string :=
  "PATH=/usr/local/sbin:/usr/local/bin:/usr/sbin:/usr/bin:/sbin:/bin".
Definition pod_env_entry (v : EnvVar) : string :=
  env_name v +:+ "=" +:+ default "" (env_value v).
Definition merge_env (c : Container) (img : ImageConfig) : list string :=
  let env := ic_env img ++ match ctr_env c with
                           | Some pod_env => pod_env_entry <$> pod_env
                           | None => []
                           end in
  if forallb (λ e, negb (starts_with "PATH=" e)) env then env ++ [default_path] else env.

Definition pick_cwd (c : Container) (img : ImageConfig) : string :=
  let cwd := match ctr_working_dir c with Some d => Some d | None => ic_working_dir img end in
  match cwd with Some s => if str_eqb s "" then "/" else s | None => "/" end.

Definition parse_u32 (s : string) : option u32 := parse_unsigned 4294967295 s ≫= checked.
Definition parse_user (s : option string) : u32 * u32 :=
  match s with
  | Some s =>
      if str_eqb s "" then (u32_zero, u32_zero)
      else
        let '(first, second) := splitn2 ":" s in
        let uid := default u32_zero (parse_u32 first) in
        let gid := default uid (second ≫= parse_u32) in
        (uid, gid)
  | None => (u32_zero, u32_zero)
  end.

(** ** The fixed parts *)

Definition default_capabilities : LinuxCapabilities :=
  let caps := [Chown; DacOverride; Fsetid; Fowner; Mknod; NetRaw; Setgid; Setuid; Setfcap; Setpcap;
               NetBindService; SysChroot; Kill; AuditWrite] in
  mk_LinuxCapabilities caps caps caps.

Definition default_namespaces (netns_path : option string) (rootless : bool)
    : list LinuxNamespace :=
  ((λ kind, mk_LinuxNamespace kind None) <$> [NsPid; NsIpc; NsUts; NsMount]) ++
  [mk_LinuxNamespace NsNetwork netns_path] ++
  (if rootless then [mk_LinuxNamespace NsUser None] else []).

Definition default_mounts (rootless : bool) : list Mount :=
  [mk_Mount "/proc" "proc" "proc" None;
   mk_Mount "/dev" "tmpfs" "tmpfs" (Some ["nosuid"; "strictatime"; "mode=755"; "size=65536k"]);
   mk_Mount "/dev/pts" "devpts" "devpts"
     (Some (["nosuid"; "noexec"; "newinstance"; "ptmxmode=0666"; "mode=0620"] ++
            (if rootless then [] else ["gid=5"])));
   mk_Mount "/dev/shm" "tmpfs" "shm"
     (Some ["nosuid"; "noexec"; "nodev"; "mode=1777"; "size=65536k"]);
   mk_Mount "/sys" "sysfs" "sysfs" (Some ["nosuid"; "noexec"; "nodev"; "ro"])].

Definition is_rootless (inputs : BundleInputs) : bool :=
  match bi_rootless inputs with Some _ => true | None => false end.

Definition build_spec (inputs : BundleInputs) : Spec :=
  let '(uid, gid) := parse_user (ic_user (bi_image inputs)) in
  let process :=
    {| proc_terminal := false; proc_uid := uid; proc_gid := gid;
       proc_args := merge_args (bi_container inputs) (bi_image inputs);
       proc_env := merge_env (bi_container inputs) (bi_image inputs);
       proc_cwd := pick_cwd (bi_container inputs) (bi_image inputs);
       proc_capabilities := default_capabilities |} in
  let mapping (host : RootlessConfig → u32) :=
    (λ rc, [mk_LinuxIdMapping u32_zero (host rc) 1]) <$> bi_rootless inputs in
  {| sp_version := "1.0.2-dev";
     sp_hostname := bi_hostname inputs;
     sp_process := process;
     sp_root_path := bi_rootfs_path inputs;
     sp_root_readonly := false;
     sp_mounts := default_mounts (is_rootless inputs);
     sp_linux := mk_Linux (default_namespaces (bi_netns_path inputs) (is_rootless inputs))
                   (mapping host_uid) (mapping host_gid) |}.

(** [oci_spec]'s text form of a specification. *)
Class SpecText : Type := {
  spec_to_vec_pretty : Spec → list ascii;
  spec_from_slice : list ascii → option Spec;
}.
Class SpecTextOk `{SpecText} : Prop :=
  spec_round s : spec_from_slice (spec_to_vec_pretty s) = Some s.

Definition write_config {W} `{Files W, SpecText} (bundle_dir : string) (inputs : BundleInputs)
    : ST W Failure () :=
  let spec := build_spec inputs in
  lift_err Failed (fs_create_dir_all bundle_dir);;
  let path := path_join bundle_dir "config.json" in
  lift_err (λ _, Failed ("writing " +:+ path)) (fs_write path (spec_to_vec_pretty spec)).

(** ** The environment of a tenant ([embedded.rs], [tenant_defaults])

    The variables of a specification as a map; the last value of a name
    stays. *)
Definition env_pairs (env : list string) : list (string * string) :=
  omap (split_once "=") env.
Definition env_map (env : list string) : gmap string string :=
  foldl (λ m kv, <[kv.1 := kv.2]> m) ∅ (env_pairs env).

Record TenantDefaults : Type := mk_TenantDefaults {
  td_env : gmap string string;
  td_uid : option u32;
  td_gid : option u32;
}.
Definition tenant_of_spec (spec : Spec) (tty : bool) : TenantDefaults :=
  let env := env_map (proc_env (sp_process spec)) in
  let env := if tty then match env !! "TERM" with
                         | Some _ => env
                         | None => <["TERM" := "xterm"]> env
                         end else env in
  mk_TenantDefaults env (Some (proc_uid (sp_process spec))) (Some (proc_gid (sp_process spec))).

(** ** What a container gets *)

Lemma or_shell_not_nil out : or_shell out ≠ [].
Proof. by destruct out. Qed.
Lemma or_shell_id out : out ≠ [] → or_shell out = out.
Proof. by destruct out. Qed.

(** The arguments of a container follow the table of the Kubernetes
    documentation: a command and arguments of the pod are used as they are, a
    command alone drops the arguments of the image, arguments alone keep the
    entry point of the image, and without either the image decides; an empty
    command counts as absent for the entry point but still drops the arguments
    of the image; the result is never empty. *)
Theorem merge_args_table c img :
  let args := merge_args c img in
  args ≠ [] ∧
  (∀ x command, ctr_command c = Some (x :: command) →
     args = (x :: command) ++ default [] (ctr_args c)) ∧
  (ctr_command c = None → ic_entrypoint img ++ default (ic_cmd img) (ctr_args c) ≠ [] →
     args = ic_entrypoint img ++ default (ic_cmd img) (ctr_args c)) ∧
  (ctr_command c = Some [] → ic_entrypoint img ++ default [] (ctr_args c) ≠ [] →
     args = ic_entrypoint img ++ default [] (ctr_args c)).
Proof.
  unfold merge_args. destruct (ctr_command c) as [[|y l]|], (ctr_args c) as [args|]; simpl;
    repeat split; intros; simplify_eq;
    solve [done | by apply or_shell_not_nil | by apply or_shell_id].
Qed.

Lemma split_once_entry name value :
  "="%char ∉ bytes name → split_once "=" (name +:+ "=" +:+ value) = Some (name, value).
Proof.
  intros Hn. unfold split_once. rewrite !bytes_app. simpl.
  rewrite split_once_l_app by done. simpl. by rewrite !of_bytes_bytes.
Qed.

Lemma env_map_app a b :
  env_map (a ++ b) = foldl (λ m kv, <[kv.1 := kv.2]> m) (env_map a) (env_pairs b).
Proof. unfold env_map, env_pairs. by rewrite omap_app, foldl_app. Qed.

Lemma foldl_insert_lookup (l : list (string * string)) (m : gmap string string) k :
  foldl (λ m kv, <[kv.1 := kv.2]> m) m l !! k =
    match last (snd <$> filter (λ kv, kv.1 = k) l) with Some v => Some v | None => m !! k end.
Proof.
  revert m. induction l as [|[k' v] l IH]; intros m; [done|]. simpl. rewrite IH.
  rewrite filter_cons. simpl. case_decide as Hk; csimpl.
  - subst. rewrite last_cons, lookup_insert_eq. by destruct (last _).
  - by rewrite lookup_insert_ne.
Qed.

Lemma pod_env_pairs vars :
  Forall (λ v, "="%char ∉ bytes (env_name v)) vars →
  env_pairs (pod_env_entry <$> vars) = (λ v, (env_name v, default "" (env_value v))) <$> vars.
Proof.
  unfold env_pairs. induction 1 as [|v vars Hv _ IH]; [done|]. simpl.
  unfold pod_env_entry at 1. rewrite split_once_entry by done. f_equal. exact IH.
Qed.

(** The value the pod gives a name, the last of several. *)
Definition pod_value (c : Container) (k : string) : option string :=
  last ((λ v, default "" (env_value v)) <$>
          filter (λ v, env_name v = k) (default [] (ctr_env c))).

Lemma image_map_app img vars k :
  Forall (λ v, "="%char ∉ bytes (env_name v)) vars →
  env_map (img ++ (pod_env_entry <$> vars)) !! k =
    match last ((λ v, default "" (env_value v)) <$> filter (λ v, env_name v = k) vars) with
    | Some v => Some v
    | None => env_map img !! k
    end.
Proof.
  intros Hv. rewrite env_map_app, pod_env_pairs, foldl_insert_lookup by done.
  rewrite filter_of_fmap. simpl. by rewrite <- list_fmap_compose.
Qed.

Lemma split_once_PATH e :
  starts_with "PATH=" e = bool_decide (fst <$> split_once "=" e = Some "PATH").
Proof.
  unfold starts_with, strip_prefix, split_once, split_once_l.
  change (bytes "PATH=") with (bytes "PATH" ++ ["="%char]).
  assert (Hno : "="%char ∉ bytes "PATH") by (by apply (bool_decide_unpack _)).
  assert (Hb0 : of_bytes (bytes "PATH") = "PATH") by done.
  remember (bytes "PATH") as p eqn:Hpp.
  destruct (splitn2_l "=" (bytes e)) as [a [b|]] eqn:E; csimpl.
  - assert (Hb : bytes e = a ++ "="%char :: b ∧ "="%char ∉ a).
    { clear -E. revert a b E. induction (bytes e) as [|c l IH]; intros a b E; [done|]. simpl in E.
      destruct (Ascii.eqb_spec c "=") as [->|Hc].
      { simplify_eq. split; [done|apply not_elem_of_nil]. }
      destruct (splitn2_l "=" l) as [a' b'] eqn:E'. simplify_eq.
      destruct (IH a' b eq_refl) as [-> Ha]. split; [done|]. apply not_elem_of_cons. auto. }
    destruct Hb as [-> Ha]. case_bool_decide as Hp.
    + assert (a = p) as ->.
      { injection Hp as Hp. by rewrite <- (bytes_of_bytes a), Hp. }
      change (p ++ "="%char :: b) with (p ++ ["="%char] ++ b).
      by rewrite app_assoc, strip_prefix_l_app.
    + destruct (strip_prefix_l _ _) as [r|] eqn:Hr; [|done]. exfalso. apply Hp.
      apply strip_prefix_l_Some in Hr. f_equal.
      assert (E2 : splitn2_l "=" (a ++ "="%char :: b) = splitn2_l "=" (p ++ "="%char :: r)).
      { by rewrite Hr, <- app_assoc. }
      rewrite !splitn2_l_app in E2 by done. by injection E2 as -> _.
  - destruct (strip_prefix_l _ _) as [r|] eqn:Hr; [|done].
    apply strip_prefix_l_Some in Hr. rewrite Hr, <- app_assoc in E. simpl in E.
    by rewrite splitn2_l_app in E.
Qed.

(** Whether [PATH] has to be added is whether the variables define it. *)
Lemma no_path_spec env :
  forallb (λ e, negb (starts_with "PATH=" e)) env = bool_decide (env_map env !! "PATH" = None).
Proof.
  assert (E : env_map env !! "PATH" = last (snd <$> filter (λ kv, kv.1 = "PATH") (env_pairs env))).
  { unfold env_map. rewrite foldl_insert_lookup. by destruct (last _). }
  rewrite E. clear E. unfold env_pairs.
  induction env as [|e env IH]; [done|]. simpl. rewrite split_once_PATH, IH. clear IH.
  destruct (split_once "=" e) as [[k v]|]; csimpl; [|done].
  rewrite filter_cons. simpl. case_bool_decide as Hk; csimpl.
  - injection Hk as ->. rewrite decide_True by done. csimpl. rewrite last_cons.
    by destruct (last _).
  - by rewrite decide_False by (by intros ->).
Qed.

(** The environment of a container: the pod's value, else the image's, else
    the default search path. *)
Definition container_env (c : Container) (img : ImageConfig) (k : string) : option string :=
  match pod_value c k with
  | Some v => Some v
  | None => match env_map (ic_env img) !! k with
            | Some v => Some v
            | None => if str_eqb k "PATH"
                      then Some "/usr/local/sbin:/usr/local/bin:/usr/sbin:/usr/bin:/sbin:/bin"
                      else None
            end
  end.

Lemma env_map_snoc env k v e :
  split_once "=" e = Some (k, v) → env_map (env ++ [e]) = <[k := v]> (env_map env).
Proof. intros He. rewrite env_map_app. unfold env_pairs. simpl. by rewrite He. Qed.

Lemma merge_env_map c img k :
  Forall (λ v, "="%char ∉ bytes (env_name v)) (default [] (ctr_env c)) →
  env_map (merge_env c img) !! k = container_env c img k.
Proof.
  intros Hv. unfold merge_env, container_env.
  assert (Hall : ∀ k, env_map (ic_env img ++ match ctr_env c with
      | Some pod_env => pod_env_entry <$> pod_env | None => [] end) !! k =
    match pod_value c k with Some v => Some v | None => env_map (ic_env img) !! k end).
  { intros k'. unfold pod_value. destruct (ctr_env c) as [vars|]; simpl in *.
    - by apply image_map_app.
    - by rewrite app_nil_r. }
  rewrite no_path_spec. case_bool_decide as Hp.
  - rewrite (env_map_snoc _ "PATH" "/usr/local/sbin:/usr/local/bin:/usr/sbin:/usr/bin:/sbin:/bin")
      by done.
    destruct (str_eqb_reflect k "PATH") as [->|Hk].
    + rewrite lookup_insert_eq. rewrite Hall in Hp.
      destruct (pod_value c "PATH"); [done|]. by rewrite Hp.
    + rewrite lookup_insert_ne, Hall by done. destruct (pod_value c k); [done|].
      by destruct (env_map _ !! k).
  - rewrite Hall. destruct (pod_value c k) as [v|] eqn:E; [done|].
    destruct (env_map _ !! k) as [v|] eqn:E2; [done|].
    destruct (str_eqb_reflect k "PATH") as [->|]; [|done].
    exfalso. apply Hp. by rewrite Hall, E, E2.
Qed.


Definition sample_container (command args : option (list string)) (env : option (list EnvVar))
    : Container :=
  {| ctr_name := "web"; ctr_image := "nginx"; ctr_image_pull_policy := None;
     ctr_command := command; ctr_args := args; ctr_env := env; ctr_ports := None;
     ctr_resources := None; ctr_working_dir := None |}.
Definition nginx_config : ImageConfig :=
  mk_ImageConfig ["/docker-entrypoint.sh"] ["nginx"] ["NGINX_VERSION=1.27"; "LANG=C"] (Some "/")
    (Some "101").

