(* ===== verification/Network.v ===== *)
(** * Pod networks ([src/src/node/network/{bridge,veth,iptables}.rs])

    The bridge of the host, the veth pair and the namespace of a pod, and the
    iptables rules, as the requests they send to the kernel.  The kernel is the
    class [Netlink]; [Kernel] below is one that keeps links, namespaces and
    rules the way Linux documents it, on which the requests are evaluated. *)
From S2P Require Import Prelude RustStd Text Files Ipam.

Local Open Scope Z_scope.

Definition BRIDGE_NAME : string := "superkube0".

Record PodNetwork : Type := mk_PodNetwork {
  pn_pod_name : string;
  pn_netns_path : string;
  pn_pod_ip : Ipv4Addr;
  pn_host_veth : string;
  pn_container_veth : string;
}.

(** An error of rtnetlink: the raw code and the text. *)
Record NlError : Type := mk_NlError { nle_code : Z; nle_text : string }.
Definition ENODEV : Z := 19.

(** The requests.  [ns] is the path of the namespace the thread has entered,
    [None] on the host; [iptables] is the program, with its success and the
    text of its status. *)
Class Netlink (W : Type) : Type := {
  nl_connect : option string → ST W string ();
  nl_link_get : option string → string → ST W NlError (option Z);
  nl_add_bridge : string → ST W string ();
  nl_add_veth : string → string → ST W string ();
  nl_set_netns : Z → string → ST W string ();
  nl_set_controller : Z → Z → ST W string ();
  nl_set_name : option string → Z → string → ST W string ();
  nl_up : option string → Z → ST W string ();
  nl_del : Z → ST W string ();
  nl_add_address : option string → Z → Ipv4Addr → Z → ST W string ();
  nl_add_default_route : string → Ipv4Addr → Z → ST W string ();
  open_netns : string → ST W string ();
  setns : string → ST W string ();
  netns_add : string → ST W string ();
  netns_del : string → ST W string ();
  iptables : list string → ST W string (bool * string);
}.
#[global] Hint Mode Netlink ! : typeclass_instances.

Section network.
Context {W : Type} `{Files W, Netlink W}.

Abbreviation N := (ST W string).
Definition context {A} (text : string) (m : N A) : N A := lift_err (λ _, text) m.
Definition or_context {A} (text : string) (m : N (option A)) : N A :=
  o ← m; match o with Some a => mret a | None => throw text end.

(** ** [bridge.rs] *)

Definition link_index_by_name (ns : option string) (name : string) : N (option Z) :=
  r ← attempt (nl_link_get ns name);
  match r with
  | Ok o => mret o
  | Err e => if nle_code e =? - ENODEV then mret None
             else throw ("link.get(" +:+ name +:+ ")")
  end.

Definition ensure_address (idx : Z) (addr : Ipv4Addr) (prefix_len : Z) : N () :=
  ignore (nl_add_address None idx addr prefix_len).
Definition ensure_link_up (idx : Z) : N () := context "setting link up" (nl_up None idx).

Definition ensure_bridge (gateway : Ipv4Addr) : N Z :=
  found ← link_index_by_name None BRIDGE_NAME;
  match found with
  | Some idx =>
      ensure_address idx gateway 24;; ensure_link_up idx;; mret idx
  | None =>
      context ("creating bridge " +:+ BRIDGE_NAME) (nl_add_bridge BRIDGE_NAME);;
      idx ← or_context ("bridge " +:+ BRIDGE_NAME +:+ " not found after add")
              (link_index_by_name None BRIDGE_NAME);
      ensure_address idx gateway 24;; ensure_link_up idx;; mret idx
  end.

(** ** [iptables.rs] *)

Definition install (table chain : string) (rule : list string) : N () :=
  check ← attempt (iptables (["-t"; table; "-C"; chain] ++ rule));
  match check with
  | Ok (true, _) => mret ()
  | _ =>
      status ← context ("running iptables -t " +:+ table +:+ " -I " +:+ chain)
                 (iptables (["-t"; table; "-I"; chain] ++ rule));
      if fst (A:=bool) (B:=string) status then mret ()
      else throw ("iptables -t " +:+ table +:+ " -I " +:+ chain +:+ " failed (status " +:+
                  snd status +:+ ")")
  end.

Definition masquerade_rules (pod_cidr : string) : list (string * string * list string) :=
  [("nat", "POSTROUTING", ["-s"; pod_cidr; "!"; "-o"; BRIDGE_NAME; "-j"; "MASQUERADE"]);
   ("filter", "FORWARD", ["-i"; BRIDGE_NAME; "-j"; "ACCEPT"]);
   ("filter", "FORWARD", ["-o"; BRIDGE_NAME; "-j"; "ACCEPT"])].
Definition ensure_masquerade (pod_cidr : string) : N () :=
  for_each (masquerade_rules pod_cidr) (λ '(table, chain, rule), install table chain rule).

(** ** [veth.rs] *)

Definition is_ascii_alphanumeric (c : ascii) : bool :=
  between 48 57 c || between 65 90 c || between 97 122 c.
Definition veth_suffix (pod_name : string) : string :=
  of_bytes (take 8 (List.filter is_ascii_alphanumeric (bytes pod_name))).
Definition host_veth_of (pod_name : string) : string := "vp" +:+ veth_suffix pod_name.
Definition peer_of (pod_name : string) : string := "vc" +:+ veth_suffix pod_name.
Definition netns_path_of (pod_name : string) : string := "/var/run/netns/" +:+ pod_name.

Definition remove_host_link (name : string) : N () :=
  connected ← attempt (F:=string) (nl_connect None);
  match connected with
  | Err _ => mret ()
  | Ok _ =>
      found ← attempt (F:=string) (link_index_by_name None name);
      match found with
      | Ok (Some idx) => ignore (nl_del idx)
      | _ => mret ()
      end
  end.

Definition configure_inside_netns (pod_name netns_path peer_tmp : string) (pod_ip gateway : Ipv4Addr)
    : N () :=
  context ("opening netns " +:+ netns_path) (open_netns netns_path);;
  context ("setns into " +:+ pod_name) (setns netns_path);;
  let ns := Some netns_path in
  nl_connect ns;;
  lo_idx ← or_context "lo not present in netns" (link_index_by_name ns "lo");
  nl_up ns lo_idx;;
  eth_idx ← or_context (peer_tmp +:+ " not present in netns") (link_index_by_name ns peer_tmp);
  context ("renaming " +:+ peer_tmp +:+ " to eth0") (nl_set_name ns eth_idx "eth0");;
  nl_add_address ns eth_idx pod_ip 24;;
  nl_up ns eth_idx;;
  nl_add_default_route netns_path gateway eth_idx.

Definition plug_into_bridge (pod_name netns_path host_veth peer_tmp : string)
    (pod_ip gateway : Ipv4Addr) : N PodNetwork :=
  nl_connect None;;
  bridge_idx ← or_context ("bridge " +:+ BRIDGE_NAME +:+ " not found; ensure_bridge first")
                 (link_index_by_name None BRIDGE_NAME);
  context ("creating veth pair " +:+ host_veth +:+ "<->" +:+ peer_tmp)
    (nl_add_veth host_veth peer_tmp);;
  peer_idx ← or_context ("looking up freshly-created peer " +:+ peer_tmp)
               (link_index_by_name None peer_tmp);
  context ("opening netns " +:+ netns_path) (open_netns netns_path);;
  context ("moving " +:+ peer_tmp +:+ " into netns " +:+ pod_name) (nl_set_netns peer_idx netns_path);;
  host_idx ← or_context ("looking up host veth " +:+ host_veth) (link_index_by_name None host_veth);
  context "attaching host veth to bridge" (nl_set_controller host_idx bridge_idx);;
  context "bringing host veth up" (nl_up None host_idx);;
  configure_inside_netns pod_name netns_path peer_tmp pod_ip gateway;;
  mret (mk_PodNetwork pod_name netns_path pod_ip host_veth "eth0").

Definition setup_pod_network (pod_name : string) (pod_ip gateway : Ipv4Addr) : N PodNetwork :=
  let host_veth := host_veth_of pod_name in
  let peer_tmp := peer_of pod_name in
  let netns_path := netns_path_of pod_name in
  stale ← ask (λ w, fs_exists w netns_path);
  (if stale : bool then ignore (netns_del pod_name) else mret ());;
  remove_host_link host_veth;;
  remove_host_link peer_tmp;;
  context ("creating netns " +:+ pod_name) (netns_add pod_name);;
  r ← attempt (plug_into_bridge pod_name netns_path host_veth peer_tmp pod_ip gateway);
  match r with
  | Ok net => mret net
  | Err e =>
      remove_host_link host_veth;;
      ignore (netns_del pod_name);;
      throw e
  end.

Definition teardown_pod_network {E} (net : PodNetwork) : ST W E () :=
  ignore (remove_host_link (pn_host_veth net));;
  ignore (netns_del (pn_pod_name net)).

(** What [setup_pod_network] returns describes the network it was asked for. *)
Lemma plug_returns pod path host peer ip gateway w net w' :
  plug_into_bridge pod path host peer ip gateway w = (Ok net, w') →
  net = mk_PodNetwork pod path ip host "eth0".
Proof. unfold plug_into_bridge. intros Hp. bind_inv Hp. by injection Hp as <-. Qed.

Lemma setup_returns pod ip gateway w net w' :
  setup_pod_network pod ip gateway w = (Ok net, w') →
  net = mk_PodNetwork pod (netns_path_of pod) ip (host_veth_of pod) "eth0".
Proof.
  unfold setup_pod_network. intros Hs.
  do 5 (apply bind_Ok in Hs as (? & ? & _ & Hs)).
  apply bind_Ok in Hs as ([n|e] & w1 & Hr & Hs).
  - injection Hs as <- _. unfold attempt in Hr. destruct (plug_into_bridge _ _ _ _ _ _ _) eqn:Hp.
    injection Hr as -> ->. by apply plug_returns in Hp.
  - by bind_inv Hs.
Qed.
End network.

(** ** A kernel *)

Record Link : Type := mk_Link {
  ln_index : Z;
  ln_netns : option string;
  ln_name : string;
  ln_peer : option Z;
  ln_controller : option Z;
  ln_up : bool;
  ln_addresses : list (Ipv4Addr * Z);
}.
Record Kernel : Type := mk_Kernel {
  k_links : list Link;
  k_next : Z;
  k_netns : gset string;
  k_routes : list (string * Ipv4Addr * Z);
  k_rules : list (list string);
}.

Definition k_set_links (f : list Link → list Link) (k : Kernel) : Kernel :=
  mk_Kernel (f (k_links k)) (k_next k) (k_netns k) (k_routes k) (k_rules k).
Definition k_find (ns : option string) (name : string) (k : Kernel) : option Link :=
  snd <$> list_find (λ l, ln_netns l = ns ∧ ln_name l = name) (k_links k).

(** New links take the next numbers. *)
Definition k_add (mk : Z → list Link) (n : Z) (k : Kernel) : Kernel :=
  mk_Kernel (k_links k ++ mk (k_next k)) (k_next k + n) (k_netns k) (k_routes k) (k_rules k).
Definition plain_link (ns : option string) (name : string) (peer : option Z) (idx : Z) : Link :=
  mk_Link idx ns name peer None false [].

(** A change of the link with a number, which must exist. *)
Definition k_change (idx : Z) (f : Link → Link) : ST Kernel string () := λ k,
  if existsb (λ l, ln_index l =? idx) (k_links k)
  then (Ok (), k_set_links (fmap (λ l, if ln_index l =? idx then f l else l)) k)
  else (Err "No such device", k).
(** One end of a pair takes the other with it. *)
Definition k_delete (gone : Link → bool) (k : Kernel) : Kernel :=
  let peers := omap ln_peer (List.filter gone (k_links k)) in
  k_set_links (List.filter (λ l, negb (gone l) && negb (existsb (Z.eqb (ln_index l)) peers))) k.

Definition in_ns (path : string) (l : Link) : bool := bool_decide (ln_netns l = Some path).

#[export] Instance kernel_netlink : Netlink Kernel := {|
  nl_connect _ := mret ();
  nl_link_get ns name := λ k,
    (match k_find ns name k with
     | Some l => Ok (Some (ln_index l))
     | None => Err (mk_NlError (- ENODEV) "No such device")
     end, k);
  nl_add_bridge name := λ k,
    match k_find None name k with
    | Some _ => (Err "File exists", k)
    | None => (Ok (), k_add (λ i, [plain_link None name None i]) 1 k)
    end;
  nl_add_veth host peer := λ k,
    match k_find None host k, k_find None peer k with
    | None, None => (Ok (), k_add (λ i, [plain_link None host (Some (i + 1)) i;
                                        plain_link None peer (Some i) (i + 1)]) 2 k)
    | _, _ => (Err "File exists", k)
    end;
  nl_set_netns idx path := k_change idx (λ l,
    mk_Link (ln_index l) (Some path) (ln_name l) (ln_peer l) None false (ln_addresses l));
  nl_set_controller idx br := k_change idx (λ l,
    mk_Link (ln_index l) (ln_netns l) (ln_name l) (ln_peer l) (Some br) (ln_up l) (ln_addresses l));
  nl_set_name _ idx name := k_change idx (λ l,
    mk_Link (ln_index l) (ln_netns l) name (ln_peer l) (ln_controller l) (ln_up l) (ln_addresses l));
  nl_up _ idx := k_change idx (λ l,
    mk_Link (ln_index l) (ln_netns l) (ln_name l) (ln_peer l) (ln_controller l) true (ln_addresses l));
  nl_del idx := λ k,
    if existsb (λ l, ln_index l =? idx) (k_links k)
    then (Ok (), k_delete (λ l, ln_index l =? idx) k) else (Err "No such device", k);
  nl_add_address _ idx addr len := k_change idx (λ l,
    mk_Link (ln_index l) (ln_netns l) (ln_name l) (ln_peer l) (ln_controller l) (ln_up l)
      (ln_addresses l ++ [(addr, len)]));
  nl_add_default_route path gw idx := λ k,
    (Ok (), mk_Kernel (k_links k) (k_next k) (k_netns k) (k_routes k ++ [(path, gw, idx)]) (k_rules k));
  open_netns path := λ k,
    (if bool_decide (path ∈ k_netns k) then Ok () else Err "No such file or directory", k);
  setns path := mret ();
  netns_add name := λ k,
    let path := netns_path_of name in
    if bool_decide (path ∈ k_netns k) then (Err "File exists", k)
    else (Ok (), k_add (λ i, [plain_link (Some path) "lo" None i]) 1
                   (mk_Kernel (k_links k) (k_next k) ({[path]} ∪ k_netns k) (k_routes k) (k_rules k)));
  netns_del name := λ k,
    let path := netns_path_of name in
    let k := k_delete (in_ns path) k in
    (Ok (), mk_Kernel (k_links k) (k_next k) (k_netns k ∖ {[path]}) (k_routes k) (k_rules k));
  iptables args := λ k,
    match args with
    | "-t" :: table :: op :: chain :: rule =>
        let there := bool_decide ((table :: chain :: rule) ∈ k_rules k) in
        if str_eqb op "-C" then (Ok (there, if there then "exit status: 0" else "exit status: 1"), k)
        else (Ok (true, "exit status: 0"),
              mk_Kernel (k_links k) (k_next k) (k_netns k) (k_routes k)
                ((table :: chain :: rule) :: k_rules k))
    | _ => (Ok (false, "exit status: 2"), k)
    end |}.

(** The only files of this kernel are the namespaces. *)
#[export] Instance kernel_files : Files Kernel := {|
  fs_exists k p := bool_decide (p ∈ k_netns k);
  fs_is_dir _ _ := false; fs_is_symlink _ _ := false; fs_readonly _ _ := None;
  fs_read_dir _ _ := Ok [];
  fs_read _ := throw "No such file or directory"; fs_write _ _ := mret ();
  fs_copy _ _ := mret (); fs_symlink _ _ := mret (); fs_create_dir_all _ := mret ();
  fs_remove_dir_all _ := mret (); fs_remove_file _ := mret () |}.

Definition boot : Kernel := mk_Kernel [plain_link None "lo" None 1] 2 ∅ [] [].

Definition ip (a b c d : Z) : Ipv4Addr := (a, b, c, d).

(** One pod on a fresh host: its interface is up, with the address and the
    route, and the other end is on the bridge. *)
Example one_pod_plugged :
  let '(r, k) := (ensure_bridge (ip 10 244 0 1);;
                  setup_pod_network "web-0-web" (ip 10 244 0 2) (ip 10 244 0 1)) boot in
  is_ok r = true ∧
  k_links k =
    [plain_link None "lo" None 1;
     mk_Link 2 None "superkube0" None None true [(ip 10 244 0 1, 24)];
     mk_Link 3 (Some "/var/run/netns/web-0-web") "lo" None None true [];
     mk_Link 4 None "vpweb0web" (Some 5) (Some 2) true [];
     mk_Link 5 (Some "/var/run/netns/web-0-web") "eth0" (Some 4) None true [(ip 10 244 0 2, 24)]] ∧
  k_routes k = [("/var/run/netns/web-0-web", ip 10 244 0 1, 5)].
Proof. vm_compute. done. Qed.

(** ** Names that collide *)

(** A link number that was given out and is not in use any more. *)
Definition gone (idx : Z) (k : Kernel) : Prop :=
  idx < k_next k ∧ Forall (λ l, ln_index l ≠ idx) (k_links k).

Lemma gone_change idx i f : (∀ l, ln_index (f l) = ln_index l) → keeps (gone idx) (k_change i f).
Proof.
  intros Hf k [Hn Hl]. unfold k_change. destruct (existsb _ _); [|by split]. split; [done|].
  simpl. apply Forall_fmap. eapply Forall_impl; [exact Hl|]. intros l Hne. simpl.
  destruct (ln_index l =? i); simpl; congruence.
Qed.

Lemma gone_add idx mk n k :
  0 <= n → (∀ i, Forall (λ l, i <= ln_index l) (mk i)) → gone idx k → gone idx (k_add mk n k).
Proof.
  intros Hn Hmk [Hi Hl]. split; simpl; [lia|]. apply Forall_app. split; [done|].
  eapply Forall_impl; [apply Hmk|]. simpl. lia.
Qed.

Lemma gone_delete idx f k : gone idx k → gone idx (k_delete f k).
Proof.
  intros [Hi Hl]. split; [done|]. simpl. rewrite !Forall_forall in *. intros l Hin. apply Hl.
  apply list_elem_of_In, filter_In in Hin as [Hin _]. by apply list_elem_of_In.
Qed.

Lemma gone_pure {E A} idx (f : Kernel → result E A) : keeps (gone idx) (λ k, (f k, k)).
Proof. by intros k. Qed.

(** Every request leaves it so. *)
Section gone.
Context (idx : Z).

Lemma gone_link_get ns name : keeps (gone idx) (nl_link_get ns name).
Proof. apply (gone_pure idx). Qed.
Lemma gone_add_veth a b : keeps (gone idx) (nl_add_veth a b).
Proof.
  intros k Hk. simpl. destruct (k_find None a k), (k_find None b k); try done.
  apply gone_add; [lia| |done]. intros i. repeat constructor; simpl; lia.
Qed.
Lemma gone_set_netns i p : keeps (gone idx) (nl_set_netns i p).
Proof. by apply gone_change. Qed.
Lemma gone_set_controller i c : keeps (gone idx) (nl_set_controller i c).
Proof. by apply gone_change. Qed.
Lemma gone_set_name ns i n : keeps (gone idx) (nl_set_name ns i n).
Proof. by apply gone_change. Qed.
Lemma gone_up ns i : keeps (gone idx) (nl_up ns i).
Proof. by apply gone_change. Qed.
Lemma gone_add_address ns i a n : keeps (gone idx) (nl_add_address ns i a n).
Proof. by apply gone_change. Qed.
Lemma gone_route p g i : keeps (gone idx) (nl_add_default_route p g i).
Proof. by intros k Hk. Qed.
Lemma gone_del i : keeps (gone idx) (nl_del i).
Proof. intros k Hk. simpl. destruct (existsb _ _); [by apply gone_delete|done]. Qed.
Lemma gone_connect ns : keeps (gone idx) (nl_connect ns).
Proof. by intros k. Qed.
Lemma gone_open p : keeps (gone idx) (open_netns p).
Proof. apply (gone_pure idx). Qed.
Lemma gone_setns p : keeps (gone idx) (setns p).
Proof. by intros k. Qed.
Lemma gone_netns_add n : keeps (gone idx) (netns_add n).
Proof.
  intros k Hk. simpl. case_bool_decide; [done|].
  apply gone_add; [lia| |by destruct Hk]. intros i. repeat constructor; simpl; lia.
Qed.
Lemma gone_netns_del n : keeps (gone idx) (netns_del n).
Proof. intros k Hk. by destruct (gone_delete idx (in_ns (netns_path_of n)) k Hk). Qed.
Lemma gone_ask {E A} (f : Kernel → A) : keeps (E:=E) (gone idx) (ask f).
Proof. by intros k. Qed.
End gone.
#[local] Hint Resolve gone_link_get gone_add_veth gone_set_netns gone_set_controller gone_set_name
  gone_up gone_add_address gone_route gone_del gone_connect gone_open gone_setns gone_netns_add
  gone_netns_del gone_ask : keeps.

Lemma gone_link_index idx ns name : keeps (gone idx) (link_index_by_name ns name).
Proof. unfold link_index_by_name. keeps. Qed.
Lemma gone_remove_host_link idx name : keeps (gone idx) (remove_host_link name).
Proof. unfold remove_host_link, ignore. pose proof (gone_link_index idx). keeps. Qed.
Lemma gone_or_context {A} idx t (m : ST Kernel string (option A)) :
  keeps (gone idx) m → keeps (gone idx) (or_context t m).
Proof. intros Hm. unfold or_context. keeps. Qed.
#[local] Hint Resolve gone_link_index gone_remove_host_link gone_or_context : keeps.
Lemma gone_configure idx a b c d e : keeps (gone idx) (configure_inside_netns a b c d e).
Proof. unfold configure_inside_netns, context. keeps. Qed.
#[local] Hint Resolve gone_configure : keeps.
Lemma gone_plug idx a b c d e f : keeps (gone idx) (plug_into_bridge a b c d e f).
Proof. unfold plug_into_bridge, context. keeps. Qed.
#[local] Hint Resolve gone_plug : keeps.

Lemma remove_host_link_unplugs name k l peer :
  k_find None name k = Some l → ln_peer l = Some peer → peer < k_next k →
  gone peer (remove_host_link name k).2.
Proof.
  intros Hf Hp Hn. unfold remove_host_link, link_index_by_name, ignore, attempt, mbind, st_bind.
  simpl. rewrite Hf. unfold k_find in Hf. apply fmap_Some in Hf as ([i l'] & Hl & ->).
  apply list_find_Some in Hl as (Hl & _ & _). simpl in *.
  assert (Hin : In l' (k_links k)) by (apply list_elem_of_In, list_elem_of_lookup; eauto).
  assert (existsb (λ l0, ln_index l0 =? ln_index l') (k_links k) = true) as ->.
  { apply existsb_exists. exists l'. by rewrite Z.eqb_refl. }
  split; [done|]. simpl. apply Forall_forall. intros x Hx <-.
  apply list_elem_of_In, filter_In in Hx as [_ Hx]. apply andb_prop in Hx as [_ Hx].
  apply negb_true_iff, not_true_iff_false in Hx. apply Hx. apply existsb_exists.
  exists (ln_index x). rewrite Z.eqb_refl. split; [|done].
  apply list_elem_of_In, list_elem_of_omap. exists l'. split; [|done].
  apply list_elem_of_In, filter_In. by rewrite Z.eqb_refl.
Qed.

(** The names of the veth pair of a pod are the first eight letters and
    digits of its name, and setting up a pod begins by removing the links with
    those names: when two pods share them, as the replicas of one deployment
    do, setting up the second deletes the interface of the first, whatever
    becomes of the second. *)
Theorem second_pod_unplugs_first first second pod_ip gateway k l eth0 :
  veth_suffix first = veth_suffix second →
  k_find None (host_veth_of first) k = Some l → ln_peer l = Some eth0 → eth0 < k_next k →
  netns_path_of second ∉ k_netns k →
  Forall (λ link, ln_index link ≠ eth0)
    (k_links (setup_pod_network second pod_ip gateway k).2).
Proof.
  intros Hs Hf Hp Hn Hns.
  assert (E : host_veth_of first = host_veth_of second) by (unfold host_veth_of; by rewrite Hs).
  rewrite E in Hf.
  assert (Hgone : gone eth0 (setup_pod_network second pod_ip gateway k).2); [|apply Hgone].
  pose proof (remove_host_link_unplugs _ _ _ _ Hf Hp Hn) as Hr.
  unfold setup_pod_network. unfold mbind at 1, st_bind at 1, ask. cbn beta iota.
  unfold fs_exists, kernel_files. rewrite bool_decide_false by done.
  unfold mbind at 1, st_bind at 1. cbn beta iota.
  unfold mret at 1, st_ret at 1. cbn beta iota.
  unfold mbind at 1, st_bind at 1.
  destruct (remove_host_link (host_veth_of second) k) as [[[]|e] k1]; [|done]. simpl in Hr.
  revert Hr. revert k1.
  match goal with |- ∀ k1, gone _ k1 → gone _ (?m k1).2 => assert (Hk : keeps (gone eth0) m) end.
  { unfold context, ignore. keeps. }
  exact Hk.
Qed.

Definition two_replicas : Kernel :=
  ((ensure_bridge (ip 10 244 0 1);;
    setup_pod_network "nginx-deployment-7fb96c846b-x2kqp-web" (ip 10 244 0 2) (ip 10 244 0 1))
     boot).2.

Lemma second_pod_unplugs_first_witness :
  let k := (setup_pod_network "nginx-deployment-7fb96c846b-9wzlm-web" (ip 10 244 0 3)
              (ip 10 244 0 1) two_replicas).2 in
  k_find (Some "/var/run/netns/nginx-deployment-7fb96c846b-x2kqp-web") "eth0" two_replicas ≠ None ∧
  k_find (Some "/var/run/netns/nginx-deployment-7fb96c846b-x2kqp-web") "eth0" k = None ∧
  Forall (λ link, ln_index link ≠ 5) (k_links k).
Proof.
  split; [by vm_compute|]. split; [by vm_compute|].
  apply (second_pod_unplugs_first "nginx-deployment-7fb96c846b-x2kqp-web" _ _ _ _
           (mk_Link 4 None "vpnginxdep" (Some 5) (Some 2) true [])); by vm_compute.
Defined.

(** ** The rules are installed once *)

Definition rule_entry (r : string * string * list string) : list string :=
  r.1.1 :: r.1.2 :: r.2.

Lemma install_rules table chain rule (k : Kernel) :
  install table chain rule k =
    (Ok (), if bool_decide ((table :: chain :: rule) ∈ k_rules k) then k
            else mk_Kernel (k_links k) (k_next k) (k_netns k) (k_routes k)
                   ((table :: chain :: rule) :: k_rules k)).
Proof.
  unfold install, attempt, context, lift_err, mbind, st_bind. simpl.
  by case_bool_decide.
Qed.

Lemma for_each_installs rules (k : Kernel) :
  let '(r, k') := for_each rules (λ '(table, chain, rule), install table chain rule) k in
  r = Ok () ∧ Forall (λ rule, rule_entry rule ∈ k_rules k') rules ∧
  (∀ entry, entry ∈ k_rules k → entry ∈ k_rules k') ∧
  (Forall (λ rule, rule_entry rule ∈ k_rules k) rules → k' = k).
Proof.
  revert k. induction rules as [|[[table chain] rule] rules IH]; intros k; [done|]. simpl.
  unfold mbind, st_bind. rewrite install_rules.
  set (k1 := if bool_decide _ then _ else _). specialize (IH k1).
  destruct (for_each _ _ k1) as [r k'] eqn:E. destruct IH as (-> & Hall & Hmono & Hid).
  assert (Hk1 : rule_entry (table, chain, rule) ∈ k_rules k1 ∧ ∀ x, x ∈ k_rules k → x ∈ k_rules k1).
  { subst k1. case_bool_decide; simpl; [done|]. split; [by left|]. intros; by right. }
  destruct Hk1 as [Hin Hsub]. split; [done|]. split; [by constructor; [apply Hmono|]|].
  split; [eauto|]. intros [Hr Hrs]%Forall_cons.
  assert (k1 = k) as Hk by (subst k1; by rewrite bool_decide_true).
  rewrite Hid; [done|]. by rewrite Hk.
Qed.

(** However often the masquerading is set up, the three rules are in the
    tables afterwards, the rules that were there stay, and a second run
    changes nothing: the check before each insertion keeps rules from piling
    up. *)
Theorem masquerade_idempotent pod_cidr k :
  let '(r, k1) := ensure_masquerade pod_cidr k in
  r = Ok () ∧ Forall (λ rule, rule_entry rule ∈ k_rules k1) (masquerade_rules pod_cidr) ∧
  (∀ entry, entry ∈ k_rules k → entry ∈ k_rules k1) ∧
  ensure_masquerade pod_cidr k1 = (Ok (), k1).
Proof.
  unfold ensure_masquerade. pose proof (for_each_installs (masquerade_rules pod_cidr) k) as Hf.
  destruct (for_each _ _ k) as [r k1]. destruct Hf as (-> & Hall & Hmono & _).
  split; [done|]. split; [done|]. split; [done|].
  pose proof (for_each_installs (masquerade_rules pod_cidr) k1) as Hf.
  destruct (for_each _ _ k1) as [r k2]. destruct Hf as (-> & _ & _ & Hid). by rewrite Hid.
Qed.
