(* ===== verification/Embedded.v ===== *)
(** * The embedded engine ([src/src/node/runtime/embedded.rs])

    Containers run by libcontainer in this process: their table, addresses,
    networks, bundles, logs and the teardowns that run detached, and what is
    set up on the host before the first.  Processes and descriptors are those
    of [Process.v]; the rest of the kernel and libcontainer are the class
    [LinuxHost]. *)
From S2P Require Import Prelude RustStd Text Json External Models Ipam Runtime ContainerLogs Mock.
From S2P Require Import Files Process Image Bundle Network.

Local Open Scope Z_scope.

Definition STATE_ROOT : string := "/var/lib/superkube".
Definition ID_PREFIX : string := "embedded://".
Definition POD_CIDR_PREFIX : string := "10.244.0".
Definition state_path : string := path_join STATE_ROOT "state".
Definition image_root : string := path_join STATE_ROOT "images".
Definition bundle_root : string := path_join STATE_ROOT "bundles".
Definition log_root : string := path_join STATE_ROOT "logs".
(** [STOP_GRACE] and the wait after SIGKILL, in milliseconds. *)
Definition STOP_GRACE : Z := 10000.
Definition KILL_WAIT : Z := 5000.
Definition SIGTERM : Z := 15.
Definition SIGKILL : Z := 9.

(** Signals, mounts, [cp] and libcontainer, which gets the standard streams of
    what it starts.  [await_exit] is the polling of the exit that the reaper
    records, up to a deadline. *)
Class LinuxHost (W : Type) : Type := {
  proc_exists : W → Z → bool;
  kill : Z → Z → ST W string ();
  await_exit : Z → Z → W → option i32 * W;
  umount_detach : string → ST W string ();
  mount_overlay : string → string → ST W string ();
  run_cp : list string → ST W string (bool * string);
  container_delete : string → ST W string ();
  container_start : string → string → string → Fd * Fd * Fd → ST W string Z;
  tenant_start : string → string → ExecSession → bool → Fd * Fd * Fd → ST W string Z;
}.
#[global] Hint Mode LinuxHost ! : typeclass_instances.

(** ** State *)

Record ContainerEntry : Type := mk_ContainerEntry {
  ce_name : string;
  ce_started_at : DateTime;
  ce_image : string;
  ce_pod_net : option PodNetwork;
  ce_pid : Z;
  ce_restart_count : i32;
  ce_exit : option i32;
  ce_log : ContainerLog;
}.

(** The containers by id and the entries whose detached teardown still runs,
    by name. *)
Record EmbeddedRuntime : Type := mk_EmbeddedRuntime {
  er_containers : gmap string ContainerEntry;
  er_ipam : Ipam;
  er_rootless : option RootlessConfig;
  er_pending_teardowns : gmap string ContainerEntry;
}.
Definition EmbeddedRuntime_new (rootless : option RootlessConfig) : EmbeddedRuntime :=
  mk_EmbeddedRuntime ∅ (Ipam_new POD_CIDR_PREFIX) rootless ∅.

Definition with_containers f (s : EmbeddedRuntime) : EmbeddedRuntime :=
  mk_EmbeddedRuntime (f (er_containers s)) (er_ipam s) (er_rootless s) (er_pending_teardowns s).
Definition with_ipam f (s : EmbeddedRuntime) : EmbeddedRuntime :=
  mk_EmbeddedRuntime (er_containers s) (f (er_ipam s)) (er_rootless s) (er_pending_teardowns s).
Definition with_pending f (s : EmbeddedRuntime) : EmbeddedRuntime :=
  mk_EmbeddedRuntime (er_containers s) (er_ipam s) (er_rootless s) (f (er_pending_teardowns s)).

Definition container_id (name : string) : string := ID_PREFIX +:+ name.

(** [Ipv4Addr::to_string]. *)
Definition ipv4_to_string (a : Ipv4Addr) : string :=
  let '(a, b, c, d) := a in
  pretty a +:+ "." +:+ pretty b +:+ "." +:+ pretty c +:+ "." +:+ pretty d.

Section embedded.
Context {W : Type} `{Extern, Machine W, !LogClock, !OciCrates, !SpecText}.
Context `{Files W, !Registry W, Netlink W, LinuxHost W, Posix W, !ErrnoText}.

Abbreviation R := (ST (W * EmbeddedRuntime) Failure).
Abbreviation host m := (on_world_of (lift_err Failed m)).

(** ** The host *)

Definition read_text (path : string) : ST W string string :=
  data ← fs_read path;
  if utf8_valid data then mret (of_bytes data) else throw "stream did not contain valid UTF-8".

Definition detect_rootless {E} : ST W E (option RootlessConfig) :=
  euid ← ask (W:=W) geteuid;
  map ← attempt (S:=W) (F:=string) (read_text "/proc/self/uid_map");
  let in_userns := match map with
                   | Ok s => bool_decide (split_once_str "4294967295" s = None)
                   | Err _ => false
                   end in
  if negb (val euid =? 0) || in_userns
  then egid ← ask (W:=W) getegid; mret (Some (mk_RootlessConfig euid egid))
  else mret None.

Definition init_host_network (gateway : Ipv4Addr) : ST W string () :=
  nl_connect None;;
  ensure_bridge gateway;;
  let '(a, b, c, _) := gateway in
  ensure_masquerade (pretty a +:+ "." +:+ pretty b +:+ "." +:+ pretty c +:+ ".0/24");;
  ignore (fs_write "/proc/sys/net/ipv4/ip_forward" (bytes "1")).

Definition cgroup_file (name : string) : string := path_join "/sys/fs/cgroup" name.
(** The processes of the root group are moved into the leaf [init], and then
    the controllers are enabled for its children. *)
Definition ensure_cgroup_root_is_empty : ST W string () :=
  own ← read_text "/proc/self/cgroup";
  if negb (existsb (λ l, str_eqb (trim l) "0::/") (lines own)) then mret ()
  else
    procs ← read_text (cgroup_file "cgroup.procs");
    match split_whitespace procs with
    | [] => mret ()
    | pids =>
        let init := cgroup_file "init" in
        fs_create_dir_all init;;
        for_each pids (λ pid, ignore (fs_write (path_join init "cgroup.procs") (bytes pid)));;
        controllers ← attempt (F:=string) (read_text (cgroup_file "cgroup.controllers"));
        let enable := String.concat " " (String.append "+" <$>
          split_whitespace (match controllers with Ok s => s | Err _ => "" end)) in
        if str_eqb enable "" then mret ()
        else ignore (fs_write (cgroup_file "cgroup.subtree_control") (bytes enable))
    end.

(** [EmbeddedRuntime::new]. *)
Definition embedded_new : ST W Failure EmbeddedRuntime :=
  for_each [state_path; image_root; bundle_root; log_root] (λ d,
    lift_err (λ e, Failed ("creating " +:+ d +:+ ": " +:+ e)) (fs_create_dir_all d));;
  cgroups ← ask (λ w, fs_exists w "/sys/fs/cgroup/cgroup.controllers");
  (if cgroups : bool then ignore ensure_cgroup_root_is_empty else mret ());;
  match gateway (Ipam_new POD_CIDR_PREFIX) with
  | Some g => ignore (init_host_network g)
  | None => panic
  end;;
  rootless ← detect_rootless;
  mret (EmbeddedRuntime_new rootless).

(** ** Root file systems *)

Definition unmount_rootfs {E} (bundle_dir : string) : ST W E () :=
  ignore (umount_detach (path_join bundle_dir "rootfs")).

Definition copy_tree (from to : string) : ST W string () :=
  status ← lift_err (λ e, "running cp: " +:+ e) (run_cp ["-a"; from +:+ "/."; to]);
  if fst (A:=bool) (B:=string) status then mret ()
  else throw ("cp -a " +:+ from +:+ " " +:+ to +:+ ": " +:+ snd status).

Definition mount_rootfs (bundle_dir image_rootfs : string) (rootless : bool) : ST W string () :=
  let rootfs := path_join bundle_dir "rootfs" in
  unmount_rootfs bundle_dir;;
  link ← ask (λ w, fs_is_symlink w rootfs);
  dir ← ask (λ w, fs_is_dir w rootfs);
  (if link : bool then fs_remove_file rootfs
   else if dir : bool then fs_remove_dir_all rootfs else mret ());;
  let image_str := to_string_lossy image_rootfs in
  if rootless || contains_char ":" image_str || contains_char "," image_str then
    fs_symlink image_rootfs rootfs
  else
    let upper := path_join bundle_dir "upper" in
    let work := path_join bundle_dir "work" in
    for_each [upper; work] (λ d, ignore (fs_remove_dir_all d);; fs_create_dir_all d);;
    fs_create_dir_all rootfs;;
    mounted ← attempt (F:=string) (mount_overlay rootfs
      ("lowerdir=" +:+ image_str +:+ ",upperdir=" +:+ upper +:+ ",workdir=" +:+ work));
    match mounted with
    | Ok _ => mret ()
    | Err _ =>
        ignore (fs_remove_dir_all upper);;
        ignore (fs_remove_dir_all work);;
        copy_tree image_rootfs rootfs
    end.

(** ** Tearing down *)

Definition bundle_of (name : string) : string := path_join bundle_root name.
Definition log_path (name : string) : string := path_join log_root (name +:+ ".log").

Definition wait_exit {E} (pid ms : Z) : ST W E (option i32) := λ w,
  let '(o, w') := await_exit pid ms w in (Ok o, w').

(** SIGTERM, and SIGKILL if the process is still there after the grace. *)
Definition stop_init {E} (entry : ContainerEntry) : ST W E () :=
  match ce_exit entry with
  | Some _ => mret ()
  | None =>
      ignore (kill (ce_pid entry) SIGTERM);;
      exit ← wait_exit (ce_pid entry) STOP_GRACE;
      match exit with
      | Some _ => mret ()
      | None =>
          ignore (kill (ce_pid entry) SIGKILL);;
          wait_exit (ce_pid entry) KILL_WAIT;;
          mret ()
      end
  end.

Definition teardown (entry : ContainerEntry) : R () :=
  let name := ce_name entry in
  let state_dir := path_join state_path name in
  on_world_of (
    stop_init entry;;
    deleted ← attempt (container_delete state_dir);
    match deleted with Ok _ => mret () | Err _ => ignore (fs_remove_dir_all state_dir) end;;
    match ce_pod_net entry with Some net => teardown_pod_network net | None => mret () end);;
  modify_state (with_ipam (λ i, release i name));;
  on_world_of (
    unmount_rootfs (bundle_of name);;
    ignore (fs_remove_dir_all (bundle_of name));;
    ignore (fs_remove_file (log_path name))).

(** [handle.await]: the detached teardown runs to its end. *)
Definition await_pending_teardown (name : string) : R () :=
  s ← get_state;
  match er_pending_teardowns s !! name with
  | Some entry => modify_state (with_pending (delete name));; teardown entry
  | None => mret ()
  end.

(** ** Starting *)

(** [/dev/null] and the writing ends of two pipes; the pumps own the others. *)
Definition open_stdio : ST W string (Fd * Fd * Fd) :=
  devnull ← lift_err io_text (sys_open "/dev/null" O_CLOEXEC);
  owned devnull (
    out ← pipe;
    owned_pipe out (
      err ← pipe;
      mret (devnull, out.2, err.2))).

Definition build_and_start (rootless : option RootlessConfig) (name : string) (c : Container)
    (pulled : PulledImage) (netns_path : option string) : ST W Failure (Z * ContainerLog) :=
  let bundle_dir := bundle_of name in
  lift_err Failed (fs_create_dir_all bundle_dir);;
  lift_err Failed (mount_rootfs bundle_dir (pi_rootfs pulled)
                     (match rootless with Some _ => true | None => false end));;
  write_config bundle_dir (mk_BundleInputs name "rootfs" c (pi_config pulled) netns_path rootless);;
  let stale_state := path_join state_path name in
  stale ← ask (λ w, fs_exists w stale_state);
  (if stale : bool then ignore (fs_remove_dir_all stale_state) else mret ());;
  lift_err (λ e, Failed ("creating log " +:+ log_path name +:+ ": " +:+ e))
    (fs_write (log_path name) []);;
  stdio ← lift_err Failed open_stdio;
  let log := pump_starts (pump_starts ContainerLog_create) in
  pid ← lift_err Failed (giving [stdio.1.1; stdio.1.2; stdio.2]
          (container_start name state_path bundle_dir stdio));
  mret (pid, log).

(** [self.ipam.allocate(name)?] and [self.ipam.gateway()]. *)
Definition allocate_address (name : string) : R Ipv4Addr := λ '(w, s),
  let '(r, i') := allocate (er_ipam s) name in
  let s' := with_ipam (λ _, i') s in
  match r with
  | Some (Ok a) => (Ok a, (w, s'))
  | Some (Err msg) => (Err (Failed msg), (w, s'))
  | None => (Err Panicked, (w, s'))
  end.
Definition gateway_address : R Ipv4Addr := λ '(w, s),
  match gateway (er_ipam s) with
  | Some a => (Ok a, (w, s))
  | None => (Err Panicked, (w, s))
  end.
Definition release_address (name : string) : R () := modify_state (with_ipam (λ i, release i name)).

(** [prev.restart_count + 1], in 32 bits. *)
Definition next_restart (prev : ContainerEntry) : i32 := as_i32 (val (ce_restart_count prev) + 1).

(** A previous instance of the name is torn down before anything is reused. *)
Definition replace_previous (id : string) : R i32 :=
  s ← get_state;
  match er_containers s !! id with
  | Some prev =>
      modify_state (with_containers (delete id));;
      teardown prev;;
      mret (next_restart prev)
  | None => mret i32_zero
  end.

Definition connect_pod (name : string) : R (option PodNetwork) :=
  pod_ip ← allocate_address name;
  gateway ← gateway_address;
  net ← attempt (F:=string) (on_world_of (setup_pod_network name pod_ip gateway));
  match net with
  | Ok n => mret (Some n)
  | Err _ => release_address name;; mret None
  end.

Definition embedded_create_and_start_container (name : string) (c : Container) : R string :=
  let id := container_id name in
  await_pending_teardown name;;
  restart_count ← replace_previous id;
  pulled ← on_world_of (pull (ctr_image c) image_root);
  pod_net ← connect_pod name;
  s ← get_state;
  started ← attempt_err (on_world_of
    (build_and_start (er_rootless s) name c pulled (pn_netns_path <$> pod_net)));
  match started with
  | Ok (pid, log) =>
      now ← on_world_of Utc_now;
      modify_state (with_containers (<[id := mk_ContainerEntry name now (ctr_image c) pod_net pid
                                              restart_count None log]>));;
      mret id
  | Err e =>
      on_world_of (unmount_rootfs (bundle_of name));;
      on_world_of (match pod_net with Some net => teardown_pod_network net | None => mret () end);;
      release_address name;;
      bail e
  end.

(** ** The other methods *)

Definition embedded_info (w : W) (id : string) (entry : ContainerEntry) : ContainerInfo :=
  {| ci_id := id;
     ci_running := bool_decide (ce_exit entry = None) && proc_exists w (ce_pid entry);
     ci_restart_count := ce_restart_count entry;
     ci_started_at := Some (ce_started_at entry);
     ci_exit_code := ce_exit entry;
     ci_ip := (λ n, ipv4_to_string (pn_pod_ip n)) <$> ce_pod_net entry;
     ci_port_mappings := [] |}.
Definition embedded_find_container (s : EmbeddedRuntime) (name : string)
    : ST W Failure (option ContainerInfo) :=
  let id := container_id name in
  ask (λ w, embedded_info w id <$> er_containers s !! id).

(** The teardown is spawned: the entry waits among the pending ones. *)
Definition embedded_remove_container (name : string) : R () :=
  s ← get_state;
  let id := container_id name in
  match er_containers s !! id with
  | Some entry =>
      modify_state (with_containers (delete id));;
      modify_state (with_pending (<[name := entry]>))
  | None => mret ()
  end.

Definition log_of (s : EmbeddedRuntime) (id : string) : ST W Failure ContainerLog :=
  match er_containers s !! id with
  | Some entry => mret (ce_log entry)
  | None => bail ("no such container: " +:+ id)
  end.
Definition embedded_get_logs (s : EmbeddedRuntime) (id : string) (options : LogOptions)
    : ST W Failure string :=
  log ← log_of s id; mret (of_bytes (render log options)).
Definition embedded_stream_logs (s : EmbeddedRuntime) (id : string) (options : LogOptions)
    : ST W Failure LogStream :=
  log ← log_of s id; mret (follow log options).

Definition tenant_defaults (bundle_dir : string) (tty : bool) : ST W Failure TenantDefaults :=
  data ← lift_err (λ e, Failed ("loading bundle spec: " +:+ e))
           (fs_read (path_join bundle_dir "config.json"));
  match spec_from_slice data with
  | Some spec => mret (tenant_of_spec spec tty)
  | None => bail "loading bundle spec: invalid"
  end.

Definition embedded_exec (s : EmbeddedRuntime) (id : string) (cmd : list string) (tty : bool)
    : ST W Failure ExecSession :=
  match er_containers s !! id with
  | None => bail ("no such container: " +:+ id)
  | Some entry =>
      match ce_exit entry with
      | Some _ => bail ("container " +:+ ce_name entry +:+ " is not running")
      | None =>
          defaults ← tenant_defaults (bundle_of (ce_name entry)) tty;
          let session :=
            {| es_argv := cmd; es_env := map_to_list (td_env defaults);
               es_uid := val <$> td_uid defaults; es_gid := val <$> td_gid defaults;
               es_tty := tty; es_exit := true |} in
          let start := tenant_start (ce_name entry) state_path session in
          lift_err Failed (if tty then exec_tty start (ce_pid entry) else exec_pipes start);;
          mret session
      end
  end.

#[export] Instance embedded_runtime : Runtime W EmbeddedRuntime := {|
  rt_name := "embedded";
  rt_create_and_start_container := embedded_create_and_start_container;
  rt_find_container := embedded_find_container;
  rt_remove_container := embedded_remove_container;
  rt_get_logs := embedded_get_logs;
  rt_stream_logs := embedded_stream_logs;
  rt_exec := embedded_exec |}.

(** ** Concurrency

    What can happen to the engine: its methods, the end of a detached
    teardown, an exit recorded by the reaper, and a line or the end of output
    seen by a pump. *)
Definition with_entry (id : string) (f : ContainerEntry → ContainerEntry) : EmbeddedRuntime → EmbeddedRuntime :=
  with_containers (alter f id).
Definition record_exit (code : i32) (e : ContainerEntry) : ContainerEntry :=
  mk_ContainerEntry (ce_name e) (ce_started_at e) (ce_image e) (ce_pod_net e) (ce_pid e)
    (ce_restart_count e) (Some code) (ce_log e).
Definition on_log (f : ContainerLog → ContainerLog) (e : ContainerEntry) : ContainerEntry :=
  mk_ContainerEntry (ce_name e) (ce_started_at e) (ce_image e) (ce_pod_net e) (ce_pid e)
    (ce_restart_count e) (ce_exit e) (f (ce_log e)).

Inductive embedded_step : EmbeddedRuntime → EmbeddedRuntime → Prop :=
| step_create s w name c : embedded_step s (embedded_create_and_start_container name c (w, s)).2.2
| step_remove s w name : embedded_step s (embedded_remove_container name (w, s)).2.2
| step_teardown_ends s w name : embedded_step s (await_pending_teardown name (w, s)).2.2
| step_exit s id code : embedded_step s (with_entry id (record_exit code) s)
| step_output s id now stream text : embedded_step s (with_entry id (on_log (append now stream text)) s)
| step_output_ends s id : embedded_step s (with_entry id (on_log pump_ends) s).

Definition embedded_reaches : EmbeddedRuntime → EmbeddedRuntime → Prop := rtc embedded_step.
End embedded.
