(* ===== verification/Wasm.v ===== *)
(** * The wasm engine ([src/src/node/runtime/wasm.rs])

    WebAssembly modules run in this process: their table, the ring buffers of
    their output, the port listeners and the logs.  wasmtime and the sockets
    are the class [WasmHost]; what a run of a module ends with is an input. *)
From S2P Require Import Prelude RustStd Text Json External Models Runtime ContainerLogs Mock.
From S2P Require Import Files Process Image.

Local Open Scope Z_scope.

Definition LOG_CAPACITY : nat := 1024 * 1024.

Class WasmHost (W : Type) : Type := {
  engine_new : ST W string ();
  module_from_file : string → ST W string ();
  tcp_bind : Z → ST W string ();
  env_var : W → string → option string;
  temp_dir : W → string;
}.
#[global] Hint Mode WasmHost ! : typeclass_instances.

(** ** The ring buffer *)

Record RingPipe : Type := mk_RingPipe { rp_capacity : nat; rp_buffer : list ascii }.
Definition RingPipe_new (capacity : nat) : RingPipe := mk_RingPipe capacity [].

(** [append]: the old bytes that do not fit any more are dropped at the front,
    and of a write larger than the buffer only its end is kept. *)
Definition ring_append (p : RingPipe) (bs : list ascii) : RingPipe :=
  let capacity := rp_capacity p in
  let buf := rp_buffer p in
  let total := (length buf + length bs)%nat in
  let buf :=
    if (capacity <? total)%nat then
      let buf_len := length buf in
      let drop_n := Nat.min (total - capacity) buf_len in
      drop drop_n buf
    else buf in
  let to_append :=
    if (capacity <? length bs)%nat then drop (length bs - capacity) bs else bs in
  mk_RingPipe capacity (buf ++ to_append).

(** ** State *)

Record WasmEntry : Type := mk_WasmEntry {
  we_id : string;
  we_started_at : DateTime;
  we_module_path : string;
  we_base_argv : list string;
  we_base_env : list (string * string);
  we_exit : option i32;
  we_stdout : RingPipe;
  we_stderr : RingPipe;
  we_trap_text : list ascii;
  we_listener_mode : bool;
  (** One flag per background task: whether it has finished. *)
  we_background : list bool;
  we_port_mappings : list PortMapping;
}.
Record WasmRuntime : Type := mk_WasmRuntime {
  wr_module_cache_root : string;
  wr_containers : gmap string WasmEntry;
  wr_by_name : gmap string string;
}.

(** [n.max(0) as u16] and a [u16] as [i32]. *)
Definition port_u16 (n : i32) : Z := Z.max (val n) 0 `mod` 65536.
Definition u16_of (z : Z) : u16 := default (@Bnd 0 65536 0 eq_refl) (checked (z `mod` 65536)).

(** The declared host ports: host port, container port, protocol. *)
Definition declared_host_ports (c : Container) : list (Z * Z * string) :=
  omap (λ p, (λ host_port,
    (port_u16 host_port, port_u16 (cp_container_port p),
     match cp_protocol p with Some Protocol_UDP => "udp" | _ => "tcp" end))
    <$> cp_host_port p) (default [] (ctr_ports c)).
Definition port_mapping (d : Z * Z * string) : PortMapping :=
  mk_PortMapping (as_i32 d.1.2) (u16_of d.1.1) d.2.

(** [argv\[0\]] is the file name of the module. *)
Definition argv0 (module_path fallback : string) : string :=
  default fallback (to_string_lossy <$> file_name module_path).
Definition base_argv_of (module_path name : string) (c : Container) : list string :=
  [argv0 module_path name] ++ default [] (ctr_command c) ++ default [] (ctr_args c).
Definition base_env_of (c : Container) : list (string * string) :=
  (λ v, (env_name v, default "" (env_value v))) <$> default [] (ctr_env c).

(** ** Runs *)

(** How a run of a module ends. *)
Inductive RunOutcome : Type :=
| LinkerFailed (e : string)
| InstantiateFailed (e : string)
| NoStart (e : string)
| Returned
| Exited (code : i32)
| Trapped (debug : string).

Definition i32_1 : i32 := @Bnd (-2147483648) 2147483648 1 eq_refl.

(** [run_once]: the exit code and what is added to the trap text. *)
Definition run_once (module_path : string) (outcome : RunOutcome) : i32 * list ascii :=
  let line (s : string) := bytes s ++ [nl] in
  match outcome with
  | LinkerFailed e => (i32_1, line ("wasm linker setup: " +:+ e))
  | InstantiateFailed e => (i32_1, line ("wasm instantiate " +:+ module_path +:+ ": " +:+ e))
  | NoStart e => (i32_1, line ("wasm: module has no _start: " +:+ e))
  | Returned => (i32_zero, [])
  | Exited code => (code, [])
  | Trapped e => (i32_1, line ("wasm trap in " +:+ module_path +:+ ": " +:+ e))
  end.

(** A connection in listener mode: what its instance is given, and what its
    end adds to the trap text. *)
Definition connection_env (e : WasmEntry) (peer_ip peer_port : string) : list (string * string) :=
  we_base_env e ++ [("REMOTE_ADDR", peer_ip); ("REMOTE_PORT", peer_port)].
Definition connection_argv (e : WasmEntry) : list string :=
  match we_base_argv e with [name] => [name; "/"] | argv => argv end.
Definition connection_trap (module_path : string) (outcome : RunOutcome) : list ascii :=
  let line (s : string) := bytes s ++ [nl] in
  match outcome with
  | LinkerFailed e => line ("wasm conn linker: " +:+ e)
  | InstantiateFailed e => line ("wasm conn instantiate: " +:+ e)
  | NoStart e => line ("wasm conn: no _start: " +:+ e)
  | Returned | Exited _ => []
  | Trapped e => line ("wasm conn trap in " +:+ module_path +:+ ": " +:+ e)
  end.

(** [accept_loop]: a connection gets an instance of its own, after a failure
    the loop sleeps. *)
Inductive AcceptAction : Type :=
| Serve (argv : list string) (env : list (string * string))
| SleepMillis (ms : Z).
Definition accept_action (e : WasmEntry) (accepted : result string (string * string)) : AcceptAction :=
  match accepted with
  | Ok (peer_ip, peer_port) => Serve (connection_argv e) (connection_env e peer_ip peer_port)
  | Err _ => SleepMillis 250
  end.
Definition accept_loop (e : WasmEntry) : list (result string (string * string)) → list AcceptAction :=
  fmap (accept_action e).

(** ** The standard streams of an instance

    [AsyncStdinAdapter] and [AsyncStdoutAdapter] give their end away once; a
    second [stream()] panics. *)
Definition StdioAdapter (A : Type) : Type := option A.
Definition adapter_new {A} (a : A) : StdioAdapter A := Some a.
Definition adapter_stream {A} : ST (StdioAdapter A) Failure A := λ s,
  match s with Some a => (Ok a, None) | None => (Err Panicked, None) end.
Definition adapter_isatty {A} (_ : StdioAdapter A) : bool := false.

(** [RingPipe] as an output stream: always room for its capacity. *)
Definition ring_write (bs : list ascii) : ST RingPipe string () := λ p, (Ok (), ring_append p bs).
Definition ring_flush : ST RingPipe string () := mret ().
Definition ring_check_write : ST RingPipe string nat := λ p, (Ok (rp_capacity p), p).
Definition ring_ready : ST RingPipe string () := mret ().

(** [TeeWriter::poll_write]: the whole buffer is mirrored, then the connection
    takes what it takes of it; [answer] is its answer. *)
Definition tee_poll_write (buf : list ascii) (answer : Poll Z) (mirror : RingPipe) : Poll Z * RingPipe :=
  (answer, ring_append mirror buf).
(** A caller writes a buffer: a poll that is pending is made again, what was
    not taken is offered again.  The result is what the connection got. *)
Fixpoint tee_write_all (buf : list ascii) (answers : list (Poll Z)) (mirror : RingPipe)
    : list ascii * RingPipe :=
  match buf, answers with
  | [], _ | _, [] => ([], mirror)
  | _, answer :: answers =>
      let '(answer, mirror) := tee_poll_write buf answer mirror in
      match answer with
      | Pending => tee_write_all buf answers mirror
      | Ready (Ok n) =>
          let '(got, mirror) := tee_write_all (drop (Z.to_nat n) buf) answers mirror in
          (take (Z.to_nat n) buf ++ got, mirror)
      | Ready (Err _) => ([], mirror)
      end
  end.

(** The end of a run-once task, and output of the module. *)
Definition finish_run (outcome : RunOutcome) (e : WasmEntry) : WasmEntry :=
  let '(code, trap) := run_once (we_module_path e) outcome in
  mk_WasmEntry (we_id e) (we_started_at e) (we_module_path e) (we_base_argv e) (we_base_env e)
    (Some code) (we_stdout e) (we_stderr e) (we_trap_text e ++ trap) (we_listener_mode e)
    ((λ _, true) <$> we_background e) (we_port_mappings e).
Definition write_stdout (bs : list ascii) (e : WasmEntry) : WasmEntry :=
  mk_WasmEntry (we_id e) (we_started_at e) (we_module_path e) (we_base_argv e) (we_base_env e)
    (we_exit e) (ring_append (we_stdout e) bs) (we_stderr e) (we_trap_text e) (we_listener_mode e)
    (we_background e) (we_port_mappings e).

(** [running]. *)
Definition wasm_running (e : WasmEntry) : bool :=
  if we_listener_mode e then existsb negb (we_background e)
  else bool_decide (we_exit e = None).

(** [join("\n")], and a final line feed unless the text is empty. *)
Fixpoint join_l (sep : ascii) (ls : list (list ascii)) : list ascii :=
  match ls with [] => [] | [l] => l | l :: ls => l ++ sep :: join_l sep ls end.
Definition join_lines (ls : list (list ascii)) : list ascii :=
  match join_l nl ls with [] => [] | s => s ++ [nl] end.

Section wasm.
Context {W : Type} `{Extern, Unicode, Machine W, !LogClock, !OciCrates}.
Context `{Files W, !Registry W, WasmHost W}.

(** ** The cache directory *)

Definition dirs_cache_dir (macos : bool) (w : W) : option string :=
  match env_var w "XDG_CACHE_HOME" with
  | Some xdg => Some xdg
  | None => home ← env_var w "HOME";
            Some (path_join home (if macos then "Library/Caches" else ".cache"))
  end.
Definition writable (p : string) : ST W string bool :=
  match parent p with
  | Some dir =>
      made ← attempt (F:=string) (fs_create_dir_all dir);
      match made with
      | Ok _ => ask (λ w, match fs_readonly w dir with Some ro => negb ro | None => false end)
      | Err _ => mret false
      end
  | None => mret false
  end.
Definition default_cache_root (macos : bool) : ST W string string :=
  let primary := "/var/lib/superkube/wasm" in
  ok ← writable primary;
  if ok : bool then mret primary
  else ask (λ w, match dirs_cache_dir macos w with
                 | Some cache => path_join cache "superkube-wasm"
                 | None => path_join (temp_dir w) "superkube-wasm"
                 end).
Definition with_context {A} (target : string) (m : ST W string A) : ST W Failure A :=
  lift_err (λ e, Failed ("wasm runtime: creating " +:+ target +:+ ": " +:+ e)) m.
Definition WasmRuntime_new (macos : bool) : ST W Failure WasmRuntime :=
  lift_err Failed engine_new;;
  root ← lift_err Failed (default_cache_root macos);
  with_context root (fs_create_dir_all root);;
  mret (mk_WasmRuntime root ∅ ∅).

(** ** Methods *)

Abbreviation R := (ST (W * WasmRuntime) Failure).

(** One listener per declared TCP port. *)
Definition bind_listener (d : Z * Z * string) : ST W Failure () :=
  if str_eqb d.2 "tcp" then
    lift_err (λ e, Failed ("wasm: bind 0.0.0.0:" +:+ pretty d.1.1 +:+ ": " +:+ e)) (tcp_bind d.1.1)
  else mret ().

(** The end of a creation: the entry under a fresh id. *)
Definition wasm_record (name : string) (entry : string → DateTime → WasmEntry) : R string :=
  u ← on_world_of Uuid_new_v4;
  now ← on_world_of Utc_now;
  let id := "wasm://" +:+ uuid_to_string u in
  modify_state (λ s, mk_WasmRuntime (wr_module_cache_root s) (<[id := entry id now]> (wr_containers s))
                       (<[name := id]> (wr_by_name s)));;
  mret id.

Definition wasm_create_and_start_container (name : string) (c : Container) : R string :=
  s ← get_state;
  module_path ← on_world_of (lift_err (λ f, match f with
      | Failed e => Failed ("wasm: resolving image " +:+ debug_str (ctr_image c) +:+ ": " +:+ e)
      | Panicked => Panicked
      end) (pull_wasm (ctr_image c) (wr_module_cache_root s)));
  on_world_of (lift_err Failed (module_from_file module_path));;
  let declared := declared_host_ports c in
  let listener_mode := match declared with [] => false | _ => true end in
  on_world_of (for_each declared bind_listener);;
  let background :=
    if listener_mode then (λ _, false) <$> List.filter (λ d, str_eqb d.2 "tcp") declared
    else [false] in
  wasm_record name (λ id now,
    {| we_id := id; we_started_at := now; we_module_path := module_path;
       we_base_argv := base_argv_of module_path name c; we_base_env := base_env_of c;
       we_exit := None; we_stdout := RingPipe_new LOG_CAPACITY;
       we_stderr := RingPipe_new LOG_CAPACITY; we_trap_text := [];
       we_listener_mode := listener_mode; we_background := background;
       we_port_mappings := port_mapping <$> declared |}).

Definition wasm_info (e : WasmEntry) : ContainerInfo :=
  {| ci_id := we_id e; ci_running := wasm_running e; ci_restart_count := i32_zero;
     ci_started_at := Some (we_started_at e); ci_exit_code := we_exit e; ci_ip := None;
     ci_port_mappings := we_port_mappings e |}.
Definition wasm_find_container (s : WasmRuntime) (name : string)
    : ST W Failure (option ContainerInfo) :=
  mret (wasm_info <$> (wr_by_name s !! name ≫= λ id, wr_containers s !! id)).

(** The text of the logs; [None] is the panic of [truncate]. *)
Definition wasm_render (e : WasmEntry) (options : LogOptions) : option (list ascii) :=
  let s := from_utf8_lossy
             (rp_buffer (we_stdout e) ++ rp_buffer (we_stderr e) ++ we_trap_text e) in
  let s := match lo_tail_lines options with
           | Some tail => join_lines (last_n (Z.to_nat (Z.max (val tail) 0)) (lines_l s))
           | None => s
           end in
  s ← match lo_limit_bytes options with
      | Some limit => truncate_to (Z.max (val limit) 0) s
      | None => Some s
      end;
  Some (if lo_timestamps options
        then join_lines ((λ l, bytes (rfc3339_nanos (we_started_at e)) ++ space :: l) <$> lines_l s)
        else s).
Definition wasm_get_logs (s : WasmRuntime) (id : string) (options : LogOptions)
    : ST W Failure string :=
  match wr_containers s !! id with
  | None => bail ("container " +:+ id +:+ " not found")
  | Some e => match wasm_render e options with
              | Some out => mret (of_bytes out)
              | None => panic
              end
  end.

Definition wasm_exec (s : WasmRuntime) (id : string) (cmd : list string) (_ : bool)
    : ST W Failure ExecSession :=
  match wr_containers s !! id with
  | None => bail ("container " +:+ id +:+ " not found")
  | Some e =>
      let argv := match cmd with
                  | [] => we_base_argv e
                  | _ => argv0 (we_module_path e) "module.wasm" :: cmd
                  end in
      mret {| es_argv := argv; es_env := we_base_env e; es_uid := None; es_gid := None;
              es_tty := false; es_exit := false |}
  end.

#[export] Instance wasm_runtime : Runtime W WasmRuntime := {|
  rt_name := "wasm";
  rt_create_and_start_container := wasm_create_and_start_container;
  rt_find_container := wasm_find_container;
  rt_remove_container := default_remove_container;
  rt_get_logs := wasm_get_logs;
  rt_stream_logs := default_stream_logs wasm_get_logs;
  rt_exec := wasm_exec |}.
End wasm.

(** ** What the buffer keeps *)

Lemma drop_sum {A} (l k : list A) n :
  drop n (l ++ k) = drop n l ++ drop (n - length l) k.
Proof. apply drop_app. Qed.

Lemma ring_append_tail p bs :
  (length (rp_buffer p) ≤ rp_capacity p)%nat →
  rp_buffer (ring_append p bs) = last_n (rp_capacity p) (rp_buffer p ++ bs).
Proof.
  intros Hl. unfold ring_append, last_n. simpl. rewrite length_app, drop_app.
  set (c := rp_capacity p) in *. set (b := rp_buffer p) in *.
  destruct (Nat.ltb_spec c (length b + length bs)); destruct (Nat.ltb_spec c (length bs)); try lia.
  - f_equal; [|f_equal; lia]. rewrite Nat.min_r by lia. rewrite !drop_ge by lia. done.
  - rewrite Nat.min_l by lia. f_equal. replace (_ - length b)%nat with 0%nat by lia. done.
  - replace (_ - c)%nat with 0%nat by lia. done.
Qed.

Lemma last_n_app {A} n (l k : list A) : last_n n (last_n n l ++ k) = last_n n (l ++ k).
Proof.
  unfold last_n. rewrite !length_app, !length_drop, !drop_app, !drop_drop, !length_drop.
  f_equal; f_equal; lia.
Qed.

Lemma length_last_n {A} n (l : list A) : (length (last_n n l) ≤ n)%nat.
Proof. unfold last_n. rewrite length_drop. lia. Qed.

(** C29. The output kept for the logs of a module is the last [capacity] bytes
    of everything it has written, whatever the sizes of the single writes. *)
Theorem ring_keeps_last_bytes capacity writes :
  rp_buffer (foldl ring_append (RingPipe_new capacity) writes) = last_n capacity (concat writes) ∧
  (length (rp_buffer (foldl ring_append (RingPipe_new capacity) writes)) ≤ capacity)%nat.
Proof.
  assert (Hgen : ∀ writes p seen, rp_buffer p = last_n (rp_capacity p) seen →
    rp_buffer (foldl ring_append p writes) = last_n (rp_capacity p) (seen ++ concat writes)).
  { clear. induction writes as [|bs writes IH]; intros p seen Hp; simpl; [by rewrite app_nil_r|].
    rewrite (IH _ (seen ++ bs)); [by rewrite <- app_assoc|].
    rewrite ring_append_tail by (rewrite Hp; apply length_last_n).
    by rewrite Hp, last_n_app. }
  rewrite (Hgen writes (RingPipe_new capacity) []) by done.
  split; [done|apply length_last_n].
Qed.

(** What the logs see of a connection is every buffer its stream offered: its
    output once if the connection takes each write as a whole, but a write that
    has to wait, or that is taken in parts, is in the log again and again. *)
Lemma tee_mirrors_whole_writes buf mirror :
  buf ≠ [] →
  tee_write_all buf [Ready (Ok (Z.of_nat (length buf)))] mirror = (buf, ring_append mirror buf).
Proof.
  intros Hb. destruct buf as [|c buf]; [done|]. cbn [tee_write_all tee_poll_write].
  rewrite Nat2Z.id, drop_all, firstn_all. cbn. by rewrite app_nil_r.
Qed.
Example tee_repeats_when_pending :
  let '(got, mirror) := tee_write_all (bytes "hello") [Pending; Ready (Ok 2); Ready (Ok 3)] (RingPipe_new 100) in
  got = bytes "hello" ∧ rp_buffer mirror = bytes "hellohellollo".
Proof. vm_compute. split; reflexivity. Qed.

(** A container whose host ports are all UDP is in listener mode without a
    listener: its module is never started and it never counts as running. *)
Lemma udp_only_never_runs e :
  we_listener_mode e = true → we_background e = [] → wasm_running e = false.
Proof. unfold wasm_running. by intros -> ->. Qed.
