(* ===== verification/NodeSamples.v ===== *)
(** * A machine to run a node on

    Instances of the classes that stand for the crates and the system calls of
    the node, on the kernel of [Network.v]; the witnesses of the node's
    theorems run on it.  Every request to libcontainer and the registry
    succeeds, images are empty, and processes end when they are told to. *)
From S2P Require Import Prelude RustStd Text Json External Reference Models Ipam Runtime.
From S2P Require Import ContainerLogs Files Process Image Bundle Network Embedded.

Local Open Scope Z_scope.

#[export] Instance ref_unicode : Unicode := {|
  to_lowercase := to_ascii_lowercase;
  debug_str s := of_bytes [ascii_of_nat 34] +:+ s +:+ of_bytes [ascii_of_nat 34] |}.

#[export] Instance ref_oci : OciCrates := {|
  Reference := string;
  reference_parse s := if str_eqb s "" then Err "empty" else Ok s;
  reference_whole s := s;
  reference_display s := s;
  IMAGE_LAYER_MEDIA_TYPE := "application/vnd.oci.image.layer.v1.tar";
  IMAGE_LAYER_GZIP_MEDIA_TYPE := "application/vnd.oci.image.layer.v1.tar+gzip";
  IMAGE_DOCKER_LAYER_GZIP_MEDIA_TYPE := "application/vnd.docker.image.rootfs.diff.tar.gzip";
  tar_entries _ _ := [];
  json_pretty v := bytes (json_print v) |}.

#[export] Instance ref_registry : Registry Kernel := {|
  registry_pull _ _ := mret (mk_ImageData [] []);
  tar_unpack_in _ _ _ _ := mret () |}.

#[export] Instance ref_spec_text : SpecText := {|
  spec_to_vec_pretty _ := [];
  spec_from_slice _ := None |}.

#[export] Instance ref_machine : Machine Kernel := {|
  m_now k := (sample_time (k_next k), k_add (λ _, []) 1 k);
  m_uuid k := (default Uuid_nil (checked (k_next k)), k_add (λ _, []) 1 k) |}.

(** Its processes are root; descriptors are not counted. *)
#[export] Instance kernel_posix : Posix Kernel := {|
  geteuid _ := @Bnd 0 4294967296 0 eq_refl;
  getegid _ := @Bnd 0 4294967296 0 eq_refl;
  isatty _ _ := false;
  sys_open _ _ := mret 3;
  sys_close _ k := k;
  sys_pipe2 _ := mret (4, 5);
  sys_dup _ := mret 6;
  sys_fcntl _ _ _ := mret 7;
  sys_ioctl _ _ := mret 8;
  reactor_register _ := mret () |}.

#[export] Existing Instance ref_errno_text.

#[export] Instance ref_host : LinuxHost Kernel := {|
  proc_exists _ _ := true;
  kill _ _ := mret ();
  await_exit _ _ k := (Some (as_i32 143), k);
  umount_detach _ := mret ();
  mount_overlay _ _ := mret ();
  run_cp _ := mret (true, "exit status: 0");
  container_delete _ := mret ();
  container_start _ _ _ _ := λ k, (Ok (k_next k), k_add (λ _, []) 1 k);
  tenant_start _ _ _ _ _ := λ k, (Ok (k_next k), k_add (λ _, []) 1 k) |}.

(** The host once the bridge is there. *)
Definition host_boot : Kernel := (ensure_bridge (ip 10 244 0 1) boot).2.
