(* ===== verification/EmbeddedOk.v ===== *)
(** * The addresses of the embedded engine

    Each container keeps the address it was given until its teardown has
    ended, through restarts, removals, failures and the teardowns that run
    detached. *)
From S2P Require Import Prelude RustStd Text Json External Models Ipam Runtime ContainerLogs Mock.
From S2P Require Import Files Process Image Bundle Network Embedded Reference NodeSamples.

Local Open Scope Z_scope.

(** The network of an entry has the address the allocator holds for it. *)
Definition entry_ok (i : Ipam) (e : ContainerEntry) : Prop :=
  ∀ net, ce_pod_net e = Some net →
    ∃ o, ipam_by_pod i !! ce_name e = Some o ∧ ipam_address i o = Some (pn_pod_ip net).

Record engine_ok (s : EmbeddedRuntime) : Prop := {
  eo_ipam : ipam_ok (er_ipam s);
  eo_prefix : ipam_prefix (er_ipam s) = POD_CIDR_PREFIX;
  eo_containers id e : er_containers s !! id = Some e →
    id = container_id (ce_name e) ∧ entry_ok (er_ipam s) e ∧
    er_pending_teardowns s !! ce_name e = None;
  eo_pending n e : er_pending_teardowns s !! n = Some e →
    ce_name e = n ∧ entry_ok (er_ipam s) e;
}.

(** No entry has the name: it may be released. *)
Definition engine_without (name : string) (s : EmbeddedRuntime) : Prop :=
  engine_ok s ∧ er_containers s !! container_id name = None ∧ er_pending_teardowns s !! name = None.

Lemma container_id_inj a b : container_id a = container_id b → a = b.
Proof. unfold container_id. by intros [=]. Qed.

Lemma new_engine_ok rootless : engine_ok (EmbeddedRuntime_new rootless).
Proof. split; simpl; [apply new_ok|done|intros ?? [=]..]. Qed.

Lemma ok_delete_container id s : engine_ok s → engine_ok (with_containers (delete id) s).
Proof. intros [Hi Hp Hc Ht]. split; simpl; [done|done| |done]. intros i e [_ He]%lookup_delete_Some. eauto. Qed.

Lemma ok_delete_pending n s : engine_ok s → engine_ok (with_pending (delete n) s).
Proof.
  intros [Hi Hp Hc Ht]. split; simpl; [done|done| |].
  - intros i e He. destruct (Hc i e He) as (-> & ? & Hn). split; [done|]. split; [done|].
    apply lookup_delete_None. by right.
  - intros m e [_ He]%lookup_delete_Some. eauto.
Qed.

(** A change of one entry that keeps its name and network. *)
Lemma ok_with_entry id f s :
  (∀ e, ce_name (f e) = ce_name e ∧ ce_pod_net (f e) = ce_pod_net e) →
  engine_ok s → engine_ok (with_entry id f s).
Proof.
  intros Hf [Hi Hp Hc Ht]. split; simpl; [done|done| |done].
  intros i e. unfold with_entry. simpl. destruct (decide (i = id)) as [->|].
  - rewrite lookup_alter_eq. intros (e' & He & ->)%fmap_Some.
    destruct (Hf e') as [Hn Hnet]. destruct (Hc id e' He) as (? & Hok & ?).
    rewrite Hn. split; [done|]. split; [|done]. intros net. rewrite Hn, Hnet. apply Hok.
  - rewrite lookup_alter_ne by done. apply Hc.
Qed.

Lemma entry_ok_other i i' e name :
  ce_name e ≠ name → ipam_prefix i' = ipam_prefix i →
  (∀ n, n ≠ name → ipam_by_pod i' !! n = ipam_by_pod i !! n) →
  entry_ok i e → entry_ok i' e.
Proof.
  intros Hne Hp Hs He net Hnet. destruct (He net Hnet) as (o & Ho & Ha). exists o.
  rewrite Hs by done. split; [done|]. unfold ipam_address in *. by rewrite Hp.
Qed.

(** A change of the address of a name that no entry has. *)
Lemma without_ipam name s i' :
  ipam_ok i' → ipam_prefix i' = ipam_prefix (er_ipam s) →
  (∀ n, n ≠ name → ipam_by_pod i' !! n = ipam_by_pod (er_ipam s) !! n) →
  engine_without name s → engine_without name (with_ipam (λ _, i') s).
Proof.
  intros Hok Hpre Hs ([Hi Hp Hc Ht] & Hnc & Hnt). split; [|done].
  split; simpl; [done|congruence| |].
  - intros id e He. destruct (Hc id e He) as (-> & Heo & Hpn). split; [done|]. split; [|done].
    apply (entry_ok_other (er_ipam s) _ _ name); [|done..]. intros Hn. rewrite Hn in *. congruence.
  - intros n e He. destruct (Ht n e He) as [<- Heo]. split; [done|].
    apply (entry_ok_other (er_ipam s) _ _ name); [|done..]. intros Hn. rewrite Hn in *. congruence.
Qed.

Lemma release_prefix i n : ipam_prefix (release i n) = ipam_prefix i.
Proof. unfold release. by destruct (ipam_by_pod i !! n). Qed.
Lemma release_other i n m : m ≠ n → ipam_by_pod (release i n) !! m = ipam_by_pod i !! m.
Proof.
  intros Hne. unfold release. destruct (ipam_by_pod i !! n); simpl; [|done].
  by rewrite lookup_delete_ne.
Qed.

Lemma without_release name s :
  engine_without name s → engine_without name (with_ipam (λ i, release i name) s).
Proof.
  intros Hs. apply (without_ipam name s (release (er_ipam s) name)); [|..|done].
  - apply (step_ok (er_ipam s)); [by destruct Hs as [[] _]|constructor].
  - apply release_prefix.
  - intros n. apply release_other.
Qed.

Lemma allocate_prefix i n : ipam_prefix (allocate i n).2 = ipam_prefix i.
Proof. unfold allocate. destruct (ipam_by_pod i !! n); [done|]. by destruct (free_octet i). Qed.
Lemma allocate_other i n m : m ≠ n → ipam_by_pod (allocate i n).2 !! m = ipam_by_pod i !! m.
Proof.
  intros Hne. unfold allocate. destruct (ipam_by_pod i !! n); [done|].
  destruct (free_octet i); simpl; [|done]. by rewrite lookup_insert_ne.
Qed.
Lemma allocate_holds i n a i' :
  allocate i n = (Some (Ok a), i') →
  ∃ o, ipam_by_pod i' !! n = Some o ∧ ipam_address i' o = Some a.
Proof.
  unfold allocate. destruct (ipam_by_pod i !! n) as [o|] eqn:Hn.
  - intros [= Ha <-]. apply fmap_Some in Ha as (a' & Ha & [= ->]). eauto.
  - destruct (free_octet i) as [o|]; [|done]. intros [= Ha <-].
    apply fmap_Some in Ha as (a' & Ha & [= ->]). exists o. simpl. by rewrite lookup_insert_eq.
Qed.

Section engine.
Context {W : Type} `{Extern, Machine W, !LogClock, !OciCrates, !SpecText}.
Context `{Files W, !Registry W, Netlink W, LinuxHost W, Posix W, !ErrnoText}.

Abbreviation St := (W * EmbeddedRuntime)%type.
Definition ok_st (ws : St) : Prop := engine_ok ws.2.
Definition without_st (name : string) (ws : St) : Prop := engine_without name ws.2.

Lemma on_world_triple {E A} (P : EmbeddedRuntime → Prop) (m : ST W E A) :
  triple (λ ws : St, P ws.2) (on_world_of m) (λ _ ws, P ws.2) (λ ws, P ws.2).
Proof. intros [w s] Hs. unfold on_world_of. by destruct (m w) as [[a|e] w']. Qed.

Lemma modify_triple {E} (P Q R : EmbeddedRuntime → Prop) f :
  (∀ s, P s → Q (f s)) →
  triple (E:=E) (λ ws : St, P ws.2) (modify_state f) (λ _ ws, Q ws.2) (λ ws, R ws.2).
Proof. intros Hf [w s] Hs. by apply Hf. Qed.

Lemma get_triple {E} (P R : EmbeddedRuntime → Prop) :
  triple (E:=E) (λ ws : St, P ws.2) get_state (λ s ws, ws.2 = s ∧ P s) (λ ws, R ws.2).
Proof. by intros [w s] Hs. Qed.

Lemma teardown_without entry :
  triple (E:=Failure) (without_st (ce_name entry)) (teardown (W:=W) entry)
    (λ _, without_st (ce_name entry)) (without_st (ce_name entry)).
Proof.
  unfold teardown. eapply triple_bind; [apply (on_world_triple (engine_without _))|intros u].
  eapply triple_bind; [|intros u1; apply (on_world_triple (engine_without _))].
  apply (modify_triple _ (engine_without _) (engine_without _)). apply without_release.
Qed.

Lemma await_triple name :
  triple ok_st (await_pending_teardown (W:=W) name)
    (λ _ ws, engine_ok ws.2 ∧ er_pending_teardowns ws.2 !! name = None) ok_st.
Proof.
  unfold await_pending_teardown. eapply triple_bind; [apply (get_triple engine_ok engine_ok)|].
  intros s. destruct (er_pending_teardowns s !! name) as [e|] eqn:He.
  - intros [w s'] [Hw Hok]. simpl in Hw. subst s'.
    destruct (eo_pending _ Hok name e He) as [<- Heo].
    assert (Hnc : er_containers s !! container_id (ce_name e) = None).
    { destruct (_ !! container_id _) as [e'|] eqn:Hc; [|done].
      destruct (eo_containers _ Hok _ _ Hc) as (Hid & _ & Hn).
      apply container_id_inj in Hid. congruence. }
    pose proof (teardown_without e (w, with_pending (delete (ce_name e)) s)) as Ht.
    assert (Hpre : without_st (ce_name e) (w, with_pending (delete (ce_name e)) s)).
    { split; [by apply ok_delete_pending|]. split; [done|]. apply lookup_delete_eq. }
    specialize (Ht Hpre). unfold mbind, st_bind. simpl.
    by destruct (teardown e _) as [[[]|f] [w' s']]; destruct Ht as (? & ? & ?).
  - apply triple_ret. intros [w s'] [Hw Hok]. simpl in *. by subst.
Qed.

Lemma replace_triple name :
  triple (λ ws : St, engine_ok ws.2 ∧ er_pending_teardowns ws.2 !! name = None)
    (replace_previous (container_id name)) (λ _, without_st name) ok_st.
Proof.
  unfold replace_previous. eapply triple_bind;
    [apply (get_triple (λ s, engine_ok s ∧ er_pending_teardowns s !! name = None) engine_ok)|].
  intros s. destruct (er_containers s !! container_id name) as [prev|] eqn:Hc.
  - intros [w s'] [Hw [Hok Hn]]. simpl in Hw. subst s'.
    destruct (eo_containers _ Hok _ _ Hc) as (Hid & _ & _). apply container_id_inj in Hid. subst.
    pose proof (teardown_without prev (w, with_containers (delete (container_id (ce_name prev))) s)) as Ht.
    assert (Hpre : without_st (ce_name prev)
      (w, with_containers (delete (container_id (ce_name prev))) s)).
    { split; [by apply ok_delete_container|]. simpl. split; [apply lookup_delete_eq|done]. }
    specialize (Ht Hpre). unfold mbind, st_bind. simpl.
    destruct (teardown prev _) as [[[]|f] [w' s']]; simpl in *; [done|]. apply Ht.
  - apply triple_ret. intros [w s'] [Hw [Hok Hn]]. simpl in *. by subst.
Qed.

(** The network a container is given holds the address of its name. *)
Definition connected (name : string) (net : option PodNetwork) (s : EmbeddedRuntime) : Prop :=
  engine_without name s ∧
  ∀ n, net = Some n → ∃ o, ipam_by_pod (er_ipam s) !! name = Some o ∧
                           ipam_address (er_ipam s) o = Some (pn_pod_ip n).

Lemma without_allocate name s :
  engine_without name s → engine_without name (with_ipam (λ _, (allocate (er_ipam s) name).2) s).
Proof.
  intros Hs. apply without_ipam; [|apply allocate_prefix|intros n; apply allocate_other|done].
  apply (step_ok (er_ipam s)); [by destruct Hs as [[] _]|constructor].
Qed.

Lemma connect_triple name :
  triple (without_st name) (connect_pod (W:=W) name) (λ net ws, connected name net ws.2)
    (without_st name).
Proof.
  unfold connect_pod. eapply (triple_bind _ _ _ _ (λ a ws, engine_without name ws.2 ∧
    ∃ o, ipam_by_pod (er_ipam ws.2) !! name = Some o ∧ ipam_address (er_ipam ws.2) o = Some a)).
  { intros [w s] Hs. unfold allocate_address. pose proof (without_allocate name s Hs) as Hs'.
    destruct (allocate (er_ipam s) name) as [[[a|msg]|] i'] eqn:Ha; [|done|done].
    apply allocate_holds in Ha. done. }
  intros a. eapply (triple_bind _ _ _ _ (λ _ ws, engine_without name ws.2 ∧
    ∃ o, ipam_by_pod (er_ipam ws.2) !! name = Some o ∧ ipam_address (er_ipam ws.2) o = Some a)).
  { intros [w s] Hs. unfold gateway_address. destruct (gateway (er_ipam s)); [done|]. apply Hs. }
  intros gw [w s] [Hs Ho]. unfold mbind, st_bind, attempt, on_world_of.
  destruct (setup_pod_network name a gw w) as [[n|e] w'] eqn:Hn.
  - apply setup_returns in Hn as ->. split; [done|]. intros n [= <-]. done.
  - unfold release_address, modify_state. split; [|by intros ? [=]].
    by apply without_release.
Qed.

Lemma insert_ok name s net now image pid rc log :
  connected name net s →
  engine_ok (with_containers
    (<[container_id name := mk_ContainerEntry name now image net pid rc None log]>) s).
Proof.
  intros [([Hi Hp Hc Ht] & Hnc & Hnt) Hnet]. split; simpl; [done|done| |done].
  intros id e He. apply lookup_insert_Some in He as [[<- <-]|[_ He]]; [|eauto].
  split; [done|]. split; [|done]. intros n Hn. by apply Hnet.
Qed.

Lemma create_keeps_ok name c :
  triple ok_st (embedded_create_and_start_container (W:=W) name c) (λ _, ok_st) ok_st.
Proof.
  assert (Hwo : ∀ ws : St, without_st name ws → ok_st ws) by (by intros [w s] [? _]).
  unfold embedded_create_and_start_container.
  eapply triple_bind; [apply await_triple|intros u].
  eapply triple_bind; [apply replace_triple|intros rc].
  eapply triple_bind.
  { eapply triple_conseq; [apply (on_world_triple (engine_without name))|done| |apply Hwo].
    intros x s. exact (λ h, h). }
  intros pulled. cbn beta. eapply triple_bind.
  { eapply triple_conseq; [apply (connect_triple name)|done| |apply Hwo]. intros x s. exact (λ h, h). }
  intros net. cbn beta. eapply triple_bind; [apply (get_triple (connected name net) engine_ok)|].
  intros s [w s'] [Hw Hs]. simpl in Hw. subst s'.
  unfold mbind, st_bind, attempt_err, on_world_of.
  destruct (build_and_start _ _ _ _ _ w) as [[[pid log]|[msg|]] w1]; simpl.
  - unfold Utc_now. destruct (m_now w1) as [now w2]. simpl. by apply insert_ok.
  - destruct (unmount_rootfs (bundle_of name) w1) as [[[]|f] w2]; [|apply Hs].
    assert (Hrel : engine_ok (with_ipam (λ i, release i name) s)) by apply without_release, Hs.
    destruct net as [n|]; [|exact Hrel].
    destruct (teardown_pod_network n w2) as [[[]|f] w3]; [exact Hrel|apply Hs].
  - apply Hs.
Qed.

Lemma embedded_step_ok s s' : embedded_step (W:=W) s s' → engine_ok s → engine_ok s'.
Proof.
  intros Hst Hok. destruct Hst as [s w name c|s w name|s w name|s id code|s id now st t|s id].
  - pose proof (create_keeps_ok name c (w, s) Hok) as Hc.
    by destruct (embedded_create_and_start_container name c (w, s)) as [[?|?] [??]].
  - unfold embedded_remove_container, mbind, st_bind. simpl.
    destruct (er_containers s !! container_id name) as [e|] eqn:He; [|done]. simpl.
    destruct (eo_containers _ Hok _ _ He) as (Hid & Heo & Hn). apply container_id_inj in Hid. subst.
    destruct Hok as [Hi Hp Hc Ht]. split; simpl; [done|done| |].
    + intros i e' [Hne He']%lookup_delete_Some. destruct (Hc i e' He') as (-> & ? & ?).
      split; [done|]. split; [done|]. rewrite lookup_insert_ne; [done|]. congruence.
    + intros n e' He'. apply lookup_insert_Some in He' as [[<- <-]|[_ He']]; [done|]. eauto.
  - pose proof (await_triple name (w, s) Hok) as Hc.
    destruct (await_pending_teardown name (w, s)) as [[?|?] [??]]; simpl in *; [by destruct Hc|done].
  - by apply ok_with_entry.
  - by apply ok_with_entry.
  - by apply ok_with_entry.
Qed.

Lemma embedded_reaches_ok s s' : embedded_reaches (W:=W) s s' → engine_ok s → engine_ok s'.
Proof. induction 1; [done|]. eauto using embedded_step_ok. Qed.

Lemma embedded_new_ok (w0 : W) s0 w1 : embedded_new w0 = (Ok s0, w1) → engine_ok s0.
Proof.
  unfold embedded_new. intros Hn. do 5 (apply bind_Ok in Hn as (? & ? & _ & Hn)).
  injection Hn as <- _. apply new_engine_ok.
Qed.

(** An entry of the engine: of a container or of a teardown under way. *)
Definition live_entry (s : EmbeddedRuntime) (e : ContainerEntry) : Prop :=
  (∃ id, er_containers s !! id = Some e) ∨ (∃ n, er_pending_teardowns s !! n = Some e).

Lemma live_entry_ok s e : engine_ok s → live_entry s e → entry_ok (er_ipam s) e.
Proof. intros Hok [[id He]|[n He]]; [apply (eo_containers _ Hok id e He)|apply (eo_pending _ Hok n e He)]. Qed.

Lemma live_entry_name s e1 e2 :
  engine_ok s → live_entry s e1 → live_entry s e2 → ce_name e1 = ce_name e2 → e1 = e2.
Proof.
  intros Hok L1 L2 Hn.
  destruct L1 as [[i1 L1]|[n1 L1]], L2 as [[i2 L2]|[n2 L2]].
  - destruct (eo_containers _ Hok _ _ L1) as (-> & _), (eo_containers _ Hok _ _ L2) as (-> & _).
    congruence.
  - destruct (eo_containers _ Hok _ _ L1) as (_ & _ & Hp), (eo_pending _ Hok _ _ L2) as [<- _].
    congruence.
  - destruct (eo_containers _ Hok _ _ L2) as (_ & _ & Hp), (eo_pending _ Hok _ _ L1) as [<- _].
    congruence.
  - destruct (eo_pending _ Hok _ _ L1) as [<- _], (eo_pending _ Hok _ _ L2) as [<- _]. congruence.
Qed.

Lemma pod_cidr_network : network_prefix POD_CIDR_PREFIX 10 244 0.
Proof. exists "10", "244", "0". repeat split; vm_compute; reflexivity. Qed.

Lemma live_address s e net :
  engine_ok s → live_entry s e → ce_pod_net e = Some net →
  ∃ o, ipam_by_pod (er_ipam s) !! ce_name e = Some o ∧ 2 <= o <= 254 ∧
       pn_pod_ip net = (10, 244, 0, o).
Proof.
  intros Hok He Hnet. destruct (live_entry_ok s e Hok He net Hnet) as (o & Ho & Ha).
  pose proof (io_range _ (eo_ipam _ Hok) _ _ Ho). exists o. split; [done|]. split; [done|].
  rewrite (address_Some _ 10 244 0) in Ha by (rewrite ?(eo_prefix _ Hok);
    apply pod_cidr_network || lia). congruence.
Qed.

(** C13. Whatever the engine has been asked to do since it was created, in whatever
    order its methods, the detached teardowns, the exits and the output of
    the processes come, and whatever the kernel, the registry and libcontainer
    answer: no two containers, running, stopped or still being torn down, have
    the same address, and every address is one of 10.244.0.2 to 10.244.0.254. *)
Theorem embedded_addresses_unique w0 s0 w1 s e1 e2 net1 net2 :
  embedded_new (W:=W) w0 = (Ok s0, w1) →
  embedded_reaches (W:=W) s0 s →
  live_entry s e1 → live_entry s e2 → ce_pod_net e1 = Some net1 → ce_pod_net e2 = Some net2 →
  (pn_pod_ip net1 = pn_pod_ip net2 → e1 = e2) ∧
  ∃ o, pn_pod_ip net1 = (10, 244, 0, o) ∧ 2 <= o <= 254.
Proof.
  intros Hnew Hr He1 He2 Hn1 Hn2.
  pose proof (embedded_reaches_ok _ _ Hr (embedded_new_ok _ _ _ Hnew)) as Hok.
  destruct (live_address s e1 net1 Hok He1 Hn1) as (o1 & Ho1 & Hr1 & Ha1).
  destruct (live_address s e2 net2 Hok He2 Hn2) as (o2 & Ho2 & Hr2 & Ha2).
  split; [|by exists o1]. intros Heq. apply (live_entry_name s); [done..|].
  apply (io_once _ (eo_ipam _ Hok) _ _ o1); [done|]. congruence.
Qed.
End engine.

(** ** On a concrete machine *)

(** The host once the engine was created: the bridge and its rules. *)
Definition host_up : Kernel := (embedded_new boot).2.
Lemma embedded_new_runs : embedded_new boot = (Ok (EmbeddedRuntime_new None), host_up).
Proof. vm_compute. reflexivity. Qed.

Definition start_one (name : string) (ws : Kernel * EmbeddedRuntime) : Kernel * EmbeddedRuntime :=
  (embedded_create_and_start_container name (sample_container None None None) (ws.1, ws.2)).2.
Definition two_containers : Kernel * EmbeddedRuntime :=
  start_one "web-1-web" (start_one "web-0-web" (host_up, EmbeddedRuntime_new None)).

Lemma two_containers_reached :
  embedded_reaches (W:=Kernel) (EmbeddedRuntime_new None) two_containers.2.
Proof.
  unfold two_containers. eapply rtc_l.
  { apply (step_create (W:=Kernel) (EmbeddedRuntime_new None) host_up "web-0-web"). }
  eapply rtc_l; [|apply rtc_refl].
  apply (step_create (W:=Kernel) (start_one "web-0-web" (host_up, EmbeddedRuntime_new None)).2
           (start_one "web-0-web" (host_up, EmbeddedRuntime_new None)).1).
Qed.

Lemma embedded_addresses_unique_witness :
  let s := two_containers.2 in
  ∃ e1 e2 net1 net2,
    er_containers s !! "embedded://web-0-web" = Some e1 ∧ ce_pod_net e1 = Some net1 ∧
    er_containers s !! "embedded://web-1-web" = Some e2 ∧ ce_pod_net e2 = Some net2 ∧
    ipv4_to_string (pn_pod_ip net1) = "10.244.0.2" ∧
    (pn_pod_ip net1 = pn_pod_ip net2 → e1 = e2).
Proof.
  intros s. do 4 eexists. do 5 (split; [vm_compute; reflexivity|]).
  apply (embedded_addresses_unique (W:=Kernel) boot (EmbeddedRuntime_new None) host_up s).
  - exact embedded_new_runs.
  - exact two_containers_reached.
  - left. exists "embedded://web-0-web". vm_compute. reflexivity.
  - left. exists "embedded://web-1-web". vm_compute. reflexivity.
  - reflexivity.
  - reflexivity.
Defined.
