(* ===== verification/Docker.v ===== *)
(** * The Docker engine ([src/src/node/runtime/docker.rs])

    Containers of the local Docker daemon.  The daemon is reached through the
    crate bollard, whose calls are the class [Bollard]. *)
From S2P Require Import Prelude RustStd Text Json External Models Runtime ContainerLogs Mock.

Local Open Scope Z_scope.

Definition ID_PREFIX : string := "docker://".

(** ** The daemon *)

Record PortBinding : Type := mk_PortBinding {
  pb_host_ip : option string;
  pb_host_port : option string;
}.
(** [HostConfig] and [Config], as far as the code fills them. *)
Record HostConfig : Type := mk_HostConfig {
  hc_port_bindings : gmap string (option (list PortBinding));
}.
Record Config : Type := mk_Config {
  cfg_image : option string;
  cfg_hostname : option string;
  cfg_entrypoint : option (list string);
  cfg_cmd : option (list string);
  cfg_env : option (list string);
  cfg_working_dir : option string;
  cfg_exposed_ports : option (gset string);
  cfg_host_config : option HostConfig;
}.
(** What [inspect_container] answers. *)
Record InspectState : Type := mk_InspectState {
  is_running : option bool;
  is_exit_code : option i64;
  is_started_at : option string;
}.
Record NetworkSettings : Type := mk_NetworkSettings {
  ns_ports : option (gmap string (option (list PortBinding)));
  ns_networks : option (gmap string (option string));
  ns_ip_address : option string;
}.
Record Inspect : Type := mk_Inspect {
  in_id : option string;
  in_state : option InspectState;
  in_restart_count : option i64;
  in_network_settings : option NetworkSettings;
}.
Record LogsOptions : Type := mk_LogsOptions {
  lgo_follow : bool;
  lgo_timestamps : bool;
  lgo_tail : string;
}.
(** An error of the daemon, with the status if it is the daemon's own. *)
Record BollardError : Type := mk_BollardError {
  be_status_code : option Z;
  be_text : string;
}.

(** [create_image] gives the errors of its stream, [logs] the messages and
    then perhaps an error; a session of [start_exec] is attached or not. *)
Class Bollard (W : Type) : Type := {
  connect_and_ping : ST W string ();
  create_image : string → ST W BollardError ();
  create_container : string → Config → ST W BollardError string;
  start_container : string → ST W BollardError ();
  inspect_container : string → ST W BollardError Inspect;
  logs : string → LogsOptions → W → (list (list ascii) * option string) * W;
  logs_follow : string → LogsOptions → W → LogStream * W;
  create_exec : string → list string → bool → ST W BollardError string;
  start_exec : string → ST W BollardError bool;
}.
#[global] Hint Mode Bollard ! : typeclass_instances.

(** ** Translations *)

Definition strip (id : string) : string := default id (strip_prefix ID_PREFIX id).

(** [s.parse::<i32>()]. *)
Definition parse_i32 (s : string) : option i32 := parse_i64 s ≫= checked.

Definition docker_port (key : string) (bindings : option (list PortBinding)) : list PortMapping :=
  let '(port, protocol) := splitn2 "/" key in
  match parse_i32 port with
  | None => []
  | Some container_port =>
      omap (λ b, hp ← (pb_host_port b ≫= parse_unsigned 65535) ≫= checked;
                 Some (mk_PortMapping container_port hp (default "tcp" protocol)))
        (default [] bindings)
  end.

Definition docker_protocol (p : option Protocol) : string :=
  match p with Some Protocol_UDP => "udp" | _ => "tcp" end.
Definition docker_port_key (p : ContainerPort) : string :=
  pretty (val (cp_container_port p)) +:+ "/" +:+ docker_protocol (cp_protocol p).
Definition docker_bindings (c : Container) : gmap string (option (list PortBinding)) :=
  foldl (λ m p, <[docker_port_key p := Some [mk_PortBinding (Some "0.0.0.0") None]]> m) ∅
    (default [] (ctr_ports c)).

Definition docker_config (name : string) (c : Container) : Config :=
  let bindings := docker_bindings c in
  {| cfg_image := Some (ctr_image c);
     cfg_hostname := Some name;
     cfg_entrypoint := ctr_command c;
     cfg_cmd := ctr_args c;
     cfg_env := map (λ v, env_name v +:+ "=" +:+ default "" (env_value v)) <$> ctr_env c;
     cfg_working_dir := ctr_working_dir c;
     cfg_exposed_ports := if bool_decide (bindings = ∅) then None else Some (dom bindings);
     cfg_host_config := if bool_decide (bindings = ∅) then None
                        else Some (mk_HostConfig bindings) |}.

Definition non_empty (s : option string) : option string :=
  s ← s; if str_eqb s "" then None else Some s.

Section docker.
Context {W : Type} `{Extern, !HashOrder, Bollard W}.

(** The engine's own state is its connection. *)
Abbreviation D := (ST (W * ()) Failure).

Definition DockerRuntime_new : ST W Failure () :=
  lift_err Failed connect_and_ping.

Definition parse_docker_ports (ports : gmap string (option (list PortBinding)))
    : list PortMapping :=
  kv ← hash_order ports; docker_port kv.1 kv.2.

Definition call {A} (what : string) (m : ST W BollardError A) : ST W Failure A :=
  lift_err (λ e, Failed (what +:+ ": " +:+ be_text e)) m.

Definition docker_create_and_start_container (name : string) (c : Container) : D string :=
  on_world_of (
    call ("docker pull " +:+ ctr_image c) (create_image (ctr_image c));;
    id ← call ("docker create " +:+ name) (create_container name (docker_config name c));
    call ("docker start " +:+ name) (start_container id);;
    mret (ID_PREFIX +:+ id)).

(** Docker writes the zero time for a container that never started. *)
Definition docker_started_at (s : option string) : option DateTime :=
  s ← s;
  if str_eqb s "" || str_eqb s "0001-01-01T00:00:00Z" then None else parse_from_rfc3339 s.

Definition docker_ip (ns : NetworkSettings) : option string :=
  match m ← ns_networks ns; head (omap (λ kv, non_empty kv.2) (hash_order m)) with
  | Some ip => Some ip
  | None => non_empty (ns_ip_address ns)
  end.

Definition docker_info (i : Inspect) : ContainerInfo := {|
  ci_id := ID_PREFIX +:+ default "" (in_id i);
  ci_running := default false (s ← in_state i; is_running s);
  ci_restart_count := as_i32 (default 0 (val <$> in_restart_count i));
  ci_started_at := s ← in_state i; docker_started_at (is_started_at s);
  ci_exit_code := s ← in_state i; (λ c : i64, as_i32 (val c)) <$> is_exit_code s;
  ci_ip := in_network_settings i ≫= docker_ip;
  ci_port_mappings :=
    default [] (ns ← in_network_settings i; parse_docker_ports <$> ns_ports ns) |}.

Definition docker_find_container (_ : ()) (name : string)
    : ST W Failure (option ContainerInfo) := λ w,
  match inspect_container name w with
  | (Ok i, w') => (Ok (Some (docker_info i)), w')
  | (Err e, w') =>
      (if bool_decide (be_status_code e = Some 404) then Ok None
       else Err (Failed ("docker find_container " +:+ name +:+ ": " +:+ be_text e)), w')
  end.

Definition docker_tail (options : LogOptions) : string :=
  match lo_tail_lines options with Some n => pretty (val n) | None => "all" end.

(** A line is dropped if its stamp is readable and too old. *)
Definition since_line (since : DateTime) (line : string) : bool :=
  match option_bind _ _ parse_from_rfc3339 (head (split_whitespace line)) with
  | Some t => val since <=? val t
  | None => true
  end.
Definition filter_since (options : LogOptions) (out : string) : string :=
  match lo_since_time options with
  | Some since =>
      if lo_timestamps options then
        String.concat "" ((λ l, l +:+ of_bytes [nl]) <$>
          List.filter (since_line since) (lines out))
      else out
  | None => out
  end.

Definition docker_get_logs (_ : ()) (container_id : string) (options : LogOptions)
    : ST W Failure string := λ w,
  let '((messages, error), w') :=
    logs (strip container_id) (mk_LogsOptions false (lo_timestamps options) (docker_tail options)) w in
  (match error with
   | Some e => Err (Failed ("docker logs " +:+ container_id +:+ ": " +:+ e))
   | None =>
       let out := filter_since options (of_bytes (m ← messages; from_utf8_lossy m)) in
       match lo_limit_bytes options with
       | None => Ok out
       | Some limit => match truncate_to (as_usize limit) (bytes out) with
                       | Some out => Ok (of_bytes out)
                       | None => Err Panicked
                       end
       end
   end, w').

Definition docker_stream_logs (_ : ()) (container_id : string) (options : LogOptions)
    : ST W Failure LogStream := λ w,
  let '(stream, w') :=
    logs_follow (strip container_id)
      (mk_LogsOptions true (lo_timestamps options) (docker_tail options)) w in
  (Ok stream, w').

(** The exit code will be asked for once the session ends. *)
Definition docker_exec (_ : ()) (container_id : string) (cmd : list string) (tty : bool)
    : ST W Failure ExecSession :=
  exec ← call "docker create_exec" (create_exec (strip container_id) cmd tty);
  attached ← call "docker start_exec" (start_exec exec);
  if attached : bool then mret (mk_ExecSession cmd [] None None tty true)
  else bail "docker exec detached unexpectedly".

#[export] Instance docker_runtime : Runtime W () := {|
  rt_name := "docker";
  rt_create_and_start_container := docker_create_and_start_container;
  rt_find_container := docker_find_container;
  rt_remove_container := default_remove_container;
  rt_get_logs := docker_get_logs;
  rt_stream_logs := docker_stream_logs;
  rt_exec := docker_exec |}.
End docker.
