(* ===== verification/RuntimeOk.v ===== *)
(** * Calls reach the engine that made the container

    An engine puts its scheme in front of the ids it makes; the multiplexer
    reads it back. *)
From S2P Require Import Prelude RustStd Text Json External Models Error Runtime ContainerLogs Mock.
From S2P Require Import Files Process Image Bundle Network Embedded Wasm Docker Reference NodeSamples.

(** What an engine promises to the multiplexer. *)
Class MintsIds {W S : Type} (R : Runtime W S) : Prop :=
  mints name c p id p' :
    @rt_create_and_start_container W S R name c p = (Ok id, p') →
    scheme_engine (id_scheme id) = @rt_name W S R.

(** An id is a scheme and what follows the first separator. *)
Lemma id_scheme_app scheme rest :
  ":"%char ∉ bytes scheme → id_scheme (scheme +:+ "://" +:+ rest) = scheme.
Proof.
  intros Hs. unfold id_scheme, split_once_str. rewrite bytes_app.
  assert (split_once_str_l (bytes "://") (bytes scheme ++ bytes ("://" +:+ rest)) =
          Some (bytes scheme, bytes rest)) as E; [|by rewrite E; simpl; rewrite of_bytes_bytes].
  revert Hs. generalize (bytes scheme) as l. induction l as [|c l IH]; intros Hl.
  - reflexivity.
  - rewrite not_elem_of_cons in Hl. destruct Hl as [Hc Hl]. specialize (IH Hl).
    change ((c :: l) ++ bytes ("://" +:+ rest)) with (c :: (l ++ bytes ("://" +:+ rest))).
    cbn [split_once_str_l]. rewrite IH. cbn [strip_prefix_l bytes].
    destruct (Ascii.eqb_spec ":" c); [done|reflexivity].
Qed.

(** ** The engines keep the promise *)

Section implementations.
Context {W : Type} `{Extern, !Unicode, !HashOrder, Machine W, !LogClock, !OciCrates, !SpecText}.
Context `{Files W, !Registry W, Netlink W, LinuxHost W, Posix W, !ErrnoText}.
Context `{WasmHost W, Bollard W}.

(** The last step of a computation decides its result. *)
Lemma bind_result {S E A B} (m : ST S E A) (f : A → ST S E B) (P : B → Prop) :
  (∀ a s b s', f a s = (Ok b, s') → P b) → ∀ s b s', (m ≫= f) s = (Ok b, s') → P b.
Proof. intros Hf s b s' (a & s1 & _ & H')%bind_Ok. by eapply Hf. Qed.
Lemma ret_result {S E A} (a : A) (P : A → Prop) (s : S) b s' :
  P a → (mret a : ST S E A) s = (Ok b, s') → P b.
Proof. by intros ? [= <- _]. Qed.

(** An id made of a scheme without a colon. *)
Ltac minted scheme :=
  let Hno := fresh in
  assert (Hno : ":"%char ∉ bytes scheme) by (apply (bool_decide_unpack _); vm_compute; exact I);
  exact (f_equal scheme_engine (id_scheme_app scheme _ Hno)).

#[export] Instance mock_mints : MintsIds (W:=W) mock_runtime.
Proof.
  intros name c p id p'. revert p id p'. apply (bind_result _ _ (λ id, _ = _)).
  intros u. apply (bind_result _ _ (λ id, _ = _)). intros now.
  apply (bind_result _ _ (λ id, _ = _)). intros _ p id p' [= <- _]. minted "containerd".
Qed.

Ltac result_steps :=
  repeat (apply (bind_result _ _ (λ id, scheme_engine (id_scheme id) = _)); intros ?).

#[export] Instance wasm_mints : MintsIds (W:=W) wasm_runtime.
Proof.
  intros name c p id p'. revert p id p'. result_steps.
  intros p id p' [= <- _]. minted "wasm".
Qed.

#[export] Instance docker_mints : MintsIds (W:=W) docker_runtime.
Proof.
  intros name c [w u] id p'. simpl. unfold docker_create_and_start_container, on_world_of.
  match goal with |- context [?m w] => destruct (m w) as [r w'] eqn:E end.
  intros [= -> _]. revert w id w' E. result_steps.
  intros w id w' [= <- _]. minted "docker".
Qed.

#[export] Instance embedded_mints : MintsIds (W:=W) embedded_runtime.
Proof.
  intros name c p id p'. revert p id p'. unfold rt_create_and_start_container, embedded_runtime.
  unfold embedded_create_and_start_container. cbv zeta. result_steps.
  match goal with a : result string _ |- _ => destruct a as [[pid log]|e] end.
  - result_steps. intros p id p' [= <- _]. minted "embedded".
  - result_steps. intros p id p' [=].
Qed.
End implementations.

(** ** The multiplexer *)

(** An engine under its own name that mints its ids. *)
Definition well_named {W} (e : Engine W) : Prop :=
  MintsIds (en_runtime e) ∧ @rt_name _ _ (en_runtime e) = en_name e.

(** The first engine of a name stays the first when engines only change
    their states. *)
Lemma list_find_name {W} (l : list (Engine W)) name i e e' :
  list_find (λ e, str_eqb (en_name e) name = true) l = Some (i, e) →
  en_name e' = en_name e →
  list_find (λ e, str_eqb (en_name e) name = true) (<[i := e']> l) = Some (i, e').
Proof.
  rewrite !list_find_Some. intros (Hi & Hname & Hfirst) He'.
  split; [|split; [by rewrite He'|]].
  - apply list_lookup_insert_eq. by eapply lookup_lt_Some.
  - intros j e0 Hj Hlt. rewrite list_lookup_insert_ne in Hj by lia. by eapply Hfirst.
Qed.


(** ** On a concrete node *)

Definition one_engine : Engines Kernel :=
  mk_Engines "mock" [mk_Engine "mock" ContainerdRuntime mock_runtime ContainerdRuntime_new].

Definition first_id : string := "containerd://00000000-0000-0000-0000-000000000002".
Definition after_create : result Failure string * (Kernel * Engines Kernel) :=
  create_for_class (Some "mock") "web-app" (sample_container None None None) (boot, one_engine).

