(* ===== verification/Agent.v ===== *)
(** * The node agent ([src/src/node/agent.rs], up to its HTTP server)

    The agent registers its node, keeps the containers of the pods bound to
    the node running and reports their status.  Its requests to the API server
    are the class [HttpClient], the programs it asks about the machine the
    class [Commands]; the containers are those of [Runtime.Engines]. *)
From S2P Require Import Prelude RustStd Text Json External Models Wire Error Runtime Files.

Local Open Scope Z_scope.

(** ** The world of the agent *)

Inductive Method : Type := GET | POST | PUT.

(** A response: its status, and the body or the failure of reading it. *)
Record Response : Type := mk_Response {
  resp_status : Z;
  resp_body : result string string;
}.

(** [reqwest::Client]; a request has a method, an address and a body. *)
Class HttpClient (W : Type) : Type := {
  http_send : Method → string → option string → ST W string Response;
  http_decode_error : string → string;
  http_status_display : Z → string;
}.
#[global] Hint Mode HttpClient ! : typeclass_instances.

(** [std::process::Command] run to its end, [UdpSocket] connected to an
    address, and [available_parallelism]. *)
Class Commands (W : Type) : Type := {
  command_output : string → list string → ST W string (bool * list ascii);
  udp_local_ip : string → string → ST W string string;
  available_parallelism : ST W string Z;
}.
#[global] Hint Mode Commands ! : typeclass_instances.

(** The target of the build: [cfg(target_os)] and [std::env::consts]. *)
Class Target := {
  target_os : Os;
  const_OS : string;
  const_ARCH : string;
}.
Definition CARGO_PKG_VERSION : string := "0.1.0".

(** ** State *)

Record AgentState (W : Type) : Type := mk_AgentState {
  as_name : string;
  as_labels : gmap string string;
  as_server_url : string;
  as_runtime : Engines W;
  as_pod_cidr_prefix : string;
  as_containers : gmap Uuid string;
  as_pod_containers : gmap (string * string * string) string;
  as_pod_ports : gmap (string * string) (list PortMapping);
  as_pod_ips : gmap (string * string) string;
}.
Arguments mk_AgentState {W}.
Arguments as_name {W}.
Arguments as_labels {W}.
Arguments as_server_url {W}.
Arguments as_runtime {W}.
Arguments as_pod_cidr_prefix {W}.
Arguments as_containers {W}.
Arguments as_pod_containers {W}.
Arguments as_pod_ports {W}.
Arguments as_pod_ips {W}.

Section updates.
Context {W : Type}.
Implicit Type s : AgentState W.

Definition with_runtime (r : Engines W) s : AgentState W :=
  mk_AgentState (as_name s) (as_labels s) (as_server_url s) r (as_pod_cidr_prefix s)
    (as_containers s) (as_pod_containers s) (as_pod_ports s) (as_pod_ips s).
Definition with_indexes f g h k s : AgentState W :=
  mk_AgentState (as_name s) (as_labels s) (as_server_url s) (as_runtime s) (as_pod_cidr_prefix s)
    (f (as_containers s)) (g (as_pod_containers s)) (h (as_pod_ports s)) (k (as_pod_ips s)).
End updates.

(** ** Helpers *)

Definition pod_cidr_to_prefix (cidr : string) : string :=
  let addr_part := default cidr (head (split "/" cidr)) in
  match split "." addr_part with
  | [a; b; c; d] =>
      if forallb (λ o, match parse_u8 o with Some _ => true | None => false end) [a; b; c; d]
      then a +:+ "." +:+ b +:+ "." +:+ c
      else "10.244.0"
  | _ => "10.244.0"
  end.

Definition KI : Z := 1024.
Definition MI : Z := 1024 * KI.
Definition GI : Z := 1024 * MI.
Definition TI : Z := 1024 * GI.
Definition format_quantity (bytes : Z) : string :=
  if bytes mod TI =? 0 then pretty (bytes / TI) +:+ "Ti"
  else if bytes mod GI =? 0 then pretty (bytes / GI) +:+ "Gi"
  else if bytes mod MI =? 0 then pretty (bytes / MI) +:+ "Mi"
  else if bytes mod KI =? 0 then pretty (bytes / KI) +:+ "Ki"
  else pretty bytes.

(** [kb * 1024] on a [u64], which wraps in a release build. *)
Definition kb_to_bytes (kb : Z) : Z := wrap 0 (u64_max + 1) (kb * 1024).

(** What [df -Pk /], [/proc/meminfo] and [/etc/os-release] say. *)
Definition df_capacity (out : string) : option string :=
  line ← lines out !! 1%nat;
  word ← split_whitespace line !! 1%nat;
  kb ← parse_u64 word;
  Some (format_quantity (kb_to_bytes kb)).

(** The first line with the prefix decides, readable or not. *)
Fixpoint mem_total (ls : list string) : option Z :=
  match ls with
  | [] => None
  | line :: ls =>
      match strip_prefix "MemTotal:" line with
      | Some rest =>
          word ← head (split_whitespace rest);
          kb ← parse_u64 word;
          Some (kb_to_bytes kb)
      | None => mem_total ls
      end
  end.

Fixpoint pretty_name (ls : list string) : option string :=
  match ls with
  | [] => None
  | line :: ls =>
      match strip_prefix "PRETTY_NAME=" line with
      | Some rest => Some (trim_matches (ascii_of_nat 34) rest)
      | None => pretty_name ls
      end
  end.

Definition container_state (info : ContainerInfo) : ContainerState :=
  if ci_running info then
    {| cstate_waiting := None;
       cstate_running := Some (mk_ContainerStateRunning (ci_started_at info));
       cstate_terminated := None |}
  else
    match ci_exit_code info with
    | Some exit =>
        {| cstate_waiting := None;
           cstate_running := None;
           cstate_terminated := Some
             {| cst_exit_code := exit;
                cst_signal := None;
                cst_reason := Some (if val exit =? 0 then "Completed" else "Error");
                cst_message := None;
                cst_started_at := ci_started_at info;
                cst_finished_at := None;
                cst_container_id := Some (ci_id info) |} |}
    | None =>
        {| cstate_waiting := Some (mk_ContainerStateWaiting (Some "ContainerCreating") None);
           cstate_running := None;
           cstate_terminated := None |}
    end.

Definition failed_container_status (c : Container) (err : string) : ContainerStatus := {|
  cs_name := ctr_name c;
  cs_ready := false;
  cs_restart_count := as_i32 0;
  cs_image := ctr_image c;
  cs_image_id := ctr_image c;
  cs_container_id := None;
  cs_state := Some
    {| cstate_waiting := Some (mk_ContainerStateWaiting (Some "CreateContainerError") (Some err));
       cstate_running := None;
       cstate_terminated := None |};
  cs_last_state := None;
  cs_started := Some false |}.

Definition observed_status (c : Container) (info : ContainerInfo) : ContainerStatus := {|
  cs_name := ctr_name c;
  cs_ready := ci_running info;
  cs_restart_count := ci_restart_count info;
  cs_image := ctr_image c;
  cs_image_id := ctr_image c;
  cs_container_id := Some (ci_id info);
  cs_state := Some (container_state info);
  cs_last_state := None;
  cs_started := Some (ci_running info) |}.

(** ** The paths of the API server's resources *)

Definition nodes_path : string := "/api/v1/nodes".
Definition node_path (name : string) : string := "/api/v1/nodes/" +:+ name.
Definition pods_path : string := "/api/v1/pods".
Definition events_path (namespace : string) : string :=
  "/api/v1/namespaces/" +:+ namespace +:+ "/events".
Definition status_path (namespace name : string) : string :=
  "/api/v1/namespaces/" +:+ namespace +:+ "/pods/" +:+ name +:+ "/status".

Section agent.
Context {W : Type} `{Extern, !Unicode, !HashOrder, !Target}.
Context `{Machine W, Files W, HttpClient W, Commands W}.

Abbreviation A := (ST (W * AgentState W) Failure).
Abbreviation web m := (on_world_of (lift_err Failed m)).

(** A method of the engines, which are part of the state. *)
Definition on_runtime {X} (m : ST (W * Engines W) Failure X) : A X := λ '(w, s),
  let '(r, (w', es)) := m (w, as_runtime s) in (r, (w', with_runtime es s)).
Definition find_container (name : string) : A (option ContainerInfo) := λ '(w, s),
  let '(r, w') := Engines_find_container (as_runtime s) name w in (r, (w', s)).

(** [is_success], [text().await.unwrap_or_default()] and [json().await?]. *)
Definition is_success (r : Response) : bool := (200 <=? resp_status r) && (resp_status r <? 300).
Definition resp_text (r : Response) : string :=
  match resp_body r with Ok b => to_string_lossy b | Err _ => "" end.
Definition resp_json {T} `{Json T} (r : Response) : result string T :=
  match resp_body r with
  | Ok b => match json_parse b ≫= from_value with
            | Some v => Ok v
            | None => Err (http_decode_error (W:=W) b)
            end
  | Err e => Err e
  end.
Definition json_body {T} `{Json T} (x : T) : option string := Some (json_print (to_value x)).

(** ** The Node object *)

(** [String::from_utf8(out.stdout).ok()?] of a program that succeeded. *)
Definition stdout_of {E} (program : string) (args : list string) : ST W E (option string) :=
  r ← attempt (command_output program args);
  mret (match r with
        | Ok (true, out) => if utf8_valid out then Some (of_bytes out) else None
        | _ => None
        end).
Definition read_to_string {E} (path : string) : ST W E (option string) :=
  r ← attempt (fs_read path);
  mret (match r with
        | Ok b => if utf8_valid b then Some (of_bytes b) else None
        | Err _ => None
        end).

Definition detect_ephemeral_storage {E} : ST W E (option string) :=
  out ← stdout_of "df" ["-Pk"; "/"];
  mret (out ≫= df_capacity).
Definition uname_field {E} (flag : string) : ST W E (option string) :=
  out ← stdout_of "uname" [flag];
  mret (s ← out; if str_eqb (trim s) "" then None else Some (trim s)).
Definition detect_os_image {E} : ST W E string :=
  match target_os with
  | Linux => content ← read_to_string "/etc/os-release";
             mret (default const_OS (content ≫= λ c, pretty_name (lines c)))
  | MacOS => out ← stdout_of "sw_vers" ["-productVersion"];
             mret (default const_OS ((λ v, "macOS " +:+ trim v) <$> out))
  | OtherOs => mret const_OS
  end.
Definition detect_internal_ip {E} : ST W E (option string) :=
  r ← attempt (udp_local_ip "0.0.0.0:0" "8.8.8.8:80");
  mret (result_ok r).
Definition detect_cpu_count {E} : ST W E Z :=
  r ← attempt available_parallelism;
  mret (default 1 (result_ok r)).
Definition read_total_memory_bytes {E} : ST W E (option Z) :=
  match target_os with
  | Linux => content ← read_to_string "/proc/meminfo"; mret (content ≫= λ c, mem_total (lines c))
  | MacOS => out ← stdout_of "sysctl" ["-n"; "hw.memsize"]; mret (out ≫= λ s, parse_u64 (trim s))
  | OtherOs => mret None
  end.
Definition detect_memory_capacity {E} : ST W E string :=
  bytes ← read_total_memory_bytes;
  mret (default "8Gi" (format_quantity <$> bytes)).

Definition build_node_object {E} (name : string) (labels : gmap string string) : ST W E Node :=
  cpu ← detect_cpu_count;
  memory ← detect_memory_capacity;
  disk ← detect_ephemeral_storage;
  ip ← detect_internal_ip;
  heartbeat ← Utc_now;
  transition ← Utc_now;
  kernel ← uname_field "-r";
  os_image ← detect_os_image;
  uid ← Uuid_new_v4;
  let capacity : gmap string string :=
    <["cpu" := pretty cpu]> (<["memory" := memory]> (<["pods" := "110"]> ∅)) in
  let capacity := match disk with
                  | Some d => <["ephemeral-storage" := d]> capacity
                  | None => capacity
                  end in
  mret {|
    node_type_meta := mk_TypeMeta (Some "v1") (Some "Node");
    node_metadata := {|
      om_name := Some name;
      om_namespace := None;
      om_uid := Some uid;
      om_resource_version := None;
      om_labels := if bool_decide (labels = ∅) then None else Some labels;
      om_annotations := None;
      om_creation_timestamp := None;
      om_owner_references := None |};
    node_spec := Some NodeSpec_default;
    node_status := Some {|
      nstat_capacity := Some capacity;
      nstat_allocatable := Some capacity;
      nstat_conditions := Some [
        {| ncond_condition_type := NodeConditionType_Ready;
           ncond_status := ConditionStatus_True;
           ncond_last_heartbeat_time := Some heartbeat;
           ncond_last_transition_time := Some transition;
           ncond_reason := Some "KubeletReady";
           ncond_message := Some "kubelet is posting ready status" |}];
      nstat_addresses := Some [
        mk_NodeAddress NodeAddressType_Hostname name;
        mk_NodeAddress NodeAddressType_InternalIP (default "127.0.0.1" ip)];
      nstat_node_info := Some {|
        ninfo_machine_id := None;
        ninfo_system_uuid := None;
        ninfo_boot_id := None;
        ninfo_kernel_version := Some (default "unknown" kernel);
        ninfo_os_image := Some os_image;
        ninfo_container_runtime_version := Some ("superkube://" +:+ CARGO_PKG_VERSION);
        ninfo_kubelet_version := Some ("superkube/" +:+ CARGO_PKG_VERSION);
        ninfo_kube_proxy_version := None;
        ninfo_operating_system := Some const_OS;
        ninfo_architecture := Some const_ARCH |};
      nstat_images := None;
      nstat_phase := NodePhase_Running |} |}.

(** ** Registration and heartbeat *)

Definition register_node : A () :=
  s ← get_state;
  node ← on_world_of (build_node_object (as_name s) (as_labels s));
  web (http_send POST (as_server_url s +:+ nodes_path) (json_body node));;
  mret ().

Definition send_heartbeat : A () :=
  s ← get_state;
  node ← on_world_of (build_node_object (as_name s) (as_labels s));
  response ← web (http_send PUT (as_server_url s +:+ node_path (as_name s))
                    (json_body node));
  if is_success response then mret ()
  else bail ("Heartbeat failed with " +:+ http_status_display (W:=W) (resp_status response) +:+
             ": " +:+ resp_text response).

(** ** Events and statuses *)

Definition pod_event (s : AgentState W) (pod : Pod) (typ : EventType) (reason message : string)
    (now : DateTime) (suffix uid : Uuid) : Event :=
  let namespace := ObjectMeta_namespace (pod_metadata pod) in
  let pod_name := ObjectMeta_name (pod_metadata pod) in
  {| ev_type_meta := mk_TypeMeta (Some "v1") (Some "Event");
     ev_metadata := {|
       om_name := Some (pod_name +:+ "." +:+ lower_hex (Z.land (val suffix) 4294967295));
       om_namespace := Some namespace;
       om_uid := Some uid;
       om_resource_version := None;
       om_labels := None;
       om_annotations := None;
       om_creation_timestamp := None;
       om_owner_references := None |};
     ev_involved_object := {|
       objref_api_version := Some "v1";
       objref_kind := Some "Pod";
       objref_name := Some pod_name;
       objref_namespace := Some namespace;
       objref_uid := om_uid (pod_metadata pod);
       objref_resource_version := None;
       objref_field_path := None |};
     ev_reason := Some reason;
     ev_message := Some message;
     ev_source := Some (mk_EventSource (Some "kubelet") (Some (as_name s)));
     ev_first_timestamp := Some now;
     ev_last_timestamp := Some now;
     ev_event_time := Some now;
     ev_count := Some (as_i32 1);
     ev_event_type := Some typ;
     ev_action := None;
     ev_reporting_controller := Some "superkube/kubelet";
     ev_reporting_instance := Some (as_name s) |}.

(** Fire and forget. *)
Definition emit_event (pod : Pod) (typ : EventType) (reason message : string) : A () :=
  s ← get_state;
  now ← on_world_of Utc_now;
  suffix ← on_world_of Uuid_new_v4;
  uid ← on_world_of Uuid_new_v4;
  on_world_of (ignore (http_send POST
    (as_server_url s +:+ events_path (ObjectMeta_namespace (pod_metadata pod)))
    (json_body (pod_event s pod typ reason message now suffix uid)))).

Definition status_pod (namespace name : string) (phase : PodPhase) (pod_ip : option string)
    (statuses : list ContainerStatus) (start_time : DateTime) : Pod := {|
  pod_type_meta := mk_TypeMeta (Some "v1") (Some "Pod");
  pod_metadata := {|
    om_name := Some name;
    om_namespace := Some namespace;
    om_uid := None;
    om_resource_version := None;
    om_labels := None;
    om_annotations := None;
    om_creation_timestamp := None;
    om_owner_references := None |};
  pod_spec := PodSpec_default;
  pod_status := Some {|
    pstat_phase := phase;
    pstat_conditions := None;
    pstat_pod_ip := pod_ip;
    pstat_pod_i_ps := None;
    pstat_host_ip := Some "127.0.0.1";
    pstat_start_time := Some start_time;
    pstat_container_statuses := Some statuses;
    pstat_message := None;
    pstat_reason := None |} |}.

Definition publish_pod_status (namespace name : string) (phase : PodPhase) (pod_ip : option string)
    (statuses : list ContainerStatus) (start_time : option DateTime) : A () :=
  s ← get_state;
  start ← match start_time with Some t => mret t | None => on_world_of Utc_now end;
  response ← web (http_send PUT
    (as_server_url s +:+ status_path namespace name)
    (json_body (status_pod namespace name phase pod_ip statuses start)));
  if is_success response then mret ()
  else bail ("Failed to update pod status: " +:+ resp_text response).

(** ** One pod *)

(** The locals of [reconcile_pod]. *)
Record Observed : Type := mk_Observed {
  ob_statuses : list ContainerStatus;
  ob_all_running : bool;
  ob_any_failed : bool;
  ob_earliest_start : option DateTime;
  ob_runtime_ip : option string;
}.
Definition Observed_start : Observed := mk_Observed [] true false None None.

Definition earlier (cur : option DateTime) (t : option DateTime) : option DateTime :=
  match t with
  | Some t => Some (match cur with
                    | Some c => if val c <=? val t then c else t
                    | None => t
                    end)
  | None => cur
  end.
Definition exited_badly (info : ContainerInfo) : bool :=
  negb (val (default (as_i32 0) (ci_exit_code info)) =? 0).

(** A container that was there, one that was just started, and one that could
    not be started. *)
Definition observe_found (c : Container) (info : ContainerInfo) (o : Observed) : Observed := {|
  ob_statuses := ob_statuses o ++ [observed_status c info];
  ob_all_running := ob_all_running o && ci_running info;
  ob_any_failed := ob_any_failed o || (negb (ci_running info) && exited_badly info);
  ob_earliest_start := earlier (ob_earliest_start o) (ci_started_at info);
  ob_runtime_ip := match ob_runtime_ip o with Some ip => Some ip | None => ci_ip info end |}.
Definition observe_started (c : Container) (info : ContainerInfo) (o : Observed) : Observed := {|
  ob_statuses := ob_statuses o ++ [observed_status c info];
  ob_all_running := ob_all_running o && ci_running info;
  ob_any_failed := ob_any_failed o || (negb (ci_running info) && exited_badly info);
  ob_earliest_start := if ci_running info then earlier (ob_earliest_start o) (ci_started_at info)
                       else ob_earliest_start o;
  ob_runtime_ip := match ob_runtime_ip o with Some ip => Some ip | None => ci_ip info end |}.
Definition observe_failed (c : Container) (err : string) (o : Observed) : Observed := {|
  ob_statuses := ob_statuses o ++ [failed_container_status c err];
  ob_all_running := ob_all_running o;
  ob_any_failed := true;
  ob_earliest_start := ob_earliest_start o;
  ob_runtime_ip := ob_runtime_ip o |}.

(** The indexes for the logs, the shells and the proxy. *)
Definition record_container (uid : Uuid) (namespace pod_name : string) (c : Container)
    (info : ContainerInfo) : AgentState W → AgentState W :=
  with_indexes
    <[uid := ci_id info]>
    <[(namespace, pod_name, ctr_name c) := ci_id info]>
    (λ ports, match ci_port_mappings info with
              | [] => ports
              | new => <[(namespace, pod_name) :=
                           default [] (ports !! (namespace, pod_name)) ++ new]> ports
              end)
    (λ ips, ips).

Definition runtime_name (pod_name : string) (c : Container) : string :=
  pod_name +:+ "-" +:+ ctr_name c.

Definition reconcile_container (pod : Pod) (uid : Uuid) (o : Observed) (c : Container)
    : A Observed :=
  let namespace := ObjectMeta_namespace (pod_metadata pod) in
  let pod_name := ObjectMeta_name (pod_metadata pod) in
  let docker_name := runtime_name pod_name c in
  observed ← find_container docker_name;
  match observed with
  | Some info =>
      modify_state (record_container uid namespace pod_name c info);;
      mret (observe_found c info o)
  | None =>
      emit_event pod EventType_Normal "Pulling"
        ("Pulling image " +:+ quoted (ctr_image c));;
      started ← attempt_err (on_runtime
        (create_for_class (ps_runtime_class_name (pod_spec pod)) docker_name c));
      match started with
      | Ok _ =>
          found ← find_container docker_name;
          match found with
          | None => bail ("created container " +:+ docker_name +:+ " but cannot find it")
          | Some info =>
              emit_event pod EventType_Normal "Pulled"
                ("Successfully pulled image " +:+ quoted (ctr_image c));;
              emit_event pod EventType_Normal "Created" ("Created container " +:+ ctr_name c);;
              emit_event pod EventType_Normal "Started" ("Started container " +:+ ctr_name c);;
              modify_state (record_container uid namespace pod_name c info);;
              mret (observe_started c info o)
          end
      | Err e =>
          emit_event pod EventType_Warning "Failed"
            ("Failed to start container " +:+ ctr_name c +:+ ": " +:+ e);;
          mret (observe_failed c e o)
      end
  end.

Fixpoint reconcile_containers (pod : Pod) (uid : Uuid) (o : Observed) (cs : list Container)
    : A Observed :=
  match cs with
  | [] => mret o
  | c :: cs => o ← reconcile_container pod uid o c; reconcile_containers pod uid o cs
  end.

Definition phase_of (o : Observed) : PodPhase :=
  if ob_any_failed o then PodPhase_Failed
  else if ob_all_running o && negb (bool_decide (ob_statuses o = [])) then PodPhase_Running
  else PodPhase_Pending.

Definition pod_address (uid : Uuid) (namespace pod_name : string) (o : Observed) : A string :=
  match ob_runtime_ip o with
  | Some ip =>
      modify_state (with_indexes (λ x, x) (λ x, x) (λ x, x) <[(namespace, pod_name) := ip]>);;
      mret ip
  | None =>
      s ← get_state;
      mret (as_pod_cidr_prefix s +:+ "." +:+ pretty (val (as_u8 (val uid mod 254 + 1))))
  end.

Definition reconcile_pod (pod : Pod) : A () :=
  match om_uid (pod_metadata pod) with
  | None => bail "Pod has no UID"
  | Some uid =>
      let namespace := ObjectMeta_namespace (pod_metadata pod) in
      let pod_name := ObjectMeta_name (pod_metadata pod) in
      match ps_containers (pod_spec pod) with
      | [] => mret ()
      | cs =>
          o ← reconcile_containers pod uid Observed_start cs;
          pod_ip ← pod_address uid namespace pod_name o;
          publish_pod_status namespace pod_name (phase_of o) (Some pod_ip) (ob_statuses o)
            (ob_earliest_start o)
      end
  end.

(** ** All pods *)

Definition pod_key (pod : Pod) : string * string :=
  (ObjectMeta_namespace (pod_metadata pod), ObjectMeta_name (pod_metadata pod)).

Definition orphans (s : AgentState W) (desired : gset (string * string))
    : list (string * string * string * string) :=
  filter (λ kv, kv.1.1 ∉ desired) (hash_order (as_pod_containers s)).

(** [remove] in each index, [retain(|_, v| v != &id)] in the first. *)
Definition forget (key : string * string * string) (id : string) : AgentState W → AgentState W :=
  with_indexes (filter (λ kv, kv.2 ≠ id)) (delete key) (delete key.1) (delete key.1).

Definition sweep_orphans (desired : gset (string * string)) : A () :=
  s ← get_state;
  for_each (orphans s desired) (λ '(key, id),
    attempt_err (on_runtime (Engines_remove_container (key.1.2 +:+ "-" +:+ key.2)));;
    modify_state (forget key id)).

(** [for pod in pod_list.items]; the result is [desired]. *)
Fixpoint reconcile_pods (name : string) (desired : gset (string * string)) (pods : list Pod)
    : A (gset (string * string)) :=
  match pods with
  | [] => mret desired
  | pod :: pods =>
      if bool_decide (ps_node_name (pod_spec pod) = Some name) then
        attempt_err (reconcile_pod pod);;
        reconcile_pods name ({[pod_key pod]} ∪ desired) pods
      else reconcile_pods name desired pods
  end.

Definition sync_pods : A () :=
  s ← get_state;
  response ← web (http_send GET
    (as_server_url s +:+ pods_path +:+ "?fieldSelector=spec.nodeName=" +:+ as_name s) None);
  if is_success response then
    pod_list ← of_result (map_err Failed (resp_json (T:=List Pod) response));
    desired ← reconcile_pods (as_name s) ∅ (list_items pod_list);
    sweep_orphans desired
  else bail ("Failed to fetch pods: " +:+ http_status_display (W:=W) (resp_status response)).

(** ** The agent's task *)

Definition new_with_runtime (cs : Constructors W) (name server_url containerd_socket : string)
    (labels : gmap string string) (pod_cidr runtime_kind : string)
    : ST W Failure (AgentState W) :=
  runtime ← build target_os cs containerd_socket runtime_kind;
  mret (mk_AgentState name labels (trim_end_matches "/" server_url) runtime
          (pod_cidr_to_prefix pod_cidr) ∅ ∅ ∅ ∅).

(** [run] registers the node, then serves one tick at a time, in the order the
    timers fire; failures are logged. *)
Inductive Tick : Type := HeartbeatTick | SyncTick.
Definition on_tick (t : Tick) : A () :=
  attempt_err (match t with HeartbeatTick => send_heartbeat | SyncTick => sync_pods end);;
  mret ().
Definition run (ticks : list Tick) : A () :=
  register_node;;
  for_each ticks on_tick.
End agent.
