(* ===== verification/AgentHttp.v ===== *)
(** * The agent's HTTP server ([src/src/node/agent.rs], from "HTTP Server")

    The handlers of logs, exec and port-forward that the API server calls on a
    node.  A session over a websocket is a machine that is fed the events of
    both directions in the order they happen. *)
From S2P Require Import Prelude RustStd Text Json External Models Wire Error Reference Runtime Agent.

Local Open Scope Z_scope.

(** [serde_urlencoded::from_str] into pairs. *)
Class UrlEncoded := urlencoded_pairs : string → option (list (string * string)).

(** ** Logs *)

Record LogQueryParams : Type := mk_LogQueryParams {
  lq_tail_lines : option i64;
  lq_timestamps : bool;
  lq_follow : bool;
  lq_since_seconds : option i64;
  lq_limit_bytes : option i64;
}.

Inductive LogReply : Type :=
| Static (status : Z) (body : string)
| Streaming (content_type cache_control : string) (stream : LogStream).

(** [Utc::now() - chrono::Duration::seconds(s)]: [None] is its panic, when the
    duration or the instant is out of chrono's range.  Every stamp of a log
    lies between the bounds of [DateTime], so an instant outside them acts
    like the bound. *)
Definition MAX_SECONDS : Z := 9223372036854775.
Definition MIN_UTC : Z := -8334601228800000000000.
Definition MAX_UTC : Z := 8210266876799999999999.
Definition clamp_time (t : Z) : DateTime :=
  default (@Bnd (-62167219200000000000) 253402300800000000000 0 eq_refl)
    (checked (Z.max (-62167219200000000000) (Z.min t 253402300799999999999))).
Definition since_time (now : DateTime) (s : i64) : option DateTime :=
  let t := val now - val s * 1000000000 in
  if (Z.abs (val s) <=? MAX_SECONDS) && (MIN_UTC <=? t) && (t <=? MAX_UTC)
  then Some (clamp_time t) else None.

Section http.
Context {W : Type} `{Extern, !Unicode, !HashOrder, !UrlEncoded, Machine W}.
Implicit Type s : AgentState W.

Definition containers_of_pod (s : AgentState W) (namespace pod : string)
    : list (string * string * string * string) :=
  filter (λ kv, kv.1.1 = (namespace, pod)) (hash_order (as_pod_containers s)).
Definition known_containers (s : AgentState W) : string :=
  match (λ kv : string * string * string * string,
           kv.1.1.1 +:+ "/" +:+ kv.1.1.2 +:+ "/" +:+ kv.1.2) <$> hash_order (as_pod_containers s) with
  | [] => "none"
  | known => String.concat ", " known
  end.

(** The container a request for logs means: the one it names, or the only one
    of the pod. *)
Inductive Found : Type :=
| TheContainer (id : string)
| NoContainer
| ManyContainers (names : list string).
Definition find_log_container (s : AgentState W) (namespace pod container : string) : Found :=
  match as_pod_containers s !! (namespace, pod, container) with
  | Some id => TheContainer id
  | None =>
      match containers_of_pod s namespace pod with
      | [(_, id)] => TheContainer id
      | [] => NoContainer
      | matching => ManyContainers ((λ kv, kv.1.2) <$> matching)
      end
  end.

Definition log_options (params : LogQueryParams) : ST W Failure LogOptions :=
  since ← match lq_since_seconds params with
          | Some secs =>
              now ← Utc_now;
              match since_time now secs with Some t => mret (Some t) | None => panic end
          | None => mret None
          end;
  mret (mk_LogOptions (lq_tail_lines params) (lq_timestamps params) since (lq_limit_bytes params)).

Definition handle_follow_logs (s : AgentState W) (namespace pod container : string)
    (params : LogQueryParams) : ST W Failure LogReply :=
  match find_log_container s namespace pod container with
  | NoContainer =>
      mret (Static 404 ("Container " +:+ container +:+ " not found in pod " +:+ namespace +:+ "/" +:+
        pod +:+ ". Known: " +:+ known_containers s +:+ of_bytes [nl]))
  | ManyContainers names =>
      mret (Static 400 ("Multiple containers in pod. Specify one of: " +:+
        String.concat ", " names +:+ of_bytes [nl]))
  | TheContainer id =>
      options ← log_options params;
      r ← attempt_err (rt_stream_logs (as_runtime s) id options);
      mret (match r with
            | Ok stream => Streaming "text/plain; charset=utf-8" "no-cache" stream
            | Err e => Static 500 ("Failed to start log stream: " +:+ e +:+ of_bytes [nl])
            end)
  end.

Definition handle_logs (s : AgentState W) (namespace pod container : string)
    (params : LogQueryParams) : ST W Failure LogReply :=
  if lq_follow params then handle_follow_logs s namespace pod container params
  else
    match find_log_container s namespace pod container with
    | NoContainer =>
        mret (Static 404 ("Container " +:+ container +:+ " not found in pod " +:+ namespace +:+
          "/" +:+ pod +:+ ". Pod may not be running on this node or hasn't been synced yet." +:+
          of_bytes [nl] +:+ "Known containers: " +:+ known_containers s +:+ of_bytes [nl]))
    | ManyContainers names =>
        mret (Static 400 ("Multiple containers in pod " +:+ namespace +:+ "/" +:+ pod +:+
          ". Please specify one of: " +:+ String.concat ", " names +:+ of_bytes [nl]))
    | TheContainer id =>
        options ← log_options params;
        r ← attempt_err (rt_get_logs (as_runtime s) id options);
        mret (match r with
              | Ok logs => Static 200 logs
              | Err e => Static 500 ("Failed to get logs: " +:+ e +:+ of_bytes [nl])
              end)
    end.

(** ** Exec *)

Definition parse_exec_query (q : string) : list string * bool :=
  let pairs := default [] (urlencoded_pairs q) in
  let cmd := (λ kv : string * string, kv.2) <$> filter (λ kv, kv.1 = "command") pairs in
  let tty := match head (filter (λ kv, kv.1 = "tty") pairs) with
             | Some (_, v) => str_eqb v "true" || str_eqb v "1"
             | None => false
             end in
  (match cmd with [] => ["sh"] | _ => cmd end, tty).

(** The websocket upgrade, with the session it will run, or a reply. *)
Definition EXEC_PROTOCOLS : list string :=
  ["v5.channel.k8s.io"; "v4.channel.k8s.io"; "v3.channel.k8s.io"; "v2.channel.k8s.io";
   "channel.k8s.io"].
Definition handle_exec (s : AgentState W) (namespace pod container : string)
    (raw_query : option string) : Z * string + string * (list string * bool) :=
  match as_pod_containers s !! (namespace, pod, container) with
  | None => inl (404, "Container " +:+ container +:+ " not found in pod " +:+ namespace +:+ "/" +:+ pod)
  | Some id => inr (id, parse_exec_query (default "" raw_query))
  end.
End http.

(** A frame of a channel. *)
Definition frame (channel : nat) (payload : list ascii) : list ascii :=
  ascii_of_nat channel :: payload.

Section exec.
Context `{Extern}.

Definition error_frame (msg : string) : list ascii :=
  frame 3 (bytes (json_print (JObj
    [("message", JStr msg); ("metadata", JObj []); ("reason", JStr "InternalError");
     ("status", JStr "Failure")]))).

(** The status that ends a session, for the exit code if it is known. *)
Definition success_status : string :=
  "{" +:+ quoted "metadata" +:+ ":{}," +:+ quoted "status" +:+ ":" +:+ quoted "Success" +:+ "}".
Definition failure_status (c : i32) : string :=
  "{" +:+ quoted "metadata" +:+ ":{}," +:+ quoted "status" +:+ ":" +:+ quoted "Failure" +:+ "," +:+
  quoted "message" +:+ ":" +:+
  quoted ("command terminated with non-zero exit code: exit status " +:+ pretty (val c)) +:+ "," +:+
  quoted "reason" +:+ ":" +:+ quoted "NonZeroExitCode" +:+ "," +:+
  quoted "details" +:+ ":{" +:+ quoted "causes" +:+ ":[{" +:+
  quoted "reason" +:+ ":" +:+ quoted "ExitCode" +:+ "," +:+
  quoted "message" +:+ ":" +:+ quoted (pretty (val c)) +:+ "}]}}".
Definition exit_status (code : option i32) : string :=
  match code with
  | Some c => if val c =? 0 then success_status else failure_status c
  | None => success_status
  end.

(** What reaches the two tasks of a session, and what they do. *)
Inductive WsMessage : Type :=
| WsBinary (data : list ascii)
| WsText (text : list ascii)
| WsClose
| WsOther
| WsError.
Inductive ExecEvent : Type :=
| Output (chunk : list ascii)
| OutputError
| OutputEnded (code : option i32)
| FromClient (msg : WsMessage) (stdin_open : bool).
Inductive ExecAction : Type :=
| SendFrame (f : list ascii)
| WriteStdin (payload : list ascii)
| Resize (height width : Z)
| CloseSocket.

(** [v.get(key).and_then(|v| v.as_u64()).unwrap_or(d) as u16]. *)
Definition value_get (key : string) (v : Value) : option Value :=
  match v with
  | JObj ms => (λ kv, kv.2) <$> last (filter (λ kv : string * Value, kv.1 = key) ms)
  | _ => None
  end.
Definition as_u64 (v : Value) : option Z :=
  match v with
  | JInt z => if (0 <=? z) && (z <=? u64_max) then Some z else None
  | _ => None
  end.
Definition dimension (key : string) (d : Z) (v : Value) : Z :=
  wrap 0 65536 (default d (value_get key v ≫= as_u64)).
Definition resize_of (payload : list ascii) : list ExecAction :=
  if utf8_valid payload then
    match json_parse (of_bytes payload) with
    | Some v => [Resize (dimension "Height" 24 v) (dimension "Width" 80 v)]
    | None => []
    end
  else [].

(** One message of the client: what is done, and whether the reading goes on. *)
Definition client_message (msg : WsMessage) (stdin_open : bool) : list ExecAction * bool :=
  match msg with
  | WsBinary (channel :: payload) =>
      match nat_of_ascii channel with
      | 0%nat => ([WriteStdin payload], stdin_open)
      | 4%nat => (resize_of payload, true)
      | _ => ([], true)
      end
  | WsClose | WsError => ([], false)
  | _ => ([], true)
  end.

(** [docker_to_ws] ends by itself after an error, with no exit code known
    until the task waited for it: [OutputError] is followed by [OutputEnded]. *)
Record ExecTask : Type := mk_ExecTask { et_running : bool; et_draining : bool }.
Definition ExecTask_start : ExecTask := mk_ExecTask true true.
Definition exec_event (t : ExecTask) (e : ExecEvent) : list ExecAction * ExecTask :=
  if et_running t then
    match e with
    | Output chunk =>
        if et_draining t then
          (match chunk with [] => [] | _ => [SendFrame (frame 1 chunk)] end, t)
        else ([], t)
    | OutputError => ([], mk_ExecTask true false)
    | OutputEnded code =>
        ([SendFrame (frame 3 (bytes (exit_status code))); CloseSocket], mk_ExecTask false false)
    | FromClient msg stdin_open =>
        let '(actions, go_on) := client_message msg stdin_open in
        (actions, mk_ExecTask go_on (et_draining t))
    end
  else ([], t).
Fixpoint exec_session (t : ExecTask) (events : list ExecEvent) : list ExecAction :=
  match events with
  | [] => []
  | e :: events => let '(actions, t') := exec_event t e in actions ++ exec_session t' events
  end.

(** The session of a process that could or could not be started. *)
Definition handle_exec_websocket (started : result string ExecSession) (events : list ExecEvent)
    : list ExecAction :=
  match started with
  | Ok _ => exec_session ExecTask_start events
  | Err e => [SendFrame (error_frame ("exec failed: " +:+ e)); CloseSocket]
  end.

(** ** Port-forward *)

(** [ports.split(',').filter_map(|p| p.trim().parse().ok())] to [u16]s. *)
Definition parse_ports (ports : option string) : list Z :=
  omap (λ p, parse_unsigned 65535 (trim p)) (split "," (default "" ports)).

Inductive PfEvent : Type :=
| PfFromClient (msg : WsMessage) (tcp_open : bool)
| PfFromPod (r : result string (list ascii)) (ws_open : bool).
Inductive PfAction : Type :=
| PfText (text : string)
| PfToPod (data : list ascii)
| PfShutdown
| PfToClient (data : list ascii)
| PfClose.

(** One event of the pod is one read of its connection. *)
Definition pf_event (e : PfEvent) : list PfAction * bool :=
  match e with
  | PfFromClient (WsBinary data) open | PfFromClient (WsText data) open =>
      if open : bool then ([PfToPod data], true) else ([PfToPod data; PfShutdown], false)
  | PfFromClient (WsClose | WsError) _ => ([PfShutdown], false)
  | PfFromClient WsOther _ => ([], true)
  | PfFromPod (Ok []) _ | PfFromPod (Err _) _ => ([PfClose], false)
  | PfFromPod (Ok data) open =>
      if open : bool then ([PfToClient data], true) else ([PfToClient data; PfClose], false)
  end.
Fixpoint pf_session (events : list PfEvent) : list PfAction :=
  match events with
  | [] => []
  | e :: events =>
      let '(actions, go_on) := pf_event e in
      actions ++ if go_on : bool then pf_session events else []
  end.

Definition target_addr (pod_ip : string) (port : Z) : string := pod_ip +:+ ":" +:+ pretty port.
Definition handle_portforward_websocket (pod_ip : string) (ports : list Z)
    (connect : string → result string ()) (events : list PfEvent) : list PfAction :=
  match ports with
  | [] => [PfText "No ports specified"]
  | port :: _ =>
      let target := target_addr pod_ip port in
      match connect target with
      | Ok _ => pf_session events
      | Err e => [PfText ("Failed to connect to " +:+ target +:+ ": " +:+ e)]
      end
  end.

(** The upgrade, or the reply that refuses it. *)
Definition handle_portforward (pod_ip : string) (ports : option string)
    : Z * string + string * list Z :=
  match parse_ports ports with
  | [] => inl (400, "No ports specified")
  | ports => inr (pod_ip, ports)
  end.
End exec.

(** ** What a session carries *)

Section sessions.
Context `{Extern}.

(** The frames sent and the input written, in order. *)
Definition sent (l : list ExecAction) : list (list ascii) :=
  omap (λ a, match a with SendFrame f => Some f | _ => None end) l.
Definition written (l : list ExecAction) : list (list ascii) :=
  omap (λ a, match a with WriteStdin p => Some p | _ => None end) l.

(** What each side gave, and an event that does not end the session. *)
Definition stdout_chunks (l : list ExecEvent) : list (list ascii) :=
  omap (λ e, match e with Output (c :: chunk) => Some (c :: chunk) | _ => None end) l.
Definition stdin_chunks (l : list ExecEvent) : list (list ascii) :=
  omap (λ e, match e with
             | FromClient (WsBinary (channel :: payload)) _ =>
                 if bool_decide (nat_of_ascii channel = 0%nat) then Some payload else None
             | _ => None
             end) l.
Definition goes_on (e : ExecEvent) : bool :=
  match e with
  | Output _ => true
  | FromClient msg stdin_open => (client_message msg stdin_open).2
  | _ => false
  end.

Lemma resize_silent payload : sent (resize_of payload) = [] ∧ written (resize_of payload) = [].
Proof. unfold resize_of. destruct (utf8_valid payload); [|done]. by destruct (json_parse _). Qed.

Lemma client_actions msg stdin_open :
  sent (client_message msg stdin_open).1 = [] ∧
  written (client_message msg stdin_open).1 = stdin_chunks [FromClient msg stdin_open].
Proof.
  destruct msg as [[|channel payload]| | | |]; try done.
  unfold client_message, stdin_chunks; csimpl.
  destruct (nat_of_ascii channel) as [|[|[|[|[|n]]]]]; csimpl; try done. apply resize_silent.
Qed.

Lemma exec_event_goes_on e :
  goes_on e = true →
  ∃ actions, exec_event ExecTask_start e = (actions, ExecTask_start) ∧
    sent actions = frame 1 <$> stdout_chunks [e] ∧ written actions = stdin_chunks [e].
Proof.
  destruct e as [chunk| | |msg stdin_open]; simpl; intros Hg; try done.
  - eexists. split; [reflexivity|]. by destruct chunk.
  - pose proof (client_actions msg stdin_open) as [Hs Hw].
    exists (client_message msg stdin_open).1. split; [|by rewrite Hs, Hw].
    unfold exec_event. revert Hg. destruct (client_message msg stdin_open). simpl. by intros ->.
Qed.

(** Whatever the interleaving of the two directions of an exec session: up
    to the end of the output the client gets every chunk the process wrote on
    channel 1, in order, and then exactly one frame on channel 3, the status
    made from the exit code; the process gets the payload of every message of
    channel 0 the client sent, in order; nothing that comes later is used. *)
Lemma exec_session_run events code rest :
  forallb goes_on events = true →
  let actions := exec_session ExecTask_start (events ++ OutputEnded code :: rest) in
  sent actions = (frame 1 <$> stdout_chunks events) ++ [frame 3 (bytes (exit_status code))] ∧
  written actions = stdin_chunks events.
Proof.
  induction events as [|e events IH]; intros Hg; cbn zeta.
  - assert (∀ t, et_running t = false → exec_session t rest = []) as Hdone.
    { clear. intros t Ht. induction rest as [|e rest IH]; simpl; [done|].
      unfold exec_event. by rewrite Ht. }
    simpl. by rewrite Hdone.
  - simpl in Hg. apply andb_prop in Hg as [He Hg].
    destruct (exec_event_goes_on e He) as (actions & E & Hs & Hw).
    destruct (IH Hg) as [IHs IHw]. cbn [app exec_session]. rewrite E. cbv beta iota.
    unfold sent, written in *. rewrite !omap_app, IHs, IHw, Hs, Hw.
    change (e :: events) with ([e] ++ events). unfold stdout_chunks, stdin_chunks.
    rewrite !omap_app, fmap_app, app_assoc. done.
Qed.
End sessions.
