(* ===== verification/ExecOk.v ===== *)
(** * An exec session, from the process to kubectl

    The streams of a process of the embedded engine ([runtime/embedded.rs])
    composed with the session of the node's agent ([node/agent.rs]) that
    carries them. *)
From S2P Require Import Prelude RustStd Text Json External Reference Models Runtime Files Process Agent AgentHttp.

Local Open Scope Z_scope.

Section exec.
Context `{Extern, ErrnoText}.

(** What the session's task sees of an item of the output stream. *)
Definition output_event (item : result string (list ascii)) : ExecEvent :=
  match item with Ok chunk => Output chunk | Err _ => OutputError end.
(** A message after which the client's direction goes on. *)
Definition client_event (e : ExecEvent) : bool :=
  match e with FromClient msg stdin_open => (client_message msg stdin_open).2 | _ => false end.

Lemma merges_omap_left {A B} (f : A → option B) l k m :
  merges l k m → Forall (λ x, f x = None) k → omap f m = omap f l.
Proof.
  induction 1 as [|x l k m _ IH|x l k m _ IH]; intros Hk; csimpl; [done| |].
  - by rewrite IH.
  - apply Forall_cons in Hk as [-> Hk]. by apply IH.
Qed.
Lemma merges_omap_right {A B} (f : A → option B) l k m :
  merges l k m → Forall (λ x, f x = None) l → omap f m = omap f k.
Proof.
  induction 1 as [|x l k m _ IH|x l k m _ IH]; intros Hl; csimpl; [done| |].
  - apply Forall_cons in Hl as [-> Hl]. by apply IH.
  - by rewrite IH.
Qed.
Lemma merges_forallb {A} (p : A → bool) l k m :
  merges l k m → forallb p l = true → forallb p k = true → forallb p m = true.
Proof.
  induction 1 as [|x l k m _ IH|x l k m _ IH]; cbn; [done|..]; intros Hl Hk.
  - apply andb_prop in Hl as [-> Hl]. by apply IH.
  - apply andb_prop in Hk as [-> Hk]. by apply IH.
Qed.

Lemma stdout_of_chunks chunks :
  Forall nonempty chunks → stdout_chunks (output_event <$> (Ok <$> chunks)) = chunks.
Proof.
  induction 1 as [|[|c chunk] chunks Hc _ IH]; [done|by destruct Hc|]. csimpl. by rewrite IH.
Qed.
Lemma client_event_goes_on e : client_event e = true → goes_on e = true.
Proof. by destruct e. Qed.
Lemma client_no_stdout events :
  forallb client_event events = true →
  Forall (λ e, match e with Output (c :: chunk) => Some (c :: chunk) | _ => None end = None) events.
Proof.
  induction events as [|[| | |msg open] events IH]; cbn; intros He; try done.
  apply andb_prop in He as [_ He]. constructor; [done|by apply IH].
Qed.

End exec.

(** ** A session on concrete events *)

Definition sample_pipes : ExecReads :=
  PipeReads (Ok ()) (Ok ()) [Ok (bytes "one"); Ok (bytes "two"); Ok []] [Ok (bytes "oops"); Ok []].
Definition sample_client : list ExecEvent := [FromClient (WsBinary (frame 0 (bytes "in"))) true].

Definition sample_exec : ExecSession := mk_ExecSession ["cat"] [] None None false true.

