(* ===== verification/Proxy.v ===== *)
(** * The NodePort proxy ([src/src/node/proxy.rs])

    A listener for each NodePort, kept in step with the services of the API
    server, and the choice of a pod on this node for each connection. *)
From S2P Require Import Prelude RustStd Text Json External Models Wire Error Runtime Agent.

Local Open Scope Z_scope.

Definition RECONCILE_INTERVAL_SECS : Z := 5.

(** [GenericList<T>]: the items, none if the member is missing. *)
Definition generic_list {T} `{Json T} (v : Value) : option (list T) :=
  ms ← destruct_members v;
  de_default [] "items" ms.

(** A task that was spawned to listen: the service it was given, and whether
    its [bind] succeeded; a task that could not bind has returned. *)
Record Listener : Type := mk_Listener {
  li_service : Service;
  li_bound : bool;
}.
(** [listeners] by node port. *)
Abbreviation Listeners := (gmap i32 Listener).

Definition services_path : string := "/api/v1/services".
Definition endpoints_path (namespace name : string) : string :=
  "/api/v1/namespaces/" +:+ namespace +:+ "/endpoints/" +:+ name.

(** Binding the port of a listener, releasing it when the task is aborted. *)
Class Sockets (W : Type) : Type := {
  tcp_bind : string → ST W string ();
  tcp_release : string → W → W;
}.
#[global] Hint Mode Sockets ! : typeclass_instances.
Definition bind_address (node_port : i32) : string := "0.0.0.0:" +:+ pretty (val node_port).

(** ** The bytes of a connection

    What the two copying tasks of [handle_conn] see, an error of either end
    counting as the end of a direction, and what they do.  [select!] returns
    with the first task that is done and drops the other. *)
Inductive PipeEvent : Type :=
| ClientData (bs : list ascii)
| ClientEnds
| BackendData (bs : list ascii)
| BackendEnds.
Inductive PipeAction : Type :=
| ToBackend (bs : list ascii)
| ToClient (bs : list ascii)
| ShutdownBackend
| ShutdownClient.
Fixpoint pipe_conn (events : list PipeEvent) : list PipeAction :=
  match events with
  | [] => []
  | ClientData bs :: events => ToBackend bs :: pipe_conn events
  | BackendData bs :: events => ToClient bs :: pipe_conn events
  | ClientEnds :: _ => [ShutdownBackend]
  | BackendEnds :: _ => [ShutdownClient]
  end.

(** The accept loop of [listen]: a task per connection, failures skipped. *)
Definition accepted {A} (accepts : list (result string A)) : list A := omap result_ok accepts.

Section proxy.
Context {W : Type} `{Extern, !Unicode, !HashOrder, HttpClient W, Sockets W}.

Abbreviation P := (ST (W * Listeners) Failure).

Definition fetch_services (server_url : string) : ST W Failure (list Service) :=
  resp ← lift_err Failed (http_send GET (server_url +:+ services_path) None);
  of_result (match resp_body resp with
             | Ok b => match json_parse b ≫= generic_list with
                       | Some items => Ok items
                       | None => Err (Failed (http_decode_error (W:=W) b))
                       end
             | Err e => Err (Failed e)
             end).

(** The node port a service wants: that of its first port. *)
Definition wanted_port (svc : Service) : option i32 :=
  if bool_decide (sspec_service_type (svc_spec svc) = ServiceType_NodePort) then
    p ← head (sspec_ports (svc_spec svc)); sport_node_port p
  else None.

(** [tokio::spawn(listen(..))], whose bind is its first step. *)
Definition start_listener (node_port : i32) (svc : Service) : P () := λ '(w, ls),
  let '(r, w') := tcp_bind (bind_address node_port) w in
  (Ok (), (w', <[node_port := mk_Listener svc (is_ok r)]> ls)).
Definition stop_listener (node_port : i32) : P () := λ '(w, ls),
  match ls !! node_port with
  | Some l => (Ok (), (if li_bound l then tcp_release (bind_address node_port) w else w,
                       delete node_port ls))
  | None => (Ok (), (w, ls))
  end.

Definition ensure_listener (svc : Service) : P () := λ '(w, ls),
  match wanted_port svc with
  | Some node_port =>
      match ls !! node_port with
      | Some _ => (Ok (), (w, ls))
      | None => start_listener node_port svc (w, ls)
      end
  | None => (Ok (), (w, ls))
  end.

Definition stale_ports (ls : Listeners) (wanted : gset i32) : list i32 :=
  filter (λ p, p ∉ wanted) ((hash_order ls).*1).

Definition reconcile_listeners (services : list Service) : P () :=
  for_each services ensure_listener;;
  ls ← get_state;
  for_each (stale_ports ls (list_to_set (omap wanted_port services))) stop_listener.
Definition reconcile (server_url : string) : P () :=
  services ← on_world_of (fetch_services server_url);
  reconcile_listeners services.

(** The engine of [ServiceProxy::new], and one turn of [run]. *)
Definition ServiceProxy_new : Listeners := ∅.
Definition proxy_tick (server_url : string) : P () := attempt (F:=Failure) (reconcile server_url);; mret ().

(** ** One connection *)

Definition target_port (p : ServicePort) : i32 :=
  match sport_target_port p with
  | Some (IntOrString_Int n) => n
  | _ => sport_port p
  end.

(** The pods the endpoints name. *)
Definition address_pod (a : EndpointAddress) : option (string * string) :=
  r ← epa_target_ref a;
  ns ← objref_namespace r;
  name ← objref_name r;
  Some (ns, name).
Definition candidates (e : Endpoints) : list (string * string) :=
  omap address_pod (s ← ep_subsets e; default [] (eps_addresses s)).

(** A pod of this node: at the host port that its engine published for the
    port, else at its own address. *)
Definition backend_of {V} (s : AgentState V) (target : i32) (pod : string * string)
    : option (string * Z) :=
  match mappings ← as_pod_ports s !! pod;
        head (filter (λ m, pm_container_port m = target ∧ pm_protocol m = "tcp") mappings) with
  | Some m => Some ("127.0.0.1", val (pm_host_port m))
  | None => (λ ip, (ip, wrap 0 65536 (val target))) <$> as_pod_ips s !! pod
  end.
Definition choose_backend {V} (s : AgentState V) (target : i32) (pods : list (string * string))
    : option (string * Z) := head (omap (backend_of s target) pods).

(** What [handle_conn] connects the client to. *)
Definition handle_conn {V} (s : AgentState V) (server_url : string) (service : Service)
    : ST W Failure (string * Z) :=
  match sspec_ports (svc_spec service) with
  | [] => bail "service has no ports"
  | port_spec :: _ =>
      let target := target_port port_spec in
      let m := svc_metadata service in
      resp ← lift_err Failed (http_send GET
        (server_url +:+ endpoints_path (ObjectMeta_namespace m) (ObjectMeta_name m)) None);
      endpoints ← of_result (map_err Failed (resp_json (W:=W) (T:=Endpoints) resp));
      match candidates endpoints with
      | [] => bail "no endpoints for service"
      | pods =>
          match choose_backend s target pods with
          | Some backend => mret backend
          | None => bail ("no local backend for port " +:+ pretty (val target))
          end
      end
  end.
End proxy.
