(* ===== verification/UrlForm.v ===== *)
(** * Query strings as the URL standard writes them

    [application/x-www-form-urlencoded], of which [serde_urlencoded] reads and
    writes lists of pairs: an instance of the interfaces [UrlEncoded] and
    [UrlEncode] for the witnesses, and the proof that what is written is read
    back. *)
From S2P Require Import Prelude RustStd Text.

Definition percent : ascii := "%"%char.

(** The bytes that are written as they are. *)
Definition form_plain (c : ascii) : bool :=
  let n := nat_of_ascii c in
  (48 <=? n)%nat && (n <=? 57)%nat || (65 <=? n)%nat && (n <=? 90)%nat ||
  (97 <=? n)%nat && (n <=? 122)%nat || existsb (Ascii.eqb c) ["*"; "-"; "."; "_"]%char.

Definition upper_hex (n : nat) : ascii := ascii_of_nat (if (n <? 10)%nat then 48 + n else 55 + n).
Definition hex_value (c : ascii) : option nat :=
  let n := nat_of_ascii c in
  if (48 <=? n)%nat && (n <=? 57)%nat then Some (n - 48)
  else if (65 <=? n)%nat && (n <=? 70)%nat then Some (n - 55)
  else if (97 <=? n)%nat && (n <=? 102)%nat then Some (n - 87)
  else None.

Definition form_char (c : ascii) : list ascii :=
  if form_plain c then [c]
  else if Ascii.eqb c " " then ["+"%char]
  else let n := nat_of_ascii c in [percent; upper_hex (n / 16); upper_hex (n mod 16)].

Fixpoint form_decode (l : list ascii) : list ascii :=
  match l with
  | [] => []
  | c :: l' =>
      if Ascii.eqb c percent then
        match l' with
        | h :: d :: l'' =>
            match hex_value h, hex_value d with
            | Some x, Some y => ascii_of_nat (16 * x + y) :: form_decode l''
            | _, _ => c :: form_decode l'
            end
        | _ => c :: form_decode l'
        end
      else (if Ascii.eqb c "+" then " "%char else c) :: form_decode l'
  end.

Definition form_text (s : string) : list ascii := bytes s ≫= form_char.
Definition form_pair (kv : string * string) : list ascii :=
  form_text kv.1 ++ "="%char :: form_text kv.2.
Fixpoint form_write (pairs : list (string * string)) : list ascii :=
  match pairs with
  | [] => []
  | [kv] => form_pair kv
  | kv :: pairs => form_pair kv ++ "&"%char :: form_write pairs
  end.

Definition form_piece (l : list ascii) : option (string * string) :=
  match l with
  | [] => None
  | _ => let '(k, v) := splitn2_l "=" l in
         Some (of_bytes (form_decode k), of_bytes (form_decode (default [] v)))
  end.
Definition form_read (l : list ascii) : list (string * string) := omap form_piece (split_l "&" l).

Lemma form_decode_char c l : form_decode (form_char c ++ l) = c :: form_decode l.
Proof. by destruct c as [[] [] [] [] [] [] [] []]. Qed.
Lemma form_decode_text s : form_decode (form_text s) = bytes s.
Proof.
  unfold form_text. induction (bytes s) as [|c l IH]; [done|]. csimpl.
  by rewrite form_decode_char, IH.
Qed.

Lemma form_char_safe c : Forall (λ d, d ≠ "&"%char ∧ d ≠ "="%char) (form_char c).
Proof. destruct c as [[] [] [] [] [] [] [] []]; vm_compute; repeat constructor; intros [=]. Qed.
Lemma form_text_safe s : Forall (λ d, d ≠ "&"%char ∧ d ≠ "="%char) (form_text s).
Proof.
  unfold form_text. induction (bytes s) as [|c l IH]; csimpl; [constructor|].
  apply Forall_app. split; [apply form_char_safe|done].
Qed.
Lemma form_text_no_eq s : "="%char ∉ form_text s.
Proof. intros Hin. pose proof (form_text_safe s) as Hs. rewrite Forall_forall in Hs. by apply Hs in Hin as []. Qed.
Lemma form_pair_no_amp kv : "&"%char ∉ form_pair kv.
Proof.
  unfold form_pair. intros [Hin|[E|Hin]%elem_of_cons]%elem_of_app; [|done|];
    pose proof (form_text_safe kv.1) as H1; pose proof (form_text_safe kv.2) as H2;
    rewrite Forall_forall in H1, H2; [by apply H1 in Hin as []|by apply H2 in Hin as []].
Qed.

Lemma form_piece_pair kv : form_piece (form_pair kv) = Some kv.
Proof.
  unfold form_piece. destruct (form_pair kv) as [|c l] eqn:E.
  { unfold form_pair in E. by destruct (form_text kv.1). }
  rewrite <- E. unfold form_pair. rewrite splitn2_l_app by apply form_text_no_eq.
  simpl. rewrite !form_decode_text, !of_bytes_bytes. by destruct kv.
Qed.

Lemma form_round pairs : form_read (form_write pairs) = pairs.
Proof.
  unfold form_read. induction pairs as [|kv [|kv' pairs] IH]; [done|..]; cbn [form_write].
  - rewrite split_l_no_sep by apply form_pair_no_amp. csimpl. by rewrite form_piece_pair.
  - rewrite split_l_app by apply form_pair_no_amp. cbn [omap list_omap].
    rewrite form_piece_pair. f_equal. exact IH.
Qed.

(** A value of unreserved characters and equals signs stands for itself. *)
Definition query_plain (c : ascii) : bool := form_plain c || Ascii.eqb c "=".
Lemma form_decode_plain l : Forall (λ c, query_plain c = true) l → form_decode l = l.
Proof.
  induction 1 as [|c l Hc Hl IH]; [done|]. simpl. rewrite IH.
  destruct (Ascii.eqb_spec c percent) as [->|_]; [done|].
  by destruct (Ascii.eqb_spec c "+"%char) as [->|_].
Qed.
Lemma form_read_plain k v :
  Forall (λ c, form_plain c = true) (bytes k) → Forall (λ c, query_plain c = true) (bytes v) →
  form_read (bytes (k +:+ "=" +:+ v)) = [(k, v)].
Proof.
  intros Hk Hv. rewrite !bytes_app. change (bytes "=") with ["="%char]. cbn [app].
  pose proof Hk as Hk'. rewrite Forall_forall in Hk'. pose proof Hv as Hv'. rewrite Forall_forall in Hv'.
  assert ("&"%char ∉ bytes k) as Hka by (intros Hin; apply Hk' in Hin; discriminate).
  assert ("="%char ∉ bytes k) as Hke by (intros Hin; apply Hk' in Hin; discriminate).
  assert ("&"%char ∉ bytes v) as Hva by (intros Hin; apply Hv' in Hin; discriminate).
  assert (Forall (λ c, query_plain c = true) (bytes k)) as Hkq.
  { eapply Forall_impl; [exact Hk|]. intros c Hc. unfold query_plain. by rewrite Hc. }
  unfold form_read. rewrite split_l_no_sep.
  2:{ intros [?|[?|?]%elem_of_cons]%elem_of_app; [done|discriminate|done]. }
  csimpl. unfold form_piece.
  destruct (bytes k ++ "="%char :: bytes v) eqn:E; [by destruct (bytes k)|].
  rewrite <- E, splitn2_l_app by done. simpl.
  by rewrite !form_decode_plain, !of_bytes_bytes.
Qed.

(** Percent decoding alone, of the segments of a path. *)
Fixpoint percent_decode (l : list ascii) : list ascii :=
  match l with
  | [] => []
  | c :: l' =>
      if Ascii.eqb c percent then
        match l' with
        | h :: d :: l'' =>
            match hex_value h, hex_value d with
            | Some x, Some y => ascii_of_nat (16 * x + y) :: percent_decode l''
            | _, _ => c :: percent_decode l'
            end
        | _ => c :: percent_decode l'
        end
      else c :: percent_decode l'
  end.
Lemma percent_decode_plain l : Forall (λ c, form_plain c = true) l → percent_decode l = l.
Proof.
  induction 1 as [|c l Hc Hl IH]; [done|]. simpl. rewrite IH.
  by destruct (Ascii.eqb_spec c percent) as [->|_].
Qed.
