(* ===== verification/AgentSamples.v ===== *)
(** * A node to run the agent on

    The kernel of [NodeSamples.v] with a network on which every request
    succeeds, and an agent with one engine. *)
From S2P Require Import Prelude RustStd Text Json External Reference Models Runtime ContainerLogs.
From S2P Require Import Mock Files Image Bundle Network Embedded NodeSamples Agent AgentHttp Proxy UrlForm.

Local Open Scope Z_scope.

#[export] Instance ref_hash_order : HashOrder := λ K V _ _ m, map_to_list m.
#[export] Instance ref_hash_order_ok : HashOrderOk.
Proof. by intros K V ? ? m. Qed.

#[export] Instance ref_target : Target := {|
  target_os := Runtime.Linux; const_OS := "linux"; const_ARCH := "x86_64" |}.

#[export] Instance ref_http : HttpClient Kernel := {|
  http_send _ _ _ := mret (mk_Response 200 (Ok "{}"));
  http_decode_error _ := "error decoding response body";
  http_status_display z := pretty z |}.

#[export] Instance ref_commands : Commands Kernel := {|
  command_output _ _ := throw "not found";
  udp_local_ip _ _ := mret "192.168.1.10";
  available_parallelism := mret 4 |}.

#[export] Instance ref_sockets : Sockets Kernel := {|
  Proxy.tcp_bind _ := mret ();
  tcp_release _ k := k |}.

(** Queries as [UrlForm.v] reads them. *)
#[export] Instance ref_urlencoded : UrlEncoded := λ q, Some (form_read (bytes q)).

(** An engine, and an agent that has one. *)
Definition mock_engine (s : ContainerdRuntime) : Engine Kernel :=
  mk_Engine "mock" ContainerdRuntime mock_runtime s.
Definition embedded_engine (s : EmbeddedRuntime) : Engine Kernel :=
  mk_Engine "embedded" EmbeddedRuntime embedded_runtime s.
Definition agent_with (engines : list (Engine Kernel))
    (containers : gmap (string * string * string) string) : AgentState Kernel :=
  mk_AgentState "node-1" ∅ "http://127.0.0.1:6443" (mk_Engines "mock" engines) "10.244.0"
    ∅ containers ∅ ∅.
