(* ===== verification/AgentOk.v ===== *)
(** * The node agent is correct

    What [sweep_orphans] leaves and what a pass over a pod reports. *)
From S2P Require Import Prelude RustStd Text Json External Models Wire Error Runtime Files Agent.
From S2P Require Import Reference Samples ContainerLogs Mock Image Bundle Network Embedded NodeSamples AgentSamples.

Local Open Scope Z_scope.

(** ** What a pod reports *)

(** The phase as a function of what its containers do. *)
Definition spec_phase (infos : list ContainerInfo) : PodPhase :=
  if existsb (λ i, negb (ci_running i) && exited_badly i) infos then PodPhase_Failed
  else if forallb ci_running infos then PodPhase_Running
  else PodPhase_Pending.

(** The earliest of some instants. *)
Definition earliest_of (ts : list DateTime) (t : option DateTime) : Prop :=
  match t with
  | None => ts = []
  | Some t => t ∈ ts ∧ ∀ t' : DateTime, t' ∈ ts → val t <= val t'
  end.

Lemma earliest_snoc ts t cur :
  earliest_of ts cur → earliest_of (ts ++ [t]) (earlier cur (Some t)).
Proof.
  destruct cur as [c|]; simpl; [intros [Hc Hmin]|intros ->].
  - destruct (Z.leb_spec (val c) (val t)); (split; [set_solver|]);
      intros t' [Ht'| ->%list_elem_of_singleton]%elem_of_app; try lia.
    + by apply Hmin.
    + specialize (Hmin t' Ht'). lia.
  - split; [set_solver|]. intros t' ->%list_elem_of_singleton. lia.
Qed.

Section observed.
Context (info : Container → ContainerInfo).

(** The locals of the loop, read back as properties of what was observed. *)
Definition summarises (cs : list Container) (o : Observed) : Prop :=
  let infos := info <$> cs in
  ob_statuses o = (λ c, observed_status c (info c)) <$> cs ∧
  ob_all_running o = forallb ci_running infos ∧
  ob_any_failed o = existsb (λ i, negb (ci_running i) && exited_badly i) infos ∧
  earliest_of (omap ci_started_at infos) (ob_earliest_start o) ∧
  ob_runtime_ip o = head (omap ci_ip infos).

Lemma summarises_start : summarises [] Observed_start.
Proof. done. Qed.

Lemma summarises_found cs o c :
  summarises cs o → summarises (cs ++ [c]) (observe_found c (info c) o).
Proof.
  intros (Hs & Hr & Hf & He & Hip). unfold summarises, observe_found; simpl.
  rewrite !fmap_app, !omap_app, forallb_app, existsb_app, Hs, Hr, Hf, Hip. csimpl.
  rewrite andb_true_r, orb_false_r. repeat split.
  - destruct (ci_started_at (info c)); csimpl; [by apply earliest_snoc|]. by rewrite app_nil_r.
  - destruct (omap ci_ip (info <$> cs)) eqn:E; [|done]. simpl. by destruct (ci_ip (info c)).
Qed.

Lemma summarises_phase cs o :
  cs ≠ [] → summarises cs o → phase_of o = spec_phase (info <$> cs).
Proof.
  intros Hne (Hs & Hr & Hf & _). unfold phase_of, spec_phase. rewrite Hf, Hr, Hs.
  destruct (existsb _ _); [done|]. rewrite bool_decide_eq_false_2; [by rewrite andb_true_r|].
  by destruct cs.
Qed.
End observed.

Section agent.
Context {W : Type} `{Extern, !Unicode, !HashOrder, !Target}.
Context `{Machine W, Files W, HttpClient W, Commands W}.
Implicit Type s : AgentState W.

(** The engines know every container of the pod. *)
Definition all_found (es : Engines W) (pod_name : string) (info : Container → ContainerInfo)
    (cs : list Container) : Prop :=
  ∀ c w, c ∈ cs → Engines_find_container es (runtime_name pod_name c) w = (Ok (Some (info c)), w).

(** The indexes after the pass. *)
Definition recorded (pod : Pod) (uid : Uuid) (info : Container → ContainerInfo) s
    (cs : list Container) : AgentState W :=
  foldl (λ s c, record_container uid (pod_key pod).1 (pod_key pod).2 c (info c) s) s cs.

Lemma recorded_runtime pod uid info s cs :
  as_runtime (recorded pod uid info s cs) = as_runtime s.
Proof. revert s. induction cs as [|c cs IH]; intros s; [done|]. simpl. by rewrite IH. Qed.

Lemma recorded_prefix pod uid info s cs :
  as_pod_cidr_prefix (recorded pod uid info s cs) = as_pod_cidr_prefix s.
Proof. revert s. induction cs as [|c cs IH]; intros s; [done|]. simpl. by rewrite IH. Qed.

Lemma reconcile_containers_found pod uid info cs done o w s :
  all_found (as_runtime s) (pod_key pod).2 info cs →
  summarises info done o →
  ∃ o', reconcile_containers pod uid o cs (w, s) = (Ok o', (w, recorded pod uid info s cs)) ∧
        summarises info (done ++ cs) o'.
Proof.
  revert done o s. induction cs as [|c cs IH]; intros done o s Hfound Ho.
  { exists o. by rewrite app_nil_r. }
  destruct (IH (done ++ [c]) (observe_found c (info c) o)
    (record_container uid (pod_key pod).1 (pod_key pod).2 c (info c) s)) as (o' & E & Ho').
  - intros c' w' Hc'. apply Hfound. by right.
  - by apply summarises_found.
  - exists o'. rewrite <- app_assoc in Ho'. split; [|done]. cbn [reconcile_containers].
    eapply bind_run; [|exact E]. eapply bind_run.
    + unfold find_container. by rewrite Hfound by left.
    + done.
Qed.

(** A container keeps the entry of its last visit. *)
Lemma recorded_keeps pod uid info s cs key :
  key.1 ≠ pod_key pod ∨ key.2 ∉ ctr_name <$> cs →
  as_pod_containers (recorded pod uid info s cs) !! key = as_pod_containers s !! key.
Proof.
  revert s. induction cs as [|c cs IH]; intros s Hkey; [done|]. simpl.
  rewrite IH.
  2:{ destruct Hkey as [Hk|Hk]; [by left|right]. intros Hin. apply Hk. by right. }
  apply lookup_insert_ne. intros <-. destruct Hkey as [Hk|Hk]; [by apply Hk|].
  apply Hk. by left.
Qed.

Lemma recorded_container pod uid info s cs c :
  NoDup (ctr_name <$> cs) → c ∈ cs →
  as_pod_containers (recorded pod uid info s cs) !! (pod_key pod, ctr_name c) =
    Some (ci_id (info c)).
Proof.
  revert s. induction cs as [|c' cs IH]; intros s Hnd; [by intros ?%elem_of_nil|].
  csimpl in Hnd. apply NoDup_cons in Hnd as [Hc' Hnd]. intros [->|Hc]%elem_of_cons.
  - simpl. rewrite recorded_keeps by by right. apply lookup_insert_eq.
  - simpl. by apply IH.
Qed.

(** The pass comes down to the one request, and the agent keeps its name, its
    server and its engines. *)
Lemma reconcile_pod_found pod uid cs info w s :
  om_uid (pod_metadata pod) = Some uid →
  ps_containers (pod_spec pod) = cs → cs ≠ [] →
  all_found (as_runtime s) (pod_key pod).2 info cs →
  let ip := default (as_pod_cidr_prefix s +:+ "." +:+ pretty (val (as_u8 (val uid mod 254 + 1))))
              (head (omap ci_ip (info <$> cs))) in
  ∃ ips start,
    reconcile_pod pod (w, s) =
      publish_pod_status (pod_key pod).1 (pod_key pod).2 (spec_phase (info <$> cs)) (Some ip)
        ((λ c, observed_status c (info c)) <$> cs) start
        (w, with_indexes (λ x, x) (λ x, x) (λ x, x) ips (recorded pod uid info s cs)) ∧
    earliest_of (omap ci_started_at (info <$> cs)) start.
Proof.
  intros Huid Hcs Hne Hfound ip.
  destruct (reconcile_containers_found pod uid info cs [] Observed_start w s Hfound)
    as (o & E & Ho); [done|]. simpl in Ho.
  assert (reconcile_pod pod (w, s) =
    (ip ← pod_address uid (pod_key pod).1 (pod_key pod).2 o;
     publish_pod_status (pod_key pod).1 (pod_key pod).2 (phase_of o) (Some ip) (ob_statuses o)
       (ob_earliest_start o)) (w, recorded pod uid info s cs)) as ->.
  { unfold reconcile_pod. rewrite Huid, Hcs. destruct cs as [|c cs]; [done|].
    by rewrite (bind_ok _ _ _ _ _ E). }
  rewrite (summarises_phase info cs o Hne Ho). destruct Ho as (-> & _ & _ & He & Hip).
  unfold pod_address, ip. rewrite Hip. destruct (head _) as [addr|].
  - by exists <[pod_key pod := addr]>, (ob_earliest_start o).
  - exists (λ x, x), (ob_earliest_start o). split; [|done]. cbn [default].
    rewrite <- (recorded_prefix pod uid info s cs). by destruct (recorded pod uid info s cs).
Qed.


(** ** Sweeping *)

(** An engine whose removals may fail but do not panic. *)
Definition engine_calm (e : Engine W) : Prop :=
  ∀ st name w, (@rt_remove_container _ _ (en_runtime e) name (w, st)).1 ≠ Err Panicked.

Lemma remove_from_calm l name w :
  Forall engine_calm l →
  ∃ first w' l', remove_from l name w = (Ok first, (w', l')) ∧ Forall engine_calm l'.
Proof.
  intros Hl. revert w. induction Hl as [|e l He Hl IH]; intros w.
  { exists None, w, []. done. }
  cbn [remove_from]. unfold attempt_err, remove_in, engine_call.
  pose proof (He (en_state e) name w) as Hr. destruct (rt_remove_container name _) as [r [w' st]].
  destruct (IH w') as (first & w'' & l' & E & Hl').
  destruct r as [[]|[msg|]]; [..|exfalso; by apply Hr]; rewrite E;
    (eexists _, _, _; split; [reflexivity|by constructor]).
Qed.

Lemma engines_remove_calm name w (es : Engines W) :
  Forall engine_calm (eng_engines es) →
  ∃ r w' es', attempt_err (Engines_remove_container name) (w, es) = (Ok r, (w', es')) ∧
              Forall engine_calm (eng_engines es').
Proof.
  intros Hes. destruct (remove_from_calm _ name w Hes) as (first & w' & l' & E & Hl').
  unfold attempt_err, Engines_remove_container. rewrite E.
  destruct first as [msg|]; (eexists _, _, _; split; [reflexivity|done]).
Qed.

(** The removals alone. *)
Definition remove_each (es : list (string * string * string * string))
    : ST (W * Engines W) Failure () :=
  for_each es (λ o, attempt_err (Engines_remove_container (o.1.1.2 +:+ "-" +:+ o.1.2));; mret ()).

(** What an engine does to the world around it. *)
Definition engine_keeps (I : W → Prop) (e : Engine W) : Prop :=
  ∀ st name w, I w → I (@rt_remove_container _ _ (en_runtime e) name (w, st)).2.1.
Definition engines_keep (I : W → Prop) (we : W * Engines W) : Prop :=
  I we.1 ∧ Forall (engine_keeps I) (eng_engines we.2).

Lemma remove_from_keeps I l name w :
  I w → Forall (engine_keeps I) l →
  I (remove_from l name w).2.1 ∧ Forall (engine_keeps I) (remove_from l name w).2.2.
Proof.
  intros Hw Hl. revert w Hw. induction Hl as [|e l He Hl IH]; intros w Hw; [done|].
  cbn [remove_from]. unfold attempt_err, remove_in, engine_call.
  pose proof (He (en_state e) name w Hw) as Hr.
  destruct (rt_remove_container name _) as [r [w' st]].
  specialize (IH w' Hr).
  destruct r as [[]|[msg|]]; cbn in *; [| |by split; [|constructor]];
    destruct (remove_from l name w') as [rest [w'' l']], IH as [Hw'' Hl'];
    (split; [done|by constructor]).
Qed.
Lemma remove_each_keeps I os : keeps (engines_keep I) (remove_each os).
Proof.
  apply keeps_for_each. intros o. apply keeps_bind; [|intros ?; apply keeps_ret].
  intros [w es] [Hw Hes]. unfold attempt_err, Engines_remove_container.
  destruct (remove_from_keeps I _ (o.1.1.2 +:+ "-" +:+ o.1.2) w Hw Hes) as [Hw' Hl'].
  destruct (remove_from _ _ w) as [[[msg|]|[msg|]] [w' l']]; done.
Qed.

Definition forget_each (os : list (string * string * string * string)) s : AgentState W :=
  foldl (λ s o, forget o.1 o.2 s) s os.

Lemma forget_each_runtime os es s :
  forget_each os (with_runtime es s) = with_runtime es (forget_each os s).
Proof. revert s. induction os as [|o os IH]; intros s; [done|]. apply (IH (forget o.1 o.2 s)). Qed.

Lemma sweep_each os w s :
  Forall engine_calm (eng_engines (as_runtime s)) →
  ∃ w' es',
    remove_each os (w, as_runtime s) = (Ok (), (w', es')) ∧
    for_each os (λ '(key, id),
      attempt_err (on_runtime (Engines_remove_container (key.1.2 +:+ "-" +:+ key.2)));;
      modify_state (forget key id)) (w, s) =
      (Ok (), (w', with_runtime es' (forget_each os s))).
Proof.
  revert w s. induction os as [|[key id] os IH]; intros w s Hes.
  { exists w, (as_runtime s). split; [done|]. by destruct s. }
  destruct (engines_remove_calm (key.1.2 +:+ "-" +:+ key.2) w (as_runtime s) Hes)
    as (r & w1 & es1 & E & Hes1).
  destruct (IH w1 (forget key id (with_runtime es1 s))) as (w' & es' & E1 & E2); [done|].
  exists w', es'. split.
  - cbn [remove_each for_each]. eapply bind_run; [eapply bind_run; [exact E|reflexivity]|].
    exact E1.
  - change (forget key id (with_runtime es1 s)) with (with_runtime es1 (forget key id s)) in E2.
    rewrite forget_each_runtime in E2. cbn [for_each].
    eapply bind_run; [|exact E2]. apply (bind_run _ _ _ r (w1, with_runtime es1 s)); [|done].
    revert E. unfold attempt_err, on_runtime.
    destruct (Engines_remove_container _ _) as [[[]|[msg|]] [w2 es2]];
      intros [= <- <- <-]; reflexivity.
Qed.

(** What the sweep leaves in the indexes. *)
Lemma forget_each_lookup os s key :
  as_pod_containers (forget_each os s) !! key =
    if decide (key ∈ os.*1) then None else as_pod_containers s !! key.
Proof. by apply (foldl_delete_lookup as_pod_containers). Qed.

Lemma forget_each_pod {V} (f : AgentState W → gmap (string * string) V) os s pod :
  (∀ o s, f (forget o.1 o.2 s) = delete o.1.1 (f s)) →
  f (forget_each os s) !! pod = if decide (pod ∈ os.*1.*1) then None else f s !! pod.
Proof.
  intros Hf. assert (os.*1.*1 = (λ o, o.1.1) <$> os) as -> by by rewrite <- list_fmap_compose.
  by apply (foldl_delete_lookup f).
Qed.

Context `{!HashOrderOk}.

Lemma elem_of_orphans s desired key id :
  ((key, id) ∈ orphans s desired) ↔ (key.1 ∉ desired) ∧ as_pod_containers s !! key = Some id.
Proof.
  unfold orphans. rewrite list_elem_of_filter, hash_order_perm, elem_of_map_to_list. done.
Qed.

Lemma orphan_keys s desired key :
  key ∈ ((orphans s desired).*1) ↔ ((key.1 ∉ desired) ∧ is_Some (as_pod_containers s !! key)).
Proof.
  rewrite list_elem_of_fmap. split.
  - intros ([k id] & -> & [Hk Hid]%elem_of_orphans). eauto.
  - intros [Hk [id Hid]]. exists (key, id). split; [done|]. by apply elem_of_orphans.
Qed.

(** C18. A sweep ends, whatever the removals report, as long as the engines do
    not panic: the engines are asked once for each container of a pod that is
    not desired, and for no other; the index of containers keeps exactly the
    entries of the desired pods; and no address or port of a pod that lost a
    container stays behind, while those of the desired pods are untouched. *)
Theorem sweep_removes_exactly_orphans desired w s :
  Forall engine_calm (eng_engines (as_runtime s)) →
  ∃ w' s',
    sweep_orphans desired (w, s) = (Ok (), (w', s')) ∧
    remove_each (orphans s desired) (w, as_runtime s) = (Ok (), (w', as_runtime s')) ∧
    NoDup (orphans s desired) ∧
    (∀ key id, ((key, id) ∈ orphans s desired) ↔
       (key.1 ∉ desired) ∧ as_pod_containers s !! key = Some id) ∧
    as_pod_containers s' = filter (λ kv, kv.1.1 ∈ desired) (as_pod_containers s) ∧
    (∀ pod, pod ∈ desired → as_pod_ips s' !! pod = as_pod_ips s !! pod ∧
                            as_pod_ports s' !! pod = as_pod_ports s !! pod) ∧
    (∀ pod c id, pod ∉ desired → as_pod_containers s !! (pod, c) = Some id →
       as_pod_ips s' !! pod = None ∧ as_pod_ports s' !! pod = None).
Proof.
  intros Hcalm.
  destruct (sweep_each (orphans s desired) w s Hcalm) as (w' & es' & E1 & E2).
  exists w', (with_runtime es' (forget_each (orphans s desired) s)).
  split; [eapply bind_run; [reflexivity|exact E2]|]. split; [exact E1|].
  split; [apply NoDup_filter; rewrite hash_order_perm; apply NoDup_map_to_list|].
  split; [intros; apply elem_of_orphans|].
  assert (Hpod : ∀ pod, pod ∈ ((orphans s desired).*1.*1) ↔
            (pod ∉ desired) ∧ ∃ c, is_Some (as_pod_containers s !! (pod, c))).
  { intros pod. rewrite list_elem_of_fmap. split.
    - intros ([p c] & -> & [Hk Hs]%orphan_keys). eauto.
    - intros [Hk [c Hs]]. exists (pod, c). split; [done|]. by apply orphan_keys. }
  split; [|split].
  - apply map_eq. intros key. simpl. rewrite forget_each_lookup, map_lookup_filter.
    destruct (as_pod_containers s !! key) as [id|] eqn:Hkey; simpl; [|by destruct (decide _)].
    pose proof (orphan_keys s desired key) as Hk. rewrite Hkey in Hk.
    destruct (decide (key ∈ _)) as [Hin|Hin]; rewrite Hk in Hin.
    + rewrite option_guard_False by tauto. done.
    + rewrite option_guard_True; [done|]. destruct (decide (key.1 ∈ desired)); [done|].
      destruct Hin. eauto.
  - intros pod Hd. simpl. rewrite !forget_each_pod by done.
    rewrite !decide_False by (rewrite Hpod; tauto). done.
  - intros pod c id Hd Hc. simpl. rewrite !forget_each_pod by done.
    rewrite !decide_True by (rewrite Hpod; eauto). done.
Qed.
End agent.

(** ** On a concrete node *)

Definition web_container : Container := sample_container None None None.
Definition web_pod : Pod := {|
  pod_type_meta := mk_TypeMeta (Some "v1") (Some "Pod");
  pod_metadata := sample_meta "web" (sample_uuid 7) None;
  pod_spec := {|
    ps_containers := [web_container];
    ps_restart_policy := None;
    ps_node_selector := None;
    ps_node_name := Some "node-1";
    ps_service_account_name := None;
    ps_host_network := false;
    ps_affinity := None;
    ps_runtime_class_name := None |};
  pod_status := None |}.
Definition web_name : string := runtime_name "web" web_container.

(** The mock engine with the pod's container in it. *)
Definition mock_with_web : ContainerdRuntime :=
  mk_ContainerdRuntime
    {["containerd://1" := mk_MockContainer "containerd://1" true (sample_time 5) []]}
    {[web_name := "containerd://1"]}.
Definition web_info (_ : Container) : ContainerInfo :=
  mock_info (mk_MockContainer "containerd://1" true (sample_time 5) []).


Definition gone_index : gmap (string * string * string) string :=
  <[("default", "web", "web") := "containerd://1"]>
    {[("default", "old", "db") := "containerd://2"]}.

Lemma sweep_removes_exactly_orphans_witness :
  ∃ w' s',
    sweep_orphans {[("default", "web")]} (boot, agent_with [mock_engine mock_with_web] gone_index) =
      (Ok (), (w', s')) ∧
    as_pod_containers s' = {[("default", "web", "web") := "containerd://1"]}.
Proof.
  destruct (sweep_removes_exactly_orphans {[("default", "web")]} boot
    (agent_with [mock_engine mock_with_web] gone_index)) as (w' & s' & E & _ & _ & _ & Hids & _).
  - constructor; [|constructor]. intros st name w. discriminate.
  - exists w', s'. split; [exact E|]. rewrite Hids. vm_compute. reflexivity.
Defined.
