(* ===== verification/ProxyOk.v ===== *)
(** * The proxy is correct

    Which ports it listens on, and where it sends a connection. *)
From S2P Require Import Prelude RustStd Text Json External Reference Models Wire Error Runtime Agent.
From S2P Require Import Bundle Network NodeSamples AgentHttp Proxy AgentSamples.

Local Open Scope Z_scope.

Section proxy.
Context {W : Type} `{Extern, !Unicode, !HashOrder, HttpClient W, Sockets W}.

(** The first service that wants a port. *)
Definition first_wanting (p : i32) (services : list Service) : option Service :=
  head (List.filter (λ svc, bool_decide (wanted_port svc = Some p)) services).

Lemma ensure_listeners services (w : W) ls :
  ∃ (w' : W) ls',
    for_each services ensure_listener (w, ls) = (Ok (), (w', ls')) ∧
    ∀ p, match ls !! p, ls' !! p with
         | Some l, Some l' => l' = l
         | Some _, None => False
         | None, Some l' => first_wanting p services = Some (li_service l')
         | None, None => first_wanting p services = None
         end.
Proof.
  revert w ls. induction services as [|svc services IH]; intros w ls.
  { exists w, ls. split; [done|]. intros p. by destruct (ls !! p). }
  cbn [for_each].
  assert (∃ (w1 : W) ls1, ensure_listener svc (w, ls) = (Ok (), (w1, ls1)) ∧
    ∀ p, match ls !! p with
         | Some l => ls1 !! p = Some l
         | None => if bool_decide (wanted_port svc = Some p)
                   then ∃ b, ls1 !! p = Some (mk_Listener svc b) else ls1 !! p = None
         end) as (w1 & ls1 & E1 & Hone).
  { unfold ensure_listener, start_listener.
    destruct (wanted_port svc) as [q|].
    - destruct (ls !! q) as [l|] eqn:Hq.
      + exists w, ls. split; [done|]. intros p. destruct (ls !! p) eqn:Hp; [done|].
        by rewrite bool_decide_eq_false_2 by congruence.
      + destruct (tcp_bind _ w) as [r w1]. exists w1, (<[q := mk_Listener svc (is_ok r)]> ls).
        split; [done|]. intros p. destruct (decide (p = q)) as [->|Hpq].
        * rewrite lookup_insert_eq, Hq, bool_decide_eq_true_2 by done. by eexists.
        * rewrite lookup_insert_ne by done. destruct (ls !! p); [done|].
          by rewrite bool_decide_eq_false_2 by congruence.
    - exists w, ls. split; [done|]. intros p. destruct (ls !! p); [done|].
      by rewrite bool_decide_eq_false_2. }
  destruct (IH w1 ls1) as (w' & ls' & E & Hls'). exists w', ls'.
  split; [eapply bind_run; [exact E1|exact E]|].
  intros p. specialize (Hone p). specialize (Hls' p). unfold first_wanting. cbn [List.filter].
  destruct (ls !! p) as [l|]; [by rewrite Hone in Hls'|].
  destruct (bool_decide _); [destruct Hone as [b Hone]|]; rewrite Hone in Hls'; [|exact Hls'].
  destruct (ls' !! p) as [l'|]; [|done]. by subst.
Qed.

Lemma stop_listeners ps (w : W) ls :
  ∃ (w' : W),
    for_each ps stop_listener (w, ls) = (Ok (), (w', foldl (λ ls p, delete p ls) ls ps)).
Proof.
  revert w ls. induction ps as [|p ps IH]; intros w ls; [by exists w|].
  assert (∃ w1 : W, stop_listener p (w, ls) = (Ok (), (w1, delete p ls))) as [w1 E1].
  { unfold stop_listener. destruct (ls !! p) eqn:Hp; [by eexists|].
    exists w. by rewrite delete_id. }
  destruct (IH w1 (delete p ls)) as [w' E]. exists w'. cbn [for_each].
  eapply bind_run; [exact E1|exact E].
Qed.

Lemma first_wanting_Some p services svc :
  first_wanting p services = Some svc → p ∈ omap wanted_port services.
Proof.
  unfold first_wanting. intros Hsvc.
  assert (svc ∈ List.filter (λ svc, bool_decide (wanted_port svc = Some p)) services) as Hin.
  { destruct (List.filter _ _); simplify_eq/=. by left. }
  apply list_elem_of_In, List.filter_In in Hin as [Hin Hw]. apply list_elem_of_In in Hin.
  apply list_elem_of_omap. exists svc. by apply bool_decide_eq_true in Hw.
Qed.
Lemma first_wanting_None p services :
  first_wanting p services = None → p ∉ omap wanted_port services.
Proof.
  unfold first_wanting. intros Hnone (svc & Hin & Hw)%list_elem_of_omap.
  assert (svc ∈ List.filter (λ svc, bool_decide (wanted_port svc = Some p)) services) as Hf.
  { apply list_elem_of_In, List.filter_In. rewrite bool_decide_eq_true.
    split; [by apply list_elem_of_In|done]. }
  destruct (List.filter _ _); [by apply elem_of_nil in Hf|done].
Qed.

Context `{!HashOrderOk}.

(** C19. One pass of the proxy over the services always ends with exactly one
    listener for each node port that some NodePort service wants, the port of
    its first port entry, and none for any other port; a port that already had
    a listener keeps it, with the copy of the service it was started with,
    whatever the service looks like now; and a new listener serves the first
    service of the list that wants its port. *)
Theorem proxy_listens_exactly_on_wanted_ports services (w : W) ls :
  ∃ (w' : W) ls',
    reconcile_listeners services (w, ls) = (Ok (), (w', ls')) ∧
    dom ls' = list_to_set (omap wanted_port services) ∧
    (∀ p l, ls !! p = Some l → p ∈ dom ls' → ls' !! p = Some l) ∧
    (∀ p l, ls !! p = None → ls' !! p = Some l →
       first_wanting p services = Some (li_service l)).
Proof.
  destruct (ensure_listeners services w ls) as (w1 & ls1 & E1 & Hone).
  set (stale := stale_ports ls1 (list_to_set (omap wanted_port services))).
  destruct (stop_listeners stale w1 ls1) as [w' E2].
  exists w', (foldl (λ ls p, delete p ls) ls1 stale). split.
  { eapply bind_run; [exact E1|]. eapply bind_run; [reflexivity|exact E2]. }
  assert (Hstale : ∀ p, (p ∈ stale) ↔ (p ∉ omap wanted_port services) ∧ is_Some (ls1 !! p)).
  { intros p. unfold stale, stale_ports. rewrite list_elem_of_filter, elem_of_list_to_set.
    rewrite hash_order_perm, list_elem_of_fmap. split.
    - intros [Hp ([q l] & -> & Hl%elem_of_map_to_list)]. eauto.
    - intros [Hp [l Hl]]. split; [done|]. exists (p, l). by rewrite elem_of_map_to_list. }
  assert (Hlook : ∀ p, foldl (λ ls p, delete p ls) ls1 stale !! p =
                       if decide (p ∈ omap wanted_port services) then ls1 !! p else None).
  { intros p. etrans; [by apply (foldl_delete_lookup id _ id)|]. rewrite list_fmap_id.
    destruct (decide (p ∈ stale)) as [Hs|Hs]; rewrite Hstale in Hs.
    - by rewrite decide_False by tauto.
    - destruct (decide _); [done|]. destruct (ls1 !! p) eqn:Hp; [|done]. destruct Hs; eauto. }
  split; [|split].
  - apply set_eq. intros p. rewrite elem_of_dom, Hlook, elem_of_list_to_set.
    destruct (decide _) as [Hp|Hp]; [|split; [by intros []|done]].
    split; [done|intros _]. specialize (Hone p).
    destruct (ls1 !! p); [done|]. destruct (ls !! p); [done|]. by apply first_wanting_None in Hone.
  - intros p l Hl. rewrite elem_of_dom, Hlook. destruct (decide _); [|by intros []].
    specialize (Hone p). rewrite Hl in Hone. destruct (ls1 !! p); [by intros _; subst|done].
  - intros p l Hnone. rewrite Hlook. destruct (decide _); [|done]. intros Hl.
    specialize (Hone p). by rewrite Hnone, Hl in Hone.
Qed.

(** ** Where a connection goes *)

(** An engine of the node has published the target port of the pod. *)
Definition publishes {V} (s : AgentState V) (target : i32) (pod : string * string)
    (m : PortMapping) : Prop :=
  (m ∈ default [] (as_pod_ports s !! pod)) ∧ pm_container_port m = target ∧ pm_protocol m = "tcp".
Definition unreachable {V} (s : AgentState V) (target : i32) (pod : string * string) : Prop :=
  (∀ m, ¬ publishes s target pod m) ∧ as_pod_ips s !! pod = None.

Lemma backend_of_spec {V} (s : AgentState V) target pod :
  match backend_of s target pod with
  | Some (host, port) =>
      (∃ m, publishes s target pod m ∧ host = "127.0.0.1" ∧ port = val (pm_host_port m)) ∨
      ((∀ m, ¬ publishes s target pod m) ∧ as_pod_ips s !! pod = Some host ∧
       port = wrap 0 65536 (val target))
  | None => unreachable s target pod
  end.
Proof.
  unfold backend_of, unreachable, publishes.
  destruct (as_pod_ports s !! pod) as [ms|]; simpl.
  - destruct (filter _ ms) as [|m rest] eqn:Hf; simpl.
    + assert (∀ m, ¬ (m ∈ ms ∧ pm_container_port m = target ∧ pm_protocol m = "tcp")) as Hno.
      { intros m (Hin & Hp). assert (m ∈ @nil PortMapping) as []%elem_of_nil.
        rewrite <- Hf. by apply list_elem_of_filter. }
      destruct (as_pod_ips s !! pod); simpl; auto.
    + left. exists m. split; [|done].
      assert (m ∈ m :: rest) as Hm by by left.
      rewrite <- Hf in Hm. apply list_elem_of_filter in Hm. tauto.
  - assert (∀ m : PortMapping,
      ¬ (m ∈ [] ∧ pm_container_port m = target ∧ pm_protocol m = "tcp")) as Hno.
    { by intros m [Hm%elem_of_nil _]. }
    destruct (as_pod_ips s !! pod); simpl; auto.
Qed.

(** A connection to a node port goes to the first pod, in the order of the
    ready addresses of the service's endpoints, that this agent can reach: at
    the loopback address if one of its engines published the target port of
    that pod for TCP, else at the address an engine reported for the pod, on
    the target port cut to 16 bits; and it is refused exactly if the agent can
    reach none of them. *)
Theorem backend_is_a_local_endpoint {V} (s : AgentState V) (e : Endpoints) target :
  match choose_backend s target (candidates e) with
  | Some (host, port) =>
      ∃ before pod after, candidates e = before ++ pod :: after ∧
        Forall (unreachable s target) before ∧
        ((∃ m, publishes s target pod m ∧ host = "127.0.0.1" ∧ port = val (pm_host_port m)) ∨
         ((∀ m, ¬ publishes s target pod m) ∧ as_pod_ips s !! pod = Some host ∧
          port = wrap 0 65536 (val target)))
  | None => Forall (unreachable s target) (candidates e)
  end.
Proof.
  unfold choose_backend. induction (candidates e) as [|pod pods IH]; csimpl; [done|].
  pose proof (backend_of_spec s target pod) as Hb.
  destruct (backend_of s target pod) as [[host port]|]; simpl.
  - by exists [], pod, pods.
  - destruct (head _) as [[host port]|]; [|by constructor].
    destruct IH as (before & pod' & after & -> & Hbefore & Hp).
    exists (pod :: before), pod', after. split; [done|]. split; [by constructor|done].
Qed.
End proxy.

(** ** The bytes of a connection *)

Definition to_backend (l : list PipeAction) : list ascii :=
  concat (omap (λ a, match a with ToBackend bs => Some bs | _ => None end) l).
Definition to_client (l : list PipeAction) : list ascii :=
  concat (omap (λ a, match a with ToClient bs => Some bs | _ => None end) l).
Definition client_data (l : list PipeEvent) : list ascii :=
  concat (omap (λ e, match e with ClientData bs => Some bs | _ => None end) l).
Definition backend_data (l : list PipeEvent) : list ascii :=
  concat (omap (λ e, match e with BackendData bs => Some bs | _ => None end) l).
Definition is_end (e : PipeEvent) : bool := match e with ClientEnds | BackendEnds => true | _ => false end.

(** Each side gets what the other sent, byte for byte, up to the first end of
    either; what the backend answers after the client has finished sending is
    dropped. *)
Lemma pipe_stops_at_first_end before e after :
  forallb (λ e, negb (is_end e)) before = true → is_end e = true →
  let actions := pipe_conn (before ++ e :: after) in
  to_backend actions = client_data before ∧ to_client actions = backend_data before.
Proof.
  intros Hb He. unfold to_backend, to_client, client_data, backend_data.
  induction before as [|b before IH]; cbn zeta.
  - by destruct e.
  - cbn in Hb. apply andb_prop in Hb as [Hb1 Hb]. destruct (IH Hb) as [IH1 IH2].
    destruct b; try done; cbn in *; by rewrite ?IH1, ?IH2.
Qed.
Example half_close_loses_reply :
  to_client (pipe_conn [ClientData (bytes "GET"); ClientEnds; BackendData (bytes "200"); BackendEnds]) = [].
Proof. reflexivity. Qed.

(** ** On a concrete node *)

Definition node_port_service (name : string) (port : Z) : Service := {|
  svc_type_meta := mk_TypeMeta (Some "v1") (Some "Service");
  svc_metadata := ObjectMeta_with_name (Some name) ObjectMeta_default;
  svc_spec := {|
    sspec_selector := None;
    sspec_ports := [mk_ServicePort None Protocol_TCP (as_i32 80) None (Some (as_i32 port))];
    sspec_service_type := ServiceType_NodePort;
    sspec_cluster_ip := None;
    sspec_external_i_ps := None;
    sspec_session_affinity := None |};
  svc_status := None |}.

Lemma proxy_listens_exactly_on_wanted_ports_witness :
  ∃ (w' : Kernel) ls',
    reconcile_listeners [node_port_service "web" 30080]
      (boot, {[as_i32 30001 := mk_Listener (node_port_service "old" 30001) true]}) =
      (Ok (), (w', ls')) ∧
    dom ls' = {[as_i32 30080]}.
Proof.
  destruct (proxy_listens_exactly_on_wanted_ports (W:=Kernel) [node_port_service "web" 30080] boot
    {[as_i32 30001 := mk_Listener (node_port_service "old" 30001) true]})
    as (w' & ls' & E & Hdom & _).
  exists w', ls'. split; [exact E|]. rewrite Hdom.
  change (omap wanted_port _) with [as_i32 30080]. apply list_to_set_singleton_L.
Defined.
