(* ===== verification/Printers.v ===== *)
(** * Tables ([src/src/server/printers.rs], [src/src/server/table.rs])

    The columns and cells [kubectl get] shows for every kind, and the table
    they are put in.  A row reads the clock at most once, for the age; [now] is
    that reading. *)
From S2P Require Import Prelude RustStd Json External Models Wire Bus World.

Local Open Scope Z_scope.

(** ** Ages *)

(** [t1 - t2] in nanoseconds and [Duration::num_seconds], which truncates. *)
Definition num_seconds (d : Z) : Z := Z.quot d 1000000000.

Definition format_age (d : Z) : string :=
  let secs := Z.max (num_seconds d) 0 in
  if secs <? 60 then pretty secs +:+ "s"
  else
    let mins := secs / 60 in
    if mins <? 60 then pretty mins +:+ "m"
    else
      let hrs := mins / 60 in
      if hrs <? 48 then pretty hrs +:+ "h"
      else
        let days := hrs / 24 in
        pretty days +:+ "d".

Definition age_str (now : DateTime) (ts : option DateTime) : string :=
  match ts with
  | Some t => format_age (val now - val t)
  | None => "<unknown>"
  end.

(** ** Columns and tables *)

Record Column : Type := mk_Column {
  col_name : string;
  col_kind : string;
  col_priority : i32;
}.
Definition i32_one : i32 := @Bnd (-2147483648) 2147483648 1 eq_refl.
Definition Column_new (name kind : string) : Column := mk_Column name kind i32_zero.
Definition Column_wide (name kind : string) : Column := mk_Column name kind i32_one.

Section tables.
Context `{Extern, Env}.

Definition column_definition (c : Column) : Value :=
  JObj [("name", JStr (col_name c)); ("type", JStr (col_kind c)); ("format", JStr "");
        ("description", JStr ""); ("priority", to_value (col_priority c))].

Definition build_table {T} `{Json T} (columns : list Column) (items : list T)
    (row_for : DateTime → T → list Value) {E} : M E Value :=
  rows ← mapM (λ item,
    t ← now;
    mret (JObj [("cells", JArr (row_for t item)); ("object", to_value item)])) items;
  mret (JObj [("kind", JStr "Table"); ("apiVersion", JStr "meta.k8s.io/v1");
              ("columnDefinitions", JArr (column_definition <$> columns));
              ("rows", JArr rows)]).
End tables.

(** ** Rows *)

Section rows.
Context `{Extern, HashOrder, Unicode}.

Definition or_none (s : option string) : string := default "<none>" s.
Definition or_unknown (s : option string) : string := default "<unknown>" s.

(** [json!] of a number, and a count as [usize]. *)
Definition int_cell (z : i32) : Value := to_value z.
Definition count_cell (n : nat) : Value := JInt (Z.of_nat n).

(** The [k=v] pairs of a selector, sorted. *)
Definition str_le (a b : string) : Prop := str_ltb b a = false.
#[export] Instance str_le_dec a b : Decision (str_le a b).
Proof. apply bool_eq_dec. Defined.
Definition selector_cell (m : option (gmap string string)) : string :=
  let s := (λ m, String.concat ","
                   (merge_sort str_le ((λ kv, kv.1 +:+ "=" +:+ kv.2) <$> hash_order m))) <$> m in
  or_none (s ≫= λ s, if bool_decide (s = "") then None else Some s).

Definition POD_COLUMNS : list Column :=
  [Column_new "Name" "string"; Column_new "Ready" "string"; Column_new "Status" "string";
   Column_new "Restarts" "integer"; Column_new "Age" "string"; Column_wide "IP" "string";
   Column_wide "Node" "string"; Column_wide "Nominated Node" "string";
   Column_wide "Readiness Gates" "string"].

(** [i32] sums wrap around in a release build. *)
Definition sum_i32 (l : list i32) : i32 := foldl (λ a x, as_i32 (val a + val x)) i32_zero l.

Definition pod_row (now : DateTime) (p : Pod) : list Value :=
  let cs := pod_status p ≫= pstat_container_statuses in
  let total := length (ps_containers (pod_spec p)) in
  let ready := match cs with
               | Some cs => length (filter (λ c, cs_ready c = true) cs)
               | None => 0%nat
               end in
  let restarts := match cs with Some cs => sum_i32 (cs_restart_count <$> cs) | None => i32_zero end in
  let phase := match pod_status p with
               | Some s => PodPhase_to_string (pstat_phase s)
               | None => "Pending"
               end in
  let pod_ip := or_none (pod_status p ≫= pstat_pod_ip) in
  let node := or_none (ps_node_name (pod_spec p)) in
  [JStr (ObjectMeta_name (pod_metadata p));
   JStr (pretty (Z.of_nat ready) +:+ "/" +:+ pretty (Z.of_nat total));
   JStr phase; int_cell restarts;
   JStr (age_str now (om_creation_timestamp (pod_metadata p)));
   JStr pod_ip; JStr node; JStr "<none>"; JStr "<none>"].

Definition NODE_COLUMNS : list Column :=
  [Column_new "Name" "string"; Column_new "Status" "string"; Column_new "Roles" "string";
   Column_new "Age" "string"; Column_new "Version" "string"; Column_wide "Internal-IP" "string";
   Column_wide "External-IP" "string"; Column_wide "OS-Image" "string";
   Column_wide "Kernel-Version" "string"; Column_wide "Container-Runtime" "string"].

(** The address of a type, the first of several. *)
Definition address_of (t : NodeAddressType) (l : list NodeAddress) : option string :=
  (λ ia, naddr_address ia.2) <$> list_find (λ a, naddr_address_type a = t) l.

Definition node_roles (n : Node) : string :=
  match om_labels (node_metadata n) with
  | Some l =>
      match omap (λ kv, strip_prefix "node-role.kubernetes.io/" kv.1) (hash_order l) with
      | [] => "<none>"
      | collected => String.concat "," collected
      end
  | None => "<none>"
  end.

Definition node_row (now : DateTime) (n : Node) : list Value :=
  let ready :=
    match (node_status n ≫= nstat_conditions) ≫=
          list_find (λ c, ncond_condition_type c = NodeConditionType_Ready) with
    | Some (_, c) => bool_decide (ncond_status c = ConditionStatus_True)
    | None => false
    end in
  let status := if ready then "Ready" else "NotReady" in
  let info := node_status n ≫= nstat_node_info in
  let addresses := node_status n ≫= nstat_addresses in
  [JStr (ObjectMeta_name (node_metadata n)); JStr status; JStr (node_roles n);
   JStr (age_str now (om_creation_timestamp (node_metadata n)));
   JStr (or_unknown (info ≫= ninfo_kubelet_version));
   JStr (or_none (addresses ≫= address_of NodeAddressType_InternalIP));
   JStr (or_none (addresses ≫= address_of NodeAddressType_ExternalIP));
   JStr (or_unknown (info ≫= ninfo_os_image));
   JStr (or_unknown (info ≫= ninfo_kernel_version));
   JStr (or_unknown (info ≫= ninfo_container_runtime_version))].

(** A number of a status, [0] without one. *)
Definition status_count {S} (f : S → i32) (s : option S) : i32 :=
  match s with Some s => f s | None => i32_zero end.

Definition DEPLOYMENT_COLUMNS : list Column :=
  [Column_new "Name" "string"; Column_new "Ready" "string"; Column_new "Up-to-date" "integer";
   Column_new "Available" "integer"; Column_new "Age" "string"].
Definition deployment_row (now : DateTime) (d : Deployment) : list Value :=
  let s := dep_status d in
  [JStr (ObjectMeta_name (dep_metadata d));
   JStr (pretty (val (status_count dstat_ready_replicas s)) +:+ "/" +:+
         pretty (val (DeploymentSpec_replicas (dep_spec d))));
   int_cell (status_count dstat_updated_replicas s);
   int_cell (status_count dstat_available_replicas s);
   JStr (age_str now (om_creation_timestamp (dep_metadata d)))].

Definition STATEFULSET_COLUMNS : list Column :=
  [Column_new "Name" "string"; Column_new "Ready" "string"; Column_new "Age" "string"].
Definition statefulset_row (now : DateTime) (s : StatefulSet) : list Value :=
  [JStr (ObjectMeta_name (ss_metadata s));
   JStr (pretty (val (status_count ssstat_ready_replicas (ss_status s))) +:+ "/" +:+
         pretty (val (StatefulSetSpec_replicas (ss_spec s))));
   JStr (age_str now (om_creation_timestamp (ss_metadata s)))].

Definition DAEMONSET_COLUMNS : list Column :=
  [Column_new "Name" "string"; Column_new "Desired" "integer"; Column_new "Current" "integer";
   Column_new "Ready" "integer"; Column_new "Up-to-date" "integer"; Column_new "Available" "integer";
   Column_new "Node Selector" "string"; Column_new "Age" "string"].
Definition daemonset_row (now : DateTime) (d : DaemonSet) : list Value :=
  let s := ds_status d in
  [JStr (ObjectMeta_name (ds_metadata d));
   int_cell (status_count dsstat_desired_number_scheduled s);
   int_cell (status_count dsstat_current_number_scheduled s);
   int_cell (status_count dsstat_number_ready s);
   int_cell (status_count dsstat_updated_number_scheduled s);
   int_cell (status_count dsstat_number_available s);
   JStr (selector_cell (ps_node_selector (pts_spec (dsspec_template (ds_spec d)))));
   JStr (age_str now (om_creation_timestamp (ds_metadata d)))].

Definition SERVICE_COLUMNS : list Column :=
  [Column_new "Name" "string"; Column_new "Type" "string"; Column_new "Cluster-IP" "string";
   Column_new "External-IP" "string"; Column_new "Ports" "string"; Column_new "Age" "string";
   Column_wide "Selector" "string"].

Definition port_cell (p : ServicePort) : string :=
  let proto := match sport_protocol p with Protocol_UDP => "UDP" | Protocol_TCP => "TCP" end in
  match sport_node_port p with
  | Some np => pretty (val (sport_port p)) +:+ ":" +:+ pretty (val np) +:+ "/" +:+ proto
  | None => pretty (val (sport_port p)) +:+ "/" +:+ proto
  end.

Definition service_row (now : DateTime) (s : Service) : list Value :=
  let svc_type := match sspec_service_type (svc_spec s) with
                  | ServiceType_ClusterIP => "ClusterIP"
                  | ServiceType_NodePort => "NodePort"
                  | ServiceType_LoadBalancer => "LoadBalancer"
                  | ServiceType_ExternalName => "ExternalName"
                  end in
  let external_ip := match sspec_service_type (svc_spec s) with
                     | ServiceType_LoadBalancer => "<pending>"
                     | _ => "<none>"
                     end in
  let ports := String.concat "," (port_cell <$> sspec_ports (svc_spec s)) in
  [JStr (ObjectMeta_name (svc_metadata s)); JStr svc_type;
   JStr (or_none (sspec_cluster_ip (svc_spec s))); JStr external_ip;
   JStr (if bool_decide (ports = "") then "<none>" else ports);
   JStr (age_str now (om_creation_timestamp (svc_metadata s)));
   JStr (selector_cell (sspec_selector (svc_spec s)))].

Definition NAMESPACE_COLUMNS : list Column :=
  [Column_new "Name" "string"; Column_new "Status" "string"; Column_new "Age" "string"].
Definition namespace_row (now : DateTime) (n : Namespace) : list Value :=
  [JStr (ObjectMeta_name (ns_metadata n));
   JStr (match ns_status n with
         | Some s => match nsstat_phase s with
                     | NamespacePhase_Active => "Active"
                     | NamespacePhase_Terminating => "Terminating"
                     end
         | None => "Active"
         end);
   JStr (age_str now (om_creation_timestamp (ns_metadata n)))].

Definition EVENT_COLUMNS : list Column :=
  [Column_new "Last Seen" "string"; Column_new "Type" "string"; Column_new "Reason" "string";
   Column_new "Object" "string"; Column_new "Message" "string"].
Definition event_row (now : DateTime) (e : Event) : list Value :=
  let last := match ev_last_timestamp e with
              | Some t => Some t
              | None => match ev_first_timestamp e with Some t => Some t | None => ev_event_time e end
              end in
  [JStr (age_str now last);
   JStr (match ev_event_type e with Some EventType_Warning => "Warning" | _ => "Normal" end);
   JStr (default "" (ev_reason e));
   JStr (to_lowercase (default "" (objref_kind (ev_involved_object e))) +:+ "/" +:+
         default "" (objref_name (ev_involved_object e)));
   JStr (default "" (ev_message e))].

Definition SERVICEACCOUNT_COLUMNS : list Column :=
  [Column_new "Name" "string"; Column_new "Secrets" "integer"; Column_new "Age" "string"].
Definition serviceaccount_row (now : DateTime) (sa : ServiceAccount) : list Value :=
  [JStr (ObjectMeta_name (sa_metadata sa));
   count_cell (match sa_secrets sa with Some s => length s | None => 0%nat end);
   JStr (age_str now (om_creation_timestamp (sa_metadata sa)))].

Definition entries (m : option (gmap string string)) : nat :=
  match m with Some m => size m | None => 0%nat end.

Definition SECRET_COLUMNS : list Column :=
  [Column_new "Name" "string"; Column_new "Type" "string"; Column_new "Data" "integer";
   Column_new "Age" "string"].
Definition secret_row (now : DateTime) (s : Secret) : list Value :=
  [JStr (ObjectMeta_name (sec_metadata s)); JStr (sec_secret_type s);
   count_cell (entries (sec_data s) + entries (sec_string_data s))%nat;
   JStr (age_str now (om_creation_timestamp (sec_metadata s)))].

Definition CONFIGMAP_COLUMNS : list Column :=
  [Column_new "Name" "string"; Column_new "Data" "integer"; Column_new "Age" "string"].
Definition configmap_row (now : DateTime) (cm : ConfigMap) : list Value :=
  [JStr (ObjectMeta_name (cm_metadata cm));
   count_cell (entries (cm_data cm) + entries (cm_binary_data cm))%nat;
   JStr (age_str now (om_creation_timestamp (cm_metadata cm)))].

Definition created_at (m : ObjectMeta) : string := or_unknown (to_rfc3339 <$> om_creation_timestamp m).
Definition role_ref_cell (r : RoleRef) : string := rref_kind r +:+ "/" +:+ rref_name r.

Definition CLUSTERROLE_COLUMNS : list Column :=
  [Column_new "Name" "string"; Column_new "Created At" "string"].
Definition clusterrole_row (_ : DateTime) (cr : ClusterRole) : list Value :=
  [JStr (ObjectMeta_name (cr_metadata cr)); JStr (created_at (cr_metadata cr))].

Definition CLUSTERROLEBINDING_COLUMNS : list Column :=
  [Column_new "Name" "string"; Column_new "Role" "string"; Column_new "Age" "string"].
Definition clusterrolebinding_row (now : DateTime) (b : ClusterRoleBinding) : list Value :=
  [JStr (ObjectMeta_name (crb_metadata b)); JStr (role_ref_cell (crb_role_ref b));
   JStr (age_str now (om_creation_timestamp (crb_metadata b)))].

Definition ROLE_COLUMNS : list Column :=
  [Column_new "Name" "string"; Column_new "Created At" "string"].
Definition role_row (_ : DateTime) (r : Role) : list Value :=
  [JStr (ObjectMeta_name (role_metadata r)); JStr (created_at (role_metadata r))].

Definition ROLEBINDING_COLUMNS : list Column :=
  [Column_new "Name" "string"; Column_new "Role" "string"; Column_new "Age" "string"].
Definition rolebinding_row (now : DateTime) (b : RoleBinding) : list Value :=
  [JStr (ObjectMeta_name (rb_metadata b)); JStr (role_ref_cell (rb_role_ref b));
   JStr (age_str now (om_creation_timestamp (rb_metadata b)))].
End rows.

(** [RC_COLUMNS] and [RS_COLUMNS] of [api.rs]. *)
Definition RC_COLUMNS : list Column :=
  [Column_new "Name" "string"; Column_new "Desired" "integer"; Column_new "Current" "integer";
   Column_new "Ready" "integer"; Column_new "Age" "string"].
Definition RS_COLUMNS : list Column := RC_COLUMNS.

(** ** What the API's handlers print for a kind *)

Class Printed (T : Type) : Type := {
  print_columns : list Column;
  print_row : DateTime → T → list Value;
}.
#[global] Hint Mode Printed ! : typeclass_instances.
Arguments print_columns T {_}.

Section printed.
Context `{Extern, HashOrder, Unicode}.

#[export] Instance pod_printed : Printed Pod := {|
  print_columns := POD_COLUMNS; print_row := pod_row |}.
#[export] Instance node_printed : Printed Node := {|
  print_columns := NODE_COLUMNS; print_row := node_row |}.
#[export] Instance deployment_printed : Printed Deployment := {|
  print_columns := DEPLOYMENT_COLUMNS; print_row := deployment_row |}.
#[export] Instance statefulset_printed : Printed StatefulSet := {|
  print_columns := STATEFULSET_COLUMNS; print_row := statefulset_row |}.
#[export] Instance daemonset_printed : Printed DaemonSet := {|
  print_columns := DAEMONSET_COLUMNS; print_row := daemonset_row |}.
#[export] Instance service_printed : Printed Service := {|
  print_columns := SERVICE_COLUMNS; print_row := service_row |}.
#[export] Instance namespace_printed : Printed Namespace := {|
  print_columns := NAMESPACE_COLUMNS; print_row := namespace_row |}.
#[export] Instance event_printed : Printed Event := {|
  print_columns := EVENT_COLUMNS; print_row := event_row |}.
#[export] Instance serviceaccount_printed : Printed ServiceAccount := {|
  print_columns := SERVICEACCOUNT_COLUMNS; print_row := serviceaccount_row |}.
#[export] Instance secret_printed : Printed Secret := {|
  print_columns := SECRET_COLUMNS; print_row := secret_row |}.
#[export] Instance configmap_printed : Printed ConfigMap := {|
  print_columns := CONFIGMAP_COLUMNS; print_row := configmap_row |}.
#[export] Instance clusterrole_printed : Printed ClusterRole := {|
  print_columns := CLUSTERROLE_COLUMNS; print_row := clusterrole_row |}.
#[export] Instance clusterrolebinding_printed : Printed ClusterRoleBinding := {|
  print_columns := CLUSTERROLEBINDING_COLUMNS; print_row := clusterrolebinding_row |}.
#[export] Instance role_printed : Printed Role := {|
  print_columns := ROLE_COLUMNS; print_row := role_row |}.
#[export] Instance rolebinding_printed : Printed RoleBinding := {|
  print_columns := ROLEBINDING_COLUMNS; print_row := rolebinding_row |}.
End printed.
