(* ===== verification/Routes.v ===== *)
(** * Routes and discovery ([src/src/server/routes.rs], [api.rs])

    The table of paths and methods, how a request finds its handler, the mark
    that a watch leaves on a request, and the documents from which a client
    learns what the server offers. *)
From S2P Require Import Prelude RustStd Text Json External Models.


(** ** Requests *)

Inductive HttpMethod : Type := GET | POST | PUT | DELETE.
#[export] Instance HttpMethod_eq_dec : EqDecision HttpMethod.
Proof. solve_decision. Defined.

(** [has_watch_flag]: [watch], [watch=1] or [watch=true] among the pairs. *)
Definition is_watch_pair (pair : string) : bool :=
  match splitn2 "=" pair with
  | (k, None) => str_eqb k "watch"
  | (k, Some v) => str_eqb k "watch" && (str_eqb v "1" || str_eqb v "true")
  end.
Definition has_watch_flag (query : string) : bool := existsb is_watch_pair (split "&" query).

(** The headers of a request that the handlers look at: the values of [Accept]
    that are text, and whether the watch mark is there. *)
Record HeaderMap : Type := mk_HeaderMap {
  hm_accept : list string;
  hm_watch : bool;
}.
Definition watch_middleware (query : option string) (h : HeaderMap) : HeaderMap :=
  match query with
  | Some q => if has_watch_flag q then mk_HeaderMap (hm_accept h) true else h
  | None => h
  end.

(** [str::contains] with a string, and the two questions of [table.rs]. *)
Definition contains_str (p s : string) : bool := bool_decide (is_Some (split_once_str p s)).
Definition wants_table (h : HeaderMap) : bool := existsb (contains_str "as=Table") (hm_accept h).
Definition wants_watch (h : HeaderMap) : bool := hm_watch h.

(** ** Routes *)

Inductive Segment : Type :=
| Static (s : string)
| Param (name : string).
#[export] Instance Segment_eq_dec : EqDecision Segment.
Proof. solve_decision. Defined.

(** The segments between the slashes of a path that starts with one. *)
Definition path_segments (path : string) : list string := tail (split "/" path).
Definition segment_of (s : string) : Segment :=
  match s with
  | String c name => if Ascii.eqb c ":" then Param name else Static s
  | EmptyString => Static s
  end.

Record Route : Type := mk_Route {
  rt_pattern : list Segment;
  rt_methods : list (HttpMethod * string);
}.
#[export] Instance Route_eq_dec : EqDecision Route.
Proof. solve_decision. Defined.
Definition route (path : string) (methods : list (HttpMethod * string)) : Route :=
  mk_Route (segment_of <$> path_segments path) methods.

(** Every [.route(..)] of the file, with the names of the handlers. *)
Definition api_routes : list Route :=
  [
   route "/version" [(GET, "version_info")];
   route "/healthz" [(GET, "ok")];
   route "/livez" [(GET, "ok")];
   route "/readyz" [(GET, "ok")];
   route "/api" [(GET, "api_versions")];
   route "/api/v1" [(GET, "api_v1_resources")];
   route "/apis" [(GET, "api_groups")];
   route "/openapi/v2" [(GET, "openapi_v2")];
   route "/openapi/v3" [(GET, "openapi_v3")];
   route "/apis/apps/v1" [(GET, "apps_v1_resources")];
   route "/apis/rbac.authorization.k8s.io/v1" [(GET, "rbac_v1_resources")];
   route "/api/v1/namespaces/:namespace/pods" [(GET, "list_pods"); (POST, "create_pod")];
   route "/api/v1/namespaces/:namespace/pods/:name"
     [(GET, "get_pod"); (PUT, "update_pod"); (DELETE, "delete_pod")];
   route "/api/v1/namespaces/:namespace/pods/:name/status"
     [(GET, "get_pod_status"); (PUT, "update_pod_status")];
   route "/api/v1/namespaces/:namespace/pods/:name/log" [(GET, "get_pod_logs")];
   route "/api/v1/namespaces/:namespace/pods/:name/exec" [(GET, "exec_pod")];
   route "/api/v1/namespaces/:namespace/pods/:name/portforward" [(GET, "port_forward_pod")];
   route "/api/v1/pods" [(GET, "list_all_pods")];
   route "/api/v1/namespaces/:namespace/services"
     [(GET, "list_services"); (POST, "create_service")];
   route "/api/v1/namespaces/:namespace/services/:name"
     [(GET, "get_service"); (PUT, "update_service"); (DELETE, "delete_service")];
   route "/api/v1/services" [(GET, "list_all_services")];
   route "/api/v1/nodes" [(GET, "list_nodes"); (POST, "create_node")];
   route "/api/v1/nodes/:name" [(GET, "get_node"); (PUT, "update_node"); (DELETE, "delete_node")];
   route "/api/v1/namespaces/:namespace/endpoints" [(GET, "list_endpoints")];
   route "/api/v1/namespaces/:namespace/endpoints/:name" [(GET, "get_endpoints")];
   route "/apis/apps/v1/namespaces/:namespace/deployments"
     [(GET, "list_deployments"); (POST, "create_deployment")];
   route "/apis/apps/v1/namespaces/:namespace/deployments/:name"
     [(GET, "get_deployment"); (PUT, "update_deployment"); (DELETE, "delete_deployment")];
   route "/apis/apps/v1/deployments" [(GET, "list_all_deployments")];
   route "/apis/apps/v1/namespaces/:namespace/statefulsets"
     [(GET, "list_statefulsets"); (POST, "create_statefulset")];
   route "/apis/apps/v1/namespaces/:namespace/statefulsets/:name"
     [(GET, "get_statefulset"); (PUT, "update_statefulset"); (DELETE, "delete_statefulset")];
   route "/apis/apps/v1/statefulsets" [(GET, "list_all_statefulsets")];
   route "/apis/apps/v1/namespaces/:namespace/daemonsets"
     [(GET, "list_daemonsets"); (POST, "create_daemonset")];
   route "/apis/apps/v1/namespaces/:namespace/daemonsets/:name"
     [(GET, "get_daemonset"); (PUT, "update_daemonset"); (DELETE, "delete_daemonset")];
   route "/apis/apps/v1/daemonsets" [(GET, "list_all_daemonsets")];
   route "/api/v1/namespaces" [(GET, "list_namespaces"); (POST, "create_namespace")];
   route "/api/v1/namespaces/:namespace"
     [(GET, "get_namespace"); (PUT, "update_namespace"); (DELETE, "delete_namespace")];
   route "/api/v1/namespaces/:namespace/events" [(GET, "list_events"); (POST, "create_event")];
   route "/api/v1/namespaces/:namespace/events/:name"
     [(GET, "get_event"); (DELETE, "delete_event")];
   route "/api/v1/events" [(GET, "list_all_events")];
   route "/api/v1/namespaces/:namespace/serviceaccounts"
     [(GET, "list_service_accounts"); (POST, "create_service_account")];
   route "/api/v1/namespaces/:namespace/serviceaccounts/:name"
     [(GET, "get_service_account"); (PUT, "update_service_account"); (DELETE, "delete_service_account")];
   route "/api/v1/serviceaccounts" [(GET, "list_all_service_accounts")];
   route "/api/v1/namespaces/:namespace/secrets" [(GET, "list_secrets"); (POST, "create_secret")];
   route "/api/v1/namespaces/:namespace/secrets/:name"
     [(GET, "get_secret"); (PUT, "update_secret"); (DELETE, "delete_secret")];
   route "/api/v1/secrets" [(GET, "list_all_secrets")];
   route "/api/v1/namespaces/:namespace/configmaps"
     [(GET, "list_config_maps"); (POST, "create_config_map")];
   route "/api/v1/namespaces/:namespace/configmaps/:name"
     [(GET, "get_config_map"); (PUT, "update_config_map"); (DELETE, "delete_config_map")];
   route "/api/v1/configmaps" [(GET, "list_all_config_maps")];
   route "/apis/rbac.authorization.k8s.io/v1/namespaces/:namespace/roles"
     [(GET, "list_roles"); (POST, "create_role")];
   route "/apis/rbac.authorization.k8s.io/v1/namespaces/:namespace/roles/:name"
     [(GET, "get_role"); (PUT, "update_role"); (DELETE, "delete_role")];
   route "/apis/rbac.authorization.k8s.io/v1/roles" [(GET, "list_all_roles")];
   route "/apis/rbac.authorization.k8s.io/v1/namespaces/:namespace/rolebindings"
     [(GET, "list_role_bindings"); (POST, "create_role_binding")];
   route "/apis/rbac.authorization.k8s.io/v1/namespaces/:namespace/rolebindings/:name"
     [(GET, "get_role_binding"); (PUT, "update_role_binding"); (DELETE, "delete_role_binding")];
   route "/apis/rbac.authorization.k8s.io/v1/rolebindings" [(GET, "list_all_role_bindings")];
   route "/apis/rbac.authorization.k8s.io/v1/clusterroles"
     [(GET, "list_cluster_roles"); (POST, "create_cluster_role")];
   route "/apis/rbac.authorization.k8s.io/v1/clusterroles/:name"
     [(GET, "get_cluster_role"); (PUT, "update_cluster_role"); (DELETE, "delete_cluster_role")];
   route "/api/v1/namespaces/:namespace/replicationcontrollers"
     [(GET, "list_replication_controllers")];
   route "/api/v1/replicationcontrollers" [(GET, "list_all_replication_controllers")];
   route "/apis/apps/v1/namespaces/:namespace/replicasets" [(GET, "list_replica_sets")];
   route "/apis/apps/v1/replicasets" [(GET, "list_all_replica_sets")];
   route "/apis/rbac.authorization.k8s.io/v1/clusterrolebindings"
     [(GET, "list_cluster_role_bindings"); (POST, "create_cluster_role_binding")];
   route "/apis/rbac.authorization.k8s.io/v1/clusterrolebindings/:name"
     [(GET, "get_cluster_role_binding"); (PUT, "update_cluster_role_binding"); (DELETE, "delete_cluster_role_binding")]
  ].

(** The router of a node's agent ([node/agent.rs]). *)
Definition agent_routes : list Route :=
  [route "/logs/:namespace/:pod/:container" [(GET, "handle_logs")];
   route "/exec/:namespace/:pod/:container" [(GET, "handle_exec")];
   route "/portforward/:namespace/:pod/:pod_ip" [(GET, "handle_portforward")]].

(** axum's router: a parameter takes one segment that is not empty. *)
Fixpoint match_path (pattern : list Segment) (path : list string) : option (list string) :=
  match pattern, path with
  | [], [] => Some []
  | Static s :: pattern, p :: path => if str_eqb s p then match_path pattern path else None
  | Param _ :: pattern, p :: path =>
      if str_eqb p "" then None else cons p <$> match_path pattern path
  | _, _ => None
  end.

(** A handler with its path parameters, or the status of the refusal. *)
Inductive Dispatch : Type :=
| Handled (handler : string) (params : list string)
| Refused (status : Z).

Definition find_method (m : HttpMethod) (ms : list (HttpMethod * string)) : option string :=
  snd <$> head (filter (λ mh, mh.1 = m) ms).
Fixpoint dispatch_in (routes : list Route) (m : HttpMethod) (path : list string) : Dispatch :=
  match routes with
  | [] => Refused 404
  | r :: routes =>
      match match_path (rt_pattern r) path with
      | Some params =>
          match find_method m (rt_methods r) with
          | Some h => Handled h params
          | None => Refused 405
          end
      | None => dispatch_in routes m path
      end
  end.
Definition dispatch (m : HttpMethod) (path : string) : Dispatch :=
  dispatch_in api_routes m (path_segments path).

(** ** Discovery documents *)

(** An entry of an [APIResourceList]. *)
Record ApiResource : Type := mk_ApiResource {
  ar_name : string;
  ar_singular : string;
  ar_namespaced : bool;
  ar_kind : string;
  ar_short_names : option string;
  ar_all : bool;
  ar_verbs : list string;
}.
Definition strings (l : list string) : Value := JArr (JStr <$> l).
Definition api_resource (r : ApiResource) : Value :=
  JObj ([("name", JStr (ar_name r)); ("singularName", JStr (ar_singular r));
         ("namespaced", JBool (ar_namespaced r)); ("kind", JStr (ar_kind r))] ++
        match ar_short_names r with Some s => [("shortNames", strings [s])] | None => [] end ++
        (if ar_all r then [("categories", strings ["all"])] else []) ++
        [("verbs", strings (ar_verbs r))]).
Definition api_resource_list (group_version : string) (rs : list ApiResource) : Value :=
  JObj [("kind", JStr "APIResourceList"); ("groupVersion", JStr group_version);
        ("resources", JArr (api_resource <$> rs))].

Definition crudl : list string := ["create"; "delete"; "get"; "list"; "update"].
Definition crudlw : list string := crudl ++ ["watch"].

Definition core_resources : list ApiResource := [
  mk_ApiResource "pods" "pod" true "Pod" (Some "po") true crudlw;
  mk_ApiResource "services" "service" true "Service" (Some "svc") true crudl;
  mk_ApiResource "nodes" "node" false "Node" (Some "no") false crudl;
  mk_ApiResource "endpoints" "endpoints" true "Endpoints" (Some "ep") false ["get"; "list"];
  mk_ApiResource "namespaces" "namespace" false "Namespace" (Some "ns") false crudl;
  mk_ApiResource "events" "event" true "Event" (Some "ev") false ["create"; "delete"; "get"; "list"];
  mk_ApiResource "serviceaccounts" "serviceaccount" true "ServiceAccount" (Some "sa") false crudl;
  mk_ApiResource "secrets" "secret" true "Secret" None false crudl;
  mk_ApiResource "configmaps" "configmap" true "ConfigMap" (Some "cm") false crudl;
  mk_ApiResource "replicationcontrollers" "replicationcontroller" true "ReplicationController"
    (Some "rc") true ["get"; "list"]].
Definition apps_resources : list ApiResource := [
  mk_ApiResource "deployments" "deployment" true "Deployment" (Some "deploy") true crudlw;
  mk_ApiResource "statefulsets" "statefulset" true "StatefulSet" (Some "sts") true crudlw;
  mk_ApiResource "daemonsets" "daemonset" true "DaemonSet" (Some "ds") true crudlw;
  mk_ApiResource "replicasets" "replicaset" true "ReplicaSet" (Some "rs") true ["get"; "list"]].
Definition rbac_resources : list ApiResource := [
  mk_ApiResource "roles" "role" true "Role" None false crudl;
  mk_ApiResource "rolebindings" "rolebinding" true "RoleBinding" None false crudl;
  mk_ApiResource "clusterroles" "clusterrole" false "ClusterRole" None false crudl;
  mk_ApiResource "clusterrolebindings" "clusterrolebinding" false "ClusterRoleBinding" None false
    crudl].

Definition api_v1_resources : Value := api_resource_list "v1" core_resources.
Definition apps_v1_resources : Value := api_resource_list "apps/v1" apps_resources.
Definition rbac_v1_resources : Value :=
  api_resource_list "rbac.authorization.k8s.io/v1" rbac_resources.

Definition version_info (os arch : string) : Value :=
  JObj [("major", JStr "1"); ("minor", JStr "30");
        ("gitVersion", JStr ("v1.30.0-superkube-" +:+ "0.1.0"));
        ("gitCommit", JStr "superkube"); ("gitTreeState", JStr "clean");
        ("buildDate", JStr "1970-01-01T00:00:00Z"); ("goVersion", JStr "rust");
        ("compiler", JStr "rustc"); ("platform", JStr (os +:+ "/" +:+ arch))].
Definition api_versions : Value :=
  JObj [("kind", JStr "APIVersions"); ("versions", strings ["v1"]);
        ("serverAddressByClientCIDRs", JArr [])].
(** Content type, content length and body. *)
Definition openapi_v2 : string * string * string := ("application/json", "0", "").
Definition openapi_v3 : Value := JObj [("paths", JObj [])].
(** The one version of a group. *)
Definition group_version (gv : string) : Value :=
  JObj [("groupVersion", JStr gv); ("version", JStr "v1")].
Definition api_group (name : string) : Value :=
  let gv := group_version (name +:+ "/v1") in
  JObj [("name", JStr name); ("versions", JArr [gv]); ("preferredVersion", gv)].
Definition api_groups : Value :=
  JObj [("kind", JStr "APIGroupList"); ("apiVersion", JStr "v1");
        ("groups", JArr [api_group "apps"; api_group "rbac.authorization.k8s.io"])].

(** ** The table is sound *)

(** Two patterns that some path fits. *)
Fixpoint overlap (p q : list Segment) : bool :=
  match p, q with
  | [], [] => true
  | Static a :: p, Static b :: q => str_eqb a b && overlap p q
  | _ :: p, _ :: q => overlap p q
  | _, _ => false
  end.

Lemma match_overlap p q path :
  is_Some (match_path p path) → is_Some (match_path q path) → overlap p q = true.
Proof.
  revert q path. induction p as [|a p IH]; intros [|b q] [|x path] H1 H2;
    try (by destruct H1); try (by destruct H2); try (by destruct b, H2); try (by destruct a, H1).
  assert (∀ a p, is_Some (match_path (a :: p) (x :: path)) →
            is_Some (match_path p path) ∧ ∀ s, a = Static s → s = x) as Hcons.
  { clear. intros [s|n] p; simpl.
    - destruct (str_eqb s x) eqn:E; [|by intros []]. intros. split; [done|].
      intros s' [= <-]. by apply str_eqb_spec.
    - destruct (str_eqb x ""); [by intros []|]. by intros ?%fmap_is_Some. }
  apply Hcons in H1 as [Hp Ha], H2 as [Hq Hb]. specialize (IH q path Hp Hq).
  destruct a as [s|n], b as [s'|n']; simpl; try done.
  by rewrite (Ha s), (Hb s'), str_eqb_refl, IH.
Qed.

(** No two routes of a table overlap: which handler answers a request does not
    depend on the order of the table or on the router's priorities. *)
Definition unambiguous (routes : list Route) : bool :=
  forallb (λ r1, forallb (λ r2,
    negb (overlap (rt_pattern r1) (rt_pattern r2)) || bool_decide (r1 = r2)) routes) routes.
Lemma unambiguous_match routes r1 r2 path :
  unambiguous routes = true → r1 ∈ routes → r2 ∈ routes →
  is_Some (match_path (rt_pattern r1) path) → is_Some (match_path (rt_pattern r2) path) →
  r1 = r2.
Proof.
  unfold unambiguous. intros Hall H1 H2 Hm1 Hm2.
  pose proof (match_overlap _ _ _ Hm1 Hm2) as Ho.
  rewrite forallb_forall in Hall. specialize (Hall r1 (proj1 (list_elem_of_In _ _) H1)).
  rewrite forallb_forall in Hall. specialize (Hall r2 (proj1 (list_elem_of_In _ _) H2)).
  rewrite Ho in Hall. by apply bool_decide_eq_true in Hall.
Qed.

(** ** From a URL to its handler and back *)

(** The path a client writes for a pattern and its parameters. *)
Fixpoint fill (pattern : list Segment) (params : list string) : list string :=
  match pattern, params with
  | Static s :: pattern, _ => s :: fill pattern params
  | Param _ :: pattern, p :: params => p :: fill pattern params
  | _, _ => []
  end.
Fixpoint join_path (segments : list string) : string :=
  match segments with [] => "" | s :: segments => "/" +:+ s +:+ join_path segments end.
Definition is_param (s : Segment) : bool := match s with Param _ => true | Static _ => false end.

Definition no_slash (s : string) : bool := negb (contains_char "/" s).
Definition ok_param (s : string) : Prop := s ≠ "" ∧ no_slash s = true.

Lemma no_slash_bytes s : no_slash s = true → "/"%char ∉ bytes s.
Proof.
  unfold no_slash, contains_char. rewrite negb_true_iff. intros Hs Hin.
  apply list_elem_of_In in Hin. rewrite <- not_true_iff_false in Hs. apply Hs.
  apply existsb_exists. exists "/"%char. split; [done|apply Ascii.eqb_refl].
Qed.

Lemma split_join s segments :
  Forall (λ s, no_slash s = true) (s :: segments) →
  split_l "/" (bytes s ++ bytes (join_path segments)) = bytes <$> s :: segments.
Proof.
  revert s. induction segments as [|s' segments IH]; intros s [Hs Hss]%Forall_cons.
  - simpl. rewrite app_nil_r. by apply split_l_no_sep, no_slash_bytes.
  - cbn [join_path]. rewrite !bytes_app. cbn [bytes app].
    rewrite split_l_app by by apply no_slash_bytes. by rewrite IH.
Qed.
Lemma path_segments_join segments :
  segments ≠ [] → Forall (λ s, no_slash s = true) segments →
  path_segments (join_path segments) = segments.
Proof.
  destruct segments as [|s segments]; [done|]. intros _ Hs.
  unfold path_segments, split. cbn [join_path]. rewrite !bytes_app. cbn [bytes app].
  change (split_l "/" ("/"%char :: ?l)) with ([] :: split_l "/" l).
  rewrite split_join by done. cbn [fmap list_fmap tail].
  rewrite of_bytes_bytes. f_equal. rewrite <- list_fmap_compose.
  rewrite <- (list_fmap_id segments) at 2. apply list_fmap_ext. intros i x _. apply of_bytes_bytes.
Qed.

Lemma match_fill pattern params :
  length params = length (List.filter is_param pattern) → Forall ok_param params →
  match_path pattern (fill pattern params) = Some params.
Proof.
  revert params. induction pattern as [|[s|n] pattern IH]; intros params Hlen Hok.
  - by destruct params.
  - cbn [fill match_path]. rewrite str_eqb_refl. by apply IH.
  - destruct params as [|p params]; [done|]. cbn [fill match_path].
    apply Forall_cons in Hok as [[Hp _] Hok]. rewrite str_eqb_neq by done.
    rewrite IH; [done| |done]. simpl in Hlen. lia.
Qed.

Lemma fill_no_slash pattern params :
  Forall ok_param params →
  forallb (λ s, match s with Static s => no_slash s | Param _ => true end) pattern = true →
  Forall (λ s, no_slash s = true) (fill pattern params).
Proof.
  revert params. induction pattern as [|[s|n] pattern IH]; intros params Hok Hp; [constructor| |].
  - simpl in Hp. apply andb_prop in Hp as [Hs Hp]. constructor; [done|by apply IH].
  - destruct params as [|p params]; [constructor|]. apply Forall_cons in Hok as [[_ Hs] Hok].
    constructor; [done|by apply IH].
Qed.

Lemma dispatch_in_first routes r m h path params :
  r ∈ routes → match_path (rt_pattern r) path = Some params →
  find_method m (rt_methods r) = Some h →
  (∀ r', r' ∈ routes → is_Some (match_path (rt_pattern r') path) → r' = r) →
  dispatch_in routes m path = Handled h params.
Proof.
  intros Hr Hm Hh Hone. induction routes as [|r' routes IH]; [by apply elem_of_nil in Hr|].
  simpl. destruct (match_path (rt_pattern r') path) as [params'|] eqn:Hm'.
  - assert (r' = r) as -> by (apply Hone; [by left|by eexists]).
    rewrite Hm in Hm'. injection Hm' as <-. by rewrite Hh.
  - apply elem_of_cons in Hr as [->|Hr]; [congruence|]. apply IH; [done|].
    intros r0 H0. apply Hone. by right.
Qed.

(** What the table must satisfy: plain segments, not empty, one handler per
    method. *)
Definition route_ok (r : Route) : bool :=
  bool_decide (rt_pattern r ≠ []) &&
  forallb (λ s, match s with Static s => no_slash s | Param _ => true end) (rt_pattern r) &&
  bool_decide (NoDup (rt_methods r).*1).
Definition table_ok (routes : list Route) : bool := unambiguous routes && forallb route_ok routes.

Lemma find_method_unique m h ms :
  NoDup ms.*1 → (m, h) ∈ ms → find_method m ms = Some h.
Proof.
  unfold find_method. induction ms as [|[m' h'] ms IH]; [by intros _ ?%elem_of_nil|].
  csimpl. intros [Hm' Hnd]%NoDup_cons [[= -> ->]|Hin]%elem_of_cons.
  - by rewrite filter_cons_True.
  - rewrite filter_cons_False; [by apply IH|]. simpl. intros ->. apply Hm'.
    apply list_elem_of_fmap. by exists (m, h).
Qed.

Lemma table_reaches routes r params m h :
  table_ok routes = true → r ∈ routes → (m, h) ∈ rt_methods r →
  length params = length (List.filter is_param (rt_pattern r)) → Forall ok_param params →
  dispatch_in routes m (path_segments (join_path (fill (rt_pattern r) params))) = Handled h params.
Proof.
  intros [Hun Hrok]%andb_prop Hr Hmh Hlen Hok. rewrite forallb_forall in Hrok.
  specialize (Hrok r (proj1 (list_elem_of_In _ _) Hr)). unfold route_ok in Hrok.
  rewrite !andb_true_iff, !bool_decide_eq_true in Hrok. destruct Hrok as [[Hne Hs] Hnd].
  pose proof (match_fill _ _ Hlen Hok) as Hm.
  rewrite path_segments_join.
  - apply (dispatch_in_first _ r); [done|done|by apply find_method_unique|].
    intros r' Hr' Hm'. apply (unambiguous_match routes r' r (fill (rt_pattern r) params)); [done..|].
    by eexists.
  - destruct (rt_pattern r) as [|[s|n] pattern]; [done|done|]. by destruct params.
  - by apply fill_no_slash.
Qed.

Lemma api_routes_ok : table_ok api_routes = true.
Proof. vm_compute. reflexivity. Qed.
Lemma agent_routes_ok : table_ok agent_routes = true.
Proof. vm_compute. reflexivity. Qed.

(** Every entry of the server's table is reachable, with its parameters:
    the path written for a route and for parameters that are not empty and
    have no slash is dispatched, under each method of the route, to the
    handler the table names for it, which gets exactly those parameters; and
    no other entry of the table matches that path, so neither the order of
    the table nor the router's priorities matter. *)
Theorem url_reaches_its_handler r params m h :
  r ∈ api_routes → (m, h) ∈ rt_methods r →
  length params = length (List.filter is_param (rt_pattern r)) → Forall ok_param params →
  dispatch m (join_path (fill (rt_pattern r) params)) = Handled h params ∧
  ∀ r', r' ∈ api_routes → is_Some (match_path (rt_pattern r') (fill (rt_pattern r) params)) → r' = r.
Proof.
  intros Hr Hmh Hlen Hok. split; [by apply table_reaches; [apply api_routes_ok|..]|].
  intros r' Hr' Hm'. pose proof api_routes_ok as [Hun _]%andb_prop.
  apply (unambiguous_match api_routes r' r (fill (rt_pattern r) params)); [done..|].
  eexists. by apply match_fill.
Qed.

Lemma url_reaches_its_handler_witness :
  dispatch PUT "/api/v1/namespaces/default/pods/web-0/status" =
    Handled "update_pod_status" ["default"; "web-0"].
Proof.
  refine (proj1 (url_reaches_its_handler
    (route "/api/v1/namespaces/:namespace/pods/:name/status"
       [(GET, "get_pod_status"); (PUT, "update_pod_status")])
    ["default"; "web-0"] PUT "update_pod_status" _ _ _ _)).
  - apply (bool_decide_unpack _). vm_compute. exact I.
  - apply (bool_decide_unpack _). vm_compute. exact I.
  - reflexivity.
  - repeat constructor; done.
Defined.

(** ** What discovery promises *)

(** The requests a client makes for a verb of a resource: with [-A], [list]
    reads all namespaces at once. *)
Definition base_path (gv : string) : string :=
  if str_eqb gv "v1" then "/api/v1" else "/apis/" +:+ gv.
Definition all_path (gv : string) (r : ApiResource) : string := base_path gv +:+ "/" +:+ ar_name r.
Definition collection_path (gv : string) (r : ApiResource) : string :=
  if ar_namespaced r then base_path gv +:+ "/namespaces/:namespace/" +:+ ar_name r
  else all_path gv r.
Definition item_path (gv : string) (r : ApiResource) : string :=
  collection_path gv r +:+ (if str_eqb (ar_name r) "namespaces" then "/:namespace" else "/:name").
Definition requests_of (gv : string) (r : ApiResource) (verb : string) : list (HttpMethod * string) :=
  if str_eqb verb "create" then [(POST, collection_path gv r)]
  else if str_eqb verb "delete" then [(DELETE, item_path gv r)]
  else if str_eqb verb "get" then [(GET, item_path gv r)]
  else if str_eqb verb "list" then [(GET, collection_path gv r); (GET, all_path gv r)]
  else if str_eqb verb "update" then [(PUT, item_path gv r)]
  else [(GET, collection_path gv r)].
Definition advertised : list (HttpMethod * string) :=
  gvr ← (pair "v1" <$> core_resources) ++ (pair "apps/v1" <$> apps_resources) ++
        (pair "rbac.authorization.k8s.io/v1" <$> rbac_resources);
  verb ← ar_verbs gvr.2;
  requests_of gvr.1 gvr.2 verb.
Definition is_routed (rq : HttpMethod * string) : bool :=
  existsb (λ r, bool_decide (rt_pattern r = segment_of <$> path_segments rq.2) &&
                bool_decide (is_Some (find_method rq.1 (rt_methods r)))) api_routes.

(** The discovery documents and the table of routes agree: of all the
    requests that the advertised verbs of the three API groups stand for,
    every one has a route and a handler, but for three: listing endpoints
    across namespaces, and reading one ReplicationController or one
    ReplicaSet by name. *)
Theorem discovery_matches_routes :
  List.filter (λ rq, negb (is_routed rq)) advertised =
    [(GET, "/api/v1/endpoints");
     (GET, "/api/v1/namespaces/:namespace/replicationcontrollers/:name");
     (GET, "/apis/apps/v1/namespaces/:namespace/replicasets/:name")].
Proof. vm_compute. reflexivity. Qed.
