(* ===== verification/Relay.v ===== *)
(** * Logs, exec and port-forward of the API server ([src/src/server/api.rs])

    The sub-resources of a pod that the server only relays: it finds the node
    of the pod, calls the agent there, and hands the answer or the frames
    through.  What the agent answers is an argument of the handlers. *)
From S2P Require Import Prelude RustStd Text Json External Models Wire Error Bus World Repository.
From S2P Require Import Runtime Agent AgentHttp.

Local Open Scope Z_scope.

(** [serde_urlencoded::to_string]. *)
Class UrlEncode := urlencoded_string : list (string * string) → option string.
(** What is written is read back. *)
Class UrlEncodeOk `{UrlEncoded, UrlEncode} : Prop :=
  urlencoded_round pairs : (s ← urlencoded_string pairs; urlencoded_pairs s) = Some pairs.

(** ** The container and the node *)

Definition node_internal_ip (n : Node) : option string :=
  st ← node_status n;
  addrs ← nstat_addresses st;
  naddr_address <$> head (filter (λ a, naddr_address_type a = NodeAddressType_InternalIP) addrs).

(** The container that is asked for, or the only one. *)
Definition choose_container (asked : option string) (pod : Pod) : result (option (list string)) string :=
  match asked, ps_containers (pod_spec pod) with
  | Some c, _ => Ok c
  | None, [c] => Ok (ctr_name c)
  | None, [] => Err None
  | None, cs => Err (Some (ctr_name <$> cs))
  end.
Definition name_the_container (name : string) (names : list string) : string :=
  "container name must be specified for pod " +:+ name +:+ ", choose one of: [" +:+
  String.concat ", " names +:+ "]".

(** ** Logs *)

Record LogParams : Type := mk_LogParams {
  lp_container : option string;
  lp_follow : bool;
  lp_previous : bool;
  lp_tail_lines : option i64;
  lp_timestamps : bool;
  lp_since_seconds : option i64;
  lp_limit_bytes : option i64;
}.
(** A text answer, or the agent's body piped through. *)
Inductive LogsReply : Type :=
| TextReply (status : Z) (body : string)
| PipedReply (body : result string string).
Definition plain_text (s : string) : LogsReply := TextReply 200 s.

Definition log_path (namespace name container : string) : string :=
  "/logs/" +:+ namespace +:+ "/" +:+ name +:+ "/" +:+ container.
Definition log_url (node_addr namespace name container : string) : string :=
  "http://" +:+ node_addr +:+ ":10250" +:+ log_path namespace name container.
Definition log_query (params : LogParams) : list (string * string) :=
  match lp_tail_lines params with Some n => [("tailLines", pretty (val n))] | None => [] end ++
  (if lp_timestamps params then [("timestamps", "true")] else []) ++
  (if lp_previous params then [("previous", "true")] else []) ++
  match lp_since_seconds params with Some n => [("sinceSeconds", pretty (val n))] | None => [] end ++
  match lp_limit_bytes params with Some n => [("limitBytes", pretty (val n))] | None => [] end ++
  (if lp_follow params then [("follow", "true")] else []).

Definition log_reply (node_name : string) (params : LogParams) (r : result string Response)
    : LogsReply :=
  match r with
  | Err e => plain_text ("Cannot connect to node agent on " +:+ node_name +:+ ": " +:+ e +:+
               of_bytes [nl] +:+ "Make sure the node agent is running." +:+ of_bytes [nl])
  | Ok response =>
      if negb (is_success response) then TextReply (resp_status response) (resp_text response)
      else if lp_follow params then PipedReply (resp_body response)
      else match resp_body response with
           | Ok _ => plain_text (resp_text response)
           | Err e => plain_text ("Failed to read logs from node: " +:+ e +:+ of_bytes [nl])
           end
  end.

Section relay.
Context `{Extern, Env, !UrlEncoded, !UrlEncode}.

Definition get_pod_logs (namespace name : string) (params : LogParams)
    (send : string → list (string * string) → result string Response) : M Error LogsReply :=
  pod ← PodRepository_get namespace name;
  match choose_container (lp_container params) pod with
  | Err None => throw (BadRequest "pod has no containers")
  | Err (Some names) => throw (BadRequest ("a]" +:+ name_the_container name names))
  | Ok container =>
      match ps_node_name (pod_spec pod) with
      | None => mret (plain_text ("Pod " +:+ name +:+ " is not yet scheduled to a node" +:+
                        of_bytes [nl]))
      | Some node_name =>
          node ← attempt (NodeRepository_get node_name);
          mret (match node with
                | Err _ => plain_text ("Node " +:+ node_name +:+
                             " not found, cannot retrieve logs" +:+ of_bytes [nl])
                | Ok node =>
                    match node_internal_ip node with
                    | None => plain_text ("Node " +:+ node_name +:+
                                " has no internal IP address, cannot retrieve logs" +:+
                                of_bytes [nl])
                    | Some addr =>
                        log_reply node_name params
                          (send (log_url addr namespace name container) (log_query params))
                    end
                end)
      end
  end.

(** ** Exec *)

Record ExecParams : Type := mk_ExecParams {
  ep_container : option string;
  ep_command : list string;
  ep_stdin : bool;
  ep_stdout : bool;
  ep_stderr : bool;
  ep_tty : bool;
}.
Definition is_true (v : string) : bool := str_eqb v "true" || str_eqb v "1".
Definition exec_param (p : ExecParams) (kv : string * string) : ExecParams :=
  let '(k, v) := kv in
  if str_eqb k "container" then
    mk_ExecParams (Some v) (ep_command p) (ep_stdin p) (ep_stdout p) (ep_stderr p) (ep_tty p)
  else if str_eqb k "command" then
    mk_ExecParams (ep_container p) (ep_command p ++ [v]) (ep_stdin p) (ep_stdout p) (ep_stderr p)
      (ep_tty p)
  else if str_eqb k "stdin" then
    mk_ExecParams (ep_container p) (ep_command p) (is_true v) (ep_stdout p) (ep_stderr p) (ep_tty p)
  else if str_eqb k "stdout" then
    mk_ExecParams (ep_container p) (ep_command p) (ep_stdin p) (is_true v) (ep_stderr p) (ep_tty p)
  else if str_eqb k "stderr" then
    mk_ExecParams (ep_container p) (ep_command p) (ep_stdin p) (ep_stdout p) (is_true v) (ep_tty p)
  else if str_eqb k "tty" then
    mk_ExecParams (ep_container p) (ep_command p) (ep_stdin p) (ep_stdout p) (ep_stderr p) (is_true v)
  else p.
Definition exec_params_of (q : string) : ExecParams :=
  foldl exec_param (mk_ExecParams None [] false true true false) (default [] (urlencoded_pairs q)).

Definition bool_text (b : bool) : string := if b then "true" else "false".
Definition exec_query_pairs (p : ExecParams) : list (string * string) :=
  match ep_command p with
  | [] => [("command", "sh")]
  | words => pair "command" <$> words
  end ++
  [("stdin", bool_text (ep_stdin p)); ("stdout", bool_text (ep_stdout p));
   ("stderr", bool_text (ep_stderr p)); ("tty", bool_text (ep_tty p))].
Definition exec_query (p : ExecParams) : string :=
  default "" (urlencoded_string (exec_query_pairs p)).
Definition exec_path (namespace name container : string) : string :=
  "/exec/" +:+ namespace +:+ "/" +:+ name +:+ "/" +:+ container.
Definition exec_url (node_addr namespace name container query : string) : string :=
  "ws://" +:+ node_addr +:+ ":10250" +:+ exec_path namespace name container +:+ "?" +:+ query.

(** A refusal, or the address of the pod's node. *)
Definition node_of_pod {E} (pod : Pod) (name : string) : M E (Z * string + string) :=
  match ps_node_name (pod_spec pod) with
  | None => mret (inl (400, "Pod " +:+ name +:+ " is not yet scheduled to a node"))
  | Some node_name =>
      node ← attempt (NodeRepository_get node_name);
      mret (match node with
            | Err _ => inl (404, "Node " +:+ node_name +:+ " not found")
            | Ok node => match node_internal_ip node with
                         | None => inl (500, "Node " +:+ node_name +:+ " has no internal IP address")
                         | Some addr => inr addr
                         end
            end)
  end.
Definition on_target (f : string → string) (t : Z * string + string) : Z * string + string :=
  match t with inl refusal => inl refusal | inr addr => inr (f addr) end.
Definition pod_not_found (namespace name : string) (e : Error) : Z * string :=
  (404, "Pod " +:+ namespace +:+ "/" +:+ name +:+ " not found: " +:+ Error_to_string e).

(** The refusal, or the agent's URL that the upgraded socket is joined to. *)
Definition exec_pod {E} (namespace name : string) (raw_query : option string)
    : M E (Z * string + string) :=
  let params := exec_params_of (default "" raw_query) in
  pod ← attempt (PodRepository_get namespace name);
  match pod with
  | Err e => mret (inl (pod_not_found namespace name e))
  | Ok pod =>
      match choose_container (ep_container params) pod with
      | Err None => mret (inl (400, "pod has no containers"))
      | Err (Some names) => mret (inl (400, name_the_container name names))
      | Ok container =>
          target ← node_of_pod pod name;
          mret (on_target (λ addr, exec_url addr namespace name container (exec_query params)) target)
      end
  end.

(** ** Port-forward *)

Definition port_forward_path (namespace name pod_ip : string) : string :=
  "/portforward/" +:+ namespace +:+ "/" +:+ name +:+ "/" +:+ pod_ip.
Definition port_forward_url (node_addr namespace name pod_ip : string) (ports : option string)
    : string :=
  "ws://" +:+ node_addr +:+ ":10250" +:+ port_forward_path namespace name pod_ip +:+
  "?ports=" +:+ default "" ports.
Definition port_forward_pod {E} (namespace name : string) (ports : option string)
    : M E (Z * string + string) :=
  pod ← attempt (PodRepository_get namespace name);
  match pod with
  | Err e => mret (inl (pod_not_found namespace name e))
  | Ok pod =>
      target ← node_of_pod pod name;
      let pod_ip := default "127.0.0.1" (st ← pod_status pod; pstat_pod_ip st) in
      mret (on_target (λ addr, port_forward_url addr namespace name pod_ip ports) target)
  end.
End relay.

(** ** The relayed sockets *)

Definition error_channel_frame (msg : string) : list ascii := frame 3 (bytes msg).

(** A message of one side, and whether the other side still takes it. *)
Inductive RelayEvent : Type :=
| FromKubectl (msg : WsMessage) (node_open : bool)
| FromAgent (msg : WsMessage) (kubectl_open : bool).
Inductive RelayAction : Type :=
| ToAgent (msg : WsMessage)
| ToKubectl (msg : WsMessage)
| CloseComplete (code : Z) (reason : string).

Definition exec_relay (e : RelayEvent) : list RelayAction * bool :=
  match e with
  | FromKubectl (WsText t) open => ([ToAgent (WsText t)], open)
  | FromKubectl (WsBinary d) open => ([ToAgent (WsBinary d)], open)
  | FromKubectl WsClose _ => ([ToAgent WsClose], false)
  | FromKubectl WsError _ => ([], false)
  | FromKubectl WsOther _ => ([], true)
  | FromAgent (WsText t) open => ([ToKubectl (WsText t)], open)
  | FromAgent (WsBinary d) open => ([ToKubectl (WsBinary d)], open)
  | FromAgent WsClose _ => ([CloseComplete 1000 "exec complete"], false)
  | FromAgent WsError _ => ([], false)
  | FromAgent WsOther _ => ([], true)
  end.
(** Port-forward takes binary messages only. *)
Definition port_forward_relay (e : RelayEvent) : list RelayAction * bool :=
  match e with
  | FromKubectl (WsBinary d) open => ([ToAgent (WsBinary d)], open)
  | FromAgent (WsBinary d) open => ([ToKubectl (WsBinary d)], open)
  | FromKubectl (WsClose | WsError) _ | FromAgent (WsClose | WsError) _ => ([], false)
  | FromKubectl _ _ | FromAgent _ _ => ([], true)
  end.
Fixpoint relay (step : RelayEvent → list RelayAction * bool) (events : list RelayEvent)
    : list RelayAction :=
  match events with
  | [] => []
  | e :: events =>
      let '(actions, go_on) := step e in
      actions ++ if go_on : bool then relay step events else []
  end.

(** Both sessions, for a connection to the agent that may fail. *)
Inductive Connection : Type :=
| Connected
| BadUrl (e : string)
| Unreachable (e : string).
Definition relay_exec (c : Connection) (events : list RelayEvent) : list RelayAction :=
  match c with
  | Connected => relay exec_relay events
  | BadUrl e => [ToKubectl (WsText (bytes ("bad node url: " +:+ e)))]
  | Unreachable e => [ToKubectl (WsBinary (error_channel_frame ("failed to connect to node: " +:+ e)));
              ToKubectl WsClose]
  end.
Definition relay_port_forward (connected : result string ()) (events : list RelayEvent)
    : list RelayAction :=
  match connected with
  | Ok _ => relay port_forward_relay events
  | Err e => [ToKubectl (WsText (bytes ("Failed to connect to node: " +:+ e))); ToKubectl WsClose]
  end.
