(* ===== verification/Api.v ===== *)
(** * The REST handlers ([src/src/server/api.rs])

    What a handler does with a decoded request: the database calls it makes,
    the event it publishes and what it answers.  [Resource] is what the
    handlers of one kind differ in; the handlers themselves are written once
    for namespaced and once for cluster-scoped kinds, and every handler of the
    file is named below.  The pod sub-resources that only relay to a node
    (logs, exec, port-forward) are in Relay.v, the kinds that are only listed
    in Replies.v, the discovery documents in Routes.v. *)
From S2P Require Import Prelude RustStd Json External Models Wire Error Bus World Repository.
From S2P Require Import RepositoryOk.

(** ** Requests *)

(** [label_selector.map(|s| ..)]: the pairs [k=v] between commas. *)
Definition selector_pair (pair : string) : option (string * string) :=
  match splitn2 "=" pair with
  | (k, Some v) => Some (k, v)
  | (_, None) => None
  end.
(** [collect] into a [HashMap]: the last value of a key stays. *)
Definition collect_pairs (kvs : list (string * string)) : gmap string string :=
  foldl (λ m kv, <[kv.1 := kv.2]> m) ∅ kvs.
Definition parse_label_selector (label_selector : option string) : option (gmap string string) :=
  (λ s, collect_pairs (omap selector_pair (split "," s))) <$> label_selector.

(** Name and kind of the field selector. *)
Definition involved_step (acc : option string * option string) (pair : string)
    : option string * option string :=
  match splitn2 "=" pair with
  | (field, Some v) =>
      if str_eqb field "involvedObject.name" then (Some v, acc.2)
      else if str_eqb field "involvedObject.kind" then (acc.1, Some v)
      else acc
  | (_, None) => acc
  end.
Definition parse_involved_object (field_selector : option string)
    : option string * option string :=
  match field_selector with
  | Some selector => foldl involved_step (None, None) (split "," selector)
  | None => (None, None)
  end.

Definition service_cidr_prefix (cidr : string) : string :=
  let addr_part := default cidr (head (split "/" cidr)) in
  match split "." addr_part with
  | [a; b; c; d] =>
      if forallb (λ o, bool_decide (is_Some (parse_u8 o))) [a; b; c; d]
      then a +:+ "." +:+ b +:+ "." +:+ c
      else "10.96.0"
  | _ => "10.96.0"
  end.

(** ** Replies

    What the two request headers select: a watch stream, a table, or JSON. *)
Record Headers : Type := mk_Headers { wants_watch : bool; wants_table : bool }.

Inductive Reply (T : Type) : Type :=
(** The snapshot, then the live events of the filter. *)
| LiveWatch (items : list T) (filter : WatchFilter)
(** The snapshot, then keep-alives only. *)
| Snapshot (items : list T)
| AsTable (items : list T)
| AsList (api_version list_kind : string) (items : list T)
| AsItem (item : T).
Arguments LiveWatch {T}.
Arguments Snapshot {T}.
Arguments AsTable {T}.
Arguments AsList {T}.
Arguments AsItem {T}.

Definition list_response_live {T} (h : Headers) (api_version list_kind : string) (items : list T)
    (filter : WatchFilter) : Reply T :=
  if wants_watch h then LiveWatch items filter
  else if wants_table h then AsTable items
  else AsList api_version list_kind items.

Definition list_response {T} (h : Headers) (api_version list_kind : string) (items : list T)
    : Reply T :=
  if wants_watch h then Snapshot items
  else if wants_table h then AsTable items
  else AsList api_version list_kind items.

Definition item_response {T} (h : Headers) (item : T) : Reply T :=
  if wants_watch h then Snapshot [item]
  else if wants_table h then AsTable [item]
  else AsItem item.

(** [Ok(Json(json!({..})))] after a deletion. *)
Definition deleted_status (name : string) (group : option string) (plural : string) : Value :=
  JObj [("apiVersion", JStr "v1"); ("kind", JStr "Status"); ("metadata", JObj []);
        ("status", JStr "Success");
        ("details", JObj (("name", JStr name) ::
           match group with Some g => [("group", JStr g)] | None => [] end ++
           [("kind", JStr plural)]))].

(** [StatusCode::CREATED]. *)
Definition CREATED : Z := 201.

(** ** What the handlers of a kind share *)

Class Resource (T : Type) : Type := {
  res_kind : string;
  res_plural : string;
  res_group : option string;
  res_api_version : string;
  res_metadata : T → ObjectMeta;
  res_with_metadata : ObjectMeta → T → T;
}.
#[global] Hint Mode Resource ! : typeclass_instances.
Arguments res_kind T {_}.
Arguments res_plural T {_}.
Arguments res_group T {_}.
Arguments res_api_version T {_}.

Definition core : string := "v1".
Definition apps : string := "apps/v1".
Definition rbac : string := "rbac.authorization.k8s.io/v1".
#[export] Instance pod_resource : Resource Pod := {|
  res_kind := "Pod"; res_plural := "pods"; res_group := None;
  res_api_version := core;
  res_metadata := pod_metadata; res_with_metadata := Pod_with_metadata |}.
#[export] Instance service_resource : Resource Service := {|
  res_kind := "Service"; res_plural := "services"; res_group := None;
  res_api_version := core;
  res_metadata := svc_metadata; res_with_metadata := Service_with_metadata |}.
#[export] Instance node_resource : Resource Node := {|
  res_kind := "Node"; res_plural := "nodes"; res_group := None;
  res_api_version := core;
  res_metadata := node_metadata; res_with_metadata := Node_with_metadata |}.
#[export] Instance deployment_resource : Resource Deployment := {|
  res_kind := "Deployment"; res_plural := "deployments"; res_group := Some "apps";
  res_api_version := apps;
  res_metadata := dep_metadata; res_with_metadata := Deployment_with_metadata |}.
#[export] Instance statefulset_resource : Resource StatefulSet := {|
  res_kind := "StatefulSet"; res_plural := "statefulsets"; res_group := Some "apps";
  res_api_version := apps;
  res_metadata := ss_metadata; res_with_metadata := StatefulSet_with_metadata |}.
#[export] Instance daemonset_resource : Resource DaemonSet := {|
  res_kind := "DaemonSet"; res_plural := "daemonsets"; res_group := Some "apps";
  res_api_version := apps;
  res_metadata := ds_metadata; res_with_metadata := DaemonSet_with_metadata |}.
#[export] Instance serviceaccount_resource : Resource ServiceAccount := {|
  res_kind := "ServiceAccount"; res_plural := "serviceaccounts"; res_group := None;
  res_api_version := core;
  res_metadata := sa_metadata; res_with_metadata := ServiceAccount_with_metadata |}.
#[export] Instance secret_resource : Resource Secret := {|
  res_kind := "Secret"; res_plural := "secrets"; res_group := None;
  res_api_version := core;
  res_metadata := sec_metadata; res_with_metadata := Secret_with_metadata |}.
#[export] Instance configmap_resource : Resource ConfigMap := {|
  res_kind := "ConfigMap"; res_plural := "configmaps"; res_group := None;
  res_api_version := core;
  res_metadata := cm_metadata; res_with_metadata := ConfigMap_with_metadata |}.
#[export] Instance clusterrole_resource : Resource ClusterRole := {|
  res_kind := "ClusterRole"; res_plural := "clusterroles"; res_group := Some "rbac.authorization.k8s.io";
  res_api_version := rbac;
  res_metadata := cr_metadata; res_with_metadata := ClusterRole_with_metadata |}.
#[export] Instance clusterrolebinding_resource : Resource ClusterRoleBinding := {|
  res_kind := "ClusterRoleBinding"; res_plural := "clusterrolebindings"; res_group := Some "rbac.authorization.k8s.io";
  res_api_version := rbac;
  res_metadata := crb_metadata; res_with_metadata := ClusterRoleBinding_with_metadata |}.
#[export] Instance role_resource : Resource Role := {|
  res_kind := "Role"; res_plural := "roles"; res_group := Some "rbac.authorization.k8s.io";
  res_api_version := rbac;
  res_metadata := role_metadata; res_with_metadata := Role_with_metadata |}.
#[export] Instance rolebinding_resource : Resource RoleBinding := {|
  res_kind := "RoleBinding"; res_plural := "rolebindings"; res_group := Some "rbac.authorization.k8s.io";
  res_api_version := rbac;
  res_metadata := rb_metadata; res_with_metadata := RoleBinding_with_metadata |}.

Section handlers.
Context `{Extern, Env}.

(** *** Namespaced kinds *)

Section namespaced.
Context (T : Type) `{!Repo Key T, !Resource T, !Json T}.

Definition list_namespaced (namespace : option string) (h : Headers) : M Error (Reply T) :=
  items ← repo_list T namespace;
  mret (list_response_live h (res_api_version T) (res_kind T +:+ "List") items
          (mk_WatchFilter (res_kind T) namespace)).

Definition get_namespaced (namespace name : string) (h : Headers) : M Error (Reply T) :=
  item ← repo_get T (namespace, name);
  mret (item_response h item).

(** The body's namespace is kept if it has one. *)
Definition in_path_namespace (namespace : string) (x : T) : T :=
  match om_namespace (res_metadata x) with
  | None => res_with_metadata (ObjectMeta_with_namespace (Some namespace) (res_metadata x)) x
  | Some _ => x
  end.

Definition create_namespaced (namespace : string) (x : T) : M Error (Z * T) :=
  let x := in_path_namespace namespace x in
  let name := default "" (om_name (res_metadata x)) in
  created ← repo_create x;
  on_bus (publish Added (res_kind T) (Some namespace) name created);;
  mret (CREATED, created).

Definition update_namespaced (namespace name : string) (x : T) : M Error T :=
  let x := res_with_metadata (ObjectMeta_with_namespace (Some namespace) (res_metadata x)) x in
  let x := res_with_metadata (ObjectMeta_with_name (Some name) (res_metadata x)) x in
  updated ← repo_create x;
  on_bus (publish Modified (res_kind T) (Some namespace) name updated);;
  mret updated.

Definition delete_namespaced (namespace name : string) : M Error Value :=
  pre ← attempt (F:=Error) (repo_get T (namespace, name));
  repo_delete T (namespace, name);;
  match pre with
  | Ok obj => on_bus (publish Deleted (res_kind T) (Some namespace) name obj)
  | Err _ => mret ()
  end;;
  mret (deleted_status name (res_group T) (res_plural T)).
End namespaced.

(** *** Cluster-scoped kinds *)

Section cluster.
Context (T : Type) `{!Repo string T, !Resource T, !Json T}.

Definition list_cluster (h : Headers) : M Error (Reply T) :=
  items ← repo_list T None;
  mret (list_response_live h (res_api_version T) (res_kind T +:+ "List") items
          (mk_WatchFilter (res_kind T) None)).

Definition get_cluster (name : string) (h : Headers) : M Error (Reply T) :=
  item ← repo_get T name;
  mret (item_response h item).

Definition create_cluster (x : T) : M Error (Z * T) :=
  let name := default "" (om_name (res_metadata x)) in
  created ← repo_create x;
  on_bus (publish Added (res_kind T) None name created);;
  mret (CREATED, created).

Definition update_cluster (name : string) (x : T) : M Error T :=
  let x := res_with_metadata (ObjectMeta_with_name (Some name) (res_metadata x)) x in
  updated ← repo_create x;
  on_bus (publish Modified (res_kind T) None name updated);;
  mret updated.

Definition delete_cluster (name : string) : M Error Value :=
  pre ← attempt (F:=Error) (repo_get T name);
  repo_delete T name;;
  match pre with
  | Ok obj => on_bus (publish Deleted (res_kind T) None name obj)
  | Err _ => mret ()
  end;;
  mret (deleted_status name (res_group T) (res_plural T)).
End cluster.

(** *** Pods *)

Definition list_pods (namespace : string) (label_selector : option string) (h : Headers)
    : M Error (Reply Pod) :=
  pods ← PodRepository_list (Some namespace) (parse_label_selector label_selector);
  mret (list_response_live h core "PodList" pods (mk_WatchFilter "Pod" (Some namespace))).
Definition list_all_pods (label_selector : option string) (h : Headers) : M Error (Reply Pod) :=
  pods ← PodRepository_list None (parse_label_selector label_selector);
  mret (list_response_live h core "PodList" pods (mk_WatchFilter "Pod" None)).
Definition get_pod := get_namespaced Pod.
Definition create_pod := create_namespaced Pod.
Definition update_pod := update_namespaced Pod.
Definition delete_pod := delete_namespaced Pod.
Definition get_pod_status (namespace name : string) : M Error Pod :=
  PodRepository_get namespace name.
Definition update_pod_status (namespace name : string) (pod : Pod) : M Error Pod :=
  match pod_status pod with
  | Some status => PodRepository_update_status namespace name status
  | None => mret ()
  end;;
  updated ← PodRepository_get namespace name;
  on_bus (publish Modified "Pod" (Some namespace) name updated);;
  mret updated.

(** *** Services *)

Definition list_services (namespace : string) := list_namespaced Service (Some namespace).
Definition list_all_services := list_namespaced Service None.
Definition get_service := get_namespaced Service.

(** The address of a service that needs one and has none. *)
Definition cluster_ip_for (service_cidr : string) (uid : Uuid) : string :=
  service_cidr_prefix service_cidr +:+ "." +:+ pretty (val (as_u8 (val uid `mod` 254 + 1))).

Definition needs_cluster_ip (spec : ServiceSpec) : bool :=
  negb (bool_decide (sspec_service_type spec = ServiceType_ExternalName)).

Definition create_service (service_cidr namespace : string) (service : Service)
    : M Error (Z * Service) :=
  let service := in_path_namespace Service namespace service in
  service ←
    match sspec_cluster_ip (svc_spec service), needs_cluster_ip (svc_spec service) with
    | None, true =>
        uid ← uid_or_new (om_uid (svc_metadata service));
        mret (Service_with_spec
          (ServiceSpec_with_cluster_ip (Some (cluster_ip_for service_cidr uid)) (svc_spec service))
          service)
    | _, _ => mret service
    end;
  let svc_name := default "" (om_name (svc_metadata service)) in
  created ← ServiceRepository_create service;
  on_bus (publish Added "Service" (Some namespace) svc_name created);;
  mret (CREATED, created).
Definition update_service := update_namespaced Service.
Definition delete_service := delete_namespaced Service.

(** *** Nodes *)

Definition list_nodes := list_cluster Node.
Definition get_node := get_cluster Node.
Definition create_node := create_cluster Node.
Definition update_node := update_cluster Node.
Definition delete_node := delete_cluster Node.

(** *** Endpoints *)

Definition list_endpoints (_ : string) : M Error (List Endpoints) :=
  mret (List_new core "EndpointsList" []).
Definition get_endpoints (namespace name : string) : M Error Endpoints :=
  EndpointsRepository_get namespace name.

(** *** Deployments *)

Definition list_deployments (namespace : string) := list_namespaced Deployment (Some namespace).
Definition list_all_deployments := list_namespaced Deployment None.
Definition get_deployment := get_namespaced Deployment.
Definition create_deployment := create_namespaced Deployment.
Definition update_deployment := update_namespaced Deployment.

(** One pod of the cascade. *)
Definition cascade_deployment_pod (namespace : string) (pod : Pod) : M Error () :=
  match om_name (pod_metadata pod) with
  | Some pod_name =>
      pod_pre ← attempt (F:=Error) (PodRepository_get namespace pod_name);
      attempt (F:=Error) (PodRepository_delete namespace pod_name);;
      match pod_pre with
      | Ok p => on_bus (publish Deleted "Pod" (Some namespace) pod_name p)
      | Err _ => mret ()
      end
  | None => mret ()
  end.

Definition delete_deployment (namespace name : string) : M Error Value :=
  deployment ← DeploymentRepository_get namespace name;
  match ls_match_labels (dspec_selector (dep_spec deployment)) with
  | Some selector =>
      pods ← PodRepository_list (Some namespace) (Some selector);
      for_each pods (cascade_deployment_pod namespace)
  | None => mret ()
  end;;
  DeploymentRepository_delete namespace name;;
  on_bus (publish Deleted "Deployment" (Some namespace) name deployment);;
  mret (deleted_status name (Some "apps") "deployments").

(** *** Namespaces *)

Definition list_namespaces (h : Headers) : M Error (Reply Namespace) :=
  namespaces ← NamespaceRepository_list;
  mret (list_response_live h core "NamespaceList" namespaces (mk_WatchFilter "Namespace" None)).
Definition get_namespace (name : string) (h : Headers) : M Error (Reply Namespace) :=
  namespace ← NamespaceRepository_get name;
  mret (item_response h namespace).
Definition create_namespace (namespace : Namespace) : M Error (Z * Namespace) :=
  let ns_name := default "" (om_name (ns_metadata namespace)) in
  created ← NamespaceRepository_create namespace;
  on_bus (publish Added "Namespace" None ns_name created);;
  mret (CREATED, created).
Definition update_namespace (name : string) (namespace : Namespace) : M Error Namespace :=
  let namespace := Namespace_with_metadata
    (ObjectMeta_with_name (Some name) (ns_metadata namespace)) namespace in
  updated ← NamespaceRepository_create namespace;
  on_bus (publish Modified "Namespace" None name updated);;
  mret updated.
Definition delete_namespace (name : string) : M Error Value :=
  pre ← attempt (F:=Error) (NamespaceRepository_get name);
  NamespaceRepository_delete name;;
  match pre with
  | Ok obj => on_bus (publish Deleted "Namespace" None name obj)
  | Err _ => mret ()
  end;;
  mret (deleted_status name None "namespaces").

(** *** Events: nothing is published *)

Definition list_events (namespace : string) (field_selector : option string) (h : Headers)
    : M Error (Reply Event) :=
  let '(obj_name, obj_kind) := parse_involved_object field_selector in
  events ← EventRepository_list (Some namespace) obj_name obj_kind;
  mret (list_response h core "EventList" events).
Definition list_all_events (field_selector : option string) (h : Headers)
    : M Error (Reply Event) :=
  let '(obj_name, obj_kind) := parse_involved_object field_selector in
  events ← EventRepository_list None obj_name obj_kind;
  mret (list_response h core "EventList" events).
Definition get_event (namespace name : string) (h : Headers) : M Error (Reply Event) :=
  event ← EventRepository_get namespace name;
  mret (item_response h event).
Definition create_event (namespace : string) (event : Event) : M Error (Z * Event) :=
  let event := match om_namespace (ev_metadata event) with
               | None => Event_with_metadata
                           (ObjectMeta_with_namespace (Some namespace) (ev_metadata event)) event
               | Some _ => event
               end in
  created ← EventRepository_create event;
  mret (CREATED, created).
Definition delete_event (namespace name : string) : M Error Value :=
  EventRepository_delete namespace name;;
  mret (deleted_status name None "events").

(** *** Stateful sets and daemon sets *)

(** The cascade of both: best effort, with the pods as they were listed. *)
Definition cascade_set_pod (namespace : string) (pod : Pod) : M Error () :=
  match om_name (pod_metadata pod) with
  | Some pod_name =>
      attempt (F:=Error) (PodRepository_delete namespace pod_name);;
      on_bus (publish Deleted "Pod" (Some namespace) pod_name pod)
  | None => mret ()
  end.
Definition cascade_set (namespace : string) (selector : option (gmap string string))
    : M Error () :=
  match selector with
  | Some selector =>
      pods ← attempt (F:=Error) (PodRepository_list (Some namespace) (Some selector));
      match pods with
      | Ok pods => for_each pods (cascade_set_pod namespace)
      | Err _ => mret ()
      end
  | None => mret ()
  end.

Definition list_statefulsets (namespace : string) := list_namespaced StatefulSet (Some namespace).
Definition list_all_statefulsets := list_namespaced StatefulSet None.
Definition get_statefulset := get_namespaced StatefulSet.
Definition create_statefulset := create_namespaced StatefulSet.
Definition update_statefulset := update_namespaced StatefulSet.
Definition delete_statefulset (namespace name : string) : M Error Value :=
  ss_pre ← attempt (F:=Error) (StatefulSetRepository_get namespace name);
  match ss_pre with
  | Ok ss => cascade_set namespace (ls_match_labels (ssspec_selector (ss_spec ss)))
  | Err _ => mret ()
  end;;
  StatefulSetRepository_delete namespace name;;
  match ss_pre with
  | Ok ss => on_bus (publish Deleted "StatefulSet" (Some namespace) name ss)
  | Err _ => mret ()
  end;;
  mret (deleted_status name (Some "apps") "statefulsets").

Definition list_daemonsets (namespace : string) := list_namespaced DaemonSet (Some namespace).
Definition list_all_daemonsets := list_namespaced DaemonSet None.
Definition get_daemonset := get_namespaced DaemonSet.
Definition create_daemonset := create_namespaced DaemonSet.
Definition update_daemonset := update_namespaced DaemonSet.
Definition delete_daemonset (namespace name : string) : M Error Value :=
  ds_pre ← attempt (F:=Error) (DaemonSetRepository_get namespace name);
  match ds_pre with
  | Ok ds => cascade_set namespace (ls_match_labels (dsspec_selector (ds_spec ds)))
  | Err _ => mret ()
  end;;
  DaemonSetRepository_delete namespace name;;
  match ds_pre with
  | Ok ds => on_bus (publish Deleted "DaemonSet" (Some namespace) name ds)
  | Err _ => mret ()
  end;;
  mret (deleted_status name (Some "apps") "daemonsets").

(** *** Service accounts, secrets and config maps *)

Definition list_service_accounts (namespace : string) := list_namespaced ServiceAccount (Some namespace).
Definition list_all_service_accounts := list_namespaced ServiceAccount None.
Definition get_service_account := get_namespaced ServiceAccount.
Definition create_service_account := create_namespaced ServiceAccount.
Definition update_service_account := update_namespaced ServiceAccount.
Definition delete_service_account := delete_namespaced ServiceAccount.

Definition list_secrets (namespace : string) := list_namespaced Secret (Some namespace).
Definition list_all_secrets := list_namespaced Secret None.
Definition get_secret := get_namespaced Secret.
Definition create_secret := create_namespaced Secret.
Definition update_secret := update_namespaced Secret.
Definition delete_secret := delete_namespaced Secret.

Definition list_config_maps (namespace : string) := list_namespaced ConfigMap (Some namespace).
Definition list_all_config_maps := list_namespaced ConfigMap None.
Definition get_config_map := get_namespaced ConfigMap.
Definition create_config_map := create_namespaced ConfigMap.
Definition update_config_map := update_namespaced ConfigMap.
Definition delete_config_map := delete_namespaced ConfigMap.

(** *** Roles and role bindings *)

Definition list_roles (namespace : string) := list_namespaced Role (Some namespace).
Definition list_all_roles := list_namespaced Role None.
Definition get_role := get_namespaced Role.
Definition create_role := create_namespaced Role.
Definition update_role := update_namespaced Role.
Definition delete_role := delete_namespaced Role.

Definition list_role_bindings (namespace : string) := list_namespaced RoleBinding (Some namespace).
Definition list_all_role_bindings := list_namespaced RoleBinding None.
Definition get_role_binding := get_namespaced RoleBinding.
Definition create_role_binding := create_namespaced RoleBinding.
Definition update_role_binding := update_namespaced RoleBinding.
Definition delete_role_binding := delete_namespaced RoleBinding.

(** *** Cluster roles and their bindings *)

Definition list_cluster_roles := list_cluster ClusterRole.
Definition get_cluster_role := get_cluster ClusterRole.
Definition create_cluster_role := create_cluster ClusterRole.
Definition update_cluster_role := update_cluster ClusterRole.
Definition delete_cluster_role := delete_cluster ClusterRole.

Definition list_cluster_role_bindings := list_cluster ClusterRoleBinding.
Definition get_cluster_role_binding := get_cluster ClusterRoleBinding.
Definition create_cluster_role_binding := create_cluster ClusterRoleBinding.
Definition update_cluster_role_binding := update_cluster ClusterRoleBinding.
Definition delete_cluster_role_binding := delete_cluster ClusterRoleBinding.
End handlers.
