(* ===== verification/ApiOk.v ===== *)
(** * What the REST handlers guarantee

    A client that lists a kind and then applies the events the handlers
    publish holds exactly what the database holds; what a cascading deletion
    removes; addresses given to services. *)
From S2P Require Import Prelude RustStd Json External Models Wire Error Bus World Repository.
From S2P Require Import RepositoryOk Recorder Frame Api Reference RefEnv Samples.

Local Open Scope Z_scope.

(** ** Repositories publish nothing *)

Class RepoSilent (K T : Type) `{Extern, Env, Repo K T} : Prop := {
  create_silent (x : T) : preserves w_bus (repo_create x);
  get_silent (k : K) : preserves w_bus (repo_get T k);
  delete_silent (k : K) : preserves w_bus (repo_delete T k);
}.

(** Seen through the bus alone, every statement is blind. *)
Ltac silent :=
  intros;
  match goal with |- preserves ?g ?m => change (preserves (seen (λ _ b, b)) m) end;
  frame.

Section silent.
Context `{Extern, Env}.
#[export] Instance pod_silent : RepoSilent Key Pod.
Proof.
  split; cbn [repo_create repo_get repo_delete pod_repo];
    unfold PodRepository_create, PodRepository_delete, PodRepository_get, row_to_pod; silent.
Qed.
#[export] Instance deployment_silent : RepoSilent Key Deployment.
Proof.
  split; cbn [repo_create repo_get repo_delete deployment_repo];
    unfold DeploymentRepository_create, DeploymentRepository_delete, DeploymentRepository_get, row_to_deployment; silent.
Qed.
#[export] Instance service_silent : RepoSilent Key Service.
Proof.
  split; cbn [repo_create repo_get repo_delete service_repo];
    unfold ServiceRepository_create, ServiceRepository_delete, ServiceRepository_get, row_to_service; silent.
Qed.
#[export] Instance statefulset_silent : RepoSilent Key StatefulSet.
Proof.
  split; cbn [repo_create repo_get repo_delete statefulset_repo];
    unfold StatefulSetRepository_create, StatefulSetRepository_delete, StatefulSetRepository_get, row_to_statefulset; silent.
Qed.
#[export] Instance daemonset_silent : RepoSilent Key DaemonSet.
Proof.
  split; cbn [repo_create repo_get repo_delete daemonset_repo];
    unfold DaemonSetRepository_create, DaemonSetRepository_delete, DaemonSetRepository_get, row_to_daemonset; silent.
Qed.
#[export] Instance serviceaccount_silent : RepoSilent Key ServiceAccount.
Proof.
  split; cbn [repo_create repo_get repo_delete serviceaccount_repo];
    unfold ServiceAccountRepository_create, ServiceAccountRepository_delete, ServiceAccountRepository_get, ServiceAccountRepository_row_to; silent.
Qed.
#[export] Instance secret_silent : RepoSilent Key Secret.
Proof.
  split; cbn [repo_create repo_get repo_delete secret_repo];
    unfold SecretRepository_create, SecretRepository_delete, SecretRepository_get, SecretRepository_row_to; silent.
Qed.
#[export] Instance configmap_silent : RepoSilent Key ConfigMap.
Proof.
  split; cbn [repo_create repo_get repo_delete configmap_repo];
    unfold ConfigMapRepository_create, ConfigMapRepository_delete, ConfigMapRepository_get, ConfigMapRepository_row_to; silent.
Qed.
#[export] Instance role_silent : RepoSilent Key Role.
Proof.
  split; cbn [repo_create repo_get repo_delete role_repo];
    unfold RoleRepository_create, RoleRepository_delete, RoleRepository_get, RoleRepository_row_to; silent.
Qed.
#[export] Instance rolebinding_silent : RepoSilent Key RoleBinding.
Proof.
  split; cbn [repo_create repo_get repo_delete rolebinding_repo];
    unfold RoleBindingRepository_create, RoleBindingRepository_delete, RoleBindingRepository_get, RoleBindingRepository_row_to; silent.
Qed.
#[export] Instance node_silent : RepoSilent string Node.
Proof.
  split; cbn [repo_create repo_get repo_delete node_repo];
    unfold NodeRepository_create, NodeRepository_delete, NodeRepository_get, row_to_node; silent.
Qed.
#[export] Instance clusterrole_silent : RepoSilent string ClusterRole.
Proof.
  split; cbn [repo_create repo_get repo_delete clusterrole_repo];
    unfold ClusterRoleRepository_create, ClusterRoleRepository_delete, ClusterRoleRepository_get, ClusterRoleRepository_row_to; silent.
Qed.
#[export] Instance clusterrolebinding_silent : RepoSilent string ClusterRoleBinding.
Proof.
  split; cbn [repo_create repo_get repo_delete clusterrolebinding_repo];
    unfold ClusterRoleBindingRepository_create, ClusterRoleBindingRepository_delete, ClusterRoleBindingRepository_get, ClusterRoleBindingRepository_row_to; silent.
Qed.
End silent.

(** ** Handlers and watchers *)

(** The accessors of a namespaced kind agree. *)
Class ResourceOk (T : Type) `{Extern, Env, !Repo Key T, !Resource T} : Prop := {
  res_meta_repo (x : T) : repo_meta x = res_metadata x;
  res_key (x : T) : repo_key x = object_key (res_metadata x);
  res_with (m : ObjectMeta) (x : T) : res_metadata (res_with_metadata m x) = m;
}.
Section resource_ok.
Context `{Extern, Env}.
#[export] Instance pod_resource_ok : ResourceOk Pod.
Proof. done. Qed.
#[export] Instance deployment_resource_ok : ResourceOk Deployment.
Proof. done. Qed.
#[export] Instance service_resource_ok : ResourceOk Service.
Proof. done. Qed.
#[export] Instance statefulset_resource_ok : ResourceOk StatefulSet.
Proof. done. Qed.
#[export] Instance daemonset_resource_ok : ResourceOk DaemonSet.
Proof. done. Qed.
#[export] Instance serviceaccount_resource_ok : ResourceOk ServiceAccount.
Proof. done. Qed.
#[export] Instance secret_resource_ok : ResourceOk Secret.
Proof. done. Qed.
#[export] Instance configmap_resource_ok : ResourceOk ConfigMap.
Proof. done. Qed.
#[export] Instance role_resource_ok : ResourceOk Role.
Proof. done. Qed.
#[export] Instance rolebinding_resource_ok : ResourceOk RoleBinding.
Proof. done. Qed.
End resource_ok.

(** What a client does with the events of a watch: [ADDED] and [MODIFIED] set
    the object under the event's namespace and name, [DELETED] removes it. *)
Definition event_key (e : ChangeEvent) : Key := (default "default" (ce_namespace e), ce_name e).
Definition apply_event {T} `{Json T} (m : gmap Key T) (e : ChangeEvent) : gmap Key T :=
  match ce_event_type e with
  | Deleted => delete (event_key e) m
  | Added | Modified =>
      match from_value (ce_object e) with
      | Some x => <[event_key e := x]> m
      | None => m
      end
  end.
Definition replay {T} `{Json T} (m : gmap Key T) (es : list ChangeEvent) : gmap Key T :=
  foldl apply_event m es.

(** A run that ends with [r]: what it sent on the bus, replayed on the objects
    there were before, gives the objects there are now. *)
Definition mirrored (T : Type) `{Extern, Env, !Repo Key T, !Json T} {A} (m : M Error A) (w : World)
    (r : result Error A) (w' : World) : Prop :=
  m w = (r, w') ∧
  ∃ es, bus_sent (w_bus w') = bus_sent (w_bus w) ++ es ∧
    replay (repo_view T (w_db w)) es = repo_view T (w_db w').

Lemma attempt_run {A} (m : M Error A) w r w' :
  m w = (r, w') → attempt (E:=Error) m w = (Ok r, w').
Proof. unfold attempt. by intros ->. Qed.

Section mirror.
Context (T : Type) `{Extern, Env, !Repo Key T, !RepoOk Key T, !Resource T, !ResourceOk T, !Json T, !JsonOk T,
  !RepoSilent Key T}.

Lemma mirrored_upsert typ x ns name w y w1 :
  typ ≠ Deleted → repo_create x w = (Ok y, w1) →
  repo_view T (w_db w1) = <[repo_key x := y]> (repo_view T (w_db w)) →
  repo_key x = (ns, name) →
  let w' := set_bus (publish typ (res_kind T) (Some ns) name y (w_bus w1)) w1 in
  ∃ es, bus_sent (w_bus w') = bus_sent (w_bus w) ++ es ∧
    replay (repo_view T (w_db w)) es = repo_view T (w_db w').
Proof.
  intros Ht E Hv Hk w'. pose proof (create_silent x w) as Hs. rewrite E in Hs. simpl in Hs.
  eexists. split; [unfold w'; simpl; by rewrite bus_sent_publish, Hs|].
  unfold replay, apply_event, event_key. simpl. rewrite from_to, Hv, Hk. by destruct typ.
Qed.

Lemma create_mirrored ns name x w :
  quiet → repo_wf T (w_db w) → om_name (res_metadata x) = Some name →
  om_namespace (res_metadata x) = None ∨ om_namespace (res_metadata x) = Some ns →
  repo_admits (in_path_namespace T ns x) w →
  ∃ y w', mirrored T (create_namespaced T ns x) w (Ok (CREATED, y)) w' ∧
    repo_view T (w_db w') !! (ns, name) = Some y.
Proof.
  intros Hq Hwf Hname Hns Hadm. set (x' := in_path_namespace T ns x) in *.
  assert (object_key (res_metadata x') = (ns, name) ∧
    om_name (res_metadata x') = Some name) as [Hk Hn].
  { unfold x', in_path_namespace. destruct Hns as [Hns|Hns]; rewrite Hns, ?res_with;
      unfold object_key, ObjectMeta_namespace, ObjectMeta_name; simpl; rewrite ?Hns, Hname;
      done. }
  destruct (repo_create_spec x' w Hq Hwf Hadm) as (y & w1 & E & Hv & _).
  eexists y, _. split; [split|].
  - unfold create_namespaced. fold x'. rewrite (bind_ok _ _ _ _ _ E), Hn. reflexivity.
  - apply (mirrored_upsert Added x'); [done|done|done|by rewrite res_key].
  - cbn [w_db set_bus]. rewrite Hv, res_key, Hk. apply lookup_insert_eq.
Qed.

Lemma update_mirrored ns name x w :
  quiet → repo_wf T (w_db w) →
  (∀ x' : T, object_key (res_metadata x') = (ns, name) →
    om_uid (res_metadata x') = om_uid (res_metadata x) → repo_admits x' w) →
  ∃ y w', mirrored T (update_namespaced T ns name x) w (Ok y) w' ∧
    repo_view T (w_db w') !! (ns, name) = Some y.
Proof.
  intros Hq Hwf Hadm.
  set (x1 := res_with_metadata (ObjectMeta_with_namespace (Some ns) (res_metadata x)) x).
  set (x' := res_with_metadata (ObjectMeta_with_name (Some name) (res_metadata x1)) x1).
  assert (Hk : object_key (res_metadata x') = (ns, name)).
  { unfold x', x1. by rewrite !res_with. }
  assert (Hu : om_uid (res_metadata x') = om_uid (res_metadata x)).
  { unfold x', x1. by rewrite !res_with. }
  destruct (repo_create_spec x' w Hq Hwf (Hadm x' Hk Hu)) as (y & w1 & E & Hv & _).
  eexists y, _. split; [split|].
  - unfold update_namespaced. fold x1. fold x'. rewrite (bind_ok _ _ _ _ _ E). reflexivity.
  - apply (mirrored_upsert Modified x'); [done|done|done|by rewrite res_key].
  - cbn [w_db set_bus]. rewrite Hv, res_key, Hk. apply lookup_insert_eq.
Qed.

Lemma delete_mirrored ns name w :
  quiet → repo_wf T (w_db w) → ∃ r w',
  mirrored T (delete_namespaced T ns name) w r w' ∧
  repo_view T (w_db w') = delete (ns, name) (repo_view T (w_db w)) ∧
  match repo_view T (w_db w) !! (ns, name) with
  | Some _ => is_ok r = true
  | None => (∃ msg, r = Err (NotFound msg)) ∧ bus_sent (w_bus w') = bus_sent (w_bus w)
  end.
Proof.
  intros Hq Hwf. pose proof (repo_get_spec (T:=T) (ns, name) w Hq Hwf) as Hg.
  destruct (repo_view T (w_db w) !! (ns, name)) as [x|] eqn:Hx.
  - destruct (repo_delete_spec (T:=T) (ns, name) (count_stmt w) Hq Hwf) as (w1 & E & Hv & _).
    change (w_db (count_stmt w)) with (w_db w) in *. rewrite Hx in E.
    pose proof (delete_silent (T:=T) (ns, name) (count_stmt w)) as Hs.
    rewrite E in Hs. simpl in Hs.
    eexists _, (set_bus (publish Deleted (res_kind T) (Some ns) name x (w_bus w1)) w1).
    split; [split|split; [exact Hv|]].
    + unfold delete_namespaced. rewrite (bind_ok _ _ _ _ _ (attempt_run _ _ _ _ Hg)).
      rewrite (bind_ok _ _ _ _ _ E). reflexivity.
    + eexists. cbn [w_bus w_db set_bus]. rewrite bus_sent_publish, Hs. split; [done|].
      unfold replay. simpl. by rewrite Hv.
    + done.
  - destruct Hg as [msg Hg].
    destruct (repo_delete_spec (T:=T) (ns, name) (count_stmt w) Hq Hwf) as (w1 & E & Hv & _).
    change (w_db (count_stmt w)) with (w_db w) in *. rewrite Hx in E. destruct E as [msg' E].
    pose proof (delete_silent (T:=T) (ns, name) (count_stmt w)) as Hs.
    rewrite E in Hs. simpl in Hs. eexists _, w1. split; [split|split; [exact Hv|]].
    + unfold delete_namespaced. rewrite (bind_ok _ _ _ _ _ (attempt_run _ _ _ _ Hg)).
      rewrite (bind_err _ _ _ _ _ E). reflexivity.
    + exists []. rewrite app_nil_r, Hs. split; [done|]. simpl. by rewrite Hv, delete_id.
    + split; [by eexists|by rewrite Hs].
Qed.


(**  A create whose body names another namespace than the path is not
    refused: the object is stored under the body's namespace while its [ADDED]
    event carries the path's, so a watcher of the namespace it went to is not
    told, and a watcher of the path's namespace is told of an object that is
    not there. *)
Theorem create_announces_path_namespace ns other name x w :
  quiet → repo_wf T (w_db w) → om_name (res_metadata x) = Some name →
  om_namespace (res_metadata x) = Some other → other ≠ ns → repo_admits x w → ∃ y e w',
  create_namespaced T ns x w = (Ok (CREATED, y), w') ∧
  repo_view T (w_db w') = <[(other, name) := y]> (repo_view T (w_db w)) ∧
  bus_sent (w_bus w') = bus_sent (w_bus w) ++ [e] ∧
  matches (mk_WatchFilter (res_kind T) (Some other)) e = false ∧
  matches (mk_WatchFilter (res_kind T) (Some ns)) e = true ∧ event_key e = (ns, name).
Proof.
  intros Hq Hwf Hname Hns Hne Hadm.
  destruct (repo_create_spec x w Hq Hwf Hadm) as (y & w1 & E & Hv & _).
  pose proof (create_silent x w) as Hs. rewrite E in Hs. simpl in Hs.
  eexists y, _, _. split; [|split; [|split; [|split; [|split]]]].
  - unfold create_namespaced, in_path_namespace. rewrite Hns, Hname, (bind_ok _ _ _ _ _ E).
    reflexivity.
  - cbn [w_db set_bus]. rewrite Hv, res_key. unfold object_key, ObjectMeta_namespace, ObjectMeta_name.
    by rewrite Hns, Hname.
  - cbn [w_bus set_bus]. by rewrite bus_sent_publish, Hs.
  - unfold matches. simpl. rewrite str_eqb_refl. simpl. by destruct (str_eqb_reflect other ns).
  - unfold matches. simpl. by rewrite !str_eqb_refl.
  - done.
Qed.
End mirror.

(** ** Cascading deletion *)

Section cascade.
Context `{ExternOk, EnvOk}.

Abbreviation pods := (repo_view Pod).
Abbreviation deployments := (repo_view Deployment).

Lemma run_cascade_pod ns name p w :
  quiet → repo_wf Pod (w_db w) → pods (w_db w) !! (ns, name) = Some p → ∃ w',
  cascade_deployment_pod ns p w = (Ok (), w') ∧ repo_wf Pod (w_db w') ∧
  pods (w_db w') = delete (ns, name) (pods (w_db w)) ∧
  db_deployments (w_db w') = db_deployments (w_db w).
Proof.
  intros Hq Hwf Hp. destruct (pods_named _ _ _ Hp) as (Hname & _ & _). simpl in Hname.
  pose proof (repo_get_spec (T:=Pod) (ns, name) w Hq Hwf) as Hg. rewrite Hp in Hg.
  destruct (repo_delete_spec (T:=Pod) (ns, name) (count_stmt w) Hq Hwf) as (w1 & E & Hv & Hwf1).
  change (w_db (count_stmt w)) with (w_db w) in *. rewrite Hp in E.
  assert (Hd : db_deployments (w_db w1) = db_deployments (w_db w)).
  { assert (Hf : preserves (seen (λ d _, db_deployments d)) (PodRepository_delete ns name))
      by (unfold PodRepository_delete; frame).
    specialize (Hf (count_stmt w)). cbn [repo_delete pod_repo fst snd] in E. by rewrite E in Hf. }
  eexists (set_bus _ w1). split; [|split; [exact Hwf1|split; [exact Hv|exact Hd]]].
  unfold cascade_deployment_pod. rewrite Hname.
  rewrite (bind_ok _ _ _ _ _ (attempt_run _ _ _ _ Hg)).
  rewrite (bind_ok _ _ _ _ _ (attempt_run _ _ _ _ E)). reflexivity.
Qed.

Lemma run_cascade ns xs w :
  quiet → repo_wf Pod (w_db w) →
  NoDup ((λ p, object_key (pod_metadata p)) <$> xs) →
  Forall (λ p, (object_key (pod_metadata p)).1 = ns ∧
               pods (w_db w) !! object_key (pod_metadata p) = Some p) xs → ∃ w',
  for_each xs (cascade_deployment_pod ns) w = (Ok (), w') ∧
  db_deployments (w_db w') = db_deployments (w_db w) ∧
  ∀ k, pods (w_db w') !! k =
    if bool_decide (k ∈ (λ p, object_key (pod_metadata p)) <$> xs) then None
    else pods (w_db w) !! k.
Proof.
  intros Hq. revert w. induction xs as [|p xs IH]; intros w Hwf Hnd Hall; [by exists w|].
  rewrite fmap_cons in Hnd. apply NoDup_cons in Hnd as [Hnin Hnd].
  apply Forall_cons in Hall as [[Hns Hp] Hall].
  assert (Hk : object_key (pod_metadata p) = (ns, ObjectMeta_name (pod_metadata p)))
    by by rewrite <- Hns.
  rewrite Hk in Hp. destruct (run_cascade_pod _ _ _ _ Hq Hwf Hp) as (w1 & E1 & Hwf1 & Hv1 & Hd1).
  destruct (IH w1 Hwf1 Hnd) as (w' & E' & Hd' & Hv').
  { rewrite Forall_forall in *. intros q Hq'. destruct (Hall q Hq') as [Hqns Hqk]. split; [done|].
    rewrite Hv1, <- Hk, lookup_delete_ne; [done|]. intros Heq. apply Hnin. rewrite Heq.
    by apply (list_elem_of_fmap_2 (λ p, object_key (pod_metadata p))). }
  exists w'. split; [|split; [by rewrite Hd'|]].
  - simpl. by rewrite (bind_ok _ _ _ _ _ E1).
  - intros k. rewrite Hv', Hv1, <- Hk, fmap_cons.
    destruct (decide (k = object_key (pod_metadata p))) as [->|Hne].
    + rewrite (bool_decide_eq_true_2 (_ ∈ _ :: _)) by (by left).
      rewrite lookup_delete_eq. by destruct (bool_decide _).
    + rewrite lookup_delete_ne by done. erewrite (bool_decide_ext (k ∈ _ :: _)); [done|].
      rewrite elem_of_cons. split; [by intros [->|?]|by right].
Qed.

(** The pods the selector selects are listed and deleted. *)
Lemma run_cascade_list ns sel w :
  quiet → repo_wf Pod (w_db w) → ∃ w',
  (pods ← PodRepository_list (Some ns) (Some sel); for_each pods (cascade_deployment_pod ns)) w =
    (Ok (), w') ∧
  db_deployments (w_db w') = db_deployments (w_db w) ∧
  ∀ k p, pods (w_db w') !! k = Some p ↔
    pods (w_db w) !! k = Some p ∧ ¬ (k.1 = ns ∧ pod_selected (Some sel) p = true).
Proof.
  intros Hq Hwf. destruct (run_pod_list (Some ns) (Some sel) w Hq Hwf) as (xs & E1 & Hxs).
  set (m := filter (λ kx : Key * Pod, in_namespace (Some ns) kx.1 () = true ∧
    pod_selected (Some sel) kx.2 = true) (map_to_list (pods (w_db w)))) in *.
  assert (Hm : ∀ k p, (k, p) ∈ m ↔ pods (w_db w) !! k = Some p ∧ k.1 = ns ∧
    pod_selected (Some sel) p = true).
  { intros k p. unfold m. rewrite list_elem_of_filter, elem_of_map_to_list. unfold in_namespace.
    cbn [fst snd]. rewrite str_eqb_spec. tauto. }
  assert (Hkeys : (λ p, object_key (pod_metadata p)) <$> xs ≡ₚ m.*1).
  { rewrite Hxs, <- list_fmap_compose. apply reflexive_eq, list_fmap_ext.
    intros i [k p] Hi%list_elem_of_lookup_2%Hm. simpl. apply (pods_keyed (w_db w)), Hi. }
  destruct (run_cascade ns xs (count_stmt w) Hq Hwf) as (w2 & E2 & Hdep & Hv2).
  { rewrite Hkeys. eapply sublist_NoDup; [apply (NoDup_fst_map_to_list (pods (w_db w)))|].
    apply fmap_sublist, sublist_filter. }
  { rewrite Hxs. apply Forall_fmap, Forall_forall. intros [k p] (Hk & Hns & _)%Hm.
    pose proof (pods_keyed (w_db w) k p Hk) as Hkk.
    split; [exact (eq_trans (f_equal fst Hkk) Hns)|].
    change (pods (w_db w) !! object_key (pod_metadata p) = Some p). by rewrite Hkk. }
  exists w2. split; [by rewrite (bind_ok _ _ _ _ _ E1)|]. split; [exact Hdep|].
  intros k p. rewrite Hv2. change (w_db (count_stmt w)) with (w_db w).
  destruct (bool_decide_reflect (k ∈ (λ p, object_key (pod_metadata p)) <$> xs)) as [Hin|Hnin].
  - split; [done|]. intros [Hk Hno]. exfalso. apply Hno. rewrite Hkeys in Hin.
    apply list_elem_of_fmap in Hin as ([k' q] & -> & (Hq' & Hns & Hs)%Hm). cbn [fst] in *.
    rewrite Hk in Hq'. injection Hq' as <-. done.
  - split; [|by intros [? _]]. intros Hk. split; [done|]. intros [Hns Hs]. apply Hnin.
    rewrite Hkeys. apply (list_elem_of_fmap_2' fst _ (k, p)); [by apply Hm|done].
Qed.

Lemma deployments_same d d' :
  db_deployments d' = db_deployments d →
  deployments d' = deployments d ∧ (repo_wf Deployment d → repo_wf Deployment d').
Proof.
  intros E. cbn [repo_view repo_wf deployment_repo]. unfold view, wf.
  cbn [tb_get deployments_table]. by rewrite E.
Qed.

(** C35.  Deleting a deployment deletes every pod of its namespace that carries
    its match labels, whoever owns it, and then the deployment; all other pods
    and deployments stay. *)
Theorem delete_deployment_cascades ns name d sel w :
  quiet → repo_wf Pod (w_db w) → repo_wf Deployment (w_db w) →
  deployments (w_db w) !! (ns, name) = Some d →
  ls_match_labels (dspec_selector (dep_spec d)) = Some sel → ∃ w',
  delete_deployment ns name w = (Ok (deleted_status name (Some "apps") "deployments"), w') ∧
  deployments (w_db w') = delete (ns, name) (deployments (w_db w)) ∧
  ∀ k p, pods (w_db w') !! k = Some p ↔
    pods (w_db w) !! k = Some p ∧ ¬ (k.1 = ns ∧ pod_selected (Some sel) p = true).
Proof.
  intros Hq Hwf Hwfd Hd Hsel.
  pose proof (repo_get_spec (T:=Deployment) (ns, name) w Hq Hwfd) as Hg. rewrite Hd in Hg.
  destruct (run_cascade_list ns sel (count_stmt w) Hq Hwf) as (w2 & E2 & Hdep & Hpods).
  destruct (deployments_same (w_db w) (w_db w2) Hdep) as [Hdv Hwf2].
  destruct (repo_delete_spec (T:=Deployment) (ns, name) w2 Hq (Hwf2 Hwfd)) as (w3 & E3 & Hv3 & _).
  rewrite Hdv, Hd in E3.
  assert (Hp3 : db_pods (w_db w3) = db_pods (w_db w2)).
  { assert (Hf : preserves (seen (λ d _, db_pods d)) (DeploymentRepository_delete ns name))
      by (unfold DeploymentRepository_delete; frame).
    specialize (Hf w2). cbn [repo_delete deployment_repo fst snd] in E3. by rewrite E3 in Hf. }
  exists (set_bus (publish Deleted "Deployment" (Some ns) name d (w_bus w3)) w3).
  split; [|cbn [w_db set_bus]; split].
  - unfold delete_deployment. rewrite (bind_ok _ _ _ _ _ Hg), Hsel, (bind_ok _ _ _ _ _ E2).
    rewrite (bind_ok _ _ _ _ _ E3). reflexivity.
  - by rewrite Hv3, Hdv.
  - intros k p. rewrite (pods_same _ _ Hp3). apply Hpods.
Qed.
End cascade.

(** ** Addresses of services *)

Lemma append_inj_l (a b c : string) : a +:+ b = a +:+ c → b = c.
Proof. induction a as [|x a IH]; simpl; [done|]. intros [= ?]. auto. Qed.

Lemma octet_range (u : Uuid) : 1 <= val u `mod` 254 + 1 <= 254.
Proof. pose proof (Z.mod_pos_bound (val u) 254 ltac:(lia)). lia. Qed.

Lemma octet_val (u : Uuid) : val (as_u8 (val u `mod` 254 + 1)) = val u `mod` 254 + 1.
Proof. rewrite val_as_u8. apply wrap_id. pose proof (octet_range u). lia. Qed.

(**  The address given to a service is in the first 24 bits of the service
    range with a last octet from 1 to 254, and it depends on the identifier
    modulo 254 alone: two services get the same address exactly when their
    identifiers agree modulo 254, and nothing tries another. *)
Theorem cluster_ip_octet cidr (u v : Uuid) :
  (∃ o, 1 <= o <= 254 ∧
    cluster_ip_for cidr u = service_cidr_prefix cidr +:+ "." +:+ pretty o) ∧
  (cluster_ip_for cidr u = cluster_ip_for cidr v ↔ val u `mod` 254 = val v `mod` 254).
Proof.
  unfold cluster_ip_for. rewrite !octet_val. split.
  - exists (val u `mod` 254 + 1). split; [apply octet_range|done].
  - split; [|by intros ->]. intros E%append_inj_l%append_inj_l%(inj pretty). lia.
Qed.

(** ** Concrete inputs *)

Definition new_pod : Pod := sample_pod "web" (sample_uuid 7) PodPhase_Pending None None None.


Lemma create_announces_path_namespace_witness : ∃ y e w',
  create_pod "kube-system" new_pod start = (Ok (CREATED, y), w') ∧
  repo_view Pod (w_db w') = <[("default", "web") := y]> (repo_view Pod (w_db start)) ∧
  bus_sent (w_bus w') = [e] ∧ event_key e = ("kube-system", "web").
Proof.
  destruct (create_announces_path_namespace Pod "kube-system" "default" "web" new_pod start
    ref_quiet start_wf) as (y & e & w' & E & Hv & Hs & _ & _ & Hk).
  - reflexivity.
  - reflexivity.
  - discriminate.
  - right. apply no_uid_in_use.
  - exists y, e, w'. split; [exact E|]. split; [exact Hv|]. split; [exact Hs|exact Hk].
Defined.

(** A deployment, and a pod with its labels that nobody owns. *)
Definition web_spec : DeploymentSpec :=
  mk_DeploymentSpec None sample_selector sample_template None None None false.
Definition web_row : DeploymentRow :=
  mk_DeploymentRow "00000000-0000-0000-0000-000000000009" "{}" "{}" (json_str web_spec)
    (as_i32 1) i32_zero i32_zero (to_rfc3339 (ref_now 0)) (to_rfc3339 (ref_now 0)).

Lemma delete_deployment_cascades_witness : ∃ w w' p,
  repo_view Pod (w_db w) !! ("default", "web") = Some p ∧
  om_owner_references (pod_metadata p) = None ∧
  delete_deployment "default" "web" w =
    (Ok (deleted_status "web" (Some "apps") "deployments"), w') ∧
  repo_view Pod (w_db w') !! ("default", "web") = None.
Proof.
  destruct (one_pod_world new_pod (sample_status PodPhase_Pending None) (sample_uuid 7)
    eq_refl eq_refl) as (w0 & Hwf & _ & Hv & _).
  set (w := set_db (set_deployments {[("default", "web") := web_row]} (w_db w0)) w0).
  assert (Hd : repo_view Deployment (w_db w) !! ("default", "web") =
    Some (deployment_of_row ("default", "web") web_row (stamp (dr_created_at web_row)))).
  { cbn [repo_view deployment_repo]. rewrite lookup_view. unfold w. cbn [w_db set_db].
    rewrite (tb_get_set deployments_table {[("default", "web") := web_row]} (w_db w0)).
    by rewrite lookup_singleton_eq. }
  assert (Hvw : repo_view Pod (w_db w) = repo_view Pod (w_db w0)) by (by apply pods_same).
  assert (Hsel : ls_match_labels (dspec_selector (dep_spec (deployment_of_row ("default", "web")
    web_row (stamp (dr_created_at web_row))))) = Some app_labels).
  { cbn [dep_spec deployment_of_row dr_spec web_row]. by rewrite json_from_str. }
  assert (Hwfw : repo_wf Pod (w_db w)) by (by apply (pods_wf_same (w_db w0))).
  assert (Hwfd : repo_wf Deployment (w_db w)) by (apply map_Forall_singleton, stamped_rfc3339).
  destruct (delete_deployment_cascades _ _ _ app_labels w ref_quiet Hwfw Hwfd Hd Hsel)
    as (w' & E & _ & Hk).
  eexists w, w', _. split; [rewrite Hvw, Hv; apply lookup_singleton_eq|].
  split; [reflexivity|]. split; [exact E|].
  destruct (repo_view Pod (w_db w') !! ("default", "web")) as [p|] eqn:Hp; [|reflexivity].
  apply Hk in Hp as [Hp Hno]. destruct Hno. split; [reflexivity|].
  rewrite Hvw, Hv in Hp. apply lookup_singleton_Some in Hp as [_ <-]. vm_compute. reflexivity.
Defined.
