(* ===== verification/Replies.v ===== *)
(** * The bodies of replies ([src/src/server/table.rs], [api.rs])

    What the client of a list or of an item reads: JSON, a table, or a stream
    of watch events; the stubs for kinds the server does not keep; and the
    type of every cell of every table. *)
From S2P Require Import Prelude RustStd Json External Models Wire Error Bus World Repository.
From S2P Require Import RepositoryOk Replication Printers Api RefEnv Reference Samples NodeSamples AgentSamples.

(** ** Bodies *)

(** A stream is its first lines, what it adds for what the bus gives it, and
    the number of keep-alives it ends with if it ends by itself. *)
Inductive Body : Type :=
| JsonBody (v : Value)
| StreamBody (initial : list string) (live : list Received → list string) (keepalives : option nat).

Definition KEEPALIVES : nat := 60.

Section bodies.
Context `{Extern, Env}.

Definition watch_response {T} `{Json T} (items : list T) : Body :=
  StreamBody (snapshot_lines items) (λ _, []) (Some KEEPALIVES).
Definition live_watch_response {T} `{Json T} (items : list T) (filter : WatchFilter) : Body :=
  StreamBody (snapshot_lines items) (forward filter) None.

(** [Json(json!({..}))] of a list. *)
Definition list_value {T} `{Json T} (api_version list_kind : string) (items : list T) : Value :=
  JObj [("apiVersion", JStr api_version); ("kind", JStr list_kind); ("metadata", JObj []);
        ("items", JArr (to_value <$> items))].

Definition reply_body {T} `{Json T} (columns : list Column) (row : DateTime → T → list Value)
    (r : Reply T) {E} : M E Body :=
  match r with
  | LiveWatch items filter => mret (live_watch_response items filter)
  | Snapshot items => mret (watch_response items)
  | AsTable items => v ← build_table columns items row; mret (JsonBody v)
  | AsList api_version list_kind items => mret (JsonBody (list_value api_version list_kind items))
  | AsItem item => mret (JsonBody (to_value item))
  end.

(** ** Kinds that are only listed, and always empty *)

Definition no_items : list Value := [].
Definition empty_rc_response (h : Headers) {E} : M E Body :=
  reply_body RC_COLUMNS (λ _ _, []) (list_response h "v1" "ReplicationControllerList" no_items).
Definition empty_rs_response (h : Headers) {E} : M E Body :=
  reply_body RS_COLUMNS (λ _ _, []) (list_response h "apps/v1" "ReplicaSetList" no_items).
Definition list_replication_controllers (_ : string) (h : Headers) {E} : M E Body :=
  empty_rc_response h.
Definition list_all_replication_controllers (h : Headers) {E} : M E Body := empty_rc_response h.
Definition list_replica_sets (_ : string) (h : Headers) {E} : M E Body := empty_rs_response h.
Definition list_all_replica_sets (h : Headers) {E} : M E Body := empty_rs_response h.
End bodies.

(** ** Cells *)

(** A cell has the JSON type its column declares. *)
Definition cell_ok (c : Column) (v : Value) : bool :=
  match v with
  | JStr _ => str_eqb (col_kind c) "string"
  | JInt _ => str_eqb (col_kind c) "integer"
  | _ => false
  end.
Definition row_ok (columns : list Column) (row : list Value) : Prop :=
  Forall2 (λ c v, cell_ok c v = true) columns row.

Class PrintedOk (T : Type) `{Printed T} : Prop :=
  print_row_ok now (x : T) : row_ok (print_columns T) (print_row now x).

Section cells.
Context `{Extern, HashOrder, Unicode}.

Ltac cells := intros now x; unfold row_ok; cbn; repeat constructor.

#[export] Instance pod_printed_ok : PrintedOk Pod. Proof. cells. Qed.
#[export] Instance node_printed_ok : PrintedOk Node. Proof. cells. Qed.
#[export] Instance deployment_printed_ok : PrintedOk Deployment. Proof. cells. Qed.
#[export] Instance statefulset_printed_ok : PrintedOk StatefulSet. Proof. cells. Qed.
#[export] Instance daemonset_printed_ok : PrintedOk DaemonSet. Proof. cells. Qed.
#[export] Instance service_printed_ok : PrintedOk Service. Proof. cells. Qed.
#[export] Instance namespace_printed_ok : PrintedOk Namespace. Proof. cells. Qed.
#[export] Instance event_printed_ok : PrintedOk Models.Event. Proof. cells. Qed.
#[export] Instance serviceaccount_printed_ok : PrintedOk ServiceAccount. Proof. cells. Qed.
#[export] Instance secret_printed_ok : PrintedOk Secret. Proof. cells. Qed.
#[export] Instance configmap_printed_ok : PrintedOk ConfigMap. Proof. cells. Qed.
#[export] Instance clusterrole_printed_ok : PrintedOk ClusterRole. Proof. cells. Qed.
#[export] Instance clusterrolebinding_printed_ok : PrintedOk ClusterRoleBinding. Proof. cells. Qed.
#[export] Instance role_printed_ok : PrintedOk Role. Proof. cells. Qed.
#[export] Instance rolebinding_printed_ok : PrintedOk RoleBinding. Proof. cells. Qed.
End cells.

(** ** Tables *)

(** A row of a table, as JSON. *)
Definition table_row (cells : list Value) (object : Value) : Value :=
  JObj [("cells", JArr cells); ("object", object)].

Section tables.
Context `{Extern, Env}.

Lemma build_rows {T} `{Json T, PrintedOk T} (items : list T) {E} (w : World) :
  ∃ rows w',
    (mapM (λ item, t ← now; mret (table_row (print_row t item) (to_value item))) items
       : M E (list Value)) w = (Ok rows, w') ∧
    Forall2 (λ item row, ∃ cells,
      row = table_row cells (to_value item) ∧ row_ok (print_columns T) cells) items rows.
Proof.
  revert w. induction items as [|item items IH]; intros w.
  { exists [], w. by split; [|constructor]. }
  destruct (now (E:=E) w) as [[t|e] w1] eqn:Hnow; [|by destruct w].
  destruct (IH w1) as (rows & w' & Erows & Hrows).
  exists (table_row (print_row t item) (to_value item) :: rows), w'. split.
  - cbn [mapM]. eapply bind_run; [eapply bind_run; [exact Hnow|reflexivity]|].
    eapply bind_run; [exact Erows|reflexivity].
  - constructor; [|done]. eexists. split; [reflexivity|]. apply print_row_ok.
Qed.

End tables.

(** ** A table on a concrete database *)

Definition sample_row_pods : list Pod :=
  [sample_pod "web-0" (sample_uuid 1) PodPhase_Running None None None;
   sample_pod "web-1" (sample_uuid 2) PodPhase_Pending None None None].

