(* ===== verification/Serve.v ===== *)
(** * The API server as one function ([src/src/server/routes.rs], [api.rs])

    [serve] is what the router does with a request: the watch mark, the route,
    the extractors in the order the handler lists them, the handler, and the
    reply, errors included.  What axum itself decides (percent decoding of a
    path, the texts of its rejections) is the class [Axum]; the answers of the
    nodes' agents to the requests the server relays are [agents]. *)
From S2P Require Import Prelude RustStd Text Json External Models Wire Error Bus World Repository.
From S2P Require Import Agent AgentHttp Printers Routes Relay Api Replies UrlForm.

Local Open Scope Z_scope.

(** ** Requests and replies *)

(** [rq_body] is the body axum buffered, or its rejection (too large, for
    example); [rq_upgrade] whether the request can become a websocket. *)
Record HttpRequest : Type := mk_HttpRequest {
  rq_method : HttpMethod;
  rq_path : string;
  rq_query : option string;
  rq_headers : HeaderMap;
  rq_is_json : bool;
  rq_body : result (Z * string) string;
  rq_upgrade : result (Z * string) ();
}.

Inductive ReplyBody : Type :=
| Shown (b : Body)
| Plain (s : string)
(** The body of an agent's reply, piped through. *)
| Piped (b : result string string)
(** The upgraded socket, joined to the one at the address. *)
| Joined (url : string).
Record HttpReply : Type := mk_HttpReply { hr_status : Z; hr_body : ReplyBody }.

Definition json_reply (status : Z) (v : Value) : HttpReply := mk_HttpReply status (Shown (JsonBody v)).
Definition text_reply (r : Z * string) : HttpReply := mk_HttpReply r.1 (Plain r.2).
Definition error_reply (e : Error) : HttpReply :=
  let '(status, v) := Error_into_response e in json_reply status v.

(** ** Extractors *)

Class Axum := {
  ax_path_param : string → option string;
  ax_path_error : string → string;
  ax_query_error : string → string;
  ax_json_error : string → Z * string;
  ax_content_type_error : string;
}.
Class AxumOk `{Axum} : Prop := {
  ax_path_plain s : Forall (λ c, form_plain c = true) (bytes s) → ax_path_param s = Some s;
  ax_json_status b : (ax_json_error b).1 = 400 ∨ (ax_json_error b).1 = 422;
}.

(** A field of a query: [None] when it is there twice. *)
Definition form_field (k : string) (pairs : list (string * string)) : option (option string) :=
  match filter (λ kv : string * string, kv.1 = k) pairs with
  | [] => Some None
  | [kv] => Some (Some kv.2)
  | _ => None
  end.
Definition form_parsed {A} (parse : string → option A) (k : string)
    (pairs : list (string * string)) : option (option A) :=
  v ← form_field k pairs;
  match v with
  | None => Some None
  | Some s => Some <$> parse s
  end.
Definition query_i64 (s : string) : option i64 := parse_i64 s ≫= checked.
Definition query_bool (s : string) : option bool :=
  if str_eqb s "true" then Some true else if str_eqb s "false" then Some false else None.

Record ListParams : Type := mk_ListParams {
  lp_label_selector : option string;
  lp_field_selector : option string;
  lp_limit : option i64;
  lp_continue_token : option string;
}.
Definition ListParams_of (pairs : list (string * string)) : option ListParams :=
  l ← form_field "labelSelector" pairs;
  f ← form_field "fieldSelector" pairs;
  n ← form_parsed query_i64 "limit" pairs;
  c ← form_field "continue" pairs;
  Some (mk_ListParams l f n c).
(** [EventListParams], with its one field. *)
Definition EventListParams_of (pairs : list (string * string)) : option (option string) :=
  form_field "fieldSelector" pairs.
Definition LogParams_of (pairs : list (string * string)) : option LogParams :=
  c ← form_field "container" pairs;
  follow ← form_parsed query_bool "follow" pairs;
  previous ← form_parsed query_bool "previous" pairs;
  tail ← form_parsed query_i64 "tailLines" pairs;
  stamps ← form_parsed query_bool "timestamps" pairs;
  since ← form_parsed query_i64 "sinceSeconds" pairs;
  limit ← form_parsed query_i64 "limitBytes" pairs;
  Some (mk_LogParams c (default false follow) (default false previous) tail
          (default false stamps) since limit).
(** [PortForwardParams], with its one field. *)
Definition PortForwardParams_of (pairs : list (string * string)) : option (option string) :=
  form_field "ports" pairs.

Section serve.
Context `{Extern, Env, !HashOrder, !Unicode, !UrlEncoded, !UrlEncode, !Axum}.
Context (service_cidr os arch : string).
Context (agents : string → list (string * string) → result string Response).

Abbreviation Answer := (M Error HttpReply).

(** A rejection of an extractor is the reply. *)
Definition with_query {P} (read : list (string * string) → option P) (rq : HttpRequest)
    (k : P → Answer) : Answer :=
  let q := default "" (rq_query rq) in
  match urlencoded_pairs q ≫= read with
  | Some p => k p
  | None => mret (text_reply (400, ax_query_error q))
  end.
Definition with_json {T} `{Json T} (rq : HttpRequest) (k : T → Answer) : Answer :=
  if rq_is_json rq then
    match rq_body rq with
    | Ok b => match json_parse b ≫= from_value with
              | Some x => k x
              | None => mret (text_reply (ax_json_error b))
              end
    | Err rejection => mret (text_reply rejection)
    end
  else mret (text_reply (415, ax_content_type_error)).
Definition with_upgrade (rq : HttpRequest) (k : Answer) : Answer :=
  match rq_upgrade rq with
  | Ok _ => k
  | Err rejection => mret (text_reply rejection)
  end.

Definition wants (rq : HttpRequest) : Headers :=
  mk_Headers (Routes.wants_watch (rq_headers rq)) (Routes.wants_table (rq_headers rq)).

(** ** Replies of the handlers: [IntoResponse] of what they return *)

Definition as_view {T} `{Json T, !Printed T} (m : M Error (Reply T)) : Answer :=
  r ← m;
  b ← reply_body (print_columns T) print_row r;
  mret (mk_HttpReply 200 (Shown b)).
Definition as_body (m : M Error Body) : Answer :=
  b ← m; mret (mk_HttpReply 200 (Shown b)).
Definition as_json {T} `{Json T} (m : M Error T) : Answer :=
  x ← m; mret (json_reply 200 (to_value x)).
Definition as_created {T} `{Json T} (m : M Error (Z * T)) : Answer :=
  r ← m; mret (json_reply r.1 (to_value r.2)).
Definition as_value (m : M Error Value) : Answer :=
  v ← m; mret (json_reply 200 v).
Definition as_logs (m : M Error LogsReply) : Answer :=
  r ← m;
  mret (match r with
        | TextReply status body => text_reply (status, body)
        | PipedReply body => mk_HttpReply 200 (Piped body)
        end).
(** 101: the upgrade. *)
Definition as_socket (m : M Error (Z * string + string)) : Answer :=
  r ← m;
  mret (match r with
        | inl refusal => text_reply refusal
        | inr url => mk_HttpReply 101 (Joined url)
        end).

(** ** The handlers by name

    A handler takes none, one or two parameters of the path. *)
Inductive Handler : Type :=
| Fixed (f : HttpRequest → Answer)
| Named (f : string → HttpRequest → Answer)
| Scoped (f : string → string → HttpRequest → Answer).

Definition document (v : Value) : Handler := Fixed (λ _, as_value (mret v)).
Definition discovery_handlers : list (string * Handler) := [
  ("version_info", document (version_info os arch));
  ("ok", Fixed (λ _, mret (text_reply (200, "ok"))));
  ("api_versions", document api_versions);
  ("api_v1_resources", document api_v1_resources);
  ("api_groups", document api_groups);
  ("openapi_v2", Fixed (λ _, mret (text_reply (200, openapi_v2.2))));
  ("openapi_v3", document openapi_v3);
  ("apps_v1_resources", document apps_v1_resources);
  ("rbac_v1_resources", document rbac_v1_resources)].

(** The five handlers of a kind whose lists take no query. *)
Section kinds.
Context {T : Type} `{Json T, !Printed T}.
Definition list_of (f : string → Headers → M Error (Reply T)) : Handler :=
  Named (λ ns rq, as_view (f ns (wants rq))).
Definition list_all_of (f : Headers → M Error (Reply T)) : Handler :=
  Fixed (λ rq, as_view (f (wants rq))).
Definition get_of (f : string → string → Headers → M Error (Reply T)) : Handler :=
  Scoped (λ ns name rq, as_view (f ns name (wants rq))).
Definition create_of (f : string → T → M Error (Z * T)) : Handler :=
  Named (λ ns rq, with_json rq (λ x, as_created (f ns x))).
Definition update_of (f : string → string → T → M Error T) : Handler :=
  Scoped (λ ns name rq, with_json rq (λ x, as_json (f ns name x))).
Definition get_cluster_of (f : string → Headers → M Error (Reply T)) : Handler := list_of f.
Definition create_cluster_of (f : T → M Error (Z * T)) : Handler :=
  Fixed (λ rq, with_json rq (λ x, as_created (f x))).
Definition update_cluster_of (f : string → T → M Error T) : Handler :=
  Named (λ name rq, with_json rq (λ x, as_json (f name x))).
End kinds.
Definition delete_of (f : string → string → M Error Value) : Handler :=
  Scoped (λ ns name _, as_value (f ns name)).
Definition delete_cluster_of (f : string → M Error Value) : Handler :=
  Named (λ name _, as_value (f name)).

Definition pod_handlers : list (string * Handler) := [
  ("list_pods", Named (λ ns rq, with_query ListParams_of rq (λ p,
     as_view (list_pods ns (lp_label_selector p) (wants rq)))));
  ("create_pod", create_of create_pod);
  ("get_pod", get_of get_pod);
  ("update_pod", update_of update_pod);
  ("delete_pod", delete_of delete_pod);
  ("get_pod_status", Scoped (λ ns name _, as_json (get_pod_status ns name)));
  ("update_pod_status", update_of update_pod_status);
  ("get_pod_logs", Scoped (λ ns name rq, with_query LogParams_of rq (λ p,
     as_logs (get_pod_logs ns name p agents))));
  ("exec_pod", Scoped (λ ns name rq, with_upgrade rq (as_socket (exec_pod ns name (rq_query rq)))));
  ("port_forward_pod", Scoped (λ ns name rq, with_query PortForwardParams_of rq (λ ports,
     with_upgrade rq (as_socket (port_forward_pod ns name ports)))));
  ("list_all_pods", Fixed (λ rq, with_query ListParams_of rq (λ p,
     as_view (list_all_pods (lp_label_selector p) (wants rq)))))].

Definition core_handlers : list (string * Handler) := [
  ("list_services", list_of list_services);
  ("create_service", create_of (create_service service_cidr));
  ("get_service", get_of get_service);
  ("update_service", update_of update_service);
  ("delete_service", delete_of delete_service);
  ("list_all_services", list_all_of list_all_services);
  ("list_nodes", list_all_of list_nodes);
  ("create_node", create_cluster_of create_node);
  ("get_node", get_cluster_of get_node);
  ("update_node", update_cluster_of update_node);
  ("delete_node", delete_cluster_of delete_node);
  ("list_endpoints", Named (λ ns _, as_json (list_endpoints ns)));
  ("get_endpoints", Scoped (λ ns name _, as_json (get_endpoints ns name)));
  ("list_namespaces", list_all_of list_namespaces);
  ("create_namespace", create_cluster_of create_namespace);
  ("get_namespace", get_cluster_of get_namespace);
  ("update_namespace", update_cluster_of update_namespace);
  ("delete_namespace", delete_cluster_of delete_namespace);
  ("list_events", Named (λ ns rq, with_query EventListParams_of rq (λ sel,
     as_view (list_events ns sel (wants rq)))));
  ("create_event", create_of create_event);
  ("get_event", get_of get_event);
  ("delete_event", delete_of delete_event);
  ("list_all_events", Fixed (λ rq, with_query EventListParams_of rq (λ sel,
     as_view (list_all_events sel (wants rq)))))].

Definition apps_handlers : list (string * Handler) := [
  ("list_deployments", list_of list_deployments);
  ("create_deployment", create_of create_deployment);
  ("get_deployment", get_of get_deployment);
  ("update_deployment", update_of update_deployment);
  ("delete_deployment", delete_of delete_deployment);
  ("list_all_deployments", list_all_of list_all_deployments);
  ("list_statefulsets", list_of list_statefulsets);
  ("create_statefulset", create_of create_statefulset);
  ("get_statefulset", get_of get_statefulset);
  ("update_statefulset", update_of update_statefulset);
  ("delete_statefulset", delete_of delete_statefulset);
  ("list_all_statefulsets", list_all_of list_all_statefulsets);
  ("list_daemonsets", list_of list_daemonsets);
  ("create_daemonset", create_of create_daemonset);
  ("get_daemonset", get_of get_daemonset);
  ("update_daemonset", update_of update_daemonset);
  ("delete_daemonset", delete_of delete_daemonset);
  ("list_all_daemonsets", list_all_of list_all_daemonsets)].

Definition config_handlers : list (string * Handler) := [
  ("list_service_accounts", list_of list_service_accounts);
  ("create_service_account", create_of create_service_account);
  ("get_service_account", get_of get_service_account);
  ("update_service_account", update_of update_service_account);
  ("delete_service_account", delete_of delete_service_account);
  ("list_all_service_accounts", list_all_of list_all_service_accounts);
  ("list_secrets", list_of list_secrets);
  ("create_secret", create_of create_secret);
  ("get_secret", get_of get_secret);
  ("update_secret", update_of update_secret);
  ("delete_secret", delete_of delete_secret);
  ("list_all_secrets", list_all_of list_all_secrets);
  ("list_config_maps", list_of list_config_maps);
  ("create_config_map", create_of create_config_map);
  ("get_config_map", get_of get_config_map);
  ("update_config_map", update_of update_config_map);
  ("delete_config_map", delete_of delete_config_map);
  ("list_all_config_maps", list_all_of list_all_config_maps)].

Definition rbac_handlers : list (string * Handler) := [
  ("list_roles", list_of list_roles);
  ("create_role", create_of create_role);
  ("get_role", get_of get_role);
  ("update_role", update_of update_role);
  ("delete_role", delete_of delete_role);
  ("list_all_roles", list_all_of list_all_roles);
  ("list_role_bindings", list_of list_role_bindings);
  ("create_role_binding", create_of create_role_binding);
  ("get_role_binding", get_of get_role_binding);
  ("update_role_binding", update_of update_role_binding);
  ("delete_role_binding", delete_of delete_role_binding);
  ("list_all_role_bindings", list_all_of list_all_role_bindings);
  ("list_cluster_roles", list_all_of list_cluster_roles);
  ("create_cluster_role", create_cluster_of create_cluster_role);
  ("get_cluster_role", get_cluster_of get_cluster_role);
  ("update_cluster_role", update_cluster_of update_cluster_role);
  ("delete_cluster_role", delete_cluster_of delete_cluster_role);
  ("list_cluster_role_bindings", list_all_of list_cluster_role_bindings);
  ("create_cluster_role_binding", create_cluster_of create_cluster_role_binding);
  ("get_cluster_role_binding", get_cluster_of get_cluster_role_binding);
  ("update_cluster_role_binding", update_cluster_of update_cluster_role_binding);
  ("delete_cluster_role_binding", delete_cluster_of delete_cluster_role_binding)].

Definition stub_handlers : list (string * Handler) := [
  ("list_replication_controllers", Named (λ ns rq, as_body (list_replication_controllers ns (wants rq))));
  ("list_all_replication_controllers", Fixed (λ rq, as_body (list_all_replication_controllers (wants rq))));
  ("list_replica_sets", Named (λ ns rq, as_body (list_replica_sets ns (wants rq))));
  ("list_all_replica_sets", Fixed (λ rq, as_body (list_all_replica_sets (wants rq))))].

Definition handlers : list (string * Handler) :=
  discovery_handlers ++ pod_handlers ++ core_handlers ++ apps_handlers ++ config_handlers ++
  rbac_handlers ++ stub_handlers.
Definition handler_named (h : string) : option Handler :=
  snd <$> head (filter (λ hf : string * Handler, hf.1 = h) handlers).

(** [Path(..)] of as many parameters as the handler takes: a mismatch is
    axum's 500. *)
Definition path_mismatch : HttpReply := text_reply (500, "Wrong number of path arguments").
Definition with_param (raw : string) (k : string → Answer) : Answer :=
  match ax_path_param raw with
  | Some p => k p
  | None => mret (text_reply (400, ax_path_error raw))
  end.
Definition call (h : Handler) (params : list string) (rq : HttpRequest) : Answer :=
  match h, params with
  | Fixed f, _ => f rq
  | Named f, [a] => with_param a (λ a, f a rq)
  | Scoped f, [a; b] => with_param a (λ a, with_param b (λ b, f a b rq))
  | _, _ => mret path_mismatch
  end.

Definition marked (rq : HttpRequest) : HttpRequest :=
  mk_HttpRequest (rq_method rq) (rq_path rq) (rq_query rq)
    (watch_middleware (rq_query rq) (rq_headers rq)) (rq_is_json rq) (rq_body rq) (rq_upgrade rq).

Definition route_request (rq : HttpRequest) : Answer :=
  match dispatch (rq_method rq) (rq_path rq) with
  | Handled h params =>
      match handler_named h with
      | Some f => call f params (marked rq)
      | None => mret (text_reply (404, ""))
      end
  | Refused status => mret (text_reply (status, ""))
  end.

Definition serve {E} (rq : HttpRequest) : M E HttpReply :=
  r ← attempt (route_request rq);
  mret (match r with Ok reply => reply | Err e => error_reply e end).
End serve.
