(* ===== verification/ServeOk.v ===== *)
(** * The router and its handlers fit

    Every route of the table has a handler that takes the parameters of its
    path, so what the router accepts is answered by the handler or by the
    error it returned. *)
From S2P Require Import Prelude RustStd Text Json External Models Wire Error Bus World Repository.
From S2P Require Import Agent AgentHttp Printers Routes Relay Api Replies UrlForm Serve.

Section serve.
Context `{Extern, Env, !HashOrder, !Unicode, !UrlEncoded, !UrlEncode, !Axum}.
Context (service_cidr os arch : string).
Context (agents : string → list (string * string) → result string Response).

Definition arity (h : Handler) : nat :=
  match h with Fixed _ => 0 | Named _ => 1 | Scoped _ => 2 end.

(** What the table and the handlers must satisfy together. *)
Definition route_served (r : Route) : bool :=
  forallb (λ mh : HttpMethod * string,
    match handler_named service_cidr os arch agents mh.2 with
    | Some f => arity f =? length (List.filter is_param (rt_pattern r))
    | None => false
    end)%nat (rt_methods r).
Lemma routes_served : forallb route_served api_routes = true.
Proof. vm_compute. reflexivity. Qed.

Lemma match_path_params pattern path params :
  match_path pattern path = Some params → length params = length (List.filter is_param pattern).
Proof.
  revert path params. induction pattern as [|[s|n] pattern IH]; intros [|p path] params; try done.
  - by intros [= <-].
  - cbn [match_path]. destruct (str_eqb s p); [|done]. apply IH.
  - cbn [match_path]. destruct (str_eqb p ""); [done|].
    intros (params' & Hp & ->)%fmap_Some. cbn. by rewrite (IH path params').
Qed.

Lemma dispatch_in_handled routes m path h params :
  dispatch_in routes m path = Handled h params →
  ∃ r, r ∈ routes ∧ (m, h) ∈ rt_methods r ∧ match_path (rt_pattern r) path = Some params.
Proof.
  induction routes as [|r routes IH]; [done|]. cbn [dispatch_in].
  destruct (match_path (rt_pattern r) path) as [ps|] eqn:Hm.
  - destruct (find_method m (rt_methods r)) as [h'|] eqn:Hf; [|done]. intros [= -> ->].
    exists r. split; [by left|]. split; [|done]. unfold find_method in Hf.
    destruct (head _) as [[m' h0]|] eqn:Hh; [|done]. injection Hf as ->.
    rewrite head_lookup in Hh. apply list_elem_of_lookup_2, list_elem_of_filter in Hh.
    by destruct Hh as [<- Hin].
  - intros Hd. destruct (IH Hd) as (r' & Hin & Hr'). exists r'. split; [by right|done].
Qed.

End serve.
