(* ===== verification/AgentServe.v ===== *)
(** * The agent's HTTP server as one function ([src/src/node/agent.rs])

    [agent_serve] is what the router of [run_http_server] does with a request:
    the route, the extractors, the handler, and its reply or the socket it is
    upgraded to.  [agent_send] is the call the API server makes to it. *)
From S2P Require Import Prelude RustStd Text Json External Runtime Agent AgentHttp.
From S2P Require Import Routes Relay Serve.

Local Open Scope Z_scope.

Definition NODE_AGENT_PORT : Z := 10250.

(** A reply with a text, one with a stream, or an upgraded socket with what
    its session is for. *)
Inductive AgentReply : Type :=
| AgentText (status : Z) (body : string)
| AgentStream (content_type cache_control : string) (stream : LogStream)
| AgentExec (id : string) (cmd : list string) (tty : bool)
| AgentPortForward (pod_ip : string) (ports : list Z).

Definition LogQueryParams_of (pairs : list (string * string)) : option LogQueryParams :=
  tail ← form_parsed query_i64 "tailLines" pairs;
  stamps ← form_parsed query_bool "timestamps" pairs;
  follow ← form_parsed query_bool "follow" pairs;
  since ← form_parsed query_i64 "sinceSeconds" pairs;
  limit ← form_parsed query_i64 "limitBytes" pairs;
  Some (mk_LogQueryParams tail (default false stamps) (default false follow) since limit).
(** [PortForwardQueryParams], with its one field. *)
Definition PortForwardQueryParams_of (pairs : list (string * string)) : option (option string) :=
  form_field "ports" pairs.

(** An empty query has no pairs. *)
Class UrlEmptyOk `{UrlEncoded} : Prop := urlencoded_empty : urlencoded_pairs "" = Some [].

Section serve.
Context {W : Type} `{Extern, !Unicode, !HashOrder, !UrlEncoded, !Axum, Machine W}.

Abbreviation Answer := (ST W Failure AgentReply).
Definition refused (r : Z * string) : Answer := mret (AgentText r.1 r.2).

(** [Path((a, b, c))]. *)
Definition agent_path (raw : list string) (k : string → string → string → Answer) : Answer :=
  match raw with
  | [a; b; c] =>
      match ax_path_param a, ax_path_param b, ax_path_param c with
      | Some a, Some b, Some c => k a b c
      | _, _, _ => refused (400, ax_path_error (String.concat "/" raw))
      end
  | _ => refused (500, "Wrong number of path arguments")
  end.
Definition agent_query {P} (read : list (string * string) → option P) (rq : HttpRequest)
    (k : P → Answer) : Answer :=
  let q := default "" (rq_query rq) in
  match urlencoded_pairs q ≫= read with
  | Some p => k p
  | None => refused (400, ax_query_error q)
  end.
Definition agent_upgrade (rq : HttpRequest) (k : Answer) : Answer :=
  match rq_upgrade rq with Ok _ => k | Err rejection => refused rejection end.

Definition logs_answer (r : LogReply) : AgentReply :=
  match r with
  | AgentHttp.Static status body => AgentText status body
  | Streaming ct cc stream => AgentStream ct cc stream
  end.
Definition agent_handler (s : AgentState W) (h : string) (raw : list string) (rq : HttpRequest) : Answer :=
  if str_eqb h "handle_logs" then
    agent_path raw (λ ns pod c, agent_query LogQueryParams_of rq (λ params,
      r ← handle_logs s ns pod c params; mret (logs_answer r)))
  else if str_eqb h "handle_exec" then
    agent_path raw (λ ns pod c, agent_upgrade rq
      match handle_exec s ns pod c (rq_query rq) with
      | inl refusal => refused refusal
      | inr (id, (cmd, tty)) => mret (AgentExec id cmd tty)
      end)
  else
    agent_path raw (λ ns pod pod_ip, agent_query PortForwardQueryParams_of rq (λ ports,
      agent_upgrade rq
        match handle_portforward pod_ip ports with
        | inl refusal => refused refusal
        | inr (pod_ip, ports) => mret (AgentPortForward pod_ip ports)
        end)).

Definition agent_serve (s : AgentState W) (rq : HttpRequest) : Answer :=
  match dispatch_in agent_routes (rq_method rq) (path_segments (rq_path rq)) with
  | Handled h raw => agent_handler s h raw rq
  | Refused status => refused (status, "")
  end.
End serve.

(** ** The call of the API server

    [reqwest] appends the pairs as a query, if there are any.  The agent of a
    node listens on its address; a panic of its handler ends the connection. *)
Section send.
Context {W : Type} `{Extern, !Unicode, !HashOrder, !UrlEncoded, !UrlEncode, !Axum, Machine W}.

Definition get_request (path : string) (pairs : list (string * string)) : result string HttpRequest :=
  query ← match pairs with
          | [] => Ok None
          | _ => match urlencoded_string pairs with Some q => Ok (Some q) | None => Err "builder error" end
          end;
  Ok (mk_HttpRequest GET path query (mk_HeaderMap ["*/*"] false) false (Ok "")
        (Err (400, "Connection header did not include 'upgrade'"))).

(** What the client reads of the reply; of a stream, the chunks that have come
    by then. *)
Definition agent_response (closed : bool) (polled : list Polled) (r : result Failure AgentReply)
    : result string Response :=
  match r with
  | Ok (AgentText status body) => Ok (mk_Response status (Ok body))
  | Ok (AgentStream _ _ stream) => Ok (mk_Response 200 (Ok (of_bytes (concat (stream closed polled)))))
  | Ok (AgentExec _ _ _ | AgentPortForward _ _) => Ok (mk_Response 101 (Ok ""))
  | Err _ => Err "connection closed before message completed"
  end.

Definition agent_send (addr : string) (s : AgentState W) (w : W) (closed : bool) (polled : list Polled)
    (url : string) (pairs : list (string * string)) : result string Response :=
  match strip_prefix ("http://" +:+ addr +:+ ":" +:+ pretty NODE_AGENT_PORT) url with
  | Some path =>
      rq ← get_request path pairs;
      agent_response closed polled (agent_serve s rq w).1
  | None => Err ("error sending request for url (" +:+ url +:+ ")")
  end.
End send.
