(* ===== verification/Startup.v ===== *)
(** * Start-up ([src/src/main.rs], [server/mod.rs], [db/mod.rs], [util.rs])

    The file of a SQLite database, the name of the host, and the node agents
    that the two commands start.  Parsing the command line, connecting to the
    database, running the migrations and spawning the tasks are the crates'. *)
From S2P Require Import Prelude RustStd Text Runtime Agent Files.

(** ** The database file ([db/mod.rs]) *)

Definition is_sqlite_url (url : string) : bool := starts_with "sqlite:" url.

(** [str::trim_start_matches] with a string that is not empty. *)
Fixpoint trim_start_matches_l (fuel : nat) (p l : list ascii) : list ascii :=
  match fuel with
  | O => l
  | S n => match strip_prefix_l p l with Some l' => trim_start_matches_l n p l' | None => l end
  end.
Definition trim_start_matches (p s : string) : string :=
  of_bytes (trim_start_matches_l (String.length s) (bytes p) (bytes s)).

Definition sqlite_path (url : string) : string :=
  let path := trim_start_matches "//" (trim_start_matches "sqlite:" url) in
  default path (head (split "?" path)).

Section startup.
Context {W : Type} `{Files W}.

Definition ensure_sqlite_file (url : string) : ST W string () :=
  let path := sqlite_path url in
  if str_eqb path "" || str_eqb path ":memory:" then mret ()
  else
    match parent path with
    | Some dir => if str_eqb dir "" then mret () else ignore (fs_create_dir_all dir)
    | None => mret ()
    end;;
    exists_ ← ask (λ w, fs_exists w path);
    if exists_ : bool then mret () else fs_write path [].

(** [create_pool] before it connects. *)
Definition prepare_database (database_url : string) : ST W string () :=
  if is_sqlite_url database_url then ensure_sqlite_file database_url else mret ().
End startup.

(** ** The host ([util.rs]) *)

Section host.
Context {W : Type} `{Commands W}.

(** The first label of what [hostname] prints, whatever its exit status. *)
Definition detect_hostname {E} : ST W E string :=
  r ← attempt (command_output "hostname" []);
  mret (match r with
        | Ok (_, out) =>
            let trimmed := trim (of_bytes out) in
            if utf8_valid out && negb (str_eqb trimmed "")
            then default trimmed (head (split "." trimmed)) else "localhost"
        | Err _ => "localhost"
        end).
End host.

(** ** The agents *)

(** The arguments of [node::run_full]. *)
Record AgentArgs : Type := mk_AgentArgs {
  aa_name : string;
  aa_server_url : string;
  aa_containerd_socket : string;
  aa_labels : gmap string string;
  aa_pod_cidr : string;
  aa_runtime_kind : string;
}.

Section agents.
Context {W : Type} `{Commands W}.

(** [superkube server]: the agent of its own host, a control-plane node. *)
Definition spawn_embedded_node {E} (port : u16) (pod_cidr containerd_socket runtime : string)
    : ST W E AgentArgs :=
  node_name ← detect_hostname;
  mret (mk_AgentArgs node_name ("http://127.0.0.1:" +:+ pretty (val port)) containerd_socket
          (<["kubernetes.io/hostname" := node_name]>
             {["node-role.kubernetes.io/control-plane" := ""]}) pod_cidr runtime).

(** [superkube node]. *)
Definition node_command {E} (name : option string) (server containerd_socket runtime : string)
    : ST W E AgentArgs :=
  name ← match name with Some n => mret n | None => detect_hostname end;
  mret (mk_AgentArgs name server containerd_socket ∅ "10.244.0.0/16" runtime).
End agents.

Section run.
Context {W : Type} `{External.Extern, !Unicode, !HashOrder, !Target}.
Context `{Machine W, Files W, HttpClient W, Commands W}.

Definition run_full (cs : Constructors W) (args : AgentArgs) (ticks : list Tick)
    : ST W Failure () := λ w,
  match new_with_runtime cs (aa_name args) (aa_server_url args) (aa_containerd_socket args)
          (aa_labels args) (aa_pod_cidr args) (aa_runtime_kind args) w with
  | (Ok s, w') => let '(r, (w'', _)) := run ticks (w', s) in (r, w'')
  | (Err f, w') => (Err f, w')
  end.
End run.

Example sqlite_paths :
  (sqlite_path "sqlite://./superkube.db", sqlite_path "sqlite:///var/kube.db?mode=rwc",
   sqlite_path "sqlite::memory:", sqlite_path "sqlite:////var/kube.db") =
  ("./superkube.db", "/var/kube.db", ":memory:", "var/kube.db").
Proof. reflexivity. Qed.
