(* ===== verification/Server.v ===== *)
(** * A server process ([src/src/server/mod.rs], [server/scheduler.rs], [main.rs])

    What [server::run] builds and starts, the rounds of its background tasks,
    the listener of its peers' changes, and the database as several server
    processes on it leave it, one activity at a time. *)
From S2P Require Import Prelude RustStd Text Json External Models Wire Error Bus World Repository.
From S2P Require Import Scheduler Lease Controller Replication Runtime Files Agent AgentHttp.
From S2P Require Import Printers Routes Relay Api Replies UrlForm Serve Startup.

Local Open Scope Z_scope.

(** ** The command line: the options [clap] found, and their defaults *)

Inductive Command : Type :=
| Commands_Server (db_url : string) (port : u16) (host pod_cidr service_cidr containerd_socket runtime : string)
| Commands_Node (name : option string) (server containerd_socket runtime : string).

Definition parse_port (s : string) : option u16 := parse_unsigned 65535 s ≫= checked.
Definition option_or (default : string) (key : string) (opts : gmap string string) : string :=
  match opts !! key with Some v => v | None => default end.
Definition default_socket : string := "/run/containerd/containerd.sock".
(** [database_url] is the variable [DATABASE_URL]. *)
Definition command_of (sub : string) (opts : gmap string string) (database_url : option string)
    : option Command :=
  if str_eqb sub "server" then
    port ← parse_port (option_or "6443" "port" opts);
    Some (Commands_Server (option_or (default "sqlite://./superkube.db" database_url) "db-url" opts) port
            (option_or "0.0.0.0" "host" opts)
            (option_or "10.244.0.0/16" "pod-cidr" opts)
            (option_or "10.96.0.0/12" "service-cidr" opts)
            (option_or default_socket "containerd-socket" opts)
            (option_or "auto" "runtime" opts))
  else if str_eqb sub "node" then
    server ← opts !! "server";
    Some (Commands_Node (opts !! "name") server (option_or default_socket "containerd-socket" opts)
            (option_or "auto" "runtime" opts))
  else None.

(** ** The database after its migrations: four namespaces *)

Definition seed_row (digit : string) : NamespaceRow :=
  mk_NamespaceRow (seed_uid digit) "{}" "{}" "{}" "Active" seed_time seed_time.
Definition seeds : gmap string NamespaceRow :=
  <["default" := seed_row "1"]> (<["kube-system" := seed_row "2"]>
    (<["kube-public" := seed_row "3"]> (<["kube-node-lease" := seed_row "4"]> ∅))).
Definition migrated_db : Db :=
  mk_Db ∅ ∅ ∅ ∅ ∅ seeds ∅ ∅ ∅ ∅ ∅ ∅ ∅ ∅ ∅ ∅ ∅ ∅.

(** ** The process *)

(** What [run] shares with its handlers and tasks: [AppState], the lease
    manager and the scheduler's strategy. *)
Record AppState : Type := mk_AppState {
  pc_service_cidr : string;
  pc_leases : LeaseManager;
  pc_strategy : ScoringStrategy;
}.
(** The tasks it spawns. *)
Inductive Task : Type :=
| ChangeLogListener
| ChangeLogPruner
| ControllerLoop
| SchedulerLoop
| EmbeddedNode (args : AgentArgs).

(** What may fail before the process serves: connecting, migrating, binding. *)
Class Hosting (W : Type) : Type := {
  pool_connect : string → ST W string ();
  pool_migrate : ST W string ();
  listener_bind : string → ST W string ();
}.
#[global] Hint Mode Hosting ! : typeclass_instances.

Section run.
Context {W : Type} `{Extern, Env, Files W, Commands W, Hosting W}.

Definition create_pool (database_url : string) : ST W string () :=
  prepare_database database_url;; pool_connect database_url.

Definition bus_for (backend : Backend) (holder : string) : Bus :=
  match backend with
  | Postgres => Bus_new_replicated (mk_Replicator holder DEFAULT_NOTIFY_CHANNEL)
  | Sqlite => Bus_new
  end.
Definition tasks_for (backend : Backend) (embedded : AgentArgs) : list Task :=
  match backend with Postgres => [ChangeLogListener; ChangeLogPruner] | Sqlite => [] end ++
  [ControllerLoop; SchedulerLoop; EmbeddedNode embedded].

(** Up to [axum::serve]: the process, its bus and the tasks that run beside
    it.  [holder] is the identifier [LeaseManager::new] draws; [scoring] the
    variable the scheduler reads. *)
Definition server_run (db_url host : string) (port : u16)
    (pod_cidr service_cidr containerd_socket runtime : string) (holder : Uuid)
    (scoring : option string) : ST W string (AppState * Bus * list Task) :=
  create_pool db_url;;
  pool_migrate;;
  let backend := Backend_from_url db_url in
  let leases := mk_LeaseManager (uuid_to_string holder) backend in
  listener_bind (host +:+ ":" +:+ pretty (val port));;
  embedded ← spawn_embedded_node port pod_cidr containerd_socket runtime;
  mret (mk_AppState service_cidr leases (from_env scoring), bus_for backend (lm_holder leases),
        tasks_for backend embedded).

(** [main]: what is left to run, a server with its tasks or an agent. *)
Definition main_command (c : Command) (holder : Uuid) (scoring : option string)
    : ST W string (AppState * Bus * list Task + AgentArgs) :=
  match c with
  | Commands_Server db_url port host pod_cidr service_cidr containerd_socket runtime =>
      started ← server_run db_url host port pod_cidr service_cidr containerd_socket runtime holder scoring;
      mret (inl started)
  | Commands_Node name server containerd_socket runtime =>
      args ← node_command name server containerd_socket runtime;
      mret (inr args)
  end.
End run.

(** ** The rounds of the tasks *)

Section activities.
Context `{Extern, Env, !HashOrder, !Unicode, !UrlEncoded, !UrlEncode, !Axum}.
Context (os arch : string) (agents : string → list (string * string) → result string Response).

(** One turn of [Scheduler::run]. *)
Definition scheduler_tick (pc : AppState) : M string () :=
  granted ← try_acquire (pc_leases pc) "scheduler" SCHEDULER_LEASE_TTL;
  if (granted : bool) then attempt (schedule_pending_pods (pc_strategy pc));; mret () else mret ().

(** One connection of the listener: where it fails, or the payloads it gets
    before it is cut. *)
Inductive Session : Type :=
| NoConnection
| NoListener
| NoListen
| Listening (payloads : list string).
(** A session, and the seconds the loop sleeps after it. *)
Definition listen (pc : AppState) (s : Session) : M string Z :=
  match s with
  | NoConnection | NoListener | NoListen => mret 5
  | Listening payloads =>
      for_each payloads (handle_notification (lm_holder (pc_leases pc)));; mret 0
  end.

(** What a process does, by itself or when it is asked. *)
Inductive Activity : Type :=
| Answer (rq : HttpRequest)
| ControllerTick
| SchedulerTick
| Replicate (t : ReplicateTask)
| Listen (s : Session)
| Prune.
Definition perform (pc : AppState) (a : Activity) : Notifying () :=
  match a with
  | Answer rq => on_world (serve (pc_service_cidr pc) os arch agents rq);; mret ()
  | ControllerTick => on_world (controller_tick (pc_leases pc))
  | SchedulerTick => on_world (scheduler_tick pc)
  | Replicate t => replicate t
  | Listen s => on_world (listen pc s);; mret ()
  | Prune => on_world pruner_tick
  end.

(** The database under any number of processes: each step is an activity of
    one of them, from whatever its bus holds and its counters have reached, so
    with any readings, identifiers and failures of statements. *)
Inductive database_step : Db → Db → Prop :=
| process_acts d pc a bus clock uuids stmts notes r w' notes' :
    perform pc a (mk_World d bus clock uuids stmts, notes) = (r, (w', notes')) →
    database_step d (w_db w').
Definition database_reaches : Db → Db → Prop := rtc database_step.
End activities.

Example server_defaults :
  command_of "server" ∅ None =
    Some (Commands_Server "sqlite://./superkube.db" (default (@Bnd 0 65536 0 eq_refl) (checked 6443)) "0.0.0.0"
            "10.244.0.0/16" "10.96.0.0/12" default_socket "auto").
Proof. vm_compute. reflexivity. Qed.
Example node_needs_a_server :
  (command_of "node" ∅ None, command_of "node" {["server" := "http://10.0.0.1:6443"]} None) =
    (None, Some (Commands_Node None "http://10.0.0.1:6443" default_socket "auto")).
Proof. vm_compute. reflexivity. Qed.
