(* ===== verification/NodeFrame.v ===== *)
(** * Who writes the table of nodes

    The controllers and the scheduler never do: a node keeps the status of its
    last heartbeat until the API is asked to change it. *)
From S2P Require Import Prelude RustStd Text Json External Models Wire Error Bus World Repository RepositoryOk.
From S2P Require Import Frame Serve Server Recorder Scheduler Lease Controller.

Section frame.
Context `{Extern, Env}.

(** The table of nodes, as an observation of the world. *)
Abbreviation nodes_seen := (seen (λ d (_ : Bus), db_nodes d)).

Lemma preserves_for_each {S E G A} (g : S → G) (xs : list A) (body : A → ST S E ()) :
  (∀ x, preserves g (body x)) → preserves g (for_each xs body).
Proof.
  intros Hb. induction xs as [|x xs IH]; [apply preserves_ret|]. by apply preserves_bind.
Qed.
Lemma preserves_for_break {S E G A B} (g : S → G) (xs : list A) (acc : B) (body : B → A → ST S E (B + B)) :
  (∀ acc x, preserves g (body acc x)) → preserves g (for_break xs acc body).
Proof.
  intros Hb. revert acc. induction xs as [|x xs IH]; intros acc; [apply preserves_ret|].
  cbn [for_break]. apply preserves_bind; [apply Hb|]. intros [acc'|acc']; [apply IH|apply preserves_ret].
Qed.
Lemma preserves_on_bus_nodes {E} f : preserves (E:=E) nodes_seen (on_bus f).
Proof. done. Qed.
Lemma emit_event_nodes {E} involved ns typ reason message component :
  preserves (E:=E) nodes_seen (Recorder.emit_event involved ns typ reason message component).
Proof. by apply emit_event_frame. Qed.
#[local] Hint Resolve preserves_on_bus_nodes emit_event_nodes : frame.

Ltac still :=
  repeat first
    [ progress cbn zeta
    | lazymatch goal with
      | |- preserves _ (for_each _ _) => apply preserves_for_each; intros ?
      | |- preserves _ (for_break _ _ _) => apply preserves_for_break; intros ? ?
      end
    | frame_step ].

Lemma still_pod_list ns sel : preserves nodes_seen (PodRepository_list ns sel).
Proof. unfold PodRepository_list, row_to_pod. still. Qed.
Lemma still_pod_get ns name : preserves nodes_seen (PodRepository_get ns name).
Proof. unfold PodRepository_get, row_to_pod. still. Qed.
Lemma still_pod_delete ns name : preserves nodes_seen (PodRepository_delete ns name).
Proof. unfold PodRepository_delete. still. Qed.
Lemma still_pod_status ns name st : preserves nodes_seen (PodRepository_update_status ns name st).
Proof. unfold PodRepository_update_status. still. Qed.
Lemma still_pod_bind ns name node : preserves nodes_seen (PodRepository_bind_to_node ns name node).
Proof. unfold PodRepository_bind_to_node. still. Qed.
#[local] Hint Resolve still_pod_list still_pod_get still_pod_delete still_pod_status still_pod_bind : frame.
Lemma still_pod_create pod : preserves nodes_seen (PodRepository_create pod).
Proof. unfold PodRepository_create. still. Qed.
Lemma still_list_ready : preserves nodes_seen NodeRepository_list_ready.
Proof. unfold NodeRepository_list_ready, row_to_node. still. Qed.
#[local] Hint Resolve still_pod_create still_list_ready : frame.

Lemma still_create_pod d : preserves nodes_seen (create_pod_for_deployment d).
Proof. unfold create_pod_for_deployment, any. still. Qed.
Lemma still_delete_owned ns pod : preserves nodes_seen (delete_owned ns pod).
Proof. unfold delete_owned. still. Qed.
#[local] Hint Resolve still_create_pod still_delete_owned : frame.
Lemma still_deployments : preserves nodes_seen reconcile_deployments.
Proof.
  unfold reconcile_deployments, reconcile_each, any, DeploymentRepository_list, row_to_deployment.
  still. unfold reconcile_deployment, any, DeploymentRepository_update_status. still.
Qed.
Lemma still_statefulsets : preserves nodes_seen reconcile_statefulsets.
Proof.
  unfold reconcile_statefulsets, reconcile_each, any, StatefulSetRepository_list, row_to_statefulset.
  still. unfold reconcile_statefulset, statefulset_trim, any, StatefulSetRepository_update_status. still.
  unfold statefulset_index. still.
Qed.
Lemma still_daemonsets : preserves nodes_seen reconcile_daemonsets.
Proof.
  unfold reconcile_daemonsets, reconcile_each, any, DaemonSetRepository_list, row_to_daemonset.
  still; unfold reconcile_daemonset, daemonset_cover, daemonset_evict, any, DaemonSetRepository_update_status;
    still.
Qed.
Lemma still_pods : preserves nodes_seen Controller.reconcile_pods.
Proof.
  unfold Controller.reconcile_pods, any. still.
  unfold Controller.reconcile_pod, mark_node_lost, respin. still.
Qed.
Lemma still_services : preserves nodes_seen reconcile_services.
Proof.
  unfold reconcile_services, reconcile_each, any, ServiceRepository_list, row_to_service. still.
  unfold reconcile_service, any, EndpointsRepository_create_or_update, EndpointsRepository_get. still.
Qed.

Lemma still_try_acquire {E} lm name ttl : preserves (E:=E) nodes_seen (try_acquire lm name ttl).
Proof.
  unfold try_acquire. destruct (lm_backend lm); [apply preserves_ret|].
  apply preserves_bind; [apply preserves_now|intros t]. apply preserves_bind; [|intros []; apply preserves_ret].
  apply preserves_attempt. intros w. unfold seen, run_stmt.
  destruct (env_fault (w_stmts w)) as [[msg|msg]|]; cbn; [done|..];
    unfold acquire_stmt; destruct (db_leases (w_db w) !! name) as [row|]; cbn; try done;
    by destruct (lease_free _ _ _).
Qed.
#[local] Hint Resolve still_try_acquire : frame.
Lemma still_controller_tick lm : preserves nodes_seen (controller_tick lm).
Proof.
  pose proof still_deployments. pose proof still_statefulsets. pose proof still_daemonsets.
  pose proof still_pods. pose proof still_services. unfold controller_tick, under_lease. still.
Qed.
Lemma still_schedule_all strategy nodes existing pods :
  preserves nodes_seen (schedule_all strategy nodes existing pods).
Proof.
  revert existing. induction pods as [|pod pods IH]; intros existing; [apply preserves_ret|].
  cbn [schedule_all]. unfold schedule_pod. still; apply IH.
Qed.
#[local] Hint Resolve still_schedule_all : frame.
Lemma still_scheduler_tick pc : preserves nodes_seen (scheduler_tick pc).
Proof. unfold scheduler_tick, schedule_pending_pods, PodRepository_list_unscheduled, row_to_pod. still. Qed.

(** C10. A node that stops reporting stays Ready: no tick of the controllers or of
    the scheduler, whatever fails in it, changes the table of nodes, so the
    nodes the scheduler places pods on and the pod controller counts as alive
    are the same after any number of them. *)
Theorem silent_nodes_stay_ready lm pc w :
  ready_names (w_db (controller_tick lm w).2) = ready_names (w_db w) ∧
  ready_names (w_db (scheduler_tick pc w).2) = ready_names (w_db w).
Proof.
  pose proof (still_controller_tick lm w) as Hc. pose proof (still_scheduler_tick pc w) as Hs.
  unfold seen in *. unfold ready_names. by rewrite Hc, Hs.
Qed.
End frame.
