(* ===== verification/Reachable.v ===== *)
(** * The database of a running cluster

    Every handler of the API, every controller, the scheduler and the tasks of
    replication keep the invariant of Invariant.v, so it holds of the database
    whatever the servers on it have done. *)
From S2P Require Import Prelude RustStd Text Json External Models Wire Error Bus World Repository RepositoryOk.
From S2P Require Import Runtime Files Agent AgentHttp Printers Routes Relay Api Replies UrlForm Serve Startup Server.
From S2P Require Import Recorder Invariant Scheduler Lease Controller Replication.

(** ** The stores *)

Class RepoKept (K T : Type) `{Extern, Env, Repo K T} : Prop := {
  kept_repo_get k : keeps guards (repo_get T k);
  kept_repo_create (x : T) : keeps guards (repo_create x);
  kept_repo_delete k : keeps guards (repo_delete T k);
  kept_repo_list ns : keeps guards (repo_list T ns);
}.
#[export] Hint Extern 1 (keeps guards _) =>
  first [apply kept_repo_get | apply kept_repo_create | apply kept_repo_delete | apply kept_repo_list]
  : keeps.

Section stores.
Context `{ExternOk, Env}.
Ltac store := split; intros; cbn; auto with keeps.
#[export] Instance pod_kept : RepoKept Key Pod.
Proof. store. Qed.
#[export] Instance deployment_kept : RepoKept Key Deployment.
Proof. store. Qed.
#[export] Instance service_kept : RepoKept Key Service.
Proof. store. Qed.
#[export] Instance node_kept : RepoKept string Node.
Proof. store. Qed.
#[export] Instance statefulset_kept : RepoKept Key StatefulSet.
Proof. store. Qed.
#[export] Instance daemonset_kept : RepoKept Key DaemonSet.
Proof. store. Qed.
#[export] Instance serviceaccount_kept : RepoKept Key ServiceAccount.
Proof. store. Qed.
#[export] Instance secret_kept : RepoKept Key Secret.
Proof. store. Qed.
#[export] Instance configmap_kept : RepoKept Key ConfigMap.
Proof. store. Qed.
#[export] Instance clusterrole_kept : RepoKept string ClusterRole.
Proof. store. Qed.
#[export] Instance clusterrolebinding_kept : RepoKept string ClusterRoleBinding.
Proof. store. Qed.
#[export] Instance role_kept : RepoKept Key Role.
Proof. store. Qed.
#[export] Instance rolebinding_kept : RepoKept Key RoleBinding.
Proof. store. Qed.
End stores.

(** ** The handlers of a kind *)

Section kinds.
Context `{ExternOk, Env} {T : Type} `{!Resource T, !Json T}.

Section namespaced.
Context `{!Repo Key T, !RepoKept Key T}.
Lemma kept_list_namespaced ns h : keeps guards (list_namespaced T ns h).
Proof. unfold list_namespaced. kept. Qed.
Lemma kept_get_namespaced ns name h : keeps guards (get_namespaced T ns name h).
Proof. unfold get_namespaced. kept. Qed.
Lemma kept_create_namespaced ns (x : T) : keeps guards (create_namespaced T ns x).
Proof. unfold create_namespaced. cbn zeta. kept. Qed.
Lemma kept_update_namespaced ns name (x : T) : keeps guards (update_namespaced T ns name x).
Proof. unfold update_namespaced. cbn zeta. kept. Qed.
Lemma kept_delete_namespaced ns name : keeps guards (delete_namespaced T ns name).
Proof. unfold delete_namespaced. kept. Qed.
End namespaced.

Section cluster.
Context `{!Repo string T, !RepoKept string T}.
Lemma kept_list_cluster h : keeps guards (list_cluster T h).
Proof. unfold list_cluster. kept. Qed.
Lemma kept_get_cluster name h : keeps guards (get_cluster T name h).
Proof. unfold get_cluster. kept. Qed.
Lemma kept_create_cluster (x : T) : keeps guards (create_cluster T x).
Proof. unfold create_cluster. cbn zeta. kept. Qed.
Lemma kept_update_cluster name (x : T) : keeps guards (update_cluster T name x).
Proof. unfold update_cluster. cbn zeta. kept. Qed.
Lemma kept_delete_cluster name : keeps guards (delete_cluster T name).
Proof. unfold delete_cluster. kept. Qed.
End cluster.
End kinds.
#[export] Hint Extern 1 (keeps guards _) =>
  first [ apply kept_list_namespaced | apply kept_get_namespaced | apply kept_create_namespaced
        | apply kept_update_namespaced | apply kept_delete_namespaced | apply kept_list_cluster
        | apply kept_get_cluster | apply kept_create_cluster | apply kept_update_cluster
        | apply kept_delete_cluster ] : keeps.

(** ** The other handlers *)

Section handlers.
Context `{ExternOk, Env}.

Ltac api := intros; cbn zeta beta; kept.

Lemma kept_list_pods ns sel h : keeps guards (list_pods ns sel h).
Proof. unfold list_pods. api. Qed.
Lemma kept_list_all_pods sel h : keeps guards (list_all_pods sel h).
Proof. unfold list_all_pods. api. Qed.
Lemma kept_get_pod_status ns name : keeps guards (get_pod_status ns name).
Proof. unfold get_pod_status. api. Qed.
Lemma kept_update_pod_status ns name pod : keeps guards (update_pod_status ns name pod).
Proof. unfold update_pod_status. api. Qed.
Lemma kept_create_service cidr ns x : keeps guards (create_service cidr ns x).
Proof. unfold create_service. api. Qed.
Lemma kept_list_endpoints ns : keeps guards (list_endpoints ns).
Proof. unfold list_endpoints. api. Qed.
Lemma kept_get_endpoints ns name : keeps guards (get_endpoints ns name).
Proof. unfold get_endpoints. api. Qed.
Lemma kept_list_namespaces h : keeps guards (list_namespaces h).
Proof. unfold list_namespaces. api. Qed.
Lemma kept_get_namespace name h : keeps guards (get_namespace name h).
Proof. unfold get_namespace. api. Qed.
Lemma kept_create_namespace x : keeps guards (create_namespace x).
Proof. unfold create_namespace. api. Qed.
Lemma kept_update_namespace name x : keeps guards (update_namespace name x).
Proof. unfold update_namespace. api. Qed.
Lemma kept_delete_namespace name : keeps guards (delete_namespace name).
Proof. unfold delete_namespace. api. Qed.
Lemma kept_list_events ns sel h : keeps guards (list_events ns sel h).
Proof. unfold list_events. api. Qed.
Lemma kept_list_all_events sel h : keeps guards (list_all_events sel h).
Proof. unfold list_all_events. api. Qed.
Lemma kept_get_event ns name h : keeps guards (get_event ns name h).
Proof. unfold get_event. api. Qed.
Lemma kept_create_event ns x : keeps guards (create_event ns x).
Proof. unfold create_event. api. Qed.
Lemma kept_delete_event ns name : keeps guards (delete_event ns name).
Proof. unfold delete_event. api. Qed.
Lemma kept_cascade_set ns sel : keeps guards (cascade_set ns sel).
Proof. unfold cascade_set, cascade_set_pod. api. Qed.
#[local] Hint Resolve kept_cascade_set : keeps.
Lemma kept_delete_deployment ns name : keeps guards (delete_deployment ns name).
Proof. unfold delete_deployment, cascade_deployment_pod. api. Qed.
Lemma kept_delete_statefulset ns name : keeps guards (delete_statefulset ns name).
Proof. unfold delete_statefulset. api. Qed.
Lemma kept_delete_daemonset ns name : keeps guards (delete_daemonset ns name).
Proof. unfold delete_daemonset. api. Qed.

Lemma kept_build_table {T} `{Json T} columns (items : list T) row {E} :
  keeps guards (build_table columns items row (E:=E)).
Proof. unfold build_table. api. Qed.
#[local] Hint Resolve kept_build_table : keeps.
Lemma kept_reply_body {T} `{Json T} columns row (r : Reply T) {E} :
  keeps guards (reply_body columns row r (E:=E)).
Proof. unfold reply_body. api. Qed.
End handlers.
#[export] Hint Resolve kept_list_pods kept_list_all_pods kept_get_pod_status kept_update_pod_status
  kept_create_service kept_list_endpoints kept_get_endpoints kept_list_namespaces
  kept_get_namespace kept_create_namespace kept_update_namespace kept_delete_namespace
  kept_list_events kept_list_all_events kept_get_event kept_create_event kept_delete_event
  kept_delete_deployment kept_delete_statefulset kept_delete_daemonset kept_reply_body : keeps.

(** ** The router *)

Section router.
Context `{ExternOk, Env, !HashOrder, !Unicode, !UrlEncoded, !UrlEncode, !Axum}.
Context (service_cidr os arch : string).
Context (agents : string → list (string * string) → result string Response).

Lemma kept_node_of_pod {E} pod name : keeps guards (node_of_pod pod name : M E _).
Proof. unfold node_of_pod. kept. Qed.
#[local] Hint Resolve kept_node_of_pod : keeps.
Lemma kept_get_pod_logs ns name params : keeps guards (get_pod_logs ns name params agents).
Proof. unfold get_pod_logs. kept. Qed.
Lemma kept_exec_pod {E} ns name q : keeps guards (exec_pod ns name q : M E _).
Proof. unfold exec_pod. cbn zeta. kept. Qed.
Lemma kept_port_forward_pod {E} ns name ports : keeps guards (port_forward_pod ns name ports : M E _).
Proof. unfold port_forward_pod. kept. Qed.
#[local] Hint Resolve kept_get_pod_logs kept_exec_pod kept_port_forward_pod : keeps.

Definition handler_kept (h : Handler) : Prop := ∀ params rq, keeps guards (call h params rq).

Lemma kept_with_param raw k : (∀ p, keeps guards (k p)) → keeps guards (with_param raw k).
Proof. intros Hk. unfold with_param. destruct (ax_path_param raw); [apply Hk|apply keeps_ret]. Qed.

Ltac handler :=
  intros params rq;
  cbv [document list_of list_all_of get_of create_of update_of get_cluster_of create_cluster_of
       update_cluster_of delete_of delete_cluster_of];
  unfold call; destruct params as [|a [|b [|? ?]]];
  try apply keeps_ret; repeat (apply kept_with_param; intros ?);
  unfold with_query, with_json, with_upgrade, as_view, as_json, as_created, as_value, as_logs,
    as_socket, as_body,
    get_pod, create_pod, update_pod, delete_pod, list_services, list_all_services, get_service,
    update_service, delete_service, list_nodes, get_node, create_node, update_node, delete_node,
    list_deployments, list_all_deployments, get_deployment, create_deployment, update_deployment,
    list_statefulsets, list_all_statefulsets, get_statefulset, create_statefulset,
    update_statefulset, list_daemonsets, list_all_daemonsets, get_daemonset, create_daemonset,
    update_daemonset, list_service_accounts, list_all_service_accounts, get_service_account,
    create_service_account, update_service_account, delete_service_account, list_secrets,
    list_all_secrets, get_secret, create_secret, update_secret, delete_secret, list_config_maps,
    list_all_config_maps, get_config_map, create_config_map, update_config_map, delete_config_map,
    list_roles, list_all_roles, get_role, create_role, update_role, delete_role,
    list_role_bindings, list_all_role_bindings, get_role_binding, create_role_binding,
    update_role_binding, delete_role_binding, list_cluster_roles, get_cluster_role,
    create_cluster_role, update_cluster_role, delete_cluster_role, list_cluster_role_bindings,
    get_cluster_role_binding, create_cluster_role_binding, update_cluster_role_binding,
    delete_cluster_role_binding, list_replication_controllers, list_all_replication_controllers,
    list_replica_sets, list_all_replica_sets, empty_rc_response, empty_rs_response;
  kept.
Ltac group := repeat (apply Forall_cons; split; [cbn [snd]; handler|]); apply Forall_nil_2.

Abbreviation kept_all l := (Forall (λ hf : string * Handler, handler_kept hf.2) l).
Lemma kept_discovery : kept_all (discovery_handlers os arch).
Proof. unfold discovery_handlers. group. Qed.
Lemma kept_pods : kept_all (pod_handlers agents).
Proof. unfold pod_handlers. group. Qed.
Lemma kept_core : kept_all (core_handlers service_cidr).
Proof. unfold core_handlers. group. Qed.
Lemma kept_apps : kept_all apps_handlers.
Proof. unfold apps_handlers. group. Qed.
Lemma kept_config : kept_all config_handlers.
Proof. unfold config_handlers. group. Qed.
Lemma kept_rbac : kept_all rbac_handlers.
Proof. unfold rbac_handlers. group. Qed.
Lemma kept_stubs : kept_all stub_handlers.
Proof. unfold stub_handlers. group. Qed.

Lemma kept_handlers : kept_all (handlers service_cidr os arch agents).
Proof.
  unfold handlers. repeat apply Forall_app_2;
    auto using kept_discovery, kept_pods, kept_core, kept_apps, kept_config, kept_rbac, kept_stubs.
Qed.

Lemma kept_serve {E} rq : keeps guards (serve service_cidr os arch agents rq : M E HttpReply).
Proof.
  unfold serve. apply keeps_bind; [apply keeps_attempt|intros [reply|e]; apply keeps_ret].
  unfold route_request. destruct (dispatch _ _) as [h params|status]; [|apply keeps_ret].
  unfold handler_named. destruct (head _) as [[h' f]|] eqn:Hh; [|apply keeps_ret]. cbn.
  assert ((h', f) ∈ handlers service_cidr os arch agents) as Hin.
  { rewrite head_lookup in Hh. apply list_elem_of_lookup_2 in Hh. apply list_elem_of_filter in Hh as [_ Hh].
    exact Hh. }
  pose proof kept_handlers as Hall. rewrite Forall_forall in Hall. apply (Hall _ Hin).
Qed.
End router.

(** ** The controllers, the scheduler and the tasks *)

Section tasks.
Context `{ExternOk, Env}.

Lemma keeps_for_break {S E A B} (I : S → Prop) (xs : list A) (acc : B) (body : B → A → ST S E (B + B)) :
  (∀ acc x, keeps I (body acc x)) → keeps I (for_break xs acc body).
Proof.
  intros Hb. revert acc. induction xs as [|x xs IH]; intros acc; [apply keeps_ret|].
  cbn [for_break]. apply keeps_bind; [apply Hb|]. intros [acc'|acc']; [apply IH|apply keeps_ret].
Qed.

Lemma kept_emit_event {E} involved ns typ reason message component :
  keeps guards (emit_event (E:=E) involved ns typ reason message component).
Proof. unfold emit_event. kept. Qed.
#[local] Hint Resolve kept_emit_event : keeps.

Lemma kept_create_pod_for_deployment d : keeps guards (create_pod_for_deployment d).
Proof. unfold create_pod_for_deployment, any. cbn zeta. kept. Qed.
Lemma kept_delete_owned ns pod : keeps guards (delete_owned ns pod).
Proof. unfold delete_owned. kept. Qed.
#[local] Hint Resolve kept_create_pod_for_deployment kept_delete_owned : keeps.
Lemma kept_reconcile_deployment d : keeps guards (reconcile_deployment d).
Proof. unfold reconcile_deployment, any. cbn zeta. kept. Qed.
#[local] Hint Resolve kept_reconcile_deployment : keeps.
Lemma kept_reconcile_deployments : keeps guards reconcile_deployments.
Proof. unfold reconcile_deployments, reconcile_each, any. kept. Qed.

Lemma kept_statefulset_index ss uid acc i : keeps guards (statefulset_index ss uid acc i).
Proof. unfold statefulset_index. cbn zeta. kept. Qed.
Lemma kept_statefulset_trim ss i : keeps guards (statefulset_trim ss i).
Proof. unfold statefulset_trim. kept. Qed.
#[local] Hint Resolve kept_statefulset_index kept_statefulset_trim : keeps.
Lemma kept_reconcile_statefulset ss : keeps guards (reconcile_statefulset ss).
Proof.
  unfold reconcile_statefulset, any. cbn zeta.
  apply keeps_bind; [kept|intros uid]. apply keeps_bind; [apply keeps_for_break; kept|].
  kept.
Qed.
#[local] Hint Resolve kept_reconcile_statefulset : keeps.
Lemma kept_reconcile_statefulsets : keeps guards reconcile_statefulsets.
Proof. unfold reconcile_statefulsets, reconcile_each, any. kept. Qed.

Lemma kept_daemonset_cover ds uid covered n : keeps guards (daemonset_cover ds uid covered n).
Proof. unfold daemonset_cover. cbn zeta. kept. Qed.
Lemma kept_daemonset_evict ns targets pod : keeps guards (daemonset_evict ns targets pod).
Proof. unfold daemonset_evict. kept. Qed.
#[local] Hint Resolve kept_daemonset_cover kept_daemonset_evict : keeps.
Lemma kept_reconcile_daemonset ds nodes : keeps guards (reconcile_daemonset ds nodes).
Proof. unfold reconcile_daemonset, any. cbn zeta. kept. Qed.
#[local] Hint Resolve kept_reconcile_daemonset : keeps.
Lemma kept_reconcile_daemonsets : keeps guards reconcile_daemonsets.
Proof. unfold reconcile_daemonsets, reconcile_each, any. kept. Qed.

Lemma kept_mark_node_lost pod node_name : keeps guards (mark_node_lost pod node_name).
Proof. unfold mark_node_lost. cbn zeta. kept. Qed.
Lemma kept_respin pod : keeps guards (respin pod).
Proof. unfold respin. kept. Qed.
#[local] Hint Resolve kept_mark_node_lost kept_respin : keeps.
Lemma kept_reconcile_pod ready pod : keeps guards (reconcile_pod ready pod).
Proof. unfold reconcile_pod. cbn zeta. kept. Qed.
#[local] Hint Resolve kept_reconcile_pod : keeps.
Lemma kept_reconcile_pods : keeps guards reconcile_pods.
Proof. unfold reconcile_pods, any. kept. Qed.
Lemma kept_reconcile_service x : keeps guards (reconcile_service x).
Proof. unfold reconcile_service, any. kept. Qed.
#[local] Hint Resolve kept_reconcile_service : keeps.
Lemma kept_reconcile_services : keeps guards reconcile_services.
Proof. unfold reconcile_services, reconcile_each, any. kept. Qed.

(** The tables of leases and of changes are not under the invariant. *)
Lemma db_inv_leases t d : db_inv d → db_inv (set_leases t d).
Proof. intros []. by constructor. Qed.
Lemma db_inv_change_log t d : db_inv d → db_inv (set_change_log t d).
Proof. intros []. by constructor. Qed.

Lemma kept_try_acquire {E} lm name ttl : keeps (E:=E) guards (try_acquire lm name ttl).
Proof.
  unfold try_acquire. destruct (lm_backend lm); [apply keeps_ret|].
  apply keeps_bind; [kept|intros t]. apply keeps_bind; [|intros [n|e]; apply keeps_ret].
  apply keeps_attempt, kept_stmt. intros n d a d' Hd. unfold acquire_stmt.
  destruct (db_leases d !! name) as [row|]; [destruct (lease_free _ _ _)|]; intros [= _ <-];
    auto using db_inv_leases.
Qed.
#[local] Hint Resolve kept_try_acquire : keeps.
Lemma kept_under_lease lm name pass : keeps guards pass → keeps guards (under_lease lm name pass).
Proof. intros Hpass. unfold under_lease. kept. Qed.
Lemma kept_controller_tick lm : keeps guards (controller_tick lm).
Proof.
  unfold controller_tick. repeat (apply keeps_bind; [|intros _]); apply kept_under_lease;
    auto using kept_reconcile_deployments, kept_reconcile_statefulsets, kept_reconcile_daemonsets,
      kept_reconcile_pods, kept_reconcile_services.
Qed.

Lemma kept_schedule_pod strategy pod nodes existing :
  keeps guards (schedule_pod strategy pod nodes existing).
Proof. unfold schedule_pod. cbn zeta. kept. Qed.
#[local] Hint Resolve kept_schedule_pod : keeps.
Lemma kept_schedule_all strategy nodes existing pods :
  keeps guards (schedule_all strategy nodes existing pods).
Proof.
  revert existing. induction pods as [|pod pods IH]; intros existing; [apply keeps_ret|].
  cbn [schedule_all]. kept; apply IH.
Qed.
#[local] Hint Resolve kept_schedule_all : keeps.
Lemma kept_scheduler_tick pc : keeps guards (scheduler_tick pc).
Proof. unfold scheduler_tick, schedule_pending_pods. kept. Qed.

Lemma kept_change_log_insert id kind ns name typ object :
  keeps guards (change_log_insert id kind ns name typ object).
Proof.
  unfold change_log_insert. apply keeps_bind; [kept|intros u]. apply kept_now_str. intros t.
  apply keeps_bind; [|intros _; apply keeps_ret]. apply kept_stmt.
  intros n d a d' Hd. unfold insert_change. destruct (db_change_log d !! _); [done|].
  intros [= _ <-]. by apply db_inv_change_log.
Qed.
Lemma kept_handle_notification id payload : keeps guards (handle_notification id payload).
Proof.
  unfold handle_notification, change_log_fetch. apply keeps_bind.
  - apply keeps_attempt, kept_stmt. by intros n d a d' Hd [= <- <-].
  - intros [[row|]|e]; kept.
Qed.
#[local] Hint Resolve kept_handle_notification : keeps.
Lemma kept_listen pc s : keeps guards (listen pc s).
Proof. unfold listen. kept. Qed.
Lemma kept_pruner_tick : keeps guards pruner_tick.
Proof.
  unfold pruner_tick, prune_older_than. apply keeps_bind; [|kept]. apply keeps_attempt, keeps_bind; [kept|].
  intros t. apply kept_stmt. intros n d a d' Hd [= _ <-]. by apply db_inv_change_log.
Qed.

(** With the notifications beside the world. *)
Definition guards_notes (wn : World * list (string * string)) : Prop := guards wn.1.
Lemma kept_on_world {A} (m : M string A) : keeps guards m → keeps guards_notes (on_world m).
Proof.
  intros Hm [w notes] Hw. specialize (Hm w Hw). unfold on_world. by destruct (m w).
Qed.
Lemma kept_replicate t : keeps guards_notes (replicate t).
Proof.
  unfold replicate. apply keeps_bind; [by apply kept_on_world, kept_change_log_insert|].
  intros id [w notes] Hw. unfold pg_notify. by destruct (env_fault (w_stmts w)) as [[]|].
Qed.
End tasks.

(** ** Every reachable database *)

Section reachable.
Context `{ExternOk, !SeedsOk, Env, !HashOrder, !Unicode, !UrlEncoded, !UrlEncode, !Axum}.
Context (os arch : string) (agents : string → list (string * string) → result string Response).

Lemma kept_perform pc a : keeps guards_notes (perform os arch agents pc a).
Proof.
  destruct a; cbn [perform].
  - apply keeps_bind; [by apply kept_on_world, kept_serve|intros _; apply keeps_ret].
  - apply kept_on_world, kept_controller_tick.
  - apply kept_on_world, kept_scheduler_tick.
  - apply kept_replicate.
  - apply keeps_bind; [by apply kept_on_world, kept_listen|intros _; apply keeps_ret].
  - apply kept_on_world, kept_pruner_tick.
Qed.

Lemma table_inv_empty {K R : Type} `{Countable K} (tb : table K R) good : table_inv tb good ∅.
Proof. split; [apply map_Forall_empty|]. intros k1 k2 r1 r2 Hk. by rewrite lookup_empty in Hk. Qed.

Lemma seed_good d : d ∈ ["1"; "2"; "3"; "4"] → row_good namespaces_table (seed_row d).
Proof. intros Hd. split; [apply seed_time_parses|by apply seed_uid_parses]. Qed.

Lemma migrated_inv : db_inv migrated_db.
Proof.
  constructor; try apply table_inv_empty. cbn [db_namespaces migrated_db]. unfold seeds.
  repeat (apply table_inv_insert;
    [|apply seed_good; by apply (bool_decide_unpack _)|
     intros k r Hk; repeat (apply lookup_insert_Some in Hk as [[<- <-]|[_ Hk]]; [done|]);
       by rewrite lookup_empty in Hk]).
  apply table_inv_empty.
Qed.

(** Every kind's rows are readable. *)
Lemma inv_stores d :
  db_inv d →
  repo_wf Pod d ∧ repo_wf Deployment d ∧ repo_wf Service d ∧ repo_wf Node d ∧
  repo_wf StatefulSet d ∧ repo_wf DaemonSet d ∧ repo_wf ServiceAccount d ∧ repo_wf Secret d ∧
  repo_wf ConfigMap d ∧ repo_wf ClusterRole d ∧ repo_wf ClusterRoleBinding d ∧ repo_wf Role d ∧
  repo_wf RoleBinding d.
Proof.
  intros Hd.
  assert (∀ (K R : Type) `{Countable K} (tb : table K R) good (good' : R → Prop),
    Guarded tb good → (∀ r, good r → good' r) → map_Forall (λ _, good') (tb_get tb d)) as Hwf.
  { intros K R ?? tb good good' Hg Himp k r Hk. by apply Himp, (proj1 (guarded_get d Hd) k). }
  split_and!; (eapply Hwf; [apply _|]);
    intros r Hr; unfold node_stamped, node_good, row_good in *; cbn in *; tauto.
Qed.

(** C5. The database of a running cluster stays sound: from the migrated
    database, through any number of activities of any server processes
    (requests of any content, controllers, scheduler, replication, listener,
    pruner), with any identifiers and readings of the clock and with any
    statement failing before or after it took effect, every row of every table
    has a creation time and an identifier that parse, and no two objects of a
    table share an identifier; so every object can be read back, and the
    stores of all kinds are well-formed. *)
Theorem reachable_database_is_sound d :
  database_reaches os arch agents migrated_db d →
  db_inv d ∧
  repo_wf Pod d ∧ repo_wf Deployment d ∧ repo_wf Service d ∧ repo_wf Node d ∧
  repo_wf StatefulSet d ∧ repo_wf DaemonSet d ∧ repo_wf ServiceAccount d ∧ repo_wf Secret d ∧
  repo_wf ConfigMap d ∧ repo_wf ClusterRole d ∧ repo_wf ClusterRoleBinding d ∧ repo_wf Role d ∧
  repo_wf RoleBinding d.
Proof.
  intros Hd. assert (db_inv d) as Hinv; [|split; [done|by apply inv_stores]].
  pose proof migrated_inv as Hstart. revert Hstart.
  induction Hd as [|d1 d2 d3 [d0 pc a bus clock uuids stmts notes r w' notes' E] _ IH]; [done|].
  intros Hinv. apply IH.
  pose proof (kept_perform pc a (mk_World d0 bus clock uuids stmts, notes) Hinv) as Hk.
  by rewrite E in Hk.
Qed.
End reachable.
