(* ===== verification/Connected.v ===== *)
(** * A node on the wire

    The agent of [Agent.v] whose HTTP client is the server of [Serve.v]: a
    request is cut into path and query and answered by [serve] in the same
    world.  [Transport] is what the client itself adds: its texts. *)
From S2P Require Import Prelude RustStd Text Json External Models Wire Error Bus World Repository.
From S2P Require Import Runtime Files Agent AgentHttp Printers Routes Relay Api Replies UrlForm Serve.

Local Open Scope Z_scope.

Class Transport := {
  tr_refused : string → string;
  (** Reading a stream that has no end, or a socket. *)
  tr_endless : string;
  tr_decode_error : string → string;
  tr_status_display : Z → string;
}.

(** A query of one pair of plain words is read as that pair. *)
Class UrlPlainOk `{UrlEncoded} : Prop :=
  urlencoded_plain k v :
    Forall (λ c, form_plain c = true) (bytes k) → Forall (λ c, query_plain c = true) (bytes v) →
    urlencoded_pairs (k +:+ "=" +:+ v) = Some [(k, v)].

Definition method_of (m : Method) : HttpMethod :=
  match m with Agent.GET => GET | Agent.POST => POST | Agent.PUT => PUT end.

(** What [reqwest] sends: any media type is accepted, and a body is JSON. *)
Definition request_of (m : Method) (target : string) (body : option string) : HttpRequest :=
  let '(path, query) := splitn2 "?" target in
  mk_HttpRequest (method_of m) path query (mk_HeaderMap ["*/*"] false)
    (bool_decide (is_Some body)) (Ok (default "" body))
    (Err (400, "Connection header did not include 'upgrade'")).

Section connected.
Context {V : Type} `{Extern, Env, !HashOrder, !Unicode, !UrlEncoded, !UrlEncode, !Axum, !Transport}.
Context `{!Machine V, !Files V, !Commands V}.
(** The address the server listens on, its settings, and the other agents. *)
Context (base service_cidr os arch : string).
Context (agents : string → list (string * string) → result string Response).

Definition response_of (r : HttpReply) : Response :=
  mk_Response (hr_status r)
    match hr_body r with
    | Shown (JsonBody v) => Ok (json_print v)
    | Shown (StreamBody _ _ _) | Joined _ => Err tr_endless
    | Plain s => Ok s
    | Piped b => b
    end.

Definition connected_send (m : Method) (url : string) (body : option string)
    : ST (World * V) string Response := λ '(w, v),
  match strip_prefix base url with
  | Some target =>
      let '(r, w') := serve service_cidr os arch agents (request_of m target body) w in
      (response_of <$> r, (w', v))
  | None => (Err (tr_refused url), (w, v))
  end.

(** A computation on the second component. *)
Definition on_snd {S E A} (m : ST V E A) : ST (S * V) E A := λ '(w, v),
  let '(r, v') := m v in (r, (w, v')).

#[export] Instance connected_machine : Machine (World * V) := {|
  m_now '(w, v) := let '(t, v') := m_now v in (t, (w, v'));
  m_uuid '(w, v) := let '(u, v') := m_uuid v in (u, (w, v')) |}.
#[export] Instance connected_files : Files (World * V) := {|
  fs_exists wv := fs_exists wv.2;
  fs_is_dir wv := fs_is_dir wv.2;
  fs_is_symlink wv := fs_is_symlink wv.2;
  fs_readonly wv := fs_readonly wv.2;
  fs_read_dir wv := fs_read_dir wv.2;
  fs_read p := on_snd (fs_read p);
  fs_write p b := on_snd (fs_write p b);
  fs_copy a b := on_snd (fs_copy a b);
  fs_symlink a b := on_snd (fs_symlink a b);
  fs_create_dir_all p := on_snd (fs_create_dir_all p);
  fs_remove_dir_all p := on_snd (fs_remove_dir_all p);
  fs_remove_file p := on_snd (fs_remove_file p) |}.
#[export] Instance connected_commands : Commands (World * V) := {|
  command_output p args := on_snd (command_output p args);
  udp_local_ip a b := on_snd (udp_local_ip a b);
  available_parallelism := on_snd available_parallelism |}.
Definition connected_http : HttpClient (World * V) := {|
  http_send := connected_send;
  http_decode_error := tr_decode_error;
  http_status_display := tr_status_display |}.
End connected.
