(* ===== verification/ClusterOk.v ===== *)
(** * The server and its nodes fit together

    The requests of the agent and of the proxy against the server's routes, the
    server's calls against the agent's, and the command of an exec on its way
    from the client to the process. *)
From S2P Require Import Prelude RustStd Text Json External Models Wire Error Bus World Repository.
From S2P Require Import Runtime Agent AgentHttp Proxy Routes Relay.
From S2P Require Import Reference AgentSamples UrlForm.

(** ** Paths *)

Lemma append_nil_r s : s +:+ "" = s.
Proof. induction s as [|c s IH]; [done|]. exact (f_equal (String c) IH). Qed.

(** A path is the one of a route of a table. *)
Ltac routed ok pattern methods params :=
  unfold dispatch;
  match goal with
  | |- dispatch_in _ _ (path_segments ?path) = _ =>
      replace path with (join_path (fill (rt_pattern (route pattern methods)) params))
        by (cbn; rewrite ?append_nil_r; reflexivity)
  end;
  apply table_reaches;
    [exact ok
    |apply (bool_decide_unpack _); vm_compute; exact I
    |apply (bool_decide_unpack _); vm_compute; exact I
    |reflexivity
    |repeat first [apply Forall_nil_2 | apply Forall_cons_2; [assumption|]]].

(** C33. Every path that the agent and the proxy of a node write is one the API
    server has a handler for: registration, heartbeat, the list of pods, the
    events and the status of a pod, the list of services and the endpoints of
    one, for any names without a slash; and every path that the API server
    writes for logs, exec and port-forward is one the agent has a handler
    for. *)
Theorem node_and_server_routes_fit namespace name container :
  ok_param namespace → ok_param name → ok_param container →
  dispatch POST nodes_path = Handled "create_node" [] ∧
  dispatch PUT (node_path name) = Handled "update_node" [name] ∧
  dispatch GET pods_path = Handled "list_all_pods" [] ∧
  dispatch POST (events_path namespace) = Handled "create_event" [namespace] ∧
  dispatch PUT (status_path namespace name) = Handled "update_pod_status" [namespace; name] ∧
  dispatch GET services_path = Handled "list_all_services" [] ∧
  dispatch GET (endpoints_path namespace name) = Handled "get_endpoints" [namespace; name] ∧
  dispatch_in agent_routes GET (path_segments (log_path namespace name container)) =
    Handled "handle_logs" [namespace; name; container] ∧
  dispatch_in agent_routes GET (path_segments (exec_path namespace name container)) =
    Handled "handle_exec" [namespace; name; container] ∧
  dispatch_in agent_routes GET (path_segments (port_forward_path namespace name container)) =
    Handled "handle_portforward" [namespace; name; container].
Proof.
  intros Hns Hname Hc. repeat split.
  - routed api_routes_ok "/api/v1/nodes/:name"
      [(GET, "get_node"); (PUT, "update_node"); (DELETE, "delete_node")] [name].
  - routed api_routes_ok "/api/v1/namespaces/:namespace/events"
      [(GET, "list_events"); (POST, "create_event")] [namespace].
  - routed api_routes_ok "/api/v1/namespaces/:namespace/pods/:name/status"
      [(GET, "get_pod_status"); (PUT, "update_pod_status")] [namespace; name].
  - routed api_routes_ok "/api/v1/namespaces/:namespace/endpoints/:name"
      [(GET, "get_endpoints")] [namespace; name].
  - routed agent_routes_ok "/logs/:namespace/:pod/:container" [(GET, "handle_logs")]
      [namespace; name; container].
  - routed agent_routes_ok "/exec/:namespace/:pod/:container" [(GET, "handle_exec")]
      [namespace; name; container].
  - routed agent_routes_ok "/portforward/:namespace/:pod/:pod_ip" [(GET, "handle_portforward")]
      [namespace; name; container].
Qed.

Lemma node_and_server_routes_fit_witness :
  dispatch PUT (status_path "default" "web-0") = Handled "update_pod_status" ["default"; "web-0"] ∧
  dispatch_in agent_routes GET (path_segments (log_path "default" "web-0" "app")) =
    Handled "handle_logs" ["default"; "web-0"; "app"].
Proof.
  destruct (node_and_server_routes_fit "default" "web-0" "app") as (_ & _ & _ & _ & H1 & _ & _ & H2 & _);
    [by split..|]. by split.
Defined.

(** ** The command of an exec *)

Section exec.
Context `{UrlEncodeOk}.

(** The values of a key, in order. *)
Definition values (key : string) (pairs : list (string * string)) : list string :=
  (λ kv : string * string, kv.2) <$> filter (λ kv, kv.1 = key) pairs.

Lemma values_app key l k : values key (l ++ k) = values key l ++ values key k.
Proof. unfold values. by rewrite filter_app, fmap_app. Qed.

Lemma exec_params_fold pairs p :
  ep_command (foldl exec_param p pairs) = ep_command p ++ values "command" pairs ∧
  ep_container (foldl exec_param p pairs) =
    match last (values "container" pairs) with Some c => Some c | None => ep_container p end ∧
  ep_tty (foldl exec_param p pairs) =
    match last (values "tty" pairs) with Some v => is_true v | None => ep_tty p end.
Proof.
  revert p. induction pairs as [|[k v] pairs IH] using rev_ind; intros p.
  { simpl. by rewrite app_nil_r. }
  rewrite foldl_app. destruct (IH p) as (Hc & Hn & Ht). clear IH. cbn [foldl].
  generalize dependent (foldl exec_param p pairs). intros p0 Hc Hn Ht.
  rewrite !values_app, !last_app.
  assert (∀ key, values key [(k, v)] = if bool_decide (k = key) then [v] else []) as Hv.
  { intros key. unfold values. case_bool_decide as Hk.
    - by rewrite filter_cons_True.
    - by rewrite filter_cons_False. }
  rewrite !Hv. unfold exec_param.
  repeat match goal with
         | |- context [str_eqb k ?key] => destruct (str_eqb_reflect k key) as [->|]; cbn;
             [by rewrite ?Hc, ?Hn, ?Ht, ?app_nil_r, ?app_assoc|]
         end.
  repeat rewrite bool_decide_eq_false_2 by done. cbn. by rewrite Hc, Hn, Ht, app_nil_r.
Qed.

Lemma values_pair key words : values key (pair key <$> words) = words.
Proof.
  unfold values. induction words as [|word words IH]; [done|]. cbn [fmap list_fmap].
  rewrite filter_cons_True by done. cbn. by f_equal.
Qed.
Lemma filter_pair_other key key' words :
  key' ≠ key → filter (λ kv : string * string, kv.1 = key) (pair key' <$> words) = [].
Proof.
  intros Hk. induction words as [|word words IH]; [done|]. cbn [fmap list_fmap].
  by rewrite filter_cons_False.
Qed.

(** What the agent finds in the query the server writes. *)
Definition words_of (p : ExecParams) : list string :=
  match ep_command p with [] => ["sh"] | words => words end.
Lemma exec_query_pairs_words p :
  exec_query_pairs p = (pair "command" <$> words_of p) ++
    [("stdin", bool_text (ep_stdin p)); ("stdout", bool_text (ep_stdout p));
     ("stderr", bool_text (ep_stderr p)); ("tty", bool_text (ep_tty p))].
Proof. unfold exec_query_pairs, words_of. by destruct (ep_command p). Qed.
Lemma exec_query_command p : values "command" (exec_query_pairs p) = words_of p.
Proof. rewrite exec_query_pairs_words, values_app, values_pair. apply app_nil_r. Qed.
Lemma exec_query_tty p :
  filter (λ kv : string * string, kv.1 = "tty") (exec_query_pairs p) = [("tty", bool_text (ep_tty p))].
Proof. rewrite exec_query_pairs_words, filter_app. by rewrite filter_pair_other. Qed.

(** C34. The command of [kubectl exec] reaches the process: the agent, parsing
    the query that the server wrote after parsing the client's, finds exactly
    the words of the client's [command] parameters, in their order and each
    one whole ([sh] if there were none), and a terminal exactly if the last
    [tty] parameter asked for one. *)
Theorem exec_command_reaches_agent q pairs :
  urlencoded_pairs q = Some pairs →
  parse_exec_query (exec_query (exec_params_of q)) =
    (match values "command" pairs with [] => ["sh"] | words => words end,
     match last (values "tty" pairs) with Some v => is_true v | None => false end).
Proof.
  intros Hq. unfold exec_params_of. rewrite Hq. simpl.
  destruct (exec_params_fold pairs (mk_ExecParams None [] false true true false)) as (Hc & _ & Ht).
  set (p := foldl _ _ pairs) in *. simpl in Hc, Ht. rewrite <- Hc, <- Ht. clearbody p.
  unfold parse_exec_query, exec_query.
  pose proof (urlencoded_round (exec_query_pairs p)) as Hr.
  destruct (urlencoded_string (exec_query_pairs p)) as [s|]; [|done]. simpl in Hr.
  change (default "" (Some s)) with s. rewrite Hr. change (default [] (Some ?l)) with l. fold (values "command" (exec_query_pairs p)).
  rewrite exec_query_command, exec_query_tty. unfold words_of. simpl.
  f_equal; [by destruct (ep_command p)|by destruct (ep_tty p)].
Qed.
End exec.

(** ** A query on concrete parameters *)

#[export] Instance ref_urlencode : UrlEncode := λ pairs, Some (of_bytes (form_write pairs)).
#[export] Instance ref_urlencode_ok : UrlEncodeOk.
Proof.
  intros pairs. unfold urlencoded_string, ref_urlencode, urlencoded_pairs, ref_urlencoded. simpl.
  by rewrite bytes_of_bytes, form_round.
Qed.

Definition echo_pairs : list (string * string) :=
  [("command", "echo"); ("tty", "true"); ("command", "a b"); ("stdin", "1")].
Definition echo_query : string := "command=echo&tty=true&command=a+b&stdin=1".

Lemma exec_command_reaches_agent_witness :
  urlencoded_pairs echo_query = Some echo_pairs ∧
  parse_exec_query (exec_query (exec_params_of echo_query)) = (["echo"; "a b"], true).
Proof.
  assert (E : urlencoded_pairs echo_query = Some echo_pairs)
    by reflexivity.
  split; [exact E|]. etrans; [exact (exec_command_reaches_agent echo_query echo_pairs E)|].
  reflexivity.
Defined.
