(* ===== verification/ConnectedOk.v ===== *)
(** * A node on the wire is correct

    The agent's requests against the server's handlers and the database: what
    a pass of the agent leaves in the store. *)
From S2P Require Import Prelude RustStd Text Json External Models Wire WireOk Error Bus World Repository RepositoryOk.
From S2P Require Import Runtime Files Agent AgentHttp AgentOk Printers Routes Relay Api Replies UrlForm Serve Connected ClusterOk.

Local Open Scope Z_scope.

(** ** Targets *)

(** A name of unreserved characters, as the names of objects are. *)
Definition plain_name (s : string) : Prop :=
  s ≠ "" ∧ Forall (λ c, form_plain c = true) (bytes s).

Lemma plain_not_in (c : ascii) s : form_plain c = false → plain_name s → c ∉ bytes s.
Proof. intros Hc [_ Hs] Hin. rewrite Forall_forall in Hs. apply Hs in Hin. congruence. Qed.

Lemma plain_ok_param s : plain_name s → ok_param s.
Proof.
  intros Hs. split; [apply Hs|]. unfold no_slash, contains_char. apply negb_true_iff.
  apply not_true_iff_false. intros (c & Hin & Hc%Ascii.eqb_eq)%existsb_exists. subst c.
  apply list_elem_of_In in Hin. by apply (plain_not_in "/") in Hin.
Qed.

Lemma splitn2_none c s : c ∉ bytes s → splitn2 c s = (s, None).
Proof.
  intros Hc. unfold splitn2. assert (splitn2_l c (bytes s) = (bytes s, None)) as ->.
  { induction (bytes s) as [|d l IH]; [done|]. rewrite not_elem_of_cons in Hc. destruct Hc as [Hd Hl].
    simpl. destruct (Ascii.eqb_spec d c); [congruence|]. by rewrite IH. }
  by rewrite of_bytes_bytes.
Qed.
Lemma splitn2_some c s t : c ∉ bytes s → splitn2 c (s +:+ String c t) = (s, Some t).
Proof.
  intros Hc. unfold splitn2. rewrite bytes_app. cbn [bytes]. rewrite splitn2_l_app by done.
  simpl. by rewrite !of_bytes_bytes.
Qed.
Lemma strip_prefix_app p s : strip_prefix p (p +:+ s) = Some s.
Proof. unfold strip_prefix. rewrite bytes_app, strip_prefix_l_app. simpl. by rewrite of_bytes_bytes. Qed.

Lemma status_path_no_query ns name :
  plain_name ns → plain_name name → "?"%char ∉ bytes (status_path ns name).
Proof.
  intros Hns%(plain_not_in "?"); [|done]. intros Hn%(plain_not_in "?"); [|done].
  unfold status_path. rewrite !bytes_app, !not_elem_of_app.
  repeat split; try done; by apply (bool_decide_unpack _).
Qed.
Lemma node_path_no_query name : plain_name name → "?"%char ∉ bytes (node_path name).
Proof.
  intros Hn%(plain_not_in "?"); [|done]. unfold node_path. rewrite bytes_app, not_elem_of_app.
  split; [by apply (bool_decide_unpack _)|done].
Qed.

(** ** Requests the server answers *)

Section answers.
Context `{ExternOk, EnvOk, !HashOrder, !Unicode, !UrlEncoded, !UrlPlainOk, !UrlEncode, AxumOk}.
Context (service_cidr os arch : string).
Context (agents : string → list (string * string) → result string Response).

Abbreviation serve := (serve service_cidr os arch agents).
Abbreviation pods := (repo_view Pod).

Lemma serve_handled {E} rq h params f w :
  dispatch (rq_method rq) (rq_path rq) = Handled h params →
  handler_named service_cidr os arch agents h = Some f →
  (serve rq : M E HttpReply) w =
    match call f params (marked rq) w with
    | (Ok reply, w') => (Ok reply, w')
    | (Err e, w') => (Ok (error_reply e), w')
    end.
Proof.
  intros Hd Hh. unfold Serve.serve, attempt, route_request. rewrite Hd, Hh.
  unfold mbind, st_bind. by destruct (call f params (marked rq) w) as [[reply|e] w'].
Qed.

Lemma with_param_plain p k w : plain_name p → with_param p k w = k p w.
Proof. intros [_ Hp]. unfold with_param. by rewrite ax_path_plain. Qed.

Lemma with_json_body {T} `{JsonOk T, !JsonPlain T} (x : T) rq k w :
  rq_is_json rq = true → rq_body rq = Ok (json_print (to_value x)) → with_json rq k w = k x w.
Proof.
  intros Hj Hb. unfold with_json. rewrite Hj, Hb, json_parse_print by apply to_value_plain.
  simpl. by rewrite from_to.
Qed.

(** The status of a pod. *)
Lemma run_update_pod_status ns name pod st p w :
  quiet → repo_wf Pod (w_db w) → pods (w_db w) !! (ns, name) = Some p → pod_status pod = Some st →
  ∃ w', update_pod_status ns name pod w = (Ok (with_stored_status st p), w') ∧
    pods (w_db w') = <[(ns, name) := with_stored_status st p]> (pods (w_db w)) ∧
    repo_wf Pod (w_db w') ∧ ∃ t, w_db w' = set_pods t (w_db w).
Proof.
  intros Hq Hwf Hp Hst. unfold update_pod_status. rewrite Hst.
  destruct (run_update_status ns name st w Hq Hwf) as (w1 & E1 & Hpods & Hwf1 & _ & Ht).
  pose proof (repo_get_spec (T:=Pod) (ns, name) w1 Hq Hwf1) as Hget.
  rewrite Hpods, lookup_alter_eq, Hp in Hget. cbn in Hget.
  eexists. split; [|split; [|split]].
  - eapply bind_run; [exact E1|]. eapply bind_run; [exact Hget|]. eapply bind_run; reflexivity.
  - etrans; [exact Hpods|]. apply map_eq. intros k. destruct (decide (k = (ns, name))) as [->|Hk].
    + by rewrite lookup_alter_eq, lookup_insert_eq, Hp.
    + by rewrite lookup_alter_ne, lookup_insert_ne.
  - done.
  - done.
Qed.

Lemma serve_status {E} ns name pod st p w :
  quiet → repo_wf Pod (w_db w) → plain_name ns → plain_name name →
  pods (w_db w) !! (ns, name) = Some p → pod_status pod = Some st →
  ∃ w', (serve (request_of Agent.PUT (status_path ns name) (json_body pod)) : M E HttpReply) w =
    (Ok (json_reply 200 (to_value (with_stored_status st p))), w') ∧
    pods (w_db w') = <[(ns, name) := with_stored_status st p]> (pods (w_db w)) ∧
    repo_wf Pod (w_db w') ∧ ∃ t, w_db w' = set_pods t (w_db w).
Proof.
  intros Hq Hwf Hns Hname Hp Hst.
  destruct (run_update_pod_status ns name pod st p w Hq Hwf Hp Hst) as (w' & E1 & Hw').
  exists w'. split; [|exact Hw'].
  unfold request_of. rewrite splitn2_none by by apply status_path_no_query.
  rewrite (serve_handled _ "update_pod_status" [ns; name] (update_of update_pod_status)); [|..|reflexivity].
  2:{ cbn [rq_method rq_path method_of].
      pose proof (plain_ok_param ns Hns). pose proof (plain_ok_param name Hname).
      routed api_routes_ok "/api/v1/namespaces/:namespace/pods/:name/status"
        [(Routes.GET, "get_pod_status"); (Routes.PUT, "update_pod_status")] [ns; name]. }
  cbn [call update_of]. rewrite !with_param_plain by done.
  erewrite with_json_body by reflexivity. unfold as_json.
  by rewrite (bind_ok _ _ _ _ _ E1).
Qed.
Lemma wants_json rq :
  rq_headers rq = mk_HeaderMap ["*/*"] false →
  match rq_query rq with Some q => has_watch_flag q = false | None => True end →
  wants (marked rq) = mk_Headers false false.
Proof.
  unfold wants, marked. intros -> Hq. cbn. destruct (rq_query rq) as [q|]; [|done]. cbn. by rewrite Hq.
Qed.

(** The list of pods, whatever the field selector. *)
Definition node_query (name : string) : string := "fieldSelector=spec.nodeName=" +:+ name.

Lemma node_query_plain name :
  plain_name name → Forall (λ c, query_plain c = true) (bytes ("spec.nodeName=" +:+ name)).
Proof.
  intros [_ Hn]. rewrite bytes_app. apply Forall_app. split; [by repeat constructor|].
  eapply Forall_impl; [exact Hn|]. intros c Hc. unfold query_plain. by rewrite Hc.
Qed.
Lemma node_query_not_in c name :
  form_plain c = false → c ∉ bytes "fieldSelector=spec.nodeName=" → plain_name name →
  c ∉ bytes (node_query name).
Proof.
  intros Hc Hq Hn%(plain_not_in c); [|done]. unfold node_query. by rewrite bytes_app, not_elem_of_app.
Qed.
Lemma node_query_no_watch name : plain_name name → has_watch_flag (node_query name) = false.
Proof.
  intros Hn. unfold has_watch_flag, split.
  rewrite split_l_no_sep.
  2:{ apply (node_query_not_in "&"); [done|by apply (bool_decide_unpack _)|done]. }
  cbn [fmap list_fmap existsb]. rewrite of_bytes_bytes, orb_false_r. unfold is_watch_pair.
  change (node_query name) with ("fieldSelector" +:+ String "=" ("spec.nodeName=" +:+ name)).
  rewrite splitn2_some by by apply (bool_decide_unpack _). done.
Qed.
Lemma node_query_params name :
  plain_name name →
  urlencoded_pairs (node_query name) ≫= ListParams_of =
    Some (mk_ListParams None (Some ("spec.nodeName=" +:+ name)) None None).
Proof.
  intros Hn. change (node_query name) with ("fieldSelector" +:+ "=" +:+ ("spec.nodeName=" +:+ name)).
  rewrite urlencoded_plain; [done|by repeat constructor|by apply node_query_plain].
Qed.

Lemma serve_pods {E} name w :
  quiet → repo_wf Pod (w_db w) → plain_name name → ∃ xs,
  (serve (request_of Agent.GET (pods_path +:+ "?" +:+ node_query name) None) : M E HttpReply) w =
    (Ok (json_reply 200 (to_value (List_new core "PodList" xs))), count_stmt w) ∧
  xs ≡ₚ (map_to_list (pods (w_db w))).*2.
Proof.
  intros Hq Hwf Hname. destruct (run_pod_list None None w Hq Hwf) as (xs & E1 & Hxs).
  exists xs. split.
  2:{ rewrite Hxs. f_equiv. apply reflexive_eq, filter_always. by intros [k p]. }
  unfold request_of. change (pods_path +:+ "?" +:+ node_query name)
    with (pods_path +:+ String "?" (node_query name)).
  rewrite splitn2_some by by apply (bool_decide_unpack _).
  rewrite (serve_handled _ "list_all_pods" [] (Fixed (λ rq, with_query ListParams_of rq (λ p,
    as_view (list_all_pods (lp_label_selector p) (wants rq)))))); [|reflexivity..].
  cbn [call]. unfold with_query. cbn [marked rq_query].
  change (default "" (Some ?x)) with x. rewrite node_query_params by done.
  unfold as_view, list_all_pods. cbn [lp_label_selector parse_label_selector fmap option_fmap option_map].
  rewrite wants_json by (done || by apply node_query_no_watch).
  erewrite (bind_run (PodRepository_list None None ≫= _)); [|eapply bind_run; [exact E1|reflexivity]|reflexivity].
  reflexivity.
Qed.
(** A node that is written with a status is Ready; the other nodes stay. *)
Abbreviation nodes := (repo_view Node).
Definition node_stored (node : Node) (d d' : Db) : Prop :=
  let name := ObjectMeta_name (node_metadata node) in
  name ∈ ready_names d' ∧
  (∃ n, nodes d' !! name = Some n ∧ om_labels (node_metadata n) = om_labels (node_metadata node) ∧
        (nstat_addresses <$> node_status n) = (nstat_addresses <$> node_status node)) ∧
  delete name (nodes d') = delete name (nodes d) ∧ repo_wf Node d' ∧ ∃ t, d' = set_nodes t d.

Lemma run_node_create node st w :
  quiet → repo_wf Node (w_db w) → node_status node = Some st →
  repo_admits (K:=string) node w →
  ∃ y w', NodeRepository_create node w = (Ok y, w') ∧ node_stored node (w_db w) (w_db w').
Proof.
  intros Hq Hwf Hst Hadm. unfold repo_admits in Hadm.
  cbn [repo_view repo_wf repo_has_uid repo_meta repo_key node_repo] in *.
  set (name := ObjectMeta_name (node_metadata node)) in *.
  set (row u c t := mk_NodeRow u (json_str (om_labels (node_metadata node))) "Ready"
    (json_str (nstat_addresses st)) (json_str (nstat_capacity st)) (json_str (nstat_allocatable st))
    (json_str <$> nstat_node_info st) c t).
  destruct (run_create_full nodes_table
    (λ k r, node_of_row k r (stamp (nr_created_at r)) (stamp (nr_updated_at r)) true) node_stamped
    (om_uid (node_metadata node)) (λ u now, row (uuid_to_string u) now now)
    (λ _ now old, row (nr_uid old) (nr_created_at old) now) name
    (NodeRepository_get name) w Hq Hwf) as (w' & E & Hdb & Hg & _); [done|..|exact Hadm|].
  - intros u t. split; apply stamped_rfc3339.
  - intros u old t [Hc _]. split; [exact Hc|apply stamped_rfc3339].
  - intros w0 Hwf0. unfold NodeRepository_get. repo_get (run_row_to_node (E:=Error) true).
  - eexists _, w'. split; [unfold NodeRepository_create; rewrite Hst; exact E|].
    set (r := match tb_get nodes_table (w_db w) !! name with Some _ => _ | None => _ end) in *.
    assert (nr_status r = "Ready" ∧ nr_labels r = json_str (om_labels (node_metadata node)) ∧
            nr_addresses r = json_str (nstat_addresses st)) as (Hr & Hl & Ha).
    { unfold r. by destruct (tb_get nodes_table (w_db w) !! name). }
    clearbody r. rewrite Hdb. unfold node_stored. fold name.
    split; [|split; [|split; [|split]]].
    + unfold ready_names. apply list_elem_of_fmap. exists (name, r). split; [done|].
      apply list_elem_of_filter. split; [unfold ready_row; cbn; by rewrite Hr|].
      apply elem_of_map_to_list. apply lookup_insert_eq.
    + cbn [repo_view node_repo]. rewrite view_insert, lookup_insert_eq. eexists. split; [done|].
      cbn. rewrite Hl, Ha, Hst. by rewrite !json_from_opt_str.
    + cbn [repo_view node_repo]. by rewrite view_insert, delete_insert_eq.
    + by apply wf_insert.
    + by eexists.
Qed.

Lemma serve_register {E} node st w :
  quiet → repo_wf Node (w_db w) → node_status node = Some st → repo_admits (K:=string) node w →
  ∃ y w', (serve (request_of Agent.POST nodes_path (json_body node)) : M E HttpReply) w =
    (Ok (json_reply 201 y), w') ∧ node_stored node (w_db w) (w_db w').
Proof.
  intros Hq Hwf Hst Hadm.
  destruct (run_node_create node st w Hq Hwf Hst Hadm) as (y & w1 & E1 & Hw1).
  eexists (to_value y), _. split.
  { unfold request_of. rewrite splitn2_none by by apply (bool_decide_unpack _).
  rewrite (serve_handled _ "create_node" [] (create_cluster_of create_node)); [|reflexivity..].
  cbn [call create_cluster_of]. erewrite with_json_body by reflexivity. unfold as_created, create_node, create_cluster.
  erewrite bind_ok by (eapply bind_run; [exact E1|eapply bind_run; reflexivity]). reflexivity. }
  exact Hw1.
Qed.

Lemma serve_heartbeat {E} name node st w :
  quiet → repo_wf Node (w_db w) → plain_name name → om_name (node_metadata node) = Some name →
  node_status node = Some st → repo_admits (K:=string) node w →
  ∃ y w', (serve (request_of Agent.PUT (node_path name) (json_body node)) : M E HttpReply) w =
    (Ok (json_reply 200 y), w') ∧ node_stored node (w_db w) (w_db w').
Proof.
  intros Hq Hwf Hname Hn Hst Hadm.
  destruct (run_node_create node st w Hq Hwf Hst Hadm) as (y & w1 & E1 & Hw1).
  eexists (to_value y), _. split.
  { unfold request_of. rewrite splitn2_none by by apply node_path_no_query.
  rewrite (serve_handled _ "update_node" [name] (update_cluster_of update_node)); [|..|reflexivity].
  2:{ cbn [rq_method rq_path method_of]. pose proof (plain_ok_param name Hname).
      routed api_routes_ok "/api/v1/nodes/:name"
        [(Routes.GET, "get_node"); (Routes.PUT, "update_node"); (Routes.DELETE, "delete_node")] [name]. }
  cbn [call update_cluster_of]. rewrite with_param_plain by done.
  erewrite with_json_body by reflexivity. unfold as_json, update_node, update_cluster.
  assert (res_with_metadata (ObjectMeta_with_name (Some name) (res_metadata node)) node = node) as ->.
  { destruct node as [ty [nm ns uid rv ls an ct ow] sp stt]. cbn in Hn. by subst nm. }
  erewrite bind_ok by (eapply bind_run; [exact E1|eapply bind_run; reflexivity]). reflexivity. }
  exact Hw1.
Qed.
End answers.

(** ** A pass of the agent *)

Section pass.
Context {V : Type} `{ExternOk, EnvOk, !HashOrder, !Unicode, !Target}.
Context `{!UrlEncoded, !UrlPlainOk, !UrlEncode, AxumOk, !Transport, !Machine V, !Files V, !Commands V}.
Context (base service_cidr os arch : string).
Context (agents : string → list (string * string) → result string Response).
#[local] Instance http : HttpClient (World * V) := connected_http base service_cidr os arch agents.
Implicit Type s : AgentState (World * V).

Abbreviation pods := (repo_view Pod).

(** A row of the store, as a status report changes it. *)
Definition with_report (phase : PodPhase) (ip : option string) (statuses : list ContainerStatus)
    (p : Pod) : Pod :=
  Pod_with_status (Some (mk_PodStatus phase None ip None (Some "127.0.0.1") None (Some statuses)
    None None)) p.

(** A request to the server, from inside the agent. *)
Lemma send_served m target body w v s (r : HttpReply) w' :
  as_server_url s = base →
  (serve service_cidr os arch agents (request_of m target body) : M string HttpReply) w = (Ok r, w') →
  on_world_of (lift_err Failed (http_send m (as_server_url s +:+ target) body)) ((w, v), s) =
    (Ok (response_of r), ((w', v), s)).
Proof.
  intros Hurl E. unfold on_world_of, lift_err, http_send. cbn [http connected_http].
  unfold connected_send. by rewrite Hurl, strip_prefix_app, E.
Qed.

Lemma publish_reaches_store ns name phase ip statuses start p w v s :
  quiet → repo_wf Pod (w_db w) → plain_name ns → plain_name name →
  as_server_url s = base → pods (w_db w) !! (ns, name) = Some p →
  ∃ w' v', publish_pod_status ns name phase ip statuses start ((w, v), s) = (Ok (), ((w', v'), s)) ∧
    pods (w_db w') = <[(ns, name) := with_report phase ip statuses p]> (pods (w_db w)) ∧
    repo_wf Pod (w_db w') ∧ ∃ t, w_db w' = set_pods t (w_db w).
Proof.
  intros Hq Hwf Hns Hname Hurl Hp.
  assert (∃ t v', (match start with Some t => mret t | None => on_world_of Utc_now end
      : ST ((World * V) * AgentState (World * V)) Failure DateTime) ((w, v), s) =
      (Ok t, ((w, v'), s))) as (t & v' & E0).
  { destruct start as [t|]; [by eexists _, _|]. unfold on_world_of, Utc_now. cbn.
    destruct (m_now v) as [t v']. by eexists _, _. }
  edestruct (serve_status service_cidr os arch agents (E:=string) ns name
    (status_pod ns name phase ip statuses t)) as (w' & E1 & Hpods & Hwf' & Ht);
    [exact Hq|exact Hwf|done..|].
  exists w', v'. split; [|done].
  unfold publish_pod_status. eapply bind_run; [reflexivity|]. eapply bind_run; [exact E0|].
  eapply bind_run.
  - by eapply send_served.
  - reflexivity.
Qed.

(** *** Registration and heartbeat *)

(** A computation that only looks at the machine of the node. *)
Definition looks {E A} (P : A → Prop) (m : ST (World * V) E A) : Prop :=
  ∀ w v, ∃ a v', m (w, v) = (Ok a, (w, v')) ∧ P a.

Lemma looks_ret {E A} (P : A → Prop) (a : A) : P a → looks (E:=E) P (mret a).
Proof. intros Ha w v. by exists a, v. Qed.
Lemma looks_bind {E A B} (P : A → Prop) (Q : B → Prop) (m : ST (World * V) E A) f :
  looks P m → (∀ a, P a → looks Q (f a)) → looks Q (m ≫= f).
Proof.
  intros Hm Hf w v. destruct (Hm w v) as (a & v1 & E1 & Ha). destruct (Hf a Ha w v1) as (b & v2 & E2 & Hb).
  exists b, v2. split; [by eapply bind_run|done].
Qed.
Lemma looks_snd {E F A} (m : ST V F A) : looks (E:=E) (λ _, True) (attempt (on_snd m)).
Proof. intros w v. unfold attempt, on_snd. destruct (m v) as [r v']. by eexists _, _. Qed.
Lemma looks_now {E} : looks (E:=E) (λ _, True) Utc_now.
Proof. intros w v. unfold Utc_now. cbn. destruct (m_now v). by eexists _, _. Qed.
Lemma looks_uuid {E} : looks (E:=E) (λ u, ∃ v0 : V, (m_uuid v0).1 = u) Uuid_new_v4.
Proof. intros w v. unfold Uuid_new_v4. cbn. destruct (m_uuid v) eqn:Ev. eexists _, _. split; [done|]. exists v. by rewrite Ev. Qed.

Ltac looks :=
  repeat first
    [ progress unfold detect_cpu_count, detect_memory_capacity, read_total_memory_bytes,
        detect_ephemeral_storage, detect_internal_ip, uname_field, detect_os_image, stdout_of,
        read_to_string, available_parallelism, command_output, udp_local_ip, fs_read
    | progress cbn [connected_commands connected_files]
    | apply looks_snd | apply looks_now | apply looks_uuid | by apply looks_ret
    | match goal with |- looks _ (match target_os with _ => _ end) => destruct target_os end
    | eapply (looks_bind (λ _, True)); [|intros ? _] ].

(** The object an agent sends of its node. *)
Definition describes (name : string) (labels : gmap string string) (node : Node) : Prop :=
  om_name (node_metadata node) = Some name ∧
  om_labels (node_metadata node) = (if bool_decide (labels = ∅) then None else Some labels) ∧
  (∃ v0 : V, om_uid (node_metadata node) = Some (m_uuid v0).1) ∧
  ∃ st ip, node_status node = Some st ∧
    nstat_addresses st = Some [mk_NodeAddress NodeAddressType_Hostname name;
                               mk_NodeAddress NodeAddressType_InternalIP ip].

Lemma looks_node {E} name labels : looks (E:=E) (describes name labels) (build_node_object name labels).
Proof.
  unfold build_node_object.
  do 8 (eapply (looks_bind (λ _, True)); [solve [looks]|intros ? _]).
  eapply looks_bind; [apply looks_uuid|]. intros uid [v0 Hu]. apply looks_ret.
  split; [done|]. split; [done|]. split; [exists v0; by rewrite Hu|]. by eexists _, _.
Qed.

(** What the server knows of a node that reported: the scheduler counts it as
    ready, the relay of logs finds its address, its labels are the agent's. *)
Definition known_node (name : string) (labels : gmap string string) (d d' : Db) : Prop :=
  name ∈ ready_names d' ∧
  (∃ n ip, repo_view Node d' !! name = Some n ∧ node_internal_ip n = Some ip ∧
     om_labels (node_metadata n) = (if bool_decide (labels = ∅) then None else Some labels)) ∧
  delete name (repo_view Node d') = delete name (repo_view Node d) ∧
  repo_wf Node d' ∧ ∃ t, d' = set_nodes t d.

Lemma node_stored_known name labels node d d' :
  describes name labels node → node_stored node d d' → known_node name labels d d'.
Proof.
  intros (Hn & Hl & _ & st & ip & Hst & Ha) (Hr & (n & Hget & Hln & Han) & Hrest).
  assert (ObjectMeta_name (node_metadata node) = name) as E by (unfold ObjectMeta_name; by rewrite Hn).
  rewrite E in *. split; [done|]. split; [|done]. exists n, ip. split; [done|].
  split; [|by rewrite Hln].
  rewrite Hst in Han. cbn in Han. rewrite Ha in Han. unfold node_internal_ip.
  destruct (node_status n) as [st'|]; [|done]. cbn in Han. injection Han as Han. cbn. by rewrite Han.
Qed.

(** C7. A node reaches the scheduler: whether the agent registers or sends a
    heartbeat, whatever its machine tells it about itself, the call succeeds,
    and afterwards the node is among the ready ones the scheduler places pods
    on, with the labels of the agent and an internal address for the relay of
    logs and shells; every other node and every other table is as it was.  The
    identifier the machine draws must be free, unless the node is known. *)
Theorem report_makes_node_ready m w v s :
  m = register_node ∨ m = send_heartbeat →
  quiet → repo_wf Node (w_db w) → as_server_url s = base → plain_name (as_name s) →
  is_Some (repo_view Node (w_db w) !! as_name s) ∨
    (∀ v0 : V, ¬ repo_has_uid Node (uuid_to_string (m_uuid v0).1) (w_db w)) →
  ∃ w' v', m ((w, v), s) = (Ok (), ((w', v'), s)) ∧
    known_node (as_name s) (as_labels s) (w_db w) (w_db w').
Proof.
  intros Hm Hq Hwf Hurl Hname Hfree.
  destruct (looks_node (E:=Failure) (as_name s) (as_labels s) w v) as (node & v1 & E1 & Hnode).
  pose proof Hnode as (Hn & _ & [v0 Hu] & st & _ & Hst & _).
  assert (repo_admits (K:=string) node w) as Hadm.
  { unfold repo_admits. cbn [repo_key repo_meta node_repo]. unfold ObjectMeta_name, chosen_uid. rewrite Hn, Hu.
    destruct Hfree as [Hk|Hf]; [by left|right; apply Hf]. }
  destruct Hm as [-> | ->].
  - destruct (serve_register service_cidr os arch agents (E:=string) node st w Hq Hwf Hst Hadm)
      as (y & w' & E2 & Hw').
    exists w', v1. split; [|by eapply node_stored_known].
    unfold register_node. eapply bind_run; [reflexivity|].
    eapply bind_run; [unfold on_world_of; by rewrite E1|]. eapply bind_run.
    { by eapply send_served. }
    reflexivity.
  - destruct (serve_heartbeat service_cidr os arch agents (E:=string) (as_name s) node st w Hq Hwf
      Hname Hn Hst Hadm) as (y & w' & E2 & Hw').
    exists w', v1. split; [|by eapply node_stored_known].
    unfold send_heartbeat. eapply bind_run; [reflexivity|].
    eapply bind_run; [unfold on_world_of; by rewrite E1|]. eapply bind_run.
    { by eapply send_served. }
    reflexivity.
Qed.

(** *** Statuses *)

(** What the engines say of a container of a pod of a name. *)
Context (info : string → Container → ContainerInfo).

(** The row of a pod after a pass: only a pod bound to the node changes, and
    only its status. *)
Definition after_pass (prefix name : string) (p : Pod) : Pod :=
  if bool_decide (ps_node_name (pod_spec p) = Some name) then
    match om_uid (pod_metadata p), ps_containers (pod_spec p) with
    | Some uid, (_ :: _) as cs =>
        let infos := info (ObjectMeta_name (pod_metadata p)) <$> cs in
        with_report (spec_phase infos)
          (Some (default (prefix +:+ "." +:+ pretty (val (as_u8 (val uid mod 254 + 1))))
                   (head (omap ci_ip infos))))
          ((λ c, observed_status c (info (ObjectMeta_name (pod_metadata p)) c)) <$> cs) p
    | _, _ => p
    end
  else p.

(** The engines know the containers of the pods that are bound to the node. *)
Definition engines_know s (ps : list Pod) : Prop :=
  ∀ p, p ∈ ps → ps_node_name (pod_spec p) = Some (as_name s) →
  all_found (as_runtime s) (pod_key p).2 (info (pod_key p).2) (ps_containers (pod_spec p)).

(** What a pass over pods does not change in the agent. *)
Definition same_agent s s' : Prop :=
  as_name s' = as_name s ∧ as_server_url s' = as_server_url s ∧ as_runtime s' = as_runtime s ∧
  as_pod_cidr_prefix s' = as_pod_cidr_prefix s.

Lemma recorded_same pod uid i ips s cs :
  same_agent s (with_indexes (λ x, x) (λ x, x) (λ x, x) ips (recorded pod uid i s cs)).
Proof.
  enough (same_agent s (recorded pod uid i s cs)) as Hs by exact Hs.
  induction cs as [|c cs IH] using rev_ind; [done|]. unfold recorded. rewrite foldl_app. exact IH.
Qed.

Lemma reconcile_pod_stored p w v s :
  quiet → repo_wf Pod (w_db w) → plain_name (pod_key p).1 → plain_name (pod_key p).2 →
  as_server_url s = base → pods (w_db w) !! pod_key p = Some p →
  ps_node_name (pod_spec p) = Some (as_name s) → engines_know s [p] →
  ∃ r w' v' s', attempt_err (reconcile_pod p) ((w, v), s) = (Ok r, ((w', v'), s')) ∧
    pods (w_db w') = <[pod_key p := after_pass (as_pod_cidr_prefix s) (as_name s) p]> (pods (w_db w)) ∧
    repo_wf Pod (w_db w') ∧ (∃ t, w_db w' = set_pods t (w_db w)) ∧ same_agent s s'.
Proof.
  intros Hq Hwf Hns Hname Hurl Hp Hnode Hknow. unfold after_pass.
  rewrite bool_decide_eq_true_2 by done. unfold attempt_err.
  assert (∃ t, w_db w = set_pods t (w_db w)) as Hsame by (exists (db_pods (w_db w)); by destruct (w_db w)).
  destruct (om_uid (pod_metadata p)) as [uid|] eqn:Huid.
  2:{ eexists _, w, v, s. unfold reconcile_pod. rewrite Huid. rewrite insert_id by done.
      split; [reflexivity|]. done. }
  destruct (ps_containers (pod_spec p)) as [|c cs] eqn:Hcs.
  { eexists _, w, v, s. unfold reconcile_pod. rewrite Huid, Hcs. rewrite insert_id by done.
    split; [reflexivity|]. done. }
  destruct (reconcile_pod_found p uid (c :: cs) (info (pod_key p).2) (w, v) s)
    as (ips & start & E & _); [done|done|done| |].
  { rewrite <- Hcs. apply Hknow; [by left|done]. }
  rewrite E.
  edestruct (publish_reaches_store (pod_key p).1 (pod_key p).2) as (w' & v' & E1 & Hpods & Hwf' & Ht);
    [exact Hq|exact Hwf|done|done| |exact Hp|].
  { etrans; [apply (recorded_same p uid (info (pod_key p).2) ips)|exact Hurl]. }
  rewrite E1. eexists _, w', v', _. split; [reflexivity|]. split; [exact Hpods|].
  split; [done|]. split; [done|]. apply recorded_same.
Qed.

Lemma reconcile_pods_stored xs desired w v s :
  quiet → repo_wf Pod (w_db w) → as_server_url s = base → engines_know s xs →
  NoDup (pod_key <$> xs) →
  (∀ p, p ∈ xs → plain_name (pod_key p).1 ∧ plain_name (pod_key p).2 ∧
                 pods (w_db w) !! pod_key p = Some p) →
  ∃ d w' v' s', reconcile_pods (as_name s) desired xs ((w, v), s) = (Ok d, ((w', v'), s')) ∧
    (∀ k, pods (w_db w') !! k =
       if decide (k ∈ pod_key <$> xs)
       then after_pass (as_pod_cidr_prefix s) (as_name s) <$> pods (w_db w) !! k
       else pods (w_db w) !! k) ∧
    repo_wf Pod (w_db w') ∧ (∃ t, w_db w' = set_pods t (w_db w)) ∧ same_agent s s'.
Proof.
  intros Hq. revert desired w v s.
  induction xs as [|p xs IH]; intros desired w v s Hwf Hurl Hknow Hnd Hxs.
  { exists desired, w, v, s. split; [done|]. split; [done|]. split; [done|]. split; [|done].
    exists (db_pods (w_db w)). by destruct (w_db w). }
  csimpl in Hnd. apply NoDup_cons in Hnd as [Hp Hnd].
  destruct (Hxs p) as (Hns & Hname & Hget); [by left|].
  assert (∀ p', p' ∈ xs → pod_key p' ≠ pod_key p) as Hne.
  { intros p' Hp' E. apply Hp. rewrite <- E. by apply list_elem_of_fmap_2. }
  assert (engines_know s xs) as Hknow' by (intros p' Hp'; apply Hknow; by right).
  assert (∀ p', p' ∈ xs → plain_name (pod_key p').1 ∧ plain_name (pod_key p').2 ∧
            pods (w_db w) !! pod_key p' = Some p') as Hxs' by (intros p' Hp'; apply Hxs; by right).
  cbn [reconcile_pods]. case_bool_decide as Hnode.
  - destruct (reconcile_pod_stored p w v s) as (r & w1 & v1 & s1 & E & Hpods & Hwf1 & [t1 Ht1] & Hs1);
      [done..| |].
    { intros p' ->%list_elem_of_singleton. apply Hknow. by left. }
    pose proof Hs1 as (Hn1 & Hu1 & Hr1 & Hc1).
    destruct (IH ({[pod_key p]} ∪ desired) w1 v1 s1)
      as (d & w2 & v2 & s2 & E2 & Hpods2 & Hwf2 & [t2 Ht2] & Hs2); [done|congruence| |done| |].
    { intros p' Hp' Hnode'. rewrite Hr1. apply Hknow'; [done|congruence]. }
    { intros p' Hp'. rewrite Hpods, lookup_insert_ne by (symmetry; by apply Hne). by apply Hxs'. }
    exists d, w2, v2, s2. split; [|split; [|split; [done|split]]].
    + eapply bind_run; [exact E|]. by rewrite <- Hn1.
    + intros k. rewrite Hpods2, Hpods, Hn1, Hc1, fmap_cons.
      destruct (decide (k = pod_key p)) as [->|Hk].
      * rewrite decide_False by done. rewrite decide_True by by left. by rewrite lookup_insert_eq, Hget.
      * rewrite lookup_insert_ne by done. apply decide_ext. rewrite elem_of_cons. tauto.
    + exists t2. rewrite Ht2, Ht1. done.
    + destruct Hs2 as (Hn2 & Hu2 & Hr2 & Hc2). split; [congruence|]. split; [congruence|].
      split; congruence.
  - destruct (IH desired w v s) as (d & w2 & v2 & s2 & E2 & Hpods2 & Hwf2 & Ht2 & Hs2); [done..|].
    exists d, w2, v2, s2. split; [done|]. split; [|done].
    intros k. rewrite Hpods2, fmap_cons. destruct (decide (k = pod_key p)) as [->|Hk].
    + rewrite decide_False by done. rewrite decide_True by by left. rewrite Hget. cbn.
      unfold after_pass. by rewrite bool_decide_eq_false_2.
    + apply decide_ext. rewrite elem_of_cons. tauto.
Qed.

End pass.
