(* ===== verification/ConnectedRun.v ===== *)
(** * A cluster of one server and one node

    Instances of what the server and the agent of [Connected.v] take from
    outside, the witnesses of [ConnectedOk.v] and [ServeOk.v], and a run of the
    whole: a deployment from its creation to the status of its pod. *)
From S2P Require Import Prelude RustStd Text Json External Models Wire WireOk Error Bus World Repository RepositoryOk.
From S2P Require Import Scheduler Lease Controller Runtime Files Agent AgentHttp AgentOk Printers Routes Relay Api Replies UrlForm Serve Connected ClusterOk ConnectedOk.
From S2P Require Import Replication Startup Server Invariant Reachable.
From S2P Require Import Reference RefEnv Samples ContainerLogs Mock Image Bundle Network Embedded NodeSamples AgentSamples.

Local Open Scope Z_scope.

(** ** A cluster of one node *)

#[export] Instance ref_axum : Axum := {|
  ax_path_param s :=
    if utf8_valid (percent_decode (bytes s)) then Some (of_bytes (percent_decode (bytes s))) else None;
  ax_path_error _ := "Invalid URL: Invalid UTF-8";
  ax_query_error _ := "Failed to deserialize query string";
  ax_json_error b := (match json_parse b with Some _ => 422 | None => 400 end,
                      "Failed to deserialize the JSON body into the target type");
  ax_content_type_error := "Expected request with `Content-Type: application/json`" |}.
#[export] Instance ref_axum_ok : AxumOk.
Proof.
  split.
  - intros s Hs. unfold ax_path_param, ref_axum. rewrite percent_decode_plain by done.
    rewrite utf8_valid_ascii, of_bytes_bytes; [done|].
    apply forallb_forall. intros c Hc%list_elem_of_In. rewrite Forall_forall in Hs. apply Hs in Hc.
    by destruct c as [[] [] [] [] [] [] [] []].
  - intros b. cbn. destruct (ref_json_parse b); auto.
Qed.
#[export] Instance ref_url_plain_ok : UrlPlainOk.
Proof. intros k v Hk Hv. unfold urlencoded_pairs, ref_urlencoded. by rewrite form_read_plain. Qed.
#[export] Instance ref_transport : Transport := {|
  tr_refused url := "error sending request for url (" +:+ url +:+ ")";
  tr_endless := "operation timed out";
  tr_decode_error _ := "error decoding response body";
  tr_status_display z := pretty z |}.

Definition no_agents (_ : string) (_ : list (string * string)) : result string Response :=
  Err "connection refused".
Definition one_node : string := "http://127.0.0.1:6443".
Abbreviation served rq := (serve "10.96.0.0/12" "linux" "x86_64" no_agents rq).
#[local] Instance wire : HttpClient (World * Kernel) :=
  connected_http one_node "10.96.0.0/12" "linux" "x86_64" no_agents.

(** The agent of [node-1], with an engine. *)
Definition wired_agent (engine : ContainerdRuntime) : AgentState (World * Kernel) :=
  mk_AgentState "node-1" ∅ one_node
    (mk_Engines "mock" [mk_Engine "mock" ContainerdRuntime mock_runtime engine]) "10.244.0" ∅ ∅ ∅ ∅.


Lemma report_makes_node_ready_witness : ∃ w' v',
  register_node ((start, boot), wired_agent mock_with_web) =
    (Ok (), ((w', v'), wired_agent mock_with_web)) ∧
  "node-1" ∈ ready_names (w_db w').
Proof.
  destruct (report_makes_node_ready one_node "10.96.0.0/12" "linux" "x86_64" no_agents register_node
    start boot (wired_agent mock_with_web)) as (w' & v' & E & Hr & _).
  - by left.
  - exact ref_quiet.
  - apply map_Forall_empty.
  - reflexivity.
  - split; [done|by repeat constructor].
  - right. intros v0 (k & r & Hk & _)%uid_taken_spec. discriminate Hk.
  - exists w', v'. split; [exact E|exact Hr].
Defined.

(** ** A run of the whole *)

(** The deployment a client posts: two replicas of one container. *)
Definition posted : Deployment :=
  mk_Deployment (mk_TypeMeta None None)
    (mk_ObjectMeta (Some "web") None None None (Some app_labels) None None None)
    (mk_DeploymentSpec (Some (as_i32 2)) sample_selector
      (mk_PodTemplateSpec (pts_metadata sample_template) (pod_spec web_pod)) None None None false) None.

Abbreviation Cluster := (ST ((World * Kernel) * AgentState (World * Kernel)) Failure).
Definition on_server {A} (m : M string A) : Cluster A := λ '((w, v), s),
  let '(r, w') := m w in (map_err Failed r, ((w', v), s)).
Definition create_request : HttpRequest :=
  request_of Agent.POST "/apis/apps/v1/namespaces/default/deployments" (json_body posted).

(** The node registers, a client posts the deployment, the controllers and the
    scheduler run once, and the agent passes over its pods. *)
Definition deploy : Cluster Z :=
  register_node;;
  reply ← on_server (served create_request);
  lm ← on_server (LeaseManager_new Sqlite);
  on_server (controller_tick lm);;
  on_server (schedule_pending_pods LeastAllocated);;
  sync_pods;;
  mret (hr_status reply).

(** Node, phase and number of containers of every pod. *)
Definition pod_summary (p : Pod) : option string * option PodPhase * nat :=
  (ps_node_name (pod_spec p), pstat_phase <$> pod_status p,
   length (default [] (pod_status p ≫= pstat_container_statuses))).

(** The whole, evaluated: the reply is 201, and both pods of the deployment
    run on the node, as the node reported. *)
Example deploy_runs :
  let '(r, ((w, _), _)) := deploy ((start, boot), wired_agent (mk_ContainerdRuntime ∅ ∅)) in
  r = Ok 201 ∧
  pod_summary <$> (map_to_list (repo_view Pod (w_db w))).*2 =
    [(Some "node-1", Some PodPhase_Running, 1%nat); (Some "node-1", Some PodPhase_Running, 1%nat)].
Proof. vm_compute. split; reflexivity. Qed.

(** A process that answers the request on the migrated database. *)
Definition web_server : AppState := mk_AppState "10.96.0.0/12" (mk_LeaseManager "holder" Sqlite) LeastAllocated.
Lemma reachable_database_is_sound_witness : ∃ d,
  database_reaches "linux" "x86_64" no_agents migrated_db d ∧
  size (db_deployments d) = 1%nat ∧ repo_wf Deployment d.
Proof.
  set (run := perform "linux" "x86_64" no_agents web_server (Answer create_request)
    (mk_World migrated_db Bus_new 0 0 0, [])).
  assert (database_reaches "linux" "x86_64" no_agents migrated_db (w_db run.2.1)) as Hd.
  { apply rtc_once. destruct run as [r [w' notes']] eqn:E.
    exact (process_acts _ _ _ _ _ _ _ _ _ _ _ _ _ _ E). }
  exists (w_db run.2.1). split; [exact Hd|]. split; [vm_compute; reflexivity|].
  apply (reachable_database_is_sound "linux" "x86_64" no_agents _ Hd).
Defined.
