(* ===== verification/LogsOk.v ===== *)
(** * The logs of a pod, from the container to kubectl

    The request of [kubectl logs] through the API server, the agent of the
    pod's node and its embedded engine, to the text the client reads. *)
From S2P Require Import Prelude RustStd Text Json External Models Wire WireOk Error Bus World Repository RepositoryOk.
From S2P Require Import Runtime ContainerLogs Files Process Image Bundle Network Embedded.
From S2P Require Import Agent AgentHttp Routes Relay Api Replies UrlForm Serve Connected ClusterOk ConnectedOk AgentServe.
From S2P Require Import Reference RefEnv Samples Mock Network NodeSamples AgentSamples ConnectedRun.
From S2P Require Import Lease Server Invariant Reachable.

Local Open Scope Z_scope.

(** ** Numbers in a query *)

Lemma parse_i64_pretty_Z (z : Z) :
  -9223372036854775808 <= z <= 9223372036854775807 → parse_i64 (pretty z) = Some z.
Proof.
  intros Hz. destruct z as [|p|p].
  - done.
  - change (pretty (Z.pos p)) with (pretty (N.pos p)). by rewrite parse_i64_pretty by lia.
  - change (pretty (Z.neg p)) with ("-" +:+ pretty (N.pos p)).
    destruct (pretty_N_spec (N.pos p)) as (Hv & _ & d & l & _ & E).
    unfold parse_i64. rewrite bytes_app. change (bytes "-") with ["-"%char]. cbn [app].
    change (Ascii.eqb "-" "-") with true. cbv beta iota zeta. rewrite Hv, E. cbn [Z.of_N Z.opp].
    destruct (Z.leb_spec (-9223372036854775808) (- Z.pos p)); [|lia].
    by destruct (Z.leb_spec (- Z.pos p) 9223372036854775807); [|lia].
Qed.
Lemma query_i64_pretty (n : i64) : query_i64 (pretty (val n)) = Some n.
Proof.
  unfold query_i64. pose proof (val_range n). rewrite parse_i64_pretty_Z by lia. cbn.
  apply checked_val.
Qed.

(** ** The query the server writes is the one the agent reads *)

Definition query_of (params : LogParams) : LogQueryParams :=
  mk_LogQueryParams (lp_tail_lines params) (lp_timestamps params) (lp_follow params)
    (lp_since_seconds params) (lp_limit_bytes params).
Lemma log_query_read params : LogQueryParams_of (log_query params) = Some (query_of params).
Proof.
  destruct params as [c follow previous tail stamps since limit].
  unfold log_query, query_of. cbn [lp_tail_lines lp_timestamps lp_previous lp_since_seconds lp_limit_bytes lp_follow].
  assert (∀ o : option i64, match o with Some n => ∃ s, pretty (val n) = s ∧ query_i64 s = Some n | None => True end)
    as Hread by (intros [n|]; [eexists; split; [done|apply query_i64_pretty]|done]).
  pose proof (Hread tail) as Ht. pose proof (Hread since) as Hs. pose proof (Hread limit) as Hl. clear Hread.
  destruct tail as [n|]; [destruct Ht as (t & -> & Ht)|];
    (destruct since as [m|]; [destruct Hs as (u & -> & Hs)|]);
    (destruct limit as [o|]; [destruct Hl as (v & -> & Hl)|]);
    destruct stamps, previous, follow; lazy -[query_i64]; rewrite ?Ht, ?Hs, ?Hl; reflexivity.
Qed.

Lemma append_assoc s t u : s +:+ (t +:+ u) = (s +:+ t) +:+ u.
Proof. induction s as [|c s IH]; [done|]. exact (f_equal (String c) IH). Qed.

Lemma log_url_split addr ns pod container :
  log_url addr ns pod container =
    ("http://" +:+ addr +:+ ":" +:+ pretty NODE_AGENT_PORT) +:+ log_path ns pod container.
Proof. unfold log_url. change (pretty NODE_AGENT_PORT) with "10250". by rewrite <- !append_assoc. Qed.

(** ** On the node *)

Section node.
Context {W : Type} `{Extern, !Unicode, !HashOrder, Machine W, !LogClock, !OciCrates, !SpecText}.
Context `{Files W, !Registry W, Netlink W, LinuxHost W, Posix W, !ErrnoText}.
Context `{!UrlEncoded, !UrlEmptyOk, !UrlEncode, !UrlEncodeOk, AxumOk}.

(** The instant that [--since] means to the agent; [None] if it panics. *)
Definition log_since (v : W) (secs : option i64) : option (option DateTime) :=
  match secs with Some n => Some <$> since_time (m_now v).1 n | None => Some None end.
Definition log_options_of (params : LogParams) (since : option DateTime) : LogOptions :=
  mk_LogOptions (lp_tail_lines params) (lp_timestamps params) since (lp_limit_bytes params).

(** The embedded engine holds a container of the pod under an id that leads to
    it, with a log. *)
Definition logged (s : AgentState W) (ns pod container : string) (log : ContainerLog) : Prop :=
  ∃ id er entry,
    as_pod_containers s !! (ns, pod, container) = Some id ∧
    by_id (as_runtime s) id = Ok (mk_Engine "embedded" EmbeddedRuntime embedded_runtime er) ∧
    er_containers er !! id = Some entry ∧ ce_log entry = log.

Lemma run_handle_logs (s : AgentState W) ns pod container log params since v :
  logged s ns pod container log → lp_follow params = false → log_since v (lp_since_seconds params) = Some since →
  (handle_logs s ns pod container (query_of params) v).1 =
    Ok (AgentHttp.Static 200 (of_bytes (render log (log_options_of params since)))).
Proof.
  intros (id & er & entry & Hk & Hr & Hf & Hl) Hfollow Hsince. unfold handle_logs, query_of. cbn [lq_follow].
  rewrite Hfollow. unfold find_log_container. rewrite Hk.
  assert (∃ v', log_options (mk_LogQueryParams (lp_tail_lines params) (lp_timestamps params) false
    (lp_since_seconds params) (lp_limit_bytes params)) v = (Ok (log_options_of params since), v')) as (v' & E).
  { unfold log_options, log_since in *. cbn [lq_since_seconds]. destruct (lp_since_seconds params) as [n|].
    - unfold Utc_now, mbind, st_bind. destruct (m_now v) as [t v1]. cbn in Hsince.
      destruct (since_time t n) as [u|]; [|done]. injection Hsince as <-. by eexists.
    - injection Hsince as <-. by eexists. }
  erewrite bind_ok by exact E.
  assert (rt_get_logs (as_runtime s) id (log_options_of params since) v' =
          (Ok (of_bytes (render log (log_options_of params since))), v')) as E2.
  { cbn [rt_get_logs engines_runtime]. unfold routed. rewrite Hr.
    unfold engine_read, of_result, mbind, st_bind. cbn [en_runtime en_state en_S rt_get_logs embedded_runtime].
    unfold embedded_get_logs, log_of. rewrite Hf. cbn. by rewrite Hl. }
  unfold attempt_err, mbind, st_bind. by rewrite E2.
Qed.

Lemma agent_path_plain a b c (k : string → string → string → ST W Failure AgentReply) :
  plain_name a → plain_name b → plain_name c → agent_path [a; b; c] k = k a b c.
Proof. intros [_ Ha] [_ Hb] [_ Hc]. unfold agent_path. by rewrite !ax_path_plain. Qed.

Lemma agent_sends_logs (s : AgentState W) addr ns pod container log params since v closed polled :
  plain_name ns → plain_name pod → plain_name container →
  logged s ns pod container log → lp_follow params = false → log_since v (lp_since_seconds params) = Some since →
  agent_send addr s v closed polled (log_url addr ns pod container) (log_query params) =
    Ok (mk_Response 200 (Ok (of_bytes (render log (log_options_of params since))))).
Proof.
  intros Hns Hpod Hc Hlog Hfollow Hsince. unfold agent_send. rewrite log_url_split, strip_prefix_app.
  assert (∃ rq, get_request (log_path ns pod container) (log_query params) = Ok rq ∧
    rq_method rq = GET ∧ rq_path rq = log_path ns pod container ∧
    urlencoded_pairs (default "" (rq_query rq)) ≫= LogQueryParams_of = Some (query_of params)) as (rq & -> & Hm & Hp & Hq).
  { unfold get_request. pose proof (urlencoded_round (log_query params)) as Hround.
    pose proof (log_query_read params) as Hread. destruct (log_query params) as [|kv pairs] eqn:E.
    - eexists. split; [reflexivity|]. split; [done|]. split; [done|]. cbn [rq_query default].
      by rewrite urlencoded_empty.
    - destruct (urlencoded_string (kv :: pairs)) as [q|]; [|done]. cbn in Hround.
      eexists. split; [reflexivity|]. split; [done|]. split; [done|]. cbn [rq_query].
      change (default "" (Some q)) with q. by rewrite Hround. }
  change (Ok rq ≫= ?k) with (k rq). cbv beta. unfold agent_serve. rewrite Hm, Hp.
  assert (dispatch_in agent_routes GET (path_segments (log_path ns pod container)) =
    Handled "handle_logs" [ns; pod; container]) as ->.
  { pose proof (plain_ok_param ns Hns). pose proof (plain_ok_param pod Hpod).
    pose proof (plain_ok_param container Hc).
    change (dispatch_in agent_routes GET ?p) with (dispatch_in agent_routes GET p).
    routed agent_routes_ok "/logs/:namespace/:pod/:container" [(GET, "handle_logs")] [ns; pod; container]. }
  unfold agent_handler. change (str_eqb "handle_logs" "handle_logs") with true. cbv beta iota.
  rewrite agent_path_plain by done. unfold agent_query. rewrite Hq.
  pose proof (run_handle_logs s ns pod container log params since v Hlog Hfollow Hsince) as Hrun.
  unfold mbind, st_bind. destruct (handle_logs s ns pod container (query_of params) v) as [r v'].
  cbn in Hrun. by subst r.
Qed.
End node.

(** ** On the server, and together *)

Section together.
Context `{ExternOk, EnvOk, !HashOrder, !Unicode, !UrlEncoded, !UrlEmptyOk, !UrlEncode, !UrlEncodeOk, AxumOk}.
Context {W : Type} `{!Machine W, !LogClock, !LogClockOk, !OciCrates, !SpecText}.
Context `{!Files W, !Registry W, !Netlink W, !LinuxHost W, !Posix W, !ErrnoText}.
Context (service_cidr os arch : string).

(** Where the logs of a pod are: the container that is meant and the address
    of its node. *)
Definition log_source (d : Db) (ns name : string) (params : LogParams) (container addr : string) : Prop :=
  ∃ p node n,
    repo_view Pod d !! (ns, name) = Some p ∧ choose_container (lp_container params) p = Ok container ∧
    ps_node_name (pod_spec p) = Some node ∧ repo_view Node d !! node = Some n ∧
    node_internal_ip n = Some addr.

Lemma run_get_pod_logs ns name params container addr send response (w : World) :
  quiet → repo_wf Pod (w_db w) → repo_wf Node (w_db w) → log_source (w_db w) ns name params container addr →
  send (log_url addr ns name container) (log_query params) = Ok response →
  is_success response = true → lp_follow params = false → is_ok (resp_body response) = true →
  ∃ w', get_pod_logs ns name params send w = (Ok (plain_text (resp_text response)), w') ∧ w_db w' = w_db w.
Proof.
  intros Hq Hwfp Hwfn (p & node & n & Hp & Hc & Hnode & Hn & Haddr) Hsend Hs Hf Hb.
  pose proof (repo_get_spec (T:=Pod) (ns, name) w Hq Hwfp) as Hget. rewrite Hp in Hget. cbn in Hget.
  pose proof (repo_get_spec (T:=Node) node (count_stmt w) Hq Hwfn) as Hgetn.
  change (w_db (count_stmt w)) with (w_db w) in Hgetn. rewrite Hn in Hgetn. cbn in Hgetn.
  exists (count_stmt (count_stmt w)). split; [|done]. unfold get_pod_logs.
  rewrite (bind_ok _ _ _ _ _ Hget), Hc, Hnode.
  unfold attempt, mbind, st_bind. rewrite Hgetn, Haddr, Hsend.
  unfold log_reply. rewrite Hs, Hf. cbn. by destruct (resp_body response).
Qed.

Definition pod_log_path (ns name : string) : string :=
  "/api/v1/namespaces/" +:+ ns +:+ "/pods/" +:+ name +:+ "/log".

End together.

(** ** On a cluster of one node *)

#[export] Instance ref_url_empty_ok : UrlEmptyOk.
Proof. reflexivity. Qed.

Definition posted_node : Node :=
  mk_Node (mk_TypeMeta None None) (mk_ObjectMeta (Some "node-1") None None None None None None None) None
    (Some (mk_NodeStatus None None None (Some [mk_NodeAddress NodeAddressType_InternalIP "192.168.1.5"])
             None None NodePhase_default)).
Definition posted_pod : Pod :=
  Pod_with_metadata (mk_ObjectMeta (Some "web") None None None None None None None) AgentOk.web_pod.
(** The migrated database after a client created the node and the pod. *)
Definition answered (rq : HttpRequest) : ST (World * list (string * string)) string () :=
  perform "linux" "x86_64" no_agents web_server (Answer rq).
Definition one_pod_server : World :=
  ((answered (request_of Agent.POST "/api/v1/nodes" (json_body posted_node));;
    answered (request_of Agent.POST "/api/v1/namespaces/default/pods" (json_body posted_pod)))
    (mk_World migrated_db Bus_new 0 0 0, [])).2.1.

Definition web_log : ContainerLog := append_all sample_entries ContainerLog_create.
Definition logging_engine : EmbeddedRuntime :=
  with_containers (insert (container_id "web-web")
    (mk_ContainerEntry "web-web" (sample_time 1) "nginx" None 100 (as_i32 0) None web_log))
    (EmbeddedRuntime_new None).
Definition logging_agent : AgentState Kernel :=
  agent_with [embedded_engine logging_engine] {[("default", "web", "web") := container_id "web-web"]}.
Definition log_request : HttpRequest :=
  request_of Agent.GET (pod_log_path "default" "web" +:+ "?container=web&tailLines=2&limitBytes=7") None.
Definition sample_params : LogParams :=
  mk_LogParams (Some "web") false false (checked 2) false None (checked 7).

Lemma one_pod_server_inv : db_inv (w_db one_pod_server).
Proof.
  assert (keeps guards_notes
    (answered (request_of Agent.POST "/api/v1/nodes" (json_body posted_node));;
     answered (request_of Agent.POST "/api/v1/namespaces/default/pods" (json_body posted_pod)))) as Hk.
  { apply keeps_bind; [|intros _]; apply kept_perform. }
  apply (Hk (mk_World migrated_db Bus_new 0 0 0, [])), migrated_inv.
Qed.
Lemma log_source_if (d : Db) ns name params container addr :
  match repo_view Pod d !! (ns, name) with
  | Some p =>
      choose_container (lp_container params) p = Ok container ∧
      match ps_node_name (pod_spec p) with
      | Some node => (repo_view Node d !! node ≫= node_internal_ip) = Some addr
      | None => False
      end
  | None => False
  end →
  log_source d ns name params container addr.
Proof.
  unfold log_source. destruct (repo_view Pod d !! (ns, name)) as [p|]; [|done]. intros [Hc Hn].
  destruct (ps_node_name (pod_spec p)) as [node|] eqn:En; [|done].
  apply bind_Some in Hn as (n & Hn & Haddr). by exists p, node, n.
Qed.
Lemma one_pod_server_source :
  log_source (w_db one_pod_server) "default" "web" sample_params "web" "192.168.1.5".
Proof. apply log_source_if. vm_compute. split; reflexivity. Qed.

